(* ===== verification/_CoqProject ===== *)
-Q . S2P
Prelude.v
GoLib.v
Json.v
Sdk.v
RefEnv.v
FeesTypes.v
TokenTypes.v
OsmoTypes.v
ShellTypes.v
World.v
RefWorld.v
Interfaces.v
Oracle.v
FeesKeeper.v
FeesSpec.v
FeesCharge.v
FeeCalculator.v
FeesAnte.v
TokenKeeper.v
TokenSpec.v
TokenQuery.v
Treasury.v
OsmosisIcq.v
Base64.v
IbcTypes.v
IcqController.v
IcqPrice.v
Pricefeed.v
Modules.v
Wiring.v
App.v
Frames.v
Chain.v
AntePay.v
Admit.v
ZeroHeight.v
Paths.v
Testnet.v
InPlace.v
Depinject.v
Startup.v
Services.v
Commands.v
