(* ===== verification/Prelude.v ===== *)
(** * A verification development for the cosvian chain

    cosvian is a Cosmos SDK chain whose fees are dollar amounts.  This library models
    its own modules ([src/x]), the part of the application that puts them together
    ([src/app]) and the commands with logic of their own ([src/cmd]), and proves what they
    promise.

    ** The program and the files that model it

    A transaction meets the ante handlers first.  [FeesAnte.v] models
    [x/fees/keeper/ante_handler.go]: one decorator compares the fee with the
    calculator's estimate, the next one takes it from the payer and distributes it.
    [FeeCalculator.v] models [fee_calculator.go]: the messages inside authz messages,
    the category of a transaction, its fee in dollars and CSV within the guard rails.
    [FeesKeeper.v] models the keeper of x/fees: dollars to CSV through the oracle with
    a fallback price, and the distribution of a fee over recipients.  The parameters
    all of it reads are in [FeesTypes.v].  What x/fees promises is in [FeesCharge.v]
    (prices, [ChargeFee], [UpdateParams]) and [FeesSpec.v] (distribution).

    The price comes from x/oracle ([Oracle.v]).  Two modules write it.  x/osmosisicq
    ([OsmosisIcq.v], parameters in [OsmoTypes.v]) asks Osmosis in its begin blocker,
    through the client x/icqcontroller provides ([IcqController.v]), which sends a
    packet, remembers it, and is to hand the acknowledgement's value back; [IcqPrice.v]
    composes the two with the oracle and shows that no value comes.  x/pricefeed
    ([Pricefeed.v]) asks Band Protocol and inverts the answer.  What both use of IBC is in
    [IbcTypes.v].

    x/token ([TokenTypes.v], [TokenKeeper.v], [TokenQuery.v]) keeps the metadata of
    created tokens in a raw key-value store under five kinds of keys; what it promises is
    in [TokenSpec.v].  x/treasury, x/registry, x/conversionpool and x/cosvian are in
    [Treasury.v], their parameters in [ShellTypes.v].  [Modules.v] models the
    [module.go] and [depinject.go] of all ten modules and the start of a chain from a
    genesis; [App.v] the decorators of [app/ante.go], the handler [app.go] installs,
    module accounts and genesis accounts; [AntePay.v] and [Admit.v] the whole handler with
    the bank.
    [ZeroHeight.v] models [app/export.go], with the SDK's staking keepers as a class.

    [Wiring.v] has the lists of [app_config.go] by which the module manager calls the
    modules, and the routes of [ibc.go]; [Depinject.v] what the providers of the modules
    ask for and give; [Startup.v] is [New] itself with [registerIBCModules] and
    [registerWasmModules].  [Chain.v] puts blocks, ante handlers, messages
    and IBC callbacks together as the steps of a state machine; [Frames.v] says of every
    handler what parts of the state it may change.

    [Testnet.v] models [testnet_multi_node.go], the command that writes the files of a
    network, over the names and the disk of [Paths.v] ([path/filepath] and [os]);
    [InPlace.v] models [testnet.go], which replaces the validators of a chain;
    [Services.v] what the modules register for the command line, the services and
    simulations; [Commands.v] the export command, the queries added by hand and the commands of
    x/pricefeed.

    Under all of them: this file (errors, outcomes, computations over a store),
    [GoLib.v], [Json.v] and [Base64.v] (what the code uses of Go and its standard
    library), [Sdk.v] (code outside the repository, as classes of operations and
    laws), [World.v] (the state), [Interfaces.v] (what modules promise one another)
    and [RefEnv.v], [RefWorld.v] (concrete instances).

    ** Conventions

    A method of a keeper is a computation [stM (World E) A]: it maps the state of the
    chain to a state and an outcome, a value, an error or a panic.  As in Go, writes
    made before an error stay; rolling them back is baseapp's work.  Names are those of
    the code, except where one Go name has several meanings in a file; [attempt],
    [ignore_err] and [wrap_err] are the three ways the code treats an [err].  Machine
    integers are [Z] with the conversions [u64], [i64] and the like written out;
    a [LegacyDec] is the option of its value times 10^18, [None] being nil.  Its operations
    and those of [sdk.Int] belong to [Sdk.v]; beyond the limits of the environment, which
    are at least 2^255, they panic.

    A module that calls another is verified against a class of [Interfaces.v]:
    [OracleKeeper], [FeesKeeper], [ICQClient], [KVResultConsumer].  The callee's file
    proves the laws ([Oracle.oracle_keeper_laws], [IcqController.icqClientAdapter_laws],
    [IcqPrice.kvConsumerAdapter_laws]).  Everything outside the repository (bank, auth,
    IBC, decimals, collections, protobuf and JSON of generated types) is in [Env] with
    the laws [EnvLaws]; [RefEnv.ref_env_laws] proves them for a concrete environment,
    in which the witness that follows every theorem with hypotheses is evaluated.

    ** What the theorems show

    - Fees: [DistributeFee] and [DistributeFeeFromModule] carry out a plan that loses
      at most three units to rounding ([FeesSpec]); the ante decorator, by fee mode and
      category, admits the transactions whose fee is within five percent of the estimate,
      or those exempt from one, and the second decorator charges the right account and
      splits what it took ([FeesAnte]); the calculator's category, estimate and
      tolerance, with what a gas limit beyond int64 does to them ([FeeCalculator]);
      exactly which parameters are valid ([FeesTypes]).
    - Tokens: the store refines a list of tokens with distinct identifiers and symbols,
      in every state that the messages reach; creation, minting and burning; the
      queries return the registry in key order ([TokenSpec], [TokenQuery]).
    - Prices: [SetPrice] and what is read back ([Oracle]); when queries are scheduled
      and what an answer must satisfy ([OsmosisIcq]); that every query is recorded under
      its sequence number, answered at most once and always closed ([IcqController]);
      that the price a begin blocker asks for never arrives, because the acknowledgement
      is read with [encoding/json], which cannot fill its oneof ([IcqPrice]);
      answers of Band Protocol and the packet handlers ([Pricefeed]).
    - The application: a genesis that is read is exported again, the default genesis is
      valid ([Modules]); the lists of [app_config.go] name known modules, each at most
      once, and every port has a route ([Wiring]); every module but x/osmosisicq, whose
      provider a second registration displaces, is built, with one supplier for each of its
      inputs ([Depinject]); the other files treat x/osmosisicq as [app_config.go] means it,
      as a module of the application;
      [New] sets everything before it is used, and panics exactly when a call of a library
      fails or a constructor of a keeper, module or stack panics ([Startup]);
      a transaction that is admitted has paid what the estimate asks for ([AntePay]), and
      one whose payer can pay comes to the chain ([Admit]); what
      replaces the verification of signatures ([App]); what an export for height zero
      resets ([ZeroHeight]).
    - The chain, for every run of its state machine: parameters stay valid and change by
      governance only, the registry of tokens only grows, nothing makes native coins
      ([Chain]).
    - The commands: the files of a network, their ports and copies, and the supply of its
      genesis ([Testnet]); the validators and balances of a network in place, and that it
      does not start without accounts to fund ([InPlace]); that the descriptions of the
      commands fit the services ([Services]).

    ** Bounds and fuel

    Two functions have a bound that is not structural.  [FeeCalculator.expandMessages]
    recurses on the depth the code passes, the constant 4, and returns what is left at
    depth 0, as the code does.  [Json.json_parse] runs on fuel, one more than twice the
    length of the text; [Json.json_parse_fuel] proves that this is always enough.  The
    trims and widths of [GoLib.v] and [RefEnv.v] recurse on the length of their input.
    That a client which follows the pages of [AllTokens] by their offsets comes to an end
    is [TokenQuery.pages_end].

    ** Not modelled

    - log lines, telemetry and the exact wording of wrapped errors;
    - gas metering inside the stores: keepers do not look at it;
    - code generated by protoc and its gateways ([*.pb.go], [*.pb.gw.go], [src/cosvian],
      [src/proto]), except for the message types, where the code reads them;
    - the calls by which services, codecs and gateways are registered; what is registered
      is in [Services.v];
    - what the container of dependency injection does with the providers, and what the
      constructors of IBC's and x/wasm's keepers build; [Startup.v] looks at the order in
      which [New] calls them and at their panics;
    - the SDK's module manager, which calls the modules in the order of the lists in
      [Wiring.v];
    - the tree of the SDK's commands, the default configuration and the client context in
      [src/cmd]; baseapp itself, of which [Chain.v] uses that it keeps the writes of a step
      that succeeds and drops those of the others;
    - symbolic links: [Paths.v] compares names lexically.

    ** Plan

    The logic of the modules is modelled.  What could follow: a block of several
    transactions as a liveness property, from [Admit.payer_admitted]; the composition of the
    test network with the start of the chain from its genesis. *)

From stdpp Require Export base tactics option list strings pretty gmap.
From Stdlib Require Export ZArith Lia.

#[export] Set Default Goal Selector "!".
#[export] Set Warnings "-clear-no-such-hyp".

(** ** Errors

    A Go [error] is kept as the sentinel or text it was built from and the
    descriptions it was wrapped in; formatted arguments are not kept. *)
Inductive error : Type :=
| ErrReg (codespace : string) (code : Z)
    (* a sentinel of [errors.Register] *)
| ErrSdk (name : string)
    (* a sentinel of the SDK, by its Go name *)
| ErrText (text : string)
    (* [errors.New] and [fmt.Errorf] *)
| ErrWrap (e : error) (text : string)
    (* [errorsmod.Wrap], [Wrapf] and [%w] around an error *)
| ErrExt (text : string).
    (* an error returned by code outside the repository *)

#[export] Instance error_eq_dec : EqDecision error.
Proof. solve_decision. Defined.

(** [errors.Is] follows the chain of wrapped errors to the root. *)
Fixpoint err_root (e : error) : error :=
  match e with
  | ErrWrap e' _ => err_root e'
  | _ => e
  end.

Definition errors_Is (e target : error) : bool :=
  bool_decide (err_root e = target).

(** ** Outcomes

    A Go call returns a value, returns an error, or panics. *)
Inductive res (A : Type) : Type :=
| Ok (a : A)
| Err (e : error)
| Panic (why : string).
Arguments Ok {A} a.
Arguments Err {A} e.
Arguments Panic {A} why.

#[export] Instance res_ret : MRet res := λ A a, Ok a.
#[export] Instance res_bind : MBind res := λ A B k r,
  match r with
  | Ok a => k a
  | Err e => Err e
  | Panic p => Panic p
  end.

Definition is_ok {A} (r : res A) : bool :=
  match r with Ok _ => true | _ => false end.

Definition res_of_option {A} (e : error) (o : option A) : res A :=
  match o with Some a => Ok a | None => Err e end.

(** ** Computations over a store

    [stM S A]: a state transformer whose outcome is a [res].  As in Go the
    writes made before an error or a panic stay in the state; undoing them is
    the business of the caller, which is baseapp's. *)
Definition stM (S A : Type) : Type := S → S * res A.

#[export] Instance stM_ret {S} : MRet (stM S) := λ A a s, (s, Ok a).
#[export] Instance stM_bind {S} : MBind (stM S) := λ A B k m s,
  match m s with
  | (s', Ok a) => k a s'
  | (s', Err e) => (s', Err e)
  | (s', Panic p) => (s', Panic p)
  end.

Section Operations.
Context {S : Type}.

Definition lift {A} (r : res A) : stM S A := λ s, (s, r).
Definition throw {A} (e : error) : stM S A := λ s, (s, Err e).
Definition panic {A} (why : string) : stM S A := λ s, (s, Panic why).
Definition gets {A} (f : S → A) : stM S A := λ s, (s, Ok (f s)).
Definition modify (f : S → S) : stM S unit := λ s, (f s, Ok tt).

(** [attempt m]: the pair [(value, err)] of a Go call whose error is
    inspected by the caller; a panic is not caught. *)
Definition attempt {A} (m : stM S A) : stM S (A + error) := λ s,
  match m s with
  | (s', Ok a) => (s', Ok (inl a))
  | (s', Err e) => (s', Ok (inr e))
  | (s', Panic p) => (s', Panic p)
  end.

(** [ignore_err m] is the Go statement [_ = m]. *)
Definition ignore_err {A} (m : stM S A) : stM S unit :=
  _ ← attempt m; mret tt.

(** [wrap_err m d]: [if err := m; err != nil { return Wrap(err, d) }]. *)
Definition wrap_err {A} (m : stM S A) (d : string) : stM S A := λ s,
  match m s with
  | (s', Err e) => (s', Err (ErrWrap e d))
  | o => o
  end.

(** [err] replaced by [sentinel.Wrapf("...: %v", err)]. *)
Definition replace_err {A} (m : stM S A) (sentinel : error) (text : string) : stM S A :=
  r ← attempt m;
  match r with
  | inl a => mret a
  | inr _ => throw (ErrWrap sentinel text)
  end.

(** An error that is turned into a panic: [if err != nil { panic(err) }]. *)
Definition must {A} (r : stM S A) (text : string) : stM S A :=
  a ← attempt r;
  match a with inl a => mret a | inr _ => panic text end.

(** A [for _, x := range l] loop whose body may return an error. *)
Fixpoint for_each {A} (l : list A) (body : A → stM S unit) : stM S unit :=
  match l with
  | [] => mret tt
  | x :: l' => body x;; for_each l' body
  end.
End Operations.

(** A computation on one part of the state. *)
Definition zoom {S T A} (get : T → S) (set : S → T → T) (m : stM S A) : stM T A := λ t,
  let '(s, r) := m (get t) in (set s t, r).

(** ** Inversion and evaluation lemmas *)
Section Laws.
Context {S : Type}.
Implicit Types s : S.

Lemma bind_ok_inv {A B} (m : stM S A) (k : A → stM S B) s s' b :
  (m ≫= k) s = (s', Ok b) →
  ∃ a s1, m s = (s1, Ok a) ∧ k a s1 = (s', Ok b).
Proof.
  unfold mbind, stM_bind. destruct (m s) as [s1 [a|e|p]]; intros H; try done.
  by exists a, s1.
Qed.

Lemma bind_run {A B} (m : stM S A) (k : A → stM S B) s s1 a :
  m s = (s1, Ok a) → (m ≫= k) s = k a s1.
Proof. unfold mbind, stM_bind. by intros ->. Qed.

Lemma bind_run_err {A B} (m : stM S A) (k : A → stM S B) s s1 e :
  m s = (s1, Err e) → (m ≫= k) s = (s1, Err e).
Proof. unfold mbind, stM_bind. by intros ->. Qed.

Lemma bind_run_panic {A B} (m : stM S A) (k : A → stM S B) s s1 p :
  m s = (s1, Panic p) → (m ≫= k) s = (s1, Panic p).
Proof. unfold mbind, stM_bind. by intros ->. Qed.

Lemma bind_ext_ok {A B} (m : stM S A) (k k' : A → stM S B) s :
  (∀ a s1, m s = (s1, Ok a) → k a s1 = k' a s1) → (m ≫= k) s = (m ≫= k') s.
Proof.
  unfold mbind, stM_bind. destruct (m s) as [s1 [a|e|p]]; intros H; try done. by apply H.
Qed.

Lemma bind_err_inv {A B} (m : stM S A) (k : A → stM S B) s s' e :
  (m ≫= k) s = (s', Err e) →
  m s = (s', Err e) ∨ ∃ a s1, m s = (s1, Ok a) ∧ k a s1 = (s', Err e).
Proof.
  unfold mbind, stM_bind. destruct (m s) as [s1 [a|e'|p]]; intros H; [| |done].
  - right. by exists a, s1.
  - left. by injection H as <- <-.
Qed.

Lemma bind_assoc {A B C} (m : stM S A) (k : A → stM S B) (h : B → stM S C) s :
  ((m ≫= k) ≫= h) s = (m ≫= (λ a, k a ≫= h)) s.
Proof. unfold mbind, stM_bind. by destruct (m s) as [s1 [a|e|p]]. Qed.

Lemma lift_ok_inv {A} (r : res A) s s' a :
  lift r s = (s', Ok a) → s' = s ∧ r = Ok a.
Proof. unfold lift. by intros [= -> ->]. Qed.

Lemma ret_inv {A} (a b : A) s s' :
  (mret a : stM S A) s = (s', Ok b) → s' = s ∧ b = a.
Proof. by intros [= -> ->]. Qed.

Lemma gets_inv {A} (f : S → A) s s' a :
  gets f s = (s', Ok a) → s' = s ∧ a = f s.
Proof. by intros [= -> ->]. Qed.

Lemma modify_inv (f : S → S) s s' u :
  modify f s = (s', Ok u) → s' = f s.
Proof. by intros [= -> _]. Qed.

Lemma attempt_inv {A} (m : stM S A) s s' r :
  attempt m s = (s', Ok r) →
  match r with
  | inl a => m s = (s', Ok a)
  | inr e => m s = (s', Err e)
  end.
Proof.
  unfold attempt. destruct (m s) as [s1 [a|e|p]]; intros H; try done;
    by injection H as <- <-.
Qed.

Lemma wrap_err_ok_inv {A} (m : stM S A) d s s' a :
  wrap_err m d s = (s', Ok a) → m s = (s', Ok a).
Proof. unfold wrap_err. by destruct (m s) as [s1 [b|e|p]]. Qed.

Lemma replace_err_inv {A} (m : stM S A) e t s s' a :
  replace_err m e t s = (s', Ok a) → m s = (s', Ok a).
Proof.
  unfold replace_err, attempt, mbind, stM_bind.
  destruct (m s) as [s1 [x|e'|p]]; simpl; by intros [= -> ->].
Qed.

Lemma replace_err_root {A} (m : stM S A) e t s s' e' :
  replace_err m e t s = (s', Err e') → err_root e' = err_root e.
Proof.
  unfold replace_err, attempt, mbind, stM_bind.
  destruct (m s) as [s1 [x|x|p]]; simpl; intros [= _ <-]; done.
Qed.

Lemma run_pair {A} (m : stM S A) s r : (m s).2 = r → m s = ((m s).1, r).
Proof. destruct (m s) as [s' r']. by intros <-. Qed.

Lemma must_ok_inv {A} (m : stM S A) t s s' a :
  must m t s = (s', Ok a) → m s = (s', Ok a).
Proof.
  unfold must, attempt, mbind, stM_bind.
  destruct (m s) as [s1 [x|e|p]]; simpl; by intros [= -> ->].
Qed.

Lemma ignore_err_inv {A} (m : stM S A) s s' u :
  ignore_err m s = (s', Ok u) → (m s).1 = s'.
Proof.
  unfold ignore_err, attempt, mbind, stM_bind.
  destruct (m s) as [s1 [a|e|p]]; simpl; by intros [= -> _].
Qed.
End Laws.

Lemma zoom_inv {S T A} (get : T → S) (set : S → T → T) (m : stM S A) t t' r :
  zoom get set m t = (t', r) → ∃ s, m (get t) = (s, r) ∧ t' = set s t.
Proof. unfold zoom. destruct (m (get t)) as [s r']. intros [= <- <-]. by exists s. Qed.

(** ** Sequences of computations *)
Section Sequences.
Context {S : Type}.

Lemma bind_cong {A B} (m m' : stM S A) (k k' : A → stM S B) s :
  m s = m' s → (∀ a s1, k a s1 = k' a s1) → (m ≫= k) s = (m' ≫= k') s.
Proof. unfold mbind, stM_bind. intros -> H. by destruct (m' s) as [s1 [a|e|p]]. Qed.
Lemma for_each_app {A} (l l' : list A) (body : A → stM S unit) s :
  for_each (l ++ l') body s = (for_each l body;; for_each l' body) s.
Proof.
  revert s. induction l as [|x l IH]; intros s; cbn [app for_each]; [done|].
  rewrite bind_assoc. by apply bind_cong.
Qed.
End Sequences.

(** ** What a computation may change

    [respects R m]: whatever the outcome of [m], the state before and the state after
    are related by [R].  The relation says which parts of the state are left alone. *)
Definition respects {S A} (R : S → S → Prop) (m : stM S A) : Prop := ∀ s, R s (m s).1.

Section Respects.
Context {S : Type} (R : S → S → Prop) `{!PreOrder R}.

Lemma respects_pure {A} (m : stM S A) : (∀ s, (m s).1 = s) → respects R m.
Proof. intros H s. by rewrite H. Qed.
Lemma respects_ret {A} (a : A) : respects R (mret a).
Proof. by apply respects_pure. Qed.
Lemma respects_lift {A} (r : res A) : respects R (lift r).
Proof. by apply respects_pure. Qed.
Lemma respects_throw {A} e : respects R (throw (A := A) e).
Proof. by apply respects_pure. Qed.
Lemma respects_panic {A} p : respects R (panic (A := A) p).
Proof. by apply respects_pure. Qed.
Lemma respects_gets {A} (f : S → A) : respects R (gets f).
Proof. by apply respects_pure. Qed.
Lemma respects_modify f : (∀ s, R s (f s)) → respects R (modify f).
Proof. done. Qed.

Lemma respects_bind {A B} (m : stM S A) (k : A → stM S B) :
  respects R m → (∀ a, respects R (k a)) → respects R (m ≫= k).
Proof.
  intros Hm Hk s. pose proof (Hm s) as H. unfold mbind, stM_bind.
  destruct (m s) as [s1 [a|e|p]]; [|done..]. etransitivity; [exact H|]. apply Hk.
Qed.
Lemma respects_attempt {A} (m : stM S A) : respects R m → respects R (attempt m).
Proof. intros Hm s. pose proof (Hm s). unfold attempt. by destruct (m s) as [s1 []]. Qed.
Lemma respects_wrap {A} (m : stM S A) d : respects R m → respects R (wrap_err m d).
Proof. intros Hm s. pose proof (Hm s). unfold wrap_err. by destruct (m s) as [s1 []]. Qed.
Lemma respects_ignore {A} (m : stM S A) : respects R m → respects R (ignore_err m).
Proof.
  intros Hm. apply respects_bind; [by apply respects_attempt|]. intros. apply respects_ret.
Qed.
Lemma respects_replace {A} (m : stM S A) e t : respects R m → respects R (replace_err m e t).
Proof.
  intros Hm. apply respects_bind; [by apply respects_attempt|].
  intros []; [apply respects_ret|apply respects_throw].
Qed.
Lemma respects_must {A} (m : stM S A) t : respects R m → respects R (must m t).
Proof.
  intros Hm. apply respects_bind; [by apply respects_attempt|].
  intros []; [apply respects_ret|apply respects_panic].
Qed.
Lemma respects_for_each {A} (l : list A) (body : A → stM S unit) :
  (∀ x, respects R (body x)) → respects R (for_each l body).
Proof.
  intros Hb. induction l as [|x l IH]; simpl; [apply respects_ret|by apply respects_bind].
Qed.
(** A part of the state is changed as the part allows. *)
Lemma respects_zoom {T A} (get : T → S) (set : S → T → T) (Q : T → T → Prop) (m : stM S A) :
  (∀ s t, R (get t) s → Q t (set s t)) → respects R m → respects Q (zoom get set m).
Proof.
  intros HQ Hm t. specialize (Hm (get t)). unfold zoom. destruct (m (get t)) as [s r].
  by apply HQ.
Qed.
Lemma respects_run {A} (m : stM S A) s s' r : respects R m → m s = (s', r) → R s s'.
Proof. intros Hm H. specialize (Hm s). by rewrite H in Hm. Qed.
End Respects.

(** [commits R m]: the same, for the outcomes that are kept: when [m] returns, and only
    then, the state before and the state after are related. *)
Definition commits {S A} (R : S → S → Prop) (m : stM S A) : Prop :=
  ∀ s s' a, m s = (s', Ok a) → R s s'.

Section Commits.
Context {S : Type} (R : S → S → Prop) `{!PreOrder R}.

Lemma commits_respects {A} (m : stM S A) : respects R m → commits R m.
Proof. intros Hm s s' a H. by apply (respects_run R m s s' (Ok a)). Qed.
Lemma commits_bind {A B} (m : stM S A) (k : A → stM S B) :
  commits R m → (∀ a, commits R (k a)) → commits R (m ≫= k).
Proof.
  intros Hm Hk s s' b H. apply bind_ok_inv in H as (a & s1 & H1 & H2).
  etransitivity; [by eapply Hm|by eapply Hk].
Qed.
Lemma commits_wrap {A} (m : stM S A) d : commits R m → commits R (wrap_err m d).
Proof. intros Hm s s' a H%wrap_err_ok_inv. by eapply Hm. Qed.
Lemma commits_replace {A} (m : stM S A) e t : commits R m → commits R (replace_err m e t).
Proof. intros Hm s s' a H%replace_err_inv. by eapply Hm. Qed.
Lemma commits_for_each {A} (l : list A) (body : A → stM S unit) :
  (∀ x, commits R (body x)) → commits R (for_each l body).
Proof.
  intros Hb. induction l as [|x l IH]; simpl; [|by apply commits_bind].
  apply commits_respects, respects_ret; apply _.
Qed.
End Commits.

(** The relation of the states that agree on [f]. *)
Definition keeps {S B} (f : S → B) (s s' : S) : Prop := f s' = f s.
#[export] Instance keeps_preorder {S B} (f : S → B) : PreOrder (keeps f).
Proof. split; [by intros s|]. intros s t u H1 H2. unfold keeps in *. by rewrite H2. Qed.

Create HintDb frame.
#[export] Hint Extern 1 (respects _ (mret _)) => apply respects_ret; apply _ : frame.
#[export] Hint Extern 1 (respects _ (lift _)) => apply respects_lift; apply _ : frame.
#[export] Hint Extern 1 (respects _ (throw _)) => apply respects_throw; apply _ : frame.
#[export] Hint Extern 1 (respects _ (panic _)) => apply respects_panic; apply _ : frame.
#[export] Hint Extern 1 (respects _ (gets _)) => apply respects_gets; apply _ : frame.

(** [respects]: follow the structure of a computation down to the calls the hints know. *)
Ltac respects_step :=
  first [ solve [auto 2 with frame]
        | apply respects_bind; [apply _| |intros ?]
        | apply respects_attempt | apply respects_wrap
        | apply respects_ignore; [apply _|] | apply respects_replace; [apply _|]
        | apply respects_must; [apply _|]
        | apply respects_for_each; [apply _|intros ?]
        | progress cbv beta iota zeta
        | case_match ].
Ltac respects := repeat respects_step.

(** [commits]: the same for [commits]; what is tried or ignored must respect. *)
Ltac commits_step :=
  first [ solve [auto 2 with frame]
        | apply commits_respects; solve [auto 2 with frame]
        | lazymatch goal with |- commits _ (attempt _) => idtac | |- commits _ (ignore_err _) => idtac end;
          apply commits_respects; solve [respects]
        | apply commits_wrap | apply commits_replace
        | apply commits_for_each; [apply _|intros ?]
        | apply commits_bind; [apply _| |intros ?]
        | progress cbv beta iota zeta
        | case_match ].
Ltac commits := repeat commits_step.

(** ** Tactics

    [step_inv] turns an equation "this computation returned [Ok]" into the
    equations of its parts. *)
Ltac step_inv1 :=
  match goal with
  | H : (_ ≫= _) _ = (_, Ok _) |- _ =>
      apply bind_ok_inv in H;
      let a := fresh "a" in let s := fresh "s" in
      let H1 := fresh "Hs" in let H2 := fresh "Hs" in
      destruct H as (a & s & H1 & H2)
  | H : lift _ _ = (_, Ok _) |- _ =>
      apply lift_ok_inv in H; destruct H as [? ?]; subst
  | H : gets _ _ = (_, Ok _) |- _ =>
      apply gets_inv in H; destruct H as [? ?]; subst
  | H : modify _ _ = (_, Ok _) |- _ => apply modify_inv in H; subst
  | H : throw _ _ = (_, Ok _) |- _ => discriminate H
  | H : panic _ _ = (_, Ok _) |- _ => discriminate H
  | H : (_, Ok _) = (_, Ok _) |- _ => injection H as ? ?; subst
  | H : mret _ _ = (_, Ok _) |- _ =>
      apply ret_inv in H; destruct H as [? ?]; subst
  | H : wrap_err _ _ _ = (_, Ok _) |- _ => apply wrap_err_ok_inv in H
  | H : replace_err _ _ _ _ = (_, Ok _) |- _ => apply replace_err_inv in H
  | H : (_, Err _) = (_, Ok _) |- _ => discriminate H
  | H : (_, Panic _) = (_, Ok _) |- _ => discriminate H
  | H : Ok _ = Ok _ |- _ => injection H as ?; subst
  | H : Err _ = Ok _ |- _ => discriminate H
  | H : Panic _ = Ok _ |- _ => discriminate H
  end.
Ltac step_inv := repeat (step_inv1; simpl in *).

(** [case_if]: split on the condition of an [if] or the scrutinee of a match in
    a hypothesis that says the computation returned. *)
Ltac case_run :=
  match goal with
  | H : context [match ?x with _ => _ end] |- _ =>
      lazymatch type of H with
      | _ = (_, Ok _) => destruct x eqn:?; simpl in *
      end
  end.

Create HintDb sdk.
Create Rewrite HintDb sdk.
