(* ===== verification/GoLib.v ===== *)
(** * The parts of the Go language and its standard library that cosvian uses

    Strings and byte slices are Rocq [string]s, that is, lists of bytes.
    Machine integers are [Z] with the wrap-around of the conversions written
    out.  [fmt.Sprintf "%d"] and [strconv.FormatUint] print decimal numbers. *)

From S2P Require Import Prelude.
From Stdlib Require Import Strings.Ascii Strings.String DecimalString DecimalZ Decimal.
From stdpp Require Import strings.

Local Open Scope Z_scope.

(** ** Machine integers *)
Definition u64 (z : Z) : Z := z mod 2 ^ 64.
Definition i64 (z : Z) : Z := (z + 2 ^ 63) mod 2 ^ 64 - 2 ^ 63.

Definition is_u64 (z : Z) : Prop := 0 ≤ z < 2 ^ 64.

Lemma u64_id z : is_u64 z → u64 z = z.
Proof. intros H. by apply Z.mod_small. Qed.

Lemma u64_range z : is_u64 (u64 z).
Proof. apply Z.mod_pos_bound. lia. Qed.

Lemma i64_id z : -2 ^ 63 ≤ z < 2 ^ 63 → i64 z = z.
Proof. intros H. unfold i64. rewrite Z.mod_small; lia. Qed.

Lemma i64_high z : 2 ^ 63 ≤ z < 2 ^ 64 → i64 z = z - 2 ^ 64.
Proof.
  intros H. unfold i64.
  replace (z + 2 ^ 63) with ((z - 2 ^ 63) + 1 * 2 ^ 64) by lia.
  rewrite Z.mod_add, Z.mod_small; lia.
Qed.

(** ** Time: nanoseconds since the Unix epoch *)
Definition second : Z := 1000000000.
Definition minute : Z := 60 * second.
Definition hour : Z := 60 * minute.

(** [t.Unix()] *)
Definition unix (t : Z) : Z := t / second.

(** ** Decimal printing: ["%d"] and [strconv.FormatUint(_, 10)] *)
Definition fmt_d (z : Z) : string := NilZero.string_of_int (Z.to_int z).

Definition parse_d (s : string) : option Z :=
  match NilZero.int_of_string s with
  | Some d => Some (Z.of_int d)
  | None => None
  end.

Lemma parse_fmt_d z : parse_d (fmt_d z) = Some z.
Proof.
  unfold parse_d, fmt_d. rewrite NilZero.isi.
  - by rewrite DecimalZ.of_to.
  - destruct z; simpl; try done; intros [= H];
      by apply DecimalPos.Unsigned.to_uint_nonnil in H.
  - destruct z; simpl; try done; intros [= H];
      by apply DecimalPos.Unsigned.to_uint_nonnil in H.
Qed.

#[export] Instance fmt_d_inj : Inj (=) (=) fmt_d.
Proof.
  intros x y H. apply (f_equal parse_d) in H. rewrite !parse_fmt_d in H.
  by injection H.
Qed.

Fixpoint zeros (n : nat) : string :=
  match n with O => EmptyString | S n' => String "0"%char (zeros n') end.

(** ["%03d"] of an unsigned number: at least three digits. *)
Definition fmt_03d (z : Z) : string :=
  let s := fmt_d z in zeros (3 - String.length s) +:+ s.

Lemma fmt_d_nonneg z :
  0 ≤ z → ∃ d, fmt_d z = NilEmpty.string_of_uint d ∧ d ≠ Nil ∧ Z.of_uint d = z.
Proof.
  intros Hz. destruct z as [|p|p]; [by exists (D0 Nil)| |lia].
  exists (Pos.to_uint p). pose proof (DecimalPos.Unsigned.to_uint_nonnil p) as Hn.
  split; [|split; [done|]].
  - unfold fmt_d. simpl. by destruct (Pos.to_uint p).
  - pose proof (DecimalZ.of_to (Z.pos p)) as H. exact H.
Qed.

Lemma parse_zeros n d :
  d ≠ Nil →
  parse_d (zeros n +:+ NilEmpty.string_of_uint d) = Some (Z.of_uint d).
Proof.
  intros Hd. unfold parse_d.
  assert (NilZero.uint_of_string (zeros n +:+ NilEmpty.string_of_uint d)
          = Some (Nat.iter n D0 d)) as H.
  { unfold NilZero.uint_of_string.
    assert (NilEmpty.uint_of_string (zeros n +:+ NilEmpty.string_of_uint d)
            = Some (Nat.iter n D0 d)) as ->.
    { induction n as [|n IH]; simpl; [apply NilEmpty.usu|by rewrite IH]. }
    destruct n; simpl; [by destruct d|done]. }
  unfold NilZero.int_of_string.
  assert (∃ c s, zeros n +:+ NilEmpty.string_of_uint d = String c s ∧ c ≠ "-"%char)
    as (c & s & Hs & Hc).
  { destruct n; simpl; [|by eexists _, _]. destruct d; try done; by eexists _, _. }
  rewrite Hs in *. assert (∀ k, Z.of_uint (Nat.iter k D0 d) = Z.of_uint d) as Hit.
  { induction k as [|k IH]; [done|]. simpl. exact IH. }
  destruct (Ascii.eqb_spec c "-"%char) as [->|_]; [done|].
  rewrite H. simpl. f_equal. apply (Hit n).
Qed.

(** ["%03d"] can be read back, hence is injective on unsigned numbers. *)
Lemma parse_fmt_03d z : 0 ≤ z → parse_d (fmt_03d z) = Some z.
Proof.
  intros Hz. unfold fmt_03d. destruct (fmt_d_nonneg z Hz) as (d & -> & Hd & Hv).
  rewrite parse_zeros by done. by rewrite Hv.
Qed.

Lemma fmt_03d_inj x y : 0 ≤ x → 0 ≤ y → fmt_03d x = fmt_03d y → x = y.
Proof.
  intros Hx Hy H. apply (f_equal parse_d) in H.
  rewrite !parse_fmt_03d in H by done. by injection H.
Qed.

(** ** Package [strings] *)
Fixpoint HasPrefix (s p : string) : bool :=
  match p, s with
  | EmptyString, _ => true
  | String c p', String d s' => Ascii.eqb c d && HasPrefix s' p'
  | String _ _, EmptyString => false
  end.

Fixpoint HasSuffix (s x : string) : bool :=
  String.eqb s x ||
  match s with
  | EmptyString => false
  | String _ s' => HasSuffix s' x
  end.

Fixpoint Contains (s sub : string) : bool :=
  HasPrefix s sub ||
  match s with
  | EmptyString => false
  | String _ s' => Contains s' sub
  end.

(** [strings.Split] at a one-byte separator. *)
Fixpoint Split (s : string) (sep : ascii) : list string :=
  match s with
  | EmptyString => [EmptyString]
  | String c s' =>
      if Ascii.eqb c sep then EmptyString :: Split s' sep
      else match Split s' sep with
           | w :: ws => String c w :: ws
           | [] => [String c EmptyString]
           end
  end.

(** [strings.SplitN(s, sep, 2)] at a one-byte separator. *)
Fixpoint SplitN2 (s : string) (sep : ascii) : list string :=
  match s with
  | EmptyString => [EmptyString]
  | String c s' =>
      if Ascii.eqb c sep then [EmptyString; s']
      else match SplitN2 s' sep with
           | w :: ws => String c w :: ws
           | [] => [String c EmptyString]
           end
  end.

(** The UTF-8 encodings of the runes of [unicode.IsSpace]. *)
Definition utf8 (l : list nat) : string :=
  String.string_of_list_ascii (map ascii_of_nat l).

Definition space_runes : list string :=
  map utf8 ([[9]; [10]; [11]; [12]; [13]; [32]; [194; 133]; [194; 160];
    [225; 154; 128]; [226; 128; 168]; [226; 128; 169]; [226; 128; 175];
    [226; 129; 159]; [227; 128; 128]]%nat
    ++ map (λ i, [226; 128; 128 + i]%nat) (seq 0 11)).

Fixpoint str_drop (n : nat) (s : string) : string :=
  match n, s with
  | S n', String _ s' => str_drop n' s'
  | _, _ => s
  end.

Fixpoint str_take (n : nat) (s : string) : string :=
  match n, s with
  | S n', String c s' => String c (str_take n' s')
  | _, _ => EmptyString
  end.

(** The fuel is the length of the string: each round removes a byte. *)
Fixpoint trim_left (fuel : nat) (s : string) : string :=
  match fuel with
  | O => s
  | S fuel' =>
      match List.find (λ r, HasPrefix s r) space_runes with
      | Some r => trim_left fuel' (str_drop (String.length r) s)
      | None => s
      end
  end.

Fixpoint trim_right (fuel : nat) (s : string) : string :=
  match fuel with
  | O => s
  | S fuel' =>
      match List.find (λ r, HasSuffix s r) space_runes with
      | Some r => trim_right fuel' (str_take (String.length s - String.length r) s)
      | None => s
      end
  end.

Definition TrimSpace (s : string) : string :=
  let s := trim_left (String.length s) s in trim_right (String.length s) s.

(** [strings.ToLower]: bytes below 128 are mapped directly; a string with other
    bytes goes through the Unicode tables, which are a parameter. *)
Class Unicode := { unicode_ToLower : string → string }.

Definition is_ascii_byte (c : ascii) : bool := (nat_of_ascii c <? 128)%nat.

Fixpoint is_ascii (s : string) : bool :=
  match s with
  | EmptyString => true
  | String c s' => is_ascii_byte c && is_ascii s'
  end.

Definition lower_byte (c : ascii) : ascii :=
  let n := nat_of_ascii c in
  if (65 <=? n)%nat && (n <=? 90)%nat then ascii_of_nat (n + 32) else c.

Fixpoint map_str (f : ascii → ascii) (s : string) : string :=
  match s with
  | EmptyString => EmptyString
  | String c s' => String (f c) (map_str f s')
  end.

Definition ToLower `{Unicode} (s : string) : string :=
  if is_ascii s then map_str lower_byte s else unicode_ToLower s.

(** What the callers rely on: lowering twice is lowering once. *)
Class UnicodeLaws `{Unicode} : Prop := {
  unicode_ToLower_idem s :
    is_ascii s = false → ToLower (unicode_ToLower s) = unicode_ToLower s
}.

Lemma lower_byte_idem c : lower_byte (lower_byte c) = lower_byte c.
Proof. destruct c as [[] [] [] [] [] [] [] []]; reflexivity. Qed.

Lemma lower_byte_ascii c : is_ascii_byte (lower_byte c) = is_ascii_byte c.
Proof. destruct c as [[] [] [] [] [] [] [] []]; reflexivity. Qed.

Lemma map_lower_idem s :
  map_str lower_byte (map_str lower_byte s) = map_str lower_byte s.
Proof. induction s as [|c s IH]; simpl; [done|]. by rewrite lower_byte_idem, IH. Qed.

Lemma map_lower_ascii s : is_ascii (map_str lower_byte s) = is_ascii s.
Proof. induction s as [|c s IH]; simpl; [done|]. by rewrite lower_byte_ascii, IH. Qed.

Lemma ToLower_idem `{UnicodeLaws} s : ToLower (ToLower s) = ToLower s.
Proof.
  unfold ToLower at 2 3. destruct (is_ascii s) eqn:E.
  - unfold ToLower. rewrite map_lower_ascii, E. apply map_lower_idem.
  - by apply unicode_ToLower_idem.
Qed.

Lemma HasPrefix_spec s p : HasPrefix s p = true ↔ ∃ t, s = p +:+ t.
Proof.
  revert s. induction p as [|c p IH]; intros s.
  - split; [by exists s|by destruct s].
  - destruct s as [|d s]; simpl; [split; [done|by intros [t Ht]]|].
    rewrite andb_true_iff, Ascii.eqb_eq, IH. split.
    + intros [-> [t ->]]. by exists t.
    + intros [t Ht]. injection Ht as -> ->. eauto.
Qed.

Lemma HasPrefix_app p t : HasPrefix (p +:+ t) p = true.
Proof. apply HasPrefix_spec. by exists t. Qed.

Lemma Contains_unfold s x :
  Contains s x = HasPrefix s x ||
    match s with EmptyString => false | String _ s' => Contains s' x end.
Proof. by destruct s. Qed.

Lemma Contains_spec s x : Contains s x = true ↔ ∃ a b, s = a +:+ x +:+ b.
Proof.
  induction s as [|c s IH]; rewrite Contains_unfold, orb_true_iff, HasPrefix_spec.
  - split.
    + intros [[t ?]|?]; [|done]. by exists EmptyString, t.
    + intros (a & b & H). left. destruct a; [by exists b|done].
  - rewrite IH. split.
    + intros [[t ?]|(a & b & ->)]; [by exists EmptyString, t|by exists (String c a), b].
    + intros ([|d a] & b & H); [left; by exists b|].
      injection H as -> ->. right. by exists a, b.
Qed.

(** ** Positional notation

    [fixed base digit k n] is [n] modulo [base ^ k] in [k] digits, most
    significant first; [binary.BigEndian.PutUint64] is the case of 8 bytes. *)
Fixpoint fixed (base : Z) (digit : Z → ascii) (k : nat) (n : Z) : string :=
  match k with
  | O => EmptyString
  | S k' => fixed base digit k' (n / base) +:+ String (digit (n mod base)) EmptyString
  end.

Definition byte_of (n : Z) : ascii := ascii_of_nat (Z.to_nat n).
Definition be64 (n : Z) : string := fixed 256 byte_of 8 n.

Fixpoint be_val (s : string) (acc : Z) : Z :=
  match s with
  | EmptyString => acc
  | String c s' => be_val s' (256 * acc + Z.of_nat (nat_of_ascii c))
  end.

Lemma str_app_cons c a b : String c a +:+ b = String c (a +:+ b).
Proof. done. Qed.

Lemma str_length_app a b :
  String.length (a +:+ b) = (String.length a + String.length b)%nat.
Proof. induction a as [|c a IH]; simpl; [done|]. by rewrite IH. Qed.

Lemma str_app_assoc a b c : (a +:+ b) +:+ c = a +:+ b +:+ c.
Proof. induction a as [|x a IH]; [done|]. by rewrite !str_app_cons, IH. Qed.

Lemma str_app_nil_r a : a +:+ EmptyString = a.
Proof. induction a as [|x a IH]; [done|]. by rewrite str_app_cons, IH. Qed.

Lemma str_app_inv_head a b c : a +:+ b = a +:+ c → b = c.
Proof. induction a as [|x a IH]; [done|]. intros [= H]. by apply IH. Qed.

(** Strings of equal length can be cancelled on either side. *)
Lemma str_app_inv_length a a' b b' :
  String.length a = String.length a' → a +:+ b = a' +:+ b' → a = a' ∧ b = b'.
Proof.
  revert a'. induction a as [|x a IH]; intros [|x' a'] Hl H; simpl in *; try done.
  injection Hl as Hl. injection H as -> H. by destruct (IH a' Hl H) as [-> ->].
Qed.

Lemma fixed_length base digit k n : String.length (fixed base digit k n) = k.
Proof.
  revert n. induction k as [|k IH]; intros n; simpl; [done|].
  rewrite str_length_app, IH. simpl. lia.
Qed.

Lemma be_val_app a b acc : be_val (a +:+ b) acc = be_val b (be_val a acc).
Proof.
  revert acc. induction a as [|c a IH]; intros acc; [done|].
  rewrite str_app_cons. apply IH.
Qed.

Lemma byte_of_val n : 0 ≤ n < 256 → Z.of_nat (nat_of_ascii (byte_of n)) = n.
Proof.
  intros H. unfold byte_of. rewrite nat_ascii_embedding by lia. lia.
Qed.

Lemma be_val_fixed k n acc :
  be_val (fixed 256 byte_of k n) acc = acc * 256 ^ Z.of_nat k + n mod 256 ^ Z.of_nat k.
Proof.
  revert n. induction k as [|k IH]; intros n; simpl fixed.
  - simpl. rewrite Z.mod_1_r. lia.
  - rewrite be_val_app, IH. simpl be_val.
    rewrite byte_of_val by (apply Z.mod_pos_bound; lia).
    rewrite Nat2Z.inj_succ, Z.pow_succ_r by lia.
    rewrite (Z.rem_mul_r n 256) by lia. lia.
Qed.

Lemma be64_val n : is_u64 n → be_val (be64 n) 0 = n.
Proof.
  intros H. unfold be64. rewrite be_val_fixed.
  change (Z.of_nat 8) with 8. rewrite Z.mod_small; [lia|]. unfold is_u64 in H. lia.
Qed.

(** ** Splitting *)
Fixpoint no_char (c : ascii) (s : string) : bool :=
  match s with
  | EmptyString => true
  | String x s' => negb (Ascii.eqb x c) && no_char c s'
  end.

Lemma no_char_app c a b : no_char c (a +:+ b) = no_char c a && no_char c b.
Proof.
  induction a as [|x a IH]; [done|]. rewrite str_app_cons. simpl.
  by rewrite IH, andb_assoc.
Qed.

Lemma Split_no_char s c : no_char c s = true → Split s c = [s].
Proof.
  induction s as [|x s IH]; simpl; [done|].
  rewrite andb_true_iff, negb_true_iff. intros [-> H]. by rewrite IH.
Qed.

Lemma Split_app s c r :
  no_char c s = true → Split (s +:+ String c r) c = s :: Split r c.
Proof.
  induction s as [|x s IH]; intros H.
  - change (EmptyString +:+ String c r) with (String c r). simpl.
    by rewrite Ascii.eqb_refl.
  - simpl in H. rewrite andb_true_iff, negb_true_iff in H. destruct H as [Hx H].
    rewrite str_app_cons. simpl. by rewrite Hx, IH.
Qed.

Lemma no_char_fixed c base digit k n :
  (∀ m, digit (m mod base) ≠ c) → no_char c (fixed base digit k n) = true.
Proof.
  intros Hc. revert n. induction k as [|k IH]; intros n; simpl; [done|].
  rewrite no_char_app, IH. simpl. rewrite andb_true_r, negb_true_iff.
  by apply Ascii.eqb_neq.
Qed.

(** Text before the last separator can be cancelled. *)
Lemma last_sep_inv c a b x y :
  no_char c x = true → no_char c y = true →
  a +:+ String c x = b +:+ String c y → a = b ∧ x = y.
Proof.
  intros Hx Hy. revert b. induction a as [|h a IH]; intros [|k b] H.
  - by injection H as ->.
  - change (EmptyString +:+ String c x) with (String c x) in H.
    rewrite str_app_cons in H. injection H as -> ->. rewrite no_char_app in Hx.
    apply andb_true_iff in Hx as [_ Hx]. simpl in Hx. by rewrite Ascii.eqb_refl in Hx.
  - change (EmptyString +:+ String c y) with (String c y) in H.
    rewrite str_app_cons in H. injection H as -> <-. rewrite no_char_app in Hy.
    apply andb_true_iff in Hy as [_ Hy]. simpl in Hy. by rewrite Ascii.eqb_refl in Hy.
  - rewrite !str_app_cons in H. injection H as -> H. by apply IH in H as [-> ->].
Qed.

(** A character that is no digit does not occur in a number. *)
Definition digits : string := "0123456789".
Lemma no_char_uint c d :
  no_char c digits = true → no_char c (NilEmpty.string_of_uint d) = true.
Proof.
  intros H. simpl in H. rewrite !andb_true_iff in H.
  destruct_and!. induction d; simpl; rewrite ?andb_true_iff; auto.
Qed.

Lemma no_char_uint0 c d :
  no_char c digits = true → no_char c (NilZero.string_of_uint d) = true.
Proof.
  intros H. destruct d; [by apply (no_char_uint c (D0 Nil))|by apply no_char_uint..].
Qed.

Lemma no_char_fmt_d c z :
  no_char c digits = true → c ≠ "-"%char → no_char c (fmt_d z) = true.
Proof.
  intros H Hc. unfold fmt_d. destruct z as [|p|p]; cbn [Z.to_int NilZero.string_of_int].
  - by apply no_char_uint0.
  - by apply no_char_uint0.
  - cbn [no_char]. rewrite no_char_uint0 by done.
    by rewrite (proj2 (Ascii.eqb_neq "-" c)) by congruence.
Qed.

(** ** UTF-8 *)
Definition byte_code (c : ascii) : Z := Z.of_nat (nat_of_ascii c).
Definition in_range (lo hi : Z) (c : ascii) : bool :=
  (lo <=? byte_code c) && (byte_code c <=? hi).
Definition cont_byte : ascii → bool := in_range 128 191.

(** The well-formed sequences of two, three and four bytes. *)
Definition seq2 (c c1 : ascii) : bool := in_range 194 223 c && cont_byte c1.
Definition seq3 (c c1 c2 : ascii) : bool :=
  in_range 224 239 c
  && in_range (if byte_code c =? 224 then 160 else 128)
              (if byte_code c =? 237 then 159 else 191) c1
  && cont_byte c2.
Definition seq4 (c c1 c2 c3 : ascii) : bool :=
  in_range 240 244 c
  && in_range (if byte_code c =? 240 then 144 else 128)
              (if byte_code c =? 244 then 143 else 191) c1
  && cont_byte c2 && cont_byte c3.

(** [utf8.ValidString] *)
Fixpoint utf8_valid (s : string) : bool :=
  match s with
  | EmptyString => true
  | String c s1 =>
      if byte_code c <? 128 then utf8_valid s1 else
      match s1 with
      | EmptyString => false
      | String c1 s2 =>
          if seq2 c c1 then utf8_valid s2 else
          match s2 with
          | EmptyString => false
          | String c2 s3 =>
              if seq3 c c1 c2 then utf8_valid s3 else
              match s3 with
              | EmptyString => false
              | String c3 s4 => seq4 c c1 c2 c3 && utf8_valid s4
              end
          end
      end
  end.

(** Induction over the runes of a valid string. *)
Lemma utf8_ind (P : string → Prop) :
  P EmptyString →
  (∀ c s, (byte_code c <? 128) = true → P s → P (String c s)) →
  (∀ c c1 s, (byte_code c <? 128) = false → seq2 c c1 = true →
     P s → P (String c (String c1 s))) →
  (∀ c c1 c2 s, (byte_code c <? 128) = false → seq2 c c1 = false →
     seq3 c c1 c2 = true → P s → P (String c (String c1 (String c2 s)))) →
  (∀ c c1 c2 c3 s, (byte_code c <? 128) = false → seq2 c c1 = false →
     seq3 c c1 c2 = false → seq4 c c1 c2 c3 = true →
     P s → P (String c (String c1 (String c2 (String c3 s))))) →
  ∀ s, utf8_valid s = true → P s.
Proof.
  intros H0 H1 H2 H3 H4.
  cut (∀ n s, (String.length s < n)%nat → utf8_valid s = true → P s).
  { intros H s. apply (H (S (String.length s))). lia. }
  induction n as [|n IH]; intros s Hn Hs; [lia|].
  destruct s as [|c s1]; [done|]. simpl in Hn, Hs.
  destruct (byte_code c <? 128) eqn:E1; [apply H1; auto with lia|].
  destruct s1 as [|c1 s2]; [done|]. simpl in Hn.
  destruct (seq2 c c1) eqn:E2; [apply H2; auto with lia|].
  destruct s2 as [|c2 s3]; [done|]. simpl in Hn.
  destruct (seq3 c c1 c2) eqn:E3; [apply H3; auto with lia|].
  destruct s3 as [|c3 s4]; [done|]. simpl in Hn.
  apply andb_true_iff in Hs as [E4 Hs]. apply H4; auto with lia.
Qed.

Lemma is_ascii_app a b : is_ascii (a +:+ b) = is_ascii a && is_ascii b.
Proof.
  induction a as [|x a IH]; [done|]. rewrite str_app_cons. simpl. by rewrite IH, andb_assoc.
Qed.

Lemma ascii_utf8_valid s : is_ascii s = true → utf8_valid s = true.
Proof.
  induction s as [|c s IH]; [done|]. simpl. intros [Hc Hs]%andb_true_iff.
  unfold is_ascii_byte in Hc. apply Nat.ltb_lt in Hc.
  rewrite (proj2 (Z.ltb_lt _ 128)) by (unfold byte_code; lia). by apply IH.
Qed.
