(* ===== verification/Json.v ===== *)
(** * The part of encoding/json the modules use

    A parser for JSON text as [json.Unmarshal] accepts it, the decoding of
    objects into structs with string fields and into [map[string]interface{}],
    and the encoding of strings.  Parsing recurses on fuel; [Bad] is a syntax
    error and [OutOfFuel] never comes out of [json_parse], which passes one more
    than twice the length of the text (theorem [json_parse_fuel]). *)

From S2P Require Import Prelude GoLib.
From Stdlib Require Import Strings.Ascii Strings.String.
From stdpp Require Import strings.

Local Open Scope Z_scope.

(** A number is kept as its literal. *)
#[warnings="-register-all"]
Inductive JVal : Type :=
| JNull
| JBool (b : bool)
| JNum (lit : string)
| JStr (s : string)
| JArr (l : list JVal)
| JObj (l : list (string * JVal)).

Inductive pres (A : Type) : Type :=
| Got (a : A) (rest : string)
| Bad
| OutOfFuel.
Arguments Got {A} a rest.
Arguments Bad {A}.
Arguments OutOfFuel {A}.

Definition pbind {A B} (p : pres A) (k : A → string → pres B) : pres B :=
  match p with
  | Got a r => k a r
  | Bad => Bad
  | OutOfFuel => OutOfFuel
  end.

(** ** Characters *)
Definition is_ws (c : ascii) : bool :=
  let n := byte_code c in (n =? 32) || (n =? 9) || (n =? 10) || (n =? 13).

Fixpoint skip_ws (s : string) : string :=
  match s with
  | String c s' => if is_ws c then skip_ws s' else s
  | EmptyString => EmptyString
  end.

Definition is_digit (c : ascii) : bool := in_range 48 57 c.
Definition is_digit19 (c : ascii) : bool := in_range 49 57 c.

Definition hex_val (c : ascii) : option Z :=
  let n := byte_code c in
  if in_range 48 57 c then Some (n - 48)
  else if in_range 97 102 c then Some (n - 87)
  else if in_range 65 70 c then Some (n - 55)
  else None.

Definition hex4 (a b c d : ascii) : option Z :=
  x ← hex_val a; y ← hex_val b; z ← hex_val c; w ← hex_val d;
  Some (4096 * x + 256 * y + 16 * z + w).

Definition chr (n : Z) : ascii := ascii_of_nat (Z.to_nat n).

(** [utf8.AppendRune] of a rune that is not a surrogate. *)
Definition utf8_encode (r : Z) (k : string) : string :=
  if r <? 128 then String (chr r) k
  else if r <? 2048 then String (chr (192 + r / 64)) (String (chr (128 + r mod 64)) k)
  else if r <? 65536 then
    String (chr (224 + r / 4096))
      (String (chr (128 + r / 64 mod 64)) (String (chr (128 + r mod 64)) k))
  else
    String (chr (240 + r / 262144))
      (String (chr (128 + r / 4096 mod 64))
         (String (chr (128 + r / 64 mod 64)) (String (chr (128 + r mod 64)) k))).

Definition rune_error : Z := 65533.
Definition is_surrogate (r : Z) : bool := (55296 <=? r) && (r <? 57344).
Definition is_high (r : Z) : bool := (55296 <=? r) && (r <? 56320).
Definition is_low (r : Z) : bool := (56320 <=? r) && (r <? 57344).
Definition surrogate_pair (r1 r2 : Z) : Z := (r1 - 55296) * 1024 + (r2 - 56320) + 65536.

Definition simple_escape (c : ascii) : option ascii :=
  if Ascii.eqb c "034"%char then Some "034"%char
  else if Ascii.eqb c "092"%char then Some "092"%char
  else if Ascii.eqb c "/"%char then Some "/"%char
  else if Ascii.eqb c "b"%char then Some "008"%char
  else if Ascii.eqb c "f"%char then Some "012"%char
  else if Ascii.eqb c "n"%char then Some "010"%char
  else if Ascii.eqb c "r"%char then Some "013"%char
  else if Ascii.eqb c "t"%char then Some "009"%char
  else None.

(** ** Strings

    [str_body] reads up to the closing quote; it returns the text and what
    follows.  A byte that is not part of valid UTF-8, and half of a surrogate
    pair, become U+FFFD. *)
Definition prepend (f : string → string) (o : option (string * string))
    : option (string * string) :=
  match o with Some (t, r) => Some (f t, r) | None => None end.

Fixpoint str_body (s : string) : option (string * string) :=
  match s with
  | EmptyString => None
  | String c s1 =>
    if Ascii.eqb c "034"%char then Some (EmptyString, s1)
    else if Ascii.eqb c "092"%char then
      match s1 with
      | EmptyString => None
      | String e s2 =>
        match simple_escape e with
        | Some x => prepend (String x) (str_body s2)
        | None =>
          if Ascii.eqb e "u"%char then
            match s2 with
            | String a (String b (String d (String f s3))) =>
              match hex4 a b d f with
              | None => None
              | Some r =>
                if is_surrogate r then
                  match s3 with
                  | String x (String y (String a' (String b' (String d' (String f' s4))))) =>
                    if Ascii.eqb x "092"%char && Ascii.eqb y "u"%char then
                      match hex4 a' b' d' f' with
                      | Some r' =>
                        if is_high r && is_low r'
                        then prepend (utf8_encode (surrogate_pair r r')) (str_body s4)
                        else prepend (utf8_encode rune_error) (str_body s3)
                      | None => None
                      end
                    else prepend (utf8_encode rune_error) (str_body s3)
                  | _ => prepend (utf8_encode rune_error) (str_body s3)
                  end
                else prepend (utf8_encode r) (str_body s3)
              end
            | _ => None
            end
          else None
        end
      end
    else if byte_code c <? 32 then None
    else if byte_code c <? 128 then prepend (String c) (str_body s1)
    else
      match s1 with
      | EmptyString => None
      | String c1 s2 =>
        if seq2 c c1 then prepend (λ t, String c (String c1 t)) (str_body s2) else
        match s2 with
        | EmptyString => prepend (utf8_encode rune_error) (str_body s1)
        | String c2 s3 =>
          if seq3 c c1 c2
          then prepend (λ t, String c (String c1 (String c2 t))) (str_body s3) else
          match s3 with
          | EmptyString => prepend (utf8_encode rune_error) (str_body s1)
          | String c3 s4 =>
            if seq4 c c1 c2 c3
            then prepend (λ t, String c (String c1 (String c2 (String c3 t)))) (str_body s4)
            else prepend (utf8_encode rune_error) (str_body s1)
          end
        end
      end
  end.

(** ** Numbers *)
Fixpoint take_digits (s : string) : string * string :=
  match s with
  | String c s' =>
      if is_digit c then let '(d, r) := take_digits s' in (String c d, r)
      else (EmptyString, s)
  | EmptyString => (EmptyString, EmptyString)
  end.

(** The integer part, without the sign. *)
Definition num_int (s : string) : option (string * string) :=
  match s with
  | String c s' =>
      if Ascii.eqb c "0"%char then Some ("0", s')
      else if is_digit19 c then let '(d, r) := take_digits s' in Some (String c d, r)
      else None
  | EmptyString => None
  end.

Definition num_frac (s : string) : option (string * string) :=
  match s with
  | String c s' =>
      if Ascii.eqb c "."%char then
        let '(d, r) := take_digits s' in
        if String.eqb d "" then None else Some (String "."%char d, r)
      else Some (EmptyString, s)
  | EmptyString => Some (EmptyString, EmptyString)
  end.

Definition num_exp (s : string) : option (string * string) :=
  match s with
  | String c s' =>
      if Ascii.eqb c "e"%char || Ascii.eqb c "E"%char then
        let '(sign, s'') :=
          match s' with
          | String g t =>
              if Ascii.eqb g "+"%char || Ascii.eqb g "-"%char
              then (String g EmptyString, t) else (EmptyString, s')
          | EmptyString => (EmptyString, EmptyString)
          end in
        let '(d, r) := take_digits s'' in
        if String.eqb d "" then None else Some (String c (sign +:+ d), r)
      else Some (EmptyString, s)
  | EmptyString => Some (EmptyString, EmptyString)
  end.

Definition num_lit (s : string) : option (string * string) :=
  let '(sign, s1) :=
    match s with
    | String c s' => if Ascii.eqb c "-"%char then ("-", s') else (EmptyString, s)
    | EmptyString => (EmptyString, EmptyString)
    end in
  '(i, s2) ← num_int s1;
  '(f, s3) ← num_frac s2;
  '(e, s4) ← num_exp s3;
  Some (sign +:+ i +:+ f +:+ e, s4).

(** ** Values *)
Definition maxNestingDepth : Z := 10000.

Definition lit (word : string) (v : JVal) (s : string) : pres JVal :=
  if HasPrefix s word then Got v (str_drop (String.length word) s) else Bad.

Definition of_opt {A} (o : option (A * string)) : pres A :=
  match o with Some (a, r) => Got a r | None => Bad end.

(** The rest of the text when it starts with [c]. *)
Definition next (c : ascii) (s : string) : option string :=
  match s with
  | String x r => if Ascii.eqb x c then Some r else None
  | EmptyString => None
  end.

Fixpoint pval (fuel : nat) (depth : Z) (s : string) {struct fuel} : pres JVal :=
  match fuel with
  | O => OutOfFuel
  | S n =>
    match skip_ws s with
    | EmptyString => Bad
    | String c s1 =>
      if Ascii.eqb c "{"%char then
        if maxNestingDepth <=? depth then Bad else
        match next "}"%char (skip_ws s1) with
        | Some r => Got (JObj []) r
        | None => pbind (pobj n (depth + 1) (skip_ws s1)) (λ l, Got (JObj l))
        end
      else if Ascii.eqb c "["%char then
        if maxNestingDepth <=? depth then Bad else
        match next "]"%char (skip_ws s1) with
        | Some r => Got (JArr []) r
        | None => pbind (parr n (depth + 1) (skip_ws s1)) (λ l, Got (JArr l))
        end
      else if Ascii.eqb c "034"%char then pbind (of_opt (str_body s1)) (λ t, Got (JStr t))
      else if Ascii.eqb c "-"%char || is_digit c
      then pbind (of_opt (num_lit (String c s1))) (λ t, Got (JNum t))
      else if Ascii.eqb c "t"%char then lit "true" (JBool true) (String c s1)
      else if Ascii.eqb c "f"%char then lit "false" (JBool false) (String c s1)
      else if Ascii.eqb c "n"%char then lit "null" JNull (String c s1)
      else Bad
    end
  end
with pobj (fuel : nat) (depth : Z) (s : string) {struct fuel}
    : pres (list (string * JVal)) :=
  match fuel with
  | O => OutOfFuel
  | S n =>
    match next "034"%char (skip_ws s) with
    | None => Bad
    | Some s1 =>
      pbind (of_opt (str_body s1)) (λ key s2,
      match next ":"%char (skip_ws s2) with
      | None => Bad
      | Some s3 =>
        pbind (pval n depth s3) (λ v s4,
        match next ","%char (skip_ws s4), next "}"%char (skip_ws s4) with
        | Some s5, _ => pbind (pobj n depth s5) (λ l, Got ((key, v) :: l))
        | None, Some r => Got [(key, v)] r
        | None, None => Bad
        end)
      end)
    end
  end
with parr (fuel : nat) (depth : Z) (s : string) {struct fuel} : pres (list JVal) :=
  match fuel with
  | O => OutOfFuel
  | S n =>
    pbind (pval n depth s) (λ v s1,
    match next ","%char (skip_ws s1), next "]"%char (skip_ws s1) with
    | Some s2, _ => pbind (parr n depth s2) (λ l, Got (v :: l))
    | None, Some r => Got [v] r
    | None, None => Bad
    end)
  end.

(** The whole text is one value. *)
Definition json_parse (s : string) : option JVal :=
  match pval (S (2 * String.length s)) 0 s with
  | Got v rest => if String.eqb (skip_ws rest) "" then Some v else None
  | _ => None
  end.

(** ** Decoding

    [foldName]: the name of a struct field is matched exactly first, then up to
    case; two runes outside ASCII fold into it, U+017F to S and U+212A to K. *)
Definition upper_byte (c : ascii) : ascii :=
  if in_range 97 122 c then chr (byte_code c - 32) else c.
Fixpoint fold_name (s : string) : string :=
  match s with
  | EmptyString => EmptyString
  | String "197"%char (String "191"%char t) => String "S"%char (fold_name t)
  | String "226"%char (String "132"%char (String "170"%char t)) =>
      String "K"%char (fold_name t)
  | String c t => String (upper_byte c) (fold_name t)
  end.

(** The field of a struct a key is stored into. *)
Definition field_of (fields : list string) (key : string) : option string :=
  if bool_decide (key ∈ fields) then Some key
  else List.find (λ f, String.eqb (fold_name f) (fold_name key)) fields.

(** Storing members into a struct one by one.  [set] is given the field and the
    value and says with [false] that the type does not fit; the error is kept
    and decoding goes on. *)
Definition decode_struct {A} (fields : list string)
    (set : string → JVal → A → A * bool) (zero : A) (v : JVal) : A * bool :=
  match v with
  | JObj members =>
      fold_left (λ '(a, ok) '(key, x),
        match field_of fields key with
        | None => (a, ok)
        | Some f => let '(a', fits) := set f x a in (a', ok && fits)
        end) members (zero, true)
  | JNull => (zero, true)
  | _ => (zero, false)
  end.

(** [json.Unmarshal] into a struct: the value, and whether [err == nil]. *)
Definition unmarshal_struct {A} (fields : list string)
    (set : string → JVal → A → A * bool) (zero : A) (s : string) : A * bool :=
  match json_parse s with
  | None => (zero, false)
  | Some v => decode_struct fields set zero v
  end.

(** A field of type string: null leaves it alone. *)
Definition string_field {A} (upd : string → A → A) (v : JVal) (a : A) : A * bool :=
  match v with
  | JStr t => (upd t a, true)
  | JNull => (a, true)
  | _ => (a, false)
  end.

(** [strconv.ParseInt] of a literal, for a field of type int64. *)
Fixpoint digits_Z (s : string) (acc : Z) : option Z :=
  match s with
  | EmptyString => Some acc
  | String c s' =>
      if is_digit c then digits_Z s' (10 * acc + (byte_code c - 48)) else None
  end.
Definition parse_int64 (l : string) : option Z :=
  let r :=
    match l with
    | EmptyString => None
    | String c l' => if Ascii.eqb c "-"%char then z ← digits_Z l' 0; Some (- z)
                     else digits_Z l 0
    end in
  z ← r; if (- 2 ^ 63 <=? z) && (z <? 2 ^ 63) then Some z else None.
Definition int64_field {A} (upd : Z → A → A) (v : JVal) (a : A) : A * bool :=
  match v with
  | JNum l => match parse_int64 l with Some z => (upd z a, true) | None => (a, false) end
  | JNull => (a, true)
  | _ => (a, false)
  end.

(** Does [strconv.ParseFloat] of a literal overflow a float64? *)
Definition split_exp (l : string) : string * Z :=
  let e_at :=
    match String.index 0 "e" l with Some i => Some i | None => String.index 0 "E" l end in
  match e_at with
  | None => (l, 0)
  | Some i =>
      let t := str_drop (S i) l in
      let '(neg, t') :=
        match t with
        | String "-"%char t' => (true, t')
        | String "+"%char t' => (false, t')
        | _ => (false, t)
        end in
      let e := default 0 (digits_Z t' 0) in
      (str_take i l, if neg : bool then - e else e)
  end.
Definition float_overflows (l : string) : bool :=
  let '(m, e) := split_exp l in
  let m := match m with String "-"%char m' => m' | _ => m end in
  let '(w, f) :=
    match Split m "."%char with [w; f] => (w, f) | _ => (m, "") end in
  let n := default 0 (digits_Z (w +:+ f) 0) in
  let e' := e - Z.of_nat (String.length f) in
  let top := 2 ^ 1024 - 2 ^ 970 in
  if 0 <=? e' then top <=? n * 10 ^ e' else top * 10 ^ (- e') <=? n.

(** A number that overflows, anywhere, makes decoding into [interface{}] fail. *)
Fixpoint any_ok (v : JVal) : bool :=
  match v with
  | JNum l => negb (float_overflows l)
  | JArr l => forallb any_ok l
  | JObj l => forallb (λ '(_, x), any_ok x) l
  | _ => true
  end.

(** [json.Unmarshal] into a [map[string]interface{}]: the last of several
    members with a key stays; a number that overflows is stored as nil. *)
Definition any_value (v : JVal) : JVal :=
  match v with
  | JNum l => if float_overflows l then JNull else v
  | _ => v
  end.
Definition unmarshal_map (s : string) : gmap string JVal * bool :=
  match json_parse s with
  | Some (JObj l) =>
      (fold_left (λ m '(key, v), <[key := any_value v]> m) l ∅,
       forallb (λ '(_, x), any_ok x) l)
  | Some JNull => (∅, true)
  | _ => (∅, false)
  end.
(** The entries of the map that pass the type assertion [v.(string)]. *)
Definition string_entries (m : gmap string JVal) : gmap string string :=
  omap (λ v, match v with JStr t => Some t | _ => None end) m.

(** [fmt.Sprintf("%v", x)] of a decoded value; how a float64 is printed is a
    parameter ([strconv]'s shortest decimal).  A map prints its keys in order. *)
Class Floats := { FormatFloat_v : string → string }.

Fixpoint insert_key (k v : string) (l : list (string * string)) : list (string * string) :=
  match l with
  | [] => [(k, v)]
  | (k', v') :: l' =>
      if String.eqb k k' then (k, v) :: l'
      else if String.ltb k k' then (k, v) :: l
      else (k', v') :: insert_key k v l'
  end.
Fixpoint join (sep : string) (l : list string) : string :=
  match l with
  | [] => ""
  | [s] => s
  | s :: l' => s +:+ sep +:+ join sep l'
  end.
Fixpoint fmt_v `{Floats} (v : JVal) : string :=
  match v with
  | JNull => "<nil>"
  | JBool b => if b then "true" else "false"
  | JNum l => FormatFloat_v l
  | JStr s => s
  | JArr l => "[" +:+ join " " (map fmt_v l) +:+ "]"
  | JObj l =>
      "map[" +:+ join " " (map (λ '(k, x), k +:+ ":" +:+ x)
        (fold_left (λ acc '(k, x), insert_key k x acc)
           (map (λ '(k, x), (k, fmt_v x)) l) [])) +:+ "]"
  end.

(** ** Encoding of strings *)
Definition hex_digit (n : Z) : ascii :=
  if n <? 10 then chr (48 + n) else chr (87 + n).
Definition u_escape (c : ascii) (k : string) : string :=
  let n := byte_code c in
  "\u00" +:+ String (hex_digit (n / 16)) (String (hex_digit (n mod 16)) k).

(** A byte below 0x80, with the HTML-safe escapes of [json.Marshal]. *)
Definition enc_byte (c : ascii) (k : string) : string :=
  let n := byte_code c in
  let esc x := String "092"%char (String x k) in
  if n =? 34 then esc "034"%char
  else if n =? 92 then esc "092"%char
  else if n =? 8 then esc "b"%char
  else if n =? 12 then esc "f"%char
  else if n =? 10 then esc "n"%char
  else if n =? 13 then esc "r"%char
  else if n =? 9 then esc "t"%char
  else if (n <? 32) || (n =? 60) || (n =? 62) || (n =? 38) then u_escape c k
  else String c k.

(** U+2028 and U+2029 are escaped too; a byte that is not UTF-8 is replaced. *)
Fixpoint enc_body (s : string) : string :=
  match s with
  | EmptyString => EmptyString
  | String c s1 =>
      if byte_code c <? 128 then enc_byte c (enc_body s1) else
      let bad := "\ufffd" +:+ enc_body s1 in
      match s1 with
      | EmptyString => bad
      | String c1 s2 =>
          if seq2 c c1 then String c (String c1 (enc_body s2)) else
          match s2 with
          | EmptyString => bad
          | String c2 s3 =>
              if seq3 c c1 c2 then
                if (byte_code c =? 226) && (byte_code c1 =? 128)
                   && ((byte_code c2 =? 168) || (byte_code c2 =? 169))
                then "\u202" +:+ String (hex_digit (byte_code c2 - 160)) (enc_body s3)
                else String c (String c1 (String c2 (enc_body s3))) else
              match s3 with
              | EmptyString => bad
              | String c3 s4 =>
                  if seq4 c c1 c2 c3
                  then String c (String c1 (String c2 (String c3 (enc_body s4))))
                  else bad
              end
          end
      end
  end.

Definition quote : string := String "034"%char EmptyString.
Definition enc_string (s : string) : string := quote +:+ enc_body s +:+ quote.

(** An object whose members are strings, in the order of the struct. *)
Fixpoint enc_members (l : list (string * string)) : string :=
  match l with
  | [] => ""
  | [(key, v)] => enc_string key +:+ ":" +:+ enc_string v
  | (key, v) :: l' => enc_string key +:+ ":" +:+ enc_string v +:+ "," +:+ enc_members l'
  end.
Definition enc_object (l : list (string * string)) : string :=
  "{" +:+ enc_members l +:+ "}".

(** An array of strings; a nil slice is [null]. *)
Fixpoint enc_elements (l : list string) : string :=
  match l with
  | [] => ""
  | [v] => enc_string v
  | v :: l' => enc_string v +:+ "," +:+ enc_elements l'
  end.

(** ** Encoding then parsing a string *)
Lemma prepend_some f t r : prepend f (Some (t, r)) = Some (f t, r).
Proof. done. Qed.

(** Checking a property of bytes by running through them. *)
Definition all_bytes : list ascii := map ascii_of_nat (seq 0 256).
Lemma all_bytes_in c : In c all_bytes.
Proof.
  unfold all_bytes. apply in_map_iff. exists (nat_of_ascii c).
  rewrite ascii_nat_embedding. split; [done|].
  apply in_seq. pose proof (nat_ascii_bounded c). lia.
Qed.
Lemma forall_bytes (p : ascii → bool) : forallb p all_bytes = true → ∀ c, p c = true.
Proof. rewrite forallb_forall. intros H c. apply H, all_bytes_in. Qed.


Lemma str_body_escape x y k :
  simple_escape x = Some y →
  str_body (String "092"%char (String x k)) = prepend (String y) (str_body k).
Proof. intros H. cbn [str_body]. simpl Ascii.eqb. cbv iota. by rewrite H. Qed.

Lemma str_body_u a b d f r k :
  hex4 a b d f = Some r → is_surrogate r = false →
  str_body (String "092"%char (String "u"%char (String a (String b (String d (String f k))))))
  = prepend (utf8_encode r) (str_body k).
Proof.
  intros H Hs. cbn [str_body]. simpl Ascii.eqb. cbv iota.
  change (simple_escape "u"%char) with (@None ascii). cbv iota. by rewrite H, Hs.
Qed.

Lemma str_body_plain c k :
  Ascii.eqb c "034"%char = false → Ascii.eqb c "092"%char = false →
  (byte_code c <? 32) = false → (byte_code c <? 128) = true →
  str_body (String c k) = prepend (String c) (str_body k).
Proof. intros H1 H2 H3 H4. cbn [str_body]. by rewrite H1, H2, H3, H4. Qed.

(** The tables behind [enc_byte], checked byte by byte. *)
Definition enc_table (c : ascii) : bool :=
  let n := byte_code c in
  let esc x := bool_decide (simple_escape x = Some c) in
  if n =? 34 then esc "034"%char
  else if n =? 92 then esc "092"%char
  else if n =? 8 then esc "b"%char
  else if n =? 12 then esc "f"%char
  else if n =? 10 then esc "n"%char
  else if n =? 13 then esc "r"%char
  else if n =? 9 then esc "t"%char
  else if (n <? 32) || (n =? 60) || (n =? 62) || (n =? 38) then
    bool_decide (hex4 "0" "0" (hex_digit (n / 16)) (hex_digit (n mod 16)) = Some n)
    && bool_decide (utf8_encode n EmptyString = String c EmptyString)
  else (128 <=? n) || negb (Ascii.eqb c "034"%char) && negb (Ascii.eqb c "092"%char).
Lemma enc_table_ok c : enc_table c = true.
Proof. revert c. apply forall_bytes. vm_compute. reflexivity. Qed.

Lemma utf8_encode_ascii r t : r < 128 → utf8_encode r t = String (chr r) t.
Proof. intros H. unfold utf8_encode. by rewrite (proj2 (Z.ltb_lt r 128)). Qed.

(** The body of an encoded byte is read back as that byte. *)
Lemma str_body_enc_byte c k t r :
  (byte_code c <? 128) = true →
  str_body k = Some (t, r) → str_body (enc_byte c k) = Some (String c t, r).
Proof.
  intros Hc Hk. pose proof (enc_table_ok c) as Ht. unfold enc_table in Ht. unfold enc_byte.
  repeat match type of Ht with
  | (if ?b then bool_decide _ else _) = true =>
      destruct b; [apply bool_decide_eq_true in Ht;
                   by rewrite (str_body_escape _ _ _ Ht), Hk|]
  end.
  destruct ((byte_code c <? 32) || _ || _ || _) eqn:Hu.
  - apply andb_true_iff in Ht as [H1 H2]. apply bool_decide_eq_true in H1, H2.
    unfold u_escape. rewrite !str_app_cons. change (EmptyString +:+ ?x) with x.
    apply Z.ltb_lt in Hc. rewrite utf8_encode_ascii in H2 by done. injection H2 as H2.
    rewrite (str_body_u _ _ _ _ _ _ H1), Hk.
    + simpl. by rewrite utf8_encode_ascii, H2.
    + unfold is_surrogate. destruct (Z.leb_spec 55296 (byte_code c)); [lia|done].
  - rewrite (proj2 (Z.leb_gt 128 _)) in Ht by (by apply Z.ltb_lt).
    apply andb_true_iff in Ht as [H1 H2]. apply negb_true_iff in H1, H2.
    rewrite !orb_false_iff in Hu. destruct Hu as [[[Hu _] _] _].
    by rewrite str_body_plain, Hk.
Qed.

Lemma enc_byte_app c k x : enc_byte c k +:+ x = enc_byte c (k +:+ x).
Proof. unfold enc_byte. repeat case_match; done. Qed.

Lemma seq_high c1 : cont_byte c1 = true → (byte_code c1 <? 128) = false.
Proof. unfold cont_byte, in_range. rewrite andb_true_iff, Z.leb_le, Z.ltb_ge. lia. Qed.

Lemma high_not_special c :
  (byte_code c <? 128) = false →
  Ascii.eqb c "034"%char = false ∧ Ascii.eqb c "092"%char = false ∧
  (byte_code c <? 32) = false.
Proof.
  rewrite !Z.ltb_ge. intros H. rewrite <- !not_true_iff_false, !Ascii.eqb_eq.
  split_and!; [intros ->; by vm_compute in H..|lia].
Qed.

(** U+2028 and U+2029, the two runes of three bytes that are escaped. *)
Lemma line_separator c c1 c2 :
  (byte_code c =? 226) && (byte_code c1 =? 128)
    && ((byte_code c2 =? 168) || (byte_code c2 =? 169)) = true →
  ∃ r, hex4 "2" "0" "2" (hex_digit (byte_code c2 - 160)) = Some r ∧
       is_surrogate r = false ∧
       ∀ t, utf8_encode r t = String c (String c1 (String c2 t)).
Proof.
  assert (Hinj : ∀ a b, byte_code a = byte_code b → a = b).
  { intros a b Hab. unfold byte_code in Hab. apply Nat2Z.inj in Hab.
    by rewrite <- (ascii_nat_embedding a), Hab, ascii_nat_embedding. }
  rewrite !andb_true_iff, orb_true_iff, !Z.eqb_eq. intros [[H1 H2] H3].
  apply (Hinj c "226"%char) in H1. apply (Hinj c1 "128"%char) in H2. subst.
  destruct H3 as [H3|H3];
    [apply (Hinj c2 "168"%char) in H3|apply (Hinj c2 "169"%char) in H3]; subst;
    eexists; repeat split.
Qed.

Lemma str_body_enc s x r :
  utf8_valid s = true → str_body x = Some (EmptyString, r) →
  str_body (enc_body s +:+ x) = Some (s, r).
Proof.
  intros Hs Hx. revert s Hs. apply utf8_ind.
  - done.
  - intros c s Hc IH. cbn [enc_body]. rewrite Hc, enc_byte_app. by apply str_body_enc_byte.
  - intros c c1 s Hc H2 IH. cbn [enc_body]. rewrite Hc, H2, !str_app_cons.
    destruct (high_not_special c Hc) as (E1 & E2 & E3).
    cbn [str_body]. by rewrite E1, E2, E3, Hc, H2, IH.
  - intros c c1 c2 s Hc H2 H3 IH. cbn [enc_body]. rewrite Hc, H2, H3.
    destruct (high_not_special c Hc) as (E1 & E2 & E3).
    case_match eqn:Hsep.
    + apply line_separator in Hsep as (q & Hq & Hq' & Hu).
      rewrite !str_app_cons. change (EmptyString +:+ ?y) with y. rewrite str_app_cons.
      by rewrite (str_body_u _ _ _ _ _ _ Hq Hq'), IH, prepend_some, Hu.
    + rewrite !str_app_cons. cbn [str_body]. by rewrite E1, E2, E3, Hc, H2, H3, IH.
  - intros c c1 c2 c3 s Hc H2 H3 H4 IH. cbn [enc_body]. rewrite Hc, H2, H3, H4.
    destruct (high_not_special c Hc) as (E1 & E2 & E3). rewrite !str_app_cons.
    cbn [str_body]. by rewrite E1, E2, E3, Hc, H2, H3, H4, IH.
Qed.

(** ** Encoding then parsing an object of strings *)
Definition str_members (l : list (string * string)) : list (string * JVal) :=
  map (λ '(key, v), (key, JStr v)) l.
Definition members_valid (l : list (string * string)) : bool :=
  forallb (λ '(key, v), utf8_valid key && utf8_valid v) l.

Lemma enc_string_shape s x :
  enc_string s +:+ x = String "034"%char (enc_body s +:+ String "034"%char x).
Proof.
  unfold enc_string, quote. rewrite !str_app_cons. change (EmptyString +:+ ?y) with y.
  by rewrite str_app_assoc, str_app_cons.
Qed.

Lemma str_body_string s x :
  utf8_valid s = true →
  str_body (enc_body s +:+ String "034"%char x) = Some (s, x).
Proof. intros H. by apply str_body_enc. Qed.

Lemma enc_string_head s x : skip_ws (enc_string s +:+ x) = enc_string s +:+ x.
Proof. by rewrite enc_string_shape. Qed.

Lemma skip_ws_id c x : is_ws c = false → skip_ws (String c x) = String c x.
Proof. simpl. by intros ->. Qed.

Lemma pval_enc_string n d s x :
  utf8_valid s = true → pval (S n) d (enc_string s +:+ x) = Got (JStr s) x.
Proof.
  intros H. rewrite enc_string_shape. cbn [pval]. rewrite skip_ws_id by done.
  cbn [Ascii.eqb Bool.eqb]. by rewrite str_body_string.
Qed.

(** One member, followed by a comma or by the closing brace. *)
Lemma pobj_member n d key v x :
  utf8_valid key = true → utf8_valid v = true →
  pobj (S (S n)) d (enc_string key +:+ ":" +:+ enc_string v +:+ x) =
  match next ","%char (skip_ws x), next "}"%char (skip_ws x) with
  | Some s5, _ => pbind (pobj (S n) d s5) (λ l, Got ((key, JStr v) :: l))
  | None, Some r => Got [(key, JStr v)] r
  | None, None => Bad
  end.
Proof.
  intros Hk Hv. rewrite enc_string_shape.
  change (pobj (S (S n)) d ?y) with
    (match next "034"%char (skip_ws y) with
     | None => Bad
     | Some s1 =>
       pbind (of_opt (str_body s1)) (λ key s2,
       match next ":"%char (skip_ws s2) with
       | None => Bad
       | Some s3 =>
         pbind (pval (S n) d s3) (λ v s4,
         match next ","%char (skip_ws s4), next "}"%char (skip_ws s4) with
         | Some s5, _ => pbind (pobj (S n) d s5) (λ l, Got ((key, v) :: l))
         | None, Some r => Got [(key, v)] r
         | None, None => Bad
         end)
       end)
     end).
  rewrite skip_ws_id by done. cbn [next Ascii.eqb Bool.eqb].
  rewrite str_body_string by done. cbn [of_opt pbind]. rewrite str_app_cons, skip_ws_id by done.
  cbn [next Ascii.eqb Bool.eqb].
  change (EmptyString +:+ ?y) with y. by rewrite pval_enc_string.
Qed.

Lemma pobj_enc l n d x :
  l ≠ [] → members_valid l = true → (List.length l < n)%nat →
  pobj n d (enc_members l +:+ String "}"%char x) = Got (str_members l) x.
Proof.
  revert n. induction l as [|[key v] l IH]; intros n Hl Hv Hn; [done|].
  simpl in Hv, Hn. rewrite !andb_true_iff in Hv. destruct Hv as [[Hk Hv] Hvl].
  destruct n as [|[|n]]; [lia|lia|]. destruct l as [|kv l].
  - cbn [enc_members]. rewrite !str_app_assoc. rewrite pobj_member by done. by rewrite skip_ws_id.
  - change (enc_members ((key, v) :: kv :: l)) with
      (enc_string key +:+ ":" +:+ enc_string v +:+ "," +:+ enc_members (kv :: l)).
    rewrite !str_app_assoc. rewrite (str_app_cons ","%char).
    change (EmptyString +:+ ?y) with y.
    rewrite pobj_member, skip_ws_id by done. cbn [next Ascii.eqb Bool.eqb].
    rewrite IH by (try done; simpl in *; lia). done.
Qed.

Lemma enc_members_length l : (List.length l ≤ String.length (enc_members l))%nat.
Proof.
  induction l as [|[key v] [|kv l] IH]; [done| |].
  - simpl. rewrite str_length_app. unfold enc_string, quote. rewrite str_app_cons.
    simpl. lia.
  - change (enc_members ((key, v) :: kv :: l)) with
      (enc_string key +:+ ":" +:+ enc_string v +:+ "," +:+ enc_members (kv :: l)).
    rewrite !str_length_app. change (String.length ",") with 1%nat. simpl List.length in *.
    lia.
Qed.

(** What [json.Marshal] writes for a struct of strings is parsed back. *)
Lemma json_parse_enc_object l :
  l ≠ [] → members_valid l = true →
  json_parse (enc_object l) = Some (JObj (str_members l)).
Proof.
  intros Hl Hv. unfold json_parse, enc_object. rewrite str_app_cons.
  change (EmptyString +:+ ?y) with y.
  set (body := enc_members l +:+ "}").
  assert (Hq : ∃ b, body = String "034"%char b).
  { unfold body. destruct l as [|[key v] [|kv l]]; [done| |];
      cbn [enc_members]; rewrite !str_app_assoc, enc_string_shape; by eexists. }
  assert (Hlen : (List.length l < 2 * String.length body)%nat).
  { unfold body. rewrite str_length_app. simpl. pose proof (enc_members_length l). lia. }
  cbn [String.length]. set (n := (2 * S (String.length body))%nat).
  assert (Hp : pobj n (0 + 1) body = Got (str_members l) EmptyString).
  { unfold body. apply pobj_enc; [done|done|]. unfold n. lia. }
  change (2 * S (String.length body))%nat with (S n). cbn [pval].
  rewrite skip_ws_id by done. cbn [Ascii.eqb Bool.eqb].
  change (maxNestingDepth <=? 0) with false. cbv iota.
  destruct Hq as [b Hb]. rewrite Hb in *. rewrite skip_ws_id by done.
  cbn [next Ascii.eqb Bool.eqb]. by rewrite Hp.
Qed.

(** ** The fuel of the parser is enough *)
Lemma skip_ws_len s : (String.length (skip_ws s) ≤ String.length s)%nat.
Proof. induction s as [|c s IH]; simpl; [done|]. case_match; simpl; lia. Qed.

Lemma next_len c s r : next c s = Some r → String.length s = S (String.length r).
Proof. destruct s as [|x s]; simpl; [done|]. case_match; [by intros [= <-]|done]. Qed.

Lemma next_ws_len c s r : next c (skip_ws s) = Some r → (String.length r < String.length s)%nat.
Proof. intros H. apply next_len in H. pose proof (skip_ws_len s). lia. Qed.

Lemma str_body_len s t r : str_body s = Some (t, r) → (String.length r ≤ String.length s)%nat.
Proof.
  revert t r. cut (∀ n s, (String.length s ≤ n)%nat → ∀ t r, str_body s = Some (t, r) → (String.length r ≤ String.length s)%nat).
  { intros H t r. by apply (H (String.length s)). }
  clear s. induction n as [|n IH]; intros s Hn t r; (destruct s as [|c s]; [done|]).
  { simpl in Hn. lia. }
  assert (Hrec : ∀ f o s', (String.length s' ≤ String.length s)%nat → o = str_body s' →
            ∀ t r, prepend f o = Some (t, r) → (String.length r ≤ String.length (String c s))%nat).
  { intros f o s' Hs' -> t' r'. destruct (str_body s') as [[t1 r1]|] eqn:E; [|done].
    intros [= _ <-]. apply IH in E; simpl in *; lia. }
  cbn [str_body]. intros H.
  repeat match type of H with
  | Some _ = Some _ => injection H as _ <-; simpl; lia
  | None = Some _ => discriminate H
  | prepend _ _ = Some _ =>
      eapply Hrec in H; [exact H| |reflexivity]; simpl; lia
  | (match ?x with _ => _ end) = Some _ => destruct x
  end.
Qed.

Lemma take_digits_len s d r : take_digits s = (d, r) → (String.length r ≤ String.length s)%nat.
Proof.
  revert d r. induction s as [|c s IH]; simpl; intros d r; [by intros [= _ <-]|].
  case_match; [|by intros [= _ <-]].
  destruct (take_digits s) as [d' r'] eqn:E. intros [= _ <-].
  specialize (IH _ _ eq_refl). lia.
Qed.

Lemma num_int_len s d r : num_int s = Some (d, r) → (String.length r ≤ String.length s)%nat.
Proof.
  destruct s as [|c s]; simpl; [done|]. case_match; [intros [= _ <-]; lia|].
  case_match; [|done]. destruct (take_digits s) as [d' r'] eqn:E. intros [= _ <-].
  apply take_digits_len in E. lia.
Qed.

Lemma num_frac_len s d r : num_frac s = Some (d, r) → (String.length r ≤ String.length s)%nat.
Proof.
  destruct s as [|c s]; simpl; [by intros [= _ <-]|]. case_match; [|by intros [= _ <-]].
  destruct (take_digits s) as [d' r'] eqn:E. case_match; [done|]. intros [= _ <-].
  apply take_digits_len in E. lia.
Qed.

Lemma num_exp_len s d r : num_exp s = Some (d, r) → (String.length r ≤ String.length s)%nat.
Proof.
  destruct s as [|c s]; simpl; [by intros [= _ <-]|]. case_match; [|by intros [= _ <-]].
  destruct (match s with EmptyString => _ | String g t => _ end) as [sg s''] eqn:Es.
  assert (String.length s'' ≤ String.length s)%nat.
  { destruct s as [|g t]; [injection Es as _ <-; lia|]. case_match; injection Es as _ <-; simpl; lia. }
  destruct (take_digits s'') as [d' r'] eqn:E.
  destruct (String.eqb d' ""); [discriminate|]. intros [= _ <-].
  apply take_digits_len in E. lia.
Qed.

Lemma num_lit_len s d r : num_lit s = Some (d, r) → (String.length r ≤ String.length s)%nat.
Proof.
  unfold num_lit.
  destruct (match s with EmptyString => _ | String c s' => _ end) as [sg s1] eqn:Es.
  assert (String.length s1 ≤ String.length s)%nat.
  { destruct s as [|g t]; [injection Es as _ <-; lia|]. case_match; injection Es as _ <-; simpl; lia. }
  intros Hr.
  destruct (num_int s1) as [[i s2]|] eqn:E1; [|done]. simpl in Hr.
  destruct (num_frac s2) as [[f s3]|] eqn:E2; [|done]. simpl in Hr.
  destruct (num_exp s3) as [[e s4]|] eqn:E3; [|done]. injection Hr as _ <-.
  apply num_int_len in E1. apply num_frac_len in E2. apply num_exp_len in E3. lia.
Qed.

Lemma str_drop_len n s : (String.length (str_drop n s) ≤ String.length s)%nat.
Proof.
  revert s. induction n as [|n IH]; intros [|c s]; simpl; try lia. specialize (IH s). lia.
Qed.

(** [p] does not run out of fuel, and leaves at most [n] characters. *)
Definition leaves {A} (n : nat) (p : pres A) : Prop :=
  match p with
  | Got _ r => (String.length r ≤ n)%nat
  | Bad => True
  | OutOfFuel => False
  end.

Lemma leaves_bind {A B} n m (p : pres A) (k : A → string → pres B) :
  leaves m p → (∀ a r, (String.length r ≤ m)%nat → leaves n (k a r)) → leaves n (pbind p k).
Proof. destruct p; simpl; auto. Qed.

Lemma leaves_opt {A} n (o : option (A * string)) :
  (∀ a r, o = Some (a, r) → (String.length r ≤ n)%nat) → leaves n (of_opt o).
Proof. destruct o as [[a r]|]; simpl; [|done]. intros H. by eapply H. Qed.

Lemma leaves_lit n w v s : (String.length s ≤ n)%nat → leaves n (lit w v s).
Proof.
  unfold lit. case_match; simpl; [|done].
  pose proof (str_drop_len (String.length w) s). lia.
Qed.

Lemma parser_fuel n :
  (∀ d s, (2 * String.length s < n)%nat → leaves (String.length s) (pval n d s)) ∧
  (∀ d s, (2 * String.length s < n)%nat → leaves (String.length s) (pobj n d s)) ∧
  (∀ d s, (2 * String.length s + 1 < n)%nat → leaves (String.length s) (parr n d s)).
Proof.
  induction n as [|n (IHv & IHo & IHa)]; [repeat split; intros; lia|].
  split_and!; intros d s Hn.
  - cbn [pval]. pose proof (skip_ws_len s) as Hws.
    destruct (skip_ws s) as [|c s1]; [done|]. cbn [String.length] in Hws.
    pose proof (skip_ws_len s1) as Hws1.
    case_match; [|case_match; [|case_match; [|case_match; [|repeat case_match]]]].
    + case_match; [done|]. case_match eqn:Hnx.
      * apply next_ws_len in Hnx. simpl. lia.
      * eapply leaves_bind; [apply IHo; lia|]. intros a r Hr. simpl. lia.
    + case_match; [done|]. case_match eqn:Hnx.
      * apply next_ws_len in Hnx. simpl. lia.
      * eapply leaves_bind; [apply IHa; lia|]. intros a r Hr. simpl. lia.
    + eapply leaves_bind; [apply leaves_opt, str_body_len|]. intros a r Hr. simpl. lia.
    + eapply leaves_bind; [apply leaves_opt, num_lit_len|]. intros a r Hr. simpl in *. lia.
    + apply leaves_lit. simpl. lia.
    + apply leaves_lit. simpl. lia.
    + apply leaves_lit. simpl. lia.
    + done.
  - cbn [pobj]. case_match eqn:Hq; [|done]. apply next_ws_len in Hq.
    eapply leaves_bind; [apply leaves_opt, str_body_len|]. intros key s2 Hs2.
    case_match eqn:Hc; [|done]. apply next_ws_len in Hc.
    eapply leaves_bind; [apply IHv; lia|]. intros v s4 Hs4.
    case_match eqn:Hcm.
    + apply next_ws_len in Hcm. eapply leaves_bind; [apply IHo; lia|].
      intros l r Hr. simpl. lia.
    + case_match eqn:He; [|done]. apply next_ws_len in He. simpl. lia.
  - cbn [parr]. eapply leaves_bind; [apply IHv; lia|]. intros v s1 Hs1.
    case_match eqn:Hcm.
    + apply next_ws_len in Hcm. eapply leaves_bind; [apply IHa; lia|].
      intros l r Hr. simpl. lia.
    + case_match eqn:He; [|done]. apply next_ws_len in He. simpl. lia.
Qed.

(** [json_parse] decides every text: it never answers for lack of fuel. *)
Lemma json_parse_fuel s : pval (S (2 * String.length s)) 0 s ≠ OutOfFuel.
Proof.
  destruct (parser_fuel (S (2 * String.length s))) as [H _].
  specialize (H 0 s ltac:(lia)). by intros E; rewrite E in H.
Qed.
