(* ===== verification/Sdk.v ===== *)
(** * The interfaces to code outside the repository

    The Cosmos SDK, [cosmossdk.io/math], the bank, auth, IBC and capability
    keepers are not part of cosvian.  Each is a class of operations ([Env] bundles
    them) with a class of laws that state its documented behaviour ([EnvLaws]).
    [RefEnv.v] instantiates both. *)

From S2P Require Import Prelude GoLib Json.
From Stdlib Require Import Strings.Ascii Strings.String Sorting.Sorted.
From stdpp Require Import strings.

Local Open Scope Z_scope.

(** ** Values *)

(** [math.LegacyDec] wraps a [*big.Int] that counts units of 10^-18; [None] is
    the nil pointer of the zero value [LegacyDec{}]. *)
Definition Dec : Type := option Z.
Definition precision : Z := 10 ^ 18.
Definition LegacyZeroDec : Dec := Some 0.
Definition LegacyOneDec : Dec := Some precision.

(** [sdk.Coin]; the amount is a non-nil [math.Int]. *)
Record Coin : Type := mkCoin { c_denom : string; c_amount : Z }.
Definition Coins : Type := list Coin.

#[export] Instance Coin_eq_dec : EqDecision Coin.
Proof. solve_decision. Defined.

(** A byte slice that may be nil: [sdk.AccAddress] and [[]byte]. *)
Definition Slice : Type := option string.
Definition bytes_of (s : Slice) : string := default EmptyString s.
(** [len(s) == 0] *)
Definition slice_empty (s : Slice) : bool := String.eqb (bytes_of s) EmptyString.

(** The total of a denomination in a list of coins. *)
Fixpoint coins_amount (cs : Coins) (d : string) : Z :=
  match cs with
  | [] => 0
  | c :: cs' =>
      (if String.eqb (c_denom c) d then c_amount c else 0) + coins_amount cs' d
  end.

(** The order the SDK keeps coin sets in. *)
Definition coins_sorted (cs : Coins) : Prop :=
  StronglySorted (λ a b, String.ltb (c_denom a) (c_denom b) = true) cs.

(** ** [cosmossdk.io/math] *)

(** Banker's rounding of [z] / 10^18. *)
Definition chop_pos (z : Z) : Z :=
  let q := z / precision in
  match z mod precision ?= precision / 2 with
  | Lt => q
  | Gt => q + 1
  | Eq => if Z.even q then q else q + 1
  end.
Definition chop (z : Z) : Z := if z <? 0 then - chop_pos (- z) else chop_pos z.

Class SdkMath := {
  dec_limit : Z;   (* a LegacyDec of this magnitude overflows *)
  int_limit : Z;   (* a math.Int of this magnitude overflows *)
  LegacyNewDecFromStr : string → res Dec;
  LegacyNewDecFromInt : Z → Dec;
  LegacyNewDecWithPrec : Z → Z → Dec;
  DecString : Dec → string;
  DecIsZero : Dec → res bool;
  DecIsNegative : Dec → res bool;
  DecIsPositive : Dec → res bool;
  DecLT : Dec → Dec → res bool;
  DecGT : Dec → Dec → res bool;
  DecEqual : Dec → Dec → res bool;
  DecNeg : Dec → res Dec;
  DecAdd : Dec → Dec → res Dec;
  DecSub : Dec → Dec → res Dec;
  DecMul : Dec → Dec → res Dec;
  DecQuo : Dec → Dec → res Dec;
  DecMulInt : Dec → Z → res Dec;
  DecMulInt64 : Dec → Z → res Dec;
  DecQuoInt64 : Dec → Z → res Dec;
  DecTruncateInt : Dec → res Z;
  (* what a LegacyDec field is after Marshal and Unmarshal *)
  dec_wire : Dec → Dec;
  IntAdd : Z → Z → res Z;
  IntSub : Z → Z → res Z;
  IntQuo : Z → Z → res Z;
  IntUint64 : Z → res Z;
  IntString : Z → string;
  (* a math.Int that may be the zero value, with its nil pointer *)
  IntIsNegative : option Z → res bool;
  int_wire : option Z → option Z
}.

Definition dec_ret `{SdkMath} (z : Z) : res Dec :=
  if Z.abs z <? dec_limit then Ok (Some z) else Panic "Int overflow".
Definition int_ret `{SdkMath} (z : Z) : res Z :=
  if Z.abs z <? int_limit then Ok z else Panic "Int overflow".

(** The decimal literals of the documentation of [LegacyNewDecFromStr]: an
    optional minus sign, digits, and at most 18 decimals after a point. *)
Definition digit_val (c : ascii) : option Z :=
  let n := Z.of_nat (nat_of_ascii c) - 48 in
  if (0 <=? n) && (n <=? 9) then Some n else None.
Fixpoint digits_val (s : string) (acc : Z) : option Z :=
  match s with
  | EmptyString => Some acc
  | String c s' => d ← digit_val c; digits_val s' (10 * acc + d)
  end.
Definition dec_literal_pos (s : string) : option Z :=
  match Split s "."%char with
  | [w] => if String.eqb w "" then None
           else v ← digits_val w 0; Some (v * precision)
  | [w; f] =>
      if String.eqb w "" || String.eqb f "" || (18 <? String.length f)%nat then None
      else v ← digits_val (w +:+ f) 0;
           Some (v * 10 ^ (18 - Z.of_nat (String.length f)))
  | _ => None
  end.
Definition dec_literal (s : string) : option Z :=
  match s with
  | String "-" s' => v ← dec_literal_pos s'; Some (- v)
  | _ => dec_literal_pos s
  end.

Class SdkMathLaws `{SdkMath} : Prop := {
  dec_limit_ge : 2 ^ 255 ≤ dec_limit;
  int_limit_ge : 2 ^ 255 ≤ int_limit;
  DecFromStr_literal s z :
    dec_literal s = Some z → Z.abs z < 2 ^ 255 → LegacyNewDecFromStr s = Ok (Some z);
  DecFromStr_ok s d :
    LegacyNewDecFromStr s = Ok d → ∃ z, d = Some z ∧ Z.abs z < dec_limit;
  DecFromStr_total s : ∀ p, LegacyNewDecFromStr s ≠ Panic p;
  DecFromStr_String z :
    Z.abs z < dec_limit → LegacyNewDecFromStr (DecString (Some z)) = Ok (Some z);
  DecFromInt_spec i : LegacyNewDecFromInt i = Some (i * precision);
  DecWithPrec_spec i p :
    0 ≤ p ≤ 18 → LegacyNewDecWithPrec i p = Some (i * 10 ^ (18 - p));
  DecIsZero_spec a : DecIsZero (Some a) = Ok (a =? 0);
  DecIsNegative_spec a : DecIsNegative (Some a) = Ok (a <? 0);
  DecIsPositive_spec a : DecIsPositive (Some a) = Ok (0 <? a);
  DecLT_spec a b : DecLT (Some a) (Some b) = Ok (a <? b);
  DecGT_spec a b : DecGT (Some a) (Some b) = Ok (b <? a);
  DecEqual_spec a b : DecEqual (Some a) (Some b) = Ok (a =? b);
  DecNeg_spec a : DecNeg (Some a) = Ok (Some (- a));
  DecAdd_spec a b : DecAdd (Some a) (Some b) = dec_ret (a + b);
  DecSub_spec a b : DecSub (Some a) (Some b) = dec_ret (a - b);
  DecMul_spec a b : DecMul (Some a) (Some b) = dec_ret (chop (a * b));
  DecQuo_spec a b :
    b ≠ 0 →
    DecQuo (Some a) (Some b) = dec_ret (chop (Z.quot (a * precision * precision) b));
  DecMulInt_spec a i : DecMulInt (Some a) i = dec_ret (a * i);
  DecMulInt64_spec a i : DecMulInt64 (Some a) i = dec_ret (a * i);
  DecQuoInt64_spec a i : i ≠ 0 → DecQuoInt64 (Some a) i = Ok (Some (Z.quot a i));
  DecTruncateInt_spec a : DecTruncateInt (Some a) = int_ret (Z.quot a precision);
  (* methods on the nil pointer panic *)
  DecIsZero_nil : ∃ p, DecIsZero None = Panic p;
  DecIsNegative_nil : ∃ p, DecIsNegative None = Panic p;
  DecMulInt_nil i : ∃ p, DecMulInt None i = Panic p;
  dec_wire_some z : dec_wire (Some z) = Some z;
  dec_wire_nil : dec_wire None = Some 0;
  IntAdd_spec a b : IntAdd a b = int_ret (a + b);
  IntSub_spec a b : IntSub a b = int_ret (a - b);
  IntQuo_spec a b : b ≠ 0 → IntQuo a b = int_ret (Z.quot a b);
  IntUint64_spec a : is_u64 a → IntUint64 a = Ok a;
  IntUint64_inv a n : IntUint64 a = Ok n → n = a ∧ is_u64 a;
  IntIsNegative_spec a : IntIsNegative (Some a) = Ok (a <? 0);
  int_wire_some a : int_wire (Some a) = Some a;
  int_wire_nil : int_wire None = Some 0
}.

(** ** Coins of [cosmos-sdk/types] *)

(** The documented denomination syntax: a letter and 2 to 127 more characters
    among letters, digits and [/:._-]. *)
Definition is_letter (c : ascii) : bool :=
  let n := nat_of_ascii c in
  ((65 <=? n) && (n <=? 90) || (97 <=? n) && (n <=? 122))%nat.
Definition is_denom_char (c : ascii) : bool :=
  is_letter c || match digit_val c with Some _ => true | None => false end
  || existsb (Ascii.eqb c) (String.list_ascii_of_string "/:._-").
Definition denom_syntax (d : string) : bool :=
  match d with
  | EmptyString => false
  | String c d' =>
      is_letter c && forallb is_denom_char (String.list_ascii_of_string d')
      && (2 <=? String.length d')%nat && (String.length d' <=? 127)%nat
  end.

Class SdkCoins := {
  ValidateDenom : string → bool;
  NewCoin : string → Z → res Coin;
  NewCoins : Coins → res Coins;
  AmountOf : Coins → string → res Z;
  CoinsIsZero : Coins → bool
}.

Class SdkCoinsLaws `{SdkCoins} : Prop := {
  ValidateDenom_spec d : ValidateDenom d = denom_syntax d;
  NewCoin_spec d a :
    NewCoin d a = if ValidateDenom d && (0 <=? a) then Ok (mkCoin d a)
                  else Panic "invalid coin";
  NewCoins_nil : NewCoins [] = Ok [];
  NewCoins_one d a :
    ValidateDenom d = true → 0 ≤ a →
    NewCoins [mkCoin d a] = Ok (if a =? 0 then [] else [mkCoin d a]);
  AmountOf_spec cs d :
    ValidateDenom d = true → coins_sorted cs → AmountOf cs d = Ok (coins_amount cs d);
  CoinsIsZero_spec cs : CoinsIsZero cs = forallb (λ c, c_amount c =? 0) cs
}.

(** ** Addresses *)
Class AddressCodec := {
  (* address.Codec: the bytes returned with an error may be nil *)
  StringToBytes : string → Slice * option error;
  BytesToString : Slice → string * option error;
  AccAddressFromBech32 : string → Slice * option error;
  AccAddressString : Slice → string;
  NewModuleAddress : string → string
}.

Class AddressCodecLaws `{AddressCodec} : Prop := {
  (* the codec of the SDK and the global Bech32 parser agree on success *)
  StringToBytes_nonempty s b : StringToBytes s = (b, None) → slice_empty b = false;
  StringToBytes_err s b e : StringToBytes s = (b, Some e) → slice_empty b = true;
  AccAddress_roundtrip b :
    slice_empty (Some b) = false →
    AccAddressFromBech32 (AccAddressString (Some b)) = (Some b, None)
}.

(** ** The bank and auth keepers *)
Class BankKeeper := {
  BankState : Type;
  GetBalance : BankState → string → string → Z;
  SpendableCoins : BankState → string → Coins;
  GetAllBalances : BankState → string → Coins;
  GetSupply : BankState → string → Z;
  GetModuleAddress : string → Slice;
  SendCoins : string → string → Coins → stM BankState unit;
  SendCoinsFromAccountToModule : string → string → Coins → stM BankState unit;
  SendCoinsFromModuleToAccount : string → string → Coins → stM BankState unit;
  SendCoinsFromModuleToModule : string → string → Coins → stM BankState unit;
  MintCoins : string → Coins → stM BankState unit;
  BurnCoins : string → Coins → stM BankState unit;
  GetAccount : BankState → string → bool   (* does the account exist *)
}.

(** The ledger [b'] is [b] after moving [cs] from [f] to [t]. *)
Definition moved `{BankKeeper} (b b' : BankState) (f t : string) (cs : Coins) : Prop :=
  (∀ a d, GetBalance b' a d =
     GetBalance b a d - (if String.eqb a f then coins_amount cs d else 0)
                      + (if String.eqb a t then coins_amount cs d else 0)) ∧
  (∀ d, GetSupply b' d = GetSupply b d).

Class BankLaws `{AddressCodec} `{BankKeeper} : Prop := {
  SendCoins_ok f t cs b b' u : SendCoins f t cs b = (b', Ok u) → moved b b' f t cs;
  SendCoinsFromAccountToModule_ok f m cs b b' u :
    SendCoinsFromAccountToModule f m cs b = (b', Ok u) →
    moved b b' f (NewModuleAddress m) cs;
  SendCoinsFromModuleToAccount_ok m t cs b b' u :
    SendCoinsFromModuleToAccount m t cs b = (b', Ok u) →
    moved b b' (NewModuleAddress m) t cs;
  SendCoinsFromModuleToModule_ok m m' cs b b' u :
    SendCoinsFromModuleToModule m m' cs b = (b', Ok u) →
    moved b b' (NewModuleAddress m) (NewModuleAddress m') cs;
  MintCoins_ok m cs b b' u :
    MintCoins m cs b = (b', Ok u) →
    (∀ a d, GetBalance b' a d = GetBalance b a d +
       (if String.eqb a (NewModuleAddress m) then coins_amount cs d else 0)) ∧
    (∀ d, GetSupply b' d = GetSupply b d + coins_amount cs d);
  BurnCoins_ok m cs b b' u :
    BurnCoins m cs b = (b', Ok u) →
    (∀ a d, GetBalance b' a d = GetBalance b a d -
       (if String.eqb a (NewModuleAddress m) then coins_amount cs d else 0)) ∧
    (∀ d, GetSupply b' d = GetSupply b d - coins_amount cs d);
  SpendableCoins_sorted b a : coins_sorted (SpendableCoins b a);
  GetModuleAddress_some m a : GetModuleAddress m = Some a → a = NewModuleAddress m
}.

(** ** Stores

    The accesses of a KV store that fail, by key; a healthy node has none. *)
Class KVFaults := {
  kv_get_err : string → option error;
  kv_set_err : string → option error;
  kv_iter_err : string → option error;
  Uint64ToBigEndian : Z → string;
  BigEndianToUint64 : string → Z
}.

Class KVLaws `{KVFaults} : Prop := {
  kv_get_ok k : kv_get_err k = None;
  kv_set_ok k : kv_set_err k = None;
  kv_iter_ok k : kv_iter_err k = None;
  BigEndian_length n : String.length (Uint64ToBigEndian n) = 8%nat;
  BigEndian_roundtrip n : is_u64 n → BigEndianToUint64 (Uint64ToBigEndian n) = n
}.

(** ** IBC channels and port capabilities *)
Class IbcKeeper := {
  IbcState : Type;
  (* the connection hops of the channel end, when the channel is found *)
  GetChannel : IbcState → string → string → option (list string);
  GetNextSequenceSend : IbcState → string → string → option Z;
  (* port, channel, timeout timestamp (height zero), data *)
  SendPacket : string → string → Z → string → stM IbcState Z;
  CapState : Type;
  GetCapability : CapState → string → bool;
  NewCapability : string → stM CapState unit;
  PortIdentifierValidator : string → option error
}.

Class IbcLaws `{IbcKeeper} : Prop := {
  SendPacket_ok p c t d s s' q :
    SendPacket p c t d s = (s', Ok q) → GetNextSequenceSend s p c = Some q;
  SendPacket_total p c t d s x : (SendPacket p c t d s).2 ≠ Panic x;
  NewCapability_total n s x : (NewCapability n s).2 ≠ Panic x;
  GetNextSequenceSend_range s p c q : GetNextSequenceSend s p c = Some q → is_u64 q
}.

(** ** Gas and messages *)
Class GasMeter := {
  GasState : Type;
  ConsumeGas : Z → stM GasState unit
}.

(** The messages [x/fees] distinguishes; a [MsgExec] carries the cached values of
    its [Any]s, [None] where the cached value is not an [sdk.Msg]. *)
#[warnings="-register-all"]
Inductive Msg : Type :=
| MsgSend
| MsgMultiSend
| MsgStoreCode
| MsgInstantiateContract
| MsgExecuteContract (msg : string)
| MsgMigrateContract
| MsgUpdateAdmin
| MsgExec (inner : list (option Msg))
| MsgOther (typeURL : string).

Class MsgURLs := { MsgTypeURL : Msg → string }.

(** [errorsmod.Wrap]: "if err is nil, this returns nil". *)
Class ErrorsMod := { errors_Wrap : option error → string → option error }.
Class ErrorsModLaws `{ErrorsMod} : Prop := {
  errors_Wrap_nil d : errors_Wrap None d = None;
  errors_Wrap_some e d : errors_Wrap (Some e) d = Some (ErrWrap e d)
}.

(** JSON of a Go type whose methods are outside the repository. *)
Class JsonCodec (A : Type) := {
  json_Marshal : A → res string;
  json_Unmarshal : string → res A
}.
(** On the values of [dom] encoding succeeds and decoding undoes it. *)
Class JsonLaws (A : Type) (dom : A → bool) `{JsonCodec A} : Prop := {
  json_total a : dom a = true → ∃ s, json_Marshal a = Ok s;
  json_roundtrip a s : dom a = true → json_Marshal a = Ok s → json_Unmarshal s = Ok a
}.

(** ** The bundle *)
Class Env := {
  env_unicode :: Unicode;
  env_floats :: Floats;
  env_math :: SdkMath;
  env_coins :: SdkCoins;
  env_addr :: AddressCodec;
  env_bank :: BankKeeper;
  env_kv :: KVFaults;
  env_ibc :: IbcKeeper;
  env_gas :: GasMeter;
  env_msgs :: MsgURLs;
  env_errors :: ErrorsMod
}.

Class EnvLaws (E : Env) : Prop := {
  laws_unicode :: UnicodeLaws;
  laws_math :: SdkMathLaws;
  laws_coins :: SdkCoinsLaws;
  laws_addr :: AddressCodecLaws;
  laws_bank :: BankLaws;
  laws_kv :: KVLaws;
  laws_ibc :: IbcLaws;
  laws_errors :: ErrorsModLaws
}.

(** ** Consequences of the laws *)
Section MathFacts.
Context `{SdkMathLaws}.

Lemma dec_ret_ok z : Z.abs z < 2 ^ 255 → dec_ret z = Ok (Some z).
Proof.
  intros Hz. unfold dec_ret. pose proof dec_limit_ge.
  destruct (Z.ltb_spec (Z.abs z) dec_limit); [done|lia].
Qed.

Lemma int_ret_ok z : Z.abs z < 2 ^ 255 → int_ret z = Ok z.
Proof.
  intros Hz. unfold int_ret. pose proof int_limit_ge.
  destruct (Z.ltb_spec (Z.abs z) int_limit); [done|lia].
Qed.

Lemma dec_ret_inv z d : dec_ret z = Ok d → d = Some z.
Proof. unfold dec_ret. case_match; [by intros [= <-]|done]. Qed.

Lemma dec_ret_fits z d : dec_ret z = Ok d → d = Some z ∧ Z.abs z < dec_limit.
Proof.
  unfold dec_ret. destruct (Z.ltb_spec (Z.abs z) dec_limit); [by intros [= <-]|done].
Qed.

Lemma dec_ret_below z : Z.abs z < dec_limit → dec_ret z = Ok (Some z).
Proof. intros Hz. unfold dec_ret. by rewrite (proj2 (Z.ltb_lt _ _) Hz). Qed.

Lemma int_ret_inv z i : int_ret z = Ok i → i = z.
Proof. unfold int_ret. case_match; [by intros [= <-]|done]. Qed.
End MathFacts.

(** ** Banker's rounding *)
Lemma chop_pos_bounds z :
  0 ≤ z → z - precision / 2 ≤ precision * chop_pos z ≤ z + precision / 2.
Proof.
  intros Hz. unfold chop_pos. pose proof (Z.div_mod z precision ltac:(done)) as Hd.
  pose proof (Z.mod_pos_bound z precision ltac:(done)) as Hm.
  set (q := z / precision) in *. set (r := z mod precision) in *. clearbody q r.
  change precision with 1000000000000000000 in *.
  change (1000000000000000000 / 2) with 500000000000000000 in *.
  destruct (Z.compare_spec r 500000000000000000); [|lia|lia].
  destruct (Z.even q); lia.
Qed.

Lemma chop_bounds z : 2 * Z.abs (precision * chop z - z) ≤ precision.
Proof.
  unfold chop. destruct (Z.ltb_spec z 0) as [Hz|Hz].
  - pose proof (chop_pos_bounds (- z) ltac:(lia)) as H.
    change precision with 1000000000000000000 in *.
    change (1000000000000000000 / 2) with 500000000000000000 in *. lia.
  - pose proof (chop_pos_bounds z Hz) as H.
    change precision with 1000000000000000000 in *.
    change (1000000000000000000 / 2) with 500000000000000000 in *. lia.
Qed.

Lemma chop_nonneg z : 0 ≤ z → 0 ≤ chop z.
Proof.
  intros Hz. unfold chop. rewrite (proj2 (Z.ltb_ge z 0) Hz). unfold chop_pos.
  assert (0 ≤ z / precision) by (apply Z.div_pos; done).
  case_match; [case_match|..]; lia.
Qed.

Lemma chop_small z b : 1 ≤ b → Z.abs z < b → Z.abs (chop z) < b.
Proof.
  intros Hb Hz. pose proof (chop_bounds z) as H.
  change precision with 1000000000000000000 in *. lia.
Qed.

Lemma coins_amount_one c d :
  coins_amount [c] d = if String.eqb (c_denom c) d then c_amount c else 0.
Proof. simpl. by case_match; rewrite ?Z.add_0_r. Qed.

Lemma coins_sorted_nil : coins_sorted [].
Proof. constructor. Qed.

Lemma coins_sorted_one c : coins_sorted [c].
Proof. repeat constructor. Qed.

#[export] Hint Resolve coins_sorted_nil coins_sorted_one : sdk.
#[export] Hint Rewrite @DecIsZero_spec @DecIsNegative_spec @DecIsPositive_spec
  @DecLT_spec @DecGT_spec @DecEqual_spec @DecNeg_spec @DecAdd_spec @DecSub_spec
  @DecMul_spec @DecMulInt_spec @DecMulInt64_spec @DecTruncateInt_spec
  @DecFromInt_spec @IntAdd_spec @IntSub_spec @dec_wire_some @dec_wire_nil
  using typeclasses eauto : sdk.
