(* ===== verification/RefEnv.v ===== *)
(** * A reference instance of the interfaces

    Concrete functions for everything [Sdk.v] leaves abstract, with proofs of the
    laws: the laws are consistent, and the witnesses of the theorems compute in
    this environment.  Balances are a finite map; amounts, decimals and
    denominations follow the documentation quoted in [Sdk.v]. *)

From S2P Require Import Prelude GoLib Json Sdk.
From Stdlib Require Import Strings.Ascii Strings.String Sorting.Sorted.
From stdpp Require Import strings.

Local Open Scope Z_scope.

(** ** Decimal strings *)
Definition digit_of (n : Z) : ascii := ascii_of_nat (Z.to_nat (n + 48)).

Lemma digit_val_of n : 0 ≤ n < 10 → digit_val (digit_of n) = Some n.
Proof.
  intros H. unfold digit_val, digit_of. rewrite nat_ascii_embedding by lia.
  rewrite Z2Nat.id by lia. replace (n + 48 - 48) with n by lia.
  destruct (Z.leb_spec 0 n), (Z.leb_spec n 9); simpl; lia || done.
Qed.

Lemma digits_val_app a b acc :
  digits_val (a +:+ b) acc = (v ← digits_val a acc; digits_val b v).
Proof.
  revert acc. induction a as [|c a IH]; intros acc; [done|].
  rewrite str_app_cons. cbn [digits_val]. destruct (digit_val c); simpl; [apply IH|done].
Qed.

Lemma digits_val_fixed k n acc :
  digits_val (fixed 10 digit_of k n) acc
  = Some (acc * 10 ^ Z.of_nat k + n mod 10 ^ Z.of_nat k).
Proof.
  revert n. induction k as [|k IH]; intros n; simpl fixed.
  - simpl. rewrite Z.mod_1_r. f_equal. lia.
  - rewrite digits_val_app, IH. simpl mbind. cbn [digits_val option_bind].
    rewrite digit_val_of by (apply Z.mod_pos_bound; lia). simpl. f_equal.
    rewrite Nat2Z.inj_succ, Z.pow_succ_r by lia.
    rewrite (Z.rem_mul_r n 10) by lia. lia.
Qed.

(** The number of digits of [n], at least [k]. *)
Fixpoint width (fuel k : nat) (n : Z) : nat :=
  match fuel with
  | O => k
  | S f => if n <? 10 ^ Z.of_nat k then k else width f (S k) n
  end.

Lemma width_spec fuel k n :
  n < 10 ^ Z.of_nat (k + fuel) →
  n < 10 ^ Z.of_nat (width fuel k n) ∧ (k ≤ width fuel k n)%nat.
Proof.
  revert k. induction fuel as [|f IH]; intros k H; simpl.
  - rewrite Nat.add_0_r in H. split; [done|lia].
  - destruct (Z.ltb_spec n (10 ^ Z.of_nat k)); [split; [done|lia]|].
    destruct (IH (S k)) as [? ?]; [by replace (S k + f)%nat with (k + S f)%nat by lia|].
    split; [done|lia].
Qed.

Definition ref_DecString (d : Dec) : string :=
  match d with
  | None => "<nil>"
  | Some z =>
      let a := Z.abs z in
      let s := fixed 10 digit_of (width 99 1 (a / precision)) (a / precision)
               +:+ String "." (fixed 10 digit_of 18 (a mod precision)) in
      if z <? 0 then String "-" s else s
  end.

Lemma digit_of_not c m :
  digit_val c = None → digit_of (m mod 10) ≠ c.
Proof.
  intros Hc <-. rewrite digit_val_of in Hc; [done|]. apply Z.mod_pos_bound. lia.
Qed.

Lemma fixed_nonempty base digit k n :
  (1 ≤ k)%nat → String.eqb (fixed base digit k n) "" = false.
Proof.
  intros Hk. pose proof (fixed_length base digit k n) as Hl.
  apply String.eqb_neq. intros E. rewrite E in Hl. simpl in Hl. lia.
Qed.

Lemma dec_literal_pos_String a :
  0 ≤ a < 2 ^ 315 →
  dec_literal_pos (fixed 10 digit_of (width 99 1 (a / precision)) (a / precision)
    +:+ String "." (fixed 10 digit_of 18 (a mod precision))) = Some a.
Proof.
  intros Ha. unfold dec_literal_pos.
  rewrite Split_app by (apply no_char_fixed; intros; by apply digit_of_not).
  rewrite Split_no_char by (apply no_char_fixed; intros; by apply digit_of_not).
  destruct (width_spec 99 1 (a / precision)) as [Hw Hk].
  { apply Z.div_lt_upper_bound; [done|]. eapply Z.lt_trans; [apply Ha|done]. }
  generalize dependent (width 99 1 (a / precision)). intros k Hw Hk.
  assert (0 ≤ a / precision) as H0 by (apply Z.div_pos; [apply Ha|reflexivity]).
  pose proof (Z.div_mod a precision ltac:(discriminate)) as Hdm.
  pose proof (Z.mod_pos_bound a precision ltac:(reflexivity)) as Hm.
  revert H0 Hw Hdm Hm. generalize (a / precision), (a mod precision).
  intros w f H0 Hw Hdm Hm.
  rewrite !fixed_nonempty by lia. rewrite fixed_length.
  change ((18 <? 18)%nat) with false. cbn [orb].
  rewrite digits_val_app, digits_val_fixed. cbn [mbind option_bind].
  rewrite digits_val_fixed. cbn [mbind option_bind]. f_equal.
  change (10 ^ (18 - Z.of_nat 18)) with 1. change (10 ^ Z.of_nat 18) with precision.
  rewrite (Z.mod_small w) by done. rewrite (Z.mod_small f) by done. lia.
Qed.

Lemma ref_DecString_literal z :
  Z.abs z < 2 ^ 315 → dec_literal (ref_DecString (Some z)) = Some z.
Proof.
  intros Hz. unfold ref_DecString. destruct (Z.ltb_spec z 0).
  - cbn [dec_literal]. rewrite dec_literal_pos_String by lia.
    cbn [mbind option_bind]. f_equal. lia.
  - rewrite Z.abs_eq by lia.
    pose proof (dec_literal_pos_String z ltac:(lia)) as Hlit.
    assert (no_char "-" (fixed 10 digit_of (width 99 1 (z / precision)) (z / precision)
      +:+ String "." (fixed 10 digit_of 18 (z mod precision))) = true) as Hno.
    { rewrite no_char_app, no_char_fixed by (intros; by apply digit_of_not).
      cbn [no_char]. by rewrite no_char_fixed by (intros; by apply digit_of_not). }
    revert Hlit Hno.
    generalize (fixed 10 digit_of (width 99 1 (z / precision)) (z / precision)
      +:+ String "." (fixed 10 digit_of 18 (z mod precision))).
    intros [|c s] Hlit Hno; [done|].
    destruct c as [[] [] [] [] [] [] [] []]; try exact Hlit; discriminate Hno.
Qed.

(** ** The instances *)
#[local] Instance ref_unicode : Unicode := {| unicode_ToLower := map_str lower_byte |}.

#[local] Instance ref_unicode_laws : UnicodeLaws.
Proof.
  constructor. intros s Hs. unfold ToLower. simpl.
  rewrite map_lower_ascii, Hs. apply map_lower_idem.
Qed.

Definition ref_dec_ret (z : Z) : res Dec :=
  if Z.abs z <? 2 ^ 315 then Ok (Some z) else Panic "Int overflow".
Definition ref_int_ret (z : Z) : res Z :=
  if Z.abs z <? 2 ^ 256 then Ok z else Panic "Int overflow".

Definition dec1 {A} (f : Z → res A) (a : Dec) : res A :=
  match a with Some x => f x | None => Panic "nil pointer" end.
Definition dec2 {A} (f : Z → Z → res A) (a b : Dec) : res A :=
  match a, b with Some x, Some y => f x y | _, _ => Panic "nil pointer" end.

#[local] Instance ref_math : SdkMath := {|
  dec_limit := 2 ^ 315;
  int_limit := 2 ^ 256;
  LegacyNewDecFromStr s :=
    match dec_literal s with
    | Some z => if Z.abs z <? 2 ^ 315 then Ok (Some z) else Err (ErrExt "out of range")
    | None => Err (ErrExt "invalid decimal string")
    end;
  LegacyNewDecFromInt i := Some (i * precision);
  LegacyNewDecWithPrec i p := Some (i * 10 ^ (18 - p));
  DecString := ref_DecString;
  DecIsZero := dec1 (λ a, Ok (a =? 0));
  DecIsNegative := dec1 (λ a, Ok (a <? 0));
  DecIsPositive := dec1 (λ a, Ok (0 <? a));
  DecLT := dec2 (λ a b, Ok (a <? b));
  DecGT := dec2 (λ a b, Ok (b <? a));
  DecEqual := dec2 (λ a b, Ok (a =? b));
  DecNeg := dec1 (λ a, Ok (Some (- a)));
  DecAdd := dec2 (λ a b, ref_dec_ret (a + b));
  DecSub := dec2 (λ a b, ref_dec_ret (a - b));
  DecMul := dec2 (λ a b, ref_dec_ret (chop (a * b)));
  DecQuo := dec2 (λ a b,
    if b =? 0 then Panic "division by zero"
    else ref_dec_ret (chop (Z.quot (a * precision * precision) b)));
  DecMulInt a i := dec1 (λ a, ref_dec_ret (a * i)) a;
  DecMulInt64 a i := dec1 (λ a, ref_dec_ret (a * i)) a;
  DecQuoInt64 a i := dec1 (λ a,
    if i =? 0 then Panic "division by zero" else Ok (Some (Z.quot a i))) a;
  DecTruncateInt := dec1 (λ a, ref_int_ret (Z.quot a precision));
  dec_wire d := Some (default 0 d);
  IntAdd a b := ref_int_ret (a + b);
  IntSub a b := ref_int_ret (a - b);
  IntQuo a b := if b =? 0 then Panic "division by zero" else ref_int_ret (Z.quot a b);
  IntUint64 a :=
    if (0 <=? a) && (a <? 2 ^ 64) then Ok a else Panic "not a uint64";
  IntString := fmt_d;
  IntIsNegative a :=
    match a with Some z => Ok (z <? 0) | None => Panic "nil pointer dereference" end;
  int_wire a := Some (default 0 a)
|}.

#[local] Instance ref_math_laws : SdkMathLaws.
Proof.
  constructor; try done; try (by eexists).
  - intros s z Hs Hz. simpl. rewrite Hs.
    destruct (Z.ltb_spec (Z.abs z) (2 ^ 315)) as [|H]; [done|].
    exfalso. assert (2 ^ 255 < 2 ^ 315) by done. lia.
  - intros s d. simpl. destruct (dec_literal s) as [z|]; [|done].
    destruct (Z.ltb_spec (Z.abs z) (2 ^ 315)); [|done]. intros [= <-]. eauto.
  - intros s p. simpl. destruct (dec_literal s); [|done]. by case_match.
  - intros z Hz. change (Z.abs z < 2 ^ 315) in Hz.
    unfold LegacyNewDecFromStr, DecString, ref_math. cbv beta iota.
    rewrite ref_DecString_literal by done.
    by rewrite (proj2 (Z.ltb_lt _ _) Hz).
  - intros a b Hb. simpl. by destruct (Z.eqb_spec b 0).
  - intros a b Hb. simpl. by destruct (Z.eqb_spec b 0).
  - intros a b Hb. simpl. by destruct (Z.eqb_spec b 0).
  - intros a [H1 H2]. simpl. rewrite (proj2 (Z.leb_le 0 a)), (proj2 (Z.ltb_lt a _)); done.
  - intros a n. simpl. case_match eqn:Ha; [|done]. intros [= <-]. split; [done|].
    apply andb_true_iff in Ha as [H1 H2]. split; [by apply Z.leb_le|by apply Z.ltb_lt].
Qed.

#[local] Instance ref_coins : SdkCoins := {|
  ValidateDenom := denom_syntax;
  NewCoin d a :=
    if denom_syntax d && (0 <=? a) then Ok (mkCoin d a) else Panic "invalid coin";
  NewCoins cs := Ok (List.filter (λ c, negb (c_amount c =? 0)) cs);
  AmountOf cs d :=
    if denom_syntax d then Ok (coins_amount cs d) else Panic "invalid denom";
  CoinsIsZero := forallb (λ c, c_amount c =? 0)
|}.

#[local] Instance ref_coins_laws : SdkCoinsLaws.
Proof.
  constructor; try done.
  - intros d a Hd Ha. simpl. by destruct (a =? 0).
  - intros cs d Hd _. simpl in *. by rewrite Hd.
Qed.

(** Account strings are ["cosvian1"] followed by the address bytes. *)
Definition ref_prefix : string := "cosvian1".
Definition ref_parse_addr (s : string) : Slice * option error :=
  if HasPrefix s ref_prefix && negb (String.eqb (str_drop 8 s) "")
  then (Some (str_drop 8 s), None)
  else (None, Some (ErrExt "decoding bech32 failed")).

#[local] Instance ref_addr : AddressCodec := {|
  StringToBytes := ref_parse_addr;
  BytesToString b := (ref_prefix +:+ bytes_of b, None);
  AccAddressFromBech32 := ref_parse_addr;
  AccAddressString b := ref_prefix +:+ bytes_of b;
  NewModuleAddress m := "module/" +:+ m
|}.

#[local] Instance ref_addr_laws : AddressCodecLaws.
Proof.
  constructor.
  - intros s b. simpl. unfold ref_parse_addr. case_match eqn:E; [|done].
    intros [= <-]. apply andb_true_iff in E as [_ E]. by apply negb_true_iff in E.
  - intros s b e. simpl. unfold ref_parse_addr. by case_match; intros [= <- <-].
  - intros b Hb. change (AccAddressFromBech32 (ref_prefix +:+ b) = (Some b, None)).
    simpl. unfold ref_parse_addr. rewrite HasPrefix_app.
    change (str_drop 8 (ref_prefix +:+ b)) with b.
    change (String.eqb b "" = false) in Hb. by rewrite Hb.
Qed.

(** ** The ledger

    Balances and supplies are finite maps; a coin is moved when its amount is
    between zero and the balance of the sender. *)
Record Ledger := mkLedger {
  l_bal : gmap (string * string) Z;
  l_supply : gmap string Z;
  l_accounts : gmap string unit
}.

Definition l_get (b : Ledger) (a d : string) : Z := default 0 (l_bal b !! (a, d)).
Definition l_sup (b : Ledger) (d : string) : Z := default 0 (l_supply b !! d).
Definition l_put (a d : string) (z : Z) (b : Ledger) : Ledger :=
  mkLedger (<[(a, d) := z]> (l_bal b)) (l_supply b) (l_accounts b).
Definition l_put_supply (d : string) (z : Z) (b : Ledger) : Ledger :=
  mkLedger (l_bal b) (<[d := z]> (l_supply b)) (l_accounts b).

Definition credit (a : string) (c : Coin) : stM Ledger unit :=
  modify (λ b, l_put a (c_denom c) (l_get b a (c_denom c) + c_amount c) b).
Definition debit (a : string) (c : Coin) : stM Ledger unit :=
  bal ← gets (λ b, l_get b a (c_denom c));
  if (0 <=? c_amount c) && (c_amount c <=? bal)
  then modify (l_put a (c_denom c) (bal - c_amount c))
  else throw (ErrSdk "ErrInsufficientFunds").
Definition adjust_supply (c : Coin) (sign : Z) : stM Ledger unit :=
  modify (λ b, l_put_supply (c_denom c) (l_sup b (c_denom c) + sign * c_amount c) b).

Definition ref_send (f t : string) (cs : Coins) : stM Ledger unit :=
  for_each cs (λ c, debit f c;; credit t c).
Definition ref_mint (m : string) (cs : Coins) : stM Ledger unit :=
  for_each cs (λ c, credit ("module/" +:+ m) c;; adjust_supply c 1).
Definition ref_burn (m : string) (cs : Coins) : stM Ledger unit :=
  for_each cs (λ c, debit ("module/" +:+ m) c;; adjust_supply c (-1)).

#[local] Instance ref_bank : BankKeeper := {|
  BankState := Ledger;
  GetBalance := l_get;
  SpendableCoins b a := [mkCoin "ucsv" (l_get b a "ucsv")];
  GetAllBalances b a := [mkCoin "ucsv" (l_get b a "ucsv")];
  GetSupply := l_sup;
  GetModuleAddress m := Some ("module/" +:+ m);
  SendCoins := ref_send;
  SendCoinsFromAccountToModule f m := ref_send f ("module/" +:+ m);
  SendCoinsFromModuleToAccount m t := ref_send ("module/" +:+ m) t;
  SendCoinsFromModuleToModule m m' := ref_send ("module/" +:+ m) ("module/" +:+ m');
  MintCoins := ref_mint;
  BurnCoins := ref_burn;
  GetAccount b a := bool_decide (is_Some (l_accounts b !! a))
|}.

Lemma l_get_put a d a' d' z b :
  l_get (l_put a d z b) a' d' =
  if String.eqb a' a && String.eqb d d' then z else l_get b a' d'.
Proof.
  unfold l_get, l_put. simpl.
  destruct (String.eqb_spec a' a) as [->|Ha]; simpl.
  - destruct (String.eqb_spec d d') as [->|Hd].
    + by rewrite lookup_insert_eq.
    + rewrite lookup_insert_ne; [done|congruence].
  - rewrite lookup_insert_ne; [done|congruence].
Qed.

Lemma l_sup_put d d' z b :
  l_sup (l_put_supply d z b) d' = if String.eqb d d' then z else l_sup b d'.
Proof.
  unfold l_sup, l_put_supply. simpl. destruct (String.eqb_spec d d') as [->|Hd].
  - by rewrite lookup_insert_eq.
  - by rewrite lookup_insert_ne.
Qed.

Lemma debit_ok a c b b' u :
  debit a c b = (b', Ok u) →
  (∀ a' d, l_get b' a' d = l_get b a' d -
     (if String.eqb a' a && String.eqb (c_denom c) d then c_amount c else 0)) ∧
  (∀ d, l_sup b' d = l_sup b d).
Proof.
  unfold debit. intros H. step_inv. case_match; step_inv. split; [|done].
  intros a' d. rewrite l_get_put. destruct (String.eqb_spec a' a) as [->|]; simpl; [|lia].
  destruct (String.eqb_spec (c_denom c) d) as [<-|]; lia.
Qed.

Lemma credit_ok a c b b' u :
  credit a c b = (b', Ok u) →
  (∀ a' d, l_get b' a' d = l_get b a' d +
     (if String.eqb a' a && String.eqb (c_denom c) d then c_amount c else 0)) ∧
  (∀ d, l_sup b' d = l_sup b d).
Proof.
  unfold credit. intros H. step_inv. split; [|done].
  intros a' d. rewrite l_get_put. destruct (String.eqb_spec a' a) as [->|]; simpl; [|lia].
  destruct (String.eqb_spec (c_denom c) d) as [<-|]; lia.
Qed.

Lemma adjust_supply_ok c k b b' u :
  adjust_supply c k b = (b', Ok u) →
  (∀ a d, l_get b' a d = l_get b a d) ∧
  (∀ d, l_sup b' d = l_sup b d + (if String.eqb (c_denom c) d then k * c_amount c else 0)).
Proof.
  unfold adjust_supply. intros H. step_inv. split; [done|].
  intros d. rewrite l_sup_put. destruct (String.eqb_spec (c_denom c) d) as [<-|]; lia.
Qed.

Ltac split_eqb :=
  repeat match goal with
  | |- context [String.eqb ?a ?b] => destruct (String.eqb a b)
  end; simpl; lia.

Lemma ref_send_ok f t cs b b' u : ref_send f t cs b = (b', Ok u) → moved b b' f t cs.
Proof.
  unfold ref_send, moved. revert b. induction cs as [|c cs IH]; intros b H.
  - simpl in H. step_inv. split; [|done]. intros a d. simpl. split_eqb.
  - simpl in H. step_inv.
    match goal with H : debit _ _ _ = _ |- _ => apply debit_ok in H as [D1 D2] end.
    match goal with H : credit _ _ _ = _ |- _ => apply credit_ok in H as [C1 C2] end.
    match goal with H : for_each _ _ _ = _ |- _ => apply IH in H as [I1 I2] end.
    cbn [GetBalance GetSupply ref_bank] in *. split.
    + intros x d. rewrite I1, C1, D1. simpl. split_eqb.
    + intros d. by rewrite I2, C2, D2.
Qed.

#[local] Instance ref_bank_laws : BankLaws.
Proof.
  constructor.
  - apply ref_send_ok.
  - intros f m. apply (ref_send_ok f ("module/" +:+ m)).
  - intros m t. apply (ref_send_ok ("module/" +:+ m) t).
  - intros m m'. apply (ref_send_ok ("module/" +:+ m) ("module/" +:+ m')).
  - intros m cs b b' u. cbn. unfold ref_mint. revert b.
    induction cs as [|c cs IH]; intros b H; simpl in H; step_inv.
    + split; intros; [split_eqb|simpl; lia].
    + match goal with H : credit _ _ _ = _ |- _ => apply credit_ok in H as [C1 C2] end.
      match goal with H : adjust_supply _ _ _ = _ |- _ =>
        apply adjust_supply_ok in H as [A1 A2] end.
      match goal with H : for_each _ _ _ = _ |- _ => apply IH in H as [I1 I2] end.
      split; intros.
      * rewrite I1, A1, C1. simpl. split_eqb.
      * rewrite I2, A2, C2. simpl. split_eqb.
  - intros m cs b b' u. cbn. unfold ref_burn. revert b.
    induction cs as [|c cs IH]; intros b H; simpl in H; step_inv.
    + split; intros; [split_eqb|simpl; lia].
    + match goal with H : debit _ _ _ = _ |- _ => apply debit_ok in H as [C1 C2] end.
      match goal with H : adjust_supply _ _ _ = _ |- _ =>
        apply adjust_supply_ok in H as [A1 A2] end.
      match goal with H : for_each _ _ _ = _ |- _ => apply IH in H as [I1 I2] end.
      split; intros.
      * rewrite I1, A1, C1. simpl. split_eqb.
      * rewrite I2, A2, C2. simpl. split_eqb.
  - intros b a. apply coins_sorted_one.
  - by intros m a [= <-].
Qed.

(** ** Numbers, stores, channels, gas, messages *)

(** The literal itself. *)
#[local] Instance ref_floats : Floats := {| FormatFloat_v l := l |}.

#[local] Instance ref_kv : KVFaults := {|
  kv_get_err _ := None;
  kv_set_err _ := None;
  kv_iter_err _ := None;
  Uint64ToBigEndian := be64;
  BigEndianToUint64 s := be_val s 0
|}.

#[local] Instance ref_kv_laws : KVLaws.
Proof.
  constructor; try done. apply be64_val.
Qed.

(** A channel end: its connection hops and the next sequence to send. *)
Record RefIbc := mkRefIbc { ri_chans : gmap (string * string) (list string * Z) }.

#[local] Instance ref_ibc : IbcKeeper := {|
  IbcState := RefIbc;
  GetChannel s p c := fst <$> ri_chans s !! (p, c);
  GetNextSequenceSend s p c := (λ x, u64 (snd x)) <$> ri_chans s !! (p, c);
  SendPacket p c t d := λ s,
    match ri_chans s !! (p, c) with
    | Some (hops, q) => (mkRefIbc (<[(p, c) := (hops, q + 1)]> (ri_chans s)), Ok (u64 q))
    | None => (s, Err (ErrExt "channel not found"))
    end;
  CapState := gmap string unit;
  GetCapability s n := bool_decide (is_Some (s !! n));
  NewCapability n := λ s,
    match s !! n with
    | Some _ => (s, Err (ErrExt "capability name already taken"))
    | None => (<[n := tt]> s, Ok tt)
    end;
  PortIdentifierValidator p :=
    if String.eqb (TrimSpace p) "" then Some (ErrExt "identifier cannot be blank") else None
|}.

#[local] Instance ref_ibc_laws : IbcLaws.
Proof.
  constructor.
  - intros p c t d s s' q. cbn. destruct (ri_chans s !! (p, c)) as [[hops q']|]; [|done].
    by intros [= _ <-].
  - intros p c t d s x. cbn. by destruct (ri_chans s !! (p, c)) as [[hops q']|].
  - intros n s x. unfold NewCapability, ref_ibc. by case_match.
  - intros s p c q. cbn. destruct (ri_chans s !! (p, c)) as [[hops q']|]; [|done].
    intros [= <-]. apply u64_range.
Qed.

#[local] Instance ref_gas : GasMeter := {|
  GasState := Z;
  ConsumeGas z := modify (λ g, g + z)
|}.

#[local] Instance ref_msgs : MsgURLs := {|
  MsgTypeURL m :=
    match m with
    | MsgSend => "/cosmos.bank.v1beta1.MsgSend"
    | MsgMultiSend => "/cosmos.bank.v1beta1.MsgMultiSend"
    | MsgStoreCode => "/cosmwasm.wasm.v1.MsgStoreCode"
    | MsgInstantiateContract => "/cosmwasm.wasm.v1.MsgInstantiateContract"
    | MsgExecuteContract _ => "/cosmwasm.wasm.v1.MsgExecuteContract"
    | MsgMigrateContract => "/cosmwasm.wasm.v1.MsgMigrateContract"
    | MsgUpdateAdmin => "/cosmwasm.wasm.v1.MsgUpdateAdmin"
    | MsgExec _ => "/cosmos.authz.v1beta1.MsgExec"
    | MsgOther url => url
    end
|}.

#[local] Instance ref_errors : ErrorsMod := {|
  errors_Wrap e d := match e with None => None | Some e => Some (ErrWrap e d) end
|}.
#[local] Instance ref_errors_laws : ErrorsModLaws.
Proof. by constructor. Qed.

(** The reference environment. *)
Definition ref_env : Env := {|
  env_unicode := ref_unicode;
  env_floats := ref_floats;
  env_math := ref_math;
  env_coins := ref_coins;
  env_addr := ref_addr;
  env_bank := ref_bank;
  env_kv := ref_kv;
  env_ibc := ref_ibc;
  env_gas := ref_gas;
  env_msgs := ref_msgs;
  env_errors := ref_errors
|}.

Definition ref_env_laws : EnvLaws ref_env.
Proof.
  constructor; [apply ref_unicode_laws|apply ref_math_laws|apply ref_coins_laws
    |apply ref_addr_laws|apply ref_bank_laws|apply ref_kv_laws|apply ref_ibc_laws
    |apply ref_errors_laws].
Defined.

(** ** A codec for values outside the repository

    Any countable type can be written as the digits of its code and read back. *)
Fixpoint pos_bits (p : positive) : string :=
  match p with
  | xH => ""
  | xO p => String "0" (pos_bits p)
  | xI p => String "1" (pos_bits p)
  end.
Fixpoint bits_pos (s : string) : option positive :=
  match s with
  | EmptyString => Some xH
  | String c s =>
      p ← bits_pos s;
      if Ascii.eqb c "0" then Some (xO p) else if Ascii.eqb c "1" then Some (xI p) else None
  end.

Lemma bits_pos_bits p : bits_pos (pos_bits p) = Some p.
Proof. induction p as [p IH|p IH|]; simpl; rewrite ?IH; done. Qed.

Definition coded_codec (A : Type) `{Countable A} : JsonCodec A := {|
  json_Marshal a := Ok (pos_bits (encode a));
  json_Unmarshal s :=
    match p ← bits_pos s; decode p with
    | Some a => Ok a
    | None => Err (ErrExt "invalid JSON")
    end
|}.

Lemma coded_codec_laws A dom `{Countable A} : JsonLaws A dom (H := coded_codec A).
Proof.
  constructor; simpl.
  - intros a _. by eexists.
  - intros a s _ [= <-]. rewrite bits_pos_bits. simpl. by rewrite decode_encode.
Qed.
