(* ===== verification/FeesTypes.v ===== *)
(** * x/fees/types: parameters, estimates and their validation

    [src/x/fees/types/params.go], [keys.go], [types.go], [genesis.go] and the
    messages under [src/proto/cosvian/fees/v1].  Durations are nanoseconds. *)

From Stdlib Require Import Strings.Ascii Strings.String.
From stdpp Require Import strings.
From S2P Require Import Prelude GoLib Sdk RefEnv.

Local Open Scope Z_scope.

Definition ModuleName : string := "fees".
Definition GovModuleName : string := "gov".

(** A [[]string] that may be nil. *)
Definition StrSlice : Type := option (list string).
Definition elems (l : StrSlice) : list string := default [] l.

(** ** Messages of the parameters *)
Record FeeSplit := mkFeeSplit {
  Treasury : Dec;
  RetailWalletShare : Dec;
  TokenDev : Dec;
  TokenCreator : Dec
}.

Record FeeConfig := mkFeeConfig {
  UsdAmount : Dec;
  Split : FeeSplit
}.

Record FeeTableUSD := mkFeeTableUSD {
  PosPayment : FeeConfig;
  TokenInteraction : FeeConfig;
  NativeTransfer : FeeConfig;
  DexNative : FeeConfig;
  DexUser : FeeConfig;
  Deploy : FeeConfig;
  Wizard : FeeConfig
}.

Record OracleParams := mkOracleParams {
  BandRequestId : Z;
  TwapWindow : Z;
  DeviationLimit : Dec;
  FallbackTtl : Z;
  MaxPriceAge : Z
}.

Record GuardRails := mkGuardRails {
  MinGasPriceCsv : Dec;
  MaxGasPriceCsv : Dec;
  MaxGasWizard : Z;
  MaxGasDeploy : Z
}.

Record MinGasPolicy := mkMinGasPolicy {
  Enabled : bool;
  GlobalMinGasPrice : Dec;
  AllowPerTxOverride : bool
}.

Record Params := mkParams {
  FeeTableUsd : FeeTableUSD;
  Oracle : OracleParams;
  Guards : GuardRails;
  MinGas : MinGasPolicy;
  TreasuryWallet : string;
  RetailWallet : string;
  TokenDevWallet : string;
  TokenCreatorWallet : string;
  FeeMode : string;
  SystemMsgTypeUrls : StrSlice;
  ExemptMsgTypeUrls : StrSlice;
  ExemptAddresses : StrSlice
}.

Record PriceData := mkPriceData {
  Price : Dec;
  TwapPrice : Dec;
  Timestamp : Z;
  Window : Z;
  Freshness : Z;
  IsStale : bool;
  IsFallback : bool
}.

#[export] Instance FeeSplit_eq_dec : EqDecision FeeSplit.
Proof. solve_decision. Defined.
#[export] Instance FeeConfig_eq_dec : EqDecision FeeConfig.
Proof. solve_decision. Defined.
#[export] Instance FeeTableUSD_eq_dec : EqDecision FeeTableUSD.
Proof. solve_decision. Defined.
#[export] Instance OracleParams_eq_dec : EqDecision OracleParams.
Proof. solve_decision. Defined.
#[export] Instance GuardRails_eq_dec : EqDecision GuardRails.
Proof. solve_decision. Defined.
#[export] Instance MinGasPolicy_eq_dec : EqDecision MinGasPolicy.
Proof. solve_decision. Defined.
#[export] Instance Params_eq_dec : EqDecision Params.
Proof. solve_decision. Defined.

(** The zero value of the Go struct, [Params{}]. *)
Definition zero_split : FeeSplit := mkFeeSplit None None None None.
Definition zero_config : FeeConfig := mkFeeConfig None zero_split.
Definition NewParams : Params := {|
  FeeTableUsd := mkFeeTableUSD zero_config zero_config zero_config zero_config
                   zero_config zero_config zero_config;
  Oracle := mkOracleParams 0 0 None 0 0;
  Guards := mkGuardRails None None 0 0;
  MinGas := mkMinGasPolicy false None false;
  TreasuryWallet := ""; RetailWallet := "";
  TokenDevWallet := ""; TokenCreatorWallet := "";
  FeeMode := "";
  SystemMsgTypeUrls := None; ExemptMsgTypeUrls := None; ExemptAddresses := None
|}.

(** ** Fee modes *)
Definition FeeModeTable : string := "table".
Definition FeeModeHybrid : string := "hybrid".
Definition FeeModeGasOnly : string := "gas_only".
Definition IsHybridEnabled (p : Params) : bool := String.eqb (FeeMode p) FeeModeHybrid.
Definition IsGasOnly (p : Params) : bool := String.eqb (FeeMode p) FeeModeGasOnly.

Definition DefaultSystemMsgTypeUrls : list string := [
  "/ibc.core.client.v1.MsgCreateClient";
  "/ibc.core.client.v1.MsgUpdateClient";
  "/ibc.core.connection.v1.MsgConnectionOpenInit";
  "/ibc.core.connection.v1.MsgConnectionOpenTry";
  "/ibc.core.connection.v1.MsgConnectionOpenAck";
  "/ibc.core.connection.v1.MsgConnectionOpenConfirm";
  "/ibc.core.channel.v1.MsgChannelOpenInit";
  "/ibc.core.channel.v1.MsgChannelOpenTry";
  "/ibc.core.channel.v1.MsgChannelOpenAck";
  "/ibc.core.channel.v1.MsgChannelOpenConfirm";
  "/ibc.core.channel.v1.MsgRecvPacket";
  "/ibc.core.channel.v1.MsgAcknowledgement";
  "/ibc.core.channel.v1.MsgTimeout";
  "/ibc.core.channel.v1.MsgTimeoutOnClose";
  "/ibc.applications.fee.v1.MsgPayPacketFee";
  "/ibc.applications.fee.v1.MsgPayPacketFeeAsync";
  "/ibc.applications.fee.v1.MsgRegisterPayee";
  "/ibc.applications.fee.v1.MsgRegisterCounterpartyPayee";
  "/ibc.applications.interchain_accounts.controller.v1.MsgRegisterInterchainAccount";
  "/ibc.applications.interchain_accounts.controller.v1.MsgSendTx"
].

Section Operations.
Context `{SdkMath}.

(** [math.LegacyMustNewDecFromStr] *)
Definition LegacyMustNewDecFromStr (s : string) : res Dec :=
  match LegacyNewDecFromStr s with
  | Err _ => Panic "invalid decimal"
  | r => r
  end.

Definition DefaultParams : res Params :=
  d015 ← LegacyMustNewDecFromStr "0.15";
  half ← LegacyMustNewDecFromStr "0.5";
  three ← LegacyMustNewDecFromStr "3.0";
  one ← LegacyMustNewDecFromStr "1.0";
  dev ← LegacyMustNewDecFromStr "0.05";
  micro ← LegacyMustNewDecFromStr "0.000001";
  let free := mkFeeConfig LegacyZeroDec
    (mkFeeSplit LegacyZeroDec LegacyZeroDec LegacyZeroDec LegacyZeroDec) in
  let all_treasury :=
    mkFeeSplit LegacyOneDec LegacyZeroDec LegacyZeroDec LegacyZeroDec in
  mret {|
    FeeTableUsd := {|
      PosPayment :=
        mkFeeConfig d015 (mkFeeSplit half half LegacyZeroDec LegacyZeroDec);
      TokenInteraction :=
        mkFeeConfig three (mkFeeSplit half LegacyZeroDec half LegacyZeroDec);
      NativeTransfer := mkFeeConfig one all_treasury;
      DexNative := mkFeeConfig one all_treasury;
      DexUser :=
        mkFeeConfig three (mkFeeSplit half LegacyZeroDec LegacyZeroDec half);
      Deploy := free;
      Wizard := free
    |};
    Oracle := mkOracleParams 1 (5 * minute) dev (30 * minute) (10 * minute);
    Guards := mkGuardRails micro one 100000 500000;
    MinGas := mkMinGasPolicy true micro true;
    TreasuryWallet := "csv1team00000000000000000000000000000000000";
    RetailWallet := "csv1retail000000000000000000000000000000000";
    TokenDevWallet := "csv1dev000000000000000000000000000000000000";
    TokenCreatorWallet := "csv1creator00000000000000000000000000000000";
    FeeMode := FeeModeHybrid;
    SystemMsgTypeUrls := Some DefaultSystemMsgTypeUrls;
    ExemptMsgTypeUrls := Some [];
    ExemptAddresses := Some []
  |}.

(** ** Validation *)
Definition check (ok : bool) (text : string) : res unit :=
  if ok then mret tt else Err (ErrText text).

(** The loop over [SystemMsgTypeUrls]; returns the set of the urls seen. *)
Fixpoint system_urls_loop (seen urls : list string) : res (list string) :=
  match urls with
  | [] => mret seen
  | s :: urls' =>
      if String.eqb s "" then system_urls_loop seen urls'
      else if bool_decide (s ∈ seen) then Err (ErrText "duplicate system_msg_type_url")
      else system_urls_loop (s :: seen) urls'
  end.

Fixpoint exempt_urls_loop (seen urls : list string) : res unit :=
  match urls with
  | [] => mret tt
  | s :: urls' =>
      if String.eqb s "" then exempt_urls_loop seen urls'
      else if bool_decide (s ∈ seen)
      then Err (ErrText "type url appears in both system and exempt lists")
      else exempt_urls_loop seen urls'
  end.

Definition validateHybridFields (p : Params) : res unit :=
  check (bool_decide (FeeMode p ∈ [""; "table"; "hybrid"; "gas_only"]))
    "invalid fee_mode";;
  seen ← system_urls_loop [] (elems (SystemMsgTypeUrls p));
  exempt_urls_loop seen (elems (ExemptMsgTypeUrls p)).

(** A nil share counts as zero. *)
Definition norm (d : Dec) : Dec := match d with None => LegacyZeroDec | _ => d end.

Definition validateFeeConfig (config : FeeConfig) : res unit :=
  match UsdAmount config with
  | None => mret tt
  | Some _ =>
      neg ← DecIsNegative (UsdAmount config);
      check (negb neg) "fee amount cannot be negative";;
      let s : FeeSplit := Split config in
      tr ← DecAdd (norm (Treasury s)) (norm (RetailWalletShare s));
      trd ← DecAdd tr (norm (TokenDev s));
      total ← DecAdd trd (norm (TokenCreator s));
      zero ← DecIsZero (UsdAmount config);
      if zero : bool then mret tt
      else eq ← DecEqual total LegacyOneDec;
           check (eq : bool) "fee split percentages must sum to 1.0"
  end.

Definition configs (t : FeeTableUSD) : list FeeConfig :=
  [PosPayment t; TokenInteraction t; NativeTransfer t; DexNative t; DexUser t;
   Deploy t; Wizard t].

Fixpoint validate_all (l : list FeeConfig) : res unit :=
  match l with
  | [] => mret tt
  | c :: l' => validateFeeConfig c;; validate_all l'
  end.

Definition validateFeeTableUSD (p : Params) : res unit :=
  validate_all (configs (FeeTableUsd p)).

Definition validateOracleParams (p : Params) : res unit :=
  let o := Oracle p in
  check (negb (BandRequestId o =? 0)) "band request ID cannot be zero";;
  check (negb (TwapWindow o <=? 0)) "TWAP window must be positive";;
  neg ← DecIsNegative (DeviationLimit o);
  above ← (if neg : bool then mret true else DecGT (DeviationLimit o) LegacyOneDec);
  check (negb above) "deviation limit must be between 0 and 1";;
  check (negb (FallbackTtl o <=? 0)) "fallback TTL must be positive";;
  check (negb (MaxPriceAge o <=? 0)) "max price age must be positive".

Definition validateGuardRails (p : Params) : res unit :=
  let g := Guards p in
  neg ← DecIsNegative (MinGasPriceCsv g);
  check (negb neg) "min gas price cannot be negative";;
  neg' ← DecIsNegative (MaxGasPriceCsv g);
  check (negb neg') "max gas price cannot be negative";;
  gt ← DecGT (MinGasPriceCsv g) (MaxGasPriceCsv g);
  check (negb gt) "min gas price cannot be greater than max gas price";;
  check (negb (MaxGasWizard g =? 0)) "max gas wizard must be positive";;
  check (negb (MaxGasDeploy g =? 0)) "max gas deploy must be positive".

Definition validateMinGasPolicy (p : Params) : res unit :=
  neg ← DecIsNegative (GlobalMinGasPrice (MinGas p));
  check (negb neg) "global min gas price cannot be negative".

(** The zero-value shortcut of [Validate], conditions in the order of the [&&]. *)
Definition looks_zero (p : Params) : res bool :=
  if String.eqb (FeeMode p) "" then
    zero ← DecIsZero (UsdAmount (PosPayment (FeeTableUsd p)));
    mret (zero && bool_decide (elems (SystemMsgTypeUrls p) = [])
               && bool_decide (elems (ExemptMsgTypeUrls p) = []))
  else mret false.

Definition Validate (p : Params) : res unit :=
  skip ← looks_zero p;
  if skip : bool then mret tt else
  validateFeeTableUSD p;;
  validateOracleParams p;;
  validateGuardRails p;;
  validateMinGasPolicy p;;
  validateHybridFields p.

(** [GenesisState.Validate] *)
Definition GenesisValidate (p : Params) : res unit :=
  if bool_decide (p = NewParams) then mret tt else Validate p.

(** ** What the parameters are after a round through the store *)
Definition wire_slice (l : StrSlice) : StrSlice :=
  match l with Some [] => None | _ => l end.
Definition wire_split (s : FeeSplit) : FeeSplit :=
  mkFeeSplit (dec_wire (Treasury s)) (dec_wire (RetailWalletShare s))
    (dec_wire (TokenDev s)) (dec_wire (TokenCreator s)).
Definition wire_config (c : FeeConfig) : FeeConfig :=
  mkFeeConfig (dec_wire (UsdAmount c)) (wire_split (Split c)).
Definition wire_table (t : FeeTableUSD) : FeeTableUSD :=
  mkFeeTableUSD (wire_config (PosPayment t)) (wire_config (TokenInteraction t))
    (wire_config (NativeTransfer t)) (wire_config (DexNative t))
    (wire_config (DexUser t)) (wire_config (Deploy t)) (wire_config (Wizard t)).
Definition wire_params (p : Params) : Params := {|
  FeeTableUsd := wire_table (FeeTableUsd p);
  Oracle := let o := Oracle p in
    mkOracleParams (BandRequestId o) (TwapWindow o) (dec_wire (DeviationLimit o))
      (FallbackTtl o) (MaxPriceAge o);
  Guards := let g := Guards p in
    mkGuardRails (dec_wire (MinGasPriceCsv g)) (dec_wire (MaxGasPriceCsv g))
      (MaxGasWizard g) (MaxGasDeploy g);
  MinGas := let m := MinGas p in
    mkMinGasPolicy (Enabled m) (dec_wire (GlobalMinGasPrice m)) (AllowPerTxOverride m);
  TreasuryWallet := TreasuryWallet p; RetailWallet := RetailWallet p;
  TokenDevWallet := TokenDevWallet p; TokenCreatorWallet := TokenCreatorWallet p;
  FeeMode := FeeMode p;
  SystemMsgTypeUrls := wire_slice (SystemMsgTypeUrls p);
  ExemptMsgTypeUrls := wire_slice (ExemptMsgTypeUrls p);
  ExemptAddresses := wire_slice (ExemptAddresses p)
|}.
End Operations.

(** [GetPricePointKey]: [PricePointPrefix] and the time in nanoseconds. *)
Definition PricePointPrefix : string := "price_point/".
Definition GetPricePointKey (nanos : Z) : string :=
  PricePointPrefix +:+ be64 (u64 nanos).

(** ** Estimates and transaction metadata *)

(** [TransactionCategory] of [keeper/fee_calculator.go]; a Go string constant. *)
Inductive TransactionCategory : Type :=
| CategoryPOS
| CategoryTokenInteraction
| CategoryNativeTransfer
| CategoryDEXNative
| CategoryDEXUser
| CategoryDeploy
| CategoryWizard
| CategoryDefault
| CategorySystem
| CategoryMixed.

#[export] Instance TransactionCategory_eq_dec : EqDecision TransactionCategory.
Proof. solve_decision. Defined.

Definition category_string (c : TransactionCategory) : string :=
  match c with
  | CategoryPOS => "pos"
  | CategoryTokenInteraction => "token_interaction"
  | CategoryNativeTransfer => "native_transfer"
  | CategoryDEXNative => "dex_native"
  | CategoryDEXUser => "dex_user"
  | CategoryDeploy => "deploy"
  | CategoryWizard => "wizard"
  | CategoryDefault => "default"
  | CategorySystem => "system"
  | CategoryMixed => "mixed"
  end.

Record FeeEstimate := mkFeeEstimate {
  Category : TransactionCategory;
  USDAmount : Dec;
  CSVAmount : Dec;
  GasWanted : Z;
  GasPrice : Dec;
  IsFree : bool;
  EstPriceData : option PriceData
}.

(** [FeeMetadata] of [keeper/ante_handler.go] *)
Record FeeMetadata := mkFeeMetadata {
  MdCategory : string;
  UserAgent : string;
  AppVersion : string;
  TxHash : string;
  MdTimestamp : Z
}.
Definition empty_metadata : FeeMetadata := mkFeeMetadata "" "" "" "" 0.

(** ** Facts about the parameters *)
Section Facts.
Context {MM : SdkMath} {ML : SdkMathLaws}.

Definition cents (n : Z) : Dec := Some (n * 10 ^ 16).

(** The value of [DefaultParams], its literals evaluated. *)
Definition default_params : Params :=
  let free := mkFeeConfig LegacyZeroDec
    (mkFeeSplit LegacyZeroDec LegacyZeroDec LegacyZeroDec LegacyZeroDec) in
  let all_treasury := mkFeeSplit LegacyOneDec LegacyZeroDec LegacyZeroDec LegacyZeroDec in
  {|
    FeeTableUsd := {|
      PosPayment := mkFeeConfig (cents 15)
        (mkFeeSplit (cents 50) (cents 50) LegacyZeroDec LegacyZeroDec);
      TokenInteraction := mkFeeConfig (cents 300)
        (mkFeeSplit (cents 50) LegacyZeroDec (cents 50) LegacyZeroDec);
      NativeTransfer := mkFeeConfig (cents 100) all_treasury;
      DexNative := mkFeeConfig (cents 100) all_treasury;
      DexUser := mkFeeConfig (cents 300)
        (mkFeeSplit (cents 50) LegacyZeroDec LegacyZeroDec (cents 50));
      Deploy := free;
      Wizard := free
    |};
    Oracle := mkOracleParams 1 (5 * minute) (cents 5) (30 * minute) (10 * minute);
    Guards := mkGuardRails (Some (10 ^ 12)) (cents 100) 100000 500000;
    MinGas := mkMinGasPolicy true (Some (10 ^ 12)) true;
    TreasuryWallet := "csv1team00000000000000000000000000000000000";
    RetailWallet := "csv1retail000000000000000000000000000000000";
    TokenDevWallet := "csv1dev000000000000000000000000000000000000";
    TokenCreatorWallet := "csv1creator00000000000000000000000000000000";
    FeeMode := FeeModeHybrid;
    SystemMsgTypeUrls := Some DefaultSystemMsgTypeUrls;
    ExemptMsgTypeUrls := Some [];
    ExemptAddresses := Some []
  |}.

Lemma MustDec_literal s z :
  dec_literal s = Some z → Z.abs z < 2 ^ 255 → LegacyMustNewDecFromStr s = Ok (Some z).
Proof.
  intros Hs Hz. unfold LegacyMustNewDecFromStr. by rewrite (DecFromStr_literal s z Hs Hz).
Qed.

Lemma DefaultParams_value : DefaultParams = Ok default_params.
Proof.
  unfold DefaultParams, mbind, res_bind.
  repeat (erewrite MustDec_literal; [|vm_compute; reflexivity|vm_compute; reflexivity]).
  reflexivity.
Qed.

(** ** What validated parameters guarantee *)

(** The shares of a category add up to one, a nil share counting as zero. *)
Definition share_val (d : Dec) : Z := default 0 d.
Definition split_sum (s : FeeSplit) : Z :=
  share_val (Treasury s) + share_val (RetailWalletShare s)
  + share_val (TokenDev s) + share_val (TokenCreator s).

(** Adding the shares one by one does not overflow. *)
Definition sums_fit `{SdkMath} (s : FeeSplit) : Prop :=
  let two := share_val (Treasury s) + share_val (RetailWalletShare s) in
  let three := two + share_val (TokenDev s) in
  Z.abs two < dec_limit ∧ Z.abs three < dec_limit ∧ Z.abs (split_sum s) < dec_limit.

Definition config_valid `{SdkMath} (c : FeeConfig) : Prop :=
  match UsdAmount c with
  | None => True
  | Some u => 0 ≤ u ∧ sums_fit (Split c) ∧ (u = 0 ∨ split_sum (Split c) = precision)
  end.

Definition table_valid `{SdkMath} (t : FeeTableUSD) : Prop := Forall config_valid (configs t).

Definition oracle_valid (o : OracleParams) : Prop :=
  BandRequestId o ≠ 0 ∧ 0 < TwapWindow o ∧
  (∃ d, DeviationLimit o = Some d ∧ 0 ≤ d ≤ precision) ∧
  0 < FallbackTtl o ∧ 0 < MaxPriceAge o.

Definition guards_valid (g : GuardRails) : Prop :=
  ∃ mn mx, MinGasPriceCsv g = Some mn ∧ MaxGasPriceCsv g = Some mx ∧
    0 ≤ mn ≤ mx ∧ MaxGasWizard g ≠ 0 ∧ MaxGasDeploy g ≠ 0.

Definition modes : list string := [""; "table"; "hybrid"; "gas_only"].

(** No url twice in the system list, none in both lists; empty ones not counted.
    The exempt list may repeat its own. *)
Definition urls_valid (sys ex : list string) : Prop :=
  let nonempty := filter (λ s, s ≠ "") in
  NoDup (nonempty sys) ∧ ∀ s, s ∈ nonempty ex → s ∉ nonempty sys.

Definition params_valid `{SdkMath} (p : Params) : Prop :=
  (FeeMode p ≠ "" ∨ UsdAmount (PosPayment (FeeTableUsd p)) ≠ None) ∧
  table_valid (FeeTableUsd p) ∧ oracle_valid (Oracle p) ∧ guards_valid (Guards p) ∧
  (∃ m, GlobalMinGasPrice (MinGas p) = Some m ∧ 0 ≤ m) ∧
  FeeMode p ∈ modes ∧
  urls_valid (elems (SystemMsgTypeUrls p)) (elems (ExemptMsgTypeUrls p)).

Lemma check_ok b text u : check b text = Ok u → b = true.
Proof. unfold check. by destruct b. Qed.

(** [res] computations that return, part by part. *)
Lemma res_bind_ok {A B} (m : res A) (k : A → res B) b :
  (m ≫= k) = Ok b → ∃ a, m = Ok a ∧ k a = Ok b.
Proof. destruct m as [a|e|p]; simpl; [eauto|done|done]. Qed.

Lemma share_val_norm d : norm d = Some (share_val d).
Proof. by destruct d. Qed.

Lemma validateFeeConfig_ok c :
  validateFeeConfig c = Ok tt → config_valid c.
Proof.
  unfold validateFeeConfig, config_valid. destruct (UsdAmount c) as [u|]; [|done].
  rewrite DecIsNegative_spec, DecIsZero_spec, !share_val_norm.
  change (mbind ?k (Ok ?a)) with (k a). cbv beta. intros H.
  apply res_bind_ok in H as (? & H1 & H). apply check_ok in H1.
  apply negb_true_iff, Z.ltb_ge in H1. split; [done|].
  apply res_bind_ok in H as (s1 & H2 & H). rewrite DecAdd_spec in H2.
  apply dec_ret_fits in H2 as [-> Hf1].
  apply res_bind_ok in H as (s2 & H2 & H). rewrite DecAdd_spec in H2.
  apply dec_ret_fits in H2 as [-> Hf2].
  apply res_bind_ok in H as (s3 & H2 & H). rewrite DecAdd_spec in H2.
  apply dec_ret_fits in H2 as [-> Hf3].
  split; [done|].
  change (mbind ?k (Ok ?a)) with (k a) in H. cbv beta in H.
  destruct (Z.eqb_spec u 0); [by left|right].
  unfold LegacyOneDec in H. rewrite DecEqual_spec in H.
  change (mbind ?k (Ok ?a)) with (k a) in H. cbv beta in H.
  apply check_ok, Z.eqb_eq in H. done.
Qed.

Lemma validate_all_ok l : validate_all l = Ok tt → Forall config_valid l.
Proof.
  induction l as [|c l IH]; simpl; [constructor|]. intros H.
  apply res_bind_ok in H as ([] & H1 & H2). constructor; [|by apply IH].
  by apply validateFeeConfig_ok.
Qed.


(** A panic on the nil pointer rules [None] out. *)
Lemma DecIsNegative_ok d b :
  DecIsNegative d = Ok b → ∃ z, d = Some z ∧ b = (z <? 0).
Proof.
  destruct d as [z|].
  - rewrite DecIsNegative_spec. intros [= <-]. eauto.
  - destruct DecIsNegative_nil as [q ->]. done.
Qed.

Lemma validateOracleParams_ok p :
  validateOracleParams p = Ok tt ↔ oracle_valid (Oracle p).
Proof.
  unfold validateOracleParams, oracle_valid. split.
  - intros H.
    apply res_bind_ok in H as (? & H1 & H). apply check_ok, negb_true_iff in H1.
    apply res_bind_ok in H as (? & H2 & H). apply check_ok, negb_true_iff in H2.
    apply res_bind_ok in H as (neg & H3 & H). apply DecIsNegative_ok in H3 as (d & Hd & ->).
    apply res_bind_ok in H as (above & H4 & H).
    apply res_bind_ok in H as (? & H5 & H). apply check_ok, negb_true_iff in H5. subst above.
    apply res_bind_ok in H as (? & H6 & H). apply check_ok, negb_true_iff in H6.
    apply check_ok, negb_true_iff in H. apply Z.eqb_neq in H1.
    rewrite Z.leb_gt in H2, H6, H. rewrite Hd in H4.
    destruct (Z.ltb_spec d 0); [done|]. unfold LegacyOneDec in H4.
    rewrite DecGT_spec in H4. injection H4 as H4. apply Z.ltb_ge in H4.
    split_and!; eauto.
  - intros (H1 & H2 & (d & Hd & Hd') & H3 & H4). rewrite Hd.
    rewrite (proj2 (Z.eqb_neq _ _) H1), (proj2 (Z.leb_gt _ _) H2),
      (proj2 (Z.leb_gt _ _) H3), (proj2 (Z.leb_gt _ _) H4), DecIsNegative_spec.
    simpl. rewrite (proj2 (Z.ltb_ge d 0)) by lia. unfold LegacyOneDec.
    rewrite DecGT_spec. simpl. by rewrite (proj2 (Z.ltb_ge precision d)) by lia.
Qed.

Lemma validateGuardRails_ok p :
  validateGuardRails p = Ok tt ↔ guards_valid (Guards p).
Proof.
  unfold validateGuardRails, guards_valid. split.
  - intros H.
    apply res_bind_ok in H as (neg & H1 & H). apply DecIsNegative_ok in H1 as (mn & Hmn & ->).
    apply res_bind_ok in H as (? & H2 & H). apply check_ok, negb_true_iff, Z.ltb_ge in H2.
    apply res_bind_ok in H as (neg & H3 & H). apply DecIsNegative_ok in H3 as (mx & Hmx & ->).
    apply res_bind_ok in H as (? & H4 & H). apply check_ok, negb_true_iff, Z.ltb_ge in H4.
    apply res_bind_ok in H as (gt & H5 & H). rewrite Hmn, Hmx, DecGT_spec in H5.
    injection H5 as <-.
    apply res_bind_ok in H as (? & H6 & H). apply check_ok, negb_true_iff, Z.ltb_ge in H6.
    apply res_bind_ok in H as (? & H7 & H). apply check_ok, negb_true_iff, Z.eqb_neq in H7.
    apply check_ok, negb_true_iff, Z.eqb_neq in H.
    exists mn, mx. split_and!; try done; lia.
  - intros (mn & mx & -> & -> & H1 & H2 & H3). rewrite !DecIsNegative_spec. simpl.
    rewrite (proj2 (Z.ltb_ge mn 0)) by lia. simpl. rewrite (proj2 (Z.ltb_ge mx 0)) by lia.
    simpl. rewrite DecGT_spec. simpl. rewrite (proj2 (Z.ltb_ge mx mn)) by lia. simpl.
    by rewrite (proj2 (Z.eqb_neq _ _) H2), (proj2 (Z.eqb_neq _ _) H3).
Qed.

Lemma validateMinGasPolicy_ok p :
  validateMinGasPolicy p = Ok tt ↔
  ∃ m, GlobalMinGasPrice (MinGas p) = Some m ∧ 0 ≤ m.
Proof.
  unfold validateMinGasPolicy. split.
  - intros H. apply res_bind_ok in H as (neg & H1 & H).
    apply DecIsNegative_ok in H1 as (m & Hm & ->).
    apply check_ok, negb_true_iff, Z.ltb_ge in H. eauto.
  - intros (m & -> & Hm). rewrite DecIsNegative_spec. simpl.
    by rewrite (proj2 (Z.ltb_ge m 0)) by lia.
Qed.

Lemma system_urls_loop_ok seen urls r :
  system_urls_loop seen urls = Ok r ↔
  let l := filter (λ s, s ≠ "") urls in
  NoDup l ∧ (∀ s, s ∈ l → s ∉ seen) ∧ r = rev_append l seen.
Proof.
  revert seen. induction urls as [|s urls IH]; intros seen; cbv zeta; simpl.
  - rewrite filter_nil. split.
    + intros [= <-]. split_and!; [constructor|set_solver|done].
    + by intros (_ & _ & ->).
  - rewrite filter_cons. destruct (String.eqb_spec s "") as [->|Hs].
    + rewrite decide_False by naive_solver. apply IH.
    + rewrite decide_True by done. case_bool_decide as Hin.
      * split; [done|]. intros (_ & H & _). exfalso. eapply H; [|exact Hin]. set_solver.
      * rewrite IH. cbv zeta. rewrite NoDup_cons. simpl. set_solver.
Qed.

Lemma exempt_urls_loop_ok seen urls :
  exempt_urls_loop seen urls = Ok tt ↔
  ∀ s, s ∈ filter (λ s, s ≠ "") urls → s ∉ seen.
Proof.
  induction urls as [|s urls IH]; simpl.
  - rewrite filter_nil. set_solver.
  - rewrite filter_cons. destruct (String.eqb_spec s "") as [->|Hs].
    + rewrite decide_False by naive_solver. apply IH.
    + rewrite decide_True by done. case_bool_decide as Hin.
      * split; [done|]. intros H. exfalso. eapply H; [|exact Hin]. set_solver.
      * rewrite IH. set_solver.
Qed.

Lemma validateHybridFields_ok p :
  validateHybridFields p = Ok tt ↔
  FeeMode p ∈ modes ∧
  urls_valid (elems (SystemMsgTypeUrls p)) (elems (ExemptMsgTypeUrls p)).
Proof.
  unfold validateHybridFields, urls_valid. split.
  - intros H. apply res_bind_ok in H as (? & H1 & H).
    apply check_ok, bool_decide_eq_true in H1.
    apply res_bind_ok in H as (seen & H2 & H). apply system_urls_loop_ok in H2.
    destruct H2 as (H2 & _ & ->). pose proof (proj1 (exempt_urls_loop_ok _ _) H) as Hex. clear H.
    split_and!; [done|done|]. intros s Hs. specialize (Hex s Hs).
    rewrite rev_append_rev, app_nil_r in Hex. intros Hin. apply Hex.
    by apply list_elem_of_In, in_rev, list_elem_of_In in Hin.
  - intros (H1 & H2 & H3). rewrite bool_decide_eq_true_2 by done. simpl.
    erewrite (proj2 (system_urls_loop_ok [] _ _)) by (split_and!; [done|set_solver|done]).
    simpl. apply exempt_urls_loop_ok. intros s Hs Hin. apply (H3 s Hs).
    rewrite rev_append_rev, app_nil_r in Hin.
    by apply list_elem_of_In, in_rev, list_elem_of_In.
Qed.

(** The zero-value shortcut applies. *)
Definition skips_validation (p : Params) : Prop :=
  FeeMode p = "" ∧ UsdAmount (PosPayment (FeeTableUsd p)) = Some 0 ∧
  elems (SystemMsgTypeUrls p) = [] ∧ elems (ExemptMsgTypeUrls p) = [].

Lemma validateFeeConfig_run c : config_valid c → validateFeeConfig c = Ok tt.
Proof.
  unfold validateFeeConfig, config_valid, sums_fit, split_sum.
  destruct (UsdAmount c) as [u|]; [|done]. intros (Hu & (H1 & H2 & H3) & Hs).
  rewrite DecIsNegative_spec, DecIsZero_spec, !share_val_norm. simpl.
  rewrite (proj2 (Z.ltb_ge u 0)) by done. simpl.
  rewrite DecAdd_spec, dec_ret_below by done. simpl.
  rewrite DecAdd_spec, dec_ret_below by done. simpl.
  rewrite DecAdd_spec, dec_ret_below by done. simpl.
  destruct (Z.eqb_spec u 0) as [|Hn]; [done|]. unfold LegacyOneDec.
  rewrite DecEqual_spec. simpl. destruct Hs as [|Hs]; [done|].
  by rewrite (proj2 (Z.eqb_eq _ _) Hs).
Qed.

Lemma validate_all_run l : Forall config_valid l → validate_all l = Ok tt.
Proof.
  induction l as [|c l IH]; [done|]. intros Hv. inversion Hv; subst.
  simpl. rewrite validateFeeConfig_run by done. by apply IH.
Qed.

Lemma looks_zero_ok p b :
  looks_zero p = Ok b → b = true ↔ skips_validation p.
Proof.
  unfold looks_zero, skips_validation. destruct (String.eqb_spec (FeeMode p) "") as [Hm|Hm].
  - intros H. apply res_bind_ok in H as (zero & Hz & H). injection H as <-.
    rewrite !andb_true_iff, !bool_decide_eq_true.
    assert (zero = true ↔ UsdAmount (PosPayment (FeeTableUsd p)) = Some 0) as ->.
    { destruct (UsdAmount (PosPayment (FeeTableUsd p))) as [u|].
      - rewrite DecIsZero_spec in Hz. injection Hz as <-. rewrite Z.eqb_eq. naive_solver.
      - destruct DecIsZero_nil as [q Hq]. by rewrite Hq in Hz. }
    tauto.
  - intros [= <-]. split; [done|]. tauto.
Qed.
End Facts.

Section Validation.
Context {MM : SdkMath} {ML : SdkMathLaws}.

(** Neither a mode nor an amount: the zero value of the amount is dereferenced. *)
Lemma looks_zero_nil p :
  FeeMode p = "" → UsdAmount (PosPayment (FeeTableUsd p)) = None →
  ∃ why, looks_zero p = Panic why.
Proof.
  intros Hm Hu. unfold looks_zero. rewrite Hm, Hu. simpl.
  destruct DecIsZero_nil as [q ->]. by exists q.
Qed.

(** C31 (functional). [Params.Validate] accepts exactly two kinds of parameters. The
    zero-looking ones, whatever else they hold: no fee mode, a zero amount for POS
    payments, both url lists empty. And the valid ones: in every category the amount
    is unset or non-negative, its four shares add up without overflow and, unless the
    amount is zero, to one; the request id is not zero, the oracle windows are positive,
    the deviation limit lies between 0 and 1; the gas price bounds are set, ordered and
    non-negative, the gas caps non-zero; the global minimum gas price is set and
    non-negative; the fee mode is known (or empty, if the POS amount is set); no
    non-empty url stands twice in the system list or in both lists, while the exempt
    list may repeat a url. *)
Theorem Validate_iff p :
  Validate p = Ok tt ↔ skips_validation p ∨ params_valid p.
Proof.
  destruct (decide (FeeMode p = "" ∧ UsdAmount (PosPayment (FeeTableUsd p)) = None))
    as [[Hm Hu]|Hset%not_and_l].
  { destruct (looks_zero_nil p Hm Hu) as [why Hw]. unfold Validate. rewrite Hw.
    unfold skips_validation, params_valid. rewrite Hm, Hu. naive_solver. }
  assert (∃ b, looks_zero p = Ok b) as [b Hb].
  { unfold looks_zero. destruct (String.eqb_spec (FeeMode p) ""); [|eauto].
    destruct (UsdAmount (PosPayment (FeeTableUsd p))) as [u|]; [|tauto].
    rewrite DecIsZero_spec. simpl. eauto. }
  pose proof (looks_zero_ok p b Hb) as Hskip. unfold Validate, params_valid. rewrite Hb. simpl.
  destruct b; [tauto|].
  assert (¬ skips_validation p) by (intros Hs; by apply Hskip in Hs).
  rewrite <- validateOracleParams_ok, <- validateGuardRails_ok,
    <- validateMinGasPolicy_ok, <- validateHybridFields_ok.
  split.
  - intros Hv. right. unfold table_valid, validateFeeTableUSD in *.
    apply res_bind_ok in Hv as ([] & H1 & Hv). apply res_bind_ok in Hv as ([] & H2 & Hv).
    apply res_bind_ok in Hv as ([] & H3 & Hv). apply res_bind_ok in Hv as ([] & H4 & Hv).
    split_and!; try done. by apply validate_all_ok.
  - intros [?|(_ & H1 & H2 & H3 & H4 & H5)]; [done|]. unfold validateFeeTableUSD.
    rewrite validate_all_run by done. rewrite H2, H3, H4. exact H5.
Qed.

(** The default parameters are valid. *)
Lemma DefaultParams_valid :
  ∃ p, DefaultParams = Ok p ∧ Validate p = Ok tt ∧ FeeMode p = FeeModeHybrid.
Proof.
  exists default_params. split; [exact DefaultParams_value|]. split; [|done].
  unfold Validate, looks_zero. change (String.eqb (FeeMode default_params) "") with false.
  simpl mbind. cbv iota. unfold validateFeeTableUSD.
  rewrite validate_all_run.
  - simpl mbind. rewrite (proj2 (validateOracleParams_ok _)), (proj2 (validateGuardRails_ok _)),
      (proj2 (validateMinGasPolicy_ok _)); simpl mbind.
    + vm_compute. reflexivity.
    + exists (10 ^ 12). split; [reflexivity|vm_compute; discriminate].
    + exists (10 ^ 12), (100 * 10 ^ 16). repeat split; vm_compute; discriminate.
    + split_and!; [discriminate|reflexivity| |reflexivity|reflexivity].
      exists (5 * 10 ^ 16). repeat split; vm_compute; discriminate.
  - unfold configs. repeat constructor; try done; try (right; reflexivity);
      (eapply Z.lt_le_trans; [|apply dec_limit_ge]); vm_compute; reflexivity.
Qed.
End Validation.

(** The default parameters with other lists of urls. *)
Definition with_urls (sys ex : list string) : Params := {|
  FeeTableUsd := FeeTableUsd default_params; Oracle := Oracle default_params;
  Guards := Guards default_params; MinGas := MinGas default_params;
  TreasuryWallet := ""; RetailWallet := ""; TokenDevWallet := ""; TokenCreatorWallet := "";
  FeeMode := FeeModeHybrid; SystemMsgTypeUrls := Some sys; ExemptMsgTypeUrls := Some ex;
  ExemptAddresses := None |}.

#[local] Existing Instance ref_math.

(** The default parameters are accepted, also with an exempt url listed twice; not with
    a system url listed twice or exempted. *)
Theorem Validate_iff_witness :
  (skips_validation default_params ∨ params_valid default_params) ∧
  params_valid (with_urls ["/a"; "/b"] ["/c"; "/c"]) ∧
  ¬ params_valid (with_urls ["/a"; "/a"] []) ∧ ¬ params_valid (with_urls ["/a"] ["/a"]).
Proof.
  split_and!.
  - apply (proj1 (@Validate_iff ref_math ref_math_laws _)). vm_compute. reflexivity.
  - destruct (proj1 (@Validate_iff ref_math ref_math_laws
      (with_urls ["/a"; "/b"] ["/c"; "/c"])) ltac:(vm_compute; reflexivity))
      as [[Hm _]|Hv]; [discriminate Hm|exact Hv].
  - intros H. pose proof (proj2 (@Validate_iff ref_math ref_math_laws _) (or_intror H)) as Hv.
    clear H. vm_compute in Hv. discriminate Hv.
  - intros H. pose proof (proj2 (@Validate_iff ref_math ref_math_laws _) (or_intror H)) as Hv.
    clear H. vm_compute in Hv. discriminate Hv.
Defined.
