(* ===== verification/TokenTypes.v ===== *)
(** * x/token/types: parameters, token metadata and messages

    [src/x/token/types]: [params.go], [token_metadata.go],
    [message_create_token.go], [errors.go], [genesis.go]. *)

From S2P Require Import Prelude GoLib Sdk.
From Stdlib Require Import Strings.Ascii Strings.String.
From stdpp Require Import strings.

Local Open Scope Z_scope.

Definition ModuleName : string := "token".

Definition ErrInvalidSigner : error := ErrReg "token" 1100.
Definition ErrInvalidCreator : error := ErrReg "token" 1101.
Definition ErrInvalidTokenName : error := ErrReg "token" 1102.
Definition ErrInvalidTokenSymbol : error := ErrReg "token" 1103.
Definition ErrInvalidDecimals : error := ErrReg "token" 1104.
Definition ErrInvalidInitialSupply : error := ErrReg "token" 1105.
Definition ErrInvalidMaxSupply : error := ErrReg "token" 1106.
Definition ErrInitialSupplyExceedsMax : error := ErrReg "token" 1107.
Definition ErrNonMintableSupplyMismatch : error := ErrReg "token" 1108.
Definition ErrSymbolAlreadyExists : error := ErrReg "token" 1109.
Definition ErrReservedSymbol : error := ErrReg "token" 1110.
Definition ErrMaxTokensPerCreatorExceeded : error := ErrReg "token" 1111.
Definition ErrTokenNotFound : error := ErrReg "token" 1112.
Definition ErrUnauthorizedMinter : error := ErrReg "token" 1113.
Definition ErrMaxSupplyExceeded : error := ErrReg "token" 1114.

(** ** Parameters *)

(** The list is nil when absent; the amount is a [math.Int] that may be nil. *)
Record Params := mkParams {
  MaxTokensPerCreator : Z;
  ReservedSymbols : option (list string);
  CreationFeeAmount : option Z
}.

#[export] Instance Params_eq_dec : EqDecision Params.
Proof. solve_decision. Defined.

Definition zero_params : Params := mkParams 0 None None.
Definition NewParams : Params := mkParams 10 (Some ["csv"]) (Some 0).
Definition DefaultParams : Params := NewParams.

Section Validation.
Context `{SdkMath}.

Definition Validate (p : Params) : res unit :=
  if MaxTokensPerCreator p =? 0 then Err ErrInvalidMaxSupply else
  neg ← IntIsNegative (CreationFeeAmount p);
  if neg : bool then Err ErrInvalidInitialSupply else mret tt.

(** [GenesisState.Validate] *)
Definition GenesisValidate (p : Params) : res unit :=
  if bool_decide (p = zero_params) then mret tt else Validate p.

(** The parameters after a round through the store. *)
Definition wire_params (p : Params) : Params :=
  mkParams (MaxTokensPerCreator p)
    (match ReservedSymbols p with Some [] => None | l => l end)
    (int_wire (CreationFeeAmount p)).
End Validation.

(** ** Token metadata *)
Record TokenMetadata := mkTokenMetadata {
  TokenID : string;
  Name : string;
  Symbol : string;
  Decimals : Z;
  MaxSupply : Z;
  CurrentSupply : Z;
  Mintable : bool;
  Creator : Slice;
  POSCompatible : bool;
  IconURI : string;
  Description : string;
  CreatedAt : Z
}.

(** [TokenMetadata.Validate] *)
Definition ValidateMetadata (tm : TokenMetadata) : res unit :=
  if String.eqb (TokenID tm) "" then Err ErrInvalidTokenName else
  if String.eqb (Name tm) "" then Err ErrInvalidTokenName else
  if String.eqb (Symbol tm) "" then Err ErrInvalidTokenSymbol else
  if 18 <? Decimals tm then Err ErrInvalidDecimals else
  if MaxSupply tm =? 0 then Err ErrInvalidMaxSupply else
  if MaxSupply tm <? CurrentSupply tm then Err ErrInitialSupplyExceedsMax else
  if slice_empty (Creator tm) then Err ErrInvalidCreator else
  mret tt.

(** The metadata encoding/json writes and reads back unchanged: text is valid
    UTF-8 (other bytes become U+FFFD), the creator is an account address (0 to 255
    bytes, not empty), the time has a year of four digits. *)
Definition year_10000 : Z := 253402300800 * second.
Definition metadata_encodable (tm : TokenMetadata) : bool :=
  utf8_valid (TokenID tm) && utf8_valid (Name tm) && utf8_valid (Symbol tm)
  && utf8_valid (IconURI tm) && utf8_valid (Description tm)
  && negb (slice_empty (Creator tm))
  && (String.length (bytes_of (Creator tm)) <=? 255)%nat
  && (0 <=? CreatedAt tm) && (CreatedAt tm <? year_10000)
  && (0 <=? Decimals tm) && (Decimals tm <? 2 ^ 32)
  && (0 <=? MaxSupply tm) && (MaxSupply tm <? 2 ^ 64)
  && (0 <=? CurrentSupply tm) && (CurrentSupply tm <? 2 ^ 64).

(** ** Messages *)
Record MsgCreateToken := mkMsgCreateToken {
  ct_Creator : string;
  ct_Name : string;
  ct_Symbol : string;
  ct_Decimals : Z;
  ct_InitialSupply : Z;
  ct_MaxSupply : Z;
  ct_Mintable : bool;
  ct_PosCompatible : bool;
  ct_IconUri : string;
  ct_Description : string
}.

Definition ValidateBasic `{AddressCodec} (msg : MsgCreateToken) : res unit :=
  match snd (AccAddressFromBech32 (ct_Creator msg)) with
  | Some _ => Err ErrInvalidCreator
  | None =>
  if String.eqb (ct_Name msg) "" then Err ErrInvalidTokenName else
  if String.eqb (ct_Symbol msg) "" then Err ErrInvalidTokenSymbol else
  if 18 <? ct_Decimals msg then Err ErrInvalidDecimals else
  if ct_InitialSupply msg =? 0 then Err ErrInvalidInitialSupply else
  if ct_MaxSupply msg =? 0 then Err ErrInvalidMaxSupply else
  if ct_MaxSupply msg <? ct_InitialSupply msg then Err ErrInitialSupplyExceedsMax else
  if negb (ct_Mintable msg) && negb (ct_InitialSupply msg =? ct_MaxSupply msg)
  then Err ErrNonMintableSupplyMismatch
  else mret tt
  end.

Record MsgMint := mkMsgMint {
  mint_Creator : string;
  mint_To : string;
  mint_Amount : Z;
  mint_TokenId : string
}.

Record MsgBurn := mkMsgBurn {
  burn_Creator : string;
  burn_To : string;
  burn_Amount : Z;
  burn_TokenId : string
}.
