(* ===== verification/OsmoTypes.v ===== *)
(** * x/osmosisicq/types: parameters of the Osmosis price queries

    [src/x/osmosisicq/types/params.go] and [errors.go]. *)

From S2P Require Import Prelude GoLib Sdk.
From Stdlib Require Import Strings.Ascii Strings.String.
From stdpp Require Import strings.

Local Open Scope Z_scope.

Definition ModuleName : string := "osmosisicq".
Definition ErrInvalidSigner : error := ErrReg "osmosisicq" 1100.
Definition ErrNoActiveChannel : error := ErrReg "osmosisicq" 1101.

Record Params := mkParams {
  ConnectionId : string;
  UpdateIntervalSeconds : Z;
  PoolId : Z;
  BaseDenom : string;
  QuoteDenom : string;
  UseTwap : bool;
  TwapWindowSeconds : Z;
  MinLiquidity : string;
  MaxDeviation : string
}.

#[export] Instance Params_eq_dec : EqDecision Params.
Proof. solve_decision. Defined.

Definition NewParams : Params := {|
  ConnectionId := "connection-0";
  UpdateIntervalSeconds := 30;
  PoolId := 1464;
  BaseDenom := "uosmo";
  QuoteDenom := "ibc/PLACEHOLDER_HASH";
  UseTwap := true;
  TwapWindowSeconds := 300;
  MinLiquidity := "0";
  MaxDeviation := "0.5"
|}.
Definition DefaultParams : Params := NewParams.

(** [LegacyNewDecFromStr] as the [err] of an [if] that wraps it. *)
Definition wrap_res {A} (r : res A) (text : string) : res A :=
  match r with Err e => Err (ErrWrap e text) | _ => r end.

Definition Validate `{SdkMath} (p : Params) : res unit :=
  if UseTwap p && (TwapWindowSeconds p =? 0)
  then Err (ErrText "twap_window_seconds must be > 0 when use_twap is true") else
  if String.eqb (TrimSpace (BaseDenom p)) ""
  then Err (ErrText "base_denom cannot be empty") else
  if String.eqb (TrimSpace (QuoteDenom p)) ""
  then Err (ErrText "quote_denom cannot be empty") else
  _ ← wrap_res (LegacyNewDecFromStr (MinLiquidity p)) "invalid min_liquidity";
  dev ← wrap_res (LegacyNewDecFromStr (MaxDeviation p)) "invalid max_deviation";
  neg ← DecIsNegative dev;
  if neg : bool then Err (ErrText "max_deviation cannot be negative") else mret tt.
