(* ===== verification/ShellTypes.v ===== *)
(** * Parameters of the modules with a parameter store only

    x/treasury, x/registry and x/conversionpool keep three strings each; x/oracle,
    x/icqcontroller, x/pricefeed and x/cosvian keep an empty message. *)

From S2P Require Import Prelude GoLib Sdk.
From Stdlib Require Import Strings.String.

(** ** x/treasury/types/params.go *)
Module Treasury.
Record Params := mkParams {
  DistributionRatio : string;
  ValidatorRewardPercentage : string;
  DevRewardPercentage : string
}.

Definition DefaultDistributionRatio : string := "distribution_ratio".
Definition DefaultValidatorRewardPercentage : string := "validator_reward_percentage".
Definition DefaultDevRewardPercentage : string := "dev_reward_percentage".

Definition NewParams (a b c : string) : Params := mkParams a b c.
Definition DefaultParams : Params :=
  NewParams DefaultDistributionRatio DefaultValidatorRewardPercentage
    DefaultDevRewardPercentage.

Definition validateDistributionRatio (v : string) : res unit := mret tt.
Definition validateValidatorRewardPercentage (v : string) : res unit := mret tt.
Definition validateDevRewardPercentage (v : string) : res unit := mret tt.

Definition Validate (p : Params) : res unit :=
  validateDistributionRatio (DistributionRatio p);;
  validateValidatorRewardPercentage (ValidatorRewardPercentage p);;
  validateDevRewardPercentage (DevRewardPercentage p).
End Treasury.

(** ** x/registry/types/params.go *)
Module Registry.
Record Params := mkParams {
  PosCompatibleTokens : string;
  WalletCompatibleTokens : string;
  MinTokenStandard : string
}.

Definition DefaultPosCompatibleTokens : string := "pos_compatible_tokens".
Definition DefaultWalletCompatibleTokens : string := "wallet_compatible_tokens".
Definition DefaultMinTokenStandard : string := "min_token_standard".

Definition NewParams (a b c : string) : Params := mkParams a b c.
Definition DefaultParams : Params :=
  NewParams DefaultPosCompatibleTokens DefaultWalletCompatibleTokens
    DefaultMinTokenStandard.

Definition validatePosCompatibleTokens (v : string) : res unit := mret tt.
Definition validateWalletCompatibleTokens (v : string) : res unit := mret tt.
Definition validateMinTokenStandard (v : string) : res unit := mret tt.

Definition Validate (p : Params) : res unit :=
  validatePosCompatibleTokens (PosCompatibleTokens p);;
  validateWalletCompatibleTokens (WalletCompatibleTokens p);;
  validateMinTokenStandard (MinTokenStandard p).
End Registry.

(** ** x/conversionpool/types/params.go *)
Module Conversionpool.
Record Params := mkParams {
  MaxConversionSupply : string;
  ConversionRate : string;
  MinPoolReserve : string
}.

Definition DefaultMaxConversionSupply : string := "max_conversion_supply".
Definition DefaultConversionRate : string := "conversion_rate".
Definition DefaultMinPoolReserve : string := "min_pool_reserve".

Definition NewParams (a b c : string) : Params := mkParams a b c.
Definition DefaultParams : Params :=
  NewParams DefaultMaxConversionSupply DefaultConversionRate DefaultMinPoolReserve.

Definition validateMaxConversionSupply (v : string) : res unit := mret tt.
Definition validateConversionRate (v : string) : res unit := mret tt.
Definition validateMinPoolReserve (v : string) : res unit := mret tt.

Definition Validate (p : Params) : res unit :=
  validateMaxConversionSupply (MaxConversionSupply p);;
  validateConversionRate (ConversionRate p);;
  validateMinPoolReserve (MinPoolReserve p).
End Conversionpool.

(** ** The empty parameter messages of oracle, icqcontroller, pricefeed, cosvian *)
Module Empty.
Record Params := mkParams {}.
Definition NewParams : Params := mkParams.
Definition DefaultParams : Params := NewParams.
Definition Validate (p : Params) : res unit := mret tt.
End Empty.
