(* ===== verification/World.v ===== *)
(** * The state of the chain

    [World] holds the stores of cosvian's modules, the ledger and IBC state of
    the SDK keepers they call, and the events emitted so far.  A keeper method
    is a computation [M A] over it; [Ctx] is what the methods read of
    [sdk.Context]. *)

From S2P Require Import Prelude GoLib Sdk.
From S2P Require FeesTypes TokenTypes OsmoTypes ShellTypes.
From Stdlib Require Import Strings.Ascii Strings.String.
From stdpp Require Import strings.

Local Open Scope Z_scope.

(** ** Events

    Attribute values whose rendering is not modelled are kept as values. *)
Inductive AttrVal : Type :=
| AStr (s : string)
| AInt (z : Z)
| ABool (b : bool)
| ADec (d : Dec)
| ATime (t : Z)
| ADur (d : Z)
| ACoins (cs : Coins).

Record Event := mkEvent {
  ev_type : string;
  ev_attrs : list (string * AttrVal)
}.

(** ** Context

    [ctx.BlockTime()] in nanoseconds, [ctx.BlockHeight()], and the two values
    the fee ante handler stores in the context, and what its gas meters are. *)
Inductive Meter : Type := InfiniteGasMeter | LimitedGasMeter (limit : Z).
Record Ctx := mkCtx {
  BlockTime : Z;
  BlockHeight : Z;
  ctx_estimate : option FeesTypes.FeeEstimate;
  ctx_metadata : option FeesTypes.FeeMetadata;
  ctx_GasMeter : Meter;
  ctx_BlockGasMeter : option Meter
}.

(** ** Stores of the modules *)
Record OracleStore := mkOracleStore {
  o_params : option ShellTypes.Empty.Params;
  o_prices : gmap string string             (* CSVPrice *)
}.

Record TokenStore := mkTokenStore {
  t_params : option TokenTypes.Params;
  t_kv : gmap string string                 (* the raw keys under tm_, si_, ci_, cc_, ts *)
}.

Record OsmoStore := mkOsmoStore {
  q_params : option OsmoTypes.Params;
  q_last_update : option Z;
  q_next_update : option Z;
  q_last_result : option Z;
  q_query_ids : gmap string string
}.

Record IcqStore := mkIcqStore {
  i_params : option ShellTypes.Empty.Params;
  i_port : option string;
  i_active : gmap string string;            (* ActiveChannel *)
  i_pending : gmap string string            (* Pending *)
}.

Record FeedStore := mkFeedStore {
  f_params : option ShellTypes.Empty.Params;
  f_port : option string
}.

(** ** The world *)
Record World {E : Env} := mkWorld {
  w_oracle : OracleStore;
  w_fees : option FeesTypes.Params;
  w_token : TokenStore;
  w_treasury : option ShellTypes.Treasury.Params;
  w_registry : option ShellTypes.Registry.Params;
  w_convpool : option ShellTypes.Conversionpool.Params;
  w_cosvian : option ShellTypes.Empty.Params;
  w_osmo : OsmoStore;
  w_icq : IcqStore;
  w_feed : FeedStore;
  w_bank : BankState;
  w_ibc : IbcState;
  w_cap : CapState;
  w_gas : GasState;
  w_events : list Event
}.
Arguments World E : clear implicits.

Section Setters.
Context {E : Env}.
Implicit Types w : World E.

Definition set_oracle (x : OracleStore) w : World E :=
  mkWorld E x (w_fees w) (w_token w) (w_treasury w) (w_registry w) (w_convpool w)
    (w_cosvian w) (w_osmo w) (w_icq w) (w_feed w) (w_bank w) (w_ibc w) (w_cap w)
    (w_gas w) (w_events w).
Definition set_fees (x : option FeesTypes.Params) w : World E :=
  mkWorld E (w_oracle w) x (w_token w) (w_treasury w) (w_registry w) (w_convpool w)
    (w_cosvian w) (w_osmo w) (w_icq w) (w_feed w) (w_bank w) (w_ibc w) (w_cap w)
    (w_gas w) (w_events w).
Definition set_token (x : TokenStore) w : World E :=
  mkWorld E (w_oracle w) (w_fees w) x (w_treasury w) (w_registry w) (w_convpool w)
    (w_cosvian w) (w_osmo w) (w_icq w) (w_feed w) (w_bank w) (w_ibc w) (w_cap w)
    (w_gas w) (w_events w).
Definition set_treasury (x : option ShellTypes.Treasury.Params) w : World E :=
  mkWorld E (w_oracle w) (w_fees w) (w_token w) x (w_registry w) (w_convpool w)
    (w_cosvian w) (w_osmo w) (w_icq w) (w_feed w) (w_bank w) (w_ibc w) (w_cap w)
    (w_gas w) (w_events w).
Definition set_registry (x : option ShellTypes.Registry.Params) w : World E :=
  mkWorld E (w_oracle w) (w_fees w) (w_token w) (w_treasury w) x (w_convpool w)
    (w_cosvian w) (w_osmo w) (w_icq w) (w_feed w) (w_bank w) (w_ibc w) (w_cap w)
    (w_gas w) (w_events w).
Definition set_convpool (x : option ShellTypes.Conversionpool.Params) w : World E :=
  mkWorld E (w_oracle w) (w_fees w) (w_token w) (w_treasury w) (w_registry w) x
    (w_cosvian w) (w_osmo w) (w_icq w) (w_feed w) (w_bank w) (w_ibc w) (w_cap w)
    (w_gas w) (w_events w).
Definition set_cosvian (x : option ShellTypes.Empty.Params) w : World E :=
  mkWorld E (w_oracle w) (w_fees w) (w_token w) (w_treasury w) (w_registry w)
    (w_convpool w) x (w_osmo w) (w_icq w) (w_feed w) (w_bank w) (w_ibc w) (w_cap w)
    (w_gas w) (w_events w).
Definition set_osmo (x : OsmoStore) w : World E :=
  mkWorld E (w_oracle w) (w_fees w) (w_token w) (w_treasury w) (w_registry w)
    (w_convpool w) (w_cosvian w) x (w_icq w) (w_feed w) (w_bank w) (w_ibc w) (w_cap w)
    (w_gas w) (w_events w).
Definition set_icq (x : IcqStore) w : World E :=
  mkWorld E (w_oracle w) (w_fees w) (w_token w) (w_treasury w) (w_registry w)
    (w_convpool w) (w_cosvian w) (w_osmo w) x (w_feed w) (w_bank w) (w_ibc w) (w_cap w)
    (w_gas w) (w_events w).
Definition set_feed (x : FeedStore) w : World E :=
  mkWorld E (w_oracle w) (w_fees w) (w_token w) (w_treasury w) (w_registry w)
    (w_convpool w) (w_cosvian w) (w_osmo w) (w_icq w) x (w_bank w) (w_ibc w) (w_cap w)
    (w_gas w) (w_events w).
Definition set_bank (x : BankState) w : World E :=
  mkWorld E (w_oracle w) (w_fees w) (w_token w) (w_treasury w) (w_registry w)
    (w_convpool w) (w_cosvian w) (w_osmo w) (w_icq w) (w_feed w) x (w_ibc w) (w_cap w)
    (w_gas w) (w_events w).
Definition set_ibc (x : IbcState) w : World E :=
  mkWorld E (w_oracle w) (w_fees w) (w_token w) (w_treasury w) (w_registry w)
    (w_convpool w) (w_cosvian w) (w_osmo w) (w_icq w) (w_feed w) (w_bank w) x (w_cap w)
    (w_gas w) (w_events w).
Definition set_cap (x : CapState) w : World E :=
  mkWorld E (w_oracle w) (w_fees w) (w_token w) (w_treasury w) (w_registry w)
    (w_convpool w) (w_cosvian w) (w_osmo w) (w_icq w) (w_feed w) (w_bank w) (w_ibc w) x
    (w_gas w) (w_events w).
Definition set_gas (x : GasState) w : World E :=
  mkWorld E (w_oracle w) (w_fees w) (w_token w) (w_treasury w) (w_registry w)
    (w_convpool w) (w_cosvian w) (w_osmo w) (w_icq w) (w_feed w) (w_bank w) (w_ibc w)
    (w_cap w) x (w_events w).
Definition set_events (x : list Event) w : World E :=
  mkWorld E (w_oracle w) (w_fees w) (w_token w) (w_treasury w) (w_registry w)
    (w_convpool w) (w_cosvian w) (w_osmo w) (w_icq w) (w_feed w) (w_bank w) (w_ibc w)
    (w_cap w) (w_gas w) x.
End Setters.


(** ** Access to the stores *)
Definition ErrNotFound : error := ErrSdk "collections.ErrNotFound".

Section Access.
Context {E : Env}.

Definition on_bank {A} (m : stM BankState A) : stM (World E) A := zoom w_bank set_bank m.
Definition on_ibc {A} (m : stM IbcState A) : stM (World E) A := zoom w_ibc set_ibc m.
Definition on_cap {A} (m : stM CapState A) : stM (World E) A := zoom w_cap set_cap m.
Definition on_gas {A} (m : stM GasState A) : stM (World E) A := zoom w_gas set_gas m.

Definition EmitEvent (ty : string) (attrs : list (string * AttrVal)) : stM (World E) unit :=
  modify (λ w, set_events (w_events w ++ [mkEvent ty attrs]) w).

(** [collections.Item.Get], [Map.Get]: the key is looked up in the store. *)
Definition coll_get {A} (key : string) (f : World E → option A) : stM (World E) A := λ w,
  match kv_get_err key with
  | Some e => (w, Err e)
  | None => (w, res_of_option ErrNotFound (f w))
  end.
(** [Item.Set], [Map.Set], [Remove]. *)
Definition coll_set (key : string) (f : World E → World E) : stM (World E) unit := λ w,
  match kv_set_err key with
  | Some e => (w, Err e)
  | None => (f w, Ok tt)
  end.

(** ** Evaluation *)
Context {L : EnvLaws E}.

Lemma coll_get_run {A} key (f : World E → option A) w :
  coll_get key f w = (w, res_of_option ErrNotFound (f w)).
Proof. unfold coll_get. by rewrite kv_get_ok. Qed.

Lemma coll_set_run key (f : World E → World E) w : coll_set key f w = (f w, Ok tt).
Proof. unfold coll_set. by rewrite kv_set_ok. Qed.
End Access.

Section Frames.
Context {E : Env}.
Implicit Types w : World E.

(** One more event. *)
Definition logged (ev : Event) w : World E := set_events (w_events w ++ [ev]) w.

Lemma EmitEvent_run ty attrs w : EmitEvent ty attrs w = (logged (mkEvent ty attrs) w, Ok tt).
Proof. done. Qed.

Lemma coll_get_pure {A} key (f : World E → option A) w : (coll_get key f w).1 = w.
Proof. unfold coll_get. by case_match. Qed.

Lemma coll_get_no_panic {A} key (f : World E → option A) w p :
  (coll_get key f w).2 ≠ Panic p.
Proof. unfold coll_get, res_of_option. repeat (case_match; try done). Qed.

Lemma coll_set_ok_inv key (f : World E → World E) w w' u :
  coll_set key f w = (w', Ok u) → w' = f w.
Proof. unfold coll_set. case_match; by intros [= <-]. Qed.

Lemma coll_get_ok_inv {A} key (f : World E → option A) w w' a :
  coll_get key f w = (w', Ok a) → w' = w ∧ f w = Some a.
Proof. unfold coll_get, res_of_option. repeat (case_match; try done). by intros [= <- <-]. Qed.

Lemma on_bank_inv {A} (m : stM BankState A) w w' (r : res A) :
  on_bank m w = (w', r) → ∃ b, m (w_bank w) = (b, r) ∧ w' = set_bank b w.
Proof.
  unfold on_bank, zoom. destruct (m (w_bank w)) as [b r'].
  intros [= <- <-]. by exists b.
Qed.

Lemma set_bank_id w : set_bank (w_bank w) w = w.
Proof. by destruct w. Qed.
Lemma set_bank_twice a b w : set_bank a (set_bank b w) = set_bank a w.
Proof. done. Qed.
Lemma set_oracle_id w : set_oracle (w_oracle w) w = w.
Proof. by destruct w. Qed.
Lemma set_events_id w : set_events (w_events w) w = w.
Proof. by destruct w. Qed.
End Frames.

(** ** The [Params] query every module has *)
Definition query_params {E : Env} {P} (get : stM (World E) P) (zero : P)
    (req : option unit) : stM (World E) P :=
  match req with
  | None => throw (ErrText "invalid request")
  | Some _ =>
      r ← attempt get;
      match r with
      | inl params => mret params
      | inr err =>
          if errors_Is err ErrNotFound then mret zero
          else throw (ErrText "internal error")
      end
  end.

(** ** The authority check every [UpdateParams] starts with *)
Section Authority.
Context {E : Env}.

Definition check_authority (k_authority : Slice) (ErrInvalidSigner : error)
    (authority : string) : stM (World E) unit :=
  match StringToBytes authority with
  | (_, Some err) => throw (ErrWrap err "invalid authority address")
  | (bz, None) =>
      if String.eqb (bytes_of k_authority) (bytes_of bz) then mret tt
      else throw (ErrWrap ErrInvalidSigner "invalid authority")
  end.

Lemma check_authority_pure k e a w : (check_authority k e a w).1 = w.
Proof. unfold check_authority. by repeat case_match. Qed.

Lemma check_authority_ok k e a w w' u :
  check_authority k e a w = (w', Ok u) →
  w' = w ∧ ∃ bz, StringToBytes a = (bz, None) ∧ bytes_of bz = bytes_of k.
Proof.
  unfold check_authority. destruct (StringToBytes a) as [bz [err|]]; [done|].
  destruct (String.eqb_spec (bytes_of k) (bytes_of bz)) as [Hk|]; [|done].
  intros [= <-]. split; [done|]. by exists bz.
Qed.

Lemma check_authority_run k e a bz w :
  StringToBytes a = (bz, None) → bytes_of bz = bytes_of k →
  check_authority k e a w = (w, Ok tt).
Proof. unfold check_authority. intros -> ->. by rewrite String.eqb_refl. Qed.

Lemma check_authority_wrong k e a bz w :
  StringToBytes a = (bz, None) → bytes_of bz ≠ bytes_of k →
  check_authority k e a w = (w, Err (ErrWrap e "invalid authority")).
Proof.
  unfold check_authority. intros -> H.
  by destruct (String.eqb_spec (bytes_of k) (bytes_of bz)).
Qed.
End Authority.
