(* ===== verification/RefWorld.v ===== *)
(** * A world of the reference environment, for concrete runs *)

From S2P Require Import Prelude GoLib Sdk RefEnv World.
From S2P Require ShellTypes.
From Stdlib Require Import Strings.Ascii Strings.String.

Local Open Scope Z_scope.

(** The world before genesis. *)
Definition empty_world : World ref_env :=
  mkWorld ref_env
    (mkOracleStore None ∅) None (mkTokenStore None ∅) None None None None
    (mkOsmoStore None None None None ∅) (mkIcqStore None None ∅ ∅) (mkFeedStore None None)
    (mkLedger ∅ ∅ ∅) (mkRefIbc ∅) (∅ : gmap string unit) 0 [].

(** An account holding [n] units of [d]. *)
Definition with_balance (a d : string) (n : Z) (w : World ref_env) : World ref_env :=
  set_bank (E := ref_env) (l_put a d n (w_bank w)) w.

Definition ref_ctx : Ctx := mkCtx (1700000000 * second) 5 None None InfiniteGasMeter None.

(** The account string of an address in the reference codec. *)
Definition acc (a : string) : string := ref_prefix +:+ a.
