(* ===== verification/Interfaces.v ===== *)
(** * What the modules of the chain promise to one another

    The Go interfaces of [expected_keepers.go], [fees_expected_keepers.go],
    [icq_client.go] and [expected_consumers.go], each with the laws its clients
    are verified against. *)

From S2P Require Import Prelude GoLib Sdk World.
From S2P Require FeesTypes.
From Stdlib Require Import Strings.Ascii Strings.String.

Local Open Scope Z_scope.

(** ** x/oracle, as seen by x/fees, x/osmosisicq and x/pricefeed *)
Class OracleKeeper (E : Env) := {
  GetExchangeRate : Ctx → string → stM (World E) Dec;
  GetCSVPerUSD : Ctx → stM (World E) Dec;
  SetCSVPerUSD : Ctx → Dec → stM (World E) unit
}.

Class OracleKeeperLaws (E : Env) `{!OracleKeeper E} : Prop := {
  (* a rate that is returned is not zero; queries change nothing, never panic *)
  GetExchangeRate_total ctx s w :
    (∃ e, GetExchangeRate ctx s w = (w, Err e)) ∨
    (∃ z, GetExchangeRate ctx s w = (w, Ok (Some z)) ∧ z ≠ 0 ∧ Z.abs z < dec_limit);
  GetCSVPerUSD_total ctx w :
    ∃ z, GetCSVPerUSD ctx w = (w, Ok (Some z)) ∧ Z.abs z < dec_limit;
  (* what is stored is what is read *)
  GetCSVPerUSD_frame ctx w w' :
    w_oracle w' = w_oracle w → (GetCSVPerUSD ctx w').2 = (GetCSVPerUSD ctx w).2;
  SetCSVPerUSD_total ctx d w : ∃ o, SetCSVPerUSD ctx d w = (set_oracle o w, Ok tt);
  SetCSVPerUSD_get ctx ctx' z w w' u :
    SetCSVPerUSD ctx (Some z) w = (w', Ok u) → Z.abs z < dec_limit →
    GetCSVPerUSD ctx' w' = (w', Ok (Some z))
}.

(** ** x/fees, as seen by x/token and x/pricefeed *)
Class FeesKeeper (E : Env) := {
  ConvertUSDToCSV : Ctx → Dec → stM (World E) (Dec * FeesTypes.PriceData);
  GetFeeByType : Ctx → string → stM (World E) Dec;
  (* metadata: the entries of the map whose value is a string *)
  DistributeFee :
    Ctx → string → string → Coin → gmap string string → stM (World E) unit
}.

(** ** ICQ client, as seen by x/osmosisicq; KV consumer, by x/icqcontroller *)
Class ICQClient (E : Env) := {
  RegisterKVQuery : Ctx → string → string → string → stM (World E) string
}.

Class ICQClientLaws (E : Env) `{!ICQClient E} : Prop := {
  (* a registration leaves the stores of the caller and of the oracle alone *)
  RegisterKVQuery_frame ctx conn store key w :
    w_osmo (RegisterKVQuery ctx conn store key w).1 = w_osmo w ∧
    w_oracle (RegisterKVQuery ctx conn store key w).1 = w_oracle w;
  RegisterKVQuery_total ctx conn store key w p :
    (RegisterKVQuery ctx conn store key w).2 ≠ Panic p
}.

Class KVResultConsumer (E : Env) := {
  OnKVResult : Ctx → string → string → string → stM (World E) unit
}.

(** A consumer of query results leaves the controller's store alone. *)
Class KVResultConsumerLaws (E : Env) `{!KVResultConsumer E} : Prop := {
  OnKVResult_frame ctx store key value w :
    w_icq (OnKVResult ctx store key value w).1 = w_icq w
}.
