(* ===== verification/Oracle.v ===== *)
(** * x/oracle: the canonical CSV per USD price

    [src/x/oracle/keeper/keeper.go], [msg_server_set_price.go],
    [msg_update_params.go], [genesis.go], [query_params.go]. *)

From S2P Require Import Prelude GoLib Sdk RefEnv World RefWorld Interfaces.
From S2P Require ShellTypes.
From Stdlib Require Import Strings.Ascii Strings.String.
From stdpp Require Import strings.

Local Open Scope Z_scope.

Definition ErrInvalidSigner : error := ErrReg "oracle" 1100.
Definition ErrInvalidDenom : error := ErrReg "oracle" 1101.

Record MsgSetPrice := mkMsgSetPrice {
  sp_Creator : string;
  sp_Denom : string;
  sp_Price : string
}.

Section Keeper.
Context {E : Env} (k_authority : Slice).
Implicit Types ctx : Ctx.

(** The two collections of the keeper. *)
Definition price_get (key : string) : stM (World E) string :=
  coll_get ("csv_price" +:+ key) (λ w, o_prices (w_oracle w) !! key).
Definition price_set (key v : string) : stM (World E) unit :=
  coll_set ("csv_price" +:+ key) (λ w,
    set_oracle (mkOracleStore (o_params (w_oracle w))
                  (<[key := v]> (o_prices (w_oracle w)))) w).
Definition params_get : stM (World E) ShellTypes.Empty.Params :=
  coll_get "p_oracle" (λ w, o_params (w_oracle w)).
Definition params_set (p : ShellTypes.Empty.Params) : stM (World E) unit :=
  coll_set "p_oracle" (λ w,
    set_oracle (mkOracleStore (Some p) (o_prices (w_oracle w))) w).

Definition GetCSVPerUSD ctx : stM (World E) Dec :=
  r ← attempt (price_get "CSV_USD");
  match r with
  | inr _ => mret LegacyZeroDec
  | inl priceStr =>
      r' ← attempt (lift (LegacyNewDecFromStr priceStr));
      match r' with
      | inr _ => mret LegacyZeroDec
      | inl price => mret price
      end
  end.

Definition SetCSVPerUSD ctx (price : Dec) : stM (World E) unit :=
  price_set "CSV_USD" (DecString price).

Definition GetExchangeRate ctx (symbol : string) : stM (World E) Dec :=
  if String.eqb symbol "CSV" then
    price ← GetCSVPerUSD ctx;
    zero ← lift (DecIsZero price);
    if zero : bool then throw (ErrText "CSV price not available") else mret price
  else throw (ErrText "unsupported symbol").

(** [msgServer.SetPrice]; the result is [None] where the code returns a nil
    response with [errorsmod.Wrap] of whatever [err] is at that point. *)
Definition SetPrice ctx (msg : MsgSetPrice) : stM (World E) (option unit) :=
  match StringToBytes (sp_Creator msg) with
  | (_, Some err) => throw (ErrWrap err "invalid creator address")
  | (_, None) =>
  if negb (String.eqb (sp_Denom msg) "CSV") && negb (String.eqb (sp_Denom msg) "ucsv")
  then throw (ErrWrap ErrInvalidDenom "unsupported denom") else
  r ← attempt (lift (LegacyNewDecFromStr (sp_Price msg)));
  match r with
  | inr err => throw (ErrWrap err "invalid price format")
  | inl price =>
      neg ← lift (DecIsNegative price);
      bad ← (if neg : bool then mret true else lift (DecIsZero price));
      if bad : bool then
        (* err is nil here: it is the error of the parse that succeeded *)
        match errors_Wrap None "price must be positive" with
        | Some err => throw err
        | None => mret None
        end
      else
        wrap_err (SetCSVPerUSD ctx price) "failed to set price";;
        EmitEvent "PriceSet" [
          ("creator", AStr (sp_Creator msg));
          ("symbol", AStr "CSV");
          ("price", AStr (DecString price))];;
        mret (Some tt)
  end
  end.

Definition UpdateParams ctx (authority : string) (params : ShellTypes.Empty.Params)
    : stM (World E) unit :=
  check_authority k_authority ErrInvalidSigner authority;;
  lift (ShellTypes.Empty.Validate params);;
  params_set params.

Definition InitGenesis ctx (params : ShellTypes.Empty.Params) : stM (World E) unit :=
  params_set params.
Definition ExportGenesis ctx : stM (World E) ShellTypes.Empty.Params := params_get.
Definition Params (req : option unit) : stM (World E) ShellTypes.Empty.Params :=
  query_params params_get ShellTypes.Empty.NewParams req.
End Keeper.

#[export] Instance oracle_keeper (E : Env) : OracleKeeper E := {|
  Interfaces.GetExchangeRate := GetExchangeRate;
  Interfaces.GetCSVPerUSD := GetCSVPerUSD;
  Interfaces.SetCSVPerUSD := SetCSVPerUSD
|}.

(** ** The laws of the interface *)
Section Laws.
Context {E : Env} {L : EnvLaws E}.
Implicit Types w : World E.

Definition stored (w : World E) : option string := o_prices (w_oracle w) !! "CSV_USD".

(** The price a query sees: zero when nothing, or nothing readable, is stored. *)
Definition current (w : World E) : Dec :=
  match stored w with
  | None => LegacyZeroDec
  | Some s => match LegacyNewDecFromStr s with Ok d => d | _ => LegacyZeroDec end
  end.

Definition dec_zero (d : Dec) : bool :=
  match d with Some z => z =? 0 | None => false end.

Lemma GetCSVPerUSD_run ctx w : GetCSVPerUSD ctx w = (w, Ok (current w)).
Proof.
  unfold GetCSVPerUSD, price_get, attempt, current, stored.
  unfold mbind, stM_bind. rewrite coll_get_run.
  destruct (o_prices (w_oracle w) !! "CSV_USD") as [s|]; [|done]. simpl.
  pose proof (DecFromStr_total s) as Ht.
  destruct (LegacyNewDecFromStr s) as [d|e|p]; [done|done|by destruct (Ht p)].
Qed.

Lemma current_some w : ∃ z, current w = Some z ∧ Z.abs z < dec_limit.
Proof.
  assert (0 < dec_limit) by (pose proof dec_limit_ge; lia).
  unfold current. destruct (stored w) as [s|]; [|by exists 0].
  destruct (LegacyNewDecFromStr s) as [d| |] eqn:Hs; [|by exists 0|by exists 0].
  apply DecFromStr_ok in Hs as (z & -> & Hz). eauto.
Qed.

Lemma GetExchangeRate_run ctx w :
  GetExchangeRate ctx "CSV" w =
  (w, if dec_zero (current w)
      then Err (ErrText "CSV price not available") else Ok (current w)).
Proof.
  unfold GetExchangeRate. rewrite String.eqb_refl.
  rewrite (bind_run _ _ _ _ _ (GetCSVPerUSD_run ctx w)).
  destruct (current_some w) as (z & Hz & _). rewrite Hz.
  unfold lift, mbind, stM_bind. rewrite DecIsZero_spec. simpl. by case_match.
Qed.

Lemma SetCSVPerUSD_run ctx d w :
  SetCSVPerUSD ctx d w =
  (set_oracle (mkOracleStore (o_params (w_oracle w))
     (<["CSV_USD" := DecString d]> (o_prices (w_oracle w)))) w, Ok tt).
Proof. unfold SetCSVPerUSD, price_set. by rewrite coll_set_run. Qed.

Lemma current_set z w :
  Z.abs z < dec_limit →
  current (set_oracle (mkOracleStore (o_params (w_oracle w))
     (<["CSV_USD" := DecString (Some z)]> (o_prices (w_oracle w)))) w) = Some z.
Proof.
  intros Hz. unfold current, stored. simpl.
  by rewrite lookup_insert_eq, DecFromStr_String.
Qed.

Lemma current_events evs w : current (set_events evs w) = current w.
Proof. done. Qed.

#[export] Instance oracle_keeper_laws : OracleKeeperLaws E.
Proof.
  constructor; simpl.
  - intros ctx s w. destruct (String.eqb_spec s "CSV") as [->|Hs].
    + rewrite GetExchangeRate_run. destruct (current_some w) as (z & -> & Hz).
      simpl. destruct (Z.eqb_spec z 0); [left; eauto|right; eauto].
    + left. unfold GetExchangeRate. apply String.eqb_neq in Hs. rewrite Hs. by eexists.
  - intros ctx w. rewrite GetCSVPerUSD_run.
    destruct (current_some w) as (z & -> & Hz). eauto.
  - intros ctx w w' H. rewrite !GetCSVPerUSD_run. simpl. unfold current, stored. by rewrite H.
  - intros ctx d w. rewrite SetCSVPerUSD_run. by eexists.
  - intros ctx ctx' z w w' u. rewrite SetCSVPerUSD_run. intros [= <- _] Hz.
    by rewrite GetCSVPerUSD_run, current_set.
Qed.
End Laws.

(** ** Properties *)
Section Properties.
Context {E : Env} {L : EnvLaws E}.
Implicit Types w : World E.

(** C35 (functional). A [MsgSetPrice] with a valid creator, a supported denom and a
    parseable price: a positive price is stored, is the rate every later query
    returns, and one [PriceSet] event is emitted; a zero or negative price
    changes nothing and is still reported without an error. *)
Theorem SetPrice_spec ctx ctx' msg w b z :
  StringToBytes (sp_Creator msg) = (b, None) →
  sp_Denom msg = "CSV" ∨ sp_Denom msg = "ucsv" →
  LegacyNewDecFromStr (sp_Price msg) = Ok (Some z) →
  ∃ w', SetPrice ctx msg w = (w', Ok (if 0 <? z then Some tt else None)) ∧
    if 0 <? z then
      GetExchangeRate ctx' "CSV" w' = (w', Ok (Some z)) ∧
      ∃ o, w' = set_events (w_events w ++ [mkEvent "PriceSet"
                  [("creator", AStr (sp_Creator msg)); ("symbol", AStr "CSV");
                   ("price", AStr (DecString (Some z)))]]) (set_oracle o w)
    else w' = w.
Proof.
  intros Hb Hd Hp. unfold SetPrice. rewrite Hb.
  assert (negb (String.eqb (sp_Denom msg) "CSV") &&
          negb (String.eqb (sp_Denom msg) "ucsv") = false) as ->
    by (by destruct Hd as [->| ->]).
  pose proof (DecFromStr_ok _ _ Hp) as (z' & [= <-] & Hz).
  unfold lift, attempt, mbind, stM_bind. rewrite Hp, DecIsNegative_spec.
  destruct (Z.ltb_spec z 0) as [Hneg|Hneg]; simpl.
  - destruct (Z.ltb_spec 0 z); [lia|]. rewrite errors_Wrap_nil. by eexists.
  - rewrite DecIsZero_spec. destruct (Z.eqb_spec z 0) as [->|Hn]; simpl.
    + rewrite errors_Wrap_nil. by eexists.
    + destruct (Z.ltb_spec 0 z); [|lia]. unfold wrap_err. rewrite SetCSVPerUSD_run.
      eexists. split; [done|]. split; [|by eexists].
      rewrite GetExchangeRate_run, current_events, current_set by done.
      simpl. by rewrite (proj2 (Z.eqb_neq z 0)).
Qed.

End Properties.

Theorem SetPrice_spec_witness :
  ∃ w', SetPrice ref_ctx (mkMsgSetPrice (acc "alice") "CSV" "2.5") empty_world =
          (w', Ok (Some tt)) ∧
        GetExchangeRate ref_ctx "CSV" w' = (w', Ok (Some (25 * 10 ^ 17))).
Proof.
  destruct (@SetPrice_spec _ ref_env_laws ref_ctx ref_ctx
    (mkMsgSetPrice (acc "alice") "CSV" "2.5") empty_world (Some "alice")
    (25 * 10 ^ 17)) as (w' & H1 & H2 & _); [reflexivity|by left|reflexivity|].
  exists w'. split; [exact H1|exact H2].
Defined.
