(* ===== verification/FeesKeeper.v ===== *)
(** * x/fees/keeper: conversion, distribution and charging of fees

    [src/x/fees/keeper]: [keeper.go], [oracle_adapter.go],
    [msg_server_charge_fee.go], [msg_update_params.go],
    [query_oracle_price.go], [query_params.go], [genesis.go].  The price comes
    from the interface [OracleKeeper]. *)

From Stdlib Require Import Strings.Ascii Strings.String.
From stdpp Require Import strings.
From S2P Require Import Prelude GoLib Json Sdk RefEnv World RefWorld Interfaces FeesTypes.
From S2P Require Oracle.

Local Open Scope Z_scope.

Definition ErrInvalidSigner : error := ErrReg "fees" 1100.

Section Keeper.
Context {E : Env} {OK : OracleKeeper E} (k_authority : Slice).
Implicit Types ctx : Ctx.

(** The collection [Params]. *)
Definition params_get : stM (World E) Params := coll_get "p_fees" w_fees.
Definition params_set (p : Params) : stM (World E) unit :=
  coll_set "p_fees" (set_fees (Some (wire_params p))).

(** ** The oracle adapter *)

(** [oa.keeper.Params.Get], with [DefaultParams] when it fails. *)
Definition params_or_default : stM (World E) Params :=
  r ← attempt params_get;
  match r with
  | inl params => mret params
  | inr _ => lift DefaultParams
  end.

Definition emitOracleEvent (pd : PriceData) : stM (World E) unit :=
  EmitEvent "oracle_used" [
    ("price", AStr (DecString (Price pd)));
    ("twap_price", AStr (DecString (TwapPrice pd)));
    ("timestamp", ATime (Timestamp pd));
    ("window", ADur (Window pd));
    ("freshness", ADur (Freshness pd));
    ("is_stale", ABool (IsStale pd));
    ("is_fallback", ABool (IsFallback pd))].

Definition getFallbackPrice ctx : stM (World E) PriceData :=
  let pd := mkPriceData LegacyOneDec LegacyOneDec (BlockTime ctx) 0 0 true true in
  emitOracleEvent pd;;
  mret pd.

(** A price is used when [err == nil && !price.IsZero()]. *)
Definition usable (r : Dec + error) : stM (World E) (option Dec) :=
  match r with
  | inr _ => mret None
  | inl price =>
      zero ← lift (DecIsZero price);
      mret (if zero : bool then None else Some price)
  end.

Definition GetCSVUSDPrice ctx : stM (World E) PriceData :=
  params ← params_or_default;
  r ← attempt (GetExchangeRate ctx "CSV");
  u ← usable r;
  match u with
  | Some price =>
      let pd := mkPriceData price price (BlockTime ctx) (TwapWindow (Oracle params)) 0
                  false false in
      emitOracleEvent pd;;
      mret pd
  | None => getFallbackPrice ctx
  end.

(** [isPriceValid]; [now] is the wall clock [time.Since] reads. *)
Definition isPriceValid (now timestamp : Z) (price : Dec) (params : OracleParams) : res bool :=
  if MaxPriceAge params <? now - timestamp then mret false else
  zero ← DecIsZero price;
  bad ← (if zero : bool then mret true else DecIsNegative price);
  mret (negb bad).

Definition ConvertUSDToCSV ctx (usd : Dec) : stM (World E) (Dec * PriceData) :=
  pd ← GetCSVUSDPrice ctx;
  csv ← lift (DecMul usd (TwapPrice pd));
  mret (csv, pd).

(** ** The fee table *)

(** The [switch feeType] of [DistributeFee] and [GetFeeByType]. *)
Definition config_by_type (t : FeeTableUSD) (feeType : string) : FeeConfig :=
  if String.eqb feeType "pos_payment" then PosPayment t
  else if String.eqb feeType "token_interaction" then TokenInteraction t
  else if String.eqb feeType "native_transfer" then NativeTransfer t
  else if String.eqb feeType "dex_swap_native" || String.eqb feeType "dex_native"
  then DexNative t
  else if String.eqb feeType "dex_swap_user" || String.eqb feeType "dex_user"
  then DexUser t
  else if String.eqb feeType "token_creation" || String.eqb feeType "contract_deploy"
  then Deploy t
  else NativeTransfer t.

(** The [switch] of [DistributeFeeFromModule] also knows "deploy". *)
Definition config_by_type_module (t : FeeTableUSD) (feeType : string) : FeeConfig :=
  if String.eqb feeType "deploy" then Deploy t else config_by_type t feeType.

Definition GetFeeByType ctx (feeType : string) : stM (World E) Dec :=
  r ← attempt params_get;
  match r with
  | inr _ => mret LegacyZeroDec
  | inl params => mret (UsdAmount (config_by_type (FeeTableUsd params) feeType))
  end.

(** ** Splitting an amount *)
Record Shares := mkShares {
  sh_treasury : Z;
  sh_retail : Z;
  sh_dev : Z;
  sh_creator : Z
}.

(** [split.MulInt(amount).TruncateInt()] *)
Definition share (d : Dec) (amount : Z) : res Z :=
  p ← DecMulInt d amount; DecTruncateInt p.

Definition split_amount (s : FeeSplit) (amount : Z) : res Shares :=
  t ← share (Treasury s) amount;
  r ← share (RetailWalletShare s) amount;
  d ← share (TokenDev s) amount;
  c ← share (TokenCreator s) amount;
  s1 ← IntAdd t r;
  s2 ← IntAdd s1 d;
  total ← IntAdd s2 c;
  if amount <? total then
    x ← IntSub amount r;
    y ← IntSub x d;
    z ← IntSub y c;
    mret (mkShares z r d c)
  else mret (mkShares t r d c).

(** ** Recipients *)
Record Recipients := mkRecipients {
  rc_retail : Slice;
  rc_dev : Slice;
  rc_creator : Slice
}.

(** An address of the metadata that parses. *)
Definition md_address (md : gmap string string) (key : string) : Slice :=
  match md !! key with
  | None => None
  | Some v =>
      if String.eqb v "" then None
      else match StringToBytes v with
           | (addr, None) => addr
           | (_, Some _) => None
           end
  end.

(** A wallet of the parameters; the error of the parse is dropped. *)
Definition wallet_address (s : string) : Slice :=
  if String.eqb s "" then None else fst (StringToBytes s).

Definition or_slice (a b : Slice) : Slice := match a with None => b | _ => a end.

Definition resolve_recipients (params : Params) (md : gmap string string) : Recipients :=
  let retail := md_address md "retail_address" in
  let creator := md_address md "creator_address" in
  let dev := md_address md "dev_address" in
  let creator' := or_slice creator dev in
  let dev' := or_slice dev creator' in
  mkRecipients
    (or_slice retail (wallet_address (RetailWallet params)))
    (or_slice dev' (wallet_address (TokenDevWallet params)))
    (or_slice creator' (wallet_address (TokenCreatorWallet params))).

(** Shares without a recipient go to the treasury. *)
Definition remap_shares (s : Shares) (rc : Recipients) : res Shares :=
  m1 ← (if slice_empty (rc_retail rc) then IntAdd 0 (sh_retail s) else mret 0);
  let retail := if slice_empty (rc_retail rc) then 0 else sh_retail s in
  m2 ← (if slice_empty (rc_dev rc) then IntAdd m1 (sh_dev s) else mret m1);
  let dev := if slice_empty (rc_dev rc) then 0 else sh_dev s in
  m3 ← (if slice_empty (rc_creator rc) then IntAdd m2 (sh_creator s) else mret m2);
  let creator := if slice_empty (rc_creator rc) then 0 else sh_creator s in
  t ← (if m3 =? 0 then mret (sh_treasury s) else IntAdd (sh_treasury s) m3);
  mret (mkShares t retail dev creator).

(** ** Sending the shares *)

(** [sdk.NewCoins(sdk.NewCoin(denom, amount))] *)
Definition coins_of (denom : string) (amount : Z) : res Coins :=
  c ← NewCoin denom amount; NewCoins [c].

Definition send_share (send : Coins → stM BankState unit) (denom : string) (amount : Z)
    (descr : string) : stM (World E) unit :=
  if amount =? 0 then mret tt else
  coins ← lift (coins_of denom amount);
  wrap_err (on_bank (send coins)) descr.

(** A share of an account is sent when [!amount.IsZero() && addr != nil &&
    len(addr) > 0]. *)
Definition send_to (send : string → Coins → stM BankState unit) (denom : string)
    (amount : Z) (addr : Slice) (descr : string) : stM (World E) unit :=
  if slice_empty addr then mret tt
  else send_share (send (bytes_of addr)) denom amount descr.

Definition get_params_wrapped : stM (World E) Params :=
  wrap_err params_get "failed to get params".

Definition DistributeFee ctx (sender : string) (feeType : string) (feeCoin : Coin)
    (metadata : gmap string string) : stM (World E) unit :=
  params ← get_params_wrapped;
  let feeConfig := config_by_type (FeeTableUsd params) feeType in
  shares ← lift (split_amount (Split feeConfig) (c_amount feeCoin));
  let rc := resolve_recipients params metadata in
  s ← lift (remap_shares shares rc);
  send_share (SendCoinsFromAccountToModule sender "treasury") (c_denom feeCoin)
    (sh_treasury s) "failed to send fees to treasury";;
  send_to (SendCoins sender) (c_denom feeCoin) (sh_retail s) (rc_retail rc)
    "failed to send fees to retail wallet";;
  send_to (SendCoins sender) (c_denom feeCoin) (sh_dev s) (rc_dev rc)
    "failed to send fees to token developer";;
  send_to (SendCoins sender) (c_denom feeCoin) (sh_creator s) (rc_creator rc)
    "failed to send fees to token creator".

Definition DistributeFeeFromModule ctx (moduleName feeType : string) (feeCoin : Coin)
    (metadata : gmap string string) : stM (World E) unit :=
  params ← get_params_wrapped;
  let feeConfig := config_by_type_module (FeeTableUsd params) feeType in
  shares ← lift (split_amount (Split feeConfig) (c_amount feeCoin));
  let rc := resolve_recipients params metadata in
  s ← lift (remap_shares shares rc);
  send_share (SendCoinsFromModuleToModule moduleName "treasury") (c_denom feeCoin)
    (sh_treasury s) "failed to send fees to treasury";;
  send_to (SendCoinsFromModuleToAccount moduleName) (c_denom feeCoin) (sh_retail s)
    (rc_retail rc) "failed to send fees to retail wallet";;
  send_to (SendCoinsFromModuleToAccount moduleName) (c_denom feeCoin) (sh_dev s)
    (rc_dev rc) "failed to send fees to token developer";;
  send_to (SendCoinsFromModuleToAccount moduleName) (c_denom feeCoin) (sh_creator s)
    (rc_creator rc) "failed to send fees to token creator".

(** ** Messages *)
Record MsgChargeFee := mkMsgChargeFee {
  cf_Creator : string;
  cf_Category : string;
  cf_Amount : string;
  cf_Metadata : string
}.
Record MsgChargeFeeResponse := mkMsgChargeFeeResponse {
  cf_GasUsed : string;
  cf_FeeCharged : string
}.

(** The [switch msg.Category]. *)
Definition charge_entry (t : FeeTableUSD) (category : string) : option FeeConfig :=
  if String.eqb category "pos_payment" then Some (PosPayment t)
  else if String.eqb category "token_interaction" then Some (TokenInteraction t)
  else if String.eqb category "native_transfer" then Some (NativeTransfer t)
  else if String.eqb category "dex_native" then Some (DexNative t)
  else if String.eqb category "dex_user" then Some (DexUser t)
  else if String.eqb category "deploy" then Some (Deploy t)
  else if String.eqb category "wizard" then Some (Wizard t)
  else None.

(** [feeCSV.MulInt64(1_000_000).TruncateInt()] *)
Definition to_ucsv (csv : Dec) : res Z :=
  m ← DecMulInt64 csv 1000000; DecTruncateInt m.

Definition ErrInvalidRequest : error := ErrSdk "ErrInvalidRequest".
Definition ErrInsufficientFunds : error := ErrSdk "ErrInsufficientFunds".

(** The JSON of the message, of which the string entries are used. *)
Definition charge_metadata (metadata : string) : gmap string string :=
  if String.eqb metadata "" then ∅ else string_entries (fst (unmarshal_map metadata)).

Definition ChargeFee ctx (msg : MsgChargeFee) : stM (World E) MsgChargeFeeResponse :=
  match StringToBytes (cf_Creator msg) with
  | (_, Some err) => throw (ErrWrap err "invalid creator address")
  | (creatorAddr, None) =>
  params ← wrap_err params_get "failed to get fee parameters";
  match charge_entry (FeeTableUsd params) (cf_Category msg) with
  | None => throw (ErrWrap ErrInvalidRequest "fee category not found")
  | Some feeEntry =>
  if String.eqb (cf_Category msg) "deploy" || String.eqb (cf_Category msg) "wizard"
  then mret (mkMsgChargeFeeResponse "0" "0") else
  let feeUSD := UsdAmount feeEntry in
  '(csvAmount, _) ← wrap_err (ConvertUSDToCSV ctx feeUSD) "failed to convert USD to CSV";
  feeucsv ← lift (to_ucsv csvAmount);
  userBalance ← gets (λ w, SpendableCoins (w_bank w) (bytes_of creatorAddr));
  ucsvBalance ← lift (AmountOf userBalance "ucsv");
  if ucsvBalance <? feeucsv
  then throw (ErrWrap ErrInsufficientFunds "insufficient balance") else
  let md := charge_metadata (cf_Metadata msg) in
  feeCoin ← lift (NewCoin "ucsv" feeucsv);
  wrap_err (DistributeFee ctx (bytes_of creatorAddr) (cf_Category msg) feeCoin md)
    "fee distribution failed";;
  gas ← lift (IntUint64 feeucsv);
  on_gas (ConsumeGas gas);;
  provided ← lift (coins_of "ucsv" feeucsv);
  EmitEvent "fee_charged" [
    ("category", AStr (cf_Category msg));
    ("fee_type", AStr (cf_Category msg));
    ("usd_amount", AStr (DecString feeUSD));
    ("csv_amount", AStr (DecString csvAmount));
    ("provided_fee", ACoins provided);
    ("system_exempt", AStr "false")];;
  mret (mkMsgChargeFeeResponse (IntString feeucsv) (IntString feeucsv))
  end
  end.

Definition UpdateParams ctx (authority : string) (params : Params) : stM (World E) unit :=
  check_authority k_authority ErrInvalidSigner authority;;
  lift (Validate params);;
  params_set params.

(** ** Queries and genesis *)
Definition OraclePrice ctx (req : option unit) : stM (World E) PriceData :=
  match req with
  | None => throw (ErrText "invalid request")
  | Some _ =>
      r ← attempt (GetExchangeRate ctx "CSV");
      match r with
      | inr _ => throw (ErrText "failed to get CSV price from oracle")
      | inl price =>
          mret (mkPriceData price price (BlockTime ctx) (5 * minute) 0 false false)
      end
  end.

Definition QueryParams (req : option unit) : stM (World E) Params :=
  query_params params_get NewParams req.

Definition InitGenesis ctx (params : Params) : stM (World E) unit := params_set params.
Definition ExportGenesis ctx : stM (World E) Params := params_get.
End Keeper.

#[export] Instance fees_keeper (E : Env) (OK : OracleKeeper E) : FeesKeeper E := {|
  Interfaces.ConvertUSDToCSV := ConvertUSDToCSV;
  Interfaces.GetFeeByType := GetFeeByType;
  Interfaces.DistributeFee := DistributeFee
|}.
