(* ===== verification/FeesSpec.v ===== *)
(** * What x/fees promises about the distribution of a fee

    The abstract plan of a distribution (four rounded shares, unresolvable
    recipients replaced by the treasury) and the refinement theorems that
    [DistributeFee] and [DistributeFeeFromModule] carry it out on the bank. *)

From Stdlib Require Import Strings.Ascii Strings.String.
From stdpp Require Import strings.
From S2P Require Import Prelude GoLib Sdk RefEnv World RefWorld Interfaces FeesTypes.
From S2P Require Import FeesKeeper.
From S2P Require Oracle.

Local Open Scope Z_scope.

(** ** The plan *)

(** Four non-negative shares that add up to one. *)
Definition split_ok (s : FeeSplit) : Prop :=
  ∃ t r d c, s = mkFeeSplit (Some t) (Some r) (Some d) (Some c) ∧
    0 ≤ t ∧ 0 ≤ r ∧ 0 ≤ d ∧ 0 ≤ c ∧ t + r + d + c = precision.

(** Four non-negative shares that add up to at most one: also the empty split of a
    free entry, whose shares are all zero. *)
Definition split_within (s : FeeSplit) : Prop :=
  ∃ t r d c, s = mkFeeSplit (Some t) (Some r) (Some d) (Some c) ∧
    0 ≤ t ∧ 0 ≤ r ∧ 0 ≤ d ∧ 0 ≤ c ∧ t + r + d + c ≤ precision.

Lemma split_ok_within s : split_ok s → split_within s ∧ split_sum s = precision.
Proof.
  intros (t & r & d & c & -> & Ht & Hr & Hd & Hc & Hs).
  split; [exists t, r, d, c; split_and!; (done || lia)|done].
Qed.

(** The part of an amount that a split hands out, rounded down. *)
Definition handed_out (s : FeeSplit) (amount : Z) : Z := split_sum s * amount / precision.

Definition floor_share (d : Dec) (amount : Z) : Z := share_val d * amount / precision.

Definition plan (s : FeeSplit) (rc : Recipients) (amount : Z) : Shares :=
  let r := floor_share (RetailWalletShare s) amount in
  let d := floor_share (TokenDev s) amount in
  let c := floor_share (TokenCreator s) amount in
  let to_treasury (lost : bool) x := if lost then x else 0 in
  let kept (lost : bool) x := if lost then 0 else x in
  let nr := slice_empty (rc_retail rc) in
  let nd := slice_empty (rc_dev rc) in
  let nc := slice_empty (rc_creator rc) in
  mkShares
    (floor_share (Treasury s) amount
     + to_treasury nr r + to_treasury nd d + to_treasury nc c)
    (kept nr r) (kept nd d) (kept nc c).

Definition total (s : Shares) : Z := sh_treasury s + sh_retail s + sh_dev s + sh_creator s.
Definition nonneg (s : Shares) : Prop :=
  0 ≤ sh_treasury s ∧ 0 ≤ sh_retail s ∧ 0 ≤ sh_dev s ∧ 0 ≤ sh_creator s.

(** Amounts for which no intermediate value overflows. *)
Definition amount_ok (a : Z) : Prop := 0 ≤ a < 2 ^ 192.

Inductive Target : Type := ToModule (name : string) | ToAddress (addr : string).
Record Transfer := mkTransfer {
  tr_target : Target;
  tr_amount : Z;
  tr_descr : string
}.

Definition target_address `{AddressCodec} (t : Target) : string :=
  match t with ToModule m => NewModuleAddress m | ToAddress a => a end.

Definition transfers (s : Shares) (rc : Recipients) : list Transfer :=
  List.filter (λ t, negb (tr_amount t =? 0)) [
    mkTransfer (ToModule "treasury") (sh_treasury s) "failed to send fees to treasury";
    mkTransfer (ToAddress (bytes_of (rc_retail rc))) (sh_retail s)
      "failed to send fees to retail wallet";
    mkTransfer (ToAddress (bytes_of (rc_dev rc))) (sh_dev s)
      "failed to send fees to token developer";
    mkTransfer (ToAddress (bytes_of (rc_creator rc))) (sh_creator s)
      "failed to send fees to token creator"].

Section Spec.
Context {E : Env} {L : EnvLaws E} {OK : OracleKeeper E}.
Implicit Types w : World E.

(** A transfer out of an account, and out of a module account. *)
Definition exec_account (sender denom : string) (t : Transfer) : stM BankState unit :=
  wrap_err
    (match tr_target t with
     | ToModule m => SendCoinsFromAccountToModule sender m
     | ToAddress a => SendCoins sender a
     end [mkCoin denom (tr_amount t)]) (tr_descr t).
Definition exec_module (m denom : string) (t : Transfer) : stM BankState unit :=
  wrap_err
    (match tr_target t with
     | ToModule m' => SendCoinsFromModuleToModule m m'
     | ToAddress a => SendCoinsFromModuleToAccount m a
     end [mkCoin denom (tr_amount t)]) (tr_descr t).

(** What an address receives from a list of transfers, and what they cost. *)
Definition received (ts : list Transfer) (a : string) : Z :=
  foldr (λ t n, (if String.eqb a (target_address (tr_target t)) then tr_amount t else 0) + n)
    0 ts.
Definition cost (ts : list Transfer) : Z := foldr (λ t n, tr_amount t + n) 0 ts.

(** ** Rounding *)
Lemma floors_sum t r d c a :
  0 ≤ t → 0 ≤ r → 0 ≤ d → 0 ≤ c → 0 ≤ a →
  let q x := x * a / precision in
  0 ≤ q t ∧ 0 ≤ q r ∧ 0 ≤ q d ∧ 0 ≤ q c ∧
  q (t + r + d + c) - 3 ≤ q t + q r + q d + q c ≤ q (t + r + d + c).
Proof.
  intros Ht Hr Hd Hc Ha q.
  assert (Hp : 0 < precision) by done.
  assert (Hq : ∀ x, 0 ≤ x → 0 ≤ q x ∧ precision * q x ≤ x * a < precision * q x + precision).
  { intros x Hx. unfold q. split; [apply Z.div_pos; nia|].
    pose proof (Z.mul_div_le (x * a) precision Hp).
    pose proof (Z.mul_succ_div_gt (x * a) precision Hp). lia. }
  pose proof (Hq t Ht). pose proof (Hq r Hr). pose proof (Hq d Hd). pose proof (Hq c Hc).
  pose proof (Hq (t + r + d + c) ltac:(lia)). rewrite !Z.mul_add_distr_r in *.
  clear Hq. clearbody q. change precision with 1000000000000000000 in *. split_and!; lia.
Qed.

Lemma share_run z a :
  0 ≤ z ≤ precision → amount_ok a → share (Some z) a = Ok (z * a / precision).
Proof.
  intros Hz Ha. unfold share, amount_ok in *.
  assert (0 ≤ z * a < 2 ^ 254).
  { change precision with 1000000000000000000 in Hz.
    assert (z * a ≤ 1000000000000000000 * a) by (apply Z.mul_le_mono_nonneg_r; lia).
    split; [apply Z.mul_nonneg_nonneg; lia|lia]. }
  rewrite DecMulInt_spec, dec_ret_ok by lia. simpl mbind.
  rewrite DecTruncateInt_spec, Z.quot_div_nonneg by (done || lia).
  assert (0 ≤ z * a / precision ≤ z * a).
  { split; [apply Z.div_pos; (done || lia)|]. apply Z.div_le_upper_bound; [done|].
    change precision with 1000000000000000000. lia. }
  apply int_ret_ok. lia.
Qed.

Lemma IntAdd_run a b : 0 ≤ a < 2 ^ 200 → 0 ≤ b < 2 ^ 200 → IntAdd a b = Ok (a + b).
Proof. intros. rewrite IntAdd_spec. apply int_ret_ok. lia. Qed.

Lemma remap_run s rc :
  nonneg s → total s < 2 ^ 192 →
  let keep (b : bool) x := if b then 0 else x in
  let lost (b : bool) x := if b then x else 0 in
  let nr := slice_empty (rc_retail rc) in
  let nd := slice_empty (rc_dev rc) in
  let nc := slice_empty (rc_creator rc) in
  remap_shares s rc = Ok (mkShares
    (sh_treasury s + lost nr (sh_retail s) + lost nd (sh_dev s) + lost nc (sh_creator s))
    (keep nr (sh_retail s)) (keep nd (sh_dev s)) (keep nc (sh_creator s))).
Proof.
  unfold nonneg, total. intros (H1 & H2 & H3 & H4) Ht. cbv zeta. unfold remap_shares.
  destruct (slice_empty (rc_retail rc)), (slice_empty (rc_dev rc)),
    (slice_empty (rc_creator rc));
    rewrite ?IntAdd_run by lia; simpl mbind; rewrite ?IntAdd_run by lia; simpl mbind;
    rewrite ?IntAdd_run by lia; simpl mbind;
    try (case_match eqn:Hz; rewrite ?IntAdd_run by lia; simpl mbind;
         rewrite ?Z.eqb_eq in Hz);
    unfold mret, res_ret; do 2 f_equal; lia.
Qed.

(** Splitting then remapping is the plan; the plan hands out what the split names,
    but for rounding. *)
Lemma plan_run_within s rc a :
  split_within s → amount_ok a →
  (sh ← split_amount s a; remap_shares sh rc) = Ok (plan s rc a) ∧
  nonneg (plan s rc a) ∧ handed_out s a - 3 ≤ total (plan s rc a) ≤ handed_out s a ∧
  handed_out s a ≤ a.
Proof.
  intros (t & r & d & c & -> & Ht & Hr & Hd & Hc & Hs) Ha.
  pose proof (floors_sum t r d c a Ht Hr Hd Hc ltac:(destruct Ha; lia)) as Hf.
  cbv zeta in Hf. destruct Hf as (F1 & F2 & F3 & F4 & F5).
  unfold split_amount. simpl Treasury. simpl RetailWalletShare. simpl TokenDev. simpl TokenCreator.
  assert (Hp : 0 < precision) by done.
  rewrite !share_run by (try done; lia). simpl mbind.
  unfold plan, handed_out, split_sum, floor_share, share_val. simpl.
  assert (Ho : (t + r + d + c) * a / precision ≤ a).
  { apply Z.div_le_upper_bound; [done|]. destruct Ha.
    apply Z.mul_le_mono_nonneg_r; lia. }
  set (qs := (t + r + d + c) * a / precision) in *.
  set (qt := t * a / precision) in *. set (qr := r * a / precision) in *.
  set (qd := d * a / precision) in *. set (qc := c * a / precision) in *.
  clearbody qs qt qr qd qc. unfold amount_ok in Ha.
  rewrite IntAdd_run by lia. simpl mbind. rewrite IntAdd_run by lia. simpl mbind.
  rewrite IntAdd_run by lia. simpl mbind.
  rewrite (proj2 (Z.ltb_ge a (qt + qr + qd + qc))) by lia. simpl mbind.
  rewrite remap_run by (unfold nonneg, total; simpl; lia). simpl.
  unfold nonneg, total. simpl.
  destruct (slice_empty (rc_retail rc)), (slice_empty (rc_dev rc)),
    (slice_empty (rc_creator rc)); split_and!; (done || lia).
Qed.

(** A full split neither creates nor, but for rounding, loses anything. *)
Lemma plan_run s rc a :
  split_ok s → amount_ok a →
  (sh ← split_amount s a; remap_shares sh rc) = Ok (plan s rc a) ∧
  nonneg (plan s rc a) ∧ a - 3 ≤ total (plan s rc a) ≤ a.
Proof.
  intros [Hw Hsum]%split_ok_within Ha.
  destruct (plan_run_within s rc a Hw Ha) as (Hr & Hn & Ht & _).
  unfold handed_out in Ht. rewrite Hsum, Z.mul_comm, Z.div_mul in Ht by done. done.
Qed.

(** ** Running the transfers on the bank *)
Lemma on_bank_bind {A B} (m : stM BankState A) (k : A → stM BankState B) w :
  (on_bank m ≫= λ a, on_bank (k a)) w = on_bank (m ≫= k) w.
Proof.
  unfold on_bank, zoom, mbind, stM_bind.
  destruct (m (w_bank w)) as [b [a|e|p]]; [|done|done]. simpl. by destruct (k a b).
Qed.

Lemma on_bank_ret {A} (a : A) w : (mret a : stM (World E) A) w = on_bank (mret a) w.
Proof. unfold on_bank, zoom. simpl. by rewrite set_bank_id. Qed.

Lemma on_bank_wrap {A} (m : stM BankState A) d w :
  wrap_err (on_bank m) d w = on_bank (wrap_err m d) w.
Proof. unfold wrap_err, on_bank, zoom. by destruct (m (w_bank w)) as [b [a|e|p]]. Qed.

Lemma coins_of_run denom a :
  denom_syntax denom = true → 0 ≤ a →
  coins_of denom a = Ok (if a =? 0 then [] else [mkCoin denom a]).
Proof.
  intros Hd Ha. unfold coins_of. rewrite NewCoin_spec, ValidateDenom_spec, Hd.
  rewrite (proj2 (Z.leb_le 0 a)) by done. simpl. apply NewCoins_one; [|done].
  by rewrite ValidateDenom_spec.
Qed.

(** Sending a list of transfers, one after another. *)
Definition run_transfers (ex : Transfer → stM BankState unit) (ts : list Transfer)
    : stM BankState unit :=
  for_each (List.filter (λ t, negb (tr_amount t =? 0)) ts) ex.

Lemma send_share_run send denom t w :
  denom_syntax denom = true → 0 ≤ tr_amount t →
  send_share send denom (tr_amount t) (tr_descr t) w =
  on_bank (if tr_amount t =? 0 then mret tt
           else wrap_err (send [mkCoin denom (tr_amount t)]) (tr_descr t)) w.
Proof.
  intros Hd Ha. unfold send_share. destruct (Z.eqb_spec (tr_amount t) 0) as [Hz|Hz].
  - apply on_bank_ret.
  - unfold lift, mbind, stM_bind. rewrite coins_of_run by done.
    rewrite (proj2 (Z.eqb_neq _ _) Hz). apply on_bank_wrap.
Qed.

Lemma run_transfers_cons ex t ts b :
  run_transfers ex (t :: ts) b =
  ((if tr_amount t =? 0 then mret tt else ex t);; run_transfers ex ts) b.
Proof. unfold run_transfers. simpl. by destruct (tr_amount t =? 0). Qed.

Lemma run_transfers_one ex t b :
  run_transfers ex [t] b = (if tr_amount t =? 0 then mret tt else ex t) b.
Proof.
  rewrite run_transfers_cons. unfold mbind, stM_bind.
  by destruct ((if tr_amount t =? 0 then mret tt else ex t) b) as [b' [[]|e|p]].
Qed.

Lemma run_step (m : stM (World E) unit) k ex t ts w :
  (∀ w', m w' = on_bank (if tr_amount t =? 0 then mret tt else ex t) w') →
  (∀ w', k w' = on_bank (run_transfers ex ts) w') →
  (m;; k) w = on_bank (run_transfers ex (t :: ts)) w.
Proof.
  intros Hm Hk.
  rewrite (bind_cong m (on_bank (if tr_amount t =? 0 then mret tt else ex t))
    (λ _, k) (λ _, on_bank (run_transfers ex ts)) w) by auto.
  rewrite on_bank_bind. unfold on_bank, zoom. by rewrite run_transfers_cons.
Qed.

Lemma send_to_run send denom t addr w :
  denom_syntax denom = true → 0 ≤ tr_amount t →
  (slice_empty addr = true → tr_amount t = 0) →
  send_to send denom (tr_amount t) addr (tr_descr t) w =
  on_bank (if tr_amount t =? 0 then mret tt
           else wrap_err (send (bytes_of addr) [mkCoin denom (tr_amount t)]) (tr_descr t)) w.
Proof.
  intros Hd Ha He. unfold send_to. destruct (slice_empty addr).
  - rewrite He by done. apply on_bank_ret.
  - by apply send_share_run.
Qed.

Lemma plan_empty s rc a :
  (slice_empty (rc_retail rc) = true → sh_retail (plan s rc a) = 0) ∧
  (slice_empty (rc_dev rc) = true → sh_dev (plan s rc a) = 0) ∧
  (slice_empty (rc_creator rc) = true → sh_creator (plan s rc a) = 0).
Proof. unfold plan. simpl. split_and!; by intros ->. Qed.

(** The four sends of a distribution are the plan's transfers. *)
Lemma sends_run (tsy : Coins → stM BankState unit) (snd : string → Coins → stM BankState unit)
    ex denom s rc w :
  denom_syntax denom = true → nonneg s →
  (slice_empty (rc_retail rc) = true → sh_retail s = 0) →
  (slice_empty (rc_dev rc) = true → sh_dev s = 0) →
  (slice_empty (rc_creator rc) = true → sh_creator s = 0) →
  (∀ t m, tr_target t = ToModule m → m = "treasury" →
     ex t = wrap_err (tsy [mkCoin denom (tr_amount t)]) (tr_descr t)) →
  (∀ t a, tr_target t = ToAddress a →
     ex t = wrap_err (snd a [mkCoin denom (tr_amount t)]) (tr_descr t)) →
  (send_share tsy denom (sh_treasury s) "failed to send fees to treasury";;
   send_to snd denom (sh_retail s) (rc_retail rc) "failed to send fees to retail wallet";;
   send_to snd denom (sh_dev s) (rc_dev rc) "failed to send fees to token developer";;
   send_to snd denom (sh_creator s) (rc_creator rc)
     "failed to send fees to token creator") w
  = on_bank (for_each (transfers s rc) ex) w.
Proof.
  intros Hd (H1 & H2 & H3 & H4) He1 He2 He3 Hex1 Hex2.
  change (for_each (transfers s rc) ex) with (run_transfers ex [
    mkTransfer (ToModule "treasury") (sh_treasury s) "failed to send fees to treasury";
    mkTransfer (ToAddress (bytes_of (rc_retail rc))) (sh_retail s)
      "failed to send fees to retail wallet";
    mkTransfer (ToAddress (bytes_of (rc_dev rc))) (sh_dev s)
      "failed to send fees to token developer";
    mkTransfer (ToAddress (bytes_of (rc_creator rc))) (sh_creator s)
      "failed to send fees to token creator"]).
  apply run_step.
  { intros w'. rewrite (Hex1 _ "treasury") by done. by apply (send_share_run tsy denom
      (mkTransfer (ToModule "treasury") (sh_treasury s) "failed to send fees to treasury")). }
  intros w1. apply run_step.
  { intros w'. rewrite (Hex2 _ (bytes_of (rc_retail rc))) by done.
    by apply (send_to_run snd denom (mkTransfer (ToAddress (bytes_of (rc_retail rc)))
      (sh_retail s) "failed to send fees to retail wallet")). }
  intros w2. apply run_step.
  { intros w'. rewrite (Hex2 _ (bytes_of (rc_dev rc))) by done.
    by apply (send_to_run snd denom (mkTransfer (ToAddress (bytes_of (rc_dev rc)))
      (sh_dev s) "failed to send fees to token developer")). }
  intros w3.
  set (t := mkTransfer (ToAddress (bytes_of (rc_creator rc))) (sh_creator s)
    "failed to send fees to token creator").
  rewrite (send_to_run snd denom t) by done. unfold on_bank, zoom.
  by rewrite run_transfers_one, (Hex2 t (bytes_of (rc_creator rc))) by done.
Qed.

(** ** The effect of a list of transfers on the ledger *)
Definition distributed (b b' : BankState) (src denom : string) (ts : list Transfer) : Prop :=
  (∀ a d, GetBalance b' a d = GetBalance b a d +
     if String.eqb denom d
     then received ts a - (if String.eqb a src then cost ts else 0) else 0) ∧
  (∀ d, GetSupply b' d = GetSupply b d).

Lemma transfers_effect src denom ex ts b b' u :
  (∀ t b b' u, ex t b = (b', Ok u) →
     moved b b' src (target_address (tr_target t)) [mkCoin denom (tr_amount t)]) →
  for_each ts ex b = (b', Ok u) →
  distributed b b' src denom ts.
Proof.
  intros Hex. revert b. induction ts as [|t ts IH]; intros b H.
  - simpl in H. step_inv. split; [|done]. intros a d. simpl.
    destruct (String.eqb denom d), (String.eqb a src); lia.
  - simpl in H. step_inv. destruct (Hex _ _ _ _ Hs) as [M1 M2].
    destruct (IH _ Hs0) as [I1 I2]. split.
    + intros x d. rewrite I1, M1, !coins_amount_one. simpl.
      destruct (String.eqb denom d), (String.eqb x src),
        (String.eqb x (target_address (tr_target t))); lia.
    + intros d. by rewrite I2, M2.
Qed.

Lemma exec_account_moved sender denom t b b' u :
  exec_account sender denom t b = (b', Ok u) →
  moved b b' sender (target_address (tr_target t)) [mkCoin denom (tr_amount t)].
Proof.
  unfold exec_account. intros H. apply wrap_err_ok_inv in H.
  destruct (tr_target t).
  - by apply SendCoinsFromAccountToModule_ok in H.
  - by apply SendCoins_ok in H.
Qed.

Lemma exec_module_moved m denom t b b' u :
  exec_module m denom t b = (b', Ok u) →
  moved b b' (NewModuleAddress m) (target_address (tr_target t))
    [mkCoin denom (tr_amount t)].
Proof.
  unfold exec_module. intros H. apply wrap_err_ok_inv in H.
  destruct (tr_target t).
  - by apply SendCoinsFromModuleToModule_ok in H.
  - by apply SendCoinsFromModuleToAccount_ok in H.
Qed.

Lemma cost_transfers s rc : cost (transfers s rc) = total s.
Proof.
  unfold transfers, total. simpl.
  destruct (Z.eqb_spec (sh_treasury s) 0), (Z.eqb_spec (sh_retail s) 0),
    (Z.eqb_spec (sh_dev s) 0), (Z.eqb_spec (sh_creator s) 0); simpl; lia.
Qed.

Lemma handed_out_all s a : split_sum s = precision → handed_out s a = a.
Proof. intros H. unfold handed_out. by rewrite H, Z.mul_comm, Z.div_mul. Qed.

(** A split of zeroes sends nothing. *)
Lemma transfers_none s rc a :
  split_within s → amount_ok a → split_sum s = 0 → transfers (plan s rc a) rc = [].
Proof.
  intros Hs Ha Hz. destruct (plan_run_within s rc a Hs Ha) as (_ & (H1 & H2 & H3 & H4) & Ht & _).
  unfold handed_out, total in Ht. rewrite Hz, Z.mul_0_l, Z.div_0_l in Ht by done.
  destruct (plan s rc a) as [t r d c]. simpl in *. unfold transfers. simpl.
  replace t with 0 by lia. replace r with 0 by lia. replace d with 0 by lia.
  by replace c with 0 by lia.
Qed.

Lemma get_params_wrapped_run p w :
  w_fees w = Some p → get_params_wrapped w = (w, Ok p).
Proof.
  intros Hp. unfold get_params_wrapped, params_get, wrap_err.
  rewrite coll_get_run, Hp. done.
Qed.


Section DistributeFee_facts.
Variables (ctx : Ctx) (sender feeType : string) (coin : Coin) (md : gmap string string).
Variables (p : Params) (w : World E).
Hypothesis Hp : w_fees w = Some p.
Hypothesis Hs : split_within (Split (config_by_type (FeeTableUsd p) feeType)).
Hypothesis Ha : amount_ok (c_amount coin).
Hypothesis Hd : denom_syntax (c_denom coin) = true.

Lemma DistributeFee_run :
  let rc := resolve_recipients p md in
  DistributeFee ctx sender feeType coin md w =
  on_bank (for_each
    (transfers (plan (Split (config_by_type (FeeTableUsd p) feeType)) rc (c_amount coin)) rc)
    (exec_account sender (c_denom coin))) w.
Proof using L Hp Hs Ha Hd.
  intros rc.
  destruct (plan_run_within _ rc _ Hs Ha) as (Hplan & Hnn & _).
  destruct (plan_empty (Split (config_by_type (FeeTableUsd p) feeType)) rc (c_amount coin))
    as (He1 & He2 & He3).
  unfold DistributeFee. rewrite (bind_run _ _ _ _ _ (get_params_wrapped_run p w Hp)).
  apply res_bind_ok in Hplan as (sh & Hsh & Hrm).
  unfold lift at 1. unfold mbind at 1, stM_bind at 1. rewrite Hsh.
  unfold lift at 1. unfold mbind at 1, stM_bind at 1. fold rc. rewrite Hrm.
  apply sends_run; try done; intros t x Ht; [intros ->|]; unfold exec_account; by rewrite Ht.
Qed.

Lemma DistributeFee_effect w' u :
  DistributeFee ctx sender feeType coin md w = (w', Ok u) →
  let rc := resolve_recipients p md in
  let s := plan (Split (config_by_type (FeeTableUsd p) feeType)) rc (c_amount coin) in
  ∃ b', w' = set_bank b' w ∧
    distributed (w_bank w) b' sender (c_denom coin) (transfers s rc).
Proof using L Hp Hs Ha Hd.
  rewrite DistributeFee_run. intros H. cbv zeta. apply on_bank_inv in H as (b' & H & ->).
  exists b'. split; [done|]. revert H. apply transfers_effect.
  intros. by eapply exec_account_moved.
Qed.
End DistributeFee_facts.

Section DistributeFeeFromModule_facts.
Variables (ctx : Ctx) (m feeType : string) (coin : Coin) (md : gmap string string).
Variables (p : Params) (w : World E).
Hypothesis Hp : w_fees w = Some p.
Hypothesis Hs : split_within (Split (config_by_type_module (FeeTableUsd p) feeType)).
Hypothesis Ha : amount_ok (c_amount coin).
Hypothesis Hd : denom_syntax (c_denom coin) = true.

Lemma DistributeFeeFromModule_run :
  let rc := resolve_recipients p md in
  DistributeFeeFromModule ctx m feeType coin md w =
  on_bank (for_each
    (transfers (plan (Split (config_by_type_module (FeeTableUsd p) feeType)) rc (c_amount coin)) rc)
    (exec_module m (c_denom coin))) w.
Proof using L Hp Hs Ha Hd.
  intros rc.
  destruct (plan_run_within _ rc _ Hs Ha) as (Hplan & Hnn & _).
  destruct (plan_empty (Split (config_by_type_module (FeeTableUsd p) feeType)) rc (c_amount coin))
    as (He1 & He2 & He3).
  unfold DistributeFeeFromModule. rewrite (bind_run _ _ _ _ _ (get_params_wrapped_run p w Hp)).
  apply res_bind_ok in Hplan as (sh & Hsh & Hrm).
  unfold lift at 1. unfold mbind at 1, stM_bind at 1. rewrite Hsh.
  unfold lift at 1. unfold mbind at 1, stM_bind at 1. fold rc. rewrite Hrm.
  apply sends_run; try done; intros t x Ht; [intros ->|]; unfold exec_module; by rewrite Ht.
Qed.

Lemma DistributeFeeFromModule_effect w' u :
  DistributeFeeFromModule ctx m feeType coin md w = (w', Ok u) →
  let rc := resolve_recipients p md in
  let s := plan (Split (config_by_type_module (FeeTableUsd p) feeType)) rc (c_amount coin) in
  ∃ b', w' = set_bank b' w ∧
    distributed (w_bank w) b' (NewModuleAddress m) (c_denom coin) (transfers s rc).
Proof using L Hp Hs Ha Hd.
  rewrite DistributeFeeFromModule_run. intros H. cbv zeta. apply on_bank_inv in H as (b' & H & ->).
  exists b'. split; [done|]. revert H. apply transfers_effect.
  intros. by eapply exec_module_moved.
Qed.
End DistributeFeeFromModule_facts.

(** C1 (refinement). Let the four shares of the fee type's entry be set, non-negative
    and at most one in sum, which also covers an entry whose split is all zero, and
    let the fee be non-negative, below 2^192 and of a valid denomination.  Then
    distributing a fee held by an account is exactly the plan's transfers run on the
    bank in order, the plan computed from that split and the resolved recipients.
    So it fails only where a transfer fails and touches nothing but the ledger; the
    plan's shares are non-negative and add up to the fraction of the fee the split
    names, rounded down, but for at most three units: to the fee when the shares sum
    to one, to nothing for a free entry; and when it succeeds every balance changes by
    what the plan says, the supply by nothing.  [Validate] also accepts a negative
    share, for which the code panics ([negative_share_panics]). *)
Theorem DistributeFee_spec ctx sender feeType coin md p w :
  w_fees w = Some p →
  split_within (Split (config_by_type (FeeTableUsd p) feeType)) →
  amount_ok (c_amount coin) → denom_syntax (c_denom coin) = true →
  let split := Split (config_by_type (FeeTableUsd p) feeType) in
  let rc := resolve_recipients p md in
  let s := plan split rc (c_amount coin) in
  let out := handed_out split (c_amount coin) in
  DistributeFee ctx sender feeType coin md w =
    on_bank (for_each (transfers s rc) (exec_account sender (c_denom coin))) w ∧
  nonneg s ∧ out - 3 ≤ cost (transfers s rc) ≤ out ∧ out ≤ c_amount coin ∧
  (split_sum split = precision → out = c_amount coin) ∧
  (split_sum split = 0 → transfers s rc = []) ∧
  ∀ w' u, DistributeFee ctx sender feeType coin md w = (w', Ok u) →
    ∃ b', w' = set_bank b' w ∧
      distributed (w_bank w) b' sender (c_denom coin) (transfers s rc).
Proof.
  intros Hp Hs Ha Hd split rc s out.
  destruct (plan_run_within _ rc _ Hs Ha) as (_ & Hnn & Ht & Ho).
  split; [by apply DistributeFee_run|]. split; [done|]. rewrite cost_transfers.
  split; [done|]. split; [done|]. split; [by apply handed_out_all|].
  split; [intros Hz; by apply (transfers_none split)|].
  intros w' u. by apply DistributeFee_effect.
Qed.

(** The same for a fee held by a module account, where the fee type
    "deploy" is also a key of the table. *)
Theorem DistributeFeeFromModule_spec ctx m feeType coin md p w :
  w_fees w = Some p →
  split_within (Split (config_by_type_module (FeeTableUsd p) feeType)) →
  amount_ok (c_amount coin) → denom_syntax (c_denom coin) = true →
  let split := Split (config_by_type_module (FeeTableUsd p) feeType) in
  let rc := resolve_recipients p md in
  let s := plan split rc (c_amount coin) in
  let out := handed_out split (c_amount coin) in
  DistributeFeeFromModule ctx m feeType coin md w =
    on_bank (for_each (transfers s rc) (exec_module m (c_denom coin))) w ∧
  nonneg s ∧ out - 3 ≤ cost (transfers s rc) ≤ out ∧ out ≤ c_amount coin ∧
  (split_sum split = precision → out = c_amount coin) ∧
  (split_sum split = 0 → transfers s rc = []) ∧
  ∀ w' u, DistributeFeeFromModule ctx m feeType coin md w = (w', Ok u) →
    ∃ b', w' = set_bank b' w ∧
      distributed (w_bank w) b' (NewModuleAddress m) (c_denom coin) (transfers s rc).
Proof.
  intros Hp Hs Ha Hd split rc s out.
  destruct (plan_run_within _ rc _ Hs Ha) as (_ & Hnn & Ht & Ho).
  split; [by apply DistributeFeeFromModule_run|]. split; [done|]. rewrite cost_transfers.
  split; [done|]. split; [done|]. split; [by apply handed_out_all|].
  split; [intros Hz; by apply (transfers_none split)|].
  intros w' u. by apply DistributeFeeFromModule_effect.
Qed.

(** When no recipient resolves, from the metadata or the parameters,
    the whole planned amount is one transfer to the treasury module account. *)
Theorem DistributeFee_no_recipients ctx sender feeType coin md p w :
  w_fees w = Some p →
  split_ok (Split (config_by_type (FeeTableUsd p) feeType)) →
  amount_ok (c_amount coin) → denom_syntax (c_denom coin) = true →
  (∀ key, md_address md key = None) →
  slice_empty (wallet_address (RetailWallet p)) = true →
  slice_empty (wallet_address (TokenDevWallet p)) = true →
  slice_empty (wallet_address (TokenCreatorWallet p)) = true →
  ∃ n, c_amount coin - 3 ≤ n ≤ c_amount coin ∧
    DistributeFee ctx sender feeType coin md w =
    (if n =? 0 then mret tt else
     wrap_err (on_bank (SendCoinsFromAccountToModule sender "treasury"
                          [mkCoin (c_denom coin) n])) "failed to send fees to treasury") w.
Proof.
  intros Hp Hs Ha Hd Hmd H1 H2 H3.
  destruct (plan_run _ (resolve_recipients p md) _ Hs Ha) as (_ & Hnn & Ht).
  set (s := plan _ _ _) in *. exists (sh_treasury s).
  assert (Hrc : slice_empty (rc_retail (resolve_recipients p md)) = true ∧
                slice_empty (rc_dev (resolve_recipients p md)) = true ∧
                slice_empty (rc_creator (resolve_recipients p md)) = true).
  { unfold resolve_recipients. rewrite !Hmd. simpl. done. }
  destruct Hrc as (R1 & R2 & R3).
  destruct (plan_empty (Split (config_by_type (FeeTableUsd p) feeType))
    (resolve_recipients p md) (c_amount coin)) as (E1 & E2 & E3).
  specialize (E1 R1). specialize (E2 R2). specialize (E3 R3).
  fold s in E1, E2, E3. unfold total in Ht. split; [lia|].
  rewrite (DistributeFee_run ctx sender feeType coin md p w)
    by (done || by apply split_ok_within). fold s.
  clearbody s. unfold transfers. rewrite E1, E2, E3. simpl.
  destruct (Z.eqb_spec (sh_treasury s) 0) as [Hz|Hz]; simpl.
  - symmetry. apply on_bank_ret.
  - rewrite on_bank_wrap. unfold on_bank, zoom, mbind, stM_bind, exec_account. simpl.
    by destruct (wrap_err _ _ (w_bank w)) as [b [[]|e|q]].
Qed.
End Spec.

(** ** Concrete runs *)

(** 1000 ucsv of "alice", the default table, a shop as retail wallet. *)
Definition shop_params : Params :=
  let p := default_params in
  mkParams (FeeTableUsd p) (Oracle p) (Guards p) (MinGas p) "" (acc "shop") "" ""
    (FeeMode p) (SystemMsgTypeUrls p) (ExemptMsgTypeUrls p) (ExemptAddresses p).
Definition alice_world : World ref_env :=
  set_fees (Some shop_params) (with_balance "alice" "ucsv" 1000 empty_world).

Theorem DistributeFee_spec_witness :
  ∃ b', (DistributeFee ref_ctx "alice" "pos_payment" (mkCoin "ucsv" 101) ∅ alice_world).1
          = set_bank (E := ref_env) b' alice_world ∧
    l_get b' "shop" "ucsv" = 50 ∧ l_get b' "module/treasury" "ucsv" = 50 ∧
    l_get b' "alice" "ucsv" = 900.
Proof.
  destruct (@DistributeFee_spec _ ref_env_laws ref_ctx "alice" "pos_payment"
    (mkCoin "ucsv" 101) ∅ shop_params alice_world) as (_ & _ & _ & _ & _ & _ & H).
  - reflexivity.
  - do 4 eexists. split; [reflexivity|]. vm_compute. repeat split; discriminate.
  - split; [discriminate|reflexivity].
  - reflexivity.
  - destruct (H (DistributeFee ref_ctx "alice" "pos_payment" (mkCoin "ucsv" 101) ∅
                   alice_world).1 tt) as (b' & Hb & Hd & _); [apply run_pair; vm_compute; reflexivity|].
    exists b'. split; [exact Hb|].
    pose proof (Hd "shop" "ucsv") as H1. pose proof (Hd "module/treasury" "ucsv") as H2.
    pose proof (Hd "alice" "ucsv") as H3. clear H Hb Hd.
    vm_compute in H1, H2, H3. vm_compute. split_and!; assumption.
Defined.

Theorem DistributeFeeFromModule_spec_witness :
  ∃ b', (DistributeFeeFromModule ref_ctx "fees" "token_interaction" (mkCoin "ucsv" 99) ∅
           (with_balance "module/fees" "ucsv" 99 alice_world)).1
          = set_bank (E := ref_env) b' (with_balance "module/fees" "ucsv" 99 alice_world) ∧
    l_get b' "module/treasury" "ucsv" = 98 ∧ l_get b' "module/fees" "ucsv" = 1.
Proof.
  destruct (@DistributeFeeFromModule_spec _ ref_env_laws ref_ctx "fees" "token_interaction"
    (mkCoin "ucsv" 99) ∅ shop_params (with_balance "module/fees" "ucsv" 99 alice_world))
    as (_ & _ & _ & _ & _ & _ & H).
  - reflexivity.
  - do 4 eexists. split; [reflexivity|]. vm_compute. repeat split; discriminate.
  - split; [discriminate|reflexivity].
  - reflexivity.
  - destruct (H (DistributeFeeFromModule ref_ctx "fees" "token_interaction"
      (mkCoin "ucsv" 99) ∅ (with_balance "module/fees" "ucsv" 99 alice_world)).1 tt)
      as (b' & Hb & Hd & _); [apply run_pair; vm_compute; reflexivity|].
    exists b'. split; [exact Hb|].
    pose proof (Hd "module/treasury" "ucsv") as H2.
    pose proof (Hd "module/fees" "ucsv") as H3. clear H Hb Hd.
    vm_compute in H2, H3. vm_compute. split_and!; assumption.
Defined.

Theorem DistributeFee_no_recipients_witness :
  ∃ n, 97 ≤ n ≤ 100 ∧
    DistributeFee ref_ctx "alice" "dex_user" (mkCoin "ucsv" 100) ∅
      (set_fees (Some default_params) alice_world) =
    (if n =? 0 then mret tt else
     wrap_err (on_bank (SendCoinsFromAccountToModule "alice" "treasury"
                          [mkCoin "ucsv" n])) "failed to send fees to treasury")
      (set_fees (Some default_params) alice_world).
Proof.
  apply (@DistributeFee_no_recipients _ ref_env_laws ref_ctx "alice" "dex_user"
    (mkCoin "ucsv" 100) ∅ default_params); try reflexivity.
  - do 4 eexists. split; [reflexivity|]. vm_compute. repeat split; discriminate.
  - split; [discriminate|reflexivity].
Defined.

(** ** A table that validates and cannot be distributed *)

(** POS payments give 200% to the treasury and -100% to the retail wallet. *)
Definition negative_params : Params :=
  let t := FeeTableUsd shop_params in
  mkParams
    (mkFeeTableUSD
       (mkFeeConfig (cents 15)
          (mkFeeSplit (cents 200) (cents (-100)) LegacyZeroDec LegacyZeroDec))
       (TokenInteraction t) (NativeTransfer t) (DexNative t) (DexUser t) (Deploy t)
       (Wizard t))
    (Oracle shop_params) (Guards shop_params) (MinGas shop_params) "" (acc "shop") "" ""
    (FeeMode shop_params) (SystemMsgTypeUrls shop_params) (ExemptMsgTypeUrls shop_params)
    (ExemptAddresses shop_params).

(** [Params.Validate] checks only the sum of the shares, so it accepts a
    negative share; distributing a fee under such parameters panics in
    [sdk.NewCoin] instead of returning an error. *)
Theorem negative_share_panics :
  @Validate ref_math negative_params = Ok tt ∧
  ∃ why, (DistributeFee ref_ctx "alice" "pos_payment" (mkCoin "ucsv" 100) ∅
            (set_fees (Some negative_params) alice_world)).2 = Panic why.
Proof. split; [vm_compute; reflexivity|]. eexists. vm_compute. reflexivity. Qed.
