(* ===== verification/FeesCharge.v ===== *)
(** * What x/fees promises about prices, [ChargeFee] and [UpdateParams]

    Proved against the laws of the interface [OracleKeeper]. *)

From Stdlib Require Import Strings.Ascii Strings.String.
From stdpp Require Import strings.
From S2P Require Import Prelude GoLib Sdk RefEnv World RefWorld Interfaces FeesTypes.
From S2P Require Import FeesKeeper FeesSpec.
From S2P Require Oracle.

Local Open Scope Z_scope.

Section Spec.
Context {E : Env} {L : EnvLaws E} {OK : OracleKeeper E} {OL : OracleKeeperLaws E}.
Implicit Types w : World E.

(** ** Conversion *)

(** The parameters in force: the stored ones, or the defaults before genesis. *)
Definition params_of (w : World E) : Params := default default_params (w_fees w).

Lemma params_or_default_run w : params_or_default w = (w, Ok (params_of w)).
Proof.
  unfold params_or_default, params_get, attempt, mbind, stM_bind, params_of.
  rewrite coll_get_run. destruct (w_fees w); simpl; [done|].
  unfold lift. by rewrite DefaultParams_value.
Qed.

(** The rate of the oracle, if there is one. *)
Definition rate (ctx : Ctx) (w : World E) : option Z :=
  match (GetExchangeRate ctx "CSV" w).2 with Ok d => d | _ => None end.

Definition price_data (ctx : Ctx) (w : World E) : PriceData :=
  match rate ctx w with
  | Some z =>
      mkPriceData (Some z) (Some z) (BlockTime ctx)
        (TwapWindow (Oracle (params_of w))) 0 false false
  | None => mkPriceData LegacyOneDec LegacyOneDec (BlockTime ctx) 0 0 true true
  end.

Definition oracle_event (pd : PriceData) : Event := mkEvent "oracle_used" [
  ("price", AStr (DecString (Price pd)));
  ("twap_price", AStr (DecString (TwapPrice pd)));
  ("timestamp", ATime (Timestamp pd));
  ("window", ADur (Window pd));
  ("freshness", ADur (Freshness pd));
  ("is_stale", ABool (IsStale pd));
  ("is_fallback", ABool (IsFallback pd))].

Definition with_event (e : Event) (w : World E) : World E := set_events (w_events w ++ [e]) w.

(** The price used for one dollar, in units of 10^-18 CSV. *)
Definition price_of (ctx : Ctx) (w : World E) : Z := default precision (rate ctx w).

Lemma rate_nonzero ctx w z : rate ctx w = Some z → z ≠ 0.
Proof.
  unfold rate. destruct (GetExchangeRate_total ctx "CSV" w) as [(e & ->)|(z' & -> & Hz & _)];
    simpl; [done|]. by intros [= <-].
Qed.

Lemma GetCSVUSDPrice_run ctx w :
  GetCSVUSDPrice ctx w =
  (with_event (oracle_event (price_data ctx w)) w, Ok (price_data ctx w)).
Proof.
  unfold GetCSVUSDPrice. rewrite (bind_run _ _ _ _ _ (params_or_default_run w)).
  unfold price_data, rate.
  destruct (GetExchangeRate_total ctx "CSV" w) as [(e & Hr)|(z & Hr & Hz & _)];
    unfold attempt, mbind, stM_bind; rewrite Hr; simpl.
  - done.
  - unfold lift, mbind, stM_bind. rewrite DecIsZero_spec.
    by rewrite (proj2 (Z.eqb_neq z 0) Hz).
Qed.

(** The outcome of a conversion. *)
Definition converted (ctx : Ctx) (w : World E) (usd : Z) : res (Dec * PriceData) :=
  csv ← dec_ret (chop (usd * price_of ctx w)); mret (csv, price_data ctx w).

Lemma ConvertUSDToCSV_run ctx usd w :
  ConvertUSDToCSV ctx (Some usd) w =
  (with_event (oracle_event (price_data ctx w)) w, converted ctx w usd).
Proof.
  unfold ConvertUSDToCSV. rewrite (bind_run _ _ _ _ _ (GetCSVUSDPrice_run ctx w)).
  unfold lift, converted, mbind, stM_bind, res_bind.
  assert (TwapPrice (price_data ctx w) = Some (price_of ctx w)) as ->.
  { unfold price_data, price_of. by destruct (rate ctx w). }
  rewrite DecMul_spec. by destruct (dec_ret _).
Qed.

(** Converting dollars never returns an error: it uses the rate of
    the oracle when there is one and otherwise one CSV per dollar, marked stale and
    fallback; the amount is the product rounded half to even, and the only effect
    is one [oracle_used] event. *)
Theorem ConvertUSDToCSV_spec ctx usd w :
  let pd := price_data ctx w in
  let price := default precision (rate ctx w) in
  ConvertUSDToCSV ctx (Some usd) w =
    (set_events (w_events w ++ [oracle_event pd]) w,
     csv ← dec_ret (chop (usd * price)); mret (csv, pd)) ∧
  TwapPrice pd = Some price ∧
  IsFallback pd = bool_decide (rate ctx w = None) ∧ IsStale pd = IsFallback pd ∧
  (Z.abs (usd * price) < 2 ^ 255 →
   ∃ csv, (ConvertUSDToCSV ctx (Some usd) w).2 = Ok (Some csv, pd)).
Proof.
  cbv zeta. rewrite ConvertUSDToCSV_run. split; [done|].
  split; [unfold price_data; by destruct (rate ctx w)|].
  split; [unfold price_data; by destruct (rate ctx w)|].
  split; [unfold price_data; by destruct (rate ctx w)|].
  intros Hz. simpl. unfold converted. rewrite dec_ret_ok; [by eexists|].
  by apply chop_small.
Qed.

(** ** ChargeFee *)

(** The fee in ucsv of [usd] dollars. *)
Definition ucsv_of (csv : Z) : Z := Z.quot (csv * 1000000) precision.
Definition fee_of (ctx : Ctx) (w : World E) (usd : Z) : Z :=
  ucsv_of (chop (usd * price_of ctx w)).

Lemma to_ucsv_run csv : Z.abs csv < 2 ^ 200 → to_ucsv (Some csv) = Ok (ucsv_of csv).
Proof.
  intros Hc. unfold to_ucsv, ucsv_of. rewrite DecMulInt64_spec, dec_ret_ok by lia. simpl mbind.
  rewrite DecTruncateInt_spec. apply int_ret_ok.
  change precision with 1000000000000000000.
  pose proof (Z.quot_rem' (csv * 1000000) 1000000000000000000) as H1.
  pose proof (Z.rem_bound_abs (csv * 1000000) 1000000000000000000 ltac:(done)). lia.
Qed.

Definition is_free_category (c : string) : bool :=
  String.eqb c "deploy" || String.eqb c "wizard".

(** The table [ChargeFee] reads and the one [DistributeFee] reads agree. *)
Lemma charge_entry_config t c entry :
  charge_entry t c = Some entry → is_free_category c = false → config_by_type t c = entry.
Proof.
  unfold charge_entry. intros H Hf.
  repeat match type of H with
  | context [String.eqb c ?k] =>
      destruct (String.eqb_spec c k) as [->|_];
      [first [injection H as <-; reflexivity|discriminate Hf]|]
  end.
  discriminate H.
Qed.

Definition charge_event (msg : MsgChargeFee) (usd csv fee : Z) : Event :=
  mkEvent "fee_charged" [
    ("category", AStr (cf_Category msg));
    ("fee_type", AStr (cf_Category msg));
    ("usd_amount", AStr (DecString (Some usd)));
    ("csv_amount", AStr (DecString (Some csv)));
    ("provided_fee", ACoins (if fee =? 0 then [] else [mkCoin "ucsv" fee]));
    ("system_exempt", AStr "false")].

Lemma ucsv_valid : denom_syntax "ucsv" = true.
Proof. reflexivity. Qed.

Lemma spendable_run w a :
  AmountOf (SpendableCoins (w_bank w) a) "ucsv" =
  Ok (coins_amount (SpendableCoins (w_bank w) a) "ucsv").
Proof.
  apply AmountOf_spec; [by rewrite ValidateDenom_spec|apply SpendableCoins_sorted].
Qed.

Lemma NewCoin_ucsv a c : NewCoin "ucsv" a = Ok c → 0 ≤ a ∧ c = mkCoin "ucsv" a.
Proof.
  rewrite NewCoin_spec, ValidateDenom_spec, ucsv_valid. simpl.
  destruct (Z.leb_spec 0 a); [|done]. by intros [= <-].
Qed.

Lemma on_gas_inv {A} (m : stM GasState A) w w' (r : res A) :
  on_gas m w = (w', r) → ∃ g, m (w_gas w) = (g, r) ∧ w' = set_gas g w.
Proof.
  unfold on_gas, zoom. destruct (m (w_gas w)) as [g r']. intros [= <- <-]. by exists g.
Qed.

(** What follows the balance check. *)
Definition charge_tail (ctx : Ctx) (msg : MsgChargeFee) (b : Slice) (usd csv fee : Z)
    : stM (World E) MsgChargeFeeResponse :=
  feeCoin ← lift (NewCoin "ucsv" fee);
  wrap_err (DistributeFee ctx (bytes_of b) (cf_Category msg) feeCoin
    (charge_metadata (cf_Metadata msg))) "fee distribution failed";;
  gas ← lift (IntUint64 fee);
  on_gas (ConsumeGas gas);;
  provided ← lift (coins_of "ucsv" fee);
  EmitEvent "fee_charged" [
    ("category", AStr (cf_Category msg));
    ("fee_type", AStr (cf_Category msg));
    ("usd_amount", AStr (DecString (Some usd)));
    ("csv_amount", AStr (DecString (Some csv)));
    ("provided_fee", ACoins provided);
    ("system_exempt", AStr "false")];;
  mret (mkMsgChargeFeeResponse (IntString fee) (IntString fee)).

Lemma charge_tail_inv ctx msg b p w entry usd csv fee ev w' resp :
  w_fees w = Some p →
  charge_entry (FeeTableUsd p) (cf_Category msg) = Some entry →
  is_free_category (cf_Category msg) = false →
  split_within (Split entry) →
  charge_tail ctx msg b usd csv fee (with_event ev w) = (w', Ok resp) →
  let rc := resolve_recipients p (charge_metadata (cf_Metadata msg)) in
  resp = mkMsgChargeFeeResponse (IntString fee) (IntString fee) ∧
  ∃ b' g, w' = set_events (w_events w ++ [ev; charge_event msg usd csv fee])
                 (set_gas g (set_bank b' w)) ∧
    ConsumeGas fee (w_gas w) = (g, Ok tt) ∧ is_u64 fee ∧
    distributed (w_bank w) b' (bytes_of b) "ucsv"
      (transfers (plan (Split entry) rc fee) rc).
Proof.
  intros Hp He Hfree Hs H. unfold charge_tail in H. step_inv.
  match goal with H : NewCoin _ _ = Ok _ |- _ => apply NewCoin_ucsv in H as [Hfee ->] end.
  match goal with H : IntUint64 _ = Ok _ |- _ =>
    apply IntUint64_inv in H as [-> Hu64] end.
  match goal with H : coins_of _ _ = Ok _ |- _ =>
    rewrite coins_of_run in H by (done || lia); injection H as <- end.
  match goal with H : DistributeFee _ _ _ _ _ _ = _ |- _ =>
    eapply DistributeFee_effect in H as (b' & -> & Hd);
      [|exact Hp|by rewrite (charge_entry_config _ _ _ He Hfree)
       |unfold amount_ok; simpl; unfold is_u64 in Hu64; lia|reflexivity] end.
  match goal with H : on_gas _ _ = _ |- _ => apply on_gas_inv in H as (g & Hg & ->) end. destruct a2.
  match goal with H : EmitEvent _ _ _ = _ |- _ => injection H as <- end.
  rewrite (charge_entry_config _ _ _ He Hfree) in Hd.
  split; [reflexivity|]. exists b', g. split; [|split; [exact Hg|split; [exact Hu64|exact Hd]]].
  destruct w. unfold with_event, set_events, set_gas, set_bank. simpl.
  by rewrite <- app_assoc.
Qed.

(** C30 (functional). [ChargeFee], branch by branch, for a creator whose address parses:
    an unknown category is refused and nothing changes; "deploy" and "wizard" are
    free and nothing changes; otherwise the fee is the table's dollars converted
    and scaled to ucsv, an account that cannot spend that much is refused after the
    price event only, and a charge that succeeds consumes the fee as gas, reports
    it, emits the price and charge events, and moves the fee on the ledger as
    [DistributeFee]'s plan for the category says.  (For a fee entry whose dollars are
    set and small enough not to overflow, and whose shares are set, non-negative and
    at most one in sum.) *)
Theorem ChargeFee_spec ctx msg b p w :
  StringToBytes (cf_Creator msg) = (b, None) → w_fees w = Some p →
  match charge_entry (FeeTableUsd p) (cf_Category msg) with
  | None =>
      ChargeFee ctx msg w = (w, Err (ErrWrap ErrInvalidRequest "fee category not found"))
  | Some entry =>
      if is_free_category (cf_Category msg)
      then ChargeFee ctx msg w = (w, Ok (mkMsgChargeFeeResponse "0" "0"))
      else ∀ usd, UsdAmount entry = Some usd → Z.abs (usd * price_of ctx w) < 2 ^ 200 →
        let csv := chop (usd * price_of ctx w) in
        let fee := ucsv_of csv in
        let ev := oracle_event (price_data ctx w) in
        let rc := resolve_recipients p (charge_metadata (cf_Metadata msg)) in
        if coins_amount (SpendableCoins (w_bank w) (bytes_of b)) "ucsv" <? fee
        then ChargeFee ctx msg w =
          (with_event ev w, Err (ErrWrap ErrInsufficientFunds "insufficient balance"))
        else split_within (Split entry) →
          ∀ w' resp, ChargeFee ctx msg w = (w', Ok resp) →
            resp = mkMsgChargeFeeResponse (IntString fee) (IntString fee) ∧
            ∃ b' g, w' = set_events (w_events w ++ [ev; charge_event msg usd csv fee])
                           (set_gas g (set_bank b' w)) ∧
              ConsumeGas fee (w_gas w) = (g, Ok tt) ∧ is_u64 fee ∧
              distributed (w_bank w) b' (bytes_of b) "ucsv"
                (transfers (plan (Split entry) rc fee) rc)
  end.
Proof.
  intros Hb Hp. unfold ChargeFee. rewrite Hb.
  assert (Hget : wrap_err params_get "failed to get fee parameters" w = (w, Ok p)).
  { unfold wrap_err, params_get. by rewrite coll_get_run, Hp. }
  rewrite (bind_run _ _ _ _ _ Hget).
  destruct (charge_entry (FeeTableUsd p) (cf_Category msg)) as [entry|] eqn:He; [|done].
  fold (is_free_category (cf_Category msg)).
  destruct (is_free_category (cf_Category msg)) eqn:Hfree; [done|].
  intros usd Hu Hsmall. rewrite Hu.
  set (csv := chop (usd * price_of ctx w)). set (fee := ucsv_of csv).
  set (ev := oracle_event (price_data ctx w)).
  set (rc := resolve_recipients p (charge_metadata (cf_Metadata msg))).
  assert (Hcsv : Z.abs csv < 2 ^ 200) by (apply chop_small; [done|exact Hsmall]).
  assert (Hconv : wrap_err (ConvertUSDToCSV ctx (Some usd)) "failed to convert USD to CSV" w
                  = (with_event ev w, Ok (Some csv, price_data ctx w))).
  { unfold wrap_err. rewrite ConvertUSDToCSV_run. unfold converted.
    rewrite dec_ret_ok by (fold csv; lia). done. }
  rewrite (bind_run _ _ _ _ _ Hconv). cbv beta iota.
  rewrite (bind_run _ _ _ (with_event ev w) fee) by (unfold lift; by rewrite to_ucsv_run).
  rewrite (bind_run (gets _) _ _ _ _ eq_refl).
  rewrite (bind_run _ _ _ (with_event ev w)
    (coins_amount (SpendableCoins (w_bank w) (bytes_of b)) "ucsv"))
    by (unfold lift; by rewrite <- spendable_run).
  destruct (Z.ltb_spec (coins_amount (SpendableCoins (w_bank w) (bytes_of b)) "ucsv") fee)
    as [|Hle]; [reflexivity|].
  intros Hs w' resp H.
  exact (charge_tail_inv ctx msg b p w entry usd csv fee ev w' resp Hp He Hfree Hs H).
Qed.
End Spec.

(** ** Witnesses *)
#[local] Existing Instance Oracle.oracle_keeper.

(** The oracle knows 0.002 CSV per dollar. *)
Definition priced_world : World ref_env :=
  set_oracle (mkOracleStore None {[ "CSV_USD" := "0.002" ]}) alice_world.

Theorem ConvertUSDToCSV_spec_witness :
  Z.abs (15 * 10 ^ 16 * (2 * 10 ^ 15)) < 2 ^ 255 ∧
  ∃ csv pd, (ConvertUSDToCSV ref_ctx (Some (15 * 10 ^ 16)) priced_world).2 = Ok (Some csv, pd)
    ∧ IsFallback pd = false.
Proof.
  destruct (@ConvertUSDToCSV_spec _ ref_env_laws _ (@Oracle.oracle_keeper_laws _ ref_env_laws) ref_ctx
    (15 * 10 ^ 16) priced_world) as (_ & _ & Hf & _ & H).
  split; [reflexivity|]. destruct H as (csv & H); [reflexivity|].
  exists csv. eexists. split; [exact H|]. rewrite Hf. reflexivity.
Defined.

Definition pos_msg : MsgChargeFee := mkMsgChargeFee (acc "alice") "pos_payment" "" "".

Theorem ChargeFee_spec_witness :
  ∃ b', (ChargeFee ref_ctx pos_msg priced_world).2 = Ok (mkMsgChargeFeeResponse "300" "300") ∧
    w_bank (ChargeFee ref_ctx pos_msg priced_world).1 = b' ∧
    GetBalance b' "shop" "ucsv" = 150 ∧ GetBalance b' "alice" "ucsv" = 700 ∧
    GetBalance b' "module/treasury" "ucsv" = 150.
Proof.
  pose proof (@ChargeFee_spec _ ref_env_laws _ (@Oracle.oracle_keeper_laws _ ref_env_laws) ref_ctx pos_msg
    (Some "alice") shop_params priced_world eq_refl eq_refl) as H.
  change (charge_entry _ _) with (Some (PosPayment (FeeTableUsd shop_params))) in H.
  cbv iota in H. change (is_free_category _) with false in H. cbv iota in H.
  specialize (H (15 * 10 ^ 16) eq_refl ltac:(vm_compute; reflexivity)). cbv zeta in H.
  assert (Hr : (ChargeFee ref_ctx pos_msg priced_world).2
               = Ok (mkMsgChargeFeeResponse "300" "300")) by (vm_compute; reflexivity).
  match type of H with if ?b then _ else _ =>
    assert (Hb : b = false) by (vm_compute; reflexivity); rewrite Hb in H end.
  destruct (H ltac:(do 4 eexists; split; [reflexivity|]; vm_compute; repeat split; discriminate)
    _ _ (run_pair _ _ _ Hr)) as (_ & b' & g & Hw & _ & _ & Hd & _).
  exists b'. split; [exact Hr|]. rewrite Hw. split; [reflexivity|].
  pose proof (Hd "shop" "ucsv") as H1. pose proof (Hd "module/treasury" "ucsv") as H2.
  pose proof (Hd "alice" "ucsv") as H3. clear H Hw Hd Hr Hb.
  vm_compute in H1, H2, H3. vm_compute. split_and!; assumption.
Defined.
