(* ===== verification/FeeCalculator.v ===== *)
(** * x/fees/keeper/fee_calculator.go

    Classification of a transaction, the fee it should carry, and the check of
    the fee it does carry. *)

From Stdlib Require Import Strings.Ascii Strings.String.
From stdpp Require Import strings.
From S2P Require Import Prelude GoLib Sdk RefEnv World RefWorld Interfaces FeesTypes.
From S2P Require Import FeesKeeper FeesCharge.
From S2P Require Oracle.

Local Open Scope Z_scope.

(** [expandMessages]: the depth is the constant 4 at the only call. *)
Fixpoint expandMessages (msgs : list Msg) (depth : nat) : list Msg :=
  match depth with
  | O => msgs
  | S d =>
      flat_map (λ m,
        match m with
        | MsgExec inner =>
            flat_map (λ any,
              match any with
              | Some inner => expandMessages [inner] d
              | None => []
              end) inner
        | _ => [m]
        end) msgs
  end.

Definition contains_any {U : Unicode} (keywords : list string) (msgStr : string) : bool :=
  existsb (λ keyword, Contains (ToLower msgStr) keyword) keywords.

Definition tokenKeywords : list string :=
  ["transfer"; "mint"; "burn"; "approve"; "allowance"; "balance"].
Definition dexKeywords : list string :=
  ["swap"; "provide_liquidity"; "withdraw_liquidity"; "create_pair"].

Definition isTokenInteraction {U : Unicode} (msg : string) : bool :=
  contains_any tokenKeywords msg.
Definition isDEXInteraction {U : Unicode} (msg : string) : bool :=
  contains_any dexKeywords msg.

Definition getMaxGasForFreeCategory (category : TransactionCategory) (g : GuardRails) : Z :=
  match category with
  | CategoryDeploy => MaxGasDeploy g
  | CategoryWizard => MaxGasWizard g
  | _ => 0
  end.

Section Calculator.
Context {E : Env} {OK : OracleKeeper E}.
Implicit Types (ctx : Ctx) (w : World E).

(** [isSystemMsg] *)
Definition isSystemMsg ctx (msg : Msg) : stM (World E) bool :=
  let typeURL := MsgTypeURL msg in
  if String.eqb typeURL "/ibc.applications.transfer.v1.MsgTransfer" then mret false else
  r ← attempt params_get;
  match r with
  | inl params =>
      if existsb (λ s, String.eqb s typeURL) (elems (SystemMsgTypeUrls params))
      then mret true
      else if existsb (λ s, String.eqb s typeURL) (elems (ExemptMsgTypeUrls params))
      then mret false
      else mret (HasPrefix typeURL "/ibc.core.")
  | inr _ => mret (HasPrefix typeURL "/ibc.core.")
  end.

(** The hints of the memo. *)
Definition memo_category (memo : string) : option TransactionCategory :=
  let memoLower := ToLower memo in
  if Contains memoLower "pos" || Contains memoLower "payment" then Some CategoryPOS
  else if Contains memoLower "dex" then
    if Contains memoLower "native" then Some CategoryDEXNative else Some CategoryDEXUser
  else if Contains memoLower "deploy" then Some CategoryDeploy
  else if Contains memoLower "wizard" then Some CategoryWizard
  else None.

(** The loop that sets [anySystem] and [anyUser]; [allSystem] is [!anyUser]. *)
Fixpoint system_scan ctx (msgs : list Msg) (allSystem anySystem anyUser : bool)
    : stM (World E) (bool * bool * bool) :=
  match msgs with
  | [] => mret (allSystem, anySystem, anyUser)
  | m :: ms =>
      sys ← isSystemMsg ctx m;
      if sys : bool then system_scan ctx ms allSystem true anyUser
      else system_scan ctx ms false anySystem true
  end.

(** The type switch of the last loop. *)
Definition type_category (m : Msg) : option TransactionCategory :=
  match m with
  | MsgSend | MsgMultiSend => Some CategoryNativeTransfer
  | MsgStoreCode | MsgInstantiateContract => Some CategoryDeploy
  | MsgExecuteContract msg =>
      if isTokenInteraction msg then Some CategoryTokenInteraction
      else if isDEXInteraction msg then Some CategoryDEXUser
      else Some CategoryTokenInteraction
  | MsgMigrateContract | MsgUpdateAdmin => Some CategoryTokenInteraction
  | MsgExec _ | MsgOther _ => None
  end.

Fixpoint first_category (msgs : list Msg) : TransactionCategory :=
  match msgs with
  | [] => CategoryNativeTransfer
  | m :: ms => match type_category m with Some c => c | None => first_category ms end
  end.

Definition classifyTransaction ctx (msgs : list Msg) (memo : string)
    : stM (World E) TransactionCategory :=
  match memo_category memo with
  | Some c => mret c
  | None =>
      '(allSystem, anySystem, anyUser) ← system_scan ctx msgs true false false;
      if allSystem && anySystem then mret CategorySystem
      else if anySystem && anyUser then mret CategoryMixed
      else mret (first_category msgs)
  end.

(** [applyGuardRails] *)
Definition applyGuardRails (csvAmount : Dec) (gasWanted : Z) (g : GuardRails) : res Dec :=
  if gasWanted =? 0 then mret csvAmount else
  gasPrice ← DecQuoInt64 csvAmount (i64 gasWanted);
  low ← DecLT gasPrice (MinGasPriceCsv g);
  csv1 ← (if low : bool then DecMulInt64 (MinGasPriceCsv g) (i64 gasWanted)
          else mret csvAmount);
  high ← DecGT gasPrice (MaxGasPriceCsv g);
  if high : bool then DecMulInt64 (MaxGasPriceCsv g) (i64 gasWanted) else mret csv1.

Definition free_estimate (category : TransactionCategory) (gasWanted : Z) : FeeEstimate :=
  mkFeeEstimate category LegacyZeroDec LegacyZeroDec gasWanted LegacyZeroDec true None.

(** The entry of the table for a category, and whether it is free. *)
Definition estimate_config (t : FeeTableUSD) (category : TransactionCategory)
    : res (FeeConfig * bool) :=
  match category with
  | CategoryPOS => mret (PosPayment t, false)
  | CategoryTokenInteraction => mret (TokenInteraction t, false)
  | CategoryNativeTransfer => mret (NativeTransfer t, false)
  | CategoryDEXNative => mret (DexNative t, false)
  | CategoryDEXUser => mret (DexUser t, false)
  | CategoryDeploy => z ← DecIsZero (UsdAmount (Deploy t)); mret (Deploy t, z)
  | CategoryWizard => z ← DecIsZero (UsdAmount (Wizard t)); mret (Wizard t, z)
  | _ => mret (NativeTransfer t, false)
  end.

(** [EstimateFee]; a non-nil estimate, or an error. *)
Definition EstimateFee ctx (msgs : list Msg) (memo : string) (gasWanted : Z)
    : stM (World E) FeeEstimate :=
  let expanded := expandMessages msgs 4 in
  category ← classifyTransaction ctx expanded memo;
  params ← params_or_default;
  if decide (category = CategorySystem) then mret (free_estimate CategorySystem gasWanted)
  else
    '(feeConfig, isFree) ← lift (estimate_config (FeeTableUsd params) category);
    if isFree : bool then
      let maxGas := getMaxGasForFreeCategory category (Guards params) in
      if maxGas <? gasWanted
      then throw (ErrText "gas wanted exceeds free tier limit")
      else mret (free_estimate category gasWanted)
    else
      '(csvAmount, priceData) ←
        wrap_err (ConvertUSDToCSV ctx (UsdAmount feeConfig)) "failed to convert USD to CSV";
      csvAmount ← wrap_err (lift (applyGuardRails csvAmount gasWanted (Guards params)))
        "guard rails validation failed";
      gasPrice ← (if 0 <? gasWanted then lift (DecQuoInt64 csvAmount (i64 gasWanted))
                  else mret None);
      mret (mkFeeEstimate category (UsdAmount feeConfig) csvAmount gasWanted gasPrice
              false (Some priceData)).

(** [BuildFeeFromEstimate] *)
Definition BuildFeeFromEstimate (estimate : FeeEstimate) (denom : string) : res Coins :=
  free ← (if IsFree estimate then mret true else DecIsZero (CSVAmount estimate));
  if free : bool then NewCoins [] else
  amount0 ← DecTruncateInt (CSVAmount estimate);
  amount ← (if HasPrefix denom "u"
            then x ← DecMulInt64 (CSVAmount estimate) 1000000; DecTruncateInt x
            else mret amount0);
  let amount := if amount =? 0 then 1 else amount in
  coin ← NewCoin denom amount;
  NewCoins [coin].

(** [ValidateFeeAgainstEstimate] *)
Definition ValidateFeeAgainstEstimate (providedFee : Coins) (estimate : FeeEstimate)
    (denom : string) (tolerance : Dec) : res unit :=
  expectedFee ← BuildFeeFromEstimate estimate denom;
  if IsFree estimate then
    if negb (CoinsIsZero providedFee)
    then Err (ErrText "expected zero fee for free tier") else mret tt
  else
  if CoinsIsZero providedFee && negb (CoinsIsZero expectedFee)
  then Err (ErrText "expected non-zero fee, got zero") else
  expectedAmount ← AmountOf expectedFee denom;
  providedAmount ← AmountOf providedFee denom;
  if expectedAmount =? 0 then mret tt else
  d ← IntSub providedAmount expectedAmount;
  let diff := Z.abs d in
  t ← DecMulInt tolerance expectedAmount;
  maxDiff ← DecTruncateInt t;
  if maxDiff <? diff then Err (ErrText "fee amount is outside tolerance range")
  else mret tt.
End Calculator.

(** ** What the functions compute *)

(** *** Nested messages *)

(** How deep [MsgExec]s are nested. *)
Fixpoint exec_depth (m : Msg) : nat :=
  match m with
  | MsgExec inner =>
      S (fold_right (λ any d, match any with
                              | Some i => Nat.max (exec_depth i) d
                              | None => d
                              end) O inner)
  | _ => O
  end.

(** The messages a transaction runs in the end, in order. *)
Fixpoint leaves (m : Msg) : list Msg :=
  match m with
  | MsgExec inner =>
      flat_map (λ any, match any with Some i => leaves i | None => [] end) inner
  | _ => [m]
  end.

Definition is_exec (m : Msg) : bool := match m with MsgExec _ => true | _ => false end.

(** [n] levels of [MsgExec] around one message. *)
Fixpoint wrap_exec (n : nat) (m : Msg) : Msg :=
  match n with O => m | S n => MsgExec [Some (wrap_exec n m)] end.

Lemma expand_cons m ms d :
  expandMessages (m :: ms) (S d) = expandMessages [m] (S d) ++ expandMessages ms (S d).
Proof. simpl. by rewrite app_nil_r. Qed.

Lemma exec_depth_inner inner i :
  Some i ∈ inner → (S (exec_depth i) ≤ exec_depth (MsgExec inner))%nat.
Proof.
  intros H. simpl. apply le_n_S. induction inner as [|a l IH]; [by apply elem_of_nil in H|].
  apply elem_of_cons in H as [<-|H]; simpl; [lia|].
  specialize (IH H). destruct a; lia.
Qed.

Lemma flat_map_ext_elem {A B} (f g : A → list B) l :
  (∀ a, a ∈ l → f a = g a) → flat_map f l = flat_map g l.
Proof.
  induction l as [|a l IH]; simpl; intros H; [done|].
  rewrite H by (left; done). f_equal. apply IH. intros. apply H. by right.
Qed.

Lemma expand_leaves d m : (exec_depth m ≤ d)%nat → expandMessages [m] d = leaves m.
Proof.
  revert m. induction d as [|d IH]; intros m Hm.
  - destruct m; simpl in *; try done. lia.
  - destruct m; simpl; rewrite ?app_nil_r; try done.
    apply flat_map_ext_elem. intros [i|] Hi; [|done].
    apply IH. apply exec_depth_inner in Hi. lia.
Qed.

Lemma expand_deep d n m : expandMessages [wrap_exec (d + n) m] d = [wrap_exec n m].
Proof.
  induction d as [|d IH]; [done|]. simpl. by rewrite !app_nil_r.
Qed.

Lemma leaves_not_exec d m : (exec_depth m ≤ d)%nat → Forall (λ x, is_exec x = false) (leaves m).
Proof.
  revert m. induction d as [|d IH]; intros m Hm.
  - destruct m; simpl in *; repeat constructor. lia.
  - destruct m; simpl; repeat constructor. apply Forall_forall. intros x Hx.
    apply list_elem_of_In, in_flat_map in Hx as ([i|] & Hi & Hx); [|done].
    apply list_elem_of_In in Hi, Hx. apply exec_depth_inner in Hi.
    eapply Forall_forall in Hx; [|apply (IH i); lia]. done.
Qed.

(** C28 (functional). Messages nested at most four [MsgExec]s deep are replaced by
    the messages they run, in order, none of them a [MsgExec]; of deeper nests
    exactly four levels are removed, so what they run is not seen. *)
Theorem expandMessages_spec msgs n m :
  (Forall (λ x, exec_depth x ≤ 4)%nat msgs →
   expandMessages msgs 4 = flat_map leaves msgs ∧
   Forall (λ x, is_exec x = false) (expandMessages msgs 4)) ∧
  expandMessages [wrap_exec (4 + n) m] 4 = [wrap_exec n m].
Proof.
  split; [|apply expand_deep]. intros H.
  induction H as [|x l Hx H [IH1 IH2]]; [by repeat constructor|].
  rewrite expand_cons, IH1, (expand_leaves 4 x Hx). split; [done|].
  apply Forall_app. split; [by eapply leaves_not_exec|]. by rewrite <- IH1.
Qed.

Theorem expandMessages_spec_witness :
  expandMessages [MsgExec [Some MsgSend; None; Some (MsgExec [Some MsgStoreCode])]] 4
    = [MsgSend; MsgStoreCode] ∧
  expandMessages [wrap_exec 5 MsgSend] 4 = [MsgExec [Some MsgSend]].
Proof.
  split.
  - apply (expandMessages_spec
      [MsgExec [Some MsgSend; None; Some (MsgExec [Some MsgStoreCode])]] 0 MsgSend).
    repeat constructor; simpl; lia.
  - apply (expandMessages_spec [] 1 MsgSend).
Defined.

Section Spec.
Context {E : Env} {L : EnvLaws E} {OK : OracleKeeper E} {OL : OracleKeeperLaws E}.
Implicit Types (ctx : Ctx) (w : World E).

(** *** Classification *)

(** A message is a system message under the stored parameters, if any. *)
Definition is_system (p : option Params) (m : Msg) : bool :=
  let url := MsgTypeURL m in
  let listed l := existsb (λ s, String.eqb s url) (elems l) in
  negb (String.eqb url "/ibc.applications.transfer.v1.MsgTransfer") &&
  match p with
  | Some p => listed (SystemMsgTypeUrls p)
              || negb (listed (ExemptMsgTypeUrls p)) && HasPrefix url "/ibc.core."
  | None => HasPrefix url "/ibc.core."
  end.

Lemma isSystemMsg_run ctx m w : isSystemMsg ctx m w = (w, Ok (is_system (w_fees w) m)).
Proof using L.
  unfold isSystemMsg, is_system.
  destruct (String.eqb _ "/ibc.applications.transfer.v1.MsgTransfer"); [done|]. simpl.
  unfold attempt, params_get, mbind, stM_bind. rewrite coll_get_run.
  destruct (w_fees w) as [p|]; simpl; [|done].
  destruct (existsb _ (elems (SystemMsgTypeUrls p))); [done|].
  by destruct (existsb _ (elems (ExemptMsgTypeUrls p))).
Qed.

Lemma system_scan_run ctx msgs a b c w :
  system_scan ctx msgs a b c w =
  (w, Ok (a && forallb (is_system (w_fees w)) msgs,
          b || existsb (is_system (w_fees w)) msgs,
          c || existsb (λ m, negb (is_system (w_fees w) m)) msgs)).
Proof using L.
  revert a b c. induction msgs as [|m ms IH]; intros a b c; simpl.
  - by rewrite andb_true_r, !orb_false_r.
  - rewrite (bind_run _ _ _ _ _ (isSystemMsg_run ctx m w)).
    destruct (is_system (w_fees w) m); rewrite IH; simpl;
      rewrite ?andb_true_r, ?andb_false_r, ?orb_true_r; done.
Qed.

(** The category, as a function of the stored parameters. *)
Definition category_of (p : option Params) (msgs : list Msg) (memo : string)
    : TransactionCategory :=
  match memo_category memo with
  | Some c => c
  | None =>
      if forallb (is_system p) msgs && existsb (is_system p) msgs then CategorySystem
      else if existsb (is_system p) msgs && existsb (λ m, negb (is_system p m)) msgs
      then CategoryMixed
      else first_category msgs
  end.

Lemma classify_run ctx msgs memo w :
  classifyTransaction ctx msgs memo w = (w, Ok (category_of (w_fees w) msgs memo)).
Proof using L.
  unfold classifyTransaction, category_of. destruct (memo_category memo); [done|].
  rewrite (bind_run _ _ _ _ _ (system_scan_run ctx msgs true false false w)). simpl.
  destruct (forallb _ msgs && existsb _ msgs); [done|].
  by destruct (existsb _ msgs && existsb _ msgs).
Qed.

Lemma first_category_spec msgs :
  (∃ pre m post, msgs = pre ++ m :: post ∧ Forall (λ x, type_category x = None) pre ∧
     type_category m = Some (first_category msgs)) ∨
  (Forall (λ x, type_category x = None) msgs ∧
   first_category msgs = CategoryNativeTransfer).
Proof.
  induction msgs as [|m ms IH]; simpl; [by right|].
  destruct (type_category m) as [c|] eqn:Hm.
  - left. by exists [], m, ms.
  - destruct IH as [(pre & x & post & -> & Hp & Hx)|[H ->]].
    + left. exists (m :: pre), x, post. by repeat constructor.
    + right. by repeat constructor.
Qed.

Lemma first_category_user msgs :
  first_category msgs ≠ CategorySystem ∧ first_category msgs ≠ CategoryMixed.
Proof.
  induction msgs as [|[] ms IH]; simpl; try (by split); try done.
  destruct (isTokenInteraction msg), (isDEXInteraction msg); by split.
Qed.

Lemma memo_category_user memo c :
  memo_category memo = Some c → c ≠ CategorySystem ∧ c ≠ CategoryMixed.
Proof. unfold memo_category. repeat case_match; by intros [= <-]. Qed.

Lemma existsb_Exists {A} (f : A → bool) l : existsb f l = true ↔ Exists (λ x, f x = true) l.
Proof.
  rewrite existsb_exists, Exists_exists. setoid_rewrite list_elem_of_In. done.
Qed.

Lemma forallb_Forall {A} (f : A → bool) l : forallb f l = true ↔ Forall (λ x, f x = true) l.
Proof. rewrite forallb_forall, Forall_forall. by setoid_rewrite list_elem_of_In. Qed.

Lemma all_and_any (f : Msg → bool) l :
  forallb f l && existsb f l = true ↔ l ≠ [] ∧ Forall (λ x, f x = true) l.
Proof.
  rewrite andb_true_iff, forallb_Forall. destruct l as [|a l]; simpl; [naive_solver|].
  split; [naive_solver|]. intros [_ H]. split; [done|]. inversion H as [|? ? Ha]; subst.
  by rewrite Ha.
Qed.

Lemma no_system_scan (f : Msg → bool) l :
  Forall (λ x, f x ≠ true) l → existsb f l = false.
Proof.
  intros H. apply not_true_is_false. rewrite existsb_Exists. intros Hx.
  apply Exists_exists in Hx as (x & Hx & Hf). eapply Forall_forall in H; [|exact Hx]. done.
Qed.

Lemma mixed_scan (f : Msg → bool) l :
  existsb f l && existsb (λ m, negb (f m)) l = true ↔
  Exists (λ x, f x = true) l ∧ Exists (λ x, f x ≠ true) l.
Proof.
  rewrite andb_true_iff, !existsb_Exists. split; intros [H1 H2]; (split; [done|]);
    eapply Exists_impl; try exact H2; intros x; simpl; by destruct (f x).
Qed.

(** C27 (functional). Classification never fails and changes nothing. A hint in the
    memo, in any case, decides alone. Without one the category is "system" exactly
    when there are messages and all are system messages, "mixed" exactly when some
    are and some are not, and otherwise it is that of the first message of a known
    type, or a native transfer; a transaction with an ICS-20 transfer is never
    "system". *)
Theorem classifyTransaction_spec ctx msgs memo w :
  let sys m := is_system (w_fees w) m = true in
  ∃ c, classifyTransaction ctx msgs memo w = (w, Ok c) ∧
    memo_category (ToLower memo) = memo_category memo ∧
    match memo_category memo with
    | Some k => c = k
    | None =>
        (c = CategorySystem ↔ msgs ≠ [] ∧ Forall sys msgs) ∧
        (c = CategoryMixed ↔ Exists sys msgs ∧ Exists (λ m, ¬ sys m) msgs) ∧
        (Forall (λ m, ¬ sys m) msgs →
          (∃ pre m post, msgs = pre ++ m :: post ∧
             Forall (λ x, type_category x = None) pre ∧ type_category m = Some c) ∨
          (Forall (λ x, type_category x = None) msgs ∧ c = CategoryNativeTransfer))
    end ∧
    (∀ m, m ∈ msgs → MsgTypeURL m = "/ibc.applications.transfer.v1.MsgTransfer" →
       c ≠ CategorySystem).
Proof using L.
  intros sys. exists (category_of (w_fees w) msgs memo).
  split; [apply classify_run|]. split; [unfold memo_category; by rewrite ToLower_idem|].
  unfold category_of. destruct (memo_category memo) as [k|] eqn:Hk.
  { split; [done|]. intros m _ _. by apply (memo_category_user memo). }
  pose proof (all_and_any (is_system (w_fees w)) msgs) as Ha.
  pose proof (mixed_scan (is_system (w_fees w)) msgs) as Hm.
  pose proof (first_category_user msgs) as [Hf1 Hf2].
  destruct (forallb _ msgs && existsb _ msgs) eqn:E1;
    [|destruct (existsb _ msgs && existsb _ msgs) eqn:E2].
  - destruct Ha as [[Hne Hall] _]; [done|]. split_and!.
    + done.
    + split; [done|]. intros [_ Hx%Exists_exists]. destruct Hx as (x & Hx & Hn).
      eapply Forall_forall in Hall; [|exact Hx]. by destruct Hn.
    + intros Hno%no_system_scan. by rewrite Hno, andb_false_r in E1.
    + intros m Hin Hu _. eapply Forall_forall in Hall; [|exact Hin].
      unfold is_system in Hall. by rewrite Hu in Hall.
  - destruct Hm as [Hm _]. split_and!; try done.
    + split; [done|]. intros Hall%Ha. done.
    + split; [intros _; by apply Hm|done].
    + intros Hno%no_system_scan. by rewrite Hno in E2.
  - split_and!; try done.
    + split; [done|]. intros Hall%Ha. done.
    + split; [done|]. intros Hmix%Hm. done.
    + intros _. apply first_category_spec.
Qed.
(** *** Guard rails *)

Lemma quot_i64 c gas :
  0 ≤ c → 0 < gas < 2 ^ 63 → i64 gas = gas ∧ Z.quot c gas = c / gas.
Proof.
  intros Hc Hg. split; [apply i64_id; lia|]. apply Z.quot_div_nonneg; lia.
Qed.

(** The amount the guard rails leave of [c]. *)
Definition clamp (mn mx c gas : Z) : Z :=
  if c / gas <? mn then mn * gas else if mx <? c / gas then mx * gas else c.

Lemma clamp_price mn mx c gas :
  0 < gas → mn ≤ mx → mn ≤ clamp mn mx c gas / gas ≤ mx.
Proof.
  intros Hg Hm. unfold clamp.
  destruct (Z.ltb_spec (c / gas) mn); [rewrite Z.div_mul; lia|].
  destruct (Z.ltb_spec mx (c / gas)); [rewrite Z.div_mul; lia|]. lia.
Qed.

Lemma clamp_range mn mx c gas :
  0 < gas → 0 ≤ mn ≤ mx → 0 ≤ c → 0 ≤ clamp mn mx c gas ≤ Z.max c (mn * gas).
Proof.
  intros Hg Hm Hc. unfold clamp.
  destruct (Z.ltb_spec (c / gas) mn); [nia|].
  destruct (Z.ltb_spec mx (c / gas)); [|lia].
  pose proof (Z.mul_div_le c gas Hg). nia.
Qed.

Lemma applyGuardRails_run c gas g mn mx :
  MinGasPriceCsv g = Some mn → MaxGasPriceCsv g = Some mx → 0 ≤ mn ≤ mx →
  0 ≤ c → 0 < gas < 2 ^ 63 → mx * gas < 2 ^ 255 →
  applyGuardRails (Some c) gas g = Ok (Some (clamp mn mx c gas)).
Proof using L.
  intros Hmn Hmx Hm Hc Hg Hb. unfold applyGuardRails.
  destruct (quot_i64 c gas Hc Hg) as [Hi Hq].
  rewrite (proj2 (Z.eqb_neq gas 0)) by lia. rewrite Hmn, Hmx, Hi.
  rewrite DecQuoInt64_spec by lia. rewrite Hq. simpl mbind.
  rewrite DecLT_spec. simpl mbind. unfold clamp.
  destruct (Z.ltb_spec (c / gas) mn) as [Hlt|Hge].
  - rewrite (DecMulInt64_spec mn), dec_ret_ok by nia. simpl mbind.
    rewrite DecGT_spec. simpl mbind. by rewrite (proj2 (Z.ltb_ge mx (c / gas))) by lia.
  - simpl mbind. rewrite DecGT_spec. simpl mbind.
    destruct (Z.ltb_spec mx (c / gas)); [|done].
    by rewrite DecMulInt64_spec, dec_ret_ok by nia.
Qed.

(** With valid guard rails and gas below 2^63 the amount the guard
    rails return has a gas price between the two limits; it is the given amount when
    that was within them, and otherwise exactly the limit times the gas. Without gas
    the amount is not touched. *)
Theorem applyGuardRails_spec c gas g mn mx :
  MinGasPriceCsv g = Some mn → MaxGasPriceCsv g = Some mx → 0 ≤ mn ≤ mx →
  0 ≤ c → 0 ≤ gas < 2 ^ 63 → mx * gas < 2 ^ 255 →
  ∃ r, applyGuardRails (Some c) gas g = Ok (Some r) ∧
    (gas = 0 → r = c) ∧
    (0 < gas →
       mn ≤ r / gas ≤ mx ∧
       (mn ≤ c / gas ≤ mx → r = c) ∧
       (c / gas < mn → r = mn * gas) ∧ (mx < c / gas → r = mx * gas)).
Proof using L.
  intros Hmn Hmx Hm Hc Hg Hb. destruct (decide (gas = 0)) as [->|Hne].
  - exists c. split; [done|]. split; [done|lia].
  - exists (clamp mn mx c gas). split; [by apply applyGuardRails_run; try lia|].
    split; [done|]. intros Hpos. split; [apply clamp_price; lia|]. unfold clamp.
    split_and!; intros H; destruct (Z.ltb_spec (c / gas) mn), (Z.ltb_spec mx (c / gas)); lia.
Qed.

Lemma wrapped_rails c gas g mn mx :
  MinGasPriceCsv g = Some mn → MaxGasPriceCsv g = Some mx → 0 < mn ≤ mx →
  0 ≤ c → 2 ^ 63 ≤ gas < 2 ^ 64 → mx < 2 ^ 192 →
  applyGuardRails (Some c) gas g = Ok (Some (mn * (gas - 2 ^ 64))).
Proof using L.
  intros Hmn Hmx Hm Hc Hg Hb. unfold applyGuardRails.
  rewrite (proj2 (Z.eqb_neq gas 0)) by lia. rewrite Hmn, Hmx, i64_high by lia.
  set (n := gas - 2 ^ 64). assert (Hn : - 2 ^ 63 ≤ n < 0) by lia. clearbody n.
  assert (Hq : Z.quot c n ≤ 0).
  { replace n with (- (- n)) by lia. rewrite Z.quot_opp_r by lia.
    rewrite Z.quot_div_nonneg by lia. pose proof (Z.div_pos c (- n)). lia. }
  rewrite DecQuoInt64_spec by lia. simpl mbind. rewrite DecLT_spec. simpl mbind.
  rewrite (proj2 (Z.ltb_lt _ mn)) by lia. rewrite (DecMulInt64_spec mn), dec_ret_ok by nia.
  simpl mbind. rewrite DecGT_spec. simpl mbind. by rewrite (proj2 (Z.ltb_ge mx _)) by lia.
Qed.

(** C29 (bounds). The code converts the gas to int64. A gas limit of 2^63 or more turns
    negative, so that with a positive minimum price the fee the guard rails return
    is negative, whatever the fee was. *)
Theorem applyGuardRails_wraps c gas g mn mx :
  MinGasPriceCsv g = Some mn → MaxGasPriceCsv g = Some mx → 0 < mn ≤ mx →
  0 ≤ c → 2 ^ 63 ≤ gas < 2 ^ 64 → mx < 2 ^ 191 →
  applyGuardRails (Some c) gas g = Ok (Some (mn * (gas - 2 ^ 64))) ∧
  mn * (gas - 2 ^ 64) < 0.
Proof using L.
  intros Hmn Hmx Hm Hc Hg Hb. split; [|nia]. apply (wrapped_rails c gas g mn mx); (done || lia).
Qed.

(** The amount the guard rails leave of [c], whatever the gas: without gas they are
    skipped, and gas of 2^63 or more is taken as a negative number. *)
Definition railed (mn mx c gas : Z) : Z :=
  if gas =? 0 then c
  else if gas <? 2 ^ 63 then clamp mn mx c gas else mn * (gas - 2 ^ 64).

Definition gas_price (csv gas : Z) : Dec :=
  if gas =? 0 then None else Some (Z.quot csv (i64 gas)).

Lemma railed_range mn mx c gas :
  0 ≤ mn ≤ mx → 0 ≤ c → 0 ≤ gas < 2 ^ 63 → 0 ≤ railed mn mx c gas ≤ Z.max c (mn * gas).
Proof.
  intros Hm Hc Hg. unfold railed. destruct (Z.eqb_spec gas 0) as [->|Hne]; [lia|].
  rewrite (proj2 (Z.ltb_lt gas (2 ^ 63))) by lia. apply clamp_range; lia.
Qed.

Lemma guard_rails_run c gas g mn mx :
  MinGasPriceCsv g = Some mn → MaxGasPriceCsv g = Some mx → 0 ≤ mn ≤ mx →
  0 ≤ c → 0 ≤ gas < 2 ^ 64 → (2 ^ 63 ≤ gas → 0 < mn) → mx * gas < 2 ^ 255 →
  applyGuardRails (Some c) gas g = Ok (Some (railed mn mx c gas)).
Proof using L.
  intros Hmn Hmx Hm Hc Hg Hn Hb. unfold railed. destruct (Z.eqb_spec gas 0) as [->|Hne]; [done|].
  destruct (Z.ltb_spec gas (2 ^ 63)) as [Hlo|Hhi].
  - apply applyGuardRails_run; (done || lia).
  - apply (wrapped_rails c gas g mn mx); try done; nia.
Qed.

(** *** Estimates *)

(** The row of the table for a category. *)
Definition config_of (t : FeeTableUSD) (c : TransactionCategory) : FeeConfig :=
  match c with
  | CategoryPOS => PosPayment t
  | CategoryTokenInteraction => TokenInteraction t
  | CategoryDEXNative => DexNative t
  | CategoryDEXUser => DexUser t
  | CategoryDeploy => Deploy t
  | CategoryWizard => Wizard t
  | _ => NativeTransfer t
  end.

(** The gas limit of a category that is free because its row says zero dollars. *)
Definition free_tier (p : Params) (c : TransactionCategory) : option Z :=
  match c with
  | CategoryDeploy | CategoryWizard =>
      if decide (UsdAmount (config_of (FeeTableUsd p) c) = Some 0)
      then Some (getMaxGasForFreeCategory c (Guards p)) else None
  | _ => None
  end.

Lemma estimate_config_run t c u :
  UsdAmount (config_of t c) = Some u →
  estimate_config t c =
  Ok (config_of t c,
      match c with CategoryDeploy | CategoryWizard => u =? 0 | _ => false end).
Proof using L.
  intros Hu. destruct c; simpl in *; try done; rewrite Hu, DecIsZero_spec; done.
Qed.

Definition estimate_of ctx w c u mn mx gas : FeeEstimate :=
  let csv := railed mn mx (chop (u * price_of ctx w)) gas in
  mkFeeEstimate c (Some u) (Some csv) gas (gas_price csv gas) false (Some (price_data ctx w)).

Section Estimate.
Variables (ctx : Ctx) (msgs : list Msg) (memo : string) (gas : Z) (w : World E).
Let p := params_of w.
Let c := category_of (w_fees w) (expandMessages msgs 4) memo.

Lemma EstimateFee_system :
  c = CategorySystem →
  EstimateFee ctx msgs memo gas w = (w, Ok (free_estimate CategorySystem gas)).
Proof using L.
  intros Hc. unfold EstimateFee. rewrite (bind_run _ _ _ _ _ (classify_run _ _ _ _)).
  rewrite (bind_run _ _ _ _ _ (params_or_default_run w)). fold c. by rewrite Hc.
Qed.

Lemma EstimateFee_free limit :
  free_tier p c = Some limit →
  EstimateFee ctx msgs memo gas w =
  (w, if limit <? gas then Err (ErrText "gas wanted exceeds free tier limit")
      else Ok (free_estimate c gas)).
Proof using L.
  intros Hf. assert (Hu : UsdAmount (config_of (FeeTableUsd p) c) = Some 0 ∧
    (c = CategoryDeploy ∨ c = CategoryWizard) ∧
    limit = getMaxGasForFreeCategory c (Guards p)).
  { unfold free_tier in Hf. destruct c; try done;
      (case_decide; [|done]); injection Hf as <-; auto. }
  destruct Hu as (Hu & Hc & ->). unfold EstimateFee.
  rewrite (bind_run _ _ _ _ _ (classify_run _ _ _ _)).
  rewrite (bind_run _ _ _ _ _ (params_or_default_run w)). fold c p.
  rewrite decide_False by (destruct Hc as [-> | ->]; done).
  rewrite (estimate_config_run _ _ _ Hu).
  destruct Hc as [-> | ->]; simpl; by destruct (_ <? gas).
Qed.

Lemma EstimateFee_paid u mn mx :
  c ≠ CategorySystem → free_tier p c = None →
  UsdAmount (config_of (FeeTableUsd p) c) = Some u →
  MinGasPriceCsv (Guards p) = Some mn → MaxGasPriceCsv (Guards p) = Some mx → 0 ≤ mn ≤ mx →
  0 ≤ u * price_of ctx w < 2 ^ 255 → 0 ≤ gas < 2 ^ 64 → (2 ^ 63 ≤ gas → 0 < mn) →
  mx * gas < 2 ^ 255 →
  EstimateFee ctx msgs memo gas w =
  (with_event (oracle_event (price_data ctx w)) w, Ok (estimate_of ctx w c u mn mx gas)).
Proof using L OL.
  intros Hs Hf Hu Hmn Hmx Hm Hp Hg Hpos Hb. unfold EstimateFee.
  rewrite (bind_run _ _ _ _ _ (classify_run _ _ _ _)).
  rewrite (bind_run _ _ _ _ _ (params_or_default_run w)). fold c p.
  rewrite decide_False by done. rewrite (estimate_config_run _ _ _ Hu).
  assert (Hnf : match c with CategoryDeploy | CategoryWizard => u =? 0 | _ => false end = false).
  { unfold free_tier in Hf. destruct c; try done;
      (case_decide as Hd; [done|]); apply Z.eqb_neq; intros ->; by apply Hd. }
  rewrite Hnf, (bind_run (lift _) _ _ _ _ eq_refl). cbv beta iota. rewrite Hu.
  assert (Hc : wrap_err (ConvertUSDToCSV ctx (Some u)) "failed to convert USD to CSV" w
    = (with_event (oracle_event (price_data ctx w)) w,
       Ok (Some (chop (u * price_of ctx w)), price_data ctx w))).
  { unfold wrap_err. rewrite ConvertUSDToCSV_run. unfold converted.
    rewrite dec_ret_ok by (apply chop_small; lia). done. }
  rewrite (bind_run _ _ _ _ _ Hc).
  pose proof (chop_nonneg _ (proj1 Hp)) as Hc0. set (w1 := with_event _ w).
  assert (Hgr : wrap_err (lift (applyGuardRails (Some (chop (u * price_of ctx w))) gas
      (Guards p))) "guard rails validation failed" w1 =
    (w1, Ok (Some (railed mn mx (chop (u * price_of ctx w)) gas)))).
  { unfold wrap_err, lift. by rewrite (guard_rails_run _ _ _ mn mx). }
  cbv beta iota. rewrite (bind_run _ _ _ _ _ Hgr). unfold estimate_of, gas_price.
  destruct (Z.eqb_spec gas 0) as [->|Hne]; [done|].
  rewrite (proj2 (Z.ltb_lt 0 gas)) by lia. rewrite DecQuoInt64_spec; [done|].
  destruct (Z.le_gt_cases (2 ^ 63) gas); [rewrite i64_high by lia; lia|rewrite i64_id; lia].
Qed.

End Estimate.
(** *** The fee in coins, and its check *)

(** The units of [denom] in [z]: micro-units when its name starts with "u". *)
Definition units (denom : string) (z : Z) : Z :=
  if HasPrefix denom "u" then ucsv_of z else Z.quot z precision.

(** The fee expected for an estimate of [z]: at least one unit unless it is zero. *)
Definition expected (denom : string) (z : Z) : Z :=
  if z =? 0 then 0 else Z.max 1 (units denom z).

Lemma quot_abs x k : 0 < k → Z.abs (Z.quot x k) ≤ Z.abs x.
Proof.
  intros Hk. pose proof (Z.quot_rem' x k). pose proof (Z.rem_bound_abs x k ltac:(lia)).
  destruct (Z.le_gt_cases 0 x).
  - rewrite Z.quot_div_nonneg by lia. pose proof (Z.div_pos x k).
    pose proof (Z.div_le_upper_bound x k x). nia.
  - replace x with (- (- x)) by lia. rewrite Z.quot_opp_l by lia.
    rewrite Z.quot_div_nonneg by lia. pose proof (Z.div_pos (- x) k).
    pose proof (Z.div_le_upper_bound (- x) k (- x)). nia.
Qed.

Lemma units_small denom z : Z.abs (units denom z) ≤ Z.abs z.
Proof.
  unfold units, ucsv_of. destruct (HasPrefix denom "u"); [|by apply quot_abs].
  change precision with (1000000000000 * 1000000). rewrite Z.quot_mul_cancel_r by done.
  by apply quot_abs.
Qed.

(** What the code has in hand before it looks at the sign of the amount. *)
Lemma units_run denom z :
  Z.abs z < 2 ^ 200 →
  (amount0 ← DecTruncateInt (Some z);
   amount ← (if HasPrefix denom "u"
             then x ← DecMulInt64 (Some z) 1000000; DecTruncateInt x
             else mret amount0);
   let amount := if amount =? 0 then 1 else amount in
   coin ← NewCoin denom amount;
   NewCoins [coin]) =
  (coin ← NewCoin denom (if units denom z =? 0 then 1 else units denom z); NewCoins [coin]).
Proof using L.
  intros Hb. pose proof (quot_abs z precision eq_refl).
  rewrite DecTruncateInt_spec, int_ret_ok by lia. simpl mbind.
  assert (Hu : (if HasPrefix denom "u"
                then x ← DecMulInt64 (Some z) 1000000; DecTruncateInt x
                else mret (Z.quot z precision)) = Ok (units denom z)).
  { unfold units. destruct (HasPrefix denom "u"); [|done]. by apply (to_ucsv_run z). }
  by rewrite Hu.
Qed.

Lemma BuildFee_run est denom z :
  IsFree est = false → CSVAmount est = Some z → Z.abs z < 2 ^ 200 → 0 ≤ units denom z →
  denom_syntax denom = true →
  BuildFeeFromEstimate est denom =
  Ok (if z =? 0 then [] else [mkCoin denom (expected denom z)]).
Proof using L.
  intros Hf Hz Hb Hn0 Hd. unfold BuildFeeFromEstimate, expected. rewrite Hf, Hz, DecIsZero_spec.
  simpl mbind. destruct (Z.eqb_spec z 0) as [->|Hne]; [apply NewCoins_nil|].
  rewrite units_run by done. set (n := units denom z) in *. clearbody n.
  assert (Hn : (if n =? 0 then 1 else n) = Z.max 1 n) by (destruct (Z.eqb_spec n 0); lia).
  rewrite Hn. rewrite NewCoin_spec, ValidateDenom_spec, Hd.
  rewrite (proj2 (Z.leb_le 0 (Z.max 1 n))) by lia. simpl mbind.
  rewrite NewCoins_one by (rewrite ?ValidateDenom_spec; (done || lia)).
  by rewrite (proj2 (Z.eqb_neq (Z.max 1 n) 0)) by lia.
Qed.

(** A negative estimate is no coin. *)
Lemma BuildFee_negative est denom z :
  IsFree est = false → CSVAmount est = Some z → Z.abs z < 2 ^ 200 → units denom z < 0 →
  BuildFeeFromEstimate est denom = Panic "invalid coin".
Proof using L.
  intros Hf Hz Hb Hn. unfold BuildFeeFromEstimate. rewrite Hf, Hz, DecIsZero_spec. simpl mbind.
  destruct (Z.eqb_spec z 0) as [->|Hne].
  { exfalso. revert Hn. unfold units, ucsv_of. by case_match. }
  rewrite units_run by done. rewrite (proj2 (Z.eqb_neq (units denom z) 0)) by lia.
  rewrite NewCoin_spec, (proj2 (Z.leb_gt 0 (units denom z))) by done.
  by rewrite andb_false_r.
Qed.

Lemma CoinsIsZero_iff cs : CoinsIsZero cs = true ↔ Forall (λ c, c_amount c = 0) cs.
Proof using L.
  rewrite CoinsIsZero_spec, forallb_Forall. split; intros H; (eapply Forall_impl; [exact H|]); intros c; simpl; lia.
Qed.

(** The verdict on a fee that is not free. *)
Definition within (denom : string) (t z : Z) (providedFee : Coins) : Prop :=
  z = 0 ∨
  ¬ Forall (λ c, c_amount c = 0) providedFee ∧
  Z.abs (coins_amount providedFee denom - expected denom z)
    ≤ t * expected denom z / precision.

Lemma ValidateFee_paid est denom z t providedFee :
  IsFree est = false → CSVAmount est = Some z → Z.abs z < 2 ^ 190 → 0 ≤ units denom z →
  denom_syntax denom = true → 0 ≤ t ≤ precision → coins_sorted providedFee →
  Z.abs (coins_amount providedFee denom) < 2 ^ 254 →
  (ValidateFeeAgainstEstimate providedFee est denom (Some t) = Ok tt ∧
     within denom t z providedFee) ∨
  (∃ e, ValidateFeeAgainstEstimate providedFee est denom (Some t) = Err e ∧
     ¬ within denom t z providedFee).
Proof using L.
  intros Hf Hz Hb Hu Hd Ht Hs Hp. unfold ValidateFeeAgainstEstimate, within.
  rewrite (BuildFee_run _ _ z) by (done || lia). simpl mbind. rewrite Hf.
  destruct (Z.eqb_spec z 0) as [->|Hne].
  - rewrite (CoinsIsZero_spec []). simpl. rewrite andb_false_r.
    rewrite AmountOf_spec by (rewrite ?ValidateDenom_spec; auto with sdk). simpl mbind.
    rewrite AmountOf_spec by (rewrite ?ValidateDenom_spec; auto with sdk). simpl mbind.
    left. split; [done|by left].
  - assert (He : 1 ≤ expected denom z < 2 ^ 190).
    { unfold expected. rewrite (proj2 (Z.eqb_neq z 0)) by done.
      pose proof (units_small denom z). lia. }
    set (e := expected denom z) in *. clearbody e.
    rewrite (CoinsIsZero_spec [_]). simpl forallb.
    rewrite (proj2 (Z.eqb_neq e 0)) by lia. simpl negb. rewrite andb_true_r.
    destruct (CoinsIsZero providedFee) eqn:Hzero.
    { right. eexists. split; [done|]. apply CoinsIsZero_iff in Hzero. naive_solver. }
    assert (Hnz : ¬ Forall (λ c, c_amount c = 0) providedFee).
    { intros H%CoinsIsZero_iff. by rewrite H in Hzero. }
    rewrite AmountOf_spec by (rewrite ?ValidateDenom_spec; auto with sdk). simpl mbind.
    rewrite AmountOf_spec by (rewrite ?ValidateDenom_spec; auto with sdk). simpl mbind.
    rewrite String.eqb_refl, Z.add_0_r.
    rewrite (proj2 (Z.eqb_neq e 0)) by lia.
    rewrite IntSub_spec, int_ret_ok by lia. simpl mbind.
    assert (Hte : 0 ≤ t * e < 2 ^ 255)
      by (change precision with 1000000000000000000 in Ht; nia).
    rewrite DecMulInt_spec, dec_ret_ok by lia. simpl mbind.
    rewrite DecTruncateInt_spec, Z.quot_div_nonneg by (done || lia).
    rewrite int_ret_ok.
    2: { pose proof (Z.div_pos (t * e) precision).
         change precision with 1000000000000000000 in *.
         pose proof (Z.div_le_upper_bound (t * e) 1000000000000000000 (t * e)). lia. }
    simpl mbind.
    destruct (Z.ltb_spec (t * e / precision) (Z.abs (coins_amount providedFee denom - e))).
    + right. eexists. split; [done|]. intros [?|[_ ?]]; lia.
    + left. split; [done|]. right. split; [done|lia].
Qed.

Lemma ValidateFee_free est denom t providedFee :
  IsFree est = true →
  ValidateFeeAgainstEstimate providedFee est denom t =
  if CoinsIsZero providedFee then Ok tt else Err (ErrText "expected zero fee for free tier").
Proof using L.
  intros Hf. unfold ValidateFeeAgainstEstimate, BuildFeeFromEstimate. rewrite Hf.
  simpl. rewrite NewCoins_nil. simpl. by destruct (CoinsIsZero providedFee).
Qed.

(** C25 (functional). The check of a fee against an estimate, in full. A free
    transaction must carry no fee; one whose estimate is zero may carry any; every
    other must carry something, and in [denom] an amount that differs from the
    expected one by at most the tolerance rounded down. The expected amount is the
    estimate truncated (never rounded up) to (micro-)units, and at least one. A fee
    that fails the check is an error. An estimate that is negative by a whole unit,
    which a gas limit of 2^63 produces, makes the check panic instead. (The estimate's
    amount is set and below 2^190, the denomination valid, the tolerance at most one,
    the fee sorted and its amount below 2^254.) *)
Theorem ValidateFeeAgainstEstimate_spec est denom z t providedFee :
  CSVAmount est = Some z → Z.abs z < 2 ^ 190 →
  denom_syntax denom = true → 0 ≤ t ≤ precision → coins_sorted providedFee →
  Z.abs (coins_amount providedFee denom) < 2 ^ 254 →
  let ok := ValidateFeeAgainstEstimate providedFee est denom (Some t) in
  let u := if HasPrefix denom "u" then Z.quot (z * 1000000) precision
           else Z.quot z precision in
  (IsFree est = true →
   (ok = Ok tt ↔ Forall (λ c, c_amount c = 0) providedFee) ∧ (ok = Ok tt ∨ ∃ e, ok = Err e)) ∧
  (IsFree est = false → u < 0 → ok = Panic "invalid coin") ∧
  (IsFree est = false → 0 ≤ u →
   (ok = Ok tt ↔
      z = 0 ∨
      ¬ Forall (λ c, c_amount c = 0) providedFee ∧
      let e := Z.max 1 u in
      Z.abs (coins_amount providedFee denom - e) ≤ t * e / precision) ∧
   (ok = Ok tt ∨ ∃ e, ok = Err e)).
Proof using L.
  intros Hz Hb Hd Ht Hs Hp ok u. subst ok. change u with (units denom z).
  split; [|split]; intros Hf.
  - rewrite ValidateFee_free by done. pose proof (CoinsIsZero_iff providedFee) as Hc.
    destruct (CoinsIsZero providedFee); split; eauto; [by rewrite <- Hc|].
    split; [done|]. intros H%Hc. done.
  - intros Hn. unfold ValidateFeeAgainstEstimate.
    by rewrite (BuildFee_negative est denom z) by (done || lia).
  - intros Hn. assert (Hw : within denom t z providedFee ↔
      z = 0 ∨ ¬ Forall (λ c, c_amount c = 0) providedFee ∧
      let e := Z.max 1 (units denom z) in
      Z.abs (coins_amount providedFee denom - e) ≤ t * e / precision).
    { unfold within, expected. destruct (Z.eqb_spec z 0); naive_solver. }
    destruct (ValidateFee_paid est denom z t providedFee) as [[H Hok]|(e & H & Hno)]; try done.
    + rewrite H. split; [|by left]. split; [intros _; by apply Hw|done].
    + rewrite H. split; [|right; by eexists]. split; [done|]. intros Hx%Hw. done.
Qed.
End Spec.

(** ** Witnesses *)
#[local] Existing Instance Oracle.oracle_keeper.

Definition transfer_msg : Msg := MsgOther "/ibc.applications.transfer.v1.MsgTransfer".

Theorem classifyTransaction_spec_witness :
  ∃ c, classifyTransaction ref_ctx
         [MsgOther "/ibc.core.client.v1.MsgUpdateClient"; transfer_msg] "" priced_world
       = (priced_world, Ok c) ∧ c = CategoryMixed ∧ c ≠ CategorySystem.
Proof.
  destruct (@classifyTransaction_spec _ ref_env_laws ref_ctx
    [MsgOther "/ibc.core.client.v1.MsgUpdateClient"; transfer_msg] "" priced_world)
    as (c & H & _ & (_ & Hm & _) & Hn).
  exists c. split; [exact H|]. split; [|apply (Hn transfer_msg); [right; left|reflexivity]].
  apply Hm. split; [left; vm_compute; reflexivity|].
  right. left. vm_compute. discriminate.
Defined.

Definition ref_guards : GuardRails := Guards default_params.

Theorem applyGuardRails_spec_witness :
  ∃ r, applyGuardRails (E := ref_env) (Some 1) 200000 ref_guards = Ok (Some r) ∧ 1 / 200000 < r / 200000.
Proof.
  destruct (@applyGuardRails_spec _ ref_env_laws 1 200000 ref_guards
    (10 ^ 12) (10 ^ 18)) as (r & H & _ & Hr);
    [reflexivity|reflexivity|vm_compute; split; discriminate|done|lia|reflexivity|].
  exists r. split; [exact H|]. destruct (Hr eq_refl) as [[Hr' _] _].
  change (1 / 200000) with 0. lia.
Defined.

Theorem applyGuardRails_wraps_witness :
  applyGuardRails (E := ref_env) (Some (10 ^ 18)) (2 ^ 63) ref_guards = Ok (Some (- (10 ^ 12 * 2 ^ 63))).
Proof.
  apply (@applyGuardRails_wraps _ ref_env_laws (10 ^ 18) (2 ^ 63) ref_guards
    (10 ^ 12) (10 ^ 18)); [reflexivity|reflexivity|vm_compute; split; [reflexivity|discriminate]|vm_compute; discriminate|vm_compute; split; [discriminate|reflexivity]|reflexivity].
Defined.


Definition paid_estimate : FeeEstimate :=
  mkFeeEstimate CategoryNativeTransfer (cents 5) (Some (10 ^ 15)) 1000 (Some (10 ^ 12))
    false None.

Definition negative_estimate : FeeEstimate :=
  mkFeeEstimate CategoryNativeTransfer (cents 5) (Some (- (10 ^ 12))) (2 ^ 64 - 1) (Some (10 ^ 12))
    false None.

Theorem ValidateFeeAgainstEstimate_spec_witness :
  ValidateFeeAgainstEstimate (E := ref_env) [mkCoin "ucsv" 1050] paid_estimate "ucsv" (cents 5) = Ok tt ∧
  ValidateFeeAgainstEstimate (E := ref_env) [mkCoin "ucsv" 1051] paid_estimate "ucsv" (cents 5) ≠ Ok tt ∧
  ValidateFeeAgainstEstimate (E := ref_env) [mkCoin "ucsv" 1] negative_estimate "ucsv" (cents 5)
    = Panic "invalid coin".
Proof.
  assert (Ht : 0 ≤ 5 * 10 ^ 16 ≤ precision) by (vm_compute; split; discriminate).
  pose proof (λ est z n Hz Hb Hn, @ValidateFeeAgainstEstimate_spec _ ref_env_laws est "ucsv" z
    (5 * 10 ^ 16) [mkCoin "ucsv" n] Hz Hb eq_refl Ht (coins_sorted_one _) Hn) as H.
  split_and!.
  - destruct (H paid_estimate (10 ^ 15) 1050 eq_refl eq_refl eq_refl) as (_ & _ & [Hi _]);
      [reflexivity|vm_compute; discriminate|].
    apply Hi. right. split; [|vm_compute; discriminate].
    intros Hx. inversion Hx. discriminate.
  - destruct (H paid_estimate (10 ^ 15) 1051 eq_refl eq_refl eq_refl) as (_ & _ & [Hi _]);
      [reflexivity|vm_compute; discriminate|].
    intros [Hx|[_ Hx]]%Hi; [discriminate|]. vm_compute in Hx. by destruct Hx.
  - destruct (H negative_estimate (- (10 ^ 12)) 1 eq_refl eq_refl eq_refl) as (_ & Hi & _).
    apply Hi; [reflexivity|vm_compute; reflexivity].
Defined.
