(* ===== verification/FeesAnte.v ===== *)
(** * x/fees/keeper/ante_handler.go

    The decorators that check, take and distribute the fee of a transaction. *)

From Stdlib Require Import Strings.Ascii Strings.String.
From stdpp Require Import strings.
From S2P Require Import Prelude GoLib Json Sdk RefEnv World RefWorld Interfaces FeesTypes.
From S2P Require Import FeesKeeper FeesSpec FeesCharge FeeCalculator.
From S2P Require Oracle.

Local Open Scope Z_scope.

(** [sdk.FeeTx]; the granter is nil when the transaction names none. *)
Record FeeTx := mkFeeTx {
  GetFee : Coins;
  GetGas : Z;
  FeePayer : string;
  FeeGranter : Slice
}.

(** [authsigning.SigVerifiableTx] *)
Record SigTx := mkSigTx {
  GetSignaturesV2 : res (list string);
  GetSigners : res (list string)
}.

(** [sdk.Tx]: [None] where the dynamic type has no such methods. *)
Record Tx := mkTx {
  GetMsgs : list Msg;
  GetMemo : option string;
  asFeeTx : option FeeTx;
  asSigTx : option SigTx
}.

Definition ErrTxDecode : error := ErrSdk "ErrTxDecode".
Definition ErrInsufficientFee : error := ErrSdk "ErrInsufficientFee".
Definition ErrOutOfGas : error := ErrSdk "ErrOutOfGas".
Definition ErrUnknownAddress : error := ErrSdk "ErrUnknownAddress".

(** ** Metadata in the memo *)
Definition set_category v (m : FeeMetadata) :=
  mkFeeMetadata v (UserAgent m) (AppVersion m) (TxHash m) (MdTimestamp m).
Definition set_agent v (m : FeeMetadata) :=
  mkFeeMetadata (MdCategory m) v (AppVersion m) (TxHash m) (MdTimestamp m).
Definition set_version v (m : FeeMetadata) :=
  mkFeeMetadata (MdCategory m) (UserAgent m) v (TxHash m) (MdTimestamp m).
Definition set_hash v (m : FeeMetadata) :=
  mkFeeMetadata (MdCategory m) (UserAgent m) (AppVersion m) v (MdTimestamp m).
Definition set_timestamp v (m : FeeMetadata) :=
  mkFeeMetadata (MdCategory m) (UserAgent m) (AppVersion m) (TxHash m) v.

(** The tags of the struct. *)
Definition metadata_fields : list string :=
  ["category"; "user_agent"; "app_version"; "tx_hash"; "timestamp"].
Definition metadata_field (f : string) (v : JVal) (m : FeeMetadata) : FeeMetadata * bool :=
  if String.eqb f "category" then string_field set_category v m
  else if String.eqb f "user_agent" then string_field set_agent v m
  else if String.eqb f "app_version" then string_field set_version v m
  else if String.eqb f "tx_hash" then string_field set_hash v m
  else int64_field set_timestamp v m.

(** One [part] of the memo "key=value;key=value". *)
Definition metadata_part {U : Unicode} (m : FeeMetadata) (part : string) : FeeMetadata :=
  match SplitN2 part "="%char with
  | [k; v] =>
      let key := TrimSpace (ToLower k) in
      let value := TrimSpace v in
      if String.eqb key "category" || String.eqb key "cat" then set_category value m
      else if String.eqb key "user_agent" || String.eqb key "ua" then set_agent value m
      else if String.eqb key "app_version" || String.eqb key "version"
      then set_version value m
      else if String.eqb key "tx_hash" || String.eqb key "hash" then set_hash value m
      else m
  | _ => m
  end.

(** [parseFeeMetadata]; the error it declares is nil on every path. *)
Definition parseFeeMetadata {U : Unicode} (memo : string) : FeeMetadata :=
  if String.eqb memo "" then empty_metadata
  else if HasPrefix memo "{" && HasSuffix memo "}" then
    match unmarshal_struct metadata_fields metadata_field empty_metadata memo with
    | (metadata, true) => metadata
    | (_, false) => empty_metadata
    end
  else fold_left metadata_part (GoLib.Split memo ";"%char) empty_metadata.

Section Ante.
Context {E : Env} {OK : OracleKeeper E}.
Implicit Types (ctx : Ctx) (w : World E).

(** [sdk.AnteHandler]. *)
Definition AnteHandler : Type := Ctx → Tx → bool → stM (World E) Ctx.

Definition opt_attr (name v : string) : list (string * AttrVal) :=
  if String.eqb v "" then [] else [(name, AStr v)].

Definition fee_charged_attrs (estimate : FeeEstimate) (providedFee : Coins)
    (metadata : FeeMetadata) : list (string * AttrVal) :=
  [("category", AStr (category_string (Category estimate)));
   ("usd_amount", AStr (DecString (USDAmount estimate)));
   ("csv_amount", AStr (DecString (CSVAmount estimate)));
   ("fee_type", AStr (category_string (Category estimate)));
   ("gas_wanted", AInt (GasWanted estimate));
   ("gas_price", AStr (DecString (GasPrice estimate)));
   ("provided_fee", ACoins providedFee);
   ("is_free", ABool (IsFree estimate));
   ("system_exempt", ABool (bool_decide (Category estimate = CategorySystem)))]
  ++ opt_attr "user_agent" (UserAgent metadata)
  ++ opt_attr "app_version" (AppVersion metadata)
  ++ opt_attr "tx_hash" (TxHash metadata)
  ++ match EstPriceData estimate with
     | None => []
     | Some pd =>
         [("oracle_price", AStr (DecString (Price pd)));
          ("oracle_twap_price", AStr (DecString (TwapPrice pd)));
          ("oracle_is_stale", ABool (IsStale pd));
          ("oracle_is_fallback", ABool (IsFallback pd))]
     end.

Definition emitFeeChargedEvent (estimate : FeeEstimate) (providedFee : Coins)
    (metadata : FeeMetadata) : stM (World E) unit :=
  EmitEvent "fee_charged" (fee_charged_attrs estimate providedFee metadata).

(** [math.LegacyNewDecWithPrec(5, 2)] *)
Definition tolerance : Dec := LegacyNewDecWithPrec 5 2.

(** The switch on the fee mode. *)
Definition check_mode (params : Params) (estimate : FeeEstimate) (providedFee : Coins)
    : stM (World E) unit :=
  let validate text :=
    replace_err (lift (ValidateFeeAgainstEstimate providedFee estimate "ucsv" tolerance))
      ErrInsufficientFee text in
  if IsGasOnly params then mret tt
  else if IsHybridEnabled params then
    if decide (Category estimate = CategorySystem) then mret tt
    else validate "fee validation failed (hybrid)"
  else validate "fee validation failed".

(** [FeeAnteHandler.AnteHandle] *)
Definition FeeAnteHandle (next : AnteHandler) : AnteHandler := λ ctx tx simulate,
  if simulate then next ctx tx simulate else
  r ← attempt params_get;
  match r with
  | inr _ => next ctx tx simulate
  | inl params =>
  match asFeeTx tx with
  | None => throw (ErrWrap ErrTxDecode "Tx must be a FeeTx")
  | Some feeTx =>
  let msgs := GetMsgs tx in
  let memo := default "" (GetMemo tx) in
  let providedFee := GetFee feeTx in
  let gasWanted := GetGas feeTx in
  let feeMetadata := parseFeeMetadata memo in
  estimate ← replace_err (EstimateFee ctx msgs memo gasWanted) ErrInvalidRequest
    "fee estimation failed";
  check_mode params estimate providedFee;;
  if decide (Category estimate = CategorySystem) then next ctx tx simulate else
  let maxGas := getMaxGasForFreeCategory (Category estimate) (Guards params) in
  if IsFree estimate && (maxGas <? gasWanted)
  then throw (ErrWrap ErrOutOfGas "gas wanted exceeds free tier limit") else
  emitFeeChargedEvent estimate providedFee feeMetadata;;
  next (mkCtx (BlockTime ctx) (BlockHeight ctx) (Some estimate) (Some feeMetadata)
    (ctx_GasMeter ctx) (ctx_BlockGasMeter ctx))
    tx simulate
  end
  end.

(** ** [DeductFeeDecorator] *)

Definition deductFees (feeTx : FeeTx) (fee : Coins) : stM (World E) unit :=
  let deductFeesFrom := match FeeGranter feeTx with
                        | None => FeePayer feeTx
                        | Some g => g
                        end in
  exists_ ← gets (λ w, GetAccount (w_bank w) deductFeesFrom);
  if negb exists_ then throw (ErrWrap ErrUnknownAddress "fee payer address does not exist")
  else replace_err (on_bank (SendCoinsFromAccountToModule deductFeesFrom ModuleName fee))
         ErrInsufficientFunds "failed to deduct fees".

Definition distributeFees ctx (fee : Coins) : stM (World E) unit :=
  let feeType := match ctx_estimate ctx with
                 | Some est => category_string (Category est)
                 | None => "native_transfer"
                 end in
  for_each fee (λ coin, DistributeFeeFromModule ctx ModuleName feeType coin ∅).

Definition DeductFeeHandle (next : AnteHandler) : AnteHandler := λ ctx tx simulate,
  match asFeeTx tx with
  | None => throw (ErrWrap ErrTxDecode "Tx must be a FeeTx")
  | Some feeTx =>
      let fee := GetFee feeTx in
      (if negb simulate && negb (CoinsIsZero fee) then
         deductFees feeTx fee;; distributeFees ctx fee
       else mret tt);;
      next ctx tx simulate
  end.
End Ante.

(** ** What the decorators promise *)
Section Spec.
Context {E : Env} {L : EnvLaws E} {OK : OracleKeeper E} {OL : OracleKeeperLaws E}.
Implicit Types (ctx : Ctx) (w : World E).

Lemma tolerance_value : tolerance = Some (5 * 10 ^ 16).
Proof using L. unfold tolerance. by rewrite DecWithPrec_spec by lia. Qed.

(** Five percent of [e], rounded down. *)
Lemma tolerance_share e : 5 * 10 ^ 16 * e / precision = e / 20.
Proof.
  change precision with (20 * (5 * 10 ^ 16)). rewrite (Z.mul_comm 20).
  by rewrite Z.div_mul_cancel_l.
Qed.

(** The fee modes that do not look at the fee: of any transaction, or of a system one. *)
Definition unchecked (p : Params) (c : TransactionCategory) : Prop :=
  FeeMode p = "gas_only" ∨ FeeMode p = "hybrid" ∧ c = CategorySystem.

#[export] Instance unchecked_dec p c : Decision (unchecked p c).
Proof. unfold unchecked. apply _. Defined.

Definition refused_fee (p : Params) : error :=
  ErrWrap ErrInsufficientFee
    (if decide (FeeMode p = "hybrid") then "fee validation failed (hybrid)"
     else "fee validation failed").

Lemma check_mode_run p est fee w :
  check_mode p est fee w =
  (w, if decide (unchecked p (Category est)) then Ok tt
      else match ValidateFeeAgainstEstimate fee est "ucsv" tolerance with
           | Ok tt => Ok tt
           | Err _ => Err (refused_fee p)
           | Panic x => Panic x
           end).
Proof.
  assert (Hv : ∀ text,
    replace_err (lift (ValidateFeeAgainstEstimate fee est "ucsv" tolerance))
      ErrInsufficientFee text w =
    (w, match ValidateFeeAgainstEstimate fee est "ucsv" tolerance with
        | Ok tt => Ok tt
        | Err _ => Err (ErrWrap ErrInsufficientFee text)
        | Panic x => Panic x
        end)).
  { intros text. unfold replace_err, attempt, mbind, stM_bind, lift.
    by destruct (ValidateFeeAgainstEstimate _ _ _ _) as [[]|e|x]. }
  unfold check_mode, IsGasOnly, IsHybridEnabled, FeeModeGasOnly, FeeModeHybrid, refused_fee.
  destruct (String.eqb_spec (FeeMode p) "gas_only") as [Hg|Hg].
  { rewrite decide_True by (by left). done. }
  destruct (String.eqb_spec (FeeMode p) "hybrid") as [Hh|Hh].
  - rewrite (decide_True _ _ Hh). destruct (decide (Category est = CategorySystem)) as [Hc|Hc].
    + rewrite decide_True by (by right). done.
    + rewrite decide_False by (intros [?|[_ ?]]; done). apply Hv.
  - rewrite (decide_False _ _ Hh). rewrite decide_False by (intros [?|[? _]]; done). apply Hv.
Qed.

Lemma check_mode_pure p est fee w : (check_mode p est fee w).1 = w.
Proof. by rewrite check_mode_run. Qed.

(** A free estimate was within the gas limit of its category. *)
Lemma EstimateFee_free_inv ctx msgs memo gas p w w' est :
  w_fees w = Some p → EstimateFee ctx msgs memo gas w = (w', Ok est) →
  Category est = CategorySystem ∨ IsFree est = false ∨
  (getMaxGasForFreeCategory (Category est) (Guards p) <? gas) = false.
Proof using L.
  intros Hp. unfold EstimateFee.
  rewrite (bind_run _ _ _ _ _ (classify_run _ _ _ _)).
  rewrite (bind_run _ _ _ _ _ (params_or_default_run w)).
  assert (Hpw : params_of w = p) by (unfold params_of; by rewrite Hp). rewrite Hpw.
  case_decide as Hs; [intros [= _ <-]; by left|].
  intros H. apply bind_ok_inv in H as ([cfg free] & w1 & H1 & H). apply lift_ok_inv in H1 as [-> _].
  destruct free.
  - destruct (_ <? gas) eqn:Hg in H; [done|]. injection H as _ <-. simpl. by right; right.
  - step_inv. destruct a as [csv pd]. step_inv. by right; left.
Qed.

Section Decision.
Variables (next : AnteHandler (E := E)) (ctx : Ctx) (tx : Tx) (feeTx : FeeTx) (p : Params).
Variable w : World E.
Hypothesis Hp : w_fees w = Some p.
Hypothesis Ht : asFeeTx tx = Some feeTx.
#[local] Abbreviation memo := (default "" (GetMemo tx)).
#[local] Abbreviation c := (category_of (Some p) (expandMessages (GetMsgs tx) 4) memo).
#[local] Abbreviation fee := (GetFee feeTx).
#[local] Abbreviation gas := (GetGas feeTx).
#[local] Abbreviation run := (FeeAnteHandle next ctx tx false w).

(** The context an accepted transaction goes on with, and the event it leaves. *)
Definition ctx_with (est : FeeEstimate) : Ctx :=
  mkCtx (BlockTime ctx) (BlockHeight ctx) (Some est) (Some (parseFeeMetadata memo))
    (ctx_GasMeter ctx) (ctx_BlockGasMeter ctx).
Definition charged (est : FeeEstimate) : Event :=
  mkEvent "fee_charged" (fee_charged_attrs est fee (parseFeeMetadata memo)).
Definition proceed (est : FeeEstimate) (w1 : World E) : World E * res Ctx :=
  next (ctx_with est) tx false (with_event (charged est) w1).

(** The handler by the outcomes of the estimate and of the check. *)
Lemma FeeAnteHandle_run :
  run = match EstimateFee ctx (GetMsgs tx) memo gas w with
        | (w1, Ok est) =>
            match (check_mode p est fee w1).2 with
            | Ok _ => if decide (Category est = CategorySystem) then next ctx tx false w1
                      else proceed est w1
            | Err e => (w1, Err e)
            | Panic x => (w1, Panic x)
            end
        | (w1, Err _) => (w1, Err (ErrWrap ErrInvalidRequest "fee estimation failed"))
        | (w1, Panic x) => (w1, Panic x)
        end.
Proof using L Hp Ht.
  unfold FeeAnteHandle.
  assert (Hr : attempt params_get w = (w, Ok (inl p))).
  { unfold attempt, params_get. by rewrite coll_get_run, Hp. }
  rewrite (bind_run _ _ _ _ _ Hr), Ht. unfold replace_err, attempt, mbind, stM_bind.
  destruct (EstimateFee _ _ _ _ w) as [w1 [est|e|x]] eqn:He; [|done|done]. simpl.
  pose proof (check_mode_pure p est fee w1) as Hw.
  destruct (check_mode p est fee w1) as [w2 [[]|e|x]];
    simpl in *; subst w2; [|done|done].
  case_decide as Hs; [done|].
  destruct (EstimateFee_free_inv _ _ _ _ _ _ _ _ Hp He) as [?|[Hf|Hg]]; [done|by rewrite Hf|].
  by rewrite Hg, andb_false_r.
Qed.

(** The verdict on a fee whose estimate is known. *)
Lemma verdict_run est w1 :
  EstimateFee ctx (GetMsgs tx) memo gas w = (w1, Ok est) →
  run = if decide (unchecked p (Category est))
        then if decide (Category est = CategorySystem) then next ctx tx false w1
             else proceed est w1
        else match ValidateFeeAgainstEstimate fee est "ucsv" tolerance with
             | Ok _ => if decide (Category est = CategorySystem) then next ctx tx false w1
                       else proceed est w1
             | Err _ => (w1, Err (refused_fee p))
             | Panic x => (w1, Panic x)
             end.
Proof using L Hp Ht.
  intros He. rewrite FeeAnteHandle_run, He, check_mode_run. simpl.
  destruct (decide (unchecked _ _)); [done|].
  by destruct (ValidateFeeAgainstEstimate _ _ _ _) as [[]|e|x].
Qed.

#[local] Abbreviation nofee := (Forall (λ x, c_amount x = 0) fee).

Lemma no_fee_run est :
  IsFree est = true →
  (nofee ∧ ValidateFeeAgainstEstimate fee est "ucsv" tolerance = Ok tt) ∨
  (¬ nofee ∧ ∃ e, ValidateFeeAgainstEstimate fee est "ucsv" tolerance = Err e).
Proof using L.
  intros Hf. rewrite ValidateFee_free by done. pose proof (CoinsIsZero_iff fee) as Hz.
  destruct (CoinsIsZero fee); [left|right]; split; try (by eauto); naive_solver.
Qed.

Lemma system_verdict :
  c = CategorySystem →
  (unchecked p CategorySystem ∨ nofee → run = next ctx tx false w) ∧
  (¬ (unchecked p CategorySystem ∨ nofee) → run = (w, Err (refused_fee p))).
Proof using L Hp Ht.
  intros Hc. pose proof (EstimateFee_system ctx (GetMsgs tx) memo gas w) as He.
  rewrite Hp in He. specialize (He Hc). rewrite (verdict_run _ _ He). simpl.
  destruct (no_fee_run (free_estimate CategorySystem gas) eq_refl) as [[Hn ->]|[Hn [e ->]]];
    destruct (decide (unchecked p CategorySystem)); naive_solver.
Qed.

Lemma params_of_some : params_of w = p.
Proof using Hp. unfold params_of. by rewrite Hp. Qed.

Lemma free_verdict limit :
  free_tier p c = Some limit →
  (limit < gas → run = (w, Err (ErrWrap ErrInvalidRequest "fee estimation failed"))) ∧
  (gas ≤ limit → unchecked p c ∨ nofee → run = proceed (free_estimate c gas) w) ∧
  (gas ≤ limit → ¬ (unchecked p c ∨ nofee) → run = (w, Err (refused_fee p))).
Proof using L Hp Ht.
  intros Hf. pose proof (EstimateFee_free ctx (GetMsgs tx) memo gas w limit) as He.
  rewrite params_of_some, Hp in He. specialize (He Hf).
  assert (Hc : c ≠ CategorySystem) by (intros Hs; by rewrite Hs in Hf).
  destruct (Z.ltb_spec limit gas) as [Hg|Hg].
  { split; [|lia]. intros _. by rewrite FeeAnteHandle_run, He. }
  split; [lia|]. rewrite (verdict_run _ _ He).
  change (Category (free_estimate c gas)) with c.
  rewrite (decide_False _ _ Hc).
  destruct (no_fee_run (free_estimate c gas) eq_refl) as [[Hn ->]|[Hn [e ->]]];
    destruct (decide (unchecked p c)); split; intros _ Hx;
    first [done|by destruct Hx|exfalso; apply Hx; by left|exfalso; apply Hx; by right].
Qed.

Section Paid.
Variables (u mn mx : Z).
Hypothesis Hs : c ≠ CategorySystem.
Hypothesis Hf : free_tier p c = None.
Hypothesis Hu : UsdAmount (config_of (FeeTableUsd p) c) = Some u.
Hypothesis Hmn : MinGasPriceCsv (Guards p) = Some mn.
Hypothesis Hmx : MaxGasPriceCsv (Guards p) = Some mx.
Hypothesis Hm : 0 ≤ mn ≤ mx.
Hypothesis Hprice : 0 ≤ u * price_of ctx w < 2 ^ 190.
Hypothesis Hg : 0 ≤ gas < 2 ^ 64.
Hypothesis Hpos : 2 ^ 63 ≤ gas → 0 < mn.
Hypothesis Hb : mx * gas < 2 ^ 190.
Let csv := railed mn mx (chop (u * price_of ctx w)) gas.

Lemma quoted_small : Z.abs csv < 2 ^ 190.
Proof using Hb Hg Hm Hpos Hprice.
  clear Hs Hf Hu Hmn Hmx Hp Ht.
  assert (Hc0 : 0 ≤ chop (u * price_of ctx w)) by (apply chop_nonneg; lia).
  pose proof (chop_small (u * price_of ctx w) (2 ^ 190)) as Hc1.
  destruct (Z.lt_ge_cases gas (2 ^ 63)) as [Hlo|Hhi].
  - pose proof (railed_range mn mx (chop (u * price_of ctx w)) gas Hm Hc0 ltac:(lia)) as Hr.
    fold csv in Hr. nia.
  - unfold csv, railed. rewrite (proj2 (Z.eqb_neq gas 0)) by lia.
    rewrite (proj2 (Z.ltb_ge gas (2 ^ 63))) by lia. nia.
Qed.

Lemma paid_verdict :
  coins_sorted fee → Z.abs (coins_amount fee "ucsv") < 2 ^ 254 →
  let ucsv := Z.quot (csv * 1000000) precision in
  let e := Z.max 1 ucsv in
  let w1 := with_event (oracle_event (price_data ctx w)) w in
  let est := estimate_of ctx w c u mn mx gas in
  let ok := csv = 0 ∨ ¬ nofee ∧ Z.abs (coins_amount fee "ucsv" - e) ≤ e / 20 in
  (unchecked p c → run = proceed est w1) ∧
  (¬ unchecked p c → 0 ≤ ucsv → ok → run = proceed est w1) ∧
  (¬ unchecked p c → 0 ≤ ucsv → ¬ ok → run = (w1, Err (refused_fee p))) ∧
  (¬ unchecked p c → ucsv < 0 → run = (w1, Panic "invalid coin")).
Proof using All.
  intros Hsort Hfee ucsv e w1 est ok. pose proof quoted_small as Hsmall.
  pose proof (EstimateFee_paid ctx (GetMsgs tx) memo gas w u mn mx) as He.
  rewrite params_of_some, Hp in He.
  specialize (He Hs Hf Hu Hmn Hmx Hm ltac:(lia) Hg Hpos ltac:(lia)).
  fold w1 est in He. rewrite (verdict_run _ _ He).
  change (Category est) with c. rewrite (decide_False _ _ Hs), tolerance_value.
  destruct (decide (unchecked p c)) as [Hun|Hun]; [split_and!; naive_solver|].
  split; [done|].
  assert (Hw : within "ucsv" (5 * 10 ^ 16) csv fee ↔ ok).
  { unfold within, expected, ok, e, units. simpl HasPrefix. cbv iota. unfold ucsv_of.
    fold ucsv. rewrite tolerance_share.
    destruct (Z.eqb_spec csv 0); naive_solver. }
  split_and!; intros _ Hsign.
  3: { unfold ValidateFeeAgainstEstimate.
       by rewrite (BuildFee_negative est "ucsv" csv) by (done || lia). }
  all: destruct (ValidateFee_paid est "ucsv" csv (5 * 10 ^ 16) fee eq_refl eq_refl
    Hsmall Hsign eq_refl ltac:(vm_compute; split; discriminate)
    Hsort Hfee) as [[-> Hok]|(x & -> & Hno)]; naive_solver.
Qed.
End Paid.
End Decision.

(** C2 (functional). The ante handler's fee check, outcome by outcome. Simulations, and
    transactions before the parameters exist, go straight to the next handler; what is no
    fee transaction is refused. Otherwise mode and category decide. Nothing is checked in
    gas-only mode, nor of a system transaction in hybrid mode. Else a system transaction
    must carry no fee; nor may one of a free tier, whose gas beyond the limit is refused
    in every mode; any other must carry a fee within five percent, rounded down, of the
    amount quoted in ucsv (at least one), more being refused like less. A quote of zero
    accepts any fee; one negative by a whole ucsv, from a gas limit of 2^63 on, panics
    where the fee is checked. What is refused goes no further; what is accepted goes on
    with its quote and metadata in the context after the events of price and charge, a
    system transaction with context and events as they were. (For a paid category dollars
    and gas price limits are set, the limits ordered, the fee sorted, and no product
    overflows.) *)
Theorem FeeAnteHandle_spec next ctx tx w :
  FeeAnteHandle next ctx tx true w = next ctx tx true w ∧
  (w_fees w = None → FeeAnteHandle next ctx tx false w = next ctx tx false w) ∧
  ∀ p, w_fees w = Some p →
  let run := FeeAnteHandle next ctx tx false w in
  let c := category_of (Some p) (expandMessages (GetMsgs tx) 4) (default "" (GetMemo tx)) in
  (asFeeTx tx = None → run = (w, Err (ErrWrap ErrTxDecode "Tx must be a FeeTx"))) ∧
  ∀ feeTx, asFeeTx tx = Some feeTx →
  let fee := GetFee feeTx in
  let gas := GetGas feeTx in
  let nofee := Forall (λ x, c_amount x = 0) fee in
  let go := proceed next ctx tx feeTx in
  (c = CategorySystem →
    (unchecked p CategorySystem ∨ nofee → run = next ctx tx false w) ∧
    (¬ (unchecked p CategorySystem ∨ nofee) → run = (w, Err (refused_fee p)))) ∧
  (∀ limit, free_tier p c = Some limit →
    (limit < gas → run = (w, Err (ErrWrap ErrInvalidRequest "fee estimation failed"))) ∧
    (gas ≤ limit → unchecked p c ∨ nofee → run = go (free_estimate c gas) w) ∧
    (gas ≤ limit → ¬ (unchecked p c ∨ nofee) → run = (w, Err (refused_fee p)))) ∧
  (∀ u mn mx, c ≠ CategorySystem → free_tier p c = None →
    UsdAmount (config_of (FeeTableUsd p) c) = Some u →
    MinGasPriceCsv (Guards p) = Some mn → MaxGasPriceCsv (Guards p) = Some mx → 0 ≤ mn ≤ mx →
    0 ≤ u * price_of ctx w < 2 ^ 190 → 0 ≤ gas < 2 ^ 64 → (2 ^ 63 ≤ gas → 0 < mn) →
    mx * gas < 2 ^ 190 → coins_sorted fee → Z.abs (coins_amount fee "ucsv") < 2 ^ 254 →
    let csv := railed mn mx (chop (u * price_of ctx w)) gas in
    let ucsv := Z.quot (csv * 1000000) precision in
    let e := Z.max 1 ucsv in
    let w1 := with_event (oracle_event (price_data ctx w)) w in
    let est := estimate_of ctx w c u mn mx gas in
    let ok := csv = 0 ∨ ¬ nofee ∧ Z.abs (coins_amount fee "ucsv" - e) ≤ e / 20 in
    (unchecked p c → run = go est w1) ∧
    (¬ unchecked p c → 0 ≤ ucsv → ok → run = go est w1) ∧
    (¬ unchecked p c → 0 ≤ ucsv → ¬ ok → run = (w1, Err (refused_fee p))) ∧
    (¬ unchecked p c → ucsv < 0 → run = (w1, Panic "invalid coin"))).
Proof using L OL.
  split; [done|]. split.
  { intros Hn. unfold FeeAnteHandle, params_get, attempt, mbind, stM_bind.
    by rewrite coll_get_run, Hn. }
  intros p Hp run c. split.
  { intros Hn. subst run. unfold FeeAnteHandle, params_get, attempt, mbind, stM_bind.
    by rewrite coll_get_run, Hp, Hn. }
  intros feeTx Ht fee gas nofee go. split; [by apply system_verdict|].
  split; [by apply free_verdict|]. intros. by apply paid_verdict.
Qed.

(** *** Taking and distributing the fee *)

(** The row of the table whose split a transaction's fee follows is
    that of its category, except that the fees of POS and wizard transactions follow
    the split of native transfers: the names under which the estimate and the table
    know these categories differ. *)
Theorem distribution_config t c :
  config_by_type_module t (category_string c) =
  match c with
  | CategoryPOS | CategoryWizard => NativeTransfer t
  | _ => config_of t c
  end.
Proof using. by destruct c. Qed.

(** What the plans [f] of the coins of [fee] move into [a], paid by [src]. *)
Definition flow (f : Coin → list Transfer) (src a d : string) (fee : Coins) : Z :=
  foldr (λ c n,
    (if String.eqb (c_denom c) d
     then received (f c) a - (if String.eqb a src then cost (f c) else 0) else 0) + n)
    0 fee.

(** The type of fee [distributeFees] reads from the context. *)
Definition fee_type ctx : string :=
  match ctx_estimate ctx with
  | Some est => category_string (Category est)
  | None => "native_transfer"
  end.

Definition coin_ok (c : Coin) : Prop :=
  amount_ok (c_amount c) ∧ denom_syntax (c_denom c) = true.

Section Deduct.
Variables (ctx : Ctx) (p : Params).
Let cfg := config_by_type_module (FeeTableUsd p) (fee_type ctx).
Let rc := resolve_recipients p ∅.
Hypothesis Hs : split_ok (Split cfg).

(** The transfers of one coin. *)
Definition coin_plan (c : Coin) : list Transfer :=
  transfers (plan (Split cfg) rc (c_amount c)) rc.

Lemma coin_plan_cost c : coin_ok c → c_amount c - 3 ≤ cost (coin_plan c) ≤ c_amount c.
Proof using L Hs.
  intros [Ha _]. unfold coin_plan. rewrite cost_transfers.
  by destruct (plan_run _ rc _ Hs Ha) as (_ & _ & ?).
Qed.

Lemma distribute_all fee w w' u :
  w_fees w = Some p → Forall coin_ok fee →
  distributeFees ctx fee w = (w', Ok u) →
  ∃ b', w' = set_bank b' w ∧
    (∀ a d, GetBalance b' a d =
       GetBalance (w_bank w) a d + flow coin_plan (NewModuleAddress ModuleName) a d fee) ∧
    (∀ d, GetSupply b' d = GetSupply (w_bank w) d).
Proof using L Hs.
  intros Hp Hf. unfold distributeFees. fold (fee_type ctx). revert w Hp u.
  induction Hf as [|c l [Ha Hd] _ IH]; intros w Hp u H; simpl in H.
  - injection H as <- _. exists (w_bank w). rewrite set_bank_id. simpl.
    split; [done|]. split; [|done]. intros. lia.
  - apply bind_ok_inv in H as (u1 & w1 & H1 & H2).
    apply (DistributeFeeFromModule_effect _ _ _ _ _ p) in H1 as (b1 & -> & Hb1 & Hs1);
      try done; [|by apply split_ok_within].
    apply IH in H2 as (b' & -> & Hb' & Hs'); [|done].
    exists b'. split; [done|]. simpl in Hb', Hs'. split; [|by intros; rewrite Hs', Hs1].
    intros a d. rewrite Hb', Hb1. unfold coin_plan at 2. simpl flow. fold cfg rc.
    unfold coin_plan. lia.
Qed.

(** The run of the decorator on a transaction that carries a fee. *)
Lemma deduct_run next tx feeTx w :
  asFeeTx tx = Some feeTx → w_fees w = Some p → Forall coin_ok (GetFee feeTx) →
  let payer := match FeeGranter feeTx with Some g => g | None => FeePayer feeTx end in
  let module := NewModuleAddress ModuleName in
  DeductFeeHandle next ctx tx true w = next ctx tx true w ∧
  (CoinsIsZero (GetFee feeTx) = true →
   DeductFeeHandle next ctx tx false w = next ctx tx false w) ∧
  (CoinsIsZero (GetFee feeTx) = false →
   ∀ w' r, DeductFeeHandle next ctx tx false w = (w', Ok r) →
   ∃ b', next ctx tx false (set_bank b' w) = (w', Ok r) ∧
     (∀ a d, GetBalance b' a d = GetBalance (w_bank w) a d
        - (if String.eqb a payer then coins_amount (GetFee feeTx) d else 0)
        + (if String.eqb a module then coins_amount (GetFee feeTx) d else 0)
        + flow coin_plan module a d (GetFee feeTx)) ∧
     (∀ d, GetSupply b' d = GetSupply (w_bank w) d) ∧
     Forall (λ c, c_amount c - 3 ≤ cost (coin_plan c) ≤ c_amount c) (GetFee feeTx)).
Proof using L Hs.
  intros Ht Hp Hf payer module. unfold DeductFeeHandle. rewrite Ht.
  split; [done|]. split; [by intros ->|]. intros Hz w' r H. rewrite Hz in H. simpl in H.
  apply bind_ok_inv in H as (u & w2 & H & Hn).
  apply bind_ok_inv in H as (u1 & w1 & H1 & H2).
  unfold deductFees in H1. fold payer in H1.
  apply bind_ok_inv in H1 as (ex & w0 & Hg & H1). apply gets_inv in Hg as [-> _].
  destruct (negb ex); [done|]. apply replace_err_inv, on_bank_inv in H1 as (b1 & H1 & ->).
  apply SendCoinsFromAccountToModule_ok in H1 as [Hb1 Hs1].
  apply distribute_all in H2 as (b' & -> & Hb' & Hs'); [|done..].
  exists b'. split; [done|]. simpl in Hb', Hs'. split_and!.
  - intros a d. rewrite Hb', Hb1. done.
  - intros d. by rewrite Hs', Hs1.
  - eapply Forall_impl; [exact Hf|]. intros c. apply coin_plan_cost.
Qed.

(** A transaction in a simulation, or without a fee, is left alone. From
    any other that gets through, the granter, if one is named, or else the payer has
    paid exactly the fee; each of its coins has gone through the fees module to the
    recipients of the plan, but for at most three units of each that stay in the
    module; nothing else changed, neither the supply nor another store. *)
Theorem DeductFeeHandle_spec next tx feeTx w :
  asFeeTx tx = Some feeTx → w_fees w = Some p → Forall coin_ok (GetFee feeTx) →
  let payer := match FeeGranter feeTx with Some g => g | None => FeePayer feeTx end in
  let module := NewModuleAddress ModuleName in
  DeductFeeHandle next ctx tx true w = next ctx tx true w ∧
  (CoinsIsZero (GetFee feeTx) = true →
   DeductFeeHandle next ctx tx false w = next ctx tx false w) ∧
  (CoinsIsZero (GetFee feeTx) = false →
   ∀ w' r, DeductFeeHandle next ctx tx false w = (w', Ok r) →
   ∃ b', next ctx tx false (set_bank b' w) = (w', Ok r) ∧
     (∀ a d, GetBalance b' a d = GetBalance (w_bank w) a d
        - (if String.eqb a payer then coins_amount (GetFee feeTx) d else 0)
        + (if String.eqb a module then coins_amount (GetFee feeTx) d else 0)
        + flow coin_plan module a d (GetFee feeTx)) ∧
     (∀ d, GetSupply b' d = GetSupply (w_bank w) d) ∧
     Forall (λ c, c_amount c - 3 ≤ cost (coin_plan c) ≤ c_amount c) (GetFee feeTx)).
Proof using L Hs. apply deduct_run. Qed.
End Deduct.
End Spec.

(** ** Witnesses *)
#[local] Existing Instance Oracle.oracle_keeper.

Definition transfer_tx (memo : string) (amount gas : Z) : Tx :=
  mkTx [MsgSend] (Some memo) (Some (mkFeeTx
    (if amount =? 0 then [] else [mkCoin "ucsv" amount]) gas "alice" None)) None.
Definition ret_next : AnteHandler (E := ref_env) := λ c _ _, mret c.

(** The parameters of the shop with another fee mode. *)
Definition with_mode (mode : string) (p : Params) : Params :=
  mkParams (FeeTableUsd p) (Oracle p) (Guards p) (MinGas p) (TreasuryWallet p)
    (RetailWallet p) (TokenDevWallet p) (TokenCreatorWallet p) mode
    (SystemMsgTypeUrls p) (ExemptMsgTypeUrls p) (ExemptAddresses p).
Definition mode_world (mode : string) : World ref_env :=
  set_fees (Some (with_mode mode shop_params)) priced_world.

(** A native transfer of one dollar at 0.002 CSV costs 2000 ucsv: 2101 are refused in
    table mode and accepted in gas-only mode; a wizard transaction must carry nothing. *)
Theorem FeeAnteHandle_spec_witness :
  (∃ w', FeeAnteHandle ret_next ref_ctx (transfer_tx "" 2101 1000) false (mode_world "table")
    = (w', Err (ErrWrap ErrInsufficientFee "fee validation failed"))) ∧
  (∃ w' c, FeeAnteHandle ret_next ref_ctx (transfer_tx "" 2101 1000) false
    (mode_world "gas_only") = (w', Ok c)) ∧
  FeeAnteHandle ret_next ref_ctx (transfer_tx "wizard" 7 10) false (mode_world "hybrid")
    = (mode_world "hybrid", Err (ErrWrap ErrInsufficientFee "fee validation failed (hybrid)")).
Proof.
  pose proof (λ w, @FeeAnteHandle_spec _ ref_env_laws _ (@Oracle.oracle_keeper_laws _ ref_env_laws)
    ret_next ref_ctx (transfer_tx "" 2101 1000) w) as H.
  split_and!.
  - destruct (H (mode_world "table")) as (_ & _ & Hr).
    destruct (Hr (with_mode "table" shop_params) eq_refl) as [_ Hr'].
    destruct (Hr' (mkFeeTx [mkCoin "ucsv" 2101] 1000 "alice" None) eq_refl) as (_ & _ & Hq).
    destruct (Hq (100 * 10 ^ 16) (10 ^ 12) (10 ^ 18)) as (_ & _ & Ha & _);
      [vm_compute; discriminate|vm_compute; reflexivity|vm_compute; reflexivity|reflexivity
      |reflexivity|vm_compute; split; discriminate|vm_compute; split; [discriminate|reflexivity]
      |vm_compute; split; [discriminate|reflexivity]|reflexivity|vm_compute; reflexivity
      |apply coins_sorted_one|vm_compute; reflexivity|].
    eexists. apply Ha.
    + intros [Hm|[Hm _]]; discriminate Hm.
    + vm_compute. discriminate.
    + intros [Hz|[_ Hz]]; vm_compute in Hz; [discriminate Hz|by apply Hz].
  - destruct (H (mode_world "gas_only")) as (_ & _ & Hr).
    destruct (Hr (with_mode "gas_only" shop_params) eq_refl) as [_ Hr'].
    destruct (Hr' (mkFeeTx [mkCoin "ucsv" 2101] 1000 "alice" None) eq_refl) as (_ & _ & Hq).
    destruct (Hq (100 * 10 ^ 16) (10 ^ 12) (10 ^ 18)) as (Ha & _);
      [vm_compute; discriminate|vm_compute; reflexivity|vm_compute; reflexivity|reflexivity
      |reflexivity|vm_compute; split; discriminate|vm_compute; split; [discriminate|reflexivity]
      |vm_compute; split; [discriminate|reflexivity]|reflexivity|vm_compute; reflexivity
      |apply coins_sorted_one|vm_compute; reflexivity|].
    eexists _, _. rewrite Ha by (by left). reflexivity.
  - destruct (@FeeAnteHandle_spec _ ref_env_laws _ (@Oracle.oracle_keeper_laws _ ref_env_laws)
      ret_next ref_ctx (transfer_tx "wizard" 7 10) (mode_world "hybrid")) as (_ & _ & Hr).
    destruct (Hr (with_mode "hybrid" shop_params) eq_refl) as [_ Hr'].
    destruct (Hr' (mkFeeTx [mkCoin "ucsv" 7] 10 "alice" None) eq_refl) as (_ & Hq & _).
    destruct (Hq (MaxGasWizard ref_guards)) as (_ & _ & Ha); [vm_compute; reflexivity|].
    apply Ha; [vm_compute; discriminate|].
    intros [[Hm|[_ Hm]]|Hm]; [discriminate Hm|vm_compute in Hm; discriminate Hm|].
    inversion Hm as [|? ? Hx]. discriminate Hx.
Defined.

(** Alice's world, her account created. *)
Definition member_world : World ref_env :=
  set_bank (E := ref_env) (let b := w_bank alice_world in
    mkLedger (l_bal b) (l_supply b) {[ "alice" := tt ]}) alice_world.

Theorem DeductFeeHandle_spec_witness :
  ∃ b', DeductFeeHandle ret_next ref_ctx (transfer_tx "" 100 1000) false
      member_world
    = (set_bank (E := ref_env) b' member_world, Ok ref_ctx) ∧
    l_get b' "alice" "ucsv" = 900 ∧ l_get b' "module/treasury" "ucsv" = 100.
Proof.
  destruct (@DeductFeeHandle_spec _ ref_env_laws ref_ctx shop_params) with
    (next := ret_next) (tx := transfer_tx "" 100 1000)
    (feeTx := mkFeeTx [mkCoin "ucsv" 100] 1000 "alice" None)
    (w := member_world) as (_ & _ & H).
  - do 4 eexists. split; [reflexivity|]. repeat split; discriminate.
  - reflexivity.
  - reflexivity.
  - constructor; [|constructor]. split; [split; [discriminate|reflexivity]|reflexivity].
  - specialize (H eq_refl).
    pose proof (run_pair (DeductFeeHandle ret_next ref_ctx (transfer_tx "" 100 1000) false)
      member_world (Ok ref_ctx)
      ltac:(vm_compute; reflexivity)) as Hr.
    destruct (H _ ref_ctx Hr) as (b' & Hn & Hd & _).
    exists b'. split.
    + rewrite Hr. symmetry. exact Hn.
    + pose proof (Hd "alice" "ucsv") as H1. pose proof (Hd "module/treasury" "ucsv") as H2.
      clear H Hn Hd. vm_compute in H1, H2. vm_compute. split; assumption.
Defined.
