(* ===== verification/TokenKeeper.v ===== *)
(** * x/token/keeper: creating, minting and burning tokens

    [src/x/token/keeper]: [keeper.go], [msg_server_create_token.go],
    [msg_server_mint.go], [msg_server_burn.go], [msg_update_params.go], [fees.go],
    [genesis.go], [query_params.go].  Metadata is stored as the JSON of
    [JsonCodec TokenMetadata]. *)

From Stdlib Require Import Strings.Ascii Strings.String.
From stdpp Require Import strings.
From S2P Require Import Prelude GoLib Sdk RefEnv World RefWorld Interfaces TokenTypes.
From S2P Require FeesTypes FeesKeeper.

Local Open Scope Z_scope.

(** [ErrInsufficientFunds] of [keeper/fees.go] *)
Definition ErrInsufficientFunds : error := ErrReg "token" 2002.
Definition InfrastructureModuleAccount : string := "infrastructure".
Definition TreasuryModuleAccount : string := "treasury".

(** Keys of the raw store. *)
Definition metadataKey (tokenID : string) : string := "tm_" +:+ tokenID.
Definition symbolKey (lowerSymbol : string) : string := "si_" +:+ lowerSymbol.
Definition creatorKey (creator tokenID : string) : string := "ci_" +:+ creator +:+ tokenID.
Definition countKey (creator : string) : string := "cc_" +:+ creator.
Definition sequenceKey : string := "ts".

Section Keeper.
Context {E : Env} {FK : FeesKeeper E} {JC : JsonCodec TokenMetadata} (k_authority : Slice).
Implicit Types ctx : Ctx.

(** ** The store *)
Definition kv_get (key : string) : stM (World E) (option string) := λ w,
  match kv_get_err key with
  | Some e => (w, Err e)
  | None => (w, Ok (t_kv (w_token w) !! key))
  end.
Definition kv_set (key value : string) : stM (World E) unit := λ w,
  match kv_set_err key with
  | Some e => (w, Err e)
  | None =>
      (set_token (mkTokenStore (t_params (w_token w)) (<[key := value]> (t_kv (w_token w)))) w,
       Ok tt)
  end.

Definition params_get : stM (World E) Params := coll_get "p_token" (λ w, t_params (w_token w)).
Definition params_set (p : Params) : stM (World E) unit :=
  coll_set "p_token" (λ w,
    set_token (mkTokenStore (Some (wire_params p)) (t_kv (w_token w))) w).

(** A stored counter that was read without error and has eight bytes. *)
Definition counter (r : option string + error) : option Z :=
  match r with
  | inl (Some bz) =>
      if (String.length bz =? 8)%nat then Some (BigEndianToUint64 bz) else None
  | _ => None
  end.

(** ** [keeper.go] *)
Definition GetTokenMetadata (tokenID : string) : stM (World E) TokenMetadata :=
  bz ← kv_get (metadataKey tokenID);
  match bz with
  | None => throw ErrTokenNotFound
  | Some bz => lift (json_Unmarshal bz)
  end.

Definition GetTokenCreator (tokenID : string) : stM (World E) Slice :=
  meta ← GetTokenMetadata tokenID; mret (Creator meta).

Definition GetTokenCreatorBySymbol (symbol : string) : stM (World E) Slice :=
  tokenID ← kv_get (symbolKey (ToLower symbol));
  match tokenID with
  | None => throw ErrTokenNotFound
  | Some tokenID => meta ← GetTokenMetadata tokenID; mret (Creator meta)
  end.

(** ** [msg_server_create_token.go] *)
Definition validateSymbolUniqueness (symbol : string) : stM (World E) unit :=
  let lowerSymbol := ToLower symbol in
  has ← kv_get (symbolKey lowerSymbol);
  match has with
  | Some _ => throw ErrSymbolAlreadyExists
  | None => mret tt
  end.

Definition validateCreatorLimits (creator : Slice) (maxTokens : Z) : stM (World E) unit :=
  r ← attempt (kv_get (countKey (bytes_of creator)));
  let currentCount := default 0 (counter r) in
  if maxTokens <=? currentCount then throw ErrMaxTokensPerCreatorExceeded else mret tt.

Definition getNextTokenSequence : stM (World E) Z :=
  r ← attempt (kv_get sequenceKey);
  let sequence := match counter r with Some n => u64 (n + 1) | None => 1 end in
  kv_set sequenceKey (Uint64ToBigEndian sequence);;
  mret sequence.

(** [fmt.Sprintf("token_%03d", sequence)] *)
Definition token_id (sequence : Z) : string := "token_" +:+ fmt_03d sequence.

Definition generateTokenID : stM (World E) string :=
  sequence ← getNextTokenSequence; mret (token_id sequence).

Definition storeTokenMetadata (tokenID lowerSymbol : string) (creator : Slice)
    (metadata : TokenMetadata) : stM (World E) unit :=
  metadataBytes ← lift (json_Marshal metadata);
  kv_set (metadataKey tokenID) metadataBytes;;
  kv_set (symbolKey lowerSymbol) tokenID;;
  kv_set (creatorKey (bytes_of creator) tokenID) tokenID;;
  r ← attempt (kv_get (countKey (bytes_of creator)));
  let count := match counter r with Some n => u64 (n + 1) | None => 1 end in
  kv_set (countKey (bytes_of creator)) (Uint64ToBigEndian count).

(** [sdk.NewCoins(coin)] is evaluated for each of the two bank calls. *)
Definition mintInitialSupply (creator : Slice) (amount : Z) (symbol : string)
    : stM (World E) unit :=
  let denom := "u" +:+ ToLower symbol in
  coin ← lift (NewCoin denom amount);
  cs ← lift (NewCoins [coin]);
  on_bank (MintCoins ModuleName cs);;
  cs ← lift (NewCoins [coin]);
  on_bank (SendCoinsFromModuleToAccount ModuleName (bytes_of creator) cs).

Definition reserved_symbol (params : Params) (lowerSymbol : string) : bool :=
  existsb (λ reserved, String.eqb lowerSymbol (ToLower reserved))
    (default [] (ReservedSymbols params)).

Definition new_metadata ctx (msg : MsgCreateToken) (tokenID : string) (creator : Slice)
    : TokenMetadata := {|
  TokenID := tokenID;
  Name := ct_Name msg;
  Symbol := ct_Symbol msg;
  Decimals := ct_Decimals msg;
  MaxSupply := ct_MaxSupply msg;
  CurrentSupply := ct_InitialSupply msg;
  Mintable := ct_Mintable msg;
  Creator := creator;
  POSCompatible := ct_PosCompatible msg;
  IconURI := ct_IconUri msg;
  Description := ct_Description msg;
  CreatedAt := BlockTime ctx
|}.

Definition CreateToken ctx (msg : MsgCreateToken) : stM (World E) unit :=
  lift (ValidateBasic msg);;
  match StringToBytes (ct_Creator msg) with
  | (_, Some err) => throw (ErrWrap err "invalid creator address")
  | (creator, None) =>
  params ← wrap_err params_get "failed to get module params";
  let lowerSymbol := ToLower (ct_Symbol msg) in
  if reserved_symbol params lowerSymbol then throw ErrReservedSymbol else
  validateSymbolUniqueness lowerSymbol;;
  validateCreatorLimits creator (MaxTokensPerCreator params);;
  tokenID ← wrap_err generateTokenID "failed to generate token ID";
  let metadata := new_metadata ctx msg tokenID creator in
  wrap_err (storeTokenMetadata tokenID lowerSymbol creator metadata)
    "failed to store token metadata";;
  (if 0 <? ct_InitialSupply msg then
     wrap_err (mintInitialSupply creator (ct_InitialSupply msg) (ct_Symbol msg))
       "failed to mint initial supply"
   else mret tt);;
  EmitEvent "token_created" [
    ("token_id", AStr tokenID);
    ("creator", AStr (ct_Creator msg));
    ("symbol", AStr (ct_Symbol msg));
    ("initial_supply", AInt (ct_InitialSupply msg))]
  end.

(** ** [msg_server_mint.go], [msg_server_burn.go] *)
Definition Mint ctx (msg : MsgMint) : stM (World E) unit :=
  match StringToBytes (mint_Creator msg) with
  | (_, Some err) => throw (ErrWrap err "invalid authority address")
  | (_, None) =>
  match AccAddressFromBech32 (mint_To msg) with
  | (_, Some err) => throw err
  | (addr, None) =>
  tokenMeta ← wrap_err (GetTokenMetadata (mint_TokenId msg)) "failed to get token metadata";
  if negb (Mintable tokenMeta)
  then throw (ErrWrap ErrUnauthorizedMinter "token is not mintable") else
  let denom := "u" +:+ ToLower (Symbol tokenMeta) in
  coin ← lift (NewCoin denom (mint_Amount msg));
  cs ← lift (NewCoins [coin]);
  on_bank (MintCoins ModuleName cs);;
  cs ← lift (NewCoins [coin]);
  on_bank (SendCoinsFromModuleToAccount ModuleName (bytes_of addr) cs)
  end
  end.

Definition Burn ctx (msg : MsgBurn) : stM (World E) unit :=
  match AccAddressFromBech32 (burn_Creator msg) with
  | (_, Some err) => throw (ErrWrap err "invalid sender address")
  | (from, None) =>
  tokenMeta ← wrap_err (GetTokenMetadata (burn_TokenId msg)) "failed to get token metadata";
  let denom := "u" +:+ ToLower (Symbol tokenMeta) in
  coin ← lift (NewCoin denom (burn_Amount msg));
  cs ← lift (NewCoins [coin]);
  on_bank (SendCoinsFromAccountToModule (bytes_of from) ModuleName cs);;
  cs ← lift (NewCoins [coin]);
  on_bank (BurnCoins ModuleName cs)
  end.

(** ** [msg_update_params.go], [genesis.go], [query_params.go] *)

(** Zero parameters are a no-op. *)
Definition UpdateParams ctx (authority : string) (params : Params) : stM (World E) unit :=
  check_authority k_authority ErrInvalidSigner authority;;
  if bool_decide (params = zero_params) then mret tt
  else
    lift (Validate params);;
    params_set params.

Definition InitGenesis ctx (params : Params) : stM (World E) unit := params_set params.
Definition ExportGenesis ctx : stM (World E) Params := params_get.
Definition QueryParams (req : option unit) : stM (World E) Params :=
  query_params params_get zero_params req.

(** ** [fees.go] *)

(** [sdk.NewCoin("ucsv", feeCSV.MulInt64(1_000_000).TruncateInt())] *)
Definition fee_coin (feeCSV : Dec) : res Coin :=
  amount ← FeesKeeper.to_ucsv feeCSV; NewCoin "ucsv" amount.

(** [balance.AmountOf("ucsv").LT(feeCoin.Amount)] is an error. *)
Definition check_balance (sender : string) (feeCoin : Coin) : stM (World E) unit :=
  balance ← gets (λ w, SpendableCoins (w_bank w) sender);
  available ← lift (AmountOf balance "ucsv");
  if available <? c_amount feeCoin
  then throw (ErrWrap ErrInsufficientFunds "insufficient funds") else mret tt.

Definition ChargeAndSplitFee ctx (sender : string) (usdAmount : Dec) : stM (World E) unit :=
  '(feeCSV, _) ← wrap_err (ConvertUSDToCSV ctx usdAmount) "failed to convert USD to CSV";
  feeCoin ← lift (fee_coin feeCSV);
  check_balance sender feeCoin;;
  split ← lift (IntQuo (c_amount feeCoin) 2);
  toTreasury ← lift (NewCoin "ucsv" split);
  rest ← lift (IntSub (c_amount feeCoin) split);
  toInfra ← lift (NewCoin "ucsv" rest);
  cs ← lift (NewCoins [toTreasury]);
  wrap_err (on_bank (SendCoinsFromAccountToModule sender TreasuryModuleAccount cs))
    "failed to send fee to treasury";;
  cs ← lift (NewCoins [toInfra]);
  wrap_err (on_bank (SendCoinsFromAccountToModule sender InfrastructureModuleAccount cs))
    "failed to send fee to infrastructure".

Definition GetFeeInucsv ctx (usdAmount : Dec) : stM (World E) Coin :=
  '(feeCSV, _) ← wrap_err (ConvertUSDToCSV ctx usdAmount) "failed to convert USD to CSV";
  lift (fee_coin feeCSV).

Definition ChargeAndDistributeFeeByType ctx (sender feeType : string)
    (metadata : gmap string string) : stM (World E) unit :=
  feeUSD ← GetFeeByType ctx feeType;
  zero ← lift (DecIsZero feeUSD);
  if zero : bool then mret tt else
  '(feeCSV, _) ← wrap_err (ConvertUSDToCSV ctx feeUSD) "failed to convert USD to CSV";
  feeCoin ← lift (fee_coin feeCSV);
  check_balance sender feeCoin;;
  DistributeFee ctx sender feeType feeCoin metadata.
End Keeper.
