(* ===== verification/TokenSpec.v ===== *)
(** * What x/token promises: a registry of tokens

    The raw key-value store refines a list of tokens in the order of their creation
    ([store_rel]); [CreateToken] appends to it or leaves it alone, [Mint] and [Burn]
    do not touch it. *)

From Stdlib Require Import Strings.Ascii Strings.String.
From stdpp Require Import strings.
From S2P Require Import Prelude GoLib Sdk RefEnv World RefWorld Interfaces TokenTypes.
From S2P Require Import TokenKeeper.
From S2P Require FeesCharge.

Local Open Scope Z_scope.

(** ** Token identifiers *)

Lemma no_char_zeros n : no_char "_"%char (zeros n) = true.
Proof. by induction n. Qed.

Lemma ascii_uint d : is_ascii (DecimalString.NilEmpty.string_of_uint d) = true.
Proof. by induction d. Qed.

Lemma token_id_utf8 n : 0 ≤ n → utf8_valid (token_id n) = true.
Proof.
  intros Hn. apply ascii_utf8_valid. unfold token_id, fmt_03d. rewrite !is_ascii_app.
  destruct (fmt_d_nonneg n Hn) as (d & -> & _ & _). rewrite ascii_uint, andb_true_r. simpl.
  by induction (3 - _)%nat.
Qed.

Lemma no_char_03d n : 0 ≤ n → no_char "_"%char (fmt_03d n) = true.
Proof.
  intros Hn. unfold fmt_03d. rewrite no_char_app, no_char_zeros. simpl.
  destruct (fmt_d_nonneg n Hn) as (d & -> & _ & _). by apply no_char_uint.
Qed.

Lemma token_id_suffix a b i j :
  0 ≤ i → 0 ≤ j → a +:+ token_id i = b +:+ token_id j → a = b ∧ i = j.
Proof.
  intros Hi Hj H. unfold token_id in H.
  change "token_" with ("token" +:+ "_") in H. rewrite !str_app_assoc in H.
  rewrite <- (str_app_assoc a), <- (str_app_assoc b) in H.
  change ("_" +:+ fmt_03d i) with (String "_" (fmt_03d i)) in H.
  change ("_" +:+ fmt_03d j) with (String "_" (fmt_03d j)) in H.
  apply last_sep_inv in H as [Ha Hf]; [|by apply no_char_03d..].
  apply fmt_03d_inj in Hf as ->; [|done..]. split; [|done].
  clear Hi. revert b Ha. induction a as [|x a IH]; intros [|y b] Hb.
  - done.
  - exfalso. apply (f_equal String.length) in Hb. rewrite str_app_cons in Hb. simpl in Hb.
    rewrite str_length_app in Hb. simpl in Hb. lia.
  - exfalso. apply (f_equal String.length) in Hb. rewrite str_app_cons in Hb. simpl in Hb.
    rewrite str_length_app in Hb. simpl in Hb. lia.
  - rewrite !str_app_cons in Hb. injection Hb as -> Hb. by rewrite (IH b Hb).
Qed.

Lemma token_id_inj i j : 0 ≤ i → 0 ≤ j → token_id i = token_id j → i = j.
Proof.
  intros Hi Hj H. by apply (token_id_suffix "" "" i j) in H as [_ ->].
Qed.

(** ** The registry *)

(** Keys of different kinds differ in their first bytes. *)
Ltac key_ne := unfold countKey, creatorKey, symbolKey, metadataKey, sequenceKey; discriminate.
Ltac skip_keys := repeat (rewrite lookup_insert_ne by key_ne).

Section Registry.
Context {E : Env}.

Definition by_id (l : list TokenMetadata) (id : string) : option TokenMetadata :=
  List.find (λ m, String.eqb (TokenID m) id) l.
Definition by_symbol (l : list TokenMetadata) (s : string) : option TokenMetadata :=
  List.find (λ m, String.eqb (ToLower (Symbol m)) s) l.
Definition by_creator (l : list TokenMetadata) (k : string) : option TokenMetadata :=
  List.find (λ m, String.eqb (bytes_of (Creator m) +:+ TokenID m) k) l.
Definition made_by (b : string) (l : list TokenMetadata) : list TokenMetadata :=
  List.filter (λ m, String.eqb (bytes_of (Creator m)) b) l.
Definition count_of (l : list TokenMetadata) (b : string) : Z := Z.of_nat (length (made_by b l)).

(** The store holds the registry [l]. *)
Record store_rel `{JsonCodec TokenMetadata} (l : list TokenMetadata)
    (kv : gmap string string) : Prop := {
  rel_seq : kv !! sequenceKey =
    if bool_decide (l = []) then None else Some (Uint64ToBigEndian (Z.of_nat (length l)));
  rel_meta id : kv !! metadataKey id =
    m ← by_id l id; match json_Marshal m with Ok s => Some s | _ => None end;
  rel_symbol s : kv !! symbolKey s = TokenID <$> by_symbol l s;
  rel_creator k : kv !! ("ci_" +:+ k) = TokenID <$> by_creator l k;
  rel_count b : kv !! countKey b =
    if count_of l b =? 0 then None else Some (Uint64ToBigEndian (count_of l b));
  rel_ids i m : l !! i = Some m → TokenID m = token_id (Z.of_nat (S i));
  rel_enc : Forall (λ m, metadata_encodable m = true) l;
  rel_symbols : NoDup (map (λ m, ToLower (Symbol m)) l);
  rel_len : Z.of_nat (length l) < 2 ^ 64
}.

Lemma find_app {A} (f : A → bool) l l' :
  List.find f (l ++ l') = match List.find f l with Some x => Some x | None => List.find f l' end.
Proof. induction l as [|x l IH]; simpl; [done|]. by destruct (f x). Qed.

Lemma find_elem {A} (f : A → bool) l x :
  List.find f l = Some x → x ∈ l ∧ f x = true.
Proof. rewrite list_elem_of_In. apply find_some. Qed.

Lemma find_none_iff {A} (f : A → bool) l :
  List.find f l = None ↔ ∀ x, x ∈ l → f x = false.
Proof.
  split.
  - intros H x Hx. eapply find_none; [exact H|]. by apply list_elem_of_In.
  - intros H. destruct (List.find f l) eqn:Hf; [|done].
    apply find_elem in Hf as [Hin Hx]. by rewrite H in Hx.
Qed.

Lemma count_of_app l m b :
  count_of (l ++ [m]) b = count_of l b + if String.eqb (bytes_of (Creator m)) b then 1 else 0.
Proof.
  unfold count_of, made_by. rewrite List.filter_app, length_app. simpl.
  destruct (String.eqb _ b); simpl; lia.
Qed.

Lemma count_of_range l b : 0 ≤ count_of l b ≤ Z.of_nat (length l).
Proof. unfold count_of, made_by. pose proof (filter_length_le (λ m, String.eqb (bytes_of (Creator m)) b) l). lia. Qed.

Section Rel.
Context {L : EnvLaws E} {JC : JsonCodec TokenMetadata}.
Context {JL : JsonLaws TokenMetadata metadata_encodable}.
Variables (l : list TokenMetadata) (kv : gmap string string).
Hypothesis HR : store_rel l kv.

(** The identifier of the next token is fresh, alone and after any creator. *)
Lemma rel_ids_elem m : m ∈ l → ∃ i, TokenID m = token_id (Z.of_nat (S i)) ∧ (i < length l)%nat.
Proof using HR.
  intros (i & Hi)%list_elem_of_lookup. exists i. split; [by apply (rel_ids _ _ HR)|].
  by apply lookup_lt_Some in Hi.
Qed.

Lemma next_id_fresh a b m :
  m ∈ l → a +:+ TokenID m ≠ b +:+ token_id (Z.of_nat (S (length l))).
Proof using HR.
  intros (i & -> & Hi)%rel_ids_elem H. apply token_id_suffix in H as [_ H]; lia.
Qed.

(** The counters, as [CreateToken] reads them. *)
Lemma counter_BE n : is_u64 n → counter (inl (Some (Uint64ToBigEndian n))) = Some n.
Proof using L.
  intros Hn. unfold counter. by rewrite BigEndian_length, BigEndian_roundtrip.
Qed.

Lemma rel_count_read b :
  default 0 (counter (inl (kv !! countKey b))) = count_of l b ∧
  match counter (inl (kv !! countKey b)) with Some n => u64 (n + 1) | None => 1 end
    = u64 (count_of l b + 1).
Proof using L HR.
  pose proof (count_of_range l b). pose proof (rel_len _ _ HR).
  rewrite (rel_count _ _ HR). destruct (Z.eqb_spec (count_of l b) 0) as [->|]; [done|].
  rewrite counter_BE by (unfold is_u64; lia). done.
Qed.

Lemma rel_seq_read :
  match counter (inl (kv !! sequenceKey)) with Some n => u64 (n + 1) | None => 1 end
    = u64 (Z.of_nat (S (length l))).
Proof using L HR.
  pose proof (rel_len _ _ HR). rewrite (rel_seq _ _ HR).
  case_bool_decide as Hl; [by rewrite Hl|].
  rewrite counter_BE by (unfold is_u64; lia). f_equal. lia.
Qed.

(** The store after [CreateToken] of [m]. *)
Definition appended (m : TokenMetadata) (js : string) : gmap string string :=
  let b := bytes_of (Creator m) in
  let id := TokenID m in
  <[countKey b := Uint64ToBigEndian (u64 (count_of l b + 1))]>
  (<[creatorKey b id := id]>
  (<[symbolKey (ToLower (Symbol m)) := id]>
  (<[metadataKey id := js]>
  (<[sequenceKey := Uint64ToBigEndian (u64 (Z.of_nat (S (length l))))]> kv)))).

Lemma string_eqb_false (a b : string) : a ≠ b → String.eqb a b = false.
Proof. intros H. by apply String.eqb_neq. Qed.

Lemma append_rel m js :
  TokenID m = token_id (Z.of_nat (S (length l))) → metadata_encodable m = true →
  json_Marshal m = Ok js → by_symbol l (ToLower (Symbol m)) = None →
  Z.of_nat (S (length l)) < 2 ^ 64 →
  store_rel (l ++ [m]) (appended m js).
Proof using HR.
  intros Hid Henc Hjs Hsym Hlen. pose proof (count_of_range l) as Hcount.
  assert (Hsmall : ∀ n, 0 ≤ n ≤ Z.of_nat (S (length l)) → u64 n = n).
  { intros n Hn. apply u64_id. unfold is_u64. lia. }
  assert (Hfresh : ∀ x, x ∈ l → TokenID x ≠ TokenID m).
  { intros x Hx H. rewrite Hid in H. by apply (next_id_fresh "" "" x Hx). }
  assert (Hcf : ∀ x, x ∈ l →
    bytes_of (Creator x) +:+ TokenID x ≠ bytes_of (Creator m) +:+ TokenID m).
  { intros x Hx. rewrite Hid. by apply next_id_fresh. }
  constructor; unfold appended.
  - skip_keys. rewrite lookup_insert_eq. rewrite bool_decide_false by (by destruct l).
    rewrite length_app. simpl. rewrite Hsmall by lia. repeat f_equal. lia.
  - intros id. skip_keys. unfold by_id. rewrite find_app. fold (by_id l id). simpl.
    destruct (String.eqb_spec (TokenID m) id) as [<-|Hne].
    + rewrite lookup_insert_eq.
      assert (by_id l (TokenID m) = None) as ->.
      { apply find_none_iff. intros x Hx. apply string_eqb_false. by apply Hfresh. }
      simpl. by rewrite Hjs.
    + rewrite lookup_insert_ne by (intros ?%str_app_inv_head; done).
      skip_keys. rewrite (rel_meta _ _ HR). by destruct (by_id l id).
  - intros s. skip_keys. unfold by_symbol. rewrite find_app. fold (by_symbol l s). simpl.
    destruct (String.eqb_spec (ToLower (Symbol m)) s) as [<-|Hne].
    + rewrite lookup_insert_eq. by rewrite Hsym.
    + rewrite lookup_insert_ne by (intros ?%str_app_inv_head; done).
      skip_keys. rewrite (rel_symbol _ _ HR). by destruct (by_symbol l s).
  - intros k. rewrite lookup_insert_ne by key_ne. unfold by_creator. rewrite find_app.
    fold (by_creator l k). simpl. unfold creatorKey.
    destruct (String.eqb_spec (bytes_of (Creator m) +:+ TokenID m) k) as [<-|Hne].
    + rewrite lookup_insert_eq.
      assert (by_creator l (bytes_of (Creator m) +:+ TokenID m) = None) as ->; [|done].
      apply find_none_iff. intros x Hx. apply string_eqb_false. by apply Hcf.
    + rewrite lookup_insert_ne by (intros ?%str_app_inv_head; done).
      skip_keys. rewrite (rel_creator _ _ HR). by destruct (by_creator l k).
  - intros b. rewrite count_of_app. specialize (Hcount b).
    destruct (String.eqb_spec (bytes_of (Creator m)) b) as [<-|Hne].
    + rewrite lookup_insert_eq, Hsmall by lia.
      by rewrite (proj2 (Z.eqb_neq (count_of l (bytes_of (Creator m)) + 1) 0)) by lia.
    + rewrite lookup_insert_ne by (intros ?%str_app_inv_head; done).
      skip_keys. rewrite Z.add_0_r. apply (rel_count _ _ HR).
  - intros i x [Hi|[Hi Hx]]%lookup_app_Some; [by apply (rel_ids _ _ HR)|].
    apply list_lookup_singleton_Some in Hx as [Hi0 <-].
    rewrite Hid. do 2 f_equal. lia.
  - apply Forall_app. split; [apply (rel_enc _ _ HR)|]. by repeat constructor.
  - rewrite map_app. simpl. apply NoDup_app. split_and!; [apply (rel_symbols _ _ HR)| |].
    + intros s Hs ->%list_elem_of_singleton. apply list_elem_of_In, in_map_iff in Hs
        as (x & Hx & Hin). apply list_elem_of_In in Hin.
      pose proof (proj1 (find_none_iff _ _) Hsym x Hin) as Hn. simpl in Hn.
      by rewrite Hx, String.eqb_refl in Hn.
    + repeat constructor. by intros ?%elem_of_nil.
  - rewrite length_app. simpl. lia.
Qed.
End Rel.

(** ** The bank's part *)
Section Bank.
Context {L : EnvLaws E}.
Implicit Types w : World E.

(** [n] units of [d] appear on (or, below zero, vanish from) account [a]. *)
Definition credited (b b' : BankState) (a d : string) (n : Z) : Prop :=
  (∀ x y, GetBalance b' x y = GetBalance b x y +
     if String.eqb x a && String.eqb y d then n else 0) ∧
  (∀ y, GetSupply b' y = GetSupply b y + if String.eqb y d then n else 0).

Lemma NewCoins_amount d n cs :
  denom_syntax d = true → 0 ≤ n → NewCoins [mkCoin d n] = Ok cs →
  ∀ y, coins_amount cs y = if String.eqb y d then n else 0.
Proof using L.
  intros Hd Hn Hcs y. rewrite NewCoins_one in Hcs by (rewrite ?ValidateDenom_spec; done).
  injection Hcs as <-. rewrite (String.eqb_sym y d).
  destruct (Z.eqb_spec n 0) as [->|]; simpl; destruct (String.eqb d y); lia.
Qed.

Lemma NewCoin_inv d n c :
  NewCoin d n = Ok c → denom_syntax d = true ∧ 0 ≤ n ∧ c = mkCoin d n.
Proof using L.
  rewrite NewCoin_spec, ValidateDenom_spec. destruct (denom_syntax d); simpl; [|done].
  destruct (Z.leb_spec 0 n); [|done]. by intros [= <-].
Qed.

(** Minting to the module and sending on. *)
Definition mint_to (addr denom : string) (amount : Z) : stM (World E) unit :=
  coin ← lift (NewCoin denom amount);
  cs ← lift (NewCoins [coin]);
  on_bank (MintCoins ModuleName cs);;
  cs ← lift (NewCoins [coin]);
  on_bank (SendCoinsFromModuleToAccount ModuleName addr cs).

Lemma mint_to_inv addr denom amount w w' u :
  mint_to addr denom amount w = (w', Ok u) →
  denom_syntax denom = true ∧ 0 ≤ amount ∧
  ∃ b', w' = set_bank b' w ∧ credited (w_bank w) b' addr denom amount.
Proof using L.
  intros H. unfold mint_to in H. step_inv.
  match goal with H : NewCoin _ _ = Ok _ |- _ => apply NewCoin_inv in H as (Hd & Hn & ->) end.
  split; [done|]. split; [done|].
  repeat match goal with H : NewCoins _ = Ok _ |- _ =>
    pose proof (NewCoins_amount _ _ _ Hd Hn H); clear H end.
  repeat match goal with H : on_bank _ _ = _ |- _ =>
    apply on_bank_inv in H as (? & ? & ->) end.
  match goal with H : MintCoins _ _ _ = _ |- _ => apply MintCoins_ok in H as [Hm1 Hm2] end.
  match goal with H : SendCoinsFromModuleToAccount _ _ _ _ = _ |- _ =>
    apply SendCoinsFromModuleToAccount_ok in H as [Hs1 Hs2] end.
  simpl in *. eexists. split; [done|]. split.
  - intros ac dn. rewrite Hs1, Hm1. repeat match goal with H : ∀ y, coins_amount _ y = _ |- _ =>
      rewrite H end.
    destruct (String.eqb ac (NewModuleAddress ModuleName)), (String.eqb ac addr),
      (String.eqb dn denom); simpl; lia.
  - intros dn. rewrite Hs2, Hm2. by repeat match goal with H : ∀ y, coins_amount _ y = _ |- _ =>
      rewrite H end.
Qed.

(** Taking from an account and burning. *)
Definition burn_from (addr denom : string) (amount : Z) : stM (World E) unit :=
  coin ← lift (NewCoin denom amount);
  cs ← lift (NewCoins [coin]);
  on_bank (SendCoinsFromAccountToModule addr ModuleName cs);;
  cs ← lift (NewCoins [coin]);
  on_bank (BurnCoins ModuleName cs).

Lemma burn_from_inv addr denom amount w w' u :
  burn_from addr denom amount w = (w', Ok u) →
  denom_syntax denom = true ∧ 0 ≤ amount ∧
  ∃ b', w' = set_bank b' w ∧ credited (w_bank w) b' addr denom (- amount).
Proof using L.
  intros H. unfold burn_from in H. step_inv.
  match goal with H : NewCoin _ _ = Ok _ |- _ => apply NewCoin_inv in H as (Hd & Hn & ->) end.
  split; [done|]. split; [done|].
  repeat match goal with H : NewCoins _ = Ok _ |- _ =>
    pose proof (NewCoins_amount _ _ _ Hd Hn H); clear H end.
  repeat match goal with H : on_bank _ _ = _ |- _ =>
    apply on_bank_inv in H as (? & ? & ->) end.
  match goal with H : BurnCoins _ _ _ = _ |- _ => apply BurnCoins_ok in H as [Hm1 Hm2] end.
  match goal with H : SendCoinsFromAccountToModule _ _ _ _ = _ |- _ =>
    apply SendCoinsFromAccountToModule_ok in H as [Hs1 Hs2] end.
  simpl in *. eexists. split; [done|]. split.
  - intros ac dn. rewrite Hm1, Hs1. repeat match goal with H : ∀ y, coins_amount _ y = _ |- _ =>
      rewrite H end.
    destruct (String.eqb ac (NewModuleAddress ModuleName)), (String.eqb ac addr),
      (String.eqb dn denom); simpl; lia.
  - intros dn. rewrite Hm2, Hs2. repeat match goal with H : ∀ y, coins_amount _ y = _ |- _ =>
      rewrite H end. destruct (String.eqb dn denom); lia.
Qed.
End Bank.

(** ** CreateToken *)
Section Create.
Context {L : EnvLaws E} {JC : JsonCodec TokenMetadata}.
Context {JL : JsonLaws TokenMetadata metadata_encodable}.
Implicit Types w : World E.

Lemma kv_get_run key w : kv_get key w = (w, Ok (t_kv (w_token w) !! key)).
Proof using L. unfold kv_get. by rewrite kv_get_ok. Qed.

(** The world with another raw token store. *)
Definition with_kv (kv : gmap string string) w : World E :=
  set_token (mkTokenStore (t_params (w_token w)) kv) w.

Lemma kv_set_run key v w : kv_set key v w = (with_kv (<[key := v]> (t_kv (w_token w))) w, Ok tt).
Proof using L. unfold kv_set. by rewrite kv_set_ok. Qed.

Lemma kv_get_attempt key w :
  attempt (kv_get key) w = (w, Ok (inl (t_kv (w_token w) !! key))).
Proof using L. unfold attempt. by rewrite kv_get_run. Qed.

Variables (ctx : Ctx) (msg : MsgCreateToken) (creator : Slice) (params : Params).
Variables (l : list TokenMetadata) (w : World E).
Hypothesis HR : store_rel l (t_kv (w_token w)).
Hypothesis Hp : t_params (w_token w) = Some params.
Hypothesis Hvb : ValidateBasic msg = Ok tt.
Hypothesis Hi : is_u64 (ct_InitialSupply msg).
Hypothesis Hc : StringToBytes (ct_Creator msg) = (creator, None).
Let lower := ToLower (ct_Symbol msg).
Let id := token_id (Z.of_nat (S (length l))).
Let m := new_metadata ctx msg id creator.
Let denom := "u" +:+ lower.

Definition created_event : Event :=
  mkEvent "token_created" [
    ("token_id", AStr id); ("creator", AStr (ct_Creator msg));
    ("symbol", AStr (ct_Symbol msg)); ("initial_supply", AInt (ct_InitialSupply msg))].

(** The token is stored before anything is minted. *)
Lemma store_run js w1 :
  json_Marshal m = Ok js →
  t_kv (w_token w1) =
    <[sequenceKey := Uint64ToBigEndian (u64 (Z.of_nat (S (length l))))]> (t_kv (w_token w)) →
  storeTokenMetadata id lower creator m w1 =
  (with_kv (appended l (t_kv (w_token w)) m js) w1, Ok tt).
Proof using L HR.
  intros Hjs Hkv. unfold storeTokenMetadata.
  rewrite (bind_run (lift _) _ _ w1 js) by (unfold lift; by rewrite Hjs).
  rewrite (bind_run _ _ _ _ _ (kv_set_run _ _ _)). rewrite (bind_run _ _ _ _ _ (kv_set_run _ _ _)).
  rewrite (bind_run _ _ _ _ _ (kv_set_run _ _ _)).
  rewrite (bind_run _ _ _ _ _ (kv_get_attempt _ _)). rewrite kv_set_run. simpl t_kv.
  destruct (rel_count_read l _ HR (bytes_of creator)) as [_ Hn]. rewrite Hkv.
  repeat rewrite lookup_insert_ne by key_ne. rewrite Hn. done.
Qed.

(** What remains once the checks have passed. *)
Definition create_tail : stM (World E) unit :=
  (if 0 <? ct_InitialSupply msg then
     wrap_err (mintInitialSupply creator (ct_InitialSupply msg) (ct_Symbol msg))
       "failed to mint initial supply"
   else mret tt);;
  modify (λ w, set_events (w_events w ++ [created_event]) w).

Lemma CreateToken_run js :
  json_Marshal m = Ok js → Z.of_nat (S (length l)) < 2 ^ 64 →
  CreateToken ctx msg w =
  if reserved_symbol params lower then (w, Err ErrReservedSymbol)
  else match by_symbol l lower with
       | Some _ => (w, Err ErrSymbolAlreadyExists)
       | None =>
           if MaxTokensPerCreator params <=? count_of l (bytes_of creator)
           then (w, Err ErrMaxTokensPerCreatorExceeded)
           else create_tail (with_kv (appended l (t_kv (w_token w)) m js) w)
       end.
Proof using L HR Hp Hvb Hc.
  intros Hjs Hlen. unfold CreateToken.
  rewrite (bind_run (lift _) _ _ w tt) by (unfold lift; by rewrite Hvb). rewrite Hc.
  rewrite (bind_run _ _ w w params) by (unfold wrap_err, params_get; by rewrite coll_get_run, Hp).
  fold lower. destruct (reserved_symbol params lower); [done|].
  unfold validateSymbolUniqueness. rewrite bind_assoc.
  rewrite (bind_run _ _ _ _ _ (kv_get_run _ _)).
  assert (ToLower lower = lower) as -> by apply ToLower_idem.
  rewrite (rel_symbol _ _ HR). destruct (by_symbol l lower); simpl; [done|].
  rewrite (bind_run (mret tt) _ w w tt eq_refl).
  unfold validateCreatorLimits. rewrite bind_assoc.
  rewrite (bind_run _ _ _ _ _ (kv_get_attempt _ _)).
  destruct (rel_count_read l _ HR (bytes_of creator)) as [-> _].
  destruct (MaxTokensPerCreator params <=? _); [done|].
  rewrite (bind_run (mret tt) _ w w tt eq_refl).
  set (w1 := with_kv (<[sequenceKey :=
    Uint64ToBigEndian (u64 (Z.of_nat (S (length l))))]> (t_kv (w_token w))) w).
  assert (Hgen : wrap_err generateTokenID "failed to generate token ID" w = (w1, Ok id)).
  { unfold wrap_err, generateTokenID, getNextTokenSequence. rewrite bind_assoc.
    rewrite (bind_run _ _ _ _ _ (kv_get_attempt _ _)).
    rewrite (rel_seq_read l _ HR), bind_assoc.
    rewrite (bind_run _ _ _ _ _ (kv_set_run _ _ _)). unfold id.
    unfold w1. rewrite u64_id by (unfold is_u64; lia). done. }
  rewrite (bind_run _ _ _ _ _ Hgen). fold m.
  rewrite (bind_run _ _ _ (with_kv (appended l (t_kv (w_token w)) m js) w1) tt)
    by (unfold wrap_err; by rewrite (store_run js w1 Hjs eq_refl)).
  done.
Qed.

(** C8 (refinement). [CreateToken], against the abstract registry: a reserved symbol, one
    that is taken in any capitalisation, and a creator at the limit are each refused
    and nothing changes; a token that is created is appended to the registry under
    the next identifier, its initial supply credited to the creator and to the
    supply of its denomination, and nothing else changes on the ledger. *)
Theorem CreateToken_spec :
  metadata_encodable m = true → Z.of_nat (S (length l)) < 2 ^ 64 →
  (reserved_symbol params lower = true →
     CreateToken ctx msg w = (w, Err ErrReservedSymbol)) ∧
  (reserved_symbol params lower = false → is_Some (by_symbol l lower) →
     CreateToken ctx msg w = (w, Err ErrSymbolAlreadyExists)) ∧
  (reserved_symbol params lower = false → by_symbol l lower = None →
     MaxTokensPerCreator params ≤ count_of l (bytes_of creator) →
     CreateToken ctx msg w = (w, Err ErrMaxTokensPerCreatorExceeded)) ∧
  ∀ w' u, CreateToken ctx msg w = (w', Ok u) →
    store_rel (l ++ [m]) (t_kv (w_token w')) ∧
    count_of (l ++ [m]) (bytes_of creator) ≤ MaxTokensPerCreator params ∧
    ∃ b' kv', w' = set_events (w_events w ++ [created_event]) (set_bank b' (with_kv kv' w)) ∧
      credited (w_bank w) b' (bytes_of creator) denom (ct_InitialSupply msg).
Proof using L JL HR Hp Hvb Hc Hi.
  intros Henc Hlen. destruct (json_total m Henc) as (js & Hjs).
  rewrite (CreateToken_run js Hjs Hlen). split_and!.
  - by intros ->.
  - by intros -> [x ->].
  - intros -> -> Hmax. by rewrite (proj2 (Z.leb_le _ _) Hmax).
  - intros w' u H. destruct (reserved_symbol params lower); [done|].
    destruct (by_symbol l lower) eqn:Hs; [done|].
    destruct (Z.leb_spec (MaxTokensPerCreator params) (count_of l (bytes_of creator)))
      as [|Hmax]; [done|].
    pose proof (append_rel l _ HR m js eq_refl Henc Hjs Hs Hlen) as Hrel.
    set (kv' := appended l (t_kv (w_token w)) m js) in *. unfold create_tail in H.
    apply bind_ok_inv in H as (u1 & w1 & Hmint & H). apply modify_inv in H as ->.
    assert (∃ b', w1 = set_bank b' (with_kv kv' w) ∧
      credited (w_bank w) b' (bytes_of creator) denom (ct_InitialSupply msg)) as (b' & -> & Hb).
    { destruct (Z.ltb_spec 0 (ct_InitialSupply msg)) as [Hpos|Hneg].
      - apply wrap_err_ok_inv in Hmint. apply mint_to_inv in Hmint as (_ & _ & b' & -> & Hb).
        by exists b'.
      - injection Hmint as <- _. exists (w_bank w). split; [by destruct w|].
        replace (ct_InitialSupply msg) with 0 by (unfold is_u64 in Hi; lia).
        split; intros; repeat case_match; simpl; lia. }
    split; [done|]. split; [|by exists b', kv'].
    rewrite count_of_app. simpl. rewrite String.eqb_refl. lia.
Qed.

(** A symbol is only checked to be non-empty, taken or reserved. With one that
    is not the syntax of a denomination (a blank, a slash too many, over 126 bytes)
    the message passes every check and panics when the initial supply is minted. *)
Theorem CreateToken_bad_symbol :
  metadata_encodable m = true → Z.of_nat (S (length l)) < 2 ^ 64 →
  reserved_symbol params lower = false → by_symbol l lower = None →
  count_of l (bytes_of creator) < MaxTokensPerCreator params →
  denom_syntax denom = false → ct_InitialSupply msg ≠ 0 →
  ∃ w' why, CreateToken ctx msg w = (w', Panic why).
Proof using L JL HR Hp Hvb Hc Hi.
  intros Henc Hlen Hr Hs Hcount Hd Hne. destruct (json_total m Henc) as (js & Hjs).
  rewrite (CreateToken_run js Hjs Hlen), Hr, Hs.
  rewrite (proj2 (Z.leb_gt _ _) Hcount). unfold create_tail, mintInitialSupply.
  rewrite (proj2 (Z.ltb_lt 0 _)) by (unfold is_u64 in Hi; lia).
  fold lower denom. rewrite NewCoin_spec, ValidateDenom_spec, Hd. simpl. by eexists _, _.
Qed.
End Create.

(** ** Mint and Burn *)
Section MintBurn.
Context {L : EnvLaws E} {JC : JsonCodec TokenMetadata}.
Context {JL : JsonLaws TokenMetadata metadata_encodable}.
Implicit Types w : World E.

Lemma GetTokenMetadata_run l w id :
  store_rel l (t_kv (w_token w)) →
  GetTokenMetadata id w =
  (w, match by_id l id with Some m => Ok m | None => Err ErrTokenNotFound end).
Proof using L JL.
  intros HR. unfold GetTokenMetadata. rewrite (bind_run _ _ _ _ _ (kv_get_run _ w)).
  rewrite (rel_meta _ _ HR). destruct (by_id l id) as [m|] eqn:Hm; [|done]. simpl.
  apply find_elem in Hm as [Hm _]. pose proof (rel_enc _ _ HR) as Henc.
  eapply Forall_forall in Henc; [|exact Hm]. destruct (json_total m Henc) as (s & Hs).
  rewrite Hs. unfold lift. by rewrite (json_roundtrip m s).
Qed.

(** The denomination of a token. *)
Definition denom_of (m : TokenMetadata) : string := "u" +:+ ToLower (Symbol m).

Section Run.
Variables (ctx : Ctx) (l : list TokenMetadata) (w : World E).
Hypothesis HR : store_rel l (t_kv (w_token w)).

(** What the bank is asked for: coins appear on the module's account and move on. *)
Definition bank_mint (to denom : string) (amount : Z) : stM BankState unit :=
  let cs := if amount =? 0 then [] else [mkCoin denom amount] in
  MintCoins ModuleName cs;;
  SendCoinsFromModuleToAccount ModuleName to cs.

Lemma mint_to_run to denom amount :
  0 ≤ amount →
  if denom_syntax denom then mint_to to denom amount w = on_bank (bank_mint to denom amount) w
  else ∃ why, mint_to to denom amount w = (w, Panic why).
Proof using L.
  intros Ha. unfold mint_to, bank_mint. rewrite NewCoin_spec, ValidateDenom_spec.
  destruct (denom_syntax denom) eqn:Hd; [|simpl; by eexists].
  rewrite (proj2 (Z.leb_le 0 amount)) by done.
  unfold on_bank, zoom, mbind, stM_bind, lift. simpl.
  rewrite NewCoins_one by (rewrite ?ValidateDenom_spec; done). simpl.
  destruct (MintCoins _ _ _) as [b1 [?|?|?]]; [|done|done].
  simpl. destruct (SendCoinsFromModuleToAccount _ _ _ _) as [b2 [?|?|?]]; done.
Qed.

(** C32 (functional). Whoever signs, minting a mintable token is nothing but asking the
    bank to mint the amount of the message on the module's account and to send it to the
    recipient: the outcome, errors of the bank included, is the bank's, for every amount
    and whatever the token's maximum supply and recorded supply are. On success the
    recipient and the supply have grown by the amount and nothing else has changed. A
    symbol that makes no denomination panics; a token that is unknown or not mintable is
    refused. (The token store is a registry; both addresses of the message are
    well formed, its amount is an uint64.) *)
Theorem Mint_spec msg signer addr :
  StringToBytes (mint_Creator msg) = (signer, None) →
  AccAddressFromBech32 (mint_To msg) = (addr, None) →
  is_u64 (mint_Amount msg) →
  match by_id l (mint_TokenId msg) with
  | None => Mint ctx msg w =
      (w, Err (ErrWrap ErrTokenNotFound "failed to get token metadata"))
  | Some m =>
      if Mintable m then
        (if denom_syntax (denom_of m)
         then Mint ctx msg w =
           on_bank (bank_mint (bytes_of addr) (denom_of m) (mint_Amount msg)) w
         else ∃ why, Mint ctx msg w = (w, Panic why)) ∧
        (∀ other signer', StringToBytes other = (signer', None) →
           Mint ctx (mkMsgMint other (mint_To msg) (mint_Amount msg) (mint_TokenId msg)) w
           = Mint ctx msg w) ∧
        ∀ w' u, Mint ctx msg w = (w', Ok u) →
          ∃ b', w' = set_bank b' w ∧
            credited (w_bank w) b' (bytes_of addr) (denom_of m) (mint_Amount msg)
      else Mint ctx msg w =
        (w, Err (ErrWrap ErrUnauthorizedMinter "token is not mintable"))
  end.
Proof using L JL HR.
  intros Hs Ha Hu. assert (Hrun : ∀ o s', StringToBytes o = (s', None) →
    Mint ctx (mkMsgMint o (mint_To msg) (mint_Amount msg) (mint_TokenId msg)) w =
    match by_id l (mint_TokenId msg) with
    | None => (w, Err (ErrWrap ErrTokenNotFound "failed to get token metadata"))
    | Some m =>
        if Mintable m then mint_to (bytes_of addr) (denom_of m) (mint_Amount msg) w
        else (w, Err (ErrWrap ErrUnauthorizedMinter "token is not mintable"))
    end).
  { intros o s' Ho. unfold Mint. simpl. rewrite Ho, Ha. unfold wrap_err, mbind, stM_bind.
    rewrite (GetTokenMetadata_run l) by done.
    destruct (by_id l (mint_TokenId msg)) as [m|]; [|done]. by destruct (Mintable m). }
  destruct msg as [c to amount id]. simpl in *. rewrite (Hrun _ _ Hs).
  destruct (by_id l id) as [m|]; [|done].
  destruct (Mintable m); [|done]. split_and!.
  - exact (mint_to_run (bytes_of addr) (denom_of m) amount (proj1 Hu)).
  - intros o s' Ho. by rewrite (Hrun o s' Ho).
  - intros w' u H. by apply mint_to_inv in H as (_ & _ & H).
Qed.

(** Burning takes the amount from the signer's own account and from the
    supply, whatever recipient the message names, and leaves the registry as it
    was; an unknown token is refused. *)
Theorem Burn_spec msg from :
  AccAddressFromBech32 (burn_Creator msg) = (from, None) →
  match by_id l (burn_TokenId msg) with
  | None => Burn ctx msg w =
      (w, Err (ErrWrap ErrTokenNotFound "failed to get token metadata"))
  | Some m =>
      ∀ w' u, Burn ctx msg w = (w', Ok u) →
        ∃ b', w' = set_bank b' w ∧
          credited (w_bank w) b' (bytes_of from) (denom_of m) (- burn_Amount msg)
  end.
Proof using L JL HR.
  intros Ha. unfold Burn. rewrite Ha. unfold wrap_err, mbind, stM_bind.
  rewrite (GetTokenMetadata_run l) by done.
  destruct (by_id l (burn_TokenId msg)) as [m|]; [|done].
  intros w' u H. by apply burn_from_inv in H as (_ & _ & H).
Qed.
End Run.
End MintBurn.

(** ** Every reachable store is a registry *)
Section Reach.
Context {L : EnvLaws E} {JC : JsonCodec TokenMetadata}.
Context {JL : JsonLaws TokenMetadata metadata_encodable}.
Implicit Types w : World E.

(** A message the transaction decoder admits: unsigned numbers in range, text valid
    UTF-8, an address the two parsers agree on. *)
Definition well_formed (ctx : Ctx) (msg : MsgCreateToken) : Prop :=
  is_u64 (ct_InitialSupply msg) ∧
  ∀ n creator, 0 ≤ n → StringToBytes (ct_Creator msg) = (creator, None) →
    metadata_encodable (new_metadata ctx msg (token_id n) creator) = true.

(** The transactions of the chain as far as the token store goes: the messages of the
    module, when they succeed, and everything that leaves its store alone. *)
Inductive step (w w' : World E) : Prop :=
| step_create ctx msg u :
    well_formed ctx msg → CreateToken ctx msg w = (w', Ok u) → step w w'
| step_mint ctx msg u : Mint ctx msg w = (w', Ok u) → step w w'
| step_burn ctx msg u : Burn ctx msg w = (w', Ok u) → step w w'
| step_other : w_token w' = w_token w → step w w'.

(** The worlds reached in [n] transactions from an empty store with parameters [p]. *)
Inductive reached (p : Params) : nat → World E → Prop :=
| reached_init w : w_token w = mkTokenStore (Some p) ∅ → reached p 0 w
| reached_step n w w' : reached p n w → step w w' → reached p (S n) w'.

Definition registry_ok (p : Params) (l : list TokenMetadata) (w : World E) : Prop :=
  store_rel l (t_kv (w_token w)) ∧ t_params (w_token w) = Some p ∧
  (∀ b, count_of l b ≤ Z.max 0 (MaxTokensPerCreator p)) ∧
  Forall (λ m, reserved_symbol p (ToLower (Symbol m)) = false) l.

Lemma empty_rel : store_rel [] ∅.
Proof.
  constructor; try done; intros; try apply lookup_empty.
  constructor.
Qed.

(** What a successful message does: coins of a recorded token appear or vanish. *)
Lemma GetTokenMetadata_ok id w w1 m :
  GetTokenMetadata id w = (w1, Ok m) → w1 = w.
Proof using L.
  unfold GetTokenMetadata. rewrite (bind_run _ _ _ _ _ (kv_get_run _ w)).
  destruct (_ !! _); [|done]. by intros [-> _]%lift_ok_inv.
Qed.

Lemma Mint_effect ctx msg w w' u :
  Mint ctx msg w = (w', Ok u) →
  ∃ m addr b', GetTokenMetadata (mint_TokenId msg) w = (w, Ok m) ∧ w' = set_bank b' w ∧
    credited (w_bank w) b' addr (denom_of m) (mint_Amount msg).
Proof using L.
  unfold Mint. destruct (StringToBytes _) as [? [|]]; [done|].
  destruct (AccAddressFromBech32 _) as [addr [|]]; [done|]. intros H.
  apply bind_ok_inv in H as (m & w1 & H1%wrap_err_ok_inv & H).
  pose proof (GetTokenMetadata_ok _ _ _ _ H1) as ->. destruct (negb (Mintable m)); [done|].
  apply mint_to_inv in H as (_ & _ & b' & -> & Hc). eauto 6.
Qed.

Lemma Burn_effect ctx msg w w' u :
  Burn ctx msg w = (w', Ok u) →
  ∃ m addr b', GetTokenMetadata (burn_TokenId msg) w = (w, Ok m) ∧ w' = set_bank b' w ∧
    credited (w_bank w) b' addr (denom_of m) (- burn_Amount msg).
Proof using L.
  unfold Burn. destruct (AccAddressFromBech32 _) as [addr [|]]; [done|]. intros H.
  apply bind_ok_inv in H as (m & w1 & H1%wrap_err_ok_inv & H).
  pose proof (GetTokenMetadata_ok _ _ _ _ H1) as ->.
  apply burn_from_inv in H as (_ & _ & b' & -> & Hc). eauto 6.
Qed.

(** What a successful [CreateToken] does to the registry. *)
Lemma CreateToken_effect ctx msg p l w w' u :
  store_rel l (t_kv (w_token w)) → t_params (w_token w) = Some p → well_formed ctx msg →
  Z.of_nat (S (length l)) < 2 ^ 64 → CreateToken ctx msg w = (w', Ok u) →
  ∃ m kv b evs, w' = set_events evs (set_bank b (with_kv kv w)) ∧ store_rel (l ++ [m]) kv ∧
    count_of l (bytes_of (Creator m)) < MaxTokensPerCreator p ∧
    reserved_symbol p (ToLower (Symbol m)) = false ∧
    (∀ d, d ≠ denom_of m → GetSupply b d = GetSupply (w_bank w) d).
Proof using L JL.
  intros HR Hp [Hi Hwf] Hlen H.
  assert (Hvb : ValidateBasic msg = Ok tt).
  { unfold CreateToken in H. apply bind_ok_inv in H as ([] & w1 & H1 & _).
    by apply lift_ok_inv in H1 as [_ H1]. }
  destruct (StringToBytes (ct_Creator msg)) as [creator [e|]] eqn:Hc.
  { unfold CreateToken in H. rewrite Hc in H.
    apply bind_ok_inv in H as (? & w1 & _ & H). done. }
  set (m := new_metadata ctx msg (token_id (Z.of_nat (S (length l)))) creator).
  assert (Henc : metadata_encodable m = true) by (apply Hwf; [lia|done]).
  destruct (json_total m Henc) as (js & Hjs).
  rewrite (CreateToken_run ctx msg creator p l w HR Hp Hvb Hc js Hjs Hlen) in H.
  destruct (reserved_symbol p _) eqn:Hr; [done|].
  destruct (by_symbol l _) eqn:Hs; [done|].
  destruct (Z.leb_spec (MaxTokensPerCreator p) (count_of l (bytes_of creator)))
    as [|Hmax]; [done|].
  unfold create_tail in H. apply bind_ok_inv in H as (u1 & w1 & Hm & H).
  apply modify_inv in H as ->. set (kv := appended l (t_kv (w_token w)) m js).
  assert (∃ b, w1 = set_bank b (with_kv kv w) ∧
    ∀ d, d ≠ denom_of m → GetSupply b d = GetSupply (w_bank w) d) as (b & -> & Hsup).
  { destruct (0 <? ct_InitialSupply msg).
    - apply wrap_err_ok_inv, mint_to_inv in Hm as (_ & _ & b & -> & _ & Hsup).
      exists b. split; [done|]. intros d Hd. rewrite Hsup. cbn.
      destruct (String.eqb_spec d ("u" +:+ ToLower (ct_Symbol msg))) as [->|_]; [done|lia].
    - injection Hm as <- _. exists (w_bank w). split; [by destruct w|done]. }
  exists m, kv, b. eexists. split; [reflexivity|]. split; [by apply append_rel|done].
Qed.

Lemma reached_registry p n w :
  reached p n w → Z.of_nat n < 2 ^ 64 →
  ∃ l, registry_ok p l w ∧ (length l ≤ n)%nat.
Proof using L JL.
  induction 1 as [w Hw|n w w' _ IH Hstep]; intros Hn.
  - exists []. split; [|done]. unfold registry_ok. rewrite Hw. simpl.
    split; [apply empty_rel|]. split; [done|]. split; [|constructor].
    intros b. change (count_of [] b) with 0. lia.
  - destruct IH as (l & (HR & Hp & Hcount & Hres) & Hlen); [lia|].
    assert (Hkeep : w_token w' = w_token w → ∃ l, registry_ok p l w' ∧ (length l ≤ S n)%nat).
    { intros Hw. exists l. unfold registry_ok. rewrite Hw. split; [done|lia]. }
    destruct Hstep as [ctx msg u Hwf H|ctx msg u H|ctx msg u H|Hw].
    2: by apply Mint_effect in H as (? & ? & b' & _ & -> & _); apply Hkeep.
    2: by apply Burn_effect in H as (? & ? & b' & _ & -> & _); apply Hkeep.
    2: by apply Hkeep.
    apply (CreateToken_effect ctx msg p l) in H
      as (m & kv & b' & evs & -> & HR' & Hmax & Hrm & _); try done; [|lia].
    exists (l ++ [m]). rewrite length_app. simpl. split; [|lia].
    split; [done|]. split; [done|]. split.
    + intros b. rewrite count_of_app. specialize (Hcount b).
      destruct (String.eqb_spec (bytes_of (Creator m)) b) as [<-|]; lia.
    + apply Forall_app. split; [done|]. by repeat constructor.
Qed.

Lemma find_unique {A} (f : A → string) l x :
  NoDup (map f l) → x ∈ l → List.find (λ y, String.eqb (f y) (f x)) l = Some x.
Proof.
  induction l as [|y l IH]; intros Hn Hx; [by apply elem_of_nil in Hx|].
  simpl in *. apply NoDup_cons in Hn as [Hy Hn].
  apply elem_of_cons in Hx as [->|Hx]; [by rewrite String.eqb_refl|].
  destruct (String.eqb_spec (f y) (f x)) as [He|_]; [|by apply IH].
  exfalso. apply Hy. rewrite He. apply list_elem_of_In, in_map. by apply list_elem_of_In.
Qed.

Lemma rel_ids_nodup l kv : store_rel l kv → NoDup (map TokenID l).
Proof.
  intros HR. apply NoDup_alt. intros i j id Hi Hj.
  apply list_lookup_fmap_Some in Hi as (x & -> & Hx), Hj as (y & Hxy & Hy).
  rewrite (rel_ids _ _ HR _ _ Hx), (rel_ids _ _ HR _ _ Hy) in Hxy.
  apply token_id_inj in Hxy; lia.
Qed.

(** Every recorded token is read back as it is. *)
Lemma recorded_metadata l w m :
  store_rel l (t_kv (w_token w)) → m ∈ l → GetTokenMetadata (TokenID m) w = (w, Ok m).
Proof using L JL.
  intros HR Hm. rewrite (GetTokenMetadata_run l) by done. unfold by_id.
  by rewrite (find_unique TokenID l m (rel_ids_nodup l _ HR) Hm).
Qed.

(** A store holds one registry. *)
Lemma store_rel_fun l l' kv :
  store_rel l kv → store_rel l' kv → length l = length l' → l = l'.
Proof using L JL.
  intros HR HR' Hlen. apply list_eq. intros i.
  destruct (l !! i) as [m|] eqn:Hm.
  2: { symmetry. apply lookup_ge_None in Hm. apply lookup_ge_None. lia. }
  assert (is_Some (l' !! i)) as [m' Hm'].
  { apply lookup_lt_is_Some. apply lookup_lt_Some in Hm. lia. }
  rewrite Hm'. f_equal.
  assert (Hid : TokenID m' = TokenID m)
    by (by rewrite (rel_ids _ _ HR _ _ Hm), (rel_ids _ _ HR' _ _ Hm')).
  assert (Hget : ∀ l m, store_rel l kv → m ∈ l →
    ∃ s, kv !! metadataKey (TokenID m) = Some s ∧ json_Unmarshal s = Ok m).
  { clear - JL. intros l m HR Hin. pose proof (rel_enc _ _ HR) as He. rewrite Forall_forall in He.
    destruct (json_total m (He m Hin)) as (s & Hs). exists s.
    rewrite (rel_meta _ _ HR). unfold by_id.
    rewrite (find_unique TokenID l m (rel_ids_nodup l _ HR) Hin). cbn. rewrite Hs.
    split; [done|]. by apply (json_roundtrip m s (He m Hin)). }
  destruct (Hget l m HR) as (s & Hs & Hu); [by eapply list_elem_of_lookup_2|].
  destruct (Hget l' m' HR') as (s' & Hs' & Hu'); [by eapply list_elem_of_lookup_2|].
  rewrite Hid, Hs in Hs'. injection Hs' as <-. rewrite Hu in Hu'. by injection Hu'.
Qed.

(** Whatever transactions ran, the store is a registry: identifiers are
    "token_001", "token_002", ... in order and never reused, no two tokens share a
    symbol in any capitalisation, no symbol is reserved, the symbol index, the
    creator index and the counts agree with the metadata, every token can be read
    back by identifier and by symbol, and no creator has more than the limit. *)
Theorem token_store_invariant p n w :
  reached p n w → Z.of_nat n < 2 ^ 64 →
  ∃ l, store_rel l (t_kv (w_token w)) ∧ (length l ≤ n)%nat ∧
    NoDup (map TokenID l) ∧ NoDup (map (λ m, ToLower (Symbol m)) l) ∧
    Forall (λ m, reserved_symbol p (ToLower (Symbol m)) = false) l ∧
    (∀ b, count_of l b ≤ Z.max 0 (MaxTokensPerCreator p)) ∧
    ∀ m, m ∈ l →
      GetTokenMetadata (TokenID m) w = (w, Ok m) ∧
      GetTokenCreatorBySymbol (Symbol m) w = (w, Ok (Creator m)).
Proof using L JL.
  intros H Hn. destruct (reached_registry p n w H Hn) as (l & (HR & Hp & Hc & Hres) & Hlen).
  pose proof (rel_ids_nodup l _ HR) as Hids.
  exists l. split_and!; try done; [apply (rel_symbols _ _ HR)|].
  intros m Hm. pose proof (recorded_metadata l w m HR Hm) as Hget.
  split; [done|]. unfold GetTokenCreatorBySymbol.
  rewrite (bind_run _ _ _ _ _ (kv_get_run _ w)), (rel_symbol _ _ HR). unfold by_symbol.
  rewrite (find_unique (λ m, ToLower (Symbol m)) l m (rel_symbols _ _ HR) Hm). simpl.
  by rewrite (bind_run _ _ _ _ _ Hget).
Qed.
End Reach.

(** ** Fees charged by the token module *)
Section Fees.
Context {L : EnvLaws E} {FK : FeesKeeper E}.
Implicit Types w : World E.

(** A fee that is split goes to the treasury and infrastructure accounts
    in halves, the odd unit to infrastructure: what the sender pays is exactly the
    dollars converted, no more than he could spend, and all of it arrives. *)
Theorem ChargeAndSplitFee_spec ctx sender usd w w1 csv pd w' u :
  ConvertUSDToCSV ctx usd w = (w1, Ok (Some csv, pd)) → Z.abs csv < 2 ^ 200 →
  ChargeAndSplitFee ctx sender usd w = (w', Ok u) →
  let fee := Z.quot (csv * 1000000) precision in
  let treasury := NewModuleAddress TreasuryModuleAccount in
  let infra := NewModuleAddress InfrastructureModuleAccount in
  0 ≤ fee ≤ coins_amount (SpendableCoins (w_bank w1) sender) "ucsv" ∧
  ∃ b', w' = set_bank b' w1 ∧
    (∀ a d, GetBalance b' a d = GetBalance (w_bank w1) a d +
       if String.eqb d "ucsv" then
         (if String.eqb a treasury then fee / 2 else 0)
         + (if String.eqb a infra then fee - fee / 2 else 0)
         - (if String.eqb a sender then fee else 0)
       else 0) ∧
    (∀ d, GetSupply b' d = GetSupply (w_bank w1) d).
Proof using L.
  intros Hconv Hsmall H. cbv zeta. unfold ChargeAndSplitFee in H.
  rewrite (bind_run _ _ w w1 (Some csv, pd)) in H by (unfold wrap_err; by rewrite Hconv).
  apply bind_ok_inv in H as (c & w2 & Hc & H). apply lift_ok_inv in Hc as [-> Hc].
  unfold fee_coin in Hc. rewrite FeesCharge.to_ucsv_run in Hc by done. simpl mbind in Hc.
  unfold FeesCharge.ucsv_of in Hc. set (fee := Z.quot (csv * 1000000) precision) in *.
  apply NewCoin_inv in Hc as (_ & Hfee & ->). simpl in H.
  apply bind_ok_inv in H as (u0 & w2 & Hbal & H). unfold check_balance in Hbal.
  rewrite (bind_run (gets _) _ _ _ _ eq_refl), FeesCharge.spendable_run in Hbal.
  simpl in Hbal. rewrite (bind_run (lift (Ok _)) _ _ _ _ eq_refl) in Hbal.
  destruct (Z.ltb_spec (coins_amount (SpendableCoins (w_bank w1) sender) "ucsv") fee)
    as [|Hle]; [done|].
  injection Hbal as <- _. split; [lia|].
  assert (Hq : Z.quot fee 2 = fee / 2) by (apply Z.quot_div_nonneg; lia).
  step_inv.
  repeat match goal with H : on_bank _ _ = _ |- _ => apply on_bank_inv in H as (? & ? & ->) end.
  repeat match goal with
  | H : IntQuo _ _ = Ok _ |- _ =>
      rewrite IntQuo_spec in H by done; apply int_ret_inv in H; rewrite Hq in H; subst
  | H : IntSub _ _ = Ok _ |- _ => rewrite IntSub_spec in H; apply int_ret_inv in H; subst
  | H : NewCoin _ _ = Ok _ |- _ => apply NewCoin_inv in H as (_ & ? & ->)
  | H : SendCoinsFromAccountToModule _ _ _ _ = _ |- _ =>
      apply SendCoinsFromAccountToModule_ok in H as [? ?]
  end.
  repeat match goal with
  | H : NewCoins [mkCoin _ ?n] = Ok ?c, Hn : 0 ≤ ?n |- _ =>
      pose proof (NewCoins_amount "ucsv" n c eq_refl Hn H); clear H
  end.
  eexists. split; [reflexivity|]. simpl in *. split.
  - intros ac dn. repeat match goal with
    | H : ∀ a d, GetBalance ?b a d = _ |- context [GetBalance ?b _ _] => rewrite H
    | H : ∀ y, coins_amount _ y = _ |- _ => rewrite H end.
    destruct (String.eqb dn "ucsv"), (String.eqb ac (NewModuleAddress TreasuryModuleAccount)),
      (String.eqb ac (NewModuleAddress InfrastructureModuleAccount)), (String.eqb ac sender);
      simpl; lia.
  - intros dn. by repeat match goal with
    | H : ∀ d, GetSupply ?b d = _ |- context [GetSupply ?b _] => rewrite H end.
Qed.
End Fees.
End Registry.

(** ** Witnesses *)

#[local] Instance TokenMetadata_eq_dec : EqDecision TokenMetadata.
Proof. solve_decision. Defined.

Definition metadata_codes (t : TokenMetadata) : list positive :=
  [encode (TokenID t); encode (Name t); encode (Symbol t); encode (Decimals t);
   encode (MaxSupply t); encode (CurrentSupply t); encode (Mintable t);
   encode (Creator t); encode (POSCompatible t); encode (IconURI t);
   encode (Description t); encode (CreatedAt t)].
Definition metadata_of_codes (l : list positive) : option TokenMetadata :=
  match l with
  | [a; b; c; d; e; f; g; h; i; j; k; l] =>
      a ← decode a; b ← decode b; c ← decode c; d ← decode d; e ← decode e; f ← decode f;
      g ← decode g; h ← decode h; i ← decode i; j ← decode j; k ← decode k; l ← decode l;
      Some (mkTokenMetadata a b c d e f g h i j k l)
  | _ => None
  end.

#[local] Instance TokenMetadata_countable : Countable TokenMetadata.
Proof.
  refine (inj_countable metadata_codes metadata_of_codes _).
  intros []. unfold metadata_codes, metadata_of_codes.
  by rewrite !decode_encode.
Defined.

#[local] Instance ref_metadata_codec : JsonCodec TokenMetadata := coded_codec TokenMetadata.
#[local] Instance ref_metadata_laws : JsonLaws TokenMetadata metadata_encodable :=
  coded_codec_laws TokenMetadata metadata_encodable.

Definition gold_msg (symbol : string) : MsgCreateToken :=
  mkMsgCreateToken (acc "alice") "Gold" symbol 6 1000 5000 true false "" "".
Definition token_world : World ref_env :=
  set_token (mkTokenStore (Some DefaultParams) ∅) empty_world.
Definition gold (symbol : string) : TokenMetadata :=
  new_metadata ref_ctx (gold_msg symbol) "token_001" (Some "alice").
Definition gold_json : string := pos_bits (encode (gold "GLD")).
Definition gold_world : World ref_env :=
  with_kv (appended (E := ref_env) [] ∅ (gold "GLD") gold_json) token_world.

Lemma gold_rel : store_rel (E := ref_env) [gold "GLD"] (t_kv (w_token gold_world)).
Proof.
  apply (append_rel (E := ref_env) [] ∅ empty_rel (gold "GLD") gold_json);
    [reflexivity|vm_compute; reflexivity|reflexivity|reflexivity|reflexivity].
Qed.

Theorem CreateToken_spec_witness :
  ∃ w', CreateToken ref_ctx (gold_msg "GLD") token_world = (w', Ok tt) ∧
    store_rel (E := ref_env) [gold "GLD"] (t_kv (w_token w')) ∧
    GetBalance (w_bank w') "alice" "ugld" = 1000.
Proof.
  pose proof (@CreateToken_spec _ ref_env_laws _ _ ref_ctx (gold_msg "GLD") (Some "alice")
    DefaultParams [] token_world empty_rel eq_refl eq_refl
    ltac:(split; [discriminate|reflexivity]) eq_refl
    ltac:(vm_compute; reflexivity) eq_refl) as (_ & _ & _ & H).
  assert (Hr0 : (CreateToken ref_ctx (gold_msg "GLD") token_world).2 = Ok tt) by (vm_compute; reflexivity).
  pose proof (run_pair _ _ _ Hr0) as Hr.
  destruct (H _ _ Hr) as (Hrel & _ & b' & kv' & Hw & Hb & _). eexists.
  split; [exact Hr|]. split; [exact Hrel|]. rewrite Hw.
  etransitivity; [exact (Hb "alice" "ugld")|]. vm_compute. reflexivity.
Defined.

Theorem CreateToken_bad_symbol_witness :
  ∃ w' why, CreateToken ref_ctx (gold_msg "two words") token_world = (w', Panic why).
Proof.
  apply (@CreateToken_bad_symbol _ ref_env_laws _ _ ref_ctx (gold_msg "two words")
    (Some "alice") DefaultParams [] token_world empty_rel eq_refl eq_refl
    ltac:(split; [discriminate|reflexivity]) eq_refl);
    [vm_compute; reflexivity|reflexivity..|discriminate].
Defined.

(** Eve, who has nothing to do with the token, mints herself two hundred times its
    maximum supply. *)
Theorem Mint_spec_witness :
  MaxSupply (gold "GLD") = 5000 ∧
  Mint ref_ctx (mkMsgMint (acc "eve") (acc "eve") 1000000 "token_001") gold_world
  = on_bank (bank_mint "eve" "ugld" 1000000) gold_world ∧
  ∃ b', Mint ref_ctx (mkMsgMint (acc "eve") (acc "eve") 1000000 "token_001") gold_world
    = (set_bank (E := ref_env) b' gold_world, Ok tt) ∧ GetBalance b' "eve" "ugld" = 1000000.
Proof.
  pose proof (@Mint_spec _ ref_env_laws _ _ ref_ctx _ gold_world gold_rel
    (mkMsgMint (acc "eve") (acc "eve") 1000000 "token_001") (Some "eve") (Some "eve")
    eq_refl eq_refl ltac:(split; [discriminate|reflexivity])) as H.
  change (by_id _ _) with (Some (gold "GLD")) in H. destruct H as (Hb0 & _ & H).
  assert (Hr0 : (Mint ref_ctx (mkMsgMint (acc "eve") (acc "eve") 1000000 "token_001") gold_world).2 = Ok tt) by (vm_compute; reflexivity).
  pose proof (run_pair _ _ _ Hr0) as Hr. split; [reflexivity|]. split; [exact Hb0|].
  destruct (H _ _ Hr) as (b' & Hw & Hb & _). exists b'. rewrite <- Hw.
  split; [exact Hr|]. etransitivity; [apply Hb|]. vm_compute. reflexivity.
Defined.

Theorem Burn_spec_witness :
  ∃ b', Burn ref_ctx (mkMsgBurn (acc "bob") (acc "eve") 30 "token_001")
      (with_balance "bob" "ugld" 100 gold_world)
    = (set_bank (E := ref_env) b' (with_balance "bob" "ugld" 100 gold_world), Ok tt) ∧
    GetBalance b' "bob" "ugld" = 70.
Proof.
  pose proof (@Burn_spec _ ref_env_laws _ _ ref_ctx _
    (with_balance "bob" "ugld" 100 gold_world) gold_rel
    (mkMsgBurn (acc "bob") (acc "eve") 30 "token_001") (Some "bob") eq_refl) as H.
  change (by_id _ _) with (Some (gold "GLD")) in H.
  assert (Hr0 : (Burn ref_ctx (mkMsgBurn (acc "bob") (acc "eve") 30 "token_001") (with_balance "bob" "ugld" 100 gold_world)).2 = Ok tt) by (vm_compute; reflexivity).
  pose proof (run_pair _ _ _ Hr0) as Hr.
  destruct (H _ _ Hr) as (b' & Hw & Hb & _). exists b'. rewrite <- Hw.
  split; [exact Hr|]. etransitivity; [apply Hb|]. vm_compute. reflexivity.
Defined.

Lemma gold_well_formed : well_formed (E := ref_env) ref_ctx (gold_msg "GLD").
Proof.
  split; [split; [discriminate|reflexivity]|].
  intros n creator Hn [= <-]. unfold metadata_encodable. simpl TokenID.
  rewrite (token_id_utf8 n Hn). vm_compute. reflexivity.
Qed.

Theorem token_store_invariant_witness :
  ∃ w' l, CreateToken ref_ctx (gold_msg "GLD") token_world = (w', Ok tt) ∧
    store_rel (E := ref_env) l (t_kv (w_token w')) ∧ (length l ≤ 1)%nat.
Proof.
  assert (Hr0 : (CreateToken ref_ctx (gold_msg "GLD") token_world).2 = Ok tt) by (vm_compute; reflexivity).
  pose proof (run_pair _ _ _ Hr0) as Hr.
  destruct (@token_store_invariant _ ref_env_laws _ _ DefaultParams 1
    (CreateToken ref_ctx (gold_msg "GLD") token_world).1) as (l & HR & Hl & _).
  - apply (reached_step _ 0 token_world); [apply reached_init; reflexivity|].
    eapply step_create; [exact gold_well_formed|exact Hr].
  - reflexivity.
  - eexists _, l. split; [exact Hr|]. split; [exact HR|exact Hl].
Defined.

#[local] Existing Instance Oracle.oracle_keeper.
#[local] Existing Instance FeesKeeper.fees_keeper.

Theorem ChargeAndSplitFee_spec_witness :
  ∃ b' w1, ChargeAndSplitFee ref_ctx "alice" (Some (15 * 10 ^ 16)) FeesCharge.priced_world
      = (set_bank (E := ref_env) b' w1, Ok tt) ∧
    GetBalance b' "module/treasury" "ucsv" = 150 ∧
    GetBalance b' "module/infrastructure" "ucsv" = 150 ∧
    GetBalance b' "alice" "ucsv" = 700.
Proof.
  assert (Hr0 : (ChargeAndSplitFee ref_ctx "alice" (Some (15 * 10 ^ 16))
    FeesCharge.priced_world).2 = Ok tt) by (vm_compute; reflexivity).
  pose proof (run_pair _ _ _ Hr0) as Hr.
  assert (Hc : ∃ pd, (ConvertUSDToCSV ref_ctx (Some (15 * 10 ^ 16))
    FeesCharge.priced_world).2 = Ok (Some (3 * 10 ^ 14), pd))
    by (eexists; vm_compute; reflexivity).
  destruct Hc as (pd & Hc).
  assert (Hsmall : Z.abs (3 * 10 ^ 14) < 2 ^ 200) by (vm_compute; reflexivity).
  destruct (@ChargeAndSplitFee_spec _ ref_env_laws (FeesKeeper.fees_keeper ref_env _) ref_ctx "alice" (Some (15 * 10 ^ 16))
    FeesCharge.priced_world _ (3 * 10 ^ 14) pd _ tt (run_pair _ _ _ Hc)
    Hsmall Hr) as (_ & b' & Hw & Hb & _).
  eexists b', _. split; [rewrite <- Hw; exact Hr|].
  pose proof (Hb "module/treasury" "ucsv") as H1.
  pose proof (Hb "module/infrastructure" "ucsv") as H2. pose proof (Hb "alice" "ucsv") as H3.
  clear Hb Hw Hr Hc. vm_compute in H1, H2, H3. vm_compute. split_and!; assumption.
Defined.
