(* ===== verification/TokenQuery.v ===== *)
(** * x/token/keeper/query.go: queries over the raw store

    Iteration is in the order of the keys' bytes, as in the store of the SDK. *)

From Stdlib Require Import Strings.Ascii Strings.String.
From stdpp Require Import strings sorting.
From S2P Require Import Prelude GoLib Sdk RefEnv World RefWorld Interfaces TokenTypes.
From S2P Require Import TokenKeeper TokenSpec.

Local Open Scope Z_scope.

Definition ErrInvalidRequest : error := ErrSdk "ErrInvalidRequest".

(** [prefixRange]: the end is the prefix with its last byte that is not 0xFF
    incremented and the rest cut off; [None] when there is no such byte. *)
Fixpoint range_end (p : string) : option string :=
  match p with
  | EmptyString => None
  | String c s =>
      match range_end s with
      | Some s' => Some (String c s')
      | None =>
          if (nat_of_ascii c =? 255)%nat then None
          else Some (String (ascii_of_nat (S (nat_of_ascii c))) EmptyString)
      end
  end.
Definition prefixRange (prefix : string) : string * option string := (prefix, range_end prefix).

(** The keys an iterator over [start, end) visits. *)
Definition in_range (r : string * option string) (k : string) : bool :=
  String.leb r.1 k && match r.2 with None => true | Some e => String.ltb k e end.

Definition key_le (a b : string * string) : Prop := String.leb a.1 b.1 = true.
#[export] Instance key_le_dec : RelDecision key_le.
Proof. intros a b. unfold key_le. apply _. Defined.

Definition entries (kv : gmap string string) (r : string * option string)
    : list (string * string) :=
  merge_sort key_le (List.filter (λ e, in_range r e.1) (map_to_list kv)).

(** [QueryTokenByIdResponse] and [QueryTokenBySymbolResponse]; the times are not
    rendered. *)
Record TokenResponse := mkTokenResponse {
  r_TokenId : string;
  r_Name : string;
  r_Symbol : string;
  r_Decimals : Z;
  r_MaxSupply : string;
  r_CurrentSupply : string;
  r_Mintable : bool;
  r_PosCompatible : bool;
  r_Creator : string;
  r_IconUri : string;
  r_Description : string;
  r_Denom : string;
  r_CreatedAt : Z
}.

(** [query.PageRequest] *)
Record PageRequest := mkPageRequest {
  Key : string;
  Offset : Z;
  Limit : Z;
  CountTotal : bool;
  Reverse : bool
}.

Section Query.
Context {E : Env} {JC : JsonCodec TokenMetadata}.

Definition to_response (meta : TokenMetadata) : TokenResponse := {|
  r_TokenId := TokenID meta;
  r_Name := Name meta;
  r_Symbol := Symbol meta;
  r_Decimals := Decimals meta;
  r_MaxSupply := IntString (MaxSupply meta);
  r_CurrentSupply := IntString (CurrentSupply meta);
  r_Mintable := Mintable meta;
  r_PosCompatible := POSCompatible meta;
  r_Creator := fst (BytesToString (Creator meta));
  r_IconUri := IconURI meta;
  r_Description := Description meta;
  r_Denom := "u" +:+ ToLower (Symbol meta);
  r_CreatedAt := CreatedAt meta
|}.

(** [TokenById]; a nil request is [None]. *)
Definition TokenById (req : option string) : stM (World E) TokenResponse :=
  match req with
  | None => throw (ErrWrap ErrInvalidRequest "token_id required")
  | Some tokenId =>
  if String.eqb tokenId "" then throw (ErrWrap ErrInvalidRequest "token_id required") else
  bz ← wrap_err (kv_get (metadataKey tokenId)) "store get failed";
  match bz with
  | None => throw (ErrWrap ErrTokenNotFound "not found")
  | Some bz =>
      meta ← wrap_err (lift (json_Unmarshal bz)) "unmarshal";
      mret (to_response meta)
  end
  end.

Definition TokenBySymbol (req : option string) : stM (World E) TokenResponse :=
  match req with
  | None => throw (ErrWrap ErrInvalidRequest "symbol required")
  | Some symbol =>
  if String.eqb symbol "" then throw (ErrWrap ErrInvalidRequest "symbol required") else
  idBz ← wrap_err (kv_get (symbolKey (ToLower symbol))) "symbol lookup failed";
  match idBz with
  | None => throw (ErrWrap ErrTokenNotFound "symbol not found")
  | Some idBz =>
      bz ← wrap_err (kv_get (metadataKey idBz)) "metadata load failed";
      match bz with
      | None => throw (ErrWrap ErrTokenNotFound "metadata missing")
      | Some bz =>
          meta ← wrap_err (lift (json_Unmarshal bz)) "unmarshal";
          mret (to_response meta)
      end
  end
  end.

(** [store.Iterator(start, end)] *)
Definition iterator (r : string * option string) : stM (World E) (list (string * string)) := λ w,
  match kv_iter_err r.1 with
  | Some e => (w, Err e)
  | None => (w, Ok (entries (t_kv (w_token w)) r))
  end.

(** The loop of the two list queries: the tokens, and the key of the iterator where
    it stopped, if it is still valid. *)
Fixpoint scan (prefix : string) (item : string * string → stM (World E) TokenResponse)
    (limit offset count : Z) (acc : list TokenResponse) (iter : list (string * string))
    : stM (World E) (list TokenResponse * option string) :=
  match iter with
  | [] => mret (acc, None)
  | (key, value) :: iter' =>
      if negb (HasPrefix key prefix) then mret (acc, Some key) else
      if count <? offset then scan prefix item limit offset (count + 1) acc iter' else
      if (0 <? limit) && (limit <=? Z.of_nat (length acc)) then mret (acc, Some key) else
      resp ← item (key, value);
      scan prefix item limit offset count (acc ++ [resp]) iter'
  end.

Definition page_of (p : option PageRequest) : Z * Z :=
  match p with None => (0, 0) | Some p => (Limit p, Offset p) end.

Definition TokensByCreator (req : option (string * option PageRequest))
    : stM (World E) (list TokenResponse * option string) :=
  match req with
  | None => throw (ErrWrap ErrInvalidRequest "creator required")
  | Some (creator, pagination) =>
  if String.eqb creator "" then throw (ErrWrap ErrInvalidRequest "creator required") else
  match StringToBytes creator with
  | (_, Some err) => throw (ErrWrap err "invalid creator")
  | (addr, None) =>
      let creatorPrefix := "ci_" +:+ bytes_of addr in
      iter ← wrap_err (iterator (prefixRange creatorPrefix)) "iterator";
      let '(limit, offset) := page_of pagination in
      scan creatorPrefix
        (λ '(key, _), TokenById (Some (str_drop (String.length creatorPrefix) key)))
        limit offset 0 [] iter
  end
  end.

Definition AllTokens (req : option (option PageRequest))
    : stM (World E) (list TokenResponse * option string) :=
  match req with
  | None => throw (ErrWrap ErrInvalidRequest "request required")
  | Some pagination =>
      iter ← wrap_err (iterator (prefixRange "tm_")) "iterator";
      let '(limit, offset) := page_of pagination in
      scan "tm_"
        (λ '(_, value),
           meta ← wrap_err (lift (json_Unmarshal value)) "unmarshal";
           mret (to_response meta))
        limit offset 0 [] iter
  end.

Definition TokenSupply (req : option string) : stM (World E) (string * string) :=
  match req with
  | None => throw (ErrWrap ErrInvalidRequest "denom required")
  | Some denom =>
      if String.eqb denom "" then throw (ErrWrap ErrInvalidRequest "denom required") else
      supply ← gets (λ w, GetSupply (w_bank w) denom);
      mret (denom, IntString supply)
  end.

Definition TokenBalance (req : option (string * string))
    : stM (World E) (string * string * string) :=
  match req with
  | None => throw (ErrWrap ErrInvalidRequest "address & denom required")
  | Some (address, denom) =>
  if String.eqb address "" || String.eqb denom ""
  then throw (ErrWrap ErrInvalidRequest "address & denom required") else
  match StringToBytes address with
  | (_, Some err) => throw (ErrWrap err "invalid address")
  | (addr, None) =>
      bal ← gets (λ w, GetBalance (w_bank w) (bytes_of addr) denom);
      mret (address, denom, IntString bal)
  end
  end.
End Query.

(** ** Prefix ranges *)

Lemma compare_cons c s d t :
  String.compare (String c s) (String d t) =
  match Ascii.compare c d with Eq => String.compare s t | x => x end.
Proof. done. Qed.

Lemma ascii_compare_nat c d :
  Ascii.compare c d = Nat.compare (nat_of_ascii c) (nat_of_ascii d).
Proof.
  unfold Ascii.compare, nat_of_ascii. by rewrite N2Nat.inj_compare.
Qed.

Lemma in_prefix p k : in_range (prefixRange p) k = HasPrefix k p.
Proof.
  unfold in_range, prefixRange. simpl. revert k.
  induction p as [|c s IH]; intros k; [by destruct k|].
  destruct k as [|d t]; [done|].
  unfold String.leb, String.ltb in *. simpl HasPrefix. simpl range_end.
  rewrite compare_cons, ascii_compare_nat.
  destruct (Nat.compare_spec (nat_of_ascii c) (nat_of_ascii d)) as [Heq|Hlt|Hgt].
  - assert (c = d) as <-.
    { rewrite <- (ascii_nat_embedding c), <- (ascii_nat_embedding d). by rewrite Heq. }
    rewrite Ascii.eqb_refl, andb_true_l. rewrite <- IH.
    destruct (range_end s) as [s'|].
    + by rewrite compare_cons, ascii_compare_nat, Nat.compare_refl.
    + rewrite andb_true_r. destruct (Nat.eqb_spec (nat_of_ascii c) 255); [by rewrite andb_true_r|].
      rewrite compare_cons, ascii_compare_nat, nat_ascii_embedding.
      2: { pose proof (nat_ascii_bounded c). lia. }
      rewrite (proj2 (Nat.compare_lt_iff _ _)) by lia. by rewrite andb_true_r.
  - assert (Ascii.eqb c d = false) as Hne.
    { apply Ascii.eqb_neq. intros ->. lia. }
    rewrite Hne, andb_false_l, andb_true_l. destruct (range_end s) as [s'|].
    + rewrite compare_cons, ascii_compare_nat.
      by rewrite (proj2 (Nat.compare_gt_iff _ _)) by lia.
    + pose proof (nat_ascii_bounded d). destruct (Nat.eqb_spec (nat_of_ascii c) 255); [lia|].
      rewrite compare_cons, ascii_compare_nat, nat_ascii_embedding by lia.
      destruct (Nat.compare_spec (nat_of_ascii d) (S (nat_of_ascii c))); [|lia|done].
      by destruct t.
  - assert (Ascii.eqb c d = false) as ->; [|done]. apply Ascii.eqb_neq. intros ->. lia.
Qed.

(** A key lies in the range the code iterates over exactly when it
    has the prefix, whatever the prefix, the ones that end in or consist of bytes
    0xFF included. *)
Theorem prefixRange_spec p k : in_range (prefixRange p) k = HasPrefix k p.
Proof. apply in_prefix. Qed.

(** *** The order of the keys *)
#[export] Instance key_le_total : Total key_le.
Proof.
  intros a b. unfold key_le. apply String.leb_total.
Qed.

(** ** The list queries *)
Section Spec.
Context {E : Env} {L : EnvLaws E} {JC : JsonCodec TokenMetadata}.
Context {JL : JsonLaws TokenMetadata metadata_encodable}.
Implicit Types w : World E.

(** A page: [limit] elements, or all when it is zero, from [offset] on. *)
Definition page {A} (limit offset : Z) (l : list A) : list A :=
  let rest := drop (Z.to_nat offset) l in
  if limit =? 0 then rest else take (Z.to_nat limit) rest.

(** The element after the page. *)
Definition after_page {A} (limit offset : Z) (l : list A) : option A :=
  if limit =? 0 then None else drop (Z.to_nat offset) l !! Z.to_nat limit.

Lemma elem_entries kv r k v :
  (k, v) ∈ entries kv r ↔ kv !! k = Some v ∧ in_range r k = true.
Proof.
  unfold entries. rewrite merge_sort_Permutation. rewrite list_elem_of_In, filter_In.
  rewrite <- list_elem_of_In, elem_of_map_to_list. done.
Qed.

Lemma NoDup_entries kv r : NoDup (entries kv r).
Proof.
  unfold entries. rewrite merge_sort_Permutation.
  pose proof (NoDup_map_to_list kv) as H. apply NoDup_ListNoDup in H.
  apply NoDup_ListNoDup. by apply List.NoDup_filter.
Qed.

Lemma entries_sorted kv r : Sorted key_le (entries kv r).
Proof. apply Sorted_merge_sort. apply _. Qed.

(** The entries under a prefix are those of the tokens [ms], in some order. *)
Lemma entries_perm kv prefix (entry : TokenMetadata → string * string) ms :
  NoDup (map entry ms) →
  (∀ k v, kv !! k = Some v ∧ HasPrefix k prefix = true ↔ (k, v) ∈ map entry ms) →
  ∃ ms', ms' ≡ₚ ms ∧ entries kv (prefixRange prefix) = map entry ms' ∧
    Sorted key_le (map entry ms').
Proof.
  intros Hnd Hel.
  assert (Hperm : entries kv (prefixRange prefix) ≡ₚ map entry ms).
  { apply NoDup_Permutation; [apply NoDup_entries|done|]. intros [k v].
    rewrite elem_entries. by rewrite in_prefix, Hel. }
  apply Permutation_map_inv in Hperm as (ms' & He & Hp). exists ms'.
  split; [done|]. split; [done|]. rewrite <- He. apply entries_sorted.
Qed.
Section Scan.
Context {A : Type}.
Variables (prefix : string) (item : string * string → stM (World E) TokenResponse).
Variables (entry : A → string * string) (resp : A → TokenResponse).
Variables (w : World E) (limit offset : Z).
Hypothesis Hlimit : 0 ≤ limit.

Definition good (x : A) : Prop :=
  HasPrefix (entry x).1 prefix = true ∧ item (entry x) w = (w, Ok (resp x)).

Lemma scan_collect xs count acc :
  Forall good xs → offset ≤ count → (limit = 0 ∨ Z.of_nat (length acc) ≤ limit) →
  scan prefix item limit offset count acc (map entry xs) w =
  (w, Ok (acc ++ map resp (if limit =? 0 then xs
                           else take (Z.to_nat limit - length acc) xs),
          if limit =? 0 then None
          else (λ x, (entry x).1) <$> xs !! (Z.to_nat limit - length acc)%nat)).
Proof.
  intros H Hc. revert acc. induction H as [|x xs [Hp Hi] _ IH]; intros acc Ha.
  - simpl. rewrite take_nil. destruct (limit =? 0); by rewrite app_nil_r.
  - simpl map at 1. simpl scan. destruct (entry x) as [k v] eqn:Hx. simpl in Hp.
    rewrite Hp. change (negb true) with false. cbv iota.
    rewrite (proj2 (Z.ltb_ge count offset)) by done.
    destruct (Z.eqb_spec limit 0) as [->|Hne].
    + simpl. rewrite (bind_run _ _ _ _ _ Hi), IH by (by left). simpl.
      by rewrite <- app_assoc.
    + rewrite (proj2 (Z.ltb_lt 0 limit)) by lia. simpl.
      destruct (Z.leb_spec limit (Z.of_nat (length acc))) as [Hle|Hgt].
      * replace (Z.to_nat limit - length acc)%nat with O by lia. simpl.
        by rewrite app_nil_r, Hx.
      * rewrite (bind_run _ _ _ _ _ Hi), IH by (right; rewrite length_app; simpl; lia).
        rewrite ?(proj2 (Z.eqb_neq limit 0)) by done. rewrite length_app. simpl.
        replace (Z.to_nat limit - length acc)%nat with
          (S (Z.to_nat limit - (length acc + 1))) by lia.
        simpl. by rewrite <- app_assoc.
Qed.

Lemma scan_run xs count :
  Forall good xs → count ≤ offset →
  scan prefix item limit offset count [] (map entry xs) w =
  (w, Ok (map resp (page limit (offset - count) xs),
          (λ x, (entry x).1) <$> after_page limit (offset - count) xs)).
Proof using Hlimit.
  intros H. revert count. induction H as [|x xs Hg H IH]; intros count Hc.
  - unfold page, after_page. simpl. rewrite drop_nil, take_nil. simpl.
    by destruct (limit =? 0).
  - destruct (decide (count = offset)) as [->|Hne].
    + rewrite (scan_collect (x :: xs)); [|by constructor|lia|right; simpl; lia].
      unfold page, after_page. rewrite Z.sub_diag. simpl drop. simpl app.
      simpl length. rewrite !Nat.sub_0_r. by destruct (limit =? 0).
    + destruct Hg as [Hp Hi]. simpl. destruct (entry x) as [k v] eqn:Hx. simpl in Hp.
      rewrite Hp. change (negb true) with false. cbv iota.
      rewrite (proj2 (Z.ltb_lt count offset)) by lia. rewrite IH by lia.
      unfold page, after_page.
      replace (Z.to_nat (offset - count)) with (S (Z.to_nat (offset - (count + 1)))) by lia.
      done.
Qed.
End Scan.

Lemma Sorted_map {A B} (R : B → B → Prop) (f : A → B) l :
  Sorted R (map f l) → Sorted (λ a b, R (f a) (f b)) l.
Proof.
  induction l as [|a l IH]; simpl; intros H; [constructor|].
  inversion H as [|? ? Hs Hh]; subst. constructor; [by apply IH|].
  destruct l; constructor. by inversion Hh.
Qed.

Lemma leb_app p a b : String.leb (p +:+ a) (p +:+ b) = String.leb a b.
Proof.
  induction p as [|c p IH]; [done|]. rewrite !str_app_cons. unfold String.leb in *.
  rewrite compare_cons, ascii_compare_nat, Nat.compare_refl. exact IH.
Qed.

Definition id_le (a b : TokenMetadata) : Prop := String.leb (TokenID a) (TokenID b) = true.

Section Lists.
Variables (l : list TokenMetadata) (w : World E).
Hypothesis HR : store_rel l (t_kv (w_token w)).

Lemma iterator_run r : iterator r w = (w, Ok (entries (t_kv (w_token w)) r)).
Proof using L. unfold iterator. by rewrite kv_iter_ok. Qed.

Lemma store_ids : NoDup (map TokenID l).
Proof using HR.
  apply NoDup_alt. intros i j id Hi Hj.
  apply list_lookup_fmap_Some in Hi as (x & -> & Hx), Hj as (y & Hxy & Hy).
  rewrite (rel_ids _ _ HR _ _ Hx), (rel_ids _ _ HR _ _ Hy) in Hxy.
  apply token_id_inj in Hxy; lia.
Qed.

Lemma by_id_elem m : m ∈ l → by_id l (TokenID m) = Some m.
Proof using HR. intros Hm. unfold by_id. apply find_unique; [apply store_ids|done]. Qed.

(** The JSON of a token of the registry. *)
Definition json_of (m : TokenMetadata) : string :=
  match json_Marshal m with Ok s => s | _ => "" end.

Lemma json_of_elem m : m ∈ l →
  json_Marshal m = Ok (json_of m) ∧ json_Unmarshal (json_of m) = Ok m.
Proof using JL HR.
  intros Hm. pose proof (rel_enc _ _ HR) as Henc. eapply Forall_forall in Henc; [|exact Hm].
  destruct (json_total m Henc) as (s & Hs). unfold json_of. rewrite Hs.
  split; [done|]. by apply (json_roundtrip m).
Qed.

Lemma NoDup_map_f {A} (f : TokenMetadata → A) (g : A → string) ms :
  (∀ m, m ∈ ms → g (f m) = TokenID m) → NoDup (map TokenID ms) → NoDup (map f ms).
Proof.
  intros Hg. induction ms as [|m ms IH]; simpl; [constructor|].
  intros [Hm Hn]%NoDup_cons. apply NoDup_cons. split.
  - intros Hin. apply Hm. apply list_elem_of_In, in_map_iff in Hin as (x & Hx & Hin).
    apply list_elem_of_In in Hin. apply list_elem_of_In, in_map_iff. exists x.
    split; [|by apply list_elem_of_In].
    rewrite <- (Hg m) by (by left). rewrite <- Hx. symmetry. apply Hg. by right.
  - apply IH; [|done]. intros x Hx. apply Hg. by right.
Qed.

Lemma str_drop_app p s : str_drop (String.length p) (p +:+ s) = s.
Proof. induction p as [|c p IH]; [done|]. exact IH. Qed.

(** The entries of the metadata prefix are the tokens. *)
Lemma metadata_entries :
  ∃ ms, ms ≡ₚ l ∧
    entries (t_kv (w_token w)) (prefixRange "tm_") =
      map (λ m, (metadataKey (TokenID m), json_of m)) ms ∧
    Sorted key_le (map (λ m, (metadataKey (TokenID m), json_of m)) ms).
Proof using JL HR.
  apply entries_perm.
  - apply (NoDup_map_f _ (λ e, str_drop 3 e.1)); [|apply store_ids].
    intros m _. exact (str_drop_app "tm_" (TokenID m)).
  - intros k v. rewrite list_elem_of_In, in_map_iff. split.
    + intros [Hk Hpre]. apply HasPrefix_spec in Hpre as (id & ->).
      change ("tm_" +:+ id) with (metadataKey id) in Hk. rewrite (rel_meta _ _ HR) in Hk.
      destruct (by_id l id) as [m|] eqn:Hm; [|done]. simpl in Hk.
      apply find_elem in Hm as [Hin Hid]. apply String.eqb_eq in Hid as <-. exists m.
      destruct (json_of_elem m Hin) as [Hj _]. rewrite Hj in Hk. injection Hk as <-.
      split; [done|]. by apply list_elem_of_In.
    + intros (m & [= <- <-] & Hin). apply list_elem_of_In in Hin.
      split; [|apply HasPrefix_app].
      rewrite (rel_meta _ _ HR), by_id_elem by done. simpl.
      by destruct (json_of_elem m Hin) as [-> _].
Qed.

Lemma AllTokens_run :
  ∃ ms, ms ≡ₚ l ∧ Sorted id_le ms ∧
    ∀ p, let '(limit, offset) := page_of p in 0 ≤ limit → 0 ≤ offset →
      AllTokens (Some p) w =
      (w, Ok (map to_response (page limit offset ms),
              (λ m, metadataKey (TokenID m)) <$> after_page limit offset ms)).
Proof using L JL HR.
  destruct metadata_entries as (ms & Hp & He & Hs). exists ms. split; [done|]. split.
  - apply Sorted_map in Hs. revert Hs. apply Sorted_ind; [constructor|].
    intros a ms' _ Hs Hh. constructor; [done|]. destruct Hh; constructor.
    unfold id_le. rewrite <- (leb_app "tm_"). exact H.
  - intros p. destruct (page_of p) as [limit offset] eqn:Hpg. intros Hl Ho.
    unfold AllTokens.
    rewrite (bind_run _ _ w w (entries (t_kv (w_token w)) (prefixRange "tm_")))
      by (unfold wrap_err; by rewrite iterator_run).
    rewrite Hpg, He.
    assert (Hgood : Forall (good "tm_" (λ '(_, value),
        meta ← wrap_err (lift (json_Unmarshal value)) "unmarshal"; mret (to_response meta))
      (λ m, (metadataKey (TokenID m), json_of m)) to_response w) ms).
    { apply Forall_forall. intros m Hm. split; [apply HasPrefix_app|].
      rewrite Hp in Hm. destruct (json_of_elem m Hm) as [_ Hj]. simpl.
      unfold wrap_err, lift, mbind, stM_bind. by rewrite Hj. }
    rewrite (scan_run _ _ _ to_response w limit offset Hl ms 0 Hgood Ho).
    by rewrite Z.sub_0_r.
Qed.

(** C34 (functional). In a store that holds a registry of tokens, listing them never fails
    and changes nothing. The tokens, each exactly once, stand in the order of their
    identifiers' bytes: the answer is the page of them that the (unsigned) limit and offset
    ask for, all from the offset on when the limit is zero, from the beginning without a
    page request, and the next key is that of the first token after the page, if any. *)
Theorem AllTokens_spec :
  ∃ ms, ms ≡ₚ l ∧ Sorted id_le ms ∧
    ∀ p, let '(limit, offset) := page_of p in 0 ≤ limit → 0 ≤ offset →
      AllTokens (Some p) w =
      (w, Ok (map to_response (page limit offset ms),
              (λ m, metadataKey (TokenID m)) <$> after_page limit offset ms)).
Proof using L JL HR. exact AllTokens_run. Qed.

(** Two ways to read the list page by page: by the offset of the next page, and by the
    key the last answer gave.  Both stop when there is no next key, and give up after
    [requests] answers. *)
Fixpoint by_offset (requests : nat) (limit offset : Z)
    : stM (World E) (option (list TokenResponse)) :=
  match requests with
  | O => mret None
  | S n =>
      '(tokens, next) ← AllTokens (Some (Some (mkPageRequest "" offset limit false false)));
      match next with
      | None => mret (Some tokens)
      | Some _ => rest ← by_offset n limit (offset + limit); mret (app tokens <$> rest)
      end
  end.
Fixpoint by_key (requests : nat) (limit : Z) (key : string)
    : stM (World E) (option (list TokenResponse)) :=
  match requests with
  | O => mret None
  | S n =>
      '(tokens, next) ← AllTokens (Some (Some (mkPageRequest key 0 limit false false)));
      match next with
      | None => mret (Some tokens)
      | Some key' => rest ← by_key n limit key'; mret (app tokens <$> rest)
      end
  end.

(** One page, and where it stops. *)
Lemma one_page limit offset (xs : list TokenMetadata) :
  0 < limit → 0 ≤ offset →
  match after_page limit offset xs with
  | None => page limit offset xs = drop (Z.to_nat offset) xs
  | Some _ =>
      offset + limit < Z.of_nat (length xs) ∧
      page limit offset xs ++ drop (Z.to_nat (offset + limit)) xs = drop (Z.to_nat offset) xs
  end.
Proof.
  intros Hl Ho. unfold page, after_page. rewrite (proj2 (Z.eqb_neq limit 0)) by lia.
  destruct (drop _ xs !! _) eqn:Hx.
  - apply lookup_lt_Some in Hx. rewrite length_drop in Hx. split; [lia|].
    rewrite Z2Nat.inj_add by lia. rewrite <- drop_drop. apply take_drop.
  - apply lookup_ge_None in Hx. by apply take_ge.
Qed.

(** C33 (termination). Whoever reads the list in pages of a fixed size by their offsets comes
    to an end: one request more than the number of full pages is enough, and the pages put
    together are all tokens, each once. Whoever uses the key of the answers instead, as
    the interface of pagination offers, never does if there is more than one page: the key
    of a request is not looked at, and the first page comes back each time. *)
Theorem pages_end limit :
  0 < limit →
  (∃ ms, ms ≡ₚ l ∧ ∀ requests, Z.of_nat (length l) / limit < Z.of_nat requests →
     by_offset requests limit 0 w = (w, Ok (Some (map to_response ms)))) ∧
  (limit < Z.of_nat (length l) → ∀ requests key, by_key requests limit key w = (w, Ok None)).
Proof using L JL HR.
  intros Hl. destruct AllTokens_run as (ms & Hp & _ & Hq). split.
  - exists ms. split; [done|]. rewrite <- (Permutation_length Hp).
    assert (H : ∀ requests offset, 0 ≤ offset ≤ Z.of_nat (length ms) →
      (Z.of_nat (length ms) - offset) / limit < Z.of_nat requests →
      by_offset requests limit offset w =
      (w, Ok (Some (map to_response (drop (Z.to_nat offset) ms))))).
    { induction requests as [|n IH]; intros offset Ho Hn.
      { assert (0 ≤ (Z.of_nat (length ms) - offset) / limit) by (apply Z.div_pos; lia). lia. }
      cbn [by_offset].
      pose proof (Hq (Some (mkPageRequest "" offset limit false false))) as Hr.
      cbn [page_of Limit Offset] in Hr.
      rewrite (bind_run _ _ _ _ _ (Hr ltac:(lia) ltac:(lia))).
      pose proof (one_page limit offset ms Hl ltac:(lia)) as Hpg.
      destruct (after_page limit offset ms) as [m|]; cbn [fmap option_fmap option_map].
      - destruct Hpg as [Hlt Hpg]. rewrite (bind_run _ _ w w _ (IH (offset + limit) ltac:(lia)
          ltac:(replace (Z.of_nat (length ms) - offset)
            with (Z.of_nat (length ms) - (offset + limit) + 1 * limit) in Hn by lia;
            rewrite Z.div_add in Hn by lia; lia))).
        cbn. by rewrite <- map_app, Hpg.
      - by rewrite Hpg. }
    intros requests Hn. rewrite (H requests 0); [by rewrite drop_0|lia|by rewrite Z.sub_0_r].
  - intros Hlt requests. induction requests as [|n IH]; intros key; [done|]. cbn [by_key].
    pose proof (Hq (Some (mkPageRequest key 0 limit false false))) as Hr.
    cbn [page_of Limit Offset] in Hr.
      rewrite (bind_run _ _ _ _ _ (Hr ltac:(lia) ltac:(lia))).
    destruct (after_page limit 0 ms) as [m|] eqn:Ha.
    + cbn [fmap option_fmap option_map]. by rewrite (bind_run _ _ w w _ (IH _)).
    + exfalso. unfold after_page in Ha. rewrite (proj2 (Z.eqb_neq limit 0)) in Ha by lia.
      apply lookup_ge_None in Ha. rewrite drop_0, Hp in Ha. lia.
Qed.

(** The tokens of a creator, and their entries in the creator index. *)
Lemma made_by_elem b m : m ∈ made_by b l ↔ m ∈ l ∧ bytes_of (Creator m) = b.
Proof.
  unfold made_by. rewrite !list_elem_of_In, filter_In.
  by rewrite <- (String.eqb_eq (bytes_of (Creator m)) b).
Qed.

Lemma NoDup_map_filter {A B} (f : A → B) p (xs : list A) :
  NoDup (map f xs) → NoDup (map f (List.filter p xs)).
Proof.
  induction xs as [|x xs IH]; simpl; [done|]. intros [Hx Hn]%NoDup_cons.
  destruct (p x); simpl; [|by apply IH]. apply NoDup_cons. split; [|by apply IH].
  intros Hin. apply Hx. apply list_elem_of_In, in_map_iff in Hin as (y & Hy & Hin).
  apply filter_In in Hin as [Hin _]. apply list_elem_of_In, in_map_iff. by exists y.
Qed.

Lemma creator_entries b :
  (∀ m, m ∈ l → String.length (bytes_of (Creator m)) = String.length b) →
  ∃ ms, ms ≡ₚ made_by b l ∧
    entries (t_kv (w_token w)) (prefixRange ("ci_" +:+ b)) =
      map (λ m, (creatorKey b (TokenID m), TokenID m)) ms ∧
    Sorted key_le (map (λ m, (creatorKey b (TokenID m), TokenID m)) ms).
Proof using HR.
  intros Hlen. apply entries_perm.
  - apply (NoDup_map_f _ (λ e, e.2)); [done|]. apply NoDup_map_filter, store_ids.
  - intros k v. rewrite list_elem_of_In, in_map_iff. split.
    + intros [Hk Hpre]. apply HasPrefix_spec in Hpre as (rest & ->).
      rewrite str_app_assoc, (rel_creator _ _ HR) in Hk.
      destruct (by_creator l (b +:+ rest)) as [m|] eqn:Hm; [|done]. injection Hk as <-.
      apply find_elem in Hm as [Hin Heq]. apply String.eqb_eq in Heq.
      apply str_app_inv_length in Heq as [Hb <-]; [|by apply Hlen]. exists m.
      split; [unfold creatorKey; by rewrite str_app_assoc|].
      apply list_elem_of_In. by apply made_by_elem.
    + intros (m & [= <- <-] & Hin). apply list_elem_of_In, made_by_elem in Hin as [Hin Hb].
      unfold creatorKey. rewrite <- str_app_assoc. split; [|apply HasPrefix_app].
      rewrite str_app_assoc, (rel_creator _ _ HR).
      destruct (by_creator l (b +:+ TokenID m)) as [m'|] eqn:Hm.
      * apply find_elem in Hm as [Hin' Heq]. apply String.eqb_eq in Heq.
        rewrite <- Hb in Heq.
        apply (rel_ids_elem _ _ HR) in Hin as (i & Hi & _), Hin' as (j & Hj & _).
        rewrite Hi, Hj in Heq. apply token_id_suffix in Heq as [_ Heq]; [|lia..].
        simpl. by rewrite Hi, Hj, Heq.
      * exfalso. pose proof (proj1 (find_none_iff _ _) Hm m Hin) as Hn. simpl in Hn.
        by rewrite Hb, String.eqb_refl in Hn.
Qed.

Lemma TokenById_run m : m ∈ l → TokenById (Some (TokenID m)) w = (w, Ok (to_response m)).
Proof using L JL HR.
  intros Hm. destruct (json_of_elem m Hm) as [Hj Hu]. unfold TokenById.
  destruct (String.eqb_spec (TokenID m) "") as [He|_].
  { apply (rel_ids_elem _ _ HR) in Hm as (i & Hi & _). by rewrite Hi in He. }
  unfold wrap_err, mbind, stM_bind. rewrite kv_get_run, (rel_meta _ _ HR), by_id_elem by done.
  simpl. rewrite Hj. unfold lift. by rewrite Hu.
Qed.

(** A token that is stored is returned by its identifier and by its
    symbol in any capitalisation, with the same answer; an unknown identifier or
    symbol is an error. *)
Theorem token_lookup_spec :
  (∀ m, m ∈ l →
    TokenById (Some (TokenID m)) w = (w, Ok (to_response m)) ∧
    ∀ s, ToLower s = ToLower (Symbol m) → s ≠ "" →
      TokenBySymbol (Some s) w = (w, Ok (to_response m))) ∧
  (∀ id, by_id l id = None → ∃ e, TokenById (Some id) w = (w, Err e)) ∧
  (∀ s, by_symbol l (ToLower s) = None → ∃ e, TokenBySymbol (Some s) w = (w, Err e)).
Proof using L JL HR.
  split_and!.
  - intros m Hm. split; [by apply TokenById_run|]. intros s Hs Hne.
    destruct (json_of_elem m Hm) as [Hj Hu]. unfold TokenBySymbol.
    rewrite (string_eqb_false s "") by done. rewrite Hs.
    unfold wrap_err, mbind, stM_bind. rewrite kv_get_run, (rel_symbol _ _ HR).
    unfold by_symbol.
    rewrite (find_unique (λ x, ToLower (Symbol x)) l m (rel_symbols _ _ HR) Hm). simpl.
    rewrite kv_get_run, (rel_meta _ _ HR), by_id_elem by done. simpl. rewrite Hj. unfold lift.
    by rewrite Hu.
  - intros id Hid. unfold TokenById. destruct (String.eqb id ""); [by eexists|].
    unfold wrap_err, mbind, stM_bind. rewrite kv_get_run, (rel_meta _ _ HR), Hid. by eexists.
  - intros s Hs. unfold TokenBySymbol. destruct (String.eqb s ""); [by eexists|].
    unfold wrap_err, mbind, stM_bind. rewrite kv_get_run, (rel_symbol _ _ HR), Hs. by eexists.
Qed.

(** With creator addresses of one length, listing the tokens of a creator
    returns exactly the tokens recorded under that address, each once and in order,
    a page at a time. *)
Theorem TokensByCreator_spec creator addr :
  creator ≠ "" → StringToBytes creator = (addr, None) →
  (∀ m, m ∈ l → String.length (bytes_of (Creator m)) = String.length (bytes_of addr)) →
  ∃ ms, ms ≡ₚ made_by (bytes_of addr) l ∧ Sorted id_le ms ∧
    ∀ p, let '(limit, offset) := page_of p in 0 ≤ limit → 0 ≤ offset →
      TokensByCreator (Some (creator, p)) w =
      (w, Ok (map to_response (page limit offset ms),
              (λ m, creatorKey (bytes_of addr) (TokenID m)) <$> after_page limit offset ms)).
Proof using L JL HR.
  intros Hne Hc Hlen. destruct (creator_entries _ Hlen) as (ms & Hp & He & Hs).
  set (b := bytes_of addr) in *. exists ms. split; [done|]. split.
  - apply Sorted_map in Hs. revert Hs. apply Sorted_ind; [constructor|].
    intros a ms' _ Hs Hh. constructor; [done|]. destruct Hh; constructor.
    unfold id_le. rewrite <- (leb_app b), <- (leb_app "ci_"). exact H.
  - intros p. destruct (page_of p) as [limit offset] eqn:Hpg. intros Hl Ho.
    unfold TokensByCreator. rewrite (string_eqb_false creator "") by done. rewrite Hc. fold b.
    rewrite (bind_run _ _ w w (entries (t_kv (w_token w)) (prefixRange ("ci_" +:+ b))))
      by (unfold wrap_err; by rewrite iterator_run).
    rewrite Hpg, He.
    assert (Hgood : Forall (good ("ci_" +:+ b) (λ '(key, _),
        TokenById (Some (str_drop (String.length ("ci_" +:+ b)) key)))
      (λ m, (creatorKey b (TokenID m), TokenID m)) to_response w) ms).
    { apply Forall_forall. intros m Hm. unfold good, creatorKey.
      rewrite <- str_app_assoc. split; [apply HasPrefix_app|].
      rewrite str_drop_app. rewrite Hp in Hm. apply made_by_elem in Hm as [Hm _].
      by apply TokenById_run. }
    rewrite (scan_run _ _ _ to_response w limit offset Hl ms 0 Hgood Ho).
    by rewrite Z.sub_0_r.
Qed.
End Lists.
End Spec.

(** ** Witnesses *)
#[local] Existing Instance ref_metadata_codec.

Theorem AllTokens_spec_witness :
  AllTokens (Some None) gold_world = (gold_world, Ok ([to_response (E := ref_env) (gold "GLD")], None)).
Proof.
  destruct (@AllTokens_spec _ ref_env_laws _ ref_metadata_laws _ _ gold_rel)
    as (ms & Hp & _ & H).
  apply Permutation_singleton_r in Hp as ->. exact (H None (Z.le_refl 0) (Z.le_refl 0)).
Defined.

Theorem TokensByCreator_spec_witness :
  TokensByCreator (Some (acc "alice", Some (mkPageRequest "" 0 1 false false))) gold_world
    = (gold_world, Ok ([to_response (E := ref_env) (gold "GLD")], None)).
Proof.
  destruct (@TokensByCreator_spec _ ref_env_laws _ ref_metadata_laws _ _ gold_rel
    (acc "alice") (Some "alice")) as (ms & Hp & _ & H).
  - discriminate.
  - reflexivity.
  - intros m Hm. apply list_elem_of_singleton in Hm as ->. reflexivity.
  - change (made_by _ _) with [gold "GLD"] in Hp. apply Permutation_singleton_r in Hp as ->.
    exact (H (Some (mkPageRequest "" 0 1 false false)) ltac:(discriminate) (Z.le_refl 0)).
Defined.

Theorem token_lookup_spec_witness :
  TokenBySymbol (Some "gLd") gold_world = (gold_world, Ok (to_response (E := ref_env) (gold "GLD"))).
Proof.
  destruct (@token_lookup_spec _ ref_env_laws _ ref_metadata_laws _ _ gold_rel) as (H & _).
  destruct (H (gold "GLD")) as [_ H']; [left|].
  apply H'; [reflexivity|discriminate].
Defined.

#[local] Existing Instances TokenMetadata_eq_dec TokenMetadata_countable.
(** A second token. *)
Definition silver : TokenMetadata := new_metadata ref_ctx (gold_msg "SLV") "token_002" (Some "alice").
Definition silver_json : string := pos_bits (encode silver).
Definition silver_world : World ref_env :=
  with_kv (appended (E := ref_env) [gold "GLD"] (t_kv (w_token gold_world)) silver silver_json)
    gold_world.
Lemma silver_rel : store_rel (E := ref_env) [gold "GLD"; silver] (t_kv (w_token silver_world)).
Proof.
  apply (append_rel (E := ref_env) [gold "GLD"] (t_kv (w_token gold_world)) gold_rel silver
    silver_json); [reflexivity|vm_compute; reflexivity|reflexivity|vm_compute; reflexivity|reflexivity].
Qed.

Theorem pages_end_witness :
  (∃ ms, ms ≡ₚ [gold "GLD"; silver] ∧
     by_offset 3 1 0 silver_world = (silver_world, Ok (Some (map (to_response (E := ref_env)) ms)))) ∧
  by_key 1000 1 "" silver_world = (silver_world, Ok None).
Proof.
  destruct (@pages_end _ ref_env_laws _ ref_metadata_laws _ _ silver_rel 1 eq_refl)
    as [(ms & Hp & H) Hk].
  split; [|exact (Hk eq_refl 1000%nat "")]. exists ms. split; [exact Hp|]. apply H. reflexivity.
Defined.
