(* ===== verification/Treasury.v ===== *)
(** * x/treasury, x/registry, x/conversionpool, x/cosvian

    The keepers that only hold parameters, and the locked rewards of
    [src/x/treasury/keeper/locked_rewards.go]. *)

From Stdlib Require Import Strings.Ascii Strings.String.
From stdpp Require Import strings.
From S2P Require Import Prelude GoLib Sdk RefEnv World RefWorld.
From S2P Require ShellTypes.

Local Open Scope Z_scope.

(** ** x/treasury *)
Module Treasury.
Definition ModuleName : string := "treasury".
Definition ErrInvalidSigner : error := ErrReg "treasury" 1100.

Section Keeper.
Context {E : Env} (k_authority : Slice).
Implicit Types ctx : Ctx.

Definition params_get : stM (World E) ShellTypes.Treasury.Params :=
  coll_get "p_treasury" w_treasury.
Definition params_set (p : ShellTypes.Treasury.Params) : stM (World E) unit :=
  coll_set "p_treasury" (set_treasury (Some p)).

Definition UpdateParams ctx (authority : string) (p : ShellTypes.Treasury.Params)
    : stM (World E) unit :=
  check_authority k_authority ErrInvalidSigner authority;;
  lift (ShellTypes.Treasury.Validate p);;
  params_set p.

Definition InitGenesis ctx (p : ShellTypes.Treasury.Params) : stM (World E) unit := params_set p.
Definition ExportGenesis ctx : stM (World E) ShellTypes.Treasury.Params := params_get.
Definition QueryParams (req : option unit) : stM (World E) ShellTypes.Treasury.Params :=
  query_params params_get (ShellTypes.Treasury.mkParams "" "" "") req.

(** *** [locked_rewards.go] *)
Record LockedReward := mkLockedReward {
  Recipient : string;
  Amount : Coin;
  LockTime : Z;
  UnlockTime : Z;
  FeeType : string;
  IsUnlocked : bool
}.

(** The storage helpers do nothing. *)
Definition storeLockedReward ctx (reward : LockedReward) : stM (World E) unit := mret tt.
Definition updateLockedReward ctx (reward : LockedReward) : stM (World E) unit := mret tt.
Definition getAllLockedRewards ctx : stM (World E) (list LockedReward) := mret [].
Definition GetLockedRewardsByRecipient ctx (recipient : Slice)
    : stM (World E) (list LockedReward) := mret [].
Definition GetTotalLockedRewards ctx : stM (World E) Coins :=
  gets (λ w, GetAllBalances (w_bank w) (bytes_of (GetModuleAddress "locked_rewards"))).

(** [time.Hour * 24 * 30 * 6] *)
Definition six_months : Z := hour * 24 * 30 * 6.

Definition LockRetailWalletReward ctx (recipient : Slice) (amount : Coin)
    : stM (World E) unit :=
  let unlockTime := BlockTime ctx + six_months in
  let reward := mkLockedReward (AccAddressString recipient) amount (BlockTime ctx)
                  unlockTime "pos_payment" false in
  replace_err (storeLockedReward ctx reward) (ErrSdk "ErrInvalidRequest")
    "failed to store locked reward";;
  cs ← lift (NewCoins [amount]);
  replace_err (on_bank (SendCoins (bytes_of recipient)
      (bytes_of (GetModuleAddress "locked_rewards")) cs))
    (ErrSdk "ErrInsufficientFunds") "failed to lock reward";;
  EmitEvent "retail_reward_locked" [
    ("recipient", AStr (AccAddressString recipient));
    ("amount", ACoins [amount]);
    ("unlock_time", ATime unlockTime)].

(** The body of the loop; every [continue] ends it without an error. *)
Definition unlock_reward ctx (reward : LockedReward) : stM (World E) unit :=
  if IsUnlocked reward || (BlockTime ctx <? UnlockTime reward) then mret tt else
  match AccAddressFromBech32 (Recipient reward) with
  | (_, Some _) => mret tt
  | (recipientAddr, None) =>
  cs ← lift (NewCoins [Amount reward]);
  r ← attempt (on_bank (SendCoins (bytes_of (GetModuleAddress "locked_rewards"))
                 (bytes_of recipientAddr) cs));
  match r with
  | inr _ => mret tt
  | inl _ =>
  let reward := mkLockedReward (Recipient reward) (Amount reward) (LockTime reward)
                  (UnlockTime reward) (FeeType reward) true in
  r ← attempt (updateLockedReward ctx reward);
  match r with
  | inr _ => mret tt
  | inl _ =>
      EmitEvent "retail_reward_unlocked" [
        ("recipient", AStr (Recipient reward));
        ("amount", ACoins [Amount reward]);
        ("unlock_time", ATime (UnlockTime reward))]
  end
  end
  end.

Definition ProcessUnlockedRewards ctx : stM (World E) unit :=
  lockedRewards ← getAllLockedRewards ctx;
  for_each lockedRewards (unlock_reward ctx).

Definition DistributePOSPaymentReward ctx (totalFee : Coin) (retailWallet : Slice)
    : stM (World E) unit :=
  halfAmount ← lift (IntQuo (c_amount totalFee) 2);
  treasuryAmount ← lift (NewCoin (c_denom totalFee) halfAmount);
  retailAmount ← lift (NewCoin (c_denom totalFee) halfAmount);
  cs ← lift (NewCoins [treasuryAmount]);
  replace_err (on_bank (SendCoins (bytes_of (GetModuleAddress ModuleName))
      (bytes_of (GetModuleAddress "treasury")) cs))
    (ErrSdk "ErrInsufficientFunds") "failed to send to treasury";;
  LockRetailWalletReward ctx retailWallet retailAmount;;
  EmitEvent "pos_payment_fee_distributed" [
    ("total_fee", ACoins [totalFee]);
    ("treasury_amount", ACoins [treasuryAmount]);
    ("retail_locked_amount", ACoins [retailAmount]);
    ("retail_wallet", AStr (AccAddressString retailWallet))].
End Keeper.
End Treasury.

(** ** x/registry *)
Module Registry.
Definition ErrInvalidSigner : error := ErrReg "registry" 1100.

Section Keeper.
Context {E : Env} (k_authority : Slice).
Implicit Types ctx : Ctx.

Definition params_get : stM (World E) ShellTypes.Registry.Params :=
  coll_get "p_registry" w_registry.
Definition params_set (p : ShellTypes.Registry.Params) : stM (World E) unit :=
  coll_set "p_registry" (set_registry (Some p)).
Definition UpdateParams ctx (authority : string) (p : ShellTypes.Registry.Params)
    : stM (World E) unit :=
  check_authority k_authority ErrInvalidSigner authority;;
  lift (ShellTypes.Registry.Validate p);;
  params_set p.
Definition InitGenesis ctx (p : ShellTypes.Registry.Params) : stM (World E) unit := params_set p.
Definition ExportGenesis ctx : stM (World E) ShellTypes.Registry.Params := params_get.
Definition QueryParams (req : option unit) : stM (World E) ShellTypes.Registry.Params :=
  query_params params_get (ShellTypes.Registry.mkParams "" "" "") req.
End Keeper.
End Registry.

(** ** x/conversionpool *)
Module Conversionpool.
Definition ErrInvalidSigner : error := ErrReg "conversionpool" 1100.

Section Keeper.
Context {E : Env} (k_authority : Slice).
Implicit Types ctx : Ctx.

Definition params_get : stM (World E) ShellTypes.Conversionpool.Params :=
  coll_get "p_conversionpool" w_convpool.
Definition params_set (p : ShellTypes.Conversionpool.Params) : stM (World E) unit :=
  coll_set "p_conversionpool" (set_convpool (Some p)).
Definition UpdateParams ctx (authority : string) (p : ShellTypes.Conversionpool.Params)
    : stM (World E) unit :=
  check_authority k_authority ErrInvalidSigner authority;;
  lift (ShellTypes.Conversionpool.Validate p);;
  params_set p.
Definition InitGenesis ctx (p : ShellTypes.Conversionpool.Params) : stM (World E) unit :=
  params_set p.
Definition ExportGenesis ctx : stM (World E) ShellTypes.Conversionpool.Params := params_get.
Definition QueryParams (req : option unit) : stM (World E) ShellTypes.Conversionpool.Params :=
  query_params params_get (ShellTypes.Conversionpool.mkParams "" "" "") req.
End Keeper.
End Conversionpool.

(** ** x/cosvian *)
Module Cosvian.
Definition ErrInvalidSigner : error := ErrReg "cosvian" 1100.

Section Keeper.
Context {E : Env} (k_authority : Slice).
Implicit Types ctx : Ctx.

Definition params_get : stM (World E) ShellTypes.Empty.Params := coll_get "p_cosvian" w_cosvian.
Definition params_set (p : ShellTypes.Empty.Params) : stM (World E) unit :=
  coll_set "p_cosvian" (set_cosvian (Some p)).
Definition UpdateParams ctx (authority : string) (p : ShellTypes.Empty.Params)
    : stM (World E) unit :=
  check_authority k_authority ErrInvalidSigner authority;;
  lift (ShellTypes.Empty.Validate p);;
  params_set p.
Definition InitGenesis ctx (p : ShellTypes.Empty.Params) : stM (World E) unit := params_set p.
Definition ExportGenesis ctx : stM (World E) ShellTypes.Empty.Params := params_get.
Definition QueryParams (req : option unit) : stM (World E) ShellTypes.Empty.Params :=
  query_params params_get ShellTypes.Empty.NewParams req.
End Keeper.
End Cosvian.

(** ** What becomes of a POS reward *)
Section Rewards.
Context {E : Env} {L : EnvLaws E}.
Implicit Types w : World E.

Lemma NewCoins_one_amount d n cs :
  denom_syntax d = true → 0 ≤ n → NewCoins [mkCoin d n] = Ok cs →
  ∀ y, coins_amount cs y = if String.eqb d y then n else 0.
Proof using L.
  intros Hd Hn Hcs y. rewrite NewCoins_one in Hcs by (rewrite ?ValidateDenom_spec; done).
  injection Hcs as <-.
  destruct (Z.eqb_spec n 0) as [->|]; simpl; destruct (String.eqb d y); lia.
Qed.

Lemma NewCoin_ok d n c :
  NewCoin d n = Ok c → denom_syntax d = true ∧ 0 ≤ n ∧ c = mkCoin d n.
Proof using L.
  rewrite NewCoin_spec, ValidateDenom_spec. destruct (denom_syntax d); simpl; [|done].
  destruct (Z.leb_spec 0 n); [|done]. by intros [= <-].
Qed.

(** C37 (functional). Distributing a POS reward moves nothing to the treasury, which
    pays itself, and takes half of the fee, rounded down, from the retail wallet it
    is meant to reward. It goes to the locked rewards, of which nothing is recorded:
    no reward is ever listed, and processing unlocked rewards never does anything. *)
Theorem DistributePOSPaymentReward_spec ctx fee retail lr w w' u :
  GetModuleAddress "locked_rewards" = Some lr →
  Treasury.DistributePOSPaymentReward ctx fee retail w = (w', Ok u) →
  (∃ b' evs, w' = set_events (w_events w ++ evs) (set_bank b' w) ∧
    (∀ a d, GetBalance b' a d = GetBalance (w_bank w) a d +
       if String.eqb (c_denom fee) d then
         (if String.eqb a lr then Z.quot (c_amount fee) 2 else 0)
         - (if String.eqb a (bytes_of retail) then Z.quot (c_amount fee) 2 else 0)
       else 0) ∧
    ∀ d, GetSupply b' d = GetSupply (w_bank w) d) ∧
  (∀ ctx' w1, Treasury.ProcessUnlockedRewards ctx' w1 = (w1, Ok tt)) ∧
  (∀ ctx' a w1, Treasury.GetLockedRewardsByRecipient ctx' a w1 = (w1, Ok [])).
Proof using L.
  intros Hlr H. split; [|split; reflexivity].
  unfold Treasury.DistributePOSPaymentReward, Treasury.LockRetailWalletReward in H.
  rewrite Hlr in H. step_inv.
  repeat match goal with
  | H : EmitEvent _ _ _ = _ |- _ => injection H as <-
  | H : on_bank _ _ = _ |- _ => apply on_bank_inv in H as (? & ? & ->)
  | H : NewCoin _ _ = Ok _ |- _ => apply NewCoin_ok in H as (? & ? & ->)
  | H : Treasury.storeLockedReward _ _ _ = _ |- _ => injection H as <- _
  | H : IntQuo _ _ = Ok _ |- _ =>
      rewrite IntQuo_spec in H by done; apply int_ret_inv in H; subst
  end.
  simpl c_amount in *. simpl c_denom in *. set (half := Z.quot (c_amount fee) 2) in *.
  repeat match goal with
  | Hd : denom_syntax ?d = true, Hn : 0 ≤ ?n, H : NewCoins [mkCoin ?d ?n] = Ok ?c |- _ =>
      pose proof (NewCoins_one_amount d n c Hd Hn H); clear H
  | H : SendCoins _ _ _ _ = _ |- _ => apply SendCoins_ok in H as [? ?]
  end.
  eexists _, [_; _]. split.
  { unfold set_events, set_bank. simpl. rewrite <- app_assoc. reflexivity. }
  simpl in *. split.
  - intros ac dn. repeat match goal with
    | H : ∀ a d, GetBalance ?b a d = _ |- context [GetBalance ?b _ _] => rewrite H
    | H : ∀ y, coins_amount _ y = _ |- _ => rewrite H end.
    change Treasury.ModuleName with "treasury". repeat case_match; lia.
  - intros dn. by repeat match goal with
    | H : ∀ d, GetSupply ?b d = _ |- context [GetSupply ?b _] => rewrite H end.
Qed.
End Rewards.

(** ** Witness *)
Definition wallet_world : World ref_env :=
  with_balance "module/treasury" "ucsv" 60 (with_balance "shop" "ucsv" 100 empty_world).

Theorem DistributePOSPaymentReward_spec_witness :
  ∃ b' evs, Treasury.DistributePOSPaymentReward ref_ctx (mkCoin "ucsv" 51) (Some "shop")
      wallet_world
    = (set_events (w_events wallet_world ++ evs) (set_bank (E := ref_env) b' wallet_world),
       Ok tt) ∧
    GetBalance b' "shop" "ucsv" = 75 ∧ GetBalance b' "module/treasury" "ucsv" = 60.
Proof.
  assert (Hr0 : (Treasury.DistributePOSPaymentReward ref_ctx (mkCoin "ucsv" 51)
    (Some "shop") wallet_world).2 = Ok tt) by (vm_compute; reflexivity).
  pose proof (run_pair _ _ _ Hr0) as Hr.
  destruct (@DistributePOSPaymentReward_spec _ ref_env_laws ref_ctx (mkCoin "ucsv" 51)
    (Some "shop") "module/locked_rewards" wallet_world _ tt eq_refl Hr)
    as ((b' & evs & Hw & Hb & _) & _).
  exists b', evs. split; [rewrite <- Hw; exact Hr|].
  split; (etransitivity; [apply Hb|vm_compute; reflexivity]).
Defined.
