(* ===== verification/OsmosisIcq.v ===== *)
(** * x/osmosisicq: prices from Osmosis over interchain queries

    [src/x/osmosisicq]: [keeper/keeper.go], [keeper/decode.go],
    [keeper/osmo_integration.go], [keeper/icq_keys.go], [keeper/pricing.go],
    [keeper/msg_update_params.go], [keeper/query.go], [keeper/genesis.go],
    [types/legacy_msg.go], [module/module.go], [module/icq_register_client.go],
    [controller/adapter_stub.go]. *)

From Stdlib Require Import Strings.Ascii Strings.String.
From stdpp Require Import strings.
From S2P Require Import Prelude GoLib Json Sdk RefEnv World RefWorld Interfaces OsmoTypes.
From S2P Require Oracle.

Local Open Scope Z_scope.

(** ** Keys and prices *)

(** [icq_keys.go]; a pair of store and key. *)
Definition QueryKey : Type := string * string.
Definition BuildGammPoolKey (poolID : Z) : QueryKey := ("gamm", "pool/" +:+ fmt_d poolID).
Definition BuildTwapToNowKey (baseDenom quoteDenom : string) (windowSeconds : Z) : QueryKey :=
  ("twap", "twap/" +:+ baseDenom +:+ "/" +:+ quoteDenom +:+ "/" +:+ fmt_d windowSeconds).

(** [stubOsmoIntegration], the active integration. *)
Definition osmo_BuildTwapKey (base quote : string) (poolID window : Z) : QueryKey :=
  BuildTwapToNowKey base quote window.
Definition osmo_BuildGammPoolKey (poolID : Z) : QueryKey := BuildGammPoolKey poolID.

(** The struct [pl]. *)
Record pl := mkPl { pl_Price : string; pl_Liquidity : string }.
Definition pl_fields : list string := ["price"; "liquidity"].
Definition pl_field (f : string) (v : JVal) (j : pl) : pl * bool :=
  if String.eqb f "price" then string_field (λ s j, mkPl s (pl_Liquidity j)) v j
  else string_field (λ s j, mkPl (pl_Price j) s) v j.

Section Decode.
Context {E : Env}.

Definition decodePriceLiquidity (b : string) : res (Dec * Dec) :=
  let '(j, ok) := unmarshal_struct pl_fields pl_field (mkPl "" "") b in
  if ok && (negb (String.eqb (pl_Price j) "") || negb (String.eqb (pl_Liquidity j) "")) then
    p ← LegacyNewDecFromStr (pl_Price j);
    l ← LegacyNewDecFromStr (pl_Liquidity j);
    mret (p, l)
  else
    match GoLib.Split b "|"%char with
    | [x; y] =>
        p ← LegacyNewDecFromStr (TrimSpace x);
        l ← LegacyNewDecFromStr (TrimSpace y);
        mret (p, l)
    | _ => Err (ErrText "unsupported stub encoding")
    end.

Definition osmo_DecodeTwap (key value base quote : string) : res (Dec * Dec) :=
  decodePriceLiquidity value.
Definition osmo_DecodeSpot (key value base quote : string) : res (Dec * Dec) :=
  decodePriceLiquidity value.

(** [pricing.go] *)
Definition SpotPrice (quoteReserve baseReserve : Z) : res Dec :=
  if negb (0 <? baseReserve) then mret LegacyZeroDec
  else DecQuo (LegacyNewDecFromInt quoteReserve) (LegacyNewDecFromInt baseReserve).
Definition TwoHopPrice (pab pbc : Dec) : res Dec := DecMul pab pbc.
End Decode.

(** ** The keeper *)
Section Keeper.
Context {E : Env} {OK : OracleKeeper E}.
(** [icqClient]; [has_client] is [k.icqClient != nil]. *)
Context {IC : ICQClient E} (has_client : bool) (k_authority : Slice).
Implicit Types ctx : Ctx.

Definition osmo_set (f : OsmoStore → OsmoStore) (w : World E) : World E :=
  set_osmo (f (w_osmo w)) w.

Definition params_get : stM (World E) Params := coll_get "p_osmosisicq" (λ w, q_params (w_osmo w)).
Definition params_set (p : Params) : stM (World E) unit :=
  coll_set "p_osmosisicq" (osmo_set (λ s, mkOsmoStore (Some p) (q_last_update s)
    (q_next_update s) (q_last_result s) (q_query_ids s))).
Definition LastUpdate_get : stM (World E) Z :=
  coll_get "lu_osmosisicq" (λ w, q_last_update (w_osmo w)).
Definition LastUpdate_set (z : Z) : stM (World E) unit :=
  coll_set "lu_osmosisicq" (osmo_set (λ s, mkOsmoStore (q_params s) (Some z)
    (q_next_update s) (q_last_result s) (q_query_ids s))).
Definition NextUpdate_get : stM (World E) Z :=
  coll_get "nu_osmosisicq" (λ w, q_next_update (w_osmo w)).
Definition NextUpdate_set (z : Z) : stM (World E) unit :=
  coll_set "nu_osmosisicq" (osmo_set (λ s, mkOsmoStore (q_params s) (q_last_update s)
    (Some z) (q_last_result s) (q_query_ids s))).
Definition LastResultTime_get : stM (World E) Z :=
  coll_get "lrt_osmosisicq" (λ w, q_last_result (w_osmo w)).
Definition LastResultTime_set (z : Z) : stM (World E) unit :=
  coll_set "lrt_osmosisicq" (osmo_set (λ s, mkOsmoStore (q_params s) (q_last_update s)
    (q_next_update s) (Some z) (q_query_ids s))).
Definition QueryIDs_get (name : string) : stM (World E) string :=
  coll_get ("qid_osmosisicq" +:+ name) (λ w, q_query_ids (w_osmo w) !! name).
Definition QueryIDs_set (name id : string) : stM (World E) unit :=
  coll_set ("qid_osmosisicq" +:+ name) (osmo_set (λ s, mkOsmoStore (q_params s)
    (q_last_update s) (q_next_update s) (q_last_result s) (<[name := id]> (q_query_ids s)))).

(** Registering one query and keeping its identifier; every error is dropped. *)
Definition register ctx (params : Params) (name : string) (q : QueryKey) : stM (World E) unit :=
  if (0 <? String.length q.2)%nat then
    r ← attempt (RegisterKVQuery ctx (ConnectionId params) q.1 q.2);
    match r with
    | inl qid => ignore_err (QueryIDs_set name qid)
    | inr _ => mret tt
    end
  else mret tt.

Definition register_queries ctx (params : Params) : stM (World E) unit :=
  if has_client && negb (String.eqb (ConnectionId params) "") then
    if UseTwap params then
      register ctx params "twap" (osmo_BuildTwapKey (BaseDenom params) (QuoteDenom params)
        (PoolId params) (TwapWindowSeconds params));;
      register ctx params "spot" (osmo_BuildGammPoolKey (PoolId params))
    else register ctx params "spot" (osmo_BuildGammPoolKey (PoolId params))
  else mret tt.

Definition register_attrs (params : Params) : list (string * AttrVal) := [
  ("connection_id", AStr (ConnectionId params));
  ("pool_id", AInt (PoolId params));
  ("base_denom", AStr (BaseDenom params));
  ("quote_denom", AStr (QuoteDenom params));
  ("use_twap", ABool (UseTwap params));
  ("twap_window_seconds", AInt (TwapWindowSeconds params))].

(** Is the schedule due?  The read of the next time fails with [ErrNotFound] before
    the first schedule; then the last time is looked at. *)
Definition is_due (now interval : Z) : stM (World E) bool :=
  next ← attempt NextUpdate_get;
  match next with
  | inl next => mret (negb (now <? next))
  | inr err =>
      if negb (errors_Is err ErrNotFound) then throw err else
      last ← attempt LastUpdate_get;
      match last with
      | inl last => mret (negb (now <? i64 (last + i64 interval)))
      | inr _ => mret true
      end
  end.

Definition ScheduleQueriesIfDue ctx : stM (World E) unit :=
  params ← params_get;
  let interval := UpdateIntervalSeconds params in
  if interval =? 0 then mret tt else
  let now := unix (BlockTime ctx) in
  due ← is_due now interval;
  if negb due then mret tt else
  register_queries ctx params;;
  EmitEvent "osmosisicq_register" (register_attrs params);;
  LastUpdate_set now;;
  NextUpdate_set (i64 (now + i64 interval));;
  EmitEvent "osmosisicq_schedule" [("time", ATime (now * second))].

(** |price - lgp| / lgp *)
Definition deviation (price lgp : Dec) : res Dec :=
  diff ← DecSub price lgp;
  neg ← DecIsNegative diff;
  diff ← (if neg : bool then DecNeg diff else mret diff);
  DecQuo diff lgp.

Definition ValidateAndPersistPrice ctx (price liquidity : Dec) : stM (World E) unit :=
  params ← params_get;
  minLiq ← lift (LegacyNewDecFromStr (MinLiquidity params));
  neg ← lift (DecIsNegative liquidity);
  let liquidity := if neg : bool then LegacyZeroDec else liquidity in
  low ← lift (DecLT liquidity minLiq);
  if low : bool then
    EmitEvent "osmosisicq_price_dropped" [
      ("reason", AStr "low_liquidity");
      ("price", AStr (DecString price));
      ("liquidity", AStr (DecString liquidity))]
  else
  maxDev ← lift (LegacyNewDecFromStr (MaxDeviation params));
  lgp ← GetCSVPerUSD ctx;
  lgpZero ← lift (DecIsZero lgp);
  guarded ← (if lgpZero : bool then mret false else lift (DecIsPositive maxDev));
  dev ← (if guarded : bool then
           dev ← lift (deviation price lgp);
           far ← lift (DecGT dev maxDev);
           mret (if far : bool then Some dev else None)
         else mret None);
  match dev with
  | Some dev =>
      EmitEvent "osmosisicq_price_dropped" [
        ("reason", AStr "deviation");
        ("price", AStr (DecString price));
        ("lgp", AStr (DecString lgp));
        ("deviation", AStr (DecString dev))]
  | None =>
      SetCSVPerUSD ctx price;;
      ignore_err (LastResultTime_set (unix (BlockTime ctx)));;
      EmitEvent "osmosisicq_price_updated" [
        ("price", AStr (DecString price));
        ("liquidity", AStr (DecString liquidity))]
  end.

Definition normalizeToCSVPerUSD ctx (priceQuotePerBase : Dec) : stM (World E) Dec :=
  r ← attempt params_get;
  match r with
  | inr _ => mret priceQuotePerBase
  | inl params =>
      if String.eqb (BaseDenom params) "ucsv" && String.eqb (QuoteDenom params) "uusdc" then
        zero ← lift (DecIsZero priceQuotePerBase);
        if zero : bool then mret LegacyZeroDec
        else lift (DecQuo LegacyOneDec priceQuotePerBase)
      else mret priceQuotePerBase
  end.

Definition HandleTwapResult ctx (priceQuotePerBase liquidity : Dec) : stM (World E) unit :=
  csvPerUSD ← normalizeToCSVPerUSD ctx priceQuotePerBase;
  ValidateAndPersistPrice ctx csvPerUSD liquidity.
Definition HandleSpotResult ctx (priceQuotePerBase liquidity : Dec) : stM (World E) unit :=
  csvPerUSD ← normalizeToCSVPerUSD ctx priceQuotePerBase;
  ValidateAndPersistPrice ctx csvPerUSD liquidity.

Definition OnKVResult ctx (store key value : string) : stM (World E) unit :=
  if (String.length value =? 0)%nat then throw (ErrText "empty ICQ value") else
  if String.eqb store "twap" then
    p ← params_get;
    '(price, liquidity) ← wrap_err
      (lift (osmo_DecodeTwap key value (BaseDenom p) (QuoteDenom p))) "decode twap";
    HandleTwapResult ctx price liquidity
  else if String.eqb store "gamm" then
    p ← params_get;
    '(price, liquidity) ← wrap_err
      (lift (osmo_DecodeSpot key value (BaseDenom p) (QuoteDenom p))) "decode gamm";
    HandleSpotResult ctx price liquidity
  else mret tt.

(** ** Messages, queries, genesis, blocks *)
Definition UpdateParams ctx (authority : string) (p : Params) : stM (World E) unit :=
  check_authority k_authority ErrInvalidSigner authority;;
  lift (Validate p);;
  params_set p;;
  EmitEvent "osmosisicq_update_params" ([("authority", AStr authority)] ++ register_attrs p ++
    [("update_interval_seconds", AInt (UpdateIntervalSeconds p))]).

(** [MsgUpdateParams.ValidateBasic] and [GetSigners]; a nil message is [None]. *)
Definition ValidateBasic (m : option string) : res unit :=
  match m with
  | None => Err (ErrWrap (ErrSdk "ErrInvalidRequest") "nil MsgUpdateParams")
  | Some authority =>
      if String.eqb authority ""
      then Err (ErrWrap (ErrSdk "ErrUnauthorized") "missing authority") else mret tt
  end.
Definition GetSigners (authority : string) : list Slice :=
  match AccAddressFromBech32 authority with
  | (_, Some _) => []
  | (addr, None) => [addr]
  end.

Definition InitGenesis ctx (p : Params) : stM (World E) unit := params_set p.
Definition ExportGenesis ctx : stM (World E) Params := params_get.
Definition QueryParams (req : option unit) : stM (World E) Params :=
  query_params params_get (mkParams "" 0 0 "" "" false 0 "" "") req.

(** [QueryStatusResponse]; a time that cannot be read is zero. *)
Record Status := mkStatus {
  st_LastUpdate : Z;
  st_NextUpdate : Z;
  st_LastResultTime : Z;
  st_Queries : gmap string string
}.
Definition or_zero (m : stM (World E) Z) : stM (World E) Z :=
  r ← attempt m; mret (match r with inl z => z | inr _ => 0 end).
Definition add_query (name : string) (q : gmap string string)
    : stM (World E) (gmap string string) :=
  r ← attempt (QueryIDs_get name);
  mret (match r with inl qid => <[name := qid]> q | inr _ => q end).
Definition QueryStatus : stM (World E) Status :=
  last ← or_zero LastUpdate_get;
  next ← or_zero NextUpdate_get;
  lrt ← or_zero LastResultTime_get;
  q ← add_query "twap" ∅;
  q ← add_query "spot" q;
  mret (mkStatus last next lrt q).

(** The context is [None] when it is no [sdk.Context]; the log line of the first
    block is left out. *)
Definition BeginBlock (ctx : option Ctx) : stM (World E) unit :=
  match ctx with
  | Some ctx => ignore_err (ScheduleQueriesIfDue ctx)
  | None => mret tt
  end.
Definition EndBlock ctx : stM (World E) unit := mret tt.
End Keeper.

(** ** Clients that live in memory *)

(** [regOnlyClient]: the state is [seq], an int. *)
Definition regOnly_RegisterKVQuery (connectionID store key : string) : stM Z string :=
  modify (λ seq, i64 (seq + 1));;
  seq ← gets id;
  mret ("icq-" +:+ fmt_d seq).

(** [Adapter] *)
Record Adapter := mkAdapter {
  ad_seq : Z;
  ad_q : gmap string QueryKey
}.
Definition NewAdapter : Adapter := mkAdapter 0 ∅.
Definition Adapter_RegisterKVQuery (connectionID store key : string) : stM Adapter string :=
  a ← gets id;
  let seq := i64 (ad_seq a + 1) in
  let id := "qid-" +:+ fmt_d seq in
  modify (λ _, mkAdapter seq (<[id := (store, key)]> (ad_q a)));;
  mret id.
Definition Adapter_ReceiveKVResult {E : Env} {OK : OracleKeeper E} (a : Adapter) (ctx : Ctx)
    (queryID value : string) : stM (World E) unit :=
  match ad_q a !! queryID with
  | None => mret tt
  | Some (store, key) => OnKVResult ctx store key value
  end.

(** ** When queries are scheduled *)

(** The time before which no schedule happens. *)
Definition next_due (interval : Z) (s : OsmoStore) : option Z :=
  match q_next_update s, q_last_update s with
  | Some next, _ => Some next
  | None, Some last => Some (i64 (last + i64 interval))
  | None, None => None
  end.
Definition due (now interval : Z) (s : OsmoStore) : bool :=
  match next_due interval s with Some t => t <=? now | None => true end.

Section Schedule.
Context {E : Env} {L : EnvLaws E} {IC : ICQClient E} {ICL : ICQClientLaws E}.
Context (has_client : bool).
Implicit Types w : World E.

Lemma params_get_run p w :
  q_params (w_osmo w) = Some p → params_get w = (w, Ok p).
Proof using L. unfold params_get. rewrite coll_get_run. by intros ->. Qed.

Lemma QueryIDs_set_run name id w :
  QueryIDs_set name id w =
  (osmo_set (λ s, mkOsmoStore (q_params s) (q_last_update s) (q_next_update s)
     (q_last_result s) (<[name := id]> (q_query_ids s))) w, Ok tt).
Proof using L. unfold QueryIDs_set. by rewrite coll_set_run. Qed.

Lemma is_due_run now interval w :
  is_due now interval w = (w, Ok (due now interval (w_osmo w))).
Proof using L.
  unfold is_due, NextUpdate_get, LastUpdate_get, attempt, mbind, stM_bind, due, next_due.
  rewrite coll_get_run. destruct (q_next_update (w_osmo w)) as [n|]; simpl.
  - by rewrite <- Z.leb_antisym.
  - unfold errors_Is. simpl. rewrite coll_get_run.
    destruct (q_last_update (w_osmo w)) as [n|]; simpl; [|done].
    by rewrite <- Z.leb_antisym.
Qed.

(** What a registration may change of the module's store: the query identifiers. *)
Definition same_but_ids (s s' : OsmoStore) : Prop :=
  q_params s' = q_params s ∧ q_last_update s' = q_last_update s ∧
  q_next_update s' = q_next_update s ∧ q_last_result s' = q_last_result s ∧
  ∀ n, n ≠ "twap" → n ≠ "spot" → q_query_ids s' !! n = q_query_ids s !! n.

#[local] Instance same_but_ids_pre : PreOrder same_but_ids.
Proof.
  split.
  - by intros s.
  - intros s t u (H1 & H2 & H3 & H4 & H5) (K1 & K2 & K3 & K4 & K5).
    repeat split; try congruence. intros n Hn Hm. by rewrite K5, H5.
Qed.

(** A computation that returns and does no more than that. *)
Definition registers (m : stM (World E) unit) : Prop :=
  ∀ w, (m w).2 = Ok tt ∧ same_but_ids (w_osmo w) (w_osmo (m w).1) ∧
       w_oracle (m w).1 = w_oracle w.

Lemma registers_ret : registers (mret tt).
Proof. intros w. split_and!; [done|simpl; reflexivity|done]. Qed.

Lemma registers_bind m k : registers m → registers k → registers (m;; k).
Proof.
  intros Hm Hk w. destruct (Hm w) as (H1 & H2 & H3).
  rewrite (bind_run _ _ _ _ _ (run_pair _ _ _ H1)).
  destruct (Hk (m w).1) as (K1 & K2 & K3).
  split_and!; [done|by etransitivity|by rewrite K3].
Qed.

Lemma registers_register ctx p name q :
  name = "twap" ∨ name = "spot" → registers (register ctx p name q).
Proof using L ICL.
  intros Hname w. unfold register. destruct (0 <? _)%nat; [|apply registers_ret].
  pose proof (RegisterKVQuery_frame ctx (ConnectionId p) q.1 q.2 w) as [F1 F2].
  pose proof (RegisterKVQuery_total ctx (ConnectionId p) q.1 q.2 w) as T.
  unfold attempt, ignore_err, attempt, mbind, stM_bind.
  destruct (RegisterKVQuery _ _ _ _ w) as [w1 [qid|e|x]].
  - rewrite QueryIDs_set_run. simpl in *. split_and!; [done| |done].
    rewrite <- F1. split_and!; simpl; [done..|]. intros n Hn Hm.
    by rewrite lookup_insert_ne by (by destruct Hname as [->| ->]).
  - simpl in *. rewrite F1. split_and!; [done|reflexivity|done].
  - by destruct (T x).
Qed.

Lemma registers_all ctx p : registers (register_queries has_client ctx p).
Proof using L ICL.
  unfold register_queries. repeat case_match;
    auto using registers_ret, registers_bind, registers_register.
Qed.

(** The whole schedule: nothing when it is off or not due; else the registrations
    and the two times. *)
Lemma schedule_run ctx p w :
  q_params (w_osmo w) = Some p →
  let now := unix (BlockTime ctx) in
  let interval := UpdateIntervalSeconds p in
  if (interval =? 0) || negb (due now interval (w_osmo w))
  then ScheduleQueriesIfDue has_client ctx w = (w, Ok tt)
  else ∃ w', ScheduleQueriesIfDue has_client ctx w = (w', Ok tt) ∧
    q_params (w_osmo w') = Some p ∧
    q_last_update (w_osmo w') = Some now ∧
    q_next_update (w_osmo w') = Some (i64 (now + i64 interval)) ∧
    q_last_result (w_osmo w') = q_last_result (w_osmo w) ∧
    (∀ n, n ≠ "twap" → n ≠ "spot" →
       q_query_ids (w_osmo w') !! n = q_query_ids (w_osmo w) !! n) ∧
    w_oracle w' = w_oracle w.
Proof using L ICL.
  intros Hp now interval. unfold ScheduleQueriesIfDue.
  rewrite (bind_run _ _ _ _ _ (params_get_run _ _ Hp)). fold now interval.
  destruct (interval =? 0); [done|]. simpl.
  rewrite (bind_run _ _ _ _ _ (is_due_run now interval w)).
  destruct (due now interval (w_osmo w)); [|done].
  change (negb true) with false. cbv iota.
  destruct (registers_all ctx p w) as (H1 & (I1 & I2 & I3 & I4 & I5) & H3).
  rewrite (bind_run _ _ _ _ _ (run_pair _ _ _ H1)).
  set (w1 := (register_queries has_client ctx p w).1) in *.
  unfold EmitEvent, LastUpdate_set, NextUpdate_set.
  rewrite (bind_run (modify _) _ _ _ _ eq_refl).
  rewrite (bind_run _ _ _ _ _ (coll_set_run _ _ _)).
  rewrite (bind_run _ _ _ _ _ (coll_set_run _ _ _)).
  eexists. split; [reflexivity|]. simpl. rewrite I1. split_and!; done.
Qed.

(** One scheduling step. With the interval at zero, or before the
    scheduled time, nothing at all changes. Otherwise the call succeeds, whatever the
    ICQ client answers: it records the time of the block and the next time, one
    interval later in 64-bit arithmetic; besides these only the identifiers of the two
    queries may change, and the price of the oracle does not. *)
Theorem ScheduleQueriesIfDue_spec ctx p w :
  q_params (w_osmo w) = Some p →
  let now := unix (BlockTime ctx) in
  let interval := UpdateIntervalSeconds p in
  if (interval =? 0) || negb (due now interval (w_osmo w))
  then ScheduleQueriesIfDue has_client ctx w = (w, Ok tt)
  else ∃ w', ScheduleQueriesIfDue has_client ctx w = (w', Ok tt) ∧
    q_params (w_osmo w') = Some p ∧
    q_last_update (w_osmo w') = Some now ∧
    q_next_update (w_osmo w') = Some (i64 (now + i64 interval)) ∧
    q_last_result (w_osmo w') = q_last_result (w_osmo w) ∧
    (∀ n, n ≠ "twap" → n ≠ "spot" →
       q_query_ids (w_osmo w') !! n = q_query_ids (w_osmo w) !! n) ∧
    w_oracle w' = w_oracle w.
Proof using L ICL. apply schedule_run. Qed.

(** The blocks of a chain, one after the other. *)
Definition run_blocks (blocks : list Ctx) (w : World E) : World E :=
  foldl (λ w ctx, (BeginBlock has_client (Some ctx) w).1) w blocks.

Lemma BeginBlock_fst ctx w :
  (ScheduleQueriesIfDue has_client ctx w).2 = Ok tt →
  (BeginBlock has_client (Some ctx) w).1 = (ScheduleQueriesIfDue has_client ctx w).1.
Proof.
  unfold BeginBlock, ignore_err, attempt, mbind, stM_bind.
  destruct (ScheduleQueriesIfDue has_client ctx w) as [w1 r]. simpl. by intros ->.
Qed.

(** Between two schedules lies at least one interval, and no longer than
    it takes the chain to produce a block: once a block has scheduled its queries, every
    number of later blocks before the interval has passed leave the state of the chain
    as it is, and the first block after it schedules again. *)
Theorem BeginBlock_interval ctx p w :
  q_params (w_osmo w) = Some p →
  let now := unix (BlockTime ctx) in
  let interval := UpdateIntervalSeconds p in
  0 < interval < 2 ^ 62 → Z.abs now < 2 ^ 62 →
  due now interval (w_osmo w) = true →
  ∀ blocks ctx',
    Forall (λ c, unix (BlockTime c) < now + interval) blocks →
    now + interval ≤ unix (BlockTime ctx') →
    let w' := run_blocks [ctx] w in
    run_blocks blocks w' = w' ∧
    q_last_update (w_osmo (run_blocks (blocks ++ [ctx']) w')) = Some (unix (BlockTime ctx')).
Proof using L ICL.
  intros Hp now interval Hi Hn Hdue blocks ctx' Hb Hc w'.
  pose proof (schedule_run ctx p w Hp) as Hs. simpl in Hs. fold now interval in Hs.
  rewrite Hdue in Hs. destruct (Z.eqb_spec interval 0) as [|_]; [lia|]. simpl in Hs.
  destruct Hs as (w1 & Hs & P1 & P2 & P3 & _).
  assert (w' = w1) as ->.
  { unfold w', run_blocks. cbn [foldl]. rewrite BeginBlock_fst by (by rewrite Hs). by rewrite Hs. }
  rewrite (i64_id interval), i64_id in P3 by lia.
  assert (Hd : ∀ t, due t interval (w_osmo w1) = (now + interval <=? t)).
  { intros t. unfold due, next_due. by rewrite P3. }
  assert (Hq : run_blocks blocks w1 = w1).
  { induction Hb as [|c blocks Hlt _ IH]; [done|]. unfold run_blocks. cbn [foldl].
    pose proof (schedule_run c p w1 P1) as Hs1. simpl in Hs1. fold interval in Hs1.
    rewrite Hd, (proj2 (Z.leb_gt _ _) Hlt), orb_true_r in Hs1.
    rewrite BeginBlock_fst by (by rewrite Hs1). rewrite Hs1. exact IH. }
  split; [done|]. unfold run_blocks in *. rewrite foldl_app, Hq. cbn [foldl].
  pose proof (schedule_run ctx' p w1 P1) as Hs1. simpl in Hs1. fold interval in Hs1.
  rewrite Hd, (proj2 (Z.leb_le _ _) Hc) in Hs1.
  destruct (Z.eqb_spec interval 0) as [|_]; [lia|]. simpl in Hs1.
  destruct Hs1 as (w2 & Hs1 & _ & H2 & _).
  rewrite BeginBlock_fst by (by rewrite Hs1). by rewrite Hs1.
Qed.
End Schedule.

(** ** Which prices are accepted *)

(** |price - lgp| / lgp, rounded to 18 decimals. *)
Definition deviation_of (price lgp : Z) : Z :=
  chop (Z.quot (Z.abs (price - lgp) * precision * precision) lgp).
Definition low_liquidity (minLiq liquidity : Z) : bool := Z.max 0 liquidity <? minLiq.
Definition far_off (maxDev price lgp : Z) : bool :=
  negb (lgp =? 0) && (0 <? maxDev) && (maxDev <? deviation_of price lgp).

(** The price in CSV per USD of a price of the pool. *)
Definition normalized (p : Params) (z : Z) : Z :=
  if String.eqb (BaseDenom p) "ucsv" && String.eqb (QuoteDenom p) "uusdc" then
    if z =? 0 then 0 else chop (Z.quot (precision * precision * precision) z)
  else z.

(** A price that passes the guard deviates from the last one by no more than the
    maximum and one unit of the eighteenth decimal. *)
Lemma far_off_bound maxDev price lgp :
  0 < lgp → 0 < maxDev → far_off maxDev price lgp = false →
  precision * Z.abs (price - lgp) ≤ (maxDev + 1) * lgp.
Proof.
  intros Hl Hm. unfold far_off, deviation_of.
  rewrite (proj2 (Z.eqb_neq lgp 0)), (proj2 (Z.ltb_lt _ _) Hm) by lia. simpl.
  rewrite Z.ltb_ge. set (D := Z.abs (price - lgp)). intros Hd.
  assert (0 ≤ D) by (unfold D; lia).
  rewrite Z.quot_div_nonneg in Hd by (change precision with (10 ^ 18); lia).
  set (n := D * precision * precision) in *. pose proof (chop_bounds (n / lgp)) as Hc.
  pose proof (Z.div_mod n lgp ltac:(lia)) as Hn. pose proof (Z.mod_pos_bound n lgp Hl) as Hr.
  set (q := n / lgp) in *. set (c := chop q) in *. clearbody c q.
  change precision with 1000000000000000000 in *.
  assert (2 * q ≤ 1000000000000000000 * (2 * maxDev + 1)) by lia.
  assert (2 * (lgp * q) ≤ 1000000000000000000 * (2 * maxDev + 1) * lgp) by nia.
  nia.
Qed.

Lemma deviation_small price lgp :
  Z.abs price < 2 ^ 190 → Z.abs lgp < 2 ^ 190 → lgp ≠ 0 →
  Z.abs (deviation_of price lgp) < 2 ^ 255.
Proof.
  intros Hp Hl Hn. unfold deviation_of.
  set (n := Z.abs (price - lgp) * precision * precision).
  assert (0 ≤ n < 2 ^ 191 * 10 ^ 36) as [Hn1 Hn2].
  { unfold n. change precision with (10 ^ 18). lia. }
  assert (Hq : Z.abs (Z.quot n lgp) ≤ n).
  { rewrite <- Z.quot_abs, (Z.abs_eq n) by done.
    rewrite Z.quot_div_nonneg by lia. apply Z.div_le_upper_bound; nia. }
  pose proof (chop_bounds (Z.quot n lgp)) as Hc. clearbody n.
  set (c := chop _) in *. set (q := Z.quot n lgp) in *. clearbody c q.
  change precision with (10 ^ 18) in Hc. lia.
Qed.

Section Price.
Context {E : Env} {L : EnvLaws E} {OK : OracleKeeper E} {OKL : OracleKeeperLaws E}.
Implicit Types w : World E.

(** The outcome of [ValidateAndPersistPrice]: the price is dropped with an event, or
    it is what the oracle returns from now on. *)
Definition dropped (reason : string) (w w' : World E) : Prop :=
  ∃ attrs, w' = set_events (w_events w ++
    [mkEvent "osmosisicq_price_dropped" (("reason", AStr reason) :: attrs)]) w.
Definition accepted ctx (price : Z) (w w' : World E) : Prop :=
  (∀ ctx', GetCSVPerUSD ctx' w' = (w', Ok (Some price))) ∧
  q_last_result (w_osmo w') = Some (unix (BlockTime ctx)) ∧
  q_params (w_osmo w') = q_params (w_osmo w) ∧
  w_bank w' = w_bank w ∧ w_token w' = w_token w ∧ w_fees w' = w_fees w.

Lemma deviation_run price lgp :
  Z.abs price < 2 ^ 190 → Z.abs lgp < 2 ^ 190 → lgp ≠ 0 →
  deviation (Some price) (Some lgp) = Ok (Some (deviation_of price lgp)).
Proof using L.
  intros Hp Hl Hn. unfold deviation. rewrite DecSub_spec, dec_ret_ok by lia.
  simpl. rewrite DecIsNegative_spec. simpl.
  pose proof (deviation_small price lgp Hp Hl Hn) as Hd. unfold deviation_of in *.
  destruct (Z.ltb_spec (price - lgp) 0); [rewrite DecNeg_spec|]; simpl;
    rewrite DecQuo_spec by done.
  - rewrite (Z.abs_neq (price - lgp)) in Hd |- * by lia. by apply dec_ret_ok.
  - rewrite (Z.abs_eq (price - lgp)) in Hd |- * by lia. by apply dec_ret_ok.
Qed.

Lemma ignore_LastResult_run z w :
  ignore_err (LastResultTime_set z) w =
  (osmo_set (λ s, mkOsmoStore (q_params s) (q_last_update s) (q_next_update s) (Some z)
     (q_query_ids s)) w, Ok tt).
Proof using L.
  unfold ignore_err, attempt, mbind, stM_bind, LastResultTime_set. by rewrite coll_set_run.
Qed.

Lemma validate_run ctx p minLiq maxDev lgp price liq w :
  q_params (w_osmo w) = Some p →
  LegacyNewDecFromStr (MinLiquidity p) = Ok (Some minLiq) →
  LegacyNewDecFromStr (MaxDeviation p) = Ok (Some maxDev) →
  GetCSVPerUSD ctx w = (w, Ok (Some lgp)) →
  Z.abs price < 2 ^ 190 → Z.abs lgp < 2 ^ 190 →
  ∃ w', ValidateAndPersistPrice ctx (Some price) (Some liq) w = (w', Ok tt) ∧
    if low_liquidity minLiq liq then dropped "low_liquidity" w w'
    else if far_off maxDev price lgp then dropped "deviation" w w'
    else accepted ctx price w w'.
Proof using L OKL.
  intros Hp Hmin Hmax Hlgp Bp Bl. unfold ValidateAndPersistPrice.
  rewrite (bind_run _ _ _ _ _ (params_get_run _ _ Hp)), Hmin, DecIsNegative_spec.
  rewrite (bind_run (lift _) _ _ _ _ eq_refl), (bind_run (lift _) _ _ _ _ eq_refl).
  assert ((if liq <? 0 then LegacyZeroDec else Some liq) = Some (Z.max 0 liq)) as ->.
  { unfold LegacyZeroDec. destruct (Z.ltb_spec liq 0); f_equal; lia. }
  cbv zeta. rewrite DecLT_spec, (bind_run (lift _) _ _ _ _ eq_refl).
  unfold low_liquidity. destruct (Z.max 0 liq <? minLiq); cbv iota.
  { eexists. split; [reflexivity|]. by eexists. }
  rewrite Hmax, (bind_run (lift _) _ _ _ _ eq_refl), (bind_run _ _ _ _ _ Hlgp).
  rewrite DecIsZero_spec, DecIsPositive_spec, (bind_run (lift _) _ _ _ _ eq_refl).
  set (g := negb (lgp =? 0) && (0 <? maxDev)).
  assert (Hg : (if lgp =? 0 then mret false else lift (Ok (0 <? maxDev))) w = (w, Ok g)).
  { unfold g. by destruct (lgp =? 0). }
  rewrite (bind_run _ _ _ _ _ Hg).
  set (d := if far_off maxDev price lgp then Some (Some (deviation_of price lgp)) else None).
  match goal with |- context [(mbind ?k ?m) w] =>
    match m with (if g then _ else _) => assert (Hd : m w = (w, Ok d)) end end.
  { unfold d, far_off. fold g. destruct g eqn:Eg; [|done]. unfold g in Eg.
    apply andb_true_iff in Eg as [Eg _]. rewrite negb_true_iff, Z.eqb_neq in Eg.
    rewrite deviation_run, (bind_run (lift _) _ _ _ _ eq_refl) by done.
    by rewrite DecGT_spec, (bind_run (lift _) _ _ _ _ eq_refl). }
  rewrite (bind_run _ _ _ _ _ Hd). unfold d.
  destruct (far_off maxDev price lgp); cbv iota.
  { eexists. split; [reflexivity|]. by eexists. }
  destruct (SetCSVPerUSD_total ctx (Some price) w) as [o Ho].
  rewrite (bind_run _ _ _ _ _ Ho), (bind_run _ _ _ _ _ (ignore_LastResult_run _ _)).
  eexists. split; [reflexivity|]. split_and!; try done. intros ctx'.
  pose proof dec_limit_ge.
  pose proof (SetCSVPerUSD_get ctx ctx' price w _ _ Ho ltac:(lia)) as Hget.
  match goal with |- _ ?w' = _ => set (w2 := w') end.
  destruct (GetCSVPerUSD_total ctx' w2) as (z & Hz & _).
  pose proof (GetCSVPerUSD_frame ctx' (set_oracle o w) w2 eq_refl) as Hf.
  rewrite Hget, Hz in Hf. simpl in Hf. injection Hf as ->. exact Hz.
Qed.

(** C36 (functional). A price reported by Osmosis is dropped, with one event and no other
    change, when the liquidity is below the minimum, or when a last price is known and
    the new one deviates from it by more than the maximum; otherwise the oracle returns
    the new price from then on. With a positive last price and a positive maximum, an
    accepted price is within the maximum of it, up to one unit of the last decimal; with
    no last price, or with a maximum of zero, every price is accepted, negative ones
    included. *)
Theorem ValidateAndPersistPrice_spec ctx p minLiq maxDev lgp price liq w :
  q_params (w_osmo w) = Some p →
  LegacyNewDecFromStr (MinLiquidity p) = Ok (Some minLiq) →
  LegacyNewDecFromStr (MaxDeviation p) = Ok (Some maxDev) →
  GetCSVPerUSD ctx w = (w, Ok (Some lgp)) →
  Z.abs price < 2 ^ 190 → Z.abs lgp < 2 ^ 190 →
  ∃ w', ValidateAndPersistPrice ctx (Some price) (Some liq) w = (w', Ok tt) ∧
    (dropped "low_liquidity" w w' ∧ Z.max 0 liq < minLiq ∨
     minLiq ≤ Z.max 0 liq ∧
       (dropped "deviation" w w' ∧ lgp ≠ 0 ∧ 0 < maxDev < deviation_of price lgp ∨
        accepted ctx price w w' ∧
          (lgp = 0 ∨ maxDev ≤ 0 ∨ deviation_of price lgp ≤ maxDev) ∧
          (0 < lgp → 0 < maxDev →
             precision * Z.abs (price - lgp) ≤ (maxDev + 1) * lgp))).
Proof using L OKL.
  intros Hp Hmin Hmax Hlgp Bp Bl.
  destruct (validate_run ctx p minLiq maxDev lgp price liq w) as (w' & Hw & Hc); try done.
  exists w'. split; [done|]. unfold low_liquidity in Hc.
  destruct (Z.ltb_spec (Z.max 0 liq) minLiq); [by left|]. right. split; [done|].
  pose proof (far_off_bound maxDev price lgp) as Hbound.
  unfold far_off in *. destruct (Z.eqb_spec lgp 0), (Z.ltb_spec 0 maxDev),
    (Z.ltb_spec maxDev (deviation_of price lgp)); simpl in *;
    (left; by auto) || (right; split_and!; auto with lia).
Qed.
End Price.

(** ** From an answer to a price *)
Section Answer.
Context {E : Env} {L : EnvLaws E} {OK : OracleKeeper E} {OKL : OracleKeeperLaws E}.
Implicit Types w : World E.

Lemma unmarshal_pl ps ls :
  utf8_valid ps = true → utf8_valid ls = true →
  unmarshal_struct pl_fields pl_field (mkPl "" "")
    (enc_object [("price", ps); ("liquidity", ls)]) = (mkPl ps ls, true).
Proof.
  intros Hp Hl. unfold unmarshal_struct. rewrite json_parse_enc_object; [done|done|].
  unfold members_valid. cbn [forallb]. by rewrite Hp, Hl.
Qed.

Lemma decode_pl ps ls z l :
  utf8_valid ps = true → utf8_valid ls = true → ps ≠ "" →
  LegacyNewDecFromStr ps = Ok (Some z) → LegacyNewDecFromStr ls = Ok (Some l) →
  decodePriceLiquidity (enc_object [("price", ps); ("liquidity", ls)])
  = Ok (Some z, Some l).
Proof.
  intros Up Ul Hne Hp Hl. unfold decodePriceLiquidity. rewrite unmarshal_pl by done.
  simpl. destruct (String.eqb_spec ps ""); [done|]. simpl. by rewrite Hp, Hl.
Qed.

Lemma normalized_small p z : Z.abs z < 2 ^ 190 → Z.abs (normalized p z) < 2 ^ 190.
Proof.
  intros Hz. unfold normalized. case_match; [|done].
  destruct (Z.eqb_spec z 0) as [|Hn]; [lia|]. set (n := precision * precision * precision).
  assert (Hq : Z.abs (Z.quot n z) ≤ n).
  { rewrite <- Z.quot_abs, (Z.abs_eq n) by (done || (by vm_compute)).
    rewrite Z.quot_div_nonneg by (try lia; by vm_compute).
    apply Z.div_le_upper_bound; [lia|]. assert (0 ≤ n) by (by vm_compute). nia. }
  pose proof (chop_bounds (Z.quot n z)) as Hc. assert (n = 10 ^ 54) as -> by reflexivity.
  set (q := Z.quot _ _) in *. set (c := chop q) in *. clearbody c q.
  change precision with (10 ^ 18) in Hc. lia.
Qed.

Lemma normalize_run ctx p z w :
  q_params (w_osmo w) = Some p → Z.abs z < 2 ^ 190 →
  normalizeToCSVPerUSD ctx (Some z) w = (w, Ok (Some (normalized p z))).
Proof using L.
  intros Hp Hz. pose proof (normalized_small p z Hz) as Hs.
  unfold normalizeToCSVPerUSD, attempt. unfold mbind at 1, stM_bind at 1.
  rewrite (params_get_run _ _ Hp). unfold normalized in *.
  destruct (_ && _); [|done]. rewrite DecIsZero_spec, (bind_run (lift _) _ _ _ _ eq_refl).
  destruct (Z.eqb_spec z 0); [done|]. unfold LegacyOneDec, lift.
  rewrite DecQuo_spec, dec_ret_ok by lia. done.
Qed.

(** The run of [OnKVResult] on an answer in JSON. *)
Lemma kv_run ctx p minLiq maxDev lgp ps ls z liq store key w :
  q_params (w_osmo w) = Some p →
  LegacyNewDecFromStr (MinLiquidity p) = Ok (Some minLiq) →
  LegacyNewDecFromStr (MaxDeviation p) = Ok (Some maxDev) →
  GetCSVPerUSD ctx w = (w, Ok (Some lgp)) → Z.abs lgp < 2 ^ 190 →
  utf8_valid ps = true → utf8_valid ls = true → ps ≠ "" →
  LegacyNewDecFromStr ps = Ok (Some z) → LegacyNewDecFromStr ls = Ok (Some liq) →
  Z.abs z < 2 ^ 190 →
  ∃ w', OnKVResult ctx store key (enc_object [("price", ps); ("liquidity", ls)]) w
          = (w', Ok tt) ∧
    if String.eqb store "twap" || String.eqb store "gamm" then
      if low_liquidity minLiq liq then dropped "low_liquidity" w w'
      else if far_off maxDev (normalized p z) lgp then dropped "deviation" w w'
      else accepted ctx (normalized p z) w w'
    else w' = w.
Proof using L OKL.
  intros Hp Hmin Hmax Hlgp Bl Up Ul Hne Hz Hl Bz. unfold OnKVResult.
  change (String.length (enc_object _) =? 0)%nat with false. cbv iota.
  pose proof (normalize_run ctx p z w Hp Bz) as Hn.
  pose proof (decode_pl ps ls z liq Up Ul Hne Hz Hl) as Hd.
  pose proof (validate_run ctx p minLiq maxDev lgp (normalized p z) liq w
    Hp Hmin Hmax Hlgp (normalized_small p z Bz) Bl) as (w' & Hw & Hc).
  destruct (String.eqb store "twap"); [|destruct (String.eqb store "gamm"); [|by exists w]].
  all: exists w'; split; [|exact Hc].
  all: rewrite (bind_run _ _ _ _ _ (params_get_run _ _ Hp)).
  all: unfold osmo_DecodeTwap, osmo_DecodeSpot; rewrite Hd.
  all: assert (Hr : ∀ d, wrap_err (lift (Ok (Some z, Some liq))) d w
                         = (w, Ok (Some z, Some liq))) by done.
  all: rewrite (bind_run _ _ _ _ _ (Hr _)).
  all: unfold HandleTwapResult, HandleSpotResult; by rewrite (bind_run _ _ _ _ _ Hn).
Qed.

(** C11 (refinement). An answer [{"price": ps, "liquidity": ls}] for the pool or the
    average price is checked and kept as one price: the reported one where the pair is
    not ucsv and uusdc, else its inverse, rounded to 18 decimals; an answer about any
    other store changes nothing. *)
Theorem OnKVResult_spec ctx p minLiq maxDev lgp ps ls z liq store key w :
  q_params (w_osmo w) = Some p →
  LegacyNewDecFromStr (MinLiquidity p) = Ok (Some minLiq) →
  LegacyNewDecFromStr (MaxDeviation p) = Ok (Some maxDev) →
  GetCSVPerUSD ctx w = (w, Ok (Some lgp)) → Z.abs lgp < 2 ^ 190 →
  utf8_valid ps = true → utf8_valid ls = true → ps ≠ "" →
  LegacyNewDecFromStr ps = Ok (Some z) → LegacyNewDecFromStr ls = Ok (Some liq) →
  Z.abs z < 2 ^ 190 →
  ∃ w', OnKVResult ctx store key (enc_object [("price", ps); ("liquidity", ls)]) w
          = (w', Ok tt) ∧
    if String.eqb store "twap" || String.eqb store "gamm" then
      if low_liquidity minLiq liq then dropped "low_liquidity" w w'
      else if far_off maxDev (normalized p z) lgp then dropped "deviation" w w'
      else accepted ctx (normalized p z) w w'
    else w' = w.
Proof using L OKL. apply kv_run. Qed.
End Answer.

(** ** Witnesses *)
#[local] Existing Instance Oracle.oracle_keeper.

(** An ICQ client that answers every registration. *)
Definition yes_client : ICQClient ref_env := {|
  RegisterKVQuery ctx connection store key := mret ("id/" +:+ store)
|}.
#[local] Existing Instance yes_client.

Lemma yes_client_laws : ICQClientLaws ref_env.
Proof. constructor; [done|]. intros. simpl. done. Qed.

(** The pair of the pool is ucsv and uusdc; the last price is 0.4 CSV per USD. *)
Definition pool_params : Params :=
  mkParams "connection-0" 30 1464 "ucsv" "uusdc" true 300 "100" "0.5".
Definition pool_world : World ref_env :=
  set_oracle (mkOracleStore None {["CSV_USD" := "0.4"]})
    (set_osmo (mkOsmoStore (Some pool_params) None None None ∅) empty_world).
Definition at_time (t : Z) : Ctx := mkCtx (t * second) 7 None None InfiniteGasMeter None.

Theorem ScheduleQueriesIfDue_spec_witness :
  ∃ w', ScheduleQueriesIfDue true ref_ctx pool_world = (w', Ok tt) ∧
    q_next_update (w_osmo w') = Some 1700000030.
Proof.
  pose proof (@ScheduleQueriesIfDue_spec _ ref_env_laws _ yes_client_laws true ref_ctx
    pool_params pool_world eq_refl) as H. simpl in H.
  destruct H as (w' & Hw & _ & _ & Hn & _). exists w'. split; [exact Hw|exact Hn].
Defined.

Theorem BeginBlock_interval_witness :
  run_blocks true [at_time 1700000012; at_time 1700000024] (run_blocks true [ref_ctx] pool_world)
  = run_blocks true [ref_ctx] pool_world.
Proof.
  apply (@BeginBlock_interval _ ref_env_laws _ yes_client_laws true ref_ctx pool_params
    pool_world) with (ctx' := at_time 1700000060).
  - reflexivity.
  - split; vm_compute; reflexivity.
  - vm_compute. reflexivity.
  - vm_compute. reflexivity.
  - repeat constructor.
  - vm_compute. discriminate.
Defined.

Theorem ValidateAndPersistPrice_spec_witness :
  ∃ w', ValidateAndPersistPrice ref_ctx (Some (5 * 10 ^ 17)) (Some (200 * 10 ^ 18)) pool_world
        = (w', Ok tt) ∧
    GetCSVPerUSD ref_ctx w' = (w', Ok (Some (5 * 10 ^ 17))).
Proof.
  destruct (@ValidateAndPersistPrice_spec _ ref_env_laws _ (@Oracle.oracle_keeper_laws _ ref_env_laws)
    ref_ctx pool_params (100 * 10 ^ 18) (5 * 10 ^ 17) (4 * 10 ^ 17) (5 * 10 ^ 17)
    (200 * 10 ^ 18) pool_world) as (w' & Hw & Hc).
  - reflexivity.
  - vm_compute. reflexivity.
  - vm_compute. reflexivity.
  - assert (H : (GetCSVPerUSD ref_ctx pool_world).2 = Ok (Some (4 * 10 ^ 17)))
      by (vm_compute; reflexivity). exact (run_pair _ _ _ H).
  - vm_compute. reflexivity.
  - vm_compute. reflexivity.
  - exists w'. split; [exact Hw|].
    destruct Hc as [[_ Hc]|[_ [[_ (_ & _ & Hc)]|[[Ha _] _]]]].
    + vm_compute in Hc. discriminate.
    + vm_compute in Hc. discriminate.
    + apply Ha.
Defined.

Theorem OnKVResult_spec_witness :
  ∃ w', OnKVResult ref_ctx "gamm" "pool/1464"
          (enc_object [("price", "2.0"); ("liquidity", "150")]) pool_world = (w', Ok tt) ∧
    accepted ref_ctx (5 * 10 ^ 17) pool_world w'.
Proof.
  destruct (@OnKVResult_spec _ ref_env_laws _ (@Oracle.oracle_keeper_laws _ ref_env_laws)
    ref_ctx pool_params (100 * 10 ^ 18) (5 * 10 ^ 17) (4 * 10 ^ 17) "2.0" "150" (2 * 10 ^ 18)
    (150 * 10 ^ 18) "gamm" "pool/1464" pool_world) as (w' & Hw & Hc).
  - reflexivity.
  - vm_compute. reflexivity.
  - vm_compute. reflexivity.
  - assert (H : (GetCSVPerUSD ref_ctx pool_world).2 = Ok (Some (4 * 10 ^ 17)))
      by (vm_compute; reflexivity). exact (run_pair _ _ _ H).
  - vm_compute. reflexivity.
  - reflexivity.
  - reflexivity.
  - discriminate.
  - vm_compute. reflexivity.
  - vm_compute. reflexivity.
  - vm_compute. reflexivity.
  - exists w'. split; [exact Hw|].
    assert (Hb : normalized pool_params (2 * 10 ^ 18) = 5 * 10 ^ 17)
      by (vm_compute; reflexivity).
    rewrite Hb in Hc. exact Hc.
Defined.
