(* ===== verification/Base64.v ===== *)
(** * Package [encoding/base64]: [StdEncoding]

    Three bytes become four characters of the alphabet, a last group of one or two
    bytes is padded with [=].  The decoder ignores line breaks and the unused bits of
    the last group. *)

From Stdlib Require Import Strings.Ascii Strings.String.
From stdpp Require Import strings.
From S2P Require Import Prelude GoLib.

Local Open Scope Z_scope.

Definition alphabet : string :=
  "ABCDEFGHIJKLMNOPQRSTUVWXYZabcdefghijklmnopqrstuvwxyz0123456789+/".

(** The character of six bits, and the six bits of a character. *)
Definition b64_char (n : Z) : ascii :=
  default "A"%char (String.get (Z.to_nat n) alphabet).
Fixpoint index_of (c : ascii) (s : string) : option Z :=
  match s with
  | EmptyString => None
  | String x s' => if Ascii.eqb x c then Some 0 else Z.succ <$> index_of c s'
  end.
Definition b64_val (c : ascii) : option Z := index_of c alphabet.

(** [StdEncoding.EncodeToString] *)
Fixpoint EncodeToString (s : string) : string :=
  match s with
  | EmptyString => EmptyString
  | String a EmptyString =>
      let n := Z.shiftl (byte_code a) 4 in
      String (b64_char (Z.shiftr n 6)) (String (b64_char (Z.land n 63)) "==")
  | String a (String b EmptyString) =>
      let n := Z.shiftl (Z.lor (Z.shiftl (byte_code a) 8) (byte_code b)) 2 in
      String (b64_char (Z.shiftr n 12))
        (String (b64_char (Z.land (Z.shiftr n 6) 63)) (String (b64_char (Z.land n 63)) "="))
  | String a (String b (String c s')) =>
      let n := Z.lor (Z.lor (Z.shiftl (byte_code a) 16) (Z.shiftl (byte_code b) 8))
                 (byte_code c) in
      String (b64_char (Z.shiftr n 18))
        (String (b64_char (Z.land (Z.shiftr n 12) 63))
          (String (b64_char (Z.land (Z.shiftr n 6) 63))
            (String (b64_char (Z.land n 63)) (EncodeToString s'))))
  end.

(** [StdEncoding.DecodeString]; [None] is an error. *)
Fixpoint strip_newlines (s : string) : string :=
  match s with
  | EmptyString => EmptyString
  | String c s' =>
      if (byte_code c =? 10) || (byte_code c =? 13) then strip_newlines s'
      else String c (strip_newlines s')
  end.
Fixpoint decode_groups (s : string) : option string :=
  match s with
  | EmptyString => Some EmptyString
  | String a (String b (String c (String d s'))) =>
      x ← b64_val a; y ← b64_val b;
      if Ascii.eqb c "="%char then
        if Ascii.eqb d "="%char && String.eqb s' EmptyString
        then Some (String (byte_of (Z.shiftr (Z.lor (Z.shiftl x 6) y) 4)) EmptyString)
        else None
      else
        z ← b64_val c;
        if Ascii.eqb d "="%char then
          let n := Z.shiftr (Z.lor (Z.shiftl (Z.lor (Z.shiftl x 6) y) 6) z) 2 in
          if String.eqb s' EmptyString
          then Some (String (byte_of (Z.shiftr n 8))
                      (String (byte_of (Z.land n 255)) EmptyString))
          else None
        else
          w ← b64_val d;
          let n := Z.lor (Z.shiftl (Z.lor (Z.shiftl (Z.lor (Z.shiftl x 6) y) 6) z) 6) w in
          rest ← decode_groups s';
          Some (String (byte_of (Z.shiftr n 16))
                 (String (byte_of (Z.land (Z.shiftr n 8) 255))
                   (String (byte_of (Z.land n 255)) rest)))
  | _ => None
  end.
Definition DecodeString (s : string) : option string := decode_groups (strip_newlines s).

Example encode_man : EncodeToString "Man" = "TWFu".
Proof. reflexivity. Qed.
Example encode_light : EncodeToString "light wor" = "bGlnaHQgd29y".
Proof. reflexivity. Qed.
Example decode_padded : DecodeString "bGlnaHQgdw==" = Some "light w".
Proof. reflexivity. Qed.

(** ** Decoding undoes encoding *)
Lemma lor_add x y k :
  0 ≤ k → 0 ≤ y < 2 ^ k → Z.lor (Z.shiftl x k) y = x * 2 ^ k + y.
Proof.
  intros Hk Hy. rewrite <- Z.shiftl_mul_pow2 by done.
  assert (Z.land (Z.shiftl x k) y = 0) as H.
  { apply Z.bits_inj'. intros n Hn. rewrite Z.land_spec, Z.bits_0.
    destruct (Z.ltb_spec n k).
    - by rewrite Z.shiftl_spec_low.
    - rewrite <- (Z.mod_small y (2 ^ k)), Z.mod_pow2_bits_high by lia.
      apply andb_false_r. }
  pose proof (Z.add_lor_land (Z.shiftl x k) y). lia.
Qed.

Lemma land_ones n k : 0 ≤ k → Z.land n (2 ^ k - 1) = n mod 2 ^ k.
Proof. intros Hk. rewrite <- Z.land_ones by done. f_equal. by rewrite Z.ones_equiv. Qed.

Lemma shiftr_div n k : 0 ≤ k → Z.shiftr n k = n / 2 ^ k.
Proof. apply Z.shiftr_div_pow2. Qed.

Definition sextet_ok (n : Z) : bool :=
  match b64_val (b64_char n) with
  | Some m => (m =? n) && negb (Ascii.eqb (b64_char n) "="%char)
              && negb (byte_code (b64_char n) =? 10) && negb (byte_code (b64_char n) =? 13)
  | None => false
  end.

Lemma sextet n :
  0 ≤ n < 64 →
  b64_val (b64_char n) = Some n ∧ Ascii.eqb (b64_char n) "="%char = false ∧
  (byte_code (b64_char n) =? 10) || (byte_code (b64_char n) =? 13) = false.
Proof.
  intros Hn. assert (sextet_ok n = true) as H.
  { assert (Hall : forallb (λ k, sextet_ok (Z.of_nat k)) (seq 0 64) = true) by reflexivity.
    rewrite forallb_forall in Hall. rewrite <- (Z2Nat.id n) by lia.
    apply Hall, in_seq. lia. }
  unfold sextet_ok in H. destruct (b64_val (b64_char n)) as [m|]; [|done].
  rewrite !andb_true_iff, !negb_true_iff, Z.eqb_eq in H.
  destruct H as [[[-> H1] H2] H3]. by rewrite H1, H2, H3.
Qed.

Lemma byte_range c : 0 ≤ byte_code c < 256.
Proof. unfold byte_code. pose proof (nat_ascii_bounded c). lia. Qed.

Lemma byte_of_code c : byte_of (byte_code c) = c.
Proof. unfold byte_of, byte_code. by rewrite Nat2Z.id, ascii_nat_embedding. Qed.

Lemma triple_ind (P : string → Prop) :
  P EmptyString → (∀ a, P (String a EmptyString)) →
  (∀ a b, P (String a (String b EmptyString))) →
  (∀ a b c s, P s → P (String a (String b (String c s)))) → ∀ s, P s.
Proof.
  intros H0 H1 H2 H3.
  cut (∀ n s, (String.length s < n)%nat → P s).
  { intros H s. apply (H (S (String.length s))). lia. }
  induction n as [|n IH]; intros s Hn; [lia|].
  destruct s as [|a [|b [|c s]]]; auto. simpl in Hn. apply H3, IH. lia.
Qed.

Lemma strip_sextet n s :
  0 ≤ n < 64 →
  strip_newlines (String (b64_char n) s) = String (b64_char n) (strip_newlines s).
Proof. intros Hn. simpl. by rewrite (proj2 (proj2 (sextet n Hn))). Qed.

(** Joining six bits to a number, and taking the digits of a number. *)
Lemma join6 x y : 0 ≤ y < 64 → Z.lor (Z.shiftl x 6) y = x * 64 + y.
Proof. intros Hy. by apply (lor_add x y 6). Qed.
Lemma low6 n : Z.land n 63 = n mod 64.
Proof. by apply (land_ones n 6). Qed.
Lemma low8 n : Z.land n 255 = n mod 256.
Proof. by apply (land_ones n 8). Qed.

Lemma decode_four x y z w s :
  0 ≤ x < 64 → 0 ≤ y < 64 → 0 ≤ z < 64 → 0 ≤ w < 64 →
  let n := ((x * 64 + y) * 64 + z) * 64 + w in
  decode_groups (String (b64_char x) (String (b64_char y)
    (String (b64_char z) (String (b64_char w) s)))) =
  rest ← decode_groups s;
  Some (String (byte_of (n / 65536)) (String (byte_of (n / 256 mod 256))
    (String (byte_of (n mod 256)) rest))).
Proof.
  intros Hx Hy Hz Hw n. destruct (sextet x Hx) as (Vx & _ & _), (sextet y Hy) as (Vy & _ & _),
    (sextet z Hz) as (Vz & Ez & _), (sextet w Hw) as (Vw & Ew & _).
  cbn [decode_groups]. rewrite Vx, Vy, Vz, Vw, Ez, Ew. simpl.
  rewrite !join6 by done. fold n. rewrite !low8, !shiftr_div by done. done.
Qed.

Lemma decode_three x y z :
  0 ≤ x < 64 → 0 ≤ y < 64 → 0 ≤ z < 64 →
  let n := ((x * 64 + y) * 64 + z) / 4 in
  decode_groups (String (b64_char x) (String (b64_char y) (String (b64_char z) "="))) =
  Some (String (byte_of (n / 256)) (String (byte_of (n mod 256)) EmptyString)).
Proof.
  intros Hx Hy Hz n. destruct (sextet x Hx) as (Vx & _ & _), (sextet y Hy) as (Vy & _ & _),
    (sextet z Hz) as (Vz & Ez & _).
  cbn [decode_groups]. rewrite Vx, Vy, Vz, Ez. simpl.
  rewrite !join6 by done. rewrite low8, !shiftr_div by done. done.
Qed.

Lemma decode_two x y :
  0 ≤ x < 64 → 0 ≤ y < 64 →
  decode_groups (String (b64_char x) (String (b64_char y) "==")) =
  Some (String (byte_of ((x * 64 + y) / 16)) EmptyString).
Proof.
  intros Hx Hy. destruct (sextet x Hx) as (Vx & _ & _), (sextet y Hy) as (Vy & _ & _).
  cbn [decode_groups]. rewrite Vx, Vy. simpl. rewrite join6, shiftr_div by done. done.
Qed.

Lemma byte_of_eq c z : z = byte_code c → byte_of z = c.
Proof. intros ->. apply byte_of_code. Qed.

(** Arithmetic on quotients and remainders by powers of two. *)
Ltac digits :=
  change (2 ^ 16) with 65536 in *; change (2 ^ 18) with 262144 in *;
  change (2 ^ 12) with 4096 in *; change (2 ^ 8) with 256 in *; change (2 ^ 6) with 64 in *;
  change (2 ^ 4) with 16 in *; change (2 ^ 2) with 4 in *;
  Z.div_mod_to_equations; lia.

Lemma group3 a b c :
  Z.lor (Z.lor (Z.shiftl (byte_code a) 16) (Z.shiftl (byte_code b) 8)) (byte_code c)
  = (byte_code a * 256 + byte_code b) * 256 + byte_code c.
Proof.
  pose proof (byte_range a). pose proof (byte_range b). pose proof (byte_range c).
  rewrite (lor_add _ (Z.shiftl (byte_code b) 8) 16)
    by (rewrite ?Z.shiftl_mul_pow2 by done; lia).
  replace (byte_code a * 2 ^ 16 + Z.shiftl (byte_code b) 8)
    with (Z.shiftl (byte_code a * 256 + byte_code b) 8)
    by (rewrite !Z.shiftl_mul_pow2 by done; lia).
  by rewrite (lor_add _ _ 8).
Qed.

Lemma decode_encode s : DecodeString (EncodeToString s) = Some s.
Proof.
  unfold DecodeString.
  induction s as [|a|a b|a b c s IH] using triple_ind; [done|..]; cbn [EncodeToString].
  - pose proof (byte_range a). rewrite Z.shiftl_mul_pow2, low6, shiftr_div by done.
    rewrite !strip_sextet by digits. change (strip_newlines "==") with "==".
    rewrite decode_two by digits. do 2 f_equal. apply byte_of_eq. digits.
  - pose proof (byte_range a). pose proof (byte_range b).
    rewrite (lor_add _ _ 8), Z.shiftl_mul_pow2, !low6, !shiftr_div by (done || lia).
    rewrite !strip_sextet by digits. change (strip_newlines "=") with "=".
    rewrite decode_three by digits. do 2 f_equal; [|f_equal]; apply byte_of_eq; digits.
  - pose proof (byte_range a). pose proof (byte_range b). pose proof (byte_range c).
    rewrite group3, !low6, !shiftr_div by done. rewrite !strip_sextet by digits.
    rewrite decode_four, IH by digits. simpl.
    do 2 f_equal; [|f_equal; [|f_equal]]; apply byte_of_eq; digits.
Qed.

(** Encoded text is ASCII. *)
Lemma b64_char_ascii n : 0 ≤ n < 64 → is_ascii_byte (b64_char n) = true.
Proof.
  intros Hn.
  assert (Hall : forallb (λ k, is_ascii_byte (b64_char (Z.of_nat k))) (seq 0 64) = true)
    by reflexivity.
  rewrite forallb_forall in Hall. rewrite <- (Z2Nat.id n) by lia. apply Hall, in_seq. lia.
Qed.

Lemma b64_cons_ascii n s : 0 ≤ n < 64 → is_ascii (String (b64_char n) s) = is_ascii s.
Proof. intros Hn. simpl. by rewrite b64_char_ascii. Qed.

Lemma EncodeToString_ascii s : is_ascii (EncodeToString s) = true.
Proof.
  induction s as [|a|a b|a b c s IH] using triple_ind; [done|..]; cbn [EncodeToString].
  - pose proof (byte_range a). rewrite Z.shiftl_mul_pow2, low6, shiftr_div by done.
    by rewrite !b64_cons_ascii by digits.
  - pose proof (byte_range a). pose proof (byte_range b).
    rewrite (lor_add _ _ 8), Z.shiftl_mul_pow2, !low6, !shiftr_div by (done || lia).
    by rewrite !b64_cons_ascii by digits.
  - pose proof (byte_range a). pose proof (byte_range b). pose proof (byte_range c).
    rewrite group3, !low6, !shiftr_div by done. by rewrite !b64_cons_ascii by digits.
Qed.
