(* ===== verification/IbcTypes.v ===== *)
(** * What x/icqcontroller and x/pricefeed use of ibc-go

    Packets, acknowledgements and the errors of the two modules' handshakes.  The
    encoding of packets and acknowledgements is not part of the repository: it is a
    class of operations. *)

From Stdlib Require Import Strings.Ascii Strings.String.
From stdpp Require Import strings.
From S2P Require Import Prelude GoLib Sdk World.

Local Open Scope Z_scope.

(** [channeltypes.Acknowledgement]: the oneof [Response]. *)
Inductive Acknowledgement : Type :=
| AckResult (result : string)
| AckError (error : string)
| AckNone.

#[export] Instance Acknowledgement_eq_dec : EqDecision Acknowledgement.
Proof. solve_decision. Defined.

Definition Success (a : Acknowledgement) : bool :=
  match a with AckResult _ => true | _ => false end.
Definition GetError (a : Acknowledgement) : string :=
  match a with AckError e => e | _ => "" end.
Definition GetResult (a : Acknowledgement) : string :=
  match a with AckResult r => r | _ => "" end.

Class AckText := {
  (* channeltypes.NewErrorAcknowledgement(err) carries a text made of the error *)
  error_text : error → string;
  (* fmt.Sprintf("%v", ack) *)
  ack_text : Acknowledgement → string
}.
Definition NewErrorAcknowledgement `{AckText} (e : error) : Acknowledgement :=
  AckError (error_text e).
Definition NewResultAcknowledgement (bz : string) : Acknowledgement := AckResult bz.

(** [channeltypes.Packet], the fields that are read. *)
Record Packet := mkPacket {
  SourcePort : string;
  SourceChannel : string;
  Sequence : Z;
  Data : string
}.

(** The generated [Marshal] and [Unmarshal] of a message. *)
Class ProtoCodec (A : Type) := {
  pb_Marshal : A → res string;
  pb_Unmarshal : string → res A
}.

(** A keeper that gives access to the IBC keeper: the function the modules are given
    may be nil, and calling it then panics. *)
Definition nil_call : string :=
  "runtime error: invalid memory address or nil pointer dereference".

(** [errorsmod.Wrapf(types.ErrInvalidVersion, ...)] of every handshake step. *)
Definition check_version {E : Env} (want : string) (ErrInvalidVersion : error)
    (got : string) : stM (World E) unit :=
  if String.eqb got want then mret tt
  else throw (ErrWrap ErrInvalidVersion "invalid version").

(** A deferred call: it runs whatever the outcome, which stays. *)
Definition deferred {S A} (m : stM S A) (d : stM S unit) : stM S A := λ s,
  let '(s1, r) := m s in ((d s1).1, r).

(** A genesis state of the two modules. *)
Record PortGenesis (P : Type) := mkPortGenesis { g_Params : P; g_PortId : string }.
Arguments mkPortGenesis {P} g_Params g_PortId.
Arguments g_Params {P}.
Arguments g_PortId {P}.
