(* ===== verification/IcqController.v ===== *)
(** * x/icqcontroller: interchain queries over IBC

    [src/x/icqcontroller]: [keeper/keeper.go], [keeper/keeper_icq_async.go],
    [keeper/ack_icq_async.go], [keeper/ack_stub.go], [keeper/genesis.go],
    [keeper/msg_update_params.go], [keeper/query_params.go], [icqwire/wire.go],
    [types/genesis.go], [module/module_ibc.go]; and the client of
    [src/x/osmosisicq/module/icq_async_provider.go]. *)

From Stdlib Require Import Strings.Ascii Strings.String.
From stdpp Require Import strings.
From S2P Require Import Prelude GoLib Json Base64 Sdk RefEnv World RefWorld Interfaces IbcTypes.
From S2P Require ShellTypes OsmoTypes.

Local Open Scope Z_scope.

Definition ModuleName : string := "icqcontroller".
Definition Version : string := "icq-1".
Definition PortID : string := "icqcontroller".
Definition ErrInvalidSigner : error := ErrReg "icqcontroller" 1100.
Definition ErrInvalidVersion : error := ErrReg "icqcontroller" 1501.

(** ** [icqwire/wire.go] *)

(** [abci.RequestQuery], the fields that are set. *)
Record RequestQuery := mkRequestQuery { Path : string; QData : string; Prove : bool }.

(** A field of type []byte: base64 text, or an array of numbers; null leaves it nil. *)
Definition json_byte (v : JVal) : option ascii :=
  match v with
  | JNum l => z ← digits_Z l 0; if z <? 256 then Some (byte_of z) else None
  | JNull => Some (byte_of 0)
  | _ => None
  end.
Fixpoint json_bytes (l : list JVal) : option string :=
  match l with
  | [] => Some ""
  | v :: l' => c ← json_byte v; s ← json_bytes l'; Some (String c s)
  end.
Definition bytes_field {A} (upd : string → A → A) (v : JVal) (a : A) : A * bool :=
  match v with
  | JNull => (upd "" a, true)
  | JStr t => match DecodeString t with Some b => (upd b a, true) | None => (a, false) end
  | JArr l => match json_bytes l with Some b => (upd b a, true) | None => (a, false) end
  | _ => (a, false)
  end.

(** [InterchainQueryPacketData.GetBytes] *)
Definition GetBytes (data : string) : string := enc_object [("data", EncodeToString data)].

(** [json.Unmarshal] into an [InterchainQueryPacketAck]. *)
Definition unmarshal_packet_ack (bz : string) : string * bool :=
  unmarshal_struct ["data"] (λ _, bytes_field (λ b _, b)) "" bz.

(** [json.Unmarshal] into a [channeltypes.Acknowledgement]. The generated struct has one
    field, [Response], without a tag: the interface of a oneof. [encoding/json] stores
    nothing but null into an interface that has methods; any other value of a key that
    folds to the field's name is an error, and other keys, such as the "result" and
    "error" of the protobuf encoding, are skipped. *)
Definition ack_field (f : string) (v : JVal) (a : Acknowledgement) : Acknowledgement * bool :=
  match v with JNull => (AckNone, true) | _ => (a, false) end.
Definition unmarshal_ack (bz : string) : res Acknowledgement :=
  let '(ack, ok) := unmarshal_struct ["Response"] ack_field AckNone bz in
  if ok then mret ack else Err (ErrExt "json").

(** The struct [pendingValue] and its tags. *)
Record pendingValue := mkPendingValue { Store : string; KeyB64 : string; Connection : string }.
Definition pending_fields : list string := ["store"; "key_b64"; "connection"].
Definition pending_field (f : string) (v : JVal) (p : pendingValue) : pendingValue * bool :=
  if String.eqb f "store"
  then string_field (λ s p, mkPendingValue s (KeyB64 p) (Connection p)) v p
  else if String.eqb f "key_b64"
  then string_field (λ s p, mkPendingValue (Store p) s (Connection p)) v p
  else string_field (λ s p, mkPendingValue (Store p) (KeyB64 p) s) v p.
Definition marshal_pending (p : pendingValue) : string :=
  enc_object [("store", Store p); ("key_b64", KeyB64 p); ("connection", Connection p)].
Definition unmarshal_pending (s : string) : pendingValue * bool :=
  unmarshal_struct pending_fields pending_field (mkPendingValue "" "" "") s.

Definition pendingKey (channelID : string) (sequence : Z) : string :=
  channelID +:+ "/" +:+ fmt_d sequence.

(** ** The keeper *)
Section Keeper.
Context {E : Env} (k_authority : Slice).
(** Whether [ibcKeeperFn] and [scopedKeeper] are not nil. *)
Context (ibc_fn scoped : bool).
(** The encodings of [encoding/json] for types of CometBFT, which bring their own methods. *)
Context {QC : JsonCodec (list RequestQuery)} {RC : JsonCodec (list string)}.
Implicit Types ctx : Ctx.

Definition icq_set (f : IcqStore → IcqStore) (w : World E) : World E := set_icq (f (w_icq w)) w.

Definition params_get : stM (World E) ShellTypes.Empty.Params :=
  coll_get "p_icqcontroller" (λ w, i_params (w_icq w)).
Definition params_set (p : ShellTypes.Empty.Params) : stM (World E) unit :=
  coll_set "p_icqcontroller" (icq_set (λ s, mkIcqStore (Some p) (i_port s) (i_active s)
    (i_pending s))).
Definition Port_get : stM (World E) string :=
  coll_get "icqcontroller-port-" (λ w, i_port (w_icq w)).
Definition Port_set (p : string) : stM (World E) unit :=
  coll_set "icqcontroller-port-" (icq_set (λ s, mkIcqStore (i_params s) (Some p) (i_active s)
    (i_pending s))).
Definition Pending_get (k : string) : stM (World E) string :=
  coll_get ("pnd_icqcontroller" +:+ k) (λ w, i_pending (w_icq w) !! k).
Definition Pending_set (k v : string) : stM (World E) unit :=
  coll_set ("pnd_icqcontroller" +:+ k) (icq_set (λ s, mkIcqStore (i_params s) (i_port s)
    (i_active s) (<[k := v]> (i_pending s)))).
Definition Pending_remove (k : string) : stM (World E) unit :=
  coll_set ("pnd_icqcontroller" +:+ k) (icq_set (λ s, mkIcqStore (i_params s) (i_port s)
    (i_active s) (delete k (i_pending s)))).

(** [ibcKeeperFn()] *)
Definition ibc_keeper : stM (World E) unit := if ibc_fn then mret tt else panic nil_call.

Definition SetActiveChannel ctx (connectionID channelID : string) : stM (World E) unit :=
  coll_set ("ac_icqcontroller" +:+ connectionID) (icq_set (λ s, mkIcqStore (i_params s)
    (i_port s) (<[connectionID := channelID]> (i_active s)) (i_pending s))).
Definition RemoveActiveChannel ctx (connectionID : string) : stM (World E) unit :=
  coll_set ("ac_icqcontroller" +:+ connectionID) (icq_set (λ s, mkIcqStore (i_params s)
    (i_port s) (delete connectionID (i_active s)) (i_pending s))).
(** The pair [(channelID, ok)]. *)
Definition GetChannelForConnection ctx (connectionID : string) : stM (World E) (option string) :=
  r ← attempt (coll_get ("ac_icqcontroller" +:+ connectionID)
                (λ w, i_active (w_icq w) !! connectionID));
  mret (match r with inl ch => Some ch | inr _ => None end).

Definition SetPending ctx (channelID : string) (sequence : Z) (store key connectionID : string)
    : stM (World E) unit :=
  let pv := mkPendingValue store (EncodeToString key) connectionID in
  Pending_set (pendingKey channelID sequence) (marshal_pending pv).

(** Store, key and connection; [None] where [ok] is false. *)
Definition GetPending ctx (channelID : string) (sequence : Z)
    : stM (World E) (option (string * string * string)) :=
  r ← attempt (Pending_get (pendingKey channelID sequence));
  mret (match r with
        | inr _ => None
        | inl s =>
            let '(pv, ok) := unmarshal_pending s in
            if ok then Some (Store pv, default "" (DecodeString (KeyB64 pv)), Connection pv)
            else None
        end).

Definition RemovePending ctx (channelID : string) (sequence : Z) : stM (World E) unit :=
  Pending_remove (pendingKey channelID sequence).

(** ** [keeper_icq_async.go] *)
Definition SendKVQuery ctx (connectionID store key : string) : stM (World E) string :=
  p ← attempt Port_get;
  let portID := match p with
    | inl p => if String.eqb p "" then PortID else p
    | inr _ => PortID
    end in
  ch ← GetChannelForConnection ctx connectionID;
  let channelID := default "" ch in
  if String.eqb channelID ""
  then throw (ErrText "no active ICQ channel for connection %s") else
  let req := mkRequestQuery ("/store/" +:+ store +:+ "/key") key false in
  bz ← lift (json_Marshal [req]);
  let timeoutTimestamp := u64 (i64 (BlockTime ctx + 2 * minute)) in
  ibc_keeper;;
  next ← gets (λ w, GetNextSequenceSend (w_ibc w) portID channelID);
  match next with
  | None => throw (ErrText "cannot get next sequence for %s/%s")
  | Some nextSeq =>
      SetPending ctx channelID nextSeq store key connectionID;;
      ibc_keeper;;
      r ← attempt (on_ibc (SendPacket portID channelID timeoutTimestamp (GetBytes bz)));
      match r with
      | inr err =>
          ignore_err (RemovePending ctx channelID nextSeq);;
          throw err
      | inl seq => mret (portID +:+ "/" +:+ channelID +:+ "#" +:+ fmt_d seq)
      end
  end.

(** ** Acknowledgements

    [async] is the build tag icq_async; without it no value is extracted.  The
    test-only [testAckExtractor] is nil. *)
Context (async : bool).

Definition first_value (resps : list string) : string :=
  default "" (list_find (λ v, negb (String.eqb v "") = true) resps ≫= λ '(_, v), Some v).

(** [icqwire.DeserializeCosmosResponse]: the values of the responses. *)
Definition DeserializeCosmosResponse (bz : string) : res (list string) :=
  if (String.length bz =? 0)%nat then mret [] else json_Unmarshal bz.

Definition extractValueFromAck ctx (acknowledgement : string) : res string :=
  if negb async then mret "" else
  ack ← unmarshal_ack acknowledgement;
  if negb (Success ack) then mret "" else
  let '(data, ok) := unmarshal_packet_ack (GetResult ack) in
  if negb ok then Err (ErrExt "json") else
  resps ← DeserializeCosmosResponse data;
  mret (first_value resps).

(** The attributes every event about an acknowledgement has. *)
Definition ack_attrs (portID channelID : string) (sequence : Z)
    (connectionID store key : string) : list (string * AttrVal) := [
  ("port", AStr portID); ("channel", AStr channelID); ("sequence", AStr (fmt_d sequence));
  ("connection", AStr connectionID); ("store", AStr store);
  ("key_b64", AStr (EncodeToString key))].

Context {KC : KVResultConsumer E} (has_consumer : bool).

(** The part of [HandlePacketAcknowledgement] the deferred removal is around. *)
Definition process_ack ctx (portID channelID : string) (sequence : Z)
    (acknowledgement store key connectionID : string) : stM (World E) unit :=
  let attrs := ack_attrs portID channelID sequence connectionID store key in
  ack ← attempt (lift (unmarshal_ack acknowledgement));
  let ackSuccess := match ack with inl ack => Success ack | inr _ => false end in
  let ackErrStr := match ack with
    | inl ack => if Success ack then "" else GetError ack
    | inr _ => "" end in
  if negb has_consumer then
    if ackSuccess then EmitEvent "icq_ack_success" attrs
    else EmitEvent "icq_ack_error" (attrs ++ [("error", AStr ackErrStr)])
  else
  r ← attempt (lift (extractValueFromAck ctx acknowledgement));
  match r with
  | inr err =>
      EmitEvent "icq_ack_error" (attrs ++ [("error", AStr ackErrStr)]);;
      throw err
  | inl value =>
      if (String.length value =? 0)%nat then
        EmitEvent (if ackSuccess then "icq_ack_success" else "icq_ack_error")
          (attrs ++ [("error", AStr ackErrStr)])
      else
        EmitEvent "icq_ack_success"
          (attrs ++ [("value_len", AStr (fmt_d (Z.of_nat (String.length value))))]);;
        OnKVResult ctx store key value
  end.

Definition HandlePacketAcknowledgement ctx (portID channelID : string) (sequence : Z)
    (acknowledgement : string) : stM (World E) unit :=
  p ← GetPending ctx channelID sequence;
  match p with
  | None => mret tt
  | Some (store, key, connectionID) =>
      deferred
        (process_ack ctx portID channelID sequence acknowledgement store key connectionID)
        (ignore_err (RemovePending ctx channelID sequence))
  end.

Definition HandlePacketTimeout ctx (portID channelID : string) (sequence : Z)
    : stM (World E) unit :=
  p ← GetPending ctx channelID sequence;
  let '(store, key, connectionID) := default ("", "", "") p in
  ignore_err (RemovePending ctx channelID sequence);;
  EmitEvent "icq_timeout" (ack_attrs portID channelID sequence connectionID store key).

(** ** Messages, queries, genesis *)
Definition UpdateParams ctx (authority : string) (params : ShellTypes.Empty.Params)
    : stM (World E) unit :=
  check_authority k_authority ErrInvalidSigner authority;;
  lift (ShellTypes.Empty.Validate params);;
  params_set params.
Definition QueryParams (req : option unit) : stM (World E) ShellTypes.Empty.Params :=
  query_params params_get ShellTypes.Empty.NewParams req.

Definition GenesisState : Type := PortGenesis ShellTypes.Empty.Params.
Definition DefaultGenesis : GenesisState :=
  mkPortGenesis ShellTypes.Empty.DefaultParams PortID.
Definition GenesisValidate (gs : GenesisState) : res unit :=
  match PortIdentifierValidator (g_PortId gs) with
  | Some err => Err err
  | None => ShellTypes.Empty.Validate (g_Params gs)
  end.

Definition InitGenesis ctx (gs : GenesisState) : stM (World E) unit :=
  Port_set (g_PortId gs);;
  (if scoped then
     let name := "ports/" +:+ g_PortId gs in
     have ← gets (λ w, GetCapability (w_cap w) name);
     if have : bool then mret tt else ignore_err (on_cap (NewCapability name))
   else mret tt);;
  params_set (g_Params gs).

Definition ExportGenesis ctx : stM (World E) GenesisState :=
  params ← params_get;
  port ← attempt Port_get;
  match port with
  | inl port => mret (mkPortGenesis params port)
  | inr err =>
      if errors_Is err ErrNotFound then mret (mkPortGenesis params "") else throw err
  end.
End Keeper.

(** ** [module/module_ibc.go] *)
Section Module.
Context {E : Env} (ibc_fn async : bool).
Context {RC : JsonCodec (list string)} {AT : AckText}.
Context {KC : KVResultConsumer E} (has_consumer : bool).

(** [types.IcqcontrollerPacketData]: the oneof [Packet]. *)
Inductive PacketData : Type := NoData | NoPacket.
Context {PC : ProtoCodec PacketData}.
Implicit Types ctx : Ctx.

(** The first connection hop, if any, is mapped to the channel. *)
Definition track_channel ctx (connectionHops : list string) (channelID : string)
    : stM (World E) unit :=
  match connectionHops with
  | connectionID :: _ => ignore_err (SetActiveChannel ctx connectionID channelID)
  | [] => mret tt
  end.
Definition OnChanOpenInit ctx (connectionHops : list string) (portID channelID version : string)
    : stM (World E) string :=
  check_version Version ErrInvalidVersion version;;
  track_channel ctx connectionHops channelID;;
  mret version.
Definition OnChanOpenTry ctx (connectionHops : list string)
    (portID channelID counterpartyVersion : string) : stM (World E) string :=
  check_version Version ErrInvalidVersion counterpartyVersion;;
  track_channel ctx connectionHops channelID;;
  mret counterpartyVersion.
Definition OnChanOpenAck ctx (portID channelID counterpartyChannelID counterpartyVersion : string)
    : stM (World E) unit :=
  check_version Version ErrInvalidVersion counterpartyVersion.
Definition OnChanOpenConfirm ctx (portID channelID : string) : stM (World E) unit := mret tt.
Definition OnChanCloseInit ctx (portID channelID : string) : stM (World E) unit :=
  throw (ErrWrap (ErrSdk "ErrInvalidRequest") "user cannot close channel").
Definition OnChanCloseConfirm ctx (portID channelID : string) : stM (World E) unit :=
  ibc_keeper ibc_fn;;
  ch ← gets (λ w, GetChannel (w_ibc w) portID channelID);
  match ch with
  | Some (connectionID :: _) => ignore_err (RemoveActiveChannel ctx connectionID)
  | _ => mret tt
  end.

Definition OnRecvPacket ctx (packet : Packet) : stM (World E) Acknowledgement :=
  r ← attempt (lift (pb_Unmarshal (A := PacketData) (Data packet)));
  match r with
  | inr err => mret (NewErrorAcknowledgement
                 (ErrWrap (ErrSdk "ErrUnknownRequest") "cannot unmarshal packet data"))
  | inl _ => mret (NewErrorAcknowledgement
                 (ErrText "unrecognized icqcontroller packet type"))
  end.
Definition OnAcknowledgementPacket ctx (packet : Packet) (acknowledgement : string)
    : stM (World E) unit :=
  HandlePacketAcknowledgement async has_consumer ctx (SourcePort packet)
    (SourceChannel packet) (Sequence packet) acknowledgement.
Definition OnTimeoutPacket ctx (packet : Packet) : stM (World E) unit :=
  HandlePacketTimeout ctx (SourcePort packet) (SourceChannel packet) (Sequence packet).
End Module.

(** ** [icqClientAdapter] of x/osmosisicq

    [has_ctrl]: the controller keeper was supplied. *)
Section Client.
Context {E : Env} (ibc_fn has_ctrl : bool) {QC : JsonCodec (list RequestQuery)}.

Definition adapter_RegisterKVQuery (ctx : Ctx) (connectionID store key : string)
    : stM (World E) string :=
  if negb has_ctrl then throw OsmoTypes.ErrNoActiveChannel else
  ch ← GetChannelForConnection ctx connectionID;
  match ch with
  | None =>
      EmitEvent "icq_register_intent" [
        ("connection_id", AStr connectionID);
        ("store", AStr store);
        ("key_len", AStr (fmt_d (Z.of_nat (String.length key))));
        ("note", AStr "no_active_channel")];;
      throw OsmoTypes.ErrNoActiveChannel
  | Some _ => SendKVQuery ibc_fn ctx connectionID store key
  end.
Definition icqClientAdapter : ICQClient E := {| RegisterKVQuery := adapter_RegisterKVQuery |}.
End Client.

(** ** What is pending *)
Section Pending.
Context {E : Env} {L : EnvLaws E}.
Implicit Types w : World E.

Lemma pendingKey_inj c s c' s' : pendingKey c s = pendingKey c' s' → c = c' ∧ s = s'.
Proof.
  intros H. unfold pendingKey in H.
  change (c +:+ String "/" (fmt_d s) = c' +:+ String "/" (fmt_d s')) in H.
  apply last_sep_inv in H as [-> H]; [|apply no_char_fmt_d..].
  all: try done. split; [done|]. by apply (inj fmt_d).
Qed.

(** Store, key and connection of the query sent as packet [s] of channel [c]. *)
Definition pending_of w (c : string) (s : Z) : option (string * string * string) :=
  v ← i_pending (w_icq w) !! pendingKey c s;
  let '(pv, ok) := unmarshal_pending v in
  if ok : bool then Some (Store pv, default "" (DecodeString (KeyB64 pv)), Connection pv)
  else None.

Lemma GetPending_run ctx c s w : GetPending ctx c s w = (w, Ok (pending_of w c s)).
Proof using L.
  unfold GetPending, Pending_get, attempt, mbind, stM_bind, pending_of.
  rewrite coll_get_run. by destruct (_ !! _).
Qed.

Lemma unmarshal_marshal p :
  utf8_valid (Store p) = true → utf8_valid (KeyB64 p) = true →
  utf8_valid (Connection p) = true →
  unmarshal_pending (marshal_pending p) = (p, true).
Proof.
  intros Hs Hk Hc. unfold unmarshal_pending, marshal_pending, unmarshal_struct.
  rewrite json_parse_enc_object; [by destruct p|done|].
  unfold members_valid. cbn [forallb]. by rewrite Hs, Hk, Hc.
Qed.

(** Recording and forgetting one query. *)
Definition with_pending (c : string) (s : Z) (v : string) w : World E :=
  icq_set (λ x, mkIcqStore (i_params x) (i_port x) (i_active x)
    (<[pendingKey c s := v]> (i_pending x))) w.
Definition without_pending (c : string) (s : Z) w : World E :=
  icq_set (λ x, mkIcqStore (i_params x) (i_port x) (i_active x)
    (delete (pendingKey c s) (i_pending x))) w.
Definition entry_of (store key conn : string) : string :=
  marshal_pending (mkPendingValue store (EncodeToString key) conn).

Lemma SetPending_run ctx c s store key conn w :
  SetPending ctx c s store key conn w = (with_pending c s (entry_of store key conn) w, Ok tt).
Proof using L. unfold SetPending, Pending_set. by rewrite coll_set_run. Qed.

Lemma ignore_RemovePending_run ctx c s w :
  ignore_err (RemovePending ctx c s) w = (without_pending c s w, Ok tt).
Proof using L.
  unfold ignore_err, attempt, mbind, stM_bind, RemovePending, Pending_remove.
  by rewrite coll_set_run.
Qed.

Lemma pending_without c s c' s' w :
  pending_of (without_pending c s w) c' s' =
  if decide (c' = c ∧ s' = s) then None else pending_of w c' s'.
Proof.
  unfold pending_of, without_pending, icq_set. simpl.
  destruct (decide (c' = c ∧ s' = s)) as [[-> ->]|Hn].
  - by rewrite lookup_delete_eq.
  - rewrite lookup_delete_ne; [done|]. intros H. apply pendingKey_inj in H. naive_solver.
Qed.

Lemma pending_with c s store key conn c' s' w :
  utf8_valid store = true → utf8_valid conn = true →
  pending_of (with_pending c s (entry_of store key conn) w) c' s' =
  if decide (c' = c ∧ s' = s) then Some (store, key, conn) else pending_of w c' s'.
Proof.
  intros Hs Hc. unfold pending_of, with_pending, icq_set. simpl.
  destruct (decide (c' = c ∧ s' = s)) as [[-> ->]|Hn].
  - rewrite lookup_insert_eq. simpl. unfold entry_of.
    rewrite unmarshal_marshal by (simpl; auto using ascii_utf8_valid, EncodeToString_ascii).
    simpl. by rewrite decode_encode.
  - rewrite lookup_insert_ne; [done|]. intros H. apply pendingKey_inj in H. naive_solver.
Qed.

(** C15 (roundtrip). What is recorded for a packet of a channel is read back byte for
    byte, whatever the bytes of the key: the entry survives its base64 and JSON encoding
    and no other pair of channel and sequence is affected, although the two are joined
    with a slash that channel names may contain. *)
Theorem SetPending_GetPending ctx c s store key conn w :
  utf8_valid store = true → utf8_valid conn = true →
  ∃ w', SetPending ctx c s store key conn w = (w', Ok tt) ∧
    ∀ ctx' c' s', GetPending ctx' c' s' w' =
      (w', Ok (if decide (c' = c ∧ s' = s) then Some (store, key, conn)
               else pending_of w c' s')).
Proof using L.
  intros Hs Hc. rewrite SetPending_run. eexists. split; [done|]. intros ctx' c' s'.
  by rewrite GetPending_run, pending_with.
Qed.
End Pending.

(** ** Sending a query *)

(** A codec whose decoder reports what it cannot read. *)
Class JsonSafe (A : Type) `{JsonCodec A} : Prop := {
  json_no_panic s p : json_Unmarshal (A := A) s ≠ Panic p
}.

Section Sending.
Context {E : Env} {L : EnvLaws E}.
Context {QC : JsonCodec (list RequestQuery)} {QL : JsonLaws (list RequestQuery) (λ _, true)}.
Implicit Types w : World E.

(** The port the controller sends from. *)
Definition port_of w : string :=
  match i_port (w_icq w) with
  | Some p => if String.eqb p "" then PortID else p
  | None => PortID
  end.
(** What is sent for a key of a store. *)
Definition query_of (store key : string) : list RequestQuery :=
  [mkRequestQuery ("/store/" +:+ store +:+ "/key") key false].

Lemma GetChannel_run ctx conn w :
  GetChannelForConnection ctx conn w = (w, Ok (i_active (w_icq w) !! conn)).
Proof using L.
  unfold GetChannelForConnection, attempt, mbind, stM_bind. rewrite coll_get_run.
  by destruct (_ !! _).
Qed.

Lemma Port_run w : ∃ r, attempt Port_get w = (w, Ok r) ∧
  port_of w = match r with inl p => if String.eqb p "" then PortID else p | inr _ => PortID end.
Proof using L.
  unfold Port_get, attempt, port_of. rewrite coll_get_run.
  destruct (i_port (w_icq w)); eexists; done.
Qed.

(** The run of [SendKVQuery] on an open channel, by what IBC answers. *)
Lemma SendKVQuery_run ctx conn store key ch w bz :
  i_active (w_icq w) !! conn = Some ch → ch ≠ "" →
  json_Marshal (query_of store key) = Ok bz →
  SendKVQuery true ctx conn store key w =
  match GetNextSequenceSend (w_ibc w) (port_of w) ch with
  | None => (w, Err (ErrText "cannot get next sequence for %s/%s"))
  | Some n =>
      let '(s, r) := SendPacket (port_of w) ch (u64 (i64 (BlockTime ctx + 2 * minute)))
                       (GetBytes bz) (w_ibc w) in
      match r with
      | Ok q => (set_ibc s (with_pending ch n (entry_of store key conn) w),
                 Ok (port_of w +:+ "/" +:+ ch +:+ "#" +:+ fmt_d q))
      | Err e => (set_ibc s (without_pending ch n w), Err e)
      | Panic p => (set_ibc s (with_pending ch n (entry_of store key conn) w), Panic p)
      end
  end.
Proof using L.
  intros Hch Hne Hbz. unfold SendKVQuery. destruct (Port_run w) as (p & Hp & Hport).
  rewrite (bind_run _ _ _ _ _ Hp), <- Hport, (bind_run _ _ _ _ _ (GetChannel_run ctx conn w)), Hch.
  change (default "" (Some ch)) with ch. destruct (String.eqb_spec ch "") as [|_]; [done|].
  fold (query_of store key). cbn zeta. rewrite Hbz, (bind_run (lift _) _ _ _ _ eq_refl).
  rewrite (bind_run (ibc_keeper true) _ _ _ _ eq_refl), (bind_run (gets _) _ _ _ _ eq_refl).
  destruct (GetNextSequenceSend _ _ _) as [n|]; [|done].
  rewrite (bind_run _ _ _ _ _ (SetPending_run ctx ch n store key conn w)).
  rewrite (bind_run (ibc_keeper true) _ _ _ _ eq_refl).
  set (w1 := with_pending ch n (entry_of store key conn) w).
  set (send := SendPacket _ _ _ _). destruct (send (w_ibc w)) as [s r] eqn:Hs.
  assert (Hi : attempt (on_ibc send) w1
    = (set_ibc s w1, match r with Ok q => Ok (inl q) | Err e => Ok (inr e)
                              | Panic p => Panic p end)).
  { unfold attempt, on_ibc, zoom. change (w_ibc w1) with (w_ibc w). rewrite Hs. by destruct r. }
  destruct r as [q|e|p'].
  - by rewrite (bind_run _ _ _ _ _ Hi).
  - rewrite (bind_run _ _ _ _ _ Hi), (bind_run _ _ _ _ _ (ignore_RemovePending_run _ _ _ _)).
    unfold throw. f_equal. unfold w1, without_pending, with_pending, icq_set. cbn.
    by rewrite delete_insert_eq.
  - by rewrite (bind_run_panic _ _ _ _ _ Hi).
Qed.

(** Without the IBC keeper function the call of it panics, before anything is written. *)
Lemma SendKVQuery_nil ctx conn store key ch w :
  i_active (w_icq w) !! conn = Some ch → ch ≠ "" →
  SendKVQuery false ctx conn store key w = (w, Panic nil_call).
Proof using L QL.
  intros Hch Hne. unfold SendKVQuery. destruct (Port_run w) as (p & Hp & _).
  destruct (json_total (dom := λ _, true) (query_of store key) eq_refl) as [bz Hbz].
  rewrite (bind_run _ _ _ _ _ Hp), (bind_run _ _ _ _ _ (GetChannel_run ctx conn w)), Hch.
  change (default "" (Some ch)) with ch. destruct (String.eqb_spec ch "") as [|_]; [done|].
  fold (query_of store key). cbn zeta. by rewrite Hbz, (bind_run (lift _) _ _ _ _ eq_refl).
Qed.

(** C12 (functional). Sending a query for a key on a connection. Without an open channel it
    is an error and nothing changes. With one, it panics before anything changes when the
    keeper was not given the IBC keeper function, as in the application, which provides
    none. When it was given: without a sequence number it is an error and nothing happens;
    otherwise the packet goes out on the channel with a timeout two minutes ahead, the
    query is recorded under the very sequence number the packet got, next to the other
    open queries, and the caller gets port, channel and sequence as the identifier; and if
    the packet cannot be sent the error is returned and nothing is recorded. *)
Theorem SendKVQuery_spec ctx conn store key w :
  let ch := default "" (i_active (w_icq w) !! conn) in
  (ch = "" → ∀ ibc_fn, SendKVQuery ibc_fn ctx conn store key w =
     (w, Err (ErrText "no active ICQ channel for connection %s"))) ∧
  (ch ≠ "" → SendKVQuery false ctx conn store key w = (w, Panic nil_call)) ∧
  (ch ≠ "" → ∃ bz, json_Marshal (query_of store key) = Ok bz ∧
   let timeout := u64 (i64 (BlockTime ctx + 2 * minute)) in
   match GetNextSequenceSend (w_ibc w) (port_of w) ch with
   | None => ∃ e, SendKVQuery true ctx conn store key w = (w, Err e)
   | Some n =>
      (∃ s w', SendPacket (port_of w) ch timeout (GetBytes bz) (w_ibc w) = (s, Ok n) ∧
        SendKVQuery true ctx conn store key w
          = (w', Ok (port_of w +:+ "/" +:+ ch +:+ "#" +:+ fmt_d n)) ∧
        w' = set_ibc s (with_pending ch n (entry_of store key conn) w) ∧
        (utf8_valid store = true → utf8_valid conn = true →
         ∀ c s, pending_of w' c s =
           if decide (c = ch ∧ s = n) then Some (store, key, conn) else pending_of w c s)) ∨
      (∃ s e, SendPacket (port_of w) ch timeout (GetBytes bz) (w_ibc w) = (s, Err e) ∧
        SendKVQuery true ctx conn store key w
          = (set_ibc s (without_pending ch n w), Err e))
   end).
Proof using L QL.
  intros ch. split; [|split].
  { intros Hch ibc_fn. unfold SendKVQuery. destruct (Port_run w) as (p & Hp & _).
    rewrite (bind_run _ _ _ _ _ Hp), (bind_run _ _ _ _ _ (GetChannel_run ctx conn w)).
    fold ch. by rewrite Hch. }
  all: destruct (i_active (w_icq w) !! conn) as [c|] eqn:Hch; [|done]; subst ch; simpl in *.
  { intros Hne. by eapply SendKVQuery_nil. }
  intros Hne. destruct (json_total (dom := λ _, true) (query_of store key) eq_refl) as [bz Hbz].
  exists bz. split; [done|]. cbn zeta.
  pose proof (SendKVQuery_run ctx conn store key c w bz Hch Hne Hbz) as Hrun.
  destruct (GetNextSequenceSend (w_ibc w) (port_of w) c) as [n|] eqn:Hn; [|by eexists].
  destruct (SendPacket _ _ _ _ _) as [s [q|e|p]] eqn:Hs.
  - apply SendPacket_ok in Hs as Hq. rewrite Hn in Hq. injection Hq as <-. left.
    eexists s, _. split; [done|]. split; [exact Hrun|]. split; [done|]. intros Us Uc c' s'.
    by rewrite <- (pending_with c n store key conn c' s' w).
  - right. by exists s, e.
  - exfalso. eapply SendPacket_total. by rewrite Hs.
Qed.

(** The client handed to x/osmosisicq keeps the promises of [ICQClientLaws]. *)
Lemma SendKVQuery_frame ctx conn store key w :
  w_osmo (SendKVQuery true ctx conn store key w).1 = w_osmo w ∧
  w_oracle (SendKVQuery true ctx conn store key w).1 = w_oracle w ∧
  ∀ p, (SendKVQuery true ctx conn store key w).2 ≠ Panic p.
Proof using L QL.
  destruct (i_active (w_icq w) !! conn) as [ch|] eqn:Hch;
    [destruct (String.eqb_spec ch "") as [->|Hne]|].
  2: { destruct (json_total (dom := λ _, true) (query_of store key) eq_refl) as [bz Hbz].
       rewrite (SendKVQuery_run ctx conn store key ch w bz Hch Hne Hbz).
       destruct (GetNextSequenceSend _ _ _) as [n|]; [|done].
       destruct (SendPacket _ _ _ _ _) as [s [q|e|p]] eqn:Hs; [done..|].
       exfalso. eapply SendPacket_total. by rewrite Hs. }
  all: unfold SendKVQuery; destruct (Port_run w) as (p & Hp & _).
  all: by rewrite (bind_run _ _ _ _ _ Hp), (bind_run _ _ _ _ _ (GetChannel_run ctx conn w)), Hch.
Qed.

Lemma icqClientAdapter_laws has_ctrl :
  @ICQClientLaws E (icqClientAdapter true has_ctrl).
Proof using L QL.
  constructor; intros ctx conn store key w; [|intros p]; cbn; unfold adapter_RegisterKVQuery.
  all: destruct has_ctrl; [cbn [negb]|done].
  all: rewrite (bind_run _ _ _ _ _ (GetChannel_run ctx conn w)).
  all: destruct (i_active (w_icq w) !! conn); [|done].
  all: pose proof (SendKVQuery_frame ctx conn store key w); naive_solver.
Qed.
End Sending.

(** ** Answers *)
Section Answers.
Context {E : Env} {L : EnvLaws E}.
Context {RC : JsonCodec (list string)} {RS : JsonSafe (list string)}.
Context {KC : KVResultConsumer E} {KL : KVResultConsumerLaws E} (async : bool).
Implicit Types w : World E.

(** *** What [encoding/json] makes of an acknowledgement *)
Lemma unmarshal_ack_no_panic bz p : unmarshal_ack bz ≠ Panic p.
Proof using. unfold unmarshal_ack. by destruct (unmarshal_struct _ _ _ _) as [a []]. Qed.

Lemma unmarshal_ack_empty bz : (unmarshal_struct ["Response"] ack_field AckNone bz).1 = AckNone.
Proof using.
  unfold unmarshal_struct. destruct (json_parse bz) as [v|]; [|done].
  destruct v as [| | | | |ms]; try done. simpl. cut (∀ b, (fold_left (λ '(a, ok) '(key, x),
    match field_of ["Response"] key with
    | None => (a, ok)
    | Some f => let '(a', fits) := ack_field f x a in (a', ok && fits)
    end) ms (AckNone, b)).1 = AckNone); [by intros ->|].
  induction ms as [|[key x] ms IH]; intros b; [done|]. simpl.
  destruct (field_of _ key); [|apply IH]. by destruct x; apply IH.
Qed.

(** Whether it can be read at all. *)
Definition ack_readable (bz : string) : bool :=
  (unmarshal_struct ["Response"] ack_field AckNone bz).2.

Lemma unmarshal_ack_run bz :
  unmarshal_ack bz = if ack_readable bz then Ok AckNone else Err (ErrExt "json").
Proof using.
  unfold unmarshal_ack, ack_readable. pose proof (unmarshal_ack_empty bz) as H.
  destruct (unmarshal_struct _ _ _ _) as [a []]; simpl in *; by subst.
Qed.

Lemma extract_run ctx ack :
  extractValueFromAck async ctx ack =
  if async && negb (ack_readable ack) then Err (ErrExt "json") else Ok "".
Proof using.
  unfold extractValueFromAck. destruct async; [|done]. cbn [negb andb].
  rewrite unmarshal_ack_run. by destruct (ack_readable ack).
Qed.

(** Type and attributes of the event about an answer that is not delivered. *)
Definition answer_event (portID channelID : string) (sequence : Z)
    (conn store key ack : string) (failed : bool) : Event :=
  let a := unmarshal_ack ack in
  let good := match a with Ok a => Success a | _ => false end in
  mkEvent (if failed then "icq_ack_error" else if good then "icq_ack_success" else "icq_ack_error")
    (ack_attrs portID channelID sequence conn store key ++
     [("error", AStr (match a with Ok a => if Success a then "" else GetError a | _ => "" end))]).
Definition delivery_event (portID channelID : string) (sequence : Z)
    (conn store key value : string) : Event :=
  mkEvent "icq_ack_success" (ack_attrs portID channelID sequence conn store key ++
    [("value_len", AStr (fmt_d (Z.of_nat (String.length value))))]).

Lemma extract_no_panic ctx ack p : extractValueFromAck async ctx ack ≠ Panic p.
Proof using RS.
  unfold extractValueFromAck, DeserializeCosmosResponse. destruct async; [cbn [negb]|done].
  pose proof (unmarshal_ack_no_panic ack) as Ha.
  destruct (unmarshal_ack ack) as [a|e|q]; cbn; [|done|by edestruct Ha].
  destruct (Success a); cbn; [|done]. destruct (unmarshal_packet_ack _) as [data []]; cbn; [|done].
  destruct (String.length data =? 0)%nat; cbn; [done|].
  pose proof (json_no_panic (A := list string) data) as Hr.
  destruct (json_Unmarshal (A := list string) data); cbn; [done..|by edestruct Hr].
Qed.

Lemma process_ack_run ctx portID ch n ack store key conn w :
  process_ack async true ctx portID ch n ack store key conn w =
  match extractValueFromAck async ctx ack with
  | Ok value =>
      if (String.length value =? 0)%nat
      then (logged (answer_event portID ch n conn store key ack false) w, Ok tt)
      else OnKVResult ctx store key value
             (logged (delivery_event portID ch n conn store key value) w)
  | Err e => (logged (answer_event portID ch n conn store key ack true) w, Err e)
  | Panic p => (w, Panic p)
  end.
Proof using RS.
  unfold process_ack, answer_event. pose proof (unmarshal_ack_no_panic ack) as Ha.
  pose proof (extract_no_panic ctx ack) as Hx.
  destruct (unmarshal_ack ack) as [a|e|q]; [| |by edestruct Ha].
  - rewrite (bind_run (attempt (lift (Ok a))) _ _ _ (inl a) eq_refl). cbn [negb].
    destruct (extractValueFromAck async ctx ack) as [v|e|q]; [| |by edestruct Hx].
    + rewrite (bind_run (attempt (lift (Ok v))) _ _ _ (inl v) eq_refl).
      destruct (String.length v =? 0)%nat; [|done]. by destruct (Success a).
    + by rewrite (bind_run (attempt (lift (Err e))) _ _ _ (inr e) eq_refl).
  - rewrite (bind_run (attempt (lift (Err e))) _ _ _ (inr e) eq_refl). cbn [negb].
    destruct (extractValueFromAck async ctx ack) as [v|e'|q]; [| |by edestruct Hx].
    + rewrite (bind_run (attempt (lift (Ok v))) _ _ _ (inl v) eq_refl).
      by destruct (String.length v =? 0)%nat.
    + by rewrite (bind_run (attempt (lift (Err e'))) _ _ _ (inr e') eq_refl).
Qed.

Lemma ack_run ctx portID ch n ack w :
  HandlePacketAcknowledgement async true ctx portID ch n ack w =
  match pending_of w ch n with
  | None => (w, Ok tt)
  | Some (store, key, conn) =>
      match extractValueFromAck async ctx ack with
      | Ok value =>
          if (String.length value =? 0)%nat
          then (without_pending ch n
                  (logged (answer_event portID ch n conn store key ack false) w), Ok tt)
          else let '(w1, r) := OnKVResult ctx store key value
                 (logged (delivery_event portID ch n conn store key value) w) in
               (without_pending ch n w1, r)
      | Err e => (without_pending ch n
                    (logged (answer_event portID ch n conn store key ack true) w), Err e)
      | Panic p => (without_pending ch n w, Panic p)
      end
  end.
Proof using L RS.
  unfold HandlePacketAcknowledgement. rewrite (bind_run _ _ _ _ _ (GetPending_run ctx ch n w)).
  destruct (pending_of w ch n) as [[[store key] conn]|]; [|done]. unfold deferred.
  rewrite process_ack_run. destruct (extractValueFromAck async ctx ack) as [v|e|p].
  - destruct (String.length v =? 0)%nat; [by rewrite ignore_RemovePending_run|].
    destruct (OnKVResult _ _ _ _ _) as [w1 r]. by rewrite ignore_RemovePending_run.
  - by rewrite ignore_RemovePending_run.
  - by rewrite ignore_RemovePending_run.
Qed.

(** The one event any acknowledgement of a recorded query leaves. *)
Definition no_answer_event (portID channelID : string) (sequence : Z)
    (conn store key : string) : Event :=
  mkEvent "icq_ack_error"
    (ack_attrs portID channelID sequence conn store key ++ [("error", AStr "")]).

Lemma process_ack_dead (has_consumer : bool) ctx portID ch n ack store key conn w :
  process_ack async has_consumer ctx portID ch n ack store key conn w =
  (logged (no_answer_event portID ch n conn store key) w,
   if async && has_consumer && negb (ack_readable ack) then Err (ErrExt "json") else Ok tt).
Proof using RS.
  destruct has_consumer.
  - rewrite process_ack_run, extract_run, andb_true_r. unfold answer_event.
    rewrite unmarshal_ack_run. by destruct async, (ack_readable ack).
  - unfold process_ack. rewrite unmarshal_ack_run, andb_false_r.
    by destruct (ack_readable ack).
Qed.

(** An acknowledgement in which success is reported can be read, and says nothing. *)
Lemma success_readable answer :
  ack_readable (enc_object [("result", EncodeToString answer)]) = true.
Proof using.
  unfold ack_readable, unmarshal_struct.
  rewrite json_parse_enc_object; [done|done|].
  unfold members_valid. cbn [forallb].
  by rewrite (ascii_utf8_valid (EncodeToString answer)) by apply EncodeToString_ascii.
Qed.

Lemma ack_dead (has_consumer : bool) ctx portID ch n ack store key conn w :
  pending_of w ch n = Some (store, key, conn) →
  HandlePacketAcknowledgement async has_consumer ctx portID ch n ack w =
  (without_pending ch n (logged (no_answer_event portID ch n conn store key) w),
   if async && has_consumer && negb (ack_readable ack) then Err (ErrExt "json") else Ok tt).
Proof using L RS.
  intros Hp. unfold HandlePacketAcknowledgement.
  rewrite (bind_run _ _ _ _ _ (GetPending_run ctx ch n w)), Hp.
  unfold deferred. by rewrite process_ack_dead, ignore_RemovePending_run.
Qed.

Lemma ack_closes ctx portID ch n ack w c s :
  pending_of (HandlePacketAcknowledgement async true ctx portID ch n ack w).1 c s =
  if decide (c = ch ∧ s = n) then None else pending_of w c s.
Proof using L RS KL.
  rewrite ack_run. destruct (pending_of w ch n) as [[[store key] conn]|] eqn:Hp.
  - destruct (extractValueFromAck async ctx ack) as [v|e|p]; cbn; [|by rewrite pending_without..].
    destruct (String.length v =? 0)%nat; cbn; [by rewrite pending_without|].
    set (w0 := logged _ w). pose proof (OnKVResult_frame ctx store key v w0) as Hk.
    destruct (OnKVResult _ _ _ _ _) as [w1 r]. cbn in *. rewrite pending_without.
    case_decide; [done|]. unfold pending_of. by rewrite Hk.
  - cbn. case_decide as Hd; [|done]. by destruct Hd as [-> ->].
Qed.

Lemma timeout_run ctx portID ch n w :
  HandlePacketTimeout ctx portID ch n w =
  (let '(store, key, conn) := default ("", "", "") (pending_of w ch n) in
   logged (mkEvent "icq_timeout" (ack_attrs portID ch n conn store key)) (without_pending ch n w),
   Ok tt).
Proof using L.
  unfold HandlePacketTimeout. rewrite (bind_run _ _ _ _ _ (GetPending_run ctx ch n w)).
  destruct (default _ _) as [[store key] conn].
  by rewrite (bind_run _ _ _ _ _ (ignore_RemovePending_run _ _ _ _)).
Qed.

(** C13 (functional). An acknowledgement of a packet nobody waits for is ignored. Any other
    one closes the query, whatever it says and however the consumer fares, and no other
    query. When it carries a value, the consumer gets it once, with the store and key the
    query was recorded with, and its outcome is the outcome; when it carries none, or
    cannot be read, the consumer is not called and one event tells. (With [encoding/json]
    none ever carries one: [ack_dead].) *)
Theorem HandlePacketAcknowledgement_spec ctx portID ch n ack w :
  HandlePacketAcknowledgement async true ctx portID ch n ack w =
  match pending_of w ch n with
  | None => (w, Ok tt)
  | Some (store, key, conn) =>
      match extractValueFromAck async ctx ack with
      | Ok value =>
          if (String.length value =? 0)%nat
          then (without_pending ch n
                  (logged (answer_event portID ch n conn store key ack false) w), Ok tt)
          else let '(w1, r) := OnKVResult ctx store key value
                 (logged (delivery_event portID ch n conn store key value) w) in
               (without_pending ch n w1, r)
      | Err e => (without_pending ch n
                    (logged (answer_event portID ch n conn store key ack true) w), Err e)
      | Panic p => (without_pending ch n w, Panic p)
      end
  end ∧
  ∀ c s, pending_of (HandlePacketAcknowledgement async true ctx portID ch n ack w).1 c s =
    if decide (c = ch ∧ s = n) then None else pending_of w c s.
Proof using L RS KL. split; [apply ack_run|intros c s; apply ack_closes]. Qed.

(** C14 (safety). No query is answered twice: once an acknowledgement or a timeout of a
    packet has been handled, later acknowledgements of it change nothing and a later
    timeout leaves the open queries as they are. *)
Theorem answered_once ctx ctx' portID portID' ch n ack ack' w w1 r :
  HandlePacketAcknowledgement async true ctx portID ch n ack w = (w1, r) ∨
  HandlePacketTimeout ctx portID ch n w = (w1, r) →
  HandlePacketAcknowledgement async true ctx' portID' ch n ack' w1 = (w1, Ok tt) ∧
  ∀ c s, pending_of (HandlePacketTimeout ctx' portID' ch n w1).1 c s = pending_of w1 c s.
Proof using L RS KL.
  intros H. assert (pending_of w1 ch n = None) as Hn.
  { destruct H as [H|H].
    - pose proof (ack_closes ctx portID ch n ack w ch n) as Hc. rewrite H in Hc. cbn in Hc.
      rewrite Hc. by case_decide; [|tauto].
    - rewrite timeout_run in H. destruct (default _ _) as [[st k] cn]. injection H as <- _.
      unfold pending_of, logged. cbn. by rewrite lookup_delete_eq. }
  split; [by rewrite ack_run, Hn|]. intros c s. rewrite timeout_run, Hn. cbn.
  unfold logged. change (pending_of (without_pending ch n w1) c s = pending_of w1 c s).
  rewrite pending_without. case_decide as Hd; [|done]. by destruct Hd as [-> ->].
Qed.
End Answers.

(** ** Witnesses *)
#[local] Instance RequestQuery_eq_dec : EqDecision RequestQuery.
Proof. solve_decision. Defined.
#[local] Instance RequestQuery_countable : Countable RequestQuery.
Proof.
  by refine (inj_countable' (λ r, (Path r, QData r, Prove r))
    (λ '(p, d, b), mkRequestQuery p d b) _); intros [].
Defined.
#[export] Instance ref_request_codec : JsonCodec (list RequestQuery) :=
  coded_codec (list RequestQuery).
#[export] Instance ref_values_codec : JsonCodec (list string) := coded_codec (list string).

Lemma coded_codec_safe A `{Countable A} : JsonSafe A (H := coded_codec A).
Proof. constructor. intros s p. simpl. by destruct (_ ≫= _). Qed.

Lemma ref_values_safe : JsonSafe (list string) (H := ref_values_codec).
Proof. apply coded_codec_safe. Qed.
Lemma ref_request_laws : JsonLaws (list RequestQuery) (λ _, true) (H := ref_request_codec).
Proof. apply coded_codec_laws. Qed.

(** The acknowledgement a counterparty writes for an answer of some bytes. *)
Definition ref_ack (answer : string) : string :=
  enc_object [("result", EncodeToString answer)].

(** A channel open on connection-0; its next sequence number is 7. *)
Definition open_world : World ref_env :=
  set_ibc (E := ref_env) (mkRefIbc {[("icqcontroller", "channel-3") := (["connection-0"], 7)]})
    (set_icq (mkIcqStore None None {["connection-0" := "channel-3"]} ∅) empty_world).

(** A consumer that writes down what it is given. *)
Definition recorder : KVResultConsumer ref_env := {|
  OnKVResult ctx store key value :=
    EmitEvent "kv" [("store", AStr store); ("key", AStr key); ("value", AStr value)]
|}.
#[local] Existing Instance recorder.
Lemma recorder_laws : KVResultConsumerLaws ref_env.
Proof. by constructor. Qed.

Theorem SetPending_GetPending_witness :
  ∃ w', SetPending ref_ctx "channel-3" 7 "gamm" "a/b" "connection-0" open_world = (w', Ok tt) ∧
    GetPending ref_ctx "channel-3" 7 w' = (w', Ok (Some ("gamm", "a/b", "connection-0"))).
Proof.
  destruct (@SetPending_GetPending _ ref_env_laws ref_ctx "channel-3" 7 "gamm" "a/b"
    "connection-0" open_world eq_refl eq_refl) as (w' & Hw & Hg).
  exists w'. split; [exact Hw|]. exact (Hg ref_ctx "channel-3" 7).
Defined.

Theorem SendKVQuery_spec_witness :
  (∃ w', SendKVQuery true ref_ctx "connection-0" "gamm" "pool" open_world
        = (w', Ok "icqcontroller/channel-3#7") ∧
    pending_of w' "channel-3" 7 = Some ("gamm", "pool", "connection-0")) ∧
  SendKVQuery false ref_ctx "connection-0" "gamm" "pool" open_world = (open_world, Panic nil_call).
Proof.
  destruct (@SendKVQuery_spec _ ref_env_laws _ ref_request_laws ref_ctx
    "connection-0" "gamm" "pool" open_world) as (_ & Hnil & H).
  split; [|apply Hnil; vm_compute; discriminate].
  destruct H as (bz & _ & H); [vm_compute; discriminate|].
  change (default "" _) with "channel-3" in H.
  assert (Hn : GetNextSequenceSend (w_ibc open_world) (port_of open_world) "channel-3" = Some 7)
    by (vm_compute; reflexivity).
  cbv zeta in H. rewrite Hn in H. destruct H as [(s & w' & _ & Hw & _ & Hp)|(s & e & Hs & _)].
  - exists w'. split; [exact Hw|]. exact (Hp eq_refl eq_refl "channel-3" 7).
  - apply (f_equal snd) in Hs. vm_compute in Hs. discriminate.
Defined.

Definition asked_world : World ref_env :=
  with_pending "channel-3" 7 (entry_of "gamm" "pool" "connection-0") open_world.

(** Success is reported, and yet the consumer is not called. *)
Theorem HandlePacketAcknowledgement_spec_witness :
  w_events (HandlePacketAcknowledgement true true ref_ctx "icqcontroller" "channel-3" 7
    (ref_ack "v") asked_world).1 =
  [answer_event "icqcontroller" "channel-3" 7 "connection-0" "gamm" "pool" (ref_ack "v") false].
Proof.
  destruct (@HandlePacketAcknowledgement_spec _ ref_env_laws _
    ref_values_safe _ recorder_laws true ref_ctx "icqcontroller" "channel-3" 7
    (ref_ack "v") asked_world) as [H _]. rewrite H.
  assert (Hp : pending_of asked_world "channel-3" 7 = Some ("gamm", "pool", "connection-0"))
    by (vm_compute; reflexivity). rewrite Hp.
  assert (Hv : extractValueFromAck true ref_ctx (ref_ack "v") = Ok "")
    by (vm_compute; reflexivity). rewrite Hv. reflexivity.
Defined.

Theorem answered_once_witness :
  let w1 := (HandlePacketTimeout ref_ctx "icqcontroller" "channel-3" 7 asked_world).1 in
  HandlePacketAcknowledgement true true ref_ctx "icqcontroller" "channel-3" 7 (ref_ack "v") w1
  = (w1, Ok tt).
Proof.
  apply (@answered_once _ ref_env_laws _ ref_values_safe _ recorder_laws true ref_ctx ref_ctx "icqcontroller" "icqcontroller" "channel-3" 7 ""
    (ref_ack "v") asked_world _
    (HandlePacketTimeout ref_ctx "icqcontroller" "channel-3" 7 asked_world).2).
  right. apply surjective_pairing.
Defined.
