(* ===== verification/IcqPrice.v ===== *)
(** * A price from Osmosis, end to end

    x/osmosisicq asks through the client of x/icqcontroller, and x/icqcontroller is to
    hand the answer back to x/osmosisicq, which keeps the price in x/oracle
    ([kvConsumerAdapter] of [src/x/osmosisicq/module/depinject.go]). The question goes
    out; the answer never comes through, because the acknowledgement is read with
    [encoding/json]. *)

From Stdlib Require Import Strings.Ascii Strings.String.
From stdpp Require Import strings.
From S2P Require Import Prelude GoLib Json Base64 Sdk RefEnv World RefWorld Interfaces IbcTypes OsmoTypes.
From S2P Require Oracle.
From S2P Require Import OsmosisIcq IcqController.

Local Open Scope Z_scope.

(** [kvConsumerAdapter] *)
Definition kvConsumerAdapter {E : Env} {OK : OracleKeeper E} : KVResultConsumer E := {|
  Interfaces.OnKVResult ctx store key value := OsmosisIcq.OnKVResult ctx store key value
|}.

(** ** A consumer leaves the controller alone *)
Section Frame.
Context {E : Env} {L : EnvLaws E} {OK : OracleKeeper E} {OKL : OracleKeeperLaws E}.
Implicit Types w : World E.

(** The store of the controller stays as it is. *)
#[local] Abbreviation R := (keeps (@w_icq E)).

Lemma keeps_event t attrs : respects R (EmitEvent t attrs).
Proof. by intros w. Qed.
Lemma keeps_params : respects R OsmosisIcq.params_get.
Proof using L. intros w. unfold OsmosisIcq.params_get. by rewrite coll_get_run. Qed.
Lemma keeps_last z : respects R (LastResultTime_set z).
Proof using L. intros w. unfold LastResultTime_set. by rewrite coll_set_run. Qed.
Lemma keeps_price ctx : respects R (GetCSVPerUSD ctx).
Proof using OKL. intros w. by destruct (GetCSVPerUSD_total ctx w) as (z & -> & _). Qed.
Lemma keeps_set_price ctx d : respects R (SetCSVPerUSD ctx d).
Proof using OKL. intros w. by destruct (SetCSVPerUSD_total ctx d w) as [o ->]. Qed.
#[local] Hint Resolve keeps_event keeps_params keeps_last keeps_price keeps_set_price : frame.

Lemma kvConsumerAdapter_laws : @KVResultConsumerLaws E kvConsumerAdapter.
Proof using L OKL.
  constructor. intros ctx store key value.
  change (respects R (OsmosisIcq.OnKVResult ctx store key value)).
  unfold OsmosisIcq.OnKVResult, HandleTwapResult, HandleSpotResult, normalizeToCSVPerUSD,
    ValidateAndPersistPrice. respects.
Qed.
End Frame.

(** ** From the question to the price *)
Section Arrival.
Context {E : Env} {L : EnvLaws E} {OK : OracleKeeper E} {OKL : OracleKeeperLaws E}.
Context {QC : JsonCodec (list RequestQuery)} {QL : JsonLaws (list RequestQuery) (λ _, true)}.
Context {RC : JsonCodec (list string)} {RS : JsonSafe (list string)}.
Implicit Types w : World E.
#[local] Existing Instance kvConsumerAdapter.
#[local] Instance client : ICQClient E := icqClientAdapter true true.

(** A block that is due, without averages, on a connection whose channel [ch] is open:
    the query for the pool's price is recorded under its sequence number. *)
Lemma begin_block_run ctx p ch w bz s n :
  q_params (w_osmo w) = Some p → UseTwap p = false → ConnectionId p ≠ "" →
  UpdateIntervalSeconds p ≠ 0 →
  due (unix (BlockTime ctx)) (UpdateIntervalSeconds p) (w_osmo w) = true →
  i_active (w_icq w) !! ConnectionId p = Some ch → ch ≠ "" →
  json_Marshal (query_of "gamm" (BuildGammPoolKey (PoolId p)).2) = Ok bz →
  SendPacket (port_of w) ch (u64 (i64 (BlockTime ctx + 2 * minute))) (GetBytes bz) (w_ibc w)
    = (s, Ok n) →
  ∃ w1, BeginBlock true (Some ctx) w = (w1, Ok tt) ∧
    w_icq w1 = w_icq (with_pending ch n
      (entry_of "gamm" (BuildGammPoolKey (PoolId p)).2 (ConnectionId p)) w) ∧
    q_params (w_osmo w1) = Some p ∧ w_oracle w1 = w_oracle w ∧
    q_query_ids (w_osmo w1) !! "spot"
      = Some (port_of w +:+ "/" +:+ ch +:+ "#" +:+ fmt_d n).
Proof using L.
  intros Hp Ht Hc Hi Hd Hch Hne Hbz Hs. pose proof (SendPacket_ok _ _ _ _ _ _ _ Hs) as Hn.
  set (key := (BuildGammPoolKey (PoolId p)).2) in *. set (conn := ConnectionId p) in *.
  assert (HR : RegisterKVQuery ctx conn "gamm" key w =
    (set_ibc s (with_pending ch n (entry_of "gamm" key conn) w),
     Ok (port_of w +:+ "/" +:+ ch +:+ "#" +:+ fmt_d n))).
  { change (RegisterKVQuery ctx conn "gamm" key w)
      with (adapter_RegisterKVQuery true true ctx conn "gamm" key w).
    unfold adapter_RegisterKVQuery. cbn [negb].
    rewrite (bind_run _ _ _ _ _ (GetChannel_run ctx conn w)), Hch.
    cbv beta iota. by rewrite (SendKVQuery_run ctx conn "gamm" key ch w bz Hch Hne Hbz), Hn, Hs. }
  set (w1 := set_ibc s _) in HR. set (id := port_of w +:+ _) in HR.
  assert (HA : register_queries true ctx p w =
    (osmo_set (λ s, mkOsmoStore (q_params s) (q_last_update s) (q_next_update s)
       (q_last_result s) (<["spot" := id]> (q_query_ids s))) w1, Ok tt)).
  { unfold register_queries. fold conn. destruct (String.eqb_spec conn "") as [|_]; [done|].
    rewrite Ht. cbn [andb negb]. unfold register, osmo_BuildGammPoolKey. fold key conn.
    change (0 <? String.length key)%nat with true. cbv iota.
    assert (attempt (RegisterKVQuery ctx conn "gamm" key) w = (w1, Ok (inl id))) as HR'.
    { unfold attempt. by rewrite HR. }
    rewrite (bind_run _ _ _ _ _ HR').
    unfold ignore_err, attempt, mbind, stM_bind. by rewrite QueryIDs_set_run. }
  unfold BeginBlock, ignore_err, attempt. unfold mbind at 1, stM_bind at 1.
  unfold ScheduleQueriesIfDue.
  rewrite (bind_run _ _ _ _ _ (params_get_run _ _ Hp)).
  destruct (Z.eqb_spec (UpdateIntervalSeconds p) 0) as [|_]; [done|].
  rewrite (bind_run _ _ _ _ _ (is_due_run _ _ w)), Hd. cbn [negb].
  rewrite (bind_run _ _ _ _ _ HA). unfold EmitEvent, LastUpdate_set, NextUpdate_set.
  rewrite (bind_run (modify _) _ _ _ _ eq_refl).
  rewrite (bind_run _ _ _ _ _ (coll_set_run _ _ _)).
  rewrite (bind_run _ _ _ _ _ (coll_set_run _ _ _)).
  eexists. split; [reflexivity|]. split_and!; try done.
  cbn. by rewrite lookup_insert_eq.
Qed.

(** C10 (safety). No price arrives. A block that is due asks for the price of the pool: the
    query is recorded under the sequence number of its packet and its identifier is
    stored. (This half is for parameters with the price of the pool rather than averages,
    an open channel, a controller that was supplied and was given the IBC keeper.) But
    whatever acknowledgement of that packet comes, as long as the record is there, in
    either build, with or without the consumer of x/osmosisicq wired: the query is closed
    and no other, one event says that it failed with an empty error, the consumer is not
    called, and the oracle and the store of x/osmosisicq stay as they were. This includes
    the acknowledgement that reports success, [{"result": ...}], which is read without an
    error: [encoding/json] finds no field for it in the struct of the oneof. *)
Theorem no_price_arrives ctx p ch w bz s n :
  q_params (w_osmo w) = Some p → UseTwap p = false → ConnectionId p ≠ "" →
  utf8_valid (ConnectionId p) = true → UpdateIntervalSeconds p ≠ 0 →
  due (unix (BlockTime ctx)) (UpdateIntervalSeconds p) (w_osmo w) = true →
  i_active (w_icq w) !! ConnectionId p = Some ch → ch ≠ "" →
  json_Marshal (query_of "gamm" (BuildGammPoolKey (PoolId p)).2) = Ok bz →
  SendPacket (port_of w) ch (u64 (i64 (BlockTime ctx + 2 * minute))) (GetBytes bz) (w_ibc w)
    = (s, Ok n) →
  let key := (BuildGammPoolKey (PoolId p)).2 in
  ∃ w1, BeginBlock (IC := client) true (Some ctx) w = (w1, Ok tt) ∧
    q_query_ids (w_osmo w1) !! "spot" = Some (port_of w +:+ "/" +:+ ch +:+ "#" +:+ fmt_d n) ∧
    q_params (w_osmo w1) = Some p ∧ w_oracle w1 = w_oracle w ∧
    (∀ c k, pending_of w1 c k = if decide (c = ch ∧ k = n)
       then Some ("gamm", key, ConnectionId p) else pending_of w c k) ∧
    (∀ async wired ctx2 w2 portID ack,
      pending_of w2 ch n = pending_of w1 ch n →
      ∃ w3, HandlePacketAcknowledgement (KC := kvConsumerAdapter) async wired ctx2 portID ch n
          ack w2 =
        (w3, if async && wired && negb (ack_readable ack) then Err (ErrExt "json") else Ok tt) ∧
      (∀ c k, pending_of w3 c k =
         if decide (c = ch ∧ k = n) then None else pending_of w2 c k) ∧
      w_events w3 = w_events w2 ++ [mkEvent "icq_ack_error"
        (ack_attrs portID ch n (ConnectionId p) "gamm" key ++ [("error", AStr "")])] ∧
      w_oracle w3 = w_oracle w2 ∧ w_osmo w3 = w_osmo w2 ∧ w_bank w3 = w_bank w2) ∧
    ∀ answer, ack_readable (enc_object [("result", EncodeToString answer)]) = true.
Proof using L OKL RS.
  intros Hp Ht Hc Uc Hi Hd Hch Hne Hbz Hs key.
  destruct (begin_block_run ctx p ch w bz s n) as (w1 & Hw & Hicq & Hp1 & Ho & Hid); try done.
  assert (Hpend : ∀ c k, pending_of w1 c k = if decide (c = ch ∧ k = n)
       then Some ("gamm", key, ConnectionId p) else pending_of w c k).
  { intros c k. rewrite <- pending_with by done. unfold pending_of at 1. by rewrite Hicq. }
  exists w1. split_and!; try done; [|apply success_readable].
  intros async wired ctx2 w2 portID ack Hp2. rewrite Hpend, decide_True in Hp2 by done.
  eexists. split; [by apply ack_dead|]. split; [|done].
  intros c k. rewrite pending_without. by unfold pending_of.
Qed.
End Arrival.

(** ** Witness *)
#[local] Existing Instance Oracle.oracle_keeper.

(** The parameters of [pool_params] with the price of the pool instead of averages. *)
Definition spot_params : Params :=
  mkParams "connection-0" 30 1464 "ucsv" "uusdc" false 300 "100" "0.5".
Definition spot_world : World ref_env :=
  set_oracle (mkOracleStore None {["CSV_USD" := "0.4"]})
    (set_osmo (mkOsmoStore (Some spot_params) None None None ∅) open_world).
Definition pool_answer : string :=
  ref_ack (enc_object [("price", "2.0"); ("liquidity", "150")]).

(** A block asks, the acknowledgement reports success with a price, and x/oracle still
    holds the old one. *)
Theorem no_price_arrives_witness :
  ∃ w1 w3, BeginBlock (IC := icqClientAdapter true true) true (Some ref_ctx) spot_world
             = (w1, Ok tt) ∧
    HandlePacketAcknowledgement (KC := kvConsumerAdapter) true true ref_ctx "icqcontroller"
      "channel-3" 7 pool_answer w1 = (w3, Ok tt) ∧
    pending_of w1 "channel-3" 7 = Some ("gamm", "pool/1464", "connection-0") ∧
    pending_of w3 "channel-3" 7 = None ∧ w_oracle w3 = w_oracle spot_world.
Proof.
  destruct (json_total (A := list RequestQuery) (JsonLaws := ref_request_laws)
    (query_of "gamm" "pool/1464") eq_refl) as [bz Hbz].
  pose (r := @SendPacket (@env_ibc ref_env) "icqcontroller" "channel-3"
    (u64 (i64 (BlockTime ref_ctx + 2 * minute))) (GetBytes bz) (w_ibc spot_world)).
  destruct (@no_price_arrives _ ref_env_laws _ (@Oracle.oracle_keeper_laws _ ref_env_laws)
    _ _ ref_values_safe ref_ctx spot_params "channel-3" spot_world bz r.1 7)
    as (w1 & Hw1 & _ & _ & Ho & Hpend & Hans & Hread).
  1-10: try reflexivity; try discriminate; try exact Hbz; vm_compute; reflexivity.
  destruct (Hans true true ref_ctx w1 "icqcontroller" pool_answer eq_refl)
    as (w3 & Hw3 & Hclosed & _ & Ho3 & _).
  unfold pool_answer, ref_ack in Hw3. rewrite Hread in Hw3.
  exists w1, w3. split; [exact Hw1|]. split; [exact Hw3|]. split; [exact (Hpend "channel-3" 7)|].
  split; [exact (Hclosed "channel-3" 7)|]. rewrite Ho3. exact Ho.
Defined.
