(* ===== verification/Pricefeed.v ===== *)
(** * x/pricefeed: prices from Band Protocol over IBC

    [src/x/pricefeed]: [keeper/keeper.go], [keeper/integration.go],
    [keeper/oracle_request.go], [keeper/oracle_response.go], the two message servers,
    [keeper/genesis.go], [keeper/msg_update_params.go], [keeper/query_params.go],
    [types/genesis.go], [types/packet_*.go] and [module/module_ibc.go]. *)

From Stdlib Require Import Strings.Ascii Strings.String.
From stdpp Require Import strings.
From S2P Require Import Prelude GoLib Json Sdk RefEnv World RefWorld Interfaces IbcTypes.
From S2P Require ShellTypes Oracle.

Local Open Scope Z_scope.

Definition ModuleName : string := "pricefeed".
Definition Version : string := "pricefeed-1".
Definition PortID : string := "pricefeed".
Definition ErrInvalidSigner : error := ErrReg "pricefeed" 1100.
Definition ErrInvalidVersion : error := ErrReg "pricefeed" 1501.
Definition ErrInvalidRequest : error := ErrSdk "ErrInvalidRequest".
Definition ErrInvalidAddress : error := ErrSdk "ErrInvalidAddress".
Definition ErrUnknownRequest : error := ErrSdk "ErrUnknownRequest".
Definition ErrJSONMarshal : error := ErrSdk "ErrJSONMarshal".

(** ** Packets and messages *)
Record OracleRequestPacketData := mkOracleRequestPacketData {
  OracleScriptId : Z;
  Calldata : string;
  Symbols : string;
  AskCount : Z;
  MinCount : Z;
  FeeLimit : string;
  PrepareGas : Z;
  ExecuteGas : Z;
  ClientId : string
}.

Record OracleResponsePacketData := mkOracleResponsePacketData {
  RequestId : Z;
  Prices : string;
  Rates : string;
  RError : string
}.

(** [PricefeedPacketData]: the oneof [Packet]; [NoPacket] where it is nil. *)
Inductive PricefeedPacketData : Type :=
| NoData
| OracleRequestPacket (d : OracleRequestPacketData)
| OracleResponsePacket (d : OracleResponsePacketData)
| NoPacket.

(** The acknowledgements are empty messages. *)
Inductive OracleRequestPacketAck : Type := mkOracleRequestPacketAck.
Inductive OracleResponsePacketAck : Type := mkOracleResponsePacketAck.

Record MsgSendOracleRequest := mkMsgSendOracleRequest {
  rq_Creator : string;
  rq_Port : string;
  rq_ChannelID : string;
  rq_TimeoutTimestamp : Z;
  rq_data : OracleRequestPacketData
}.
Record MsgSendOracleResponse := mkMsgSendOracleResponse {
  rs_Creator : string;
  rs_Port : string;
  rs_ChannelID : string;
  rs_TimeoutTimestamp : Z;
  rs_data : OracleResponsePacketData
}.

(** [hex.EncodeToString] *)
Fixpoint hex_encode (s : string) : string :=
  match s with
  | EmptyString => EmptyString
  | String c s' =>
      String (hex_digit (byte_code c / 16)) (String (hex_digit (byte_code c mod 16))
        (hex_encode s'))
  end.

(** [json.Marshal] of the struct with the symbols; [None] is the nil slice. *)
Definition marshal_symbols (symbols : option (list string)) : string :=
  "{" +:+ enc_string "symbols" +:+ ":" +:+
  match symbols with
  | None => "null"
  | Some l => "[" +:+ enc_elements l +:+ "]"
  end +:+ "}".
(** [fmt.Sprintf("%v", symbols)] *)
Definition fmt_symbols (symbols : option (list string)) : string :=
  "[" +:+ join " " (default [] symbols) +:+ "]".

(** ** The keeper *)
Section Keeper.
Context {E : Env} {OK : OracleKeeper E} (k_authority : Slice).
(** Whether [ibcKeeperFn] and [scopedKeeper] are not nil. *)
Context (ibc_fn scoped : bool).
Context {PC : ProtoCodec PricefeedPacketData}.
Context {QA : JsonCodec OracleRequestPacketAck} {RA : JsonCodec OracleResponsePacketAck}.
Implicit Types ctx : Ctx.

Definition feed_set (f : FeedStore → FeedStore) (w : World E) : World E :=
  set_feed (f (w_feed w)) w.
Definition params_get : stM (World E) ShellTypes.Empty.Params :=
  coll_get "p_pricefeed" (λ w, f_params (w_feed w)).
Definition params_set (p : ShellTypes.Empty.Params) : stM (World E) unit :=
  coll_set "p_pricefeed" (feed_set (λ s, mkFeedStore (Some p) (f_port s))).
Definition Port_get : stM (World E) string :=
  coll_get "pricefeed-port-" (λ w, f_port (w_feed w)).
Definition Port_set (p : string) : stM (World E) unit :=
  coll_set "pricefeed-port-" (feed_set (λ s, mkFeedStore (f_params s) (Some p))).

(** *** Sending *)
Definition transmit (packet : PricefeedPacketData) (sourcePort sourceChannel : string)
    (timeoutTimestamp : Z) : stM (World E) Z :=
  packetBytes ← replace_err (lift (pb_Marshal packet)) ErrJSONMarshal
    "cannot marshal the packet";
  (if ibc_fn then mret tt else panic nil_call);;
  on_ibc (SendPacket sourcePort sourceChannel timeoutTimestamp packetBytes).

Definition TransmitOracleRequestPacket ctx (packetData : OracleRequestPacketData)
    (sourcePort sourceChannel : string) (timeoutTimestamp : Z) : stM (World E) Z :=
  transmit (OracleRequestPacket packetData) sourcePort sourceChannel timeoutTimestamp.
Definition TransmitOracleResponsePacket ctx (packetData : OracleResponsePacketData)
    (sourcePort sourceChannel : string) (timeoutTimestamp : Z) : stM (World E) Z :=
  transmit (OracleResponsePacket packetData) sourcePort sourceChannel timeoutTimestamp.

(** The checks both messages start with. *)
Definition check_message (creator port channelID : string) (timeout : Z)
    : stM (World E) unit :=
  match StringToBytes creator with
  | (_, Some err) => throw (ErrWrap ErrInvalidAddress "invalid address")
  | (_, None) =>
  if String.eqb port "" then throw (ErrWrap ErrInvalidRequest "invalid packet port") else
  if String.eqb channelID "" then throw (ErrWrap ErrInvalidRequest "invalid packet channel")
  else if timeout =? 0 then throw (ErrWrap ErrInvalidRequest "invalid packet timeout")
  else mret tt
  end.

Definition or_number (d n : Z) : Z := if n =? 0 then d else n.
(** The default values for Band Protocol. *)
Definition with_defaults (d : OracleRequestPacketData) : OracleRequestPacketData :=
  mkOracleRequestPacketData (OracleScriptId d) (Calldata d) (Symbols d)
    (or_number 4 (AskCount d)) (or_number 3 (MinCount d))
    (if String.eqb (FeeLimit d) "" then "100000uband" else FeeLimit d)
    (or_number 50000 (PrepareGas d)) (or_number 300000 (ExecuteGas d)) (ClientId d).

Definition SendOracleRequest ctx (msg : MsgSendOracleRequest) : stM (World E) unit :=
  check_message (rq_Creator msg) (rq_Port msg) (rq_ChannelID msg) (rq_TimeoutTimestamp msg);;
  TransmitOracleRequestPacket ctx (with_defaults (rq_data msg)) (rq_Port msg)
    (rq_ChannelID msg) (rq_TimeoutTimestamp msg);;
  mret tt.

Definition SendOracleResponse ctx (msg : MsgSendOracleResponse) : stM (World E) unit :=
  check_message (rs_Creator msg) (rs_Port msg) (rs_ChannelID msg) (rs_TimeoutTimestamp msg);;
  TransmitOracleResponsePacket ctx (rs_data msg) (rs_Port msg)
    (rs_ChannelID msg) (rs_TimeoutTimestamp msg);;
  mret tt.

(** *** [integration.go] *)
Definition price_request ctx (symbols : option (list string)) : OracleRequestPacketData :=
  mkOracleRequestPacketData 37 (hex_encode (marshal_symbols symbols)) (fmt_symbols symbols)
    4 3 "100000uband" 50000 300000 ("cosvian-price-req-" +:+ fmt_d (BlockHeight ctx)).

Definition RequestPriceData ctx (symbols : option (list string)) (channelID : string)
    : stM (World E) unit :=
  let msg := mkMsgSendOracleRequest (AccAddressString k_authority) PortID channelID
    (u64 (u64 (unix (BlockTime ctx)) + 3600)) (price_request ctx symbols) in
  wrap_err (SendOracleRequest ctx msg) "failed to send oracle request".

Definition IntegrateWithOracleModule ctx (symbols : option (list string))
    : stM (World E) unit :=
  EmitEvent "pricefeed_request" [
    ("symbols", AStr (fmt_symbols symbols));
    ("source", AStr "band_protocol");
    ("block_height", AStr (fmt_d (BlockHeight ctx)))].

(** The value under "CSV" of a JSON object, as text. *)
Definition csv_text (text : string) : option string :=
  if String.eqb text "" then None else
  match unmarshal_map text with
  | (m, true) =>
      match m !! "CSV" with
      | Some (JStr vv) => Some vv
      | Some vv => Some (fmt_v vv)
      | None => None
      end
  | (_, false) => None
  end.
(** That text as a decimal, when it is a positive one. *)
Definition positive_price (text : string) : stM (World E) (option Dec) :=
  match csv_text text with
  | None => mret None
  | Some str =>
      r ← attempt (lift (LegacyNewDecFromStr str));
      match r with
      | inr _ => mret None
      | inl dec =>
          pos ← lift (DecIsPositive dec);
          mret (if pos : bool then Some dec else None)
      end
  end.
Definition update_price ctx (dec : Dec) (source : string) (requestId : Z)
    : stM (World E) unit :=
  ignore_err (SetCSVPerUSD ctx dec);;
  EmitEvent "price_updated" [
    ("symbol", AStr "CSV/USD");
    ("price", AStr (DecString dec));
    ("source", AStr source);
    ("request_id", AStr (fmt_d requestId))].

Definition ProcessPriceResponse ctx (response : OracleResponsePacketData)
    : stM (World E) unit :=
  if negb (String.eqb (RError response) "")
  then throw (ErrText "oracle response error: %s") else
  rate ← positive_price (Rates response);
  match rate with
  | Some dec => update_price ctx dec "band_protocol_rates" (RequestId response)
  | None =>
      price ← positive_price (Prices response);
      match price with
      | Some usdPerCSV =>
          csvPerUSD ← lift (DecQuo LegacyOneDec usdPerCSV);
          update_price ctx csvPerUSD "band_protocol_prices_inverted" (RequestId response)
      | None => mret tt
      end
  end.

(** *** Packets *)
Definition OnRecvOracleRequestPacket ctx (packet : Packet) (data : OracleRequestPacketData)
    : stM (World E) OracleRequestPacketAck := mret mkOracleRequestPacketAck.

Definition OnRecvOracleResponsePacket ctx (packet : Packet) (data : OracleResponsePacketData)
    : stM (World E) OracleResponsePacketAck :=
  if negb (String.eqb (RError data) "")
  then throw (ErrWrap ErrInvalidRequest "oracle response error") else
  replace_err (ProcessPriceResponse ctx data) ErrInvalidRequest
    "failed to process price response";;
  mret mkOracleResponsePacketAck.

(** The switch on the acknowledgement both kinds of packet have. *)
Definition on_ack {A} `{JsonCodec A} (ack : Acknowledgement) : stM (World E) unit :=
  match ack with
  | AckError _ => mret tt
  | AckResult result =>
      r ← attempt (lift (json_Unmarshal (A := A) result));
      match r with
      | inr _ => throw (ErrText "cannot unmarshal acknowledgment")
      | inl _ => mret tt
      end
  | AckNone => throw (ErrText "invalid acknowledgment format")
  end.
Definition OnAcknowledgementOracleRequestPacket ctx (packet : Packet)
    (data : OracleRequestPacketData) (ack : Acknowledgement) : stM (World E) unit :=
  on_ack (A := OracleRequestPacketAck) ack.
Definition OnAcknowledgementOracleResponsePacket ctx (packet : Packet)
    (data : OracleResponsePacketData) (ack : Acknowledgement) : stM (World E) unit :=
  on_ack (A := OracleResponsePacketAck) ack.
Definition OnTimeoutOracleRequestPacket ctx (packet : Packet)
    (data : OracleRequestPacketData) : stM (World E) unit := mret tt.
Definition OnTimeoutOracleResponsePacket ctx (packet : Packet)
    (data : OracleResponsePacketData) : stM (World E) unit := mret tt.

(** *** Messages, queries, genesis *)
Definition UpdateParams ctx (authority : string) (params : ShellTypes.Empty.Params)
    : stM (World E) unit :=
  check_authority k_authority ErrInvalidSigner authority;;
  lift (ShellTypes.Empty.Validate params);;
  params_set params.
Definition QueryParams (req : option unit) : stM (World E) ShellTypes.Empty.Params :=
  query_params params_get ShellTypes.Empty.NewParams req.

Definition GenesisState : Type := PortGenesis ShellTypes.Empty.Params.
Definition DefaultGenesis : GenesisState :=
  mkPortGenesis ShellTypes.Empty.DefaultParams PortID.
Definition GenesisValidate (gs : GenesisState) : res unit :=
  match PortIdentifierValidator (g_PortId gs) with
  | Some err => Err err
  | None => ShellTypes.Empty.Validate (g_Params gs)
  end.

Definition InitGenesis ctx (gs : GenesisState) : stM (World E) unit :=
  Port_set (g_PortId gs);;
  (if scoped then
     let name := "ports/" +:+ g_PortId gs in
     have ← gets (λ w, GetCapability (w_cap w) name);
     if have : bool then mret tt else ignore_err (on_cap (NewCapability name))
   else mret tt);;
  params_set (g_Params gs).

Definition ExportGenesis ctx : stM (World E) GenesisState :=
  params ← params_get;
  port ← attempt Port_get;
  match port with
  | inl port => mret (mkPortGenesis params port)
  | inr err =>
      if errors_Is err ErrNotFound then mret (mkPortGenesis params "") else throw err
  end.

(** ** [module/module_ibc.go]

    Acknowledgements are read with the protobuf JSON of the application's codec. *)
Context {AC : JsonCodec Acknowledgement} {AT : AckText}.

Definition OnChanOpenInit ctx (connectionHops : list string) (portID channelID version : string)
    : stM (World E) string :=
  check_version Version ErrInvalidVersion version;;
  mret version.
Definition OnChanOpenTry ctx (connectionHops : list string)
    (portID channelID counterpartyVersion : string) : stM (World E) string :=
  check_version Version ErrInvalidVersion counterpartyVersion;;
  mret counterpartyVersion.
Definition OnChanOpenAck ctx (portID channelID counterpartyChannelID counterpartyVersion : string)
    : stM (World E) unit :=
  check_version Version ErrInvalidVersion counterpartyVersion.
Definition OnChanOpenConfirm ctx (portID channelID : string) : stM (World E) unit := mret tt.
Definition OnChanCloseInit ctx (portID channelID : string) : stM (World E) unit :=
  throw (ErrWrap ErrInvalidRequest "user cannot close channel").
Definition OnChanCloseConfirm ctx (portID channelID : string) : stM (World E) unit := mret tt.

(** The acknowledgement of a handler's outcome, and the event; the event's success
    attribute is [err != nil].  Without an encoding of the answer there is no event. *)
Definition acknowledge {A} `{JsonCodec A} (eventType : string) (handler : stM (World E) A)
    : stM (World E) Acknowledgement :=
  r ← attempt handler;
  let event err := EmitEvent eventType [
    ("module", AStr ModuleName); ("success", ABool err)] in
  match r with
  | inr err => event true;; mret (NewErrorAcknowledgement err)
  | inl packetAck =>
      b ← attempt (lift (json_Marshal packetAck));
      match b with
      | inr err => mret (NewErrorAcknowledgement (ErrWrap ErrJSONMarshal "err"))
      | inl packetAckBytes => event false;; mret (NewResultAcknowledgement packetAckBytes)
      end
  end.

Definition OnRecvPacket ctx (modulePacket : Packet) : stM (World E) Acknowledgement :=
  r ← attempt (lift (pb_Unmarshal (A := PricefeedPacketData) (Data modulePacket)));
  match r with
  | inr _ => mret (NewErrorAcknowledgement
               (ErrWrap ErrUnknownRequest "cannot unmarshal packet data"))
  | inl (OracleRequestPacket d) =>
      acknowledge "oracleRequest_packet" (OnRecvOracleRequestPacket ctx modulePacket d)
  | inl (OracleResponsePacket d) =>
      acknowledge "oracleResponse_packet" (OnRecvOracleResponsePacket ctx modulePacket d)
  | inl _ => mret (NewErrorAcknowledgement (ErrText "unrecognized pricefeed packet type"))
  end.

Definition OnAcknowledgementPacket ctx (modulePacket : Packet) (acknowledgement : string)
    : stM (World E) unit :=
  ack ← replace_err (lift (json_Unmarshal (A := Acknowledgement) acknowledgement))
    ErrUnknownRequest "cannot unmarshal packet acknowledgement";
  data ← replace_err (lift (pb_Unmarshal (A := PricefeedPacketData) (Data modulePacket)))
    ErrUnknownRequest "cannot unmarshal packet data";
  eventType ← match data with
    | OracleRequestPacket d =>
        OnAcknowledgementOracleRequestPacket ctx modulePacket d ack;;
        mret "oracleRequest_packet"
    | OracleResponsePacket d =>
        OnAcknowledgementOracleResponsePacket ctx modulePacket d ack;;
        mret "oracleResponse_packet"
    | _ => throw (ErrWrap ErrUnknownRequest "unrecognized pricefeed packet type")
    end;
  EmitEvent eventType [("acknowledgement", AStr (ack_text ack))];;
  match ack with
  | AckResult result => EmitEvent eventType [("success", AStr result)]
  | AckError error => EmitEvent eventType [("error", AStr error)]
  | AckNone => mret tt
  end.

Definition OnTimeoutPacket ctx (modulePacket : Packet) : stM (World E) unit :=
  data ← replace_err (lift (pb_Unmarshal (A := PricefeedPacketData) (Data modulePacket)))
    ErrUnknownRequest "cannot unmarshal packet data";
  match data with
  | OracleRequestPacket d => OnTimeoutOracleRequestPacket ctx modulePacket d
  | OracleResponsePacket d => OnTimeoutOracleResponsePacket ctx modulePacket d
  | _ => throw (ErrWrap ErrUnknownRequest "unrecognized pricefeed packet type")
  end.
End Keeper.

(** ** What a response does to the price *)
Section Responses.
Context {E : Env} {L : EnvLaws E} {OK : OracleKeeper E} {OL : OracleKeeperLaws E}.
Implicit Types (ctx : Ctx) (w : World E).

(** The positive decimal under "CSV", in units of 10^-18. *)
Definition quoted (text : string) : option Z :=
  match csv_text text with
  | Some str =>
      match LegacyNewDecFromStr str with
      | Ok (Some z) => if 0 <? z then Some z else None
      | _ => None
      end
  | None => None
  end.
(** One divided by a price. *)
Definition inverse (z : Z) : Z := chop (Z.quot (precision * precision * precision) z).

(** The price is set to [z] and one event tells where it came from. *)
Definition updated ctx (z : Z) (source : string) (requestId : Z) (w w' : World E) : Prop :=
  (∃ o, w' = logged (mkEvent "price_updated" [
     ("symbol", AStr "CSV/USD"); ("price", AStr (DecString (Some z)));
     ("source", AStr source); ("request_id", AStr (fmt_d requestId))]) (set_oracle o w)) ∧
  GetCSVPerUSD ctx w' = (w', Ok (Some z)).

Lemma positive_price_run text w : positive_price text w = (w, Ok (Some <$> quoted text)).
Proof using L.
  unfold positive_price, quoted. destruct (csv_text text) as [str|]; [|done].
  pose proof (DecFromStr_total str) as Ht.
  destruct (LegacyNewDecFromStr str) as [d|e|p] eqn:Hd; [|done|by edestruct Ht].
  apply DecFromStr_ok in Hd as (z & -> & _).
  rewrite (bind_run (attempt (lift (Ok (Some z)))) _ _ _ (inl (Some z)) eq_refl).
  rewrite DecIsPositive_spec, (bind_run (lift _) _ _ _ _ eq_refl). by destruct (0 <? z).
Qed.

Lemma quoted_range text z : quoted text = Some z → 0 < z ∧ Z.abs z < dec_limit.
Proof using L.
  unfold quoted. destruct (csv_text text) as [str|]; [|done].
  destruct (LegacyNewDecFromStr str) as [d| |] eqn:Hd; [|done..].
  apply DecFromStr_ok in Hd as (z' & -> & Hz').
  destruct (Z.ltb_spec 0 z'); [by intros [= <-]|done].
Qed.

Lemma update_price_run ctx ctx' z source id w :
  Z.abs z < dec_limit →
  ∃ w', update_price ctx (Some z) source id w = (w', Ok tt) ∧ updated ctx' z source id w w'.
Proof using OL.
  intros Hz. unfold update_price. destruct (SetCSVPerUSD_total ctx (Some z) w) as [o Ho].
  assert (Hi : ignore_err (SetCSVPerUSD ctx (Some z)) w = (set_oracle o w, Ok tt)).
  { unfold ignore_err, attempt, mbind, stM_bind. by rewrite Ho. }
  rewrite (bind_run _ _ _ _ _ Hi), EmitEvent_run. eexists. split; [done|].
  split; [by eexists|]. set (w' := logged _ _).
  destruct (GetCSVPerUSD_total ctx' w') as (z' & Hg & _). rewrite Hg.
  pose proof (GetCSVPerUSD_frame ctx' (set_oracle o w) w' eq_refl) as Hf. rewrite Hg in Hf.
  rewrite (SetCSVPerUSD_get ctx ctx' z w _ tt Ho Hz) in Hf. by injection Hf as ->.
Qed.

Lemma inverse_spec z :
  0 < z → Z.abs (inverse z * z - precision * precision) ≤ z ∧
          (z ≤ precision * precision → 0 < inverse z) ∧ Z.abs (inverse z) < 2 ^ 255.
Proof.
  intros Hz. unfold inverse. set (n := precision * precision * precision).
  assert (Hn : n = 10 ^ 54) by reflexivity. rewrite Z.quot_div_nonneg by (rewrite ?Hn; lia).
  pose proof (Z.div_mod n z ltac:(lia)) as Hd. pose proof (Z.mod_pos_bound n z Hz) as Hm.
  pose proof (chop_bounds (n / z)) as Hc. set (q := n / z) in *. set (r := n mod z) in *.
  set (c := chop q) in *. clearbody c q r. change precision with (10 ^ 18) in *. rewrite Hn in *.
  clear n Hn. split; [|split].
  - assert (2 * 10 ^ 18 * Z.abs (c * z - 10 ^ 36) ≤ 10 ^ 18 * z + 2 * z) by nia. lia.
  - intros Hs. nia.
  - assert (Z.abs q ≤ 10 ^ 54) by nia. lia.
Qed.

(** The price a response stands for, and its source. *)
Definition priced (r : OracleResponsePacketData) : option (Z * string) :=
  match quoted (Rates r), quoted (Prices r) with
  | Some z, _ => Some (z, "band_protocol_rates")
  | None, Some z => Some (inverse z, "band_protocol_prices_inverted")
  | None, None => None
  end.

Lemma process_run ctx ctx' r w :
  String.eqb (RError r) "" = true →
  match priced r with
  | Some (z, source) => ∃ w', ProcessPriceResponse ctx r w = (w', Ok tt) ∧
      updated ctx' z source (RequestId r) w w'
  | None => ProcessPriceResponse ctx r w = (w, Ok tt)
  end.
Proof using L OL.
  unfold ProcessPriceResponse, priced. intros ->. cbn [negb].
  rewrite (bind_run _ _ _ _ _ (positive_price_run (Rates r) w)).
  destruct (quoted (Rates r)) as [z|] eqn:Hr; [by eapply update_price_run, quoted_range|].
  change (Some <$> None) with (@None Dec). cbv iota.
  rewrite (bind_run _ _ _ _ _ (positive_price_run (Prices r) w)).
  destruct (quoted (Prices r)) as [z|] eqn:Hq; [|done].
  apply quoted_range in Hq as [Hz _]. destruct (inverse_spec z Hz) as (_ & _ & Hs).
  change (Some <$> Some z) with (Some (Some z)). cbv iota. unfold LegacyOneDec.
  rewrite DecQuo_spec by lia. fold (inverse z). rewrite dec_ret_ok by done.
  rewrite (bind_run (lift _) _ _ _ _ eq_refl). apply update_price_run.
  pose proof dec_limit_ge. lia.
Qed.

(** C16 (functional). A response that reports an error is refused and changes nothing.
    Otherwise a positive decimal under "CSV" in the rates becomes the price; failing that,
    one in the prices is taken as dollars per CSV and its inverse becomes the price,
    correct to one unit in the last place and positive for any price up to 10^18 dollars;
    failing both, nothing changes. Either update emits one event that names its source,
    and the price is what the oracle reports from then on. *)
Theorem ProcessPriceResponse_spec ctx ctx' r w :
  if String.eqb (RError r) "" then
    match quoted (Rates r), quoted (Prices r) with
    | Some z, _ =>
        ∃ w', ProcessPriceResponse ctx r w = (w', Ok tt) ∧
          updated ctx' z "band_protocol_rates" (RequestId r) w w'
    | None, Some z =>
        ∃ w' q, ProcessPriceResponse ctx r w = (w', Ok tt) ∧
          Z.abs (q * z - precision * precision) ≤ z ∧
          (z ≤ precision * precision → 0 < q) ∧
          updated ctx' q "band_protocol_prices_inverted" (RequestId r) w w'
    | None, None => ProcessPriceResponse ctx r w = (w, Ok tt)
    end
  else ProcessPriceResponse ctx r w = (w, Err (ErrText "oracle response error: %s")).
Proof using L OL.
  destruct (String.eqb (RError r) "") eqn:He.
  - pose proof (process_run ctx ctx' r w He) as Hp. unfold priced in Hp.
    destruct (quoted (Rates r)); [done|]. destruct (quoted (Prices r)) as [z|] eqn:Hq; [|done].
    apply quoted_range in Hq as [Hz _]. destruct (inverse_spec z Hz) as (H1 & H2 & _).
    destruct Hp as (w' & Hw & Hu). by exists w', (inverse z).
  - unfold ProcessPriceResponse. by rewrite He.
Qed.
End Responses.

(** ** Packets *)
Section Packets.
Context {E : Env} {L : EnvLaws E} {OK : OracleKeeper E} {OL : OracleKeeperLaws E}.
Context {PC : ProtoCodec PricefeedPacketData}.
Context {QA : JsonCodec OracleRequestPacketAck} {RA : JsonCodec OracleResponsePacketAck}.
Context {QL : JsonLaws OracleRequestPacketAck (λ _, true)}
  {RL : JsonLaws OracleResponsePacketAck (λ _, true)}.
Context {AT : AckText}.
Implicit Types (ctx : Ctx) (w : World E).

(** The event about a received packet; [failed] is what its success attribute says. *)
Definition received (eventType : string) (failed : bool) w : World E :=
  logged (mkEvent eventType [("module", AStr ModuleName); ("success", ABool failed)]) w.

Lemma acknowledge_run {A} `{JL : JsonLaws A (λ _, true)} ty (handler : stM (World E) A) w :
  match handler w with
  | (w1, Ok a) => ∃ b, json_Marshal a = Ok b ∧
      acknowledge ty handler w = (received ty false w1, Ok (AckResult b))
  | (w1, Err e) => acknowledge ty handler w = (received ty true w1, Ok (NewErrorAcknowledgement e))
  | (w1, Panic p) => acknowledge ty handler w = (w1, Panic p)
  end.
Proof.
  unfold acknowledge. destruct (handler w) as [w1 [a|e|p]] eqn:Hh.
  - destruct (json_total (dom := λ _, true) a eq_refl) as [b Hb]. exists b. split; [done|].
    rewrite (bind_run (attempt handler) _ w w1 (inl a)) by (unfold attempt; by rewrite Hh).
    cbv zeta. by rewrite Hb, (bind_run (attempt (lift (Ok b))) _ _ _ (inl b) eq_refl).
  - by rewrite (bind_run (attempt handler) _ w w1 (inr e)) by (unfold attempt; by rewrite Hh).
  - by rewrite (bind_run_panic (attempt handler) _ w w1 p) by (unfold attempt; by rewrite Hh).
Qed.

(** C38 (functional). A packet that arrives is answered on every path. What cannot be read
    or is neither request nor response gets an error acknowledgement and changes nothing.
    A request is acknowledged. A response without an error of its own is processed, as
    stated above, and acknowledged with a result; one that reports an error is answered
    with an error and changes no price. The success attribute of the event says "true"
    exactly when the packet was refused. *)
Theorem OnRecvPacket_spec ctx packet w :
  (∀ p, pb_Unmarshal (A := PricefeedPacketData) (Data packet) ≠ Panic p) →
  match pb_Unmarshal (A := PricefeedPacketData) (Data packet) with
  | Ok (OracleRequestPacket d) =>
      ∃ b, OnRecvPacket ctx packet w
           = (received "oracleRequest_packet" false w, Ok (AckResult b))
  | Ok (OracleResponsePacket d) =>
      if String.eqb (RError d) "" then
        ∃ w1 b, ProcessPriceResponse ctx d w = (w1, Ok tt) ∧
          OnRecvPacket ctx packet w
          = (received "oracleResponse_packet" false w1, Ok (AckResult b))
      else
        ∃ e, OnRecvPacket ctx packet w
             = (received "oracleResponse_packet" true w, Ok (AckError e))
  | _ => ∃ e, OnRecvPacket ctx packet w = (w, Ok (AckError e))
  end.
Proof using L OL QL RL.
  intros Hp. unfold OnRecvPacket.
  destruct (pb_Unmarshal (Data packet)) as [d|e|p]; [| |by edestruct Hp].
  2: { rewrite (bind_run (attempt (lift (Err e))) _ _ _ (inr e) eq_refl). by eexists. }
  rewrite (bind_run (attempt (lift (Ok d))) _ _ _ (inl d) eq_refl).
  destruct d as [|d|d|]; [by eexists| | |by eexists].
  - pose proof (acknowledge_run "oracleRequest_packet"
      (OnRecvOracleRequestPacket ctx packet d) w) as (b & _ & Hb). by exists b.
  - pose proof (acknowledge_run "oracleResponse_packet"
      (OnRecvOracleResponsePacket ctx packet d) w) as Ha.
    unfold OnRecvOracleResponsePacket in Ha at 1.
    destruct (String.eqb (RError d) "") eqn:He; cbn [negb] in Ha; [|eexists; exact Ha].
    assert (∃ w1, ProcessPriceResponse ctx d w = (w1, Ok tt)) as [w1 Hw].
    { pose proof (process_run ctx ctx d w He) as Hw.
      destruct (priced d) as [[z source]|]; [|by exists w]. destruct Hw as (w' & Hw & _).
      by exists w'. }
    assert (Hr : replace_err (ProcessPriceResponse ctx d) ErrInvalidRequest
      "failed to process price response" w = (w1, Ok tt)).
    { unfold replace_err, attempt, mbind, stM_bind. by rewrite Hw. }
    rewrite (bind_run _ _ _ _ _ Hr) in Ha. destruct Ha as (b & _ & Ha).
    exists w1, b. split; [exact Hw|exact Ha].
Qed.
End Packets.

(** ** Requests *)
Section Requests.
Context {E : Env} {L : EnvLaws E} {PC : ProtoCodec PricefeedPacketData}.
Implicit Types (ctx : Ctx) (w : World E).

Definition sent {A} (ok : A) (wrap : error → error) (port ch bytes : string) (timeout : Z) w
    : World E * res A :=
  let '(s, r) := SendPacket port ch timeout bytes (w_ibc w) in
  (set_ibc s w, match r with Ok _ => Ok ok | Err e => Err (wrap e) | Panic p => Panic p end).

Lemma transmit_run packet bytes port ch timeout w :
  pb_Marshal packet = Ok bytes →
  transmit true packet port ch timeout w =
  (let '(s, r) := SendPacket port ch timeout bytes (w_ibc w) in (set_ibc s w, r)).
Proof.
  intros Hb. unfold transmit.
  assert (Hr : replace_err (lift (pb_Marshal packet)) ErrJSONMarshal
    "cannot marshal the packet" w = (w, Ok bytes)) by (by rewrite Hb).
  by rewrite (bind_run _ _ _ _ _ Hr), (bind_run (mret tt) _ _ _ _ eq_refl).
Qed.

Lemma check_message_run creator b port ch timeout w :
  StringToBytes creator = (b, None) → port ≠ "" → ch ≠ "" → timeout ≠ 0 →
  check_message creator port ch timeout w = (w, Ok tt).
Proof.
  intros Hc Hp Hch Ht. unfold check_message. rewrite Hc.
  destruct (String.eqb_spec port ""), (String.eqb_spec ch ""), (Z.eqb_spec timeout 0); done.
Qed.

(** Asking Band Protocol for prices sends exactly one packet from the module's
    port, with the module's own parameters, and passes on the error when it cannot be sent.
    Its timeout is one hour after the block, but in seconds where IBC counts nanoseconds:
    from the first second of the epoch on it lies before the block that sends it. Without
    the function that gives access to IBC, which is optional, the call panics. *)
Theorem RequestPriceData_spec ctx symbols ch k b bytes w :
  StringToBytes (AccAddressString k) = (b, None) → ch ≠ "" →
  0 ≤ unix (BlockTime ctx) < 2 ^ 63 →
  pb_Marshal (OracleRequestPacket (price_request ctx symbols)) = Ok bytes →
  let timeout := unix (BlockTime ctx) + 3600 in
  RequestPriceData k true ctx symbols ch w =
    sent tt (λ e, ErrWrap e "failed to send oracle request") PortID ch bytes timeout w ∧
  (second ≤ BlockTime ctx → timeout < BlockTime ctx) ∧
  RequestPriceData k false ctx symbols ch w = (w, Panic nil_call).
Proof.
  intros Hk Hch Ht Hb. cbv zeta. split; [|split].
  2: { intros Hs. unfold unix, second in *. Z.div_mod_to_equations. lia. }
  all: unfold RequestPriceData, wrap_err, SendOracleRequest, TransmitOracleRequestPacket; cbn zeta.
  all: rewrite (u64_id (unix (BlockTime ctx))), u64_id by (unfold is_u64; lia).
  all: cbn [rq_Creator rq_Port rq_ChannelID rq_TimeoutTimestamp rq_data].
  all: rewrite (bind_run _ _ _ _ _ (check_message_run _ b PortID ch
         (unix (BlockTime ctx) + 3600) w Hk ltac:(discriminate) Hch ltac:(lia))).
  all: change (with_defaults (price_request ctx symbols)) with (price_request ctx symbols).
  - unfold sent. pose proof (transmit_run _ bytes PortID ch (unix (BlockTime ctx) + 3600) w Hb) as Hr.
    destruct (SendPacket _ _ _ _ _) as [s [q|e|p]].
    + by rewrite (bind_run _ _ _ _ _ Hr).
    + by rewrite (bind_run_err _ _ _ _ _ Hr).
    + by rewrite (bind_run_panic _ _ _ _ _ Hr).
  - unfold transmit. assert (Hr : replace_err (lift (pb_Marshal (OracleRequestPacket
      (price_request ctx symbols)))) ErrJSONMarshal "cannot marshal the packet" w = (w, Ok bytes))
      by (by rewrite Hb).
    rewrite bind_assoc, (bind_run _ _ _ _ _ Hr). done.
Qed.
End Requests.

(** ** Witnesses *)
#[local] Existing Instance Oracle.oracle_keeper.

#[local] Instance request_eq_dec : EqDecision OracleRequestPacketData.
Proof. solve_decision. Defined.
#[local] Instance request_countable : Countable OracleRequestPacketData.
Proof.
  by refine (inj_countable'
    (λ d, (OracleScriptId d, Calldata d, Symbols d, AskCount d, MinCount d, FeeLimit d,
           PrepareGas d, ExecuteGas d, ClientId d))
    (λ '(a, b, c, d, e, f, g, h, i), mkOracleRequestPacketData a b c d e f g h i) _); intros [].
Defined.
#[local] Instance response_eq_dec : EqDecision OracleResponsePacketData.
Proof. solve_decision. Defined.
#[local] Instance response_countable : Countable OracleResponsePacketData.
Proof.
  by refine (inj_countable' (λ d, (RequestId d, Prices d, Rates d, RError d))
    (λ '(a, b, c, d), mkOracleResponsePacketData a b c d) _); intros [].
Defined.
#[local] Instance packet_eq_dec : EqDecision PricefeedPacketData.
Proof. solve_decision. Defined.
#[local] Instance packet_countable : Countable PricefeedPacketData.
Proof.
  refine (inj_countable' (λ p, match p with
      | NoData => inl true | NoPacket => inl false
      | OracleRequestPacket d => inr (inl d) | OracleResponsePacket d => inr (inr d) end)
    (λ x, match x with
      | inl true => NoData | inl false => NoPacket
      | inr (inl d) => OracleRequestPacket d | inr (inr d) => OracleResponsePacket d end) _).
  by intros [].
Defined.
#[local] Instance ref_packet_codec : ProtoCodec PricefeedPacketData := {|
  pb_Marshal := @json_Marshal _ (coded_codec PricefeedPacketData);
  pb_Unmarshal := @json_Unmarshal _ (coded_codec PricefeedPacketData)
|}.
#[local] Instance ref_request_ack : JsonCodec OracleRequestPacketAck :=
  {| json_Marshal _ := Ok "{}"; json_Unmarshal _ := Ok mkOracleRequestPacketAck |}.
#[local] Instance ref_response_ack : JsonCodec OracleResponsePacketAck :=
  {| json_Marshal _ := Ok "{}"; json_Unmarshal _ := Ok mkOracleResponsePacketAck |}.
Lemma ref_request_ack_laws : JsonLaws OracleRequestPacketAck (λ _, true).
Proof. constructor; [by eexists|]. by intros []. Qed.
Lemma ref_response_ack_laws : JsonLaws OracleResponsePacketAck (λ _, true).
Proof. constructor; [by eexists|]. by intros []. Qed.
#[local] Instance ref_ack_text : AckText :=
  {| error_text _ := "ABCI code: 1: error handling packet"; ack_text _ := "ack" |}.

(** Four dollars per CSV, no rates. *)
Definition four_dollars : OracleResponsePacketData :=
  mkOracleResponsePacketData 9 (enc_object [("CSV", "4")]) "" "".

Theorem ProcessPriceResponse_spec_witness :
  ∃ w' q, ProcessPriceResponse ref_ctx four_dollars empty_world = (w', Ok tt) ∧
    Z.abs (q - 25 * 10 ^ 16) ≤ 1 ∧
    updated ref_ctx q "band_protocol_prices_inverted" 9 empty_world w'.
Proof.
  pose proof (@ProcessPriceResponse_spec _ ref_env_laws _ (@Oracle.oracle_keeper_laws _ ref_env_laws)
    ref_ctx ref_ctx four_dollars empty_world) as H.
  assert (Hr : quoted (E := ref_env) (Rates four_dollars) = None) by reflexivity.
  assert (Hq : quoted (E := ref_env) (Prices four_dollars) = Some (4 * 10 ^ 18)) by (vm_compute; reflexivity).
  change (String.eqb (RError four_dollars) "") with true in H. cbv iota in H.
  rewrite Hr, Hq in H. destruct H as (w' & q & Hw & Hb & _ & Hu). exists w', q.
  split; [exact Hw|]. split; [|exact Hu].
  change (precision * precision) with (10 ^ 36) in Hb. lia.
Defined.

Definition response_packet : Packet :=
  mkPacket "oracle" "channel-0" 1 (pos_bits (encode (OracleResponsePacket four_dollars))).

Theorem OnRecvPacket_spec_witness :
  ∃ w1 b, ProcessPriceResponse ref_ctx four_dollars empty_world = (w1, Ok tt) ∧
    OnRecvPacket ref_ctx response_packet empty_world
    = (received "oracleResponse_packet" false w1, Ok (AckResult b)).
Proof.
  pose proof (@OnRecvPacket_spec _ ref_env_laws _ (@Oracle.oracle_keeper_laws _ ref_env_laws)
    _ _ _ ref_request_ack_laws ref_response_ack_laws _ ref_ctx response_packet empty_world) as H.
  assert (Hd : pb_Unmarshal (Data response_packet) = Ok (OracleResponsePacket four_dollars))
    by (vm_compute; reflexivity).
  rewrite Hd in H. apply H. intros p. discriminate.
Defined.

(** The module's port is open on channel-0. *)
Definition feed_world : World ref_env :=
  set_ibc (E := ref_env) (mkRefIbc {[("pricefeed", "channel-0") := (["connection-0"], 1)]}) empty_world.

Theorem RequestPriceData_spec_witness :
  (RequestPriceData (E := ref_env) (Some "gov") true ref_ctx (Some ["CSV"]) "channel-0" feed_world).2
    = Ok tt ∧ unix (BlockTime ref_ctx) + 3600 < BlockTime ref_ctx.
Proof.
  destruct (@RequestPriceData_spec ref_env ref_packet_codec ref_ctx (Some ["CSV"]) "channel-0"
    (Some "gov") (Some "gov")
    (pos_bits (encode (OracleRequestPacket (price_request ref_ctx (Some ["CSV"]))))) feed_world)
    as (Hr & Ht & _).
  - vm_compute. reflexivity.
  - discriminate.
  - vm_compute. split; [discriminate|reflexivity].
  - reflexivity.
  - split; [rewrite Hr; vm_compute; reflexivity|]. apply Ht. vm_compute. discriminate.
Defined.
