(* ===== verification/Modules.v ===== *)
(** * The modules as the application sees them

    [module/module.go], [module/depinject.go] and [NewKeeper] of the ten modules of
    [src/x]: genesis as JSON, the block hooks, the authority a keeper is built with and
    the key prefixes it registers; and the order of the modules in
    [src/app/app_config.go].  What the wrappers share is written once, over a record of
    what a module provides; each module is one such record. *)

From Stdlib Require Import Strings.Ascii Strings.String.
From stdpp Require Import strings.
From S2P Require Import Prelude GoLib Sdk RefEnv World RefWorld Interfaces IbcTypes.
From S2P Require FeesTypes TokenTypes OsmoTypes ShellTypes.
From S2P Require Oracle FeesKeeper TokenKeeper Treasury OsmosisIcq IcqController Pricefeed.

Local Open Scope Z_scope.

(** ** What is not part of the repository *)

(** [collections.SchemaBuilder.Build]: prefixes and names in the order they were added. *)
Class Collections := { Build : list (string * string) → option error }.
(** It succeeds when names and prefixes are distinct and no prefix starts another. *)
Definition prefix_free (l : list (string * string)) : bool :=
  bool_decide (NoDup (map snd l)) &&
  forallb (λ '(i, p), forallb (λ '(j, q), (i =? j)%nat || negb (HasPrefix q p))
    (imap pair (map fst l))) (imap pair (map fst l)).
Class CollectionsLaws `{Collections} : Prop := {
  Build_ok l : prefix_free l = true → Build l = None
}.

(** [authtypes.NewModuleAddressOrBech32Address] *)
Class AuthTypes := { NewModuleAddressOrBech32Address : string → string }.

(** ** What a module provides *)
Record AppModule (E : Env) := mkAppModule {
  am_Name : string;
  (* prefix and name of every collection of the keeper *)
  am_schema : list (string * string);
  am_Genesis : Type;
  am_codec : JsonCodec am_Genesis;
  am_DefaultGenesis : res am_Genesis;
  am_Validate : am_Genesis → res unit;
  am_InitGenesis : Ctx → am_Genesis → stM (World E) unit;
  am_ExportGenesis : Ctx → stM (World E) am_Genesis;
  (* a genesis after its parts went through the store: protobuf has no empty list *)
  am_stored : am_Genesis → am_Genesis;
  am_Params : Type;
  am_UpdateParams : Slice → Ctx → string → am_Params → stM (World E) unit;
  am_BeginBlock : option Ctx → stM (World E) unit;
  am_EndBlock : option Ctx → stM (World E) unit
}.
Arguments mkAppModule {E}.
Arguments am_Name {E}.
Arguments am_schema {E}.
Arguments am_Genesis {E}.
Arguments am_codec {E}.
Arguments am_DefaultGenesis {E}.
Arguments am_Validate {E}.
Arguments am_InitGenesis {E}.
Arguments am_ExportGenesis {E}.
Arguments am_stored {E}.
Arguments am_Params {E}.
Arguments am_UpdateParams {E}.
Arguments am_BeginBlock {E}.
Arguments am_EndBlock {E}.

(** ** The methods of [AppModule], and its provider *)
Section Wrapper.
Context {E : Env} {CO : Collections} {AT : AuthTypes}.
Implicit Types (m : AppModule E) (ctx : Ctx).

Definition Marshal m : am_Genesis m → res string := @json_Marshal _ (am_codec m).
Definition Unmarshal m : string → res (am_Genesis m) := @json_Unmarshal _ (am_codec m).

(** [am.cdc.MustMarshalJSON] panics with the error. *)
Definition DefaultGenesis m : res string :=
  gs ← am_DefaultGenesis m;
  match Marshal m gs with
  | Err _ => Panic "MustMarshalJSON"
  | r => r
  end.

Definition ValidateGenesis m (bz : string) : res unit :=
  match Unmarshal m bz with
  | Ok genState => am_Validate m genState
  | Err e => Err (ErrWrap e "failed to unmarshal genesis state")
  | Panic p => Panic p
  end.

Definition InitGenesis m ctx (gs : string) : stM (World E) unit :=
  genState ← must (lift (Unmarshal m gs)) "failed to unmarshal genesis state";
  must (am_InitGenesis m ctx genState) "failed to initialize genesis state".

Definition ExportGenesis m ctx : stM (World E) string :=
  genState ← must (am_ExportGenesis m ctx) "failed to export genesis state";
  must (lift (Marshal m genState)) "failed to marshal genesis state".

Definition ConsensusVersion : Z := 1.
Definition BeginBlock m (ctx : option Ctx) : stM (World E) unit := am_BeginBlock m ctx.
Definition EndBlock m (ctx : option Ctx) : stM (World E) unit := am_EndBlock m ctx.

(** [keeper.NewKeeper]: the authority the keeper has. *)
Definition NewKeeper m (authority : Slice) : res Slice :=
  match BytesToString authority with
  | (_, Some _) => Panic "invalid authority address"
  | (_, None) =>
      match Build (am_schema m) with
      | Some _ => Panic "schema"
      | None => mret authority
      end
  end.

(** [ProvideModule]: the governance account, unless the configuration names another. *)
Definition authority_of (config_Authority : string) : Slice :=
  Some (if String.eqb config_Authority "" then NewModuleAddress "gov"
        else NewModuleAddressOrBech32Address config_Authority).
Definition ProvideModule m (config_Authority : string) : res Slice :=
  NewKeeper m (authority_of config_Authority).
End Wrapper.

Definition no_hook {E : Env} (ctx : option Ctx) : stM (World E) unit := mret tt.

(** *** The collections each [NewKeeper] registers *)
Definition fees_schema : list (string * string) :=
  [("p_fees", "params")].
Definition token_schema : list (string * string) :=
  [("p_token", "params")].
Definition oracle_schema : list (string * string) :=
  [("p_oracle", "params"); ("csv_price", "csv_price")].
Definition treasury_schema : list (string * string) :=
  [("p_treasury", "params")].
Definition registry_schema : list (string * string) :=
  [("p_registry", "params")].
Definition conversionpool_schema : list (string * string) :=
  [("p_conversionpool", "params")].
Definition cosvian_schema : list (string * string) :=
  [("p_cosvian", "params")].
Definition osmosisicq_schema : list (string * string) :=
  [("p_osmosisicq", "params"); ("lu_osmosisicq", "last_update");
   ("nu_osmosisicq", "next_update"); ("lrt_osmosisicq", "last_result_time");
   ("qid_osmosisicq", "query_ids")].
Definition icqcontroller_schema : list (string * string) :=
  [("icqcontroller-port-", "port"); ("p_icqcontroller", "params");
   ("ac_icqcontroller", "active_channel"); ("pnd_icqcontroller", "pending")].
Definition pricefeed_schema : list (string * string) :=
  [("pricefeed-port-", "port"); ("p_pricefeed", "params")].

(** ** The modules *)
Section Modules.
Context {E : Env} {OK : OracleKeeper E} {FK : FeesKeeper E} {IC : ICQClient E}.
(** Whether an ICQ client and a capability keeper were provided. *)
Context (has_client scoped : bool).
(** The JSON of the genesis messages; those with no field are all alike. *)
Context {JF : JsonCodec FeesTypes.Params} {JT : JsonCodec TokenTypes.Params}
  {JO : JsonCodec OsmoTypes.Params} {JR : JsonCodec ShellTypes.Treasury.Params}
  {JG : JsonCodec ShellTypes.Registry.Params} {JC : JsonCodec ShellTypes.Conversionpool.Params}
  {JE : JsonCodec ShellTypes.Empty.Params}
  {JP : JsonCodec (PortGenesis ShellTypes.Empty.Params)}.

Definition fees_module : AppModule E := {|
  am_Name := FeesTypes.ModuleName;
  am_schema := fees_schema;
  am_Genesis := FeesTypes.Params;
  am_codec := JF;
  am_DefaultGenesis := FeesTypes.DefaultParams;
  am_Validate := FeesTypes.GenesisValidate;
  am_InitGenesis := FeesKeeper.InitGenesis;
  am_ExportGenesis := FeesKeeper.ExportGenesis;
  am_stored := FeesTypes.wire_params;
  am_Params := FeesTypes.Params;
  am_UpdateParams := FeesKeeper.UpdateParams;
  am_BeginBlock := no_hook;
  am_EndBlock := no_hook
|}.

Definition token_module : AppModule E := {|
  am_Name := TokenTypes.ModuleName;
  am_schema := token_schema;
  am_Genesis := TokenTypes.Params;
  am_codec := JT;
  am_DefaultGenesis := mret TokenTypes.DefaultParams;
  am_Validate := TokenTypes.GenesisValidate;
  am_InitGenesis := TokenKeeper.InitGenesis;
  am_ExportGenesis := TokenKeeper.ExportGenesis;
  am_stored := TokenTypes.wire_params;
  am_Params := TokenTypes.Params;
  am_UpdateParams := TokenKeeper.UpdateParams;
  am_BeginBlock := no_hook;
  am_EndBlock := no_hook
|}.

Definition oracle_module : AppModule E := {|
  am_Name := "oracle";
  am_schema := oracle_schema;
  am_Genesis := ShellTypes.Empty.Params;
  am_codec := JE;
  am_DefaultGenesis := mret ShellTypes.Empty.DefaultParams;
  am_Validate := ShellTypes.Empty.Validate;
  am_InitGenesis := Oracle.InitGenesis;
  am_ExportGenesis := Oracle.ExportGenesis;
  am_stored := id;
  am_Params := ShellTypes.Empty.Params;
  am_UpdateParams := Oracle.UpdateParams;
  am_BeginBlock := no_hook;
  am_EndBlock := no_hook
|}.

Definition treasury_module : AppModule E := {|
  am_Name := Treasury.Treasury.ModuleName;
  am_schema := treasury_schema;
  am_Genesis := ShellTypes.Treasury.Params;
  am_codec := JR;
  am_DefaultGenesis := mret ShellTypes.Treasury.DefaultParams;
  am_Validate := ShellTypes.Treasury.Validate;
  am_InitGenesis := Treasury.Treasury.InitGenesis;
  am_ExportGenesis := Treasury.Treasury.ExportGenesis;
  am_stored := id;
  am_Params := ShellTypes.Treasury.Params;
  am_UpdateParams := Treasury.Treasury.UpdateParams;
  am_BeginBlock := no_hook;
  am_EndBlock := no_hook
|}.

Definition registry_module : AppModule E := {|
  am_Name := "registry";
  am_schema := registry_schema;
  am_Genesis := ShellTypes.Registry.Params;
  am_codec := JG;
  am_DefaultGenesis := mret ShellTypes.Registry.DefaultParams;
  am_Validate := ShellTypes.Registry.Validate;
  am_InitGenesis := Treasury.Registry.InitGenesis;
  am_ExportGenesis := Treasury.Registry.ExportGenesis;
  am_stored := id;
  am_Params := ShellTypes.Registry.Params;
  am_UpdateParams := Treasury.Registry.UpdateParams;
  am_BeginBlock := no_hook;
  am_EndBlock := no_hook
|}.

Definition conversionpool_module : AppModule E := {|
  am_Name := "conversionpool";
  am_schema := conversionpool_schema;
  am_Genesis := ShellTypes.Conversionpool.Params;
  am_codec := JC;
  am_DefaultGenesis := mret ShellTypes.Conversionpool.DefaultParams;
  am_Validate := ShellTypes.Conversionpool.Validate;
  am_InitGenesis := Treasury.Conversionpool.InitGenesis;
  am_ExportGenesis := Treasury.Conversionpool.ExportGenesis;
  am_stored := id;
  am_Params := ShellTypes.Conversionpool.Params;
  am_UpdateParams := Treasury.Conversionpool.UpdateParams;
  am_BeginBlock := no_hook;
  am_EndBlock := no_hook
|}.

Definition cosvian_module : AppModule E := {|
  am_Name := "cosvian";
  am_schema := cosvian_schema;
  am_Genesis := ShellTypes.Empty.Params;
  am_codec := JE;
  am_DefaultGenesis := mret ShellTypes.Empty.DefaultParams;
  am_Validate := ShellTypes.Empty.Validate;
  am_InitGenesis := Treasury.Cosvian.InitGenesis;
  am_ExportGenesis := Treasury.Cosvian.ExportGenesis;
  am_stored := id;
  am_Params := ShellTypes.Empty.Params;
  am_UpdateParams := Treasury.Cosvian.UpdateParams;
  am_BeginBlock := no_hook;
  am_EndBlock := no_hook
|}.

(** Without a client the module uses the one that only counts. *)
Definition osmosisicq_module : AppModule E := {|
  am_Name := OsmoTypes.ModuleName;
  am_schema := osmosisicq_schema;
  am_Genesis := OsmoTypes.Params;
  am_codec := JO;
  am_DefaultGenesis := mret OsmoTypes.DefaultParams;
  am_Validate := OsmoTypes.Validate;
  am_InitGenesis := OsmosisIcq.InitGenesis;
  am_ExportGenesis := OsmosisIcq.ExportGenesis;
  am_stored := id;
  am_Params := OsmoTypes.Params;
  am_UpdateParams := OsmosisIcq.UpdateParams;
  am_BeginBlock := OsmosisIcq.BeginBlock has_client;
  am_EndBlock := no_hook
|}.

Definition icqcontroller_module : AppModule E := {|
  am_Name := IcqController.ModuleName;
  am_schema := icqcontroller_schema;
  am_Genesis := IcqController.GenesisState;
  am_codec := JP;
  am_DefaultGenesis := mret IcqController.DefaultGenesis;
  am_Validate := IcqController.GenesisValidate;
  am_InitGenesis := IcqController.InitGenesis scoped;
  am_ExportGenesis := IcqController.ExportGenesis;
  am_stored := id;
  am_Params := ShellTypes.Empty.Params;
  am_UpdateParams := IcqController.UpdateParams;
  am_BeginBlock := no_hook;
  am_EndBlock := no_hook
|}.

Definition pricefeed_module : AppModule E := {|
  am_Name := Pricefeed.ModuleName;
  am_schema := pricefeed_schema;
  am_Genesis := Pricefeed.GenesisState;
  am_codec := JP;
  am_DefaultGenesis := mret Pricefeed.DefaultGenesis;
  am_Validate := Pricefeed.GenesisValidate;
  am_InitGenesis := Pricefeed.InitGenesis scoped;
  am_ExportGenesis := Pricefeed.ExportGenesis;
  am_stored := id;
  am_Params := ShellTypes.Empty.Params;
  am_UpdateParams := Pricefeed.UpdateParams;
  am_BeginBlock := no_hook;
  am_EndBlock := no_hook
|}.

(** ** [app_config.go]: the chain's own modules, in the order they are initialized *)
Definition init_order : list (AppModule E) :=
  [cosvian_module; token_module; oracle_module; pricefeed_module; registry_module;
   fees_module; osmosisicq_module; icqcontroller_module].
(** Every module of [src/x]; treasury and conversionpool are not part of the application. *)
Definition all_modules : list (AppModule E) :=
  init_order ++ [treasury_module; conversionpool_module].

Definition InitChain (gs : list (AppModule E * string)) (ctx : Ctx) : stM (World E) unit :=
  for_each gs (λ '(m, bz), InitGenesis m ctx bz).
Definition BeginBlocks (ctx : option Ctx) : stM (World E) unit :=
  for_each init_order (λ m, BeginBlock m ctx).
Definition EndBlocks (ctx : option Ctx) : stM (World E) unit :=
  for_each init_order (λ m, EndBlock m ctx).
End Modules.

(** ** What every module promises *)
Class ModuleLaws {E : Env} (m : AppModule E) : Prop := {
  export_pure ctx ctx' w :
    (am_ExportGenesis m ctx w).1 = w ∧
    (am_ExportGenesis m ctx w).2 = (am_ExportGenesis m ctx' w).2;
  init_export ctx gs w :
    ∃ w', am_InitGenesis m ctx gs w = (w', Ok tt) ∧
      ∀ ctx', am_ExportGenesis m ctx' w' = (w', Ok (am_stored m gs));
  update_authority k ctx authority p w :
    (∃ bz, StringToBytes authority = (bz, None) ∧ bytes_of bz = bytes_of k) ∨
    (∃ e, am_UpdateParams m k ctx authority p w = (w, Err e))
}.

(** Initializing one module leaves the genesis of another as it is. *)
Definition apart {E : Env} (m1 m2 : AppModule E) : Prop := ∀ ctx ctx' gs w,
  (am_ExportGenesis m2 ctx' (am_InitGenesis m1 ctx gs w).1).2 = (am_ExportGenesis m2 ctx' w).2.

(** Genesis of the modules that keep one item. *)
Ltac unfold_genesis :=
  unfold FeesKeeper.InitGenesis, FeesKeeper.ExportGenesis, FeesKeeper.params_get,
    FeesKeeper.params_set, TokenKeeper.InitGenesis, TokenKeeper.ExportGenesis,
    TokenKeeper.params_get, TokenKeeper.params_set, Oracle.InitGenesis, Oracle.ExportGenesis,
    Oracle.params_get, Oracle.params_set, Treasury.Treasury.InitGenesis,
    Treasury.Treasury.ExportGenesis, Treasury.Treasury.params_get, Treasury.Treasury.params_set,
    Treasury.Registry.InitGenesis, Treasury.Registry.ExportGenesis,
    Treasury.Registry.params_get, Treasury.Registry.params_set,
    Treasury.Conversionpool.InitGenesis, Treasury.Conversionpool.ExportGenesis,
    Treasury.Conversionpool.params_get, Treasury.Conversionpool.params_set,
    Treasury.Cosvian.InitGenesis, Treasury.Cosvian.ExportGenesis, Treasury.Cosvian.params_get,
    Treasury.Cosvian.params_set, OsmosisIcq.InitGenesis, OsmosisIcq.ExportGenesis,
    OsmosisIcq.params_get, OsmosisIcq.params_set in *.

Section Promises.
Context {E : Env} {L : EnvLaws E} {OK : OracleKeeper E} {FK : FeesKeeper E} {IC : ICQClient E}.
Context (has_client scoped : bool).
Context {JF : JsonCodec FeesTypes.Params} {JT : JsonCodec TokenTypes.Params}
  {JO : JsonCodec OsmoTypes.Params} {JR : JsonCodec ShellTypes.Treasury.Params}
  {JG : JsonCodec ShellTypes.Registry.Params} {JC : JsonCodec ShellTypes.Conversionpool.Params}
  {JE : JsonCodec ShellTypes.Empty.Params}
  {JP : JsonCodec (PortGenesis ShellTypes.Empty.Params)}.
Implicit Types w : World E.

(** The two modules with a port also look after its capability. *)
Lemma capability_run (b : bool) name w :
  ∃ c, (if b then
          have ← gets (λ w, GetCapability (w_cap w) name);
          if have : bool then mret tt else ignore_err (on_cap (NewCapability name))
        else mret tt) w = (set_cap c w, Ok tt).
Proof using L.
  destruct b; [|exists (w_cap w); by destruct w].
  rewrite (bind_run (gets _) _ _ _ _ eq_refl).
  destruct (GetCapability _ _); [exists (w_cap w); by destruct w|].
  unfold ignore_err, attempt, on_cap, zoom, mbind, stM_bind.
  pose proof (NewCapability_total name (w_cap w)) as Hn.
  destruct (NewCapability name (w_cap w)) as [c [x|e|p]]; [by exists c..|by edestruct Hn].
Qed.

Lemma icq_init_run ctx (gs : IcqController.GenesisState) w :
  ∃ c, IcqController.InitGenesis scoped ctx gs w =
    (IcqController.icq_set (λ s, mkIcqStore (Some (g_Params gs)) (i_port s) (i_active s)
       (i_pending s))
       (set_cap c (IcqController.icq_set (λ s, mkIcqStore (i_params s) (Some (g_PortId gs))
          (i_active s) (i_pending s)) w)), Ok tt).
Proof using L.
  unfold IcqController.InitGenesis, IcqController.Port_set, IcqController.params_set.
  rewrite (bind_run _ _ _ _ _ (coll_set_run _ _ _)).
  destruct (capability_run scoped ("ports/" +:+ g_PortId gs)
    (IcqController.icq_set (λ s, mkIcqStore (i_params s) (Some (g_PortId gs)) (i_active s)
       (i_pending s)) w)) as [c Hc].
  exists c. by rewrite (bind_run _ _ _ _ _ Hc), coll_set_run.
Qed.

Lemma feed_init_run ctx (gs : Pricefeed.GenesisState) w :
  ∃ c, Pricefeed.InitGenesis scoped ctx gs w =
    (Pricefeed.feed_set (λ s, mkFeedStore (Some (g_Params gs)) (f_port s))
       (set_cap c (Pricefeed.feed_set (λ s, mkFeedStore (f_params s) (Some (g_PortId gs))) w)),
     Ok tt).
Proof using L.
  unfold Pricefeed.InitGenesis, Pricefeed.Port_set, Pricefeed.params_set.
  rewrite (bind_run _ _ _ _ _ (coll_set_run _ _ _)).
  destruct (capability_run scoped ("ports/" +:+ g_PortId gs)
    (Pricefeed.feed_set (λ s, mkFeedStore (f_params s) (Some (g_PortId gs))) w)) as [c Hc].
  exists c. by rewrite (bind_run _ _ _ _ _ Hc), coll_set_run.
Qed.

Lemma icq_export_run ctx w :
  IcqController.ExportGenesis ctx w =
  (w, match i_params (w_icq w) with
      | Some p => Ok (mkPortGenesis p (default "" (i_port (w_icq w))))
      | None => Err ErrNotFound
      end).
Proof using L.
  unfold IcqController.ExportGenesis, IcqController.params_get, IcqController.Port_get.
  destruct (i_params (w_icq w)) as [p|] eqn:Hp.
  - rewrite (bind_run _ _ w w p) by (by rewrite coll_get_run, Hp).
    unfold attempt, mbind, stM_bind. rewrite coll_get_run. by destruct (i_port (w_icq w)).
  - apply bind_run_err. by rewrite coll_get_run, Hp.
Qed.

Lemma feed_export_run ctx w :
  Pricefeed.ExportGenesis ctx w =
  (w, match f_params (w_feed w) with
      | Some p => Ok (mkPortGenesis p (default "" (f_port (w_feed w))))
      | None => Err ErrNotFound
      end).
Proof using L.
  unfold Pricefeed.ExportGenesis, Pricefeed.params_get, Pricefeed.Port_get.
  destruct (f_params (w_feed w)) as [p|] eqn:Hp.
  - rewrite (bind_run _ _ w w p) by (by rewrite coll_get_run, Hp).
    unfold attempt, mbind, stM_bind. rewrite coll_get_run. by destruct (f_port (w_feed w)).
  - apply bind_run_err. by rewrite coll_get_run, Hp.
Qed.

Lemma checked_authority {A} k e authority (rest : stM (World E) A) w :
  (∃ bz, StringToBytes authority = (bz, None) ∧ bytes_of bz = bytes_of k) ∨
  (∃ e', (check_authority k e authority;; rest) w = (w, Err e')).
Proof.
  unfold check_authority. destruct (StringToBytes authority) as [bz [err|]] eqn:Hs.
  - right. by eexists.
  - destruct (String.eqb_spec (bytes_of k) (bytes_of bz)); [left; by exists bz|].
    right. by eexists.
Qed.

(** A module whose genesis is one item of its store. *)
Ltac item_module :=
  constructor;
  [intros; cbn; unfold_genesis; rewrite !coll_get_run; done
  |intros; cbn; unfold_genesis; rewrite coll_set_run; eexists; split;
     [reflexivity|intros; by rewrite coll_get_run]
  |intros k ctx a p w; exact (checked_authority _ _ _ _ _)].

Lemma all_module_laws m : m ∈ all_modules has_client scoped → ModuleLaws m.
Proof using L.
  unfold all_modules, init_order. cbn [app]. rewrite !elem_of_cons, elem_of_nil.
  intros Hm. repeat destruct Hm as [->|Hm]; [..|done].
  1-3, 5-7, 9-10: item_module.
  - constructor.
    + intros ctx ctx' w. cbn. by rewrite !feed_export_run.
    + intros ctx gs w. cbn. destruct (feed_init_run ctx gs w) as [c Hc].
      eexists. split; [exact Hc|]. intros ctx'. rewrite feed_export_run. by destruct gs.
    + intros k ctx a p w. exact (checked_authority _ _ _ _ _).
  - constructor.
    + intros ctx ctx' w. cbn. by rewrite !icq_export_run.
    + intros ctx gs w. cbn. destruct (icq_init_run ctx gs w) as [c Hc].
      eexists. split; [exact Hc|]. intros ctx'. rewrite icq_export_run. by destruct gs.
    + intros k ctx a p w. exact (checked_authority _ _ _ _ _).
Qed.

(** Initialization writes the module's own item only: whatever else is exported stays. *)
Lemma all_apart m1 m2 :
  m1 ∈ all_modules has_client scoped → m2 ∈ all_modules has_client scoped →
  am_Name m1 ≠ am_Name m2 → apart m1 m2.
Proof using L.
  unfold all_modules, init_order. cbn [app]. rewrite !elem_of_cons, elem_of_nil.
  rewrite ?elem_of_nil. intros H1 H2. repeat destruct H1 as [->|H1]; [..|done].
  all: repeat destruct H2 as [->|H2]; [..|done].
  all: intros Hne; try (by destruct Hne); clear Hne; intros ctx ctx' gs w; cbn.
  all: try destruct (feed_init_run ctx gs w) as [c ->].
  all: try destruct (icq_init_run ctx gs w) as [c ->].
  all: unfold_genesis; rewrite ?coll_set_run, ?feed_export_run, ?icq_export_run, ?coll_get_run.
  all: reflexivity.
Qed.

(** *** The authority *)
Context {CO : Collections} {CL : CollectionsLaws} {AT : AuthTypes}.

Lemma schemas_prefix_free m :
  m ∈ all_modules has_client scoped → prefix_free (am_schema m) = true.
Proof.
  unfold all_modules, init_order. cbn [app]. rewrite !elem_of_cons, elem_of_nil.
  intros H. repeat destruct H as [->|H]; [..|done]. all: vm_compute; reflexivity.
Qed.

(** Every module of the chain can be built, with the account its configuration
    names as its authority and with governance's where it names none; and no module lets
    anybody else change its parameters: a message signed by another account is refused
    and leaves every store as it was. *)
Theorem only_the_authority m cfg s ctx authority p w :
  m ∈ all_modules has_client scoped →
  BytesToString (authority_of cfg) = (s, None) →
  ProvideModule m cfg = Ok (authority_of cfg) ∧
  ((∃ bz, StringToBytes authority = (bz, None) ∧
     bytes_of bz = (if String.eqb cfg "" then NewModuleAddress "gov"
                    else NewModuleAddressOrBech32Address cfg)) ∨
   ∃ e, am_UpdateParams m (authority_of cfg) ctx authority p w = (w, Err e)).
Proof using L CL.
  intros Hm Hs. split.
  - unfold ProvideModule, NewKeeper. rewrite Hs, Build_ok; [done|by apply schemas_prefix_free].
  - exact (@update_authority _ _ (all_module_laws m Hm) (authority_of cfg) ctx authority p w).
Qed.

(** *** Genesis *)
Lemma InitGenesis_run m ctx bz gs w :
  m ∈ all_modules has_client scoped → Unmarshal m bz = Ok gs →
  InitGenesis m ctx bz w = ((am_InitGenesis m ctx gs w).1, Ok tt) ∧
  ∀ ctx', am_ExportGenesis m ctx' (am_InitGenesis m ctx gs w).1
          = ((am_InitGenesis m ctx gs w).1, Ok (am_stored m gs)).
Proof using L.
  intros Hm Hu. unfold InitGenesis.
  destruct (@init_export _ _ (all_module_laws m Hm) ctx gs w) as (w' & Hi & He).
  assert (Hr : must (lift (Unmarshal m bz)) "failed to unmarshal genesis state" w = (w, Ok gs))
    by (by rewrite Hu).
  rewrite (bind_run _ _ _ _ _ Hr). unfold must, attempt, mbind, stM_bind. rewrite Hi.
  split; [done|]. apply He.
Qed.

(** The module's genesis in [w], as an outcome that does not depend on the context. *)
Lemma export_run m ctx ctx' w :
  m ∈ all_modules has_client scoped →
  am_ExportGenesis m ctx w = (w, (am_ExportGenesis m ctx' w).2).
Proof using L.
  intros Hm. destruct (@export_pure _ _ (all_module_laws m Hm) ctx ctx' w) as [H1 H2].
  rewrite <- H2. rewrite <- H1 at 2. apply surjective_pairing.
Qed.

Definition readable (g : AppModule E * string) : Prop :=
  g.1 ∈ all_modules has_client scoped ∧ is_ok (Unmarshal g.1 g.2) = true.

Lemma InitChain_run gs ctx w :
  Forall readable gs → NoDup (map (λ g, am_Name g.1) gs) →
  ∃ w', InitChain gs ctx w = (w', Ok tt) ∧
    (∀ m ctx', m ∈ all_modules has_client scoped → am_Name m ∉ map (λ g, am_Name g.1) gs →
       (am_ExportGenesis m ctx' w').2 = (am_ExportGenesis m ctx' w).2) ∧
    (∀ m bz s ctx', (m, bz) ∈ gs → Unmarshal m bz = Ok s →
       (am_ExportGenesis m ctx' w').2 = Ok (am_stored m s)).
Proof using L.
  revert w. induction gs as [|[m bz] gs IH]; intros w Hr Hd.
  { exists w. split; [done|]. split; [done|]. intros ? ? ? ? H. by apply elem_of_nil in H. }
  apply Forall_cons in Hr as [[Hm Hu] Hr]. apply NoDup_cons in Hd as [Hn Hd]. cbn in *.
  destruct (Unmarshal m bz) as [s| |] eqn:Hs; [|done..].
  destruct (InitGenesis_run m ctx bz s w Hm Hs) as [Hi He].
  set (w1 := (am_InitGenesis m ctx s w).1) in *.
  destruct (IH w1 Hr Hd) as (w' & Hw & Hk & Hx). exists w'. split; [|split].
  - unfold InitChain. cbn [for_each]. rewrite (bind_run _ _ _ _ _ Hi). exact Hw.
  - intros m' ctx' Hm' Hn'. apply not_elem_of_cons in Hn' as [Hne Hn'].
    rewrite Hk by done. by apply (all_apart m m' Hm Hm').
  - intros m' bz' s' ctx' [[= -> ->]|H']%elem_of_cons Hs'; [|by eapply Hx].
    rewrite Hs in Hs'. injection Hs' as <-. rewrite Hk by done. by rewrite He.
Qed.

(** C18 (roundtrip). Genesis files that can be read, one for each of some modules, in any
    order, never stop the chain from starting; and what a module exports from then on is
    its own file again, with the values the store keeps, whatever the other modules'
    files say. *)
Theorem genesis_roundtrip gs ctx ctx' w :
  Forall readable gs → NoDup (map (λ g, am_Name g.1) gs) →
  ∃ w', InitChain gs ctx w = (w', Ok tt) ∧
    ∀ m bz s bz', (m, bz) ∈ gs → Unmarshal m bz = Ok s →
      Marshal m (am_stored m s) = Ok bz' → ExportGenesis m ctx' w' = (w', Ok bz').
Proof using L.
  intros Hr Hd. destruct (InitChain_run gs ctx w Hr Hd) as (w' & Hw & _ & Hx).
  exists w'. split; [done|]. intros m bz s bz' Hin Hu Hb.
  assert (Hm : m ∈ all_modules has_client scoped)
    by (by apply (proj1 (Forall_forall _ _) Hr (m, bz))).
  assert (He : must (am_ExportGenesis m ctx') "failed to export genesis state" w'
               = (w', Ok (am_stored m s))).
  { unfold must, attempt, mbind, stM_bind.
    by rewrite (export_run m ctx' ctx' w' Hm), (Hx m bz s ctx' Hin Hu). }
  unfold ExportGenesis. by rewrite (bind_run _ _ _ _ _ He), Hb.
Qed.
End Promises.

(** ** The default genesis *)
Section Defaults.
Context {E : Env} {L : EnvLaws E} {OK : OracleKeeper E} {FK : FeesKeeper E} {IC : ICQClient E}.
Context (has_client scoped : bool).
Context {JF : JsonCodec FeesTypes.Params} {JT : JsonCodec TokenTypes.Params}
  {JO : JsonCodec OsmoTypes.Params} {JR : JsonCodec ShellTypes.Treasury.Params}
  {JG : JsonCodec ShellTypes.Registry.Params} {JC : JsonCodec ShellTypes.Conversionpool.Params}
  {JE : JsonCodec ShellTypes.Empty.Params}
  {JP : JsonCodec (PortGenesis ShellTypes.Empty.Params)}.

Lemma fees_default : ∃ p, FeesTypes.DefaultParams = Ok p ∧ FeesTypes.GenesisValidate p = Ok tt.
Proof using L.
  destruct FeesTypes.DefaultParams_valid as (p & Hp & Hv & _). exists p. split; [done|].
  unfold FeesTypes.GenesisValidate. by case_bool_decide.
Qed.

Lemma token_default : TokenTypes.GenesisValidate TokenTypes.DefaultParams = Ok tt.
Proof using L.
  unfold TokenTypes.GenesisValidate. rewrite bool_decide_false by discriminate.
  unfold TokenTypes.Validate, TokenTypes.DefaultParams, TokenTypes.NewParams. cbn -[IntIsNegative].
  by rewrite IntIsNegative_spec.
Qed.

Lemma osmo_default : OsmoTypes.Validate OsmoTypes.DefaultParams = Ok tt.
Proof using L.
  unfold OsmoTypes.Validate, OsmoTypes.DefaultParams, OsmoTypes.NewParams.
  cbn [OsmoTypes.UseTwap OsmoTypes.TwapWindowSeconds OsmoTypes.BaseDenom OsmoTypes.QuoteDenom
       OsmoTypes.MinLiquidity OsmoTypes.MaxDeviation].
  change (true && (300 =? 0)) with false. cbv iota.
  change (String.eqb (TrimSpace "uosmo") "") with false.
  change (String.eqb (TrimSpace "ibc/PLACEHOLDER_HASH") "") with false. cbv iota.
  rewrite (DecFromStr_literal "0" 0), (DecFromStr_literal "0.5" (5 * 10 ^ 17)) by done.
  cbn -[DecIsNegative Z.mul Z.pow]. by rewrite DecIsNegative_spec.
Qed.

(** C40 (type). The genesis every module writes by default is well formed: it is written
    without a panic and its own validation accepts it. *)
Theorem default_genesis_valid m :
  m ∈ all_modules has_client scoped →
  PortIdentifierValidator IcqController.PortID = None →
  PortIdentifierValidator Pricefeed.PortID = None →
  (∀ gs, am_DefaultGenesis m = Ok gs →
     ∃ bz, Marshal m gs = Ok bz ∧ Unmarshal m bz = Ok gs) →
  ∃ gs bz, am_DefaultGenesis m = Ok gs ∧ DefaultGenesis m = Ok bz ∧
           ValidateGenesis m bz = Ok tt.
Proof using L.
  intros Hm Hi Hf Hj.
  assert (∃ gs, am_DefaultGenesis m = Ok gs ∧ am_Validate m gs = Ok tt) as (gs & Hg & Hv).
  { revert Hm. unfold all_modules, init_order. cbn [app]. rewrite !elem_of_cons, elem_of_nil.
    clear Hj. intros H. repeat destruct H as [->|H]; [..|done]; cbn.
    6: exact fees_default.
    all: eexists; split; [reflexivity|]; try reflexivity.
    - exact token_default.
    - unfold Pricefeed.GenesisValidate. cbn. by rewrite Hf.
    - exact osmo_default.
    - unfold IcqController.GenesisValidate. cbn. by rewrite Hi. }
  destruct (Hj gs Hg) as (bz & Hb & Hu). exists gs, bz. split; [done|].
  unfold DefaultGenesis, ValidateGenesis. by rewrite Hg, Hu; cbn; rewrite Hb.
Qed.
End Defaults.

(** ** Witnesses *)
#[local] Instance ref_client : ICQClient ref_env :=
  {| RegisterKVQuery ctx connection store key := throw (ErrText "no client") |}.
#[local] Instance ref_collections : Collections :=
  {| Build l := if prefix_free l then None else Some (ErrExt "overlapping prefixes") |}.
Lemma ref_collections_laws : CollectionsLaws.
Proof. constructor. intros l H. cbn. by rewrite H. Qed.
#[local] Instance ref_auth_types : AuthTypes :=
  {| NewModuleAddressOrBech32Address s := ref_prefix +:+ s |}.

(** Codecs of the genesis files used below. *)
#[local] Instance ref_empty_json : JsonCodec ShellTypes.Empty.Params := {|
  json_Marshal _ := Ok "{}";
  json_Unmarshal s :=
    if String.eqb s "{}" then Ok ShellTypes.Empty.NewParams else Err (ErrExt "unknown field")
|}.
#[local] Instance ref_port_json : JsonCodec (PortGenesis ShellTypes.Empty.Params) := {|
  json_Marshal g := Ok (g_PortId g);
  json_Unmarshal s := Ok (mkPortGenesis ShellTypes.Empty.NewParams s)
|}.
Definition no_json (A : Type) : JsonCodec A :=
  {| json_Marshal _ := Err (ErrExt "json"); json_Unmarshal _ := Err (ErrExt "json") |}.
#[local] Instance ref_fees_json : JsonCodec FeesTypes.Params := no_json _.
#[local] Instance ref_token_json : JsonCodec TokenTypes.Params := no_json _.
#[local] Instance ref_osmo_json : JsonCodec OsmoTypes.Params := no_json _.
#[local] Instance ref_treasury_json : JsonCodec ShellTypes.Treasury.Params := no_json _.
#[local] Instance ref_registry_json : JsonCodec ShellTypes.Registry.Params := no_json _.
#[local] Instance ref_pool_json : JsonCodec ShellTypes.Conversionpool.Params := no_json _.

Lemma oracle_listed : oracle_module (E := ref_env) ∈ all_modules true true.
Proof. unfold all_modules, init_order. set_solver. Qed.
Lemma icq_listed : icqcontroller_module (E := ref_env) true ∈ all_modules true true.
Proof. unfold all_modules, init_order. set_solver. Qed.

Theorem only_the_authority_witness :
  ProvideModule (oracle_module (E := ref_env)) "" = Ok (authority_of (E := ref_env) "") ∧
  ∃ e, am_UpdateParams (oracle_module (E := ref_env)) (authority_of (E := ref_env) "") ref_ctx (acc "alice")
         ShellTypes.Empty.NewParams empty_world = (empty_world, Err e).
Proof.
  destruct (@only_the_authority ref_env ref_env_laws _ true true _ _ _ _ _ _ _ _ _
    ref_collections_laws _ oracle_module ""
    (fst (@BytesToString (@env_addr ref_env) (authority_of (E := ref_env) ""))) ref_ctx (acc "alice") ShellTypes.Empty.NewParams
    empty_world oracle_listed ltac:(vm_compute; reflexivity)) as [Hp Ha].
  split; [exact Hp|]. destruct Ha as [(bz & Hb & Hg)|Ha]; [|exact Ha].
  exfalso. vm_compute in Hb. injection Hb as <-. vm_compute in Hg. discriminate.
Defined.

Theorem genesis_roundtrip_witness :
  ∃ w', InitChain [(oracle_module, "{}"); (icqcontroller_module true, "icqhost")] ref_ctx
          empty_world = (w', Ok tt) ∧
    ExportGenesis (icqcontroller_module true) ref_ctx w' = (w', Ok "icqhost").
Proof.
  destruct (@genesis_roundtrip ref_env ref_env_laws _ true true _ _ _ _ _ _ _ _
    [(oracle_module, "{}"); (icqcontroller_module true, "icqhost")] ref_ctx ref_ctx empty_world)
    as (w' & Hw & Hx).
  - apply Forall_cons. split; [split; [exact oracle_listed|reflexivity]|].
    apply Forall_cons. split; [split; [exact icq_listed|reflexivity]|]. by apply Forall_nil.
  - cbn. apply NoDup_cons. split; [set_solver|]. apply NoDup_singleton.
  - exists w'. split; [exact Hw|].
    apply (Hx (icqcontroller_module true) "icqhost"
      (mkPortGenesis ShellTypes.Empty.NewParams "icqhost") "icqhost"); [|reflexivity..].
    set_solver.
Defined.

Theorem default_genesis_valid_witness :
  ∃ bz, DefaultGenesis (icqcontroller_module (E := ref_env) true) = Ok bz ∧
    ValidateGenesis (icqcontroller_module (E := ref_env) true) bz = Ok tt.
Proof.
  destruct (@default_genesis_valid ref_env ref_env_laws _ true true _ _ _ _ _ _ _ _
    (icqcontroller_module true) icq_listed)
    as (gs & bz & _ & H).
  - vm_compute. reflexivity.
  - vm_compute. reflexivity.
  - intros gs [= <-]. by eexists.
  - by exists bz.
Defined.
