(* ===== verification/Wiring.v ===== *)
(** * The order of the modules and the IBC routes

    The lists of [src/app/app_config.go] from which the runtime module builds the module
    manager, the modules registered by hand in [ibc.go] and [wasm.go], and the routes of
    the IBC router. The manager itself is the SDK's. *)

From Stdlib Require Import Strings.Ascii Strings.String.
From stdpp Require Import strings.
From S2P Require Import Prelude GoLib.
From S2P Require IcqController Pricefeed.

Local Open Scope Z_scope.

(** ** [app_config.go] *)
Definition PreBlockers : list string := ["upgrade"; "auth"].
Definition BeginBlockers : list string :=
  ["mint"; "distribution"; "slashing"; "evidence"; "staking"; "authz"; "epochs"; "ibc";
   "cosvian"; "token"; "oracle"; "wasm"; "pricefeed"; "registry"; "fees"; "osmosisicq";
   "icqcontroller"].
Definition EndBlockers : list string :=
  ["gov"; "staking"; "feegrant"; "group";
   "cosvian"; "token"; "oracle"; "wasm"; "pricefeed"; "registry"; "fees"; "osmosisicq";
   "icqcontroller"].
Definition InitGenesisOrder : list string :=
  ["consensus"; "auth"; "bank"; "distribution"; "staking"; "slashing"; "gov"; "mint";
   "genutil"; "evidence"; "authz"; "feegrant"; "vesting"; "nft"; "group"; "upgrade";
   "circuit"; "epochs"; "ibc"; "transfer"; "interchainaccounts";
   "cosvian"; "token"; "oracle"; "wasm"; "pricefeed"; "registry"; "fees"; "osmosisicq";
   "icqcontroller"].
(** The names of the configured modules. *)
Definition configured : list string :=
  ["runtime"; "auth"; "vesting"; "bank"; "staking"; "slashing"; "tx"; "genutil"; "authz";
   "upgrade"; "distribution"; "evidence"; "mint"; "group"; "nft"; "feegrant"; "gov";
   "consensus"; "circuit"; "params"; "epochs";
   "cosvian"; "token"; "oracle"; "pricefeed"; "registry"; "fees"; "osmosisicq";
   "icqcontroller"].

(** ** [ibc.go], [wasm.go]: modules without dependency injection, and the router *)
Definition registered_ibc : list string :=
  ["ibc"; "transfer"; "interchainaccounts"; "07-tendermint"; "06-solomachine"].
Definition registered_wasm : list string := ["wasm"].
Definition ibc_routes : list string :=
  ["transfer"; "icacontroller"; "icahost"; "wasm"; "pricefeed"; "icqcontroller"].

(** ** What the lists agree on *)

(** No list names a module twice, or one that is neither configured nor registered. *)
Lemma lists_known :
  Forall (λ l, NoDup l ∧ l ⊆ configured ++ registered_ibc ++ registered_wasm)
    [PreBlockers; BeginBlockers; EndBlockers; InitGenesisOrder].
Proof.
  repeat (apply Forall_cons; split;
    [split; apply (bool_decide_eq_true_1 _); vm_compute; reflexivity|]). done.
Qed.

(** The routes of the IBC router are not part of one another, and the ports of the
    repository's IBC modules are among them. *)
Lemma routes_apart r r' :
  r ∈ ibc_routes → r' ∈ ibc_routes → Contains r r' = true → r = r'.
Proof.
  intros Hr Hr' Hc.
  assert (H : forallb (λ r, forallb (λ r', negb (Contains r r') || String.eqb r r') ibc_routes)
    ibc_routes = true) by (vm_compute; reflexivity).
  rewrite forallb_forall in H. apply list_elem_of_In in Hr, Hr'.
  specialize (H r Hr). rewrite forallb_forall in H. specialize (H r' Hr').
  rewrite Hc in H. by apply String.eqb_eq.
Qed.
Lemma ports_routed : IcqController.PortID ∈ ibc_routes ∧ Pricefeed.PortID ∈ ibc_routes.
Proof. split; apply (bool_decide_eq_true_1 _); vm_compute; reflexivity. Qed.
