(* ===== verification/App.v ===== *)
(** * The application: ante handlers and module accounts

    [src/app/ante.go], the ante handler set in [wasm.go] and wrapped in [app.go], the
    module accounts of [app_config.go] with [GetMaccPerms] and [BlockedAddresses], and
    [genesis_account.go].  The decorators of the SDK, wasmd, x/circuit and ibc-go are
    parameters. *)

From Stdlib Require Import Strings.Ascii Strings.String.
From stdpp Require Import strings gmap.
From S2P Require Import Prelude GoLib Sdk RefEnv World RefWorld Interfaces.
From S2P Require Import FeesAnte.
From S2P Require Oracle.

Local Open Scope Z_scope.

Definition ErrInvalidPubKey : error := ErrSdk "ErrInvalidPubKey".
Definition ErrInvalidRequest : error := ErrSdk "ErrInvalidRequest".

Section Ante.
Context {E : Env} {OK : OracleKeeper E}.
Implicit Types (ctx : Ctx) (tx : Tx).

(** [sdk.AnteDecorator]: the next handler is its last argument. *)
Definition Decorator : Type := Ctx → Tx → bool → AnteHandler → stM (World E) Ctx.

(** [sdk.ChainAnteDecorators]: each decorator is given the rest of the chain; at the end
    the context is returned. *)
Class AnteChain := { ChainAnteDecorators : list Decorator → AnteHandler }.
Class AnteChainLaws `{AnteChain} : Prop := {
  chain_nil ctx tx simulate w : ChainAnteDecorators [] ctx tx simulate w = (w, Ok ctx);
  chain_cons d l ctx tx simulate :
    ChainAnteDecorators (d :: l) ctx tx simulate = d ctx tx simulate (ChainAnteDecorators l)
}.

(** [ante.GetSignerAcc], and the public key of the account. *)
Class SignerAccounts := { GetSignerAcc : Ctx → string → stM (World E) (option string) }.
Context {CH : AnteChain} {SA : SignerAccounts}.

(** ** [ante.go] *)
Definition ZeroGasSetupContext : Decorator := λ ctx tx simulate next,
  let newCtx := mkCtx (BlockTime ctx) (BlockHeight ctx) (ctx_estimate ctx) (ctx_metadata ctx)
    InfiniteGasMeter
    (match ctx_BlockGasMeter ctx with
     | Some _ => Some InfiniteGasMeter
     | None => None
     end) in
  next newCtx tx simulate.

Definition ZeroGasFee : Decorator := λ ctx tx simulate next, next ctx tx simulate.

Definition index_panic : string := "runtime error: index out of range".

(** The loop over the signatures: the signature at [i] and [signers[i]]. *)
Fixpoint check_signers ctx (simulate : bool) (sigs signers : list string)
    : stM (World E) unit :=
  match sigs with
  | [] => mret tt
  | _ :: sigs' =>
      match signers with
      | [] => panic index_panic
      | signer :: signers' =>
          pubKey ← GetSignerAcc ctx signer;
          (if negb simulate && bool_decide (pubKey = None)
           then throw (ErrWrap ErrInvalidPubKey "pubkey on account is not set") else mret tt);;
          check_signers ctx simulate sigs' signers'
      end
  end.

Definition ZeroGasSigVerification : Decorator := λ ctx tx simulate next,
  match asSigTx tx with
  | None => throw (ErrWrap ErrTxDecode "invalid transaction type")
  | Some sigTx =>
      sigs ← lift (GetSignaturesV2 sigTx);
      signers ← lift (GetSigners sigTx);
      check_signers ctx simulate sigs signers;;
      next ctx tx simulate
  end.

(** The decorators of other packages, in the order they are chained. *)
Record Decorators := mkDecorators {
  LimitSimulationGas : option Z → Decorator;
  CountTX : Decorator;
  GasRegister : Decorator;
  TxContracts : Decorator;
  CircuitBreaker : Decorator;
  ExtensionOptions : Decorator;
  ValidateBasic : Decorator;
  TxTimeoutHeight : Decorator;
  ValidateMemo : Decorator;
  SetPubKey : Decorator;
  ValidateSigCount : Decorator;
  IncrementSequence : Decorator;
  RedundantRelay : Decorator
}.

(** The options that are looked at: the node configuration (its simulation gas limit),
    and whether the store service and the circuit keeper are set. *)
Record AnteHandlerOptions := mkAnteHandlerOptions {
  NodeConfig : option (option Z);
  TXCounterStoreService : bool;
  CircuitKeeper : bool
}.

Definition chained (ds : Decorators) (limit : option Z) : list Decorator := [
  ZeroGasSetupContext;
  LimitSimulationGas ds limit; CountTX ds; GasRegister ds; TxContracts ds;
  CircuitBreaker ds;
  ExtensionOptions ds; ValidateBasic ds; TxTimeoutHeight ds; ValidateMemo ds;
  ZeroGasFee; SetPubKey ds; ValidateSigCount ds; ZeroGasSigVerification;
  IncrementSequence ds;
  RedundantRelay ds].

Definition NewAnteHandler (ds : Decorators) (options : AnteHandlerOptions) : res AnteHandler :=
  match NodeConfig options with
  | None => Err (ErrWrap ErrInvalidRequest "wasm node config is required for ante builder")
  | Some limit =>
  if negb (TXCounterStoreService options)
  then Err (ErrWrap ErrInvalidRequest "wasm store service is required for ante builder") else
  if negb (CircuitKeeper options)
  then Err (ErrWrap ErrInvalidRequest "circuit keeper is required for ante builder") else
  mret (ChainAnteDecorators (chained ds limit))
  end.

(** [setAnteHandler] of [wasm.go]: every option is set. *)
Definition setAnteHandler (ds : Decorators) (limit : option Z) : res AnteHandler :=
  match NewAnteHandler ds (mkAnteHandlerOptions (Some limit) true true) with
  | Err e => Err (ErrWrap e "failed to create AnteHandler")
  | r => r
  end.

(** [customAnte] of [New]: the fee decorators run before the chain. *)
Definition customAnte (baseAnte : AnteHandler) : AnteHandler := λ ctx tx simulate,
  FeeAnteHandle (λ c t s, DeductFeeHandle baseAnte c t s) ctx tx simulate.
End Ante.

(** ** [app_config.go]: module accounts *)
Definition Minter : string := "minter".
Definition Burner : string := "burner".
Definition Staking : string := "staking".

Definition moduleAccPerms : list (string * list string) := [
  ("fee_collector", []);
  ("distribution", []);
  ("mint", [Minter]);
  ("bonded_tokens_pool", [Burner; Staking]);
  ("not_bonded_tokens_pool", [Burner; Staking]);
  ("gov", [Burner]);
  ("nft", []);
  ("transfer", [Minter; Burner]);
  ("interchainaccounts", []);
  ("token", [Minter; Burner]);
  ("fees", []);
  ("treasury", []);
  ("infrastructure", []);
  ("wasm", [Burner]);
  ("retail_rewards", [Minter]);
  ("token_creators", [Minter]);
  ("validator_rewards", [Minter]);
  ("pos_rewards", [Minter]);
  ("locked_rewards", [Minter; Burner]);
  ("registry", [Minter; Burner; Staking])].

Definition blockAccAddrs : list string :=
  ["fee_collector"; "distribution"; "mint"; "bonded_tokens_pool"; "not_bonded_tokens_pool";
   "nft"; "fees"].

Definition GetMaccPerms : gmap string (list string) :=
  fold_left (λ dup '(account, perms), <[account := perms]> dup) moduleAccPerms ∅.
Definition BlockedAddresses : gmap string bool :=
  if (0 <? List.length blockAccAddrs)%nat
  then fold_left (λ result addr, <[addr := true]> result) blockAccAddrs ∅
  else (λ _, true) <$> GetMaccPerms.

(** ** [genesis_account.go] *)
Record GenesisAccount := mkGenesisAccount {
  OriginalVesting : Coins;
  StartTime : Z;
  EndTime : Z;
  ModuleName : string;
  (* the outcomes of [ModuleAccount.Validate] and [BaseAccount.Validate] *)
  module_account : option error;
  base_account : option error
}.
Definition GenesisAccountValidate `{SdkCoins} (sga : GenesisAccount) : res unit :=
  if negb (CoinsIsZero (OriginalVesting sga)) && (EndTime sga <=? StartTime sga)
  then Err (ErrText "vesting start-time cannot be before end-time") else
  match (if String.eqb (ModuleName sga) "" then None else module_account sga) with
  | Some err => Err err
  | None => match base_account sga with Some err => Err err | None => mret tt end
  end.

(** ** What the chain of decorators lets through *)
Section Admission.
Context {E : Env} {OK : OracleKeeper E}.
Context {CH : AnteChain} {CL : AnteChainLaws} {SA : SignerAccounts}.
Implicit Types (ctx : Ctx) (tx : Tx) (w : World E).

(** Every signer has an account with a public key; looking it up changes nothing. *)
Definition known_signers (signers : list string) : Prop :=
  Forall (λ a, ∀ ctx w, ∃ k, GetSignerAcc ctx a w = (w, Ok (Some k))) signers.

Lemma check_signers_run ctx simulate sigs signers w :
  known_signers signers →
  check_signers ctx simulate sigs signers w =
  if (List.length sigs <=? List.length signers)%nat then (w, Ok tt) else (w, Panic index_panic).
Proof.
  revert signers. induction sigs as [|s sigs IH]; intros [|a signers] Hk; [done..|].
  apply Forall_cons in Hk as [Ha Hk]. destruct (Ha ctx w) as [k Hr].
  cbn [check_signers List.length]. rewrite (bind_run _ _ _ _ _ Hr), andb_false_r.
  rewrite (bind_run (mret tt) _ _ _ _ eq_refl). by rewrite IH.
Qed.

(** C39 (safety). The decorator in the place of signature verification reads the accounts of
    the signers and counts the signatures; it never looks into one. When every signer has
    a public key on record, any signatures at all are let through, as long as there are no
    more of them than signers; one more is an index out of range. *)
Theorem ZeroGasSigVerification_spec ctx tx sigTx sigs signers simulate next w :
  asSigTx tx = Some sigTx → GetSignaturesV2 sigTx = Ok sigs → GetSigners sigTx = Ok signers →
  known_signers signers →
  ZeroGasSigVerification ctx tx simulate next w =
  if (List.length sigs <=? List.length signers)%nat then next ctx tx simulate w
  else (w, Panic index_panic).
Proof.
  intros Ht Hs Ha Hk. unfold ZeroGasSigVerification. rewrite Ht, Hs, Ha.
  rewrite !(bind_run (lift _) _ _ _ _ eq_refl).
  pose proof (check_signers_run ctx simulate sigs signers w Hk) as Hc.
  destruct (_ <=? _)%nat; [by rewrite (bind_run _ _ _ _ _ Hc)|
    by rewrite (bind_run_panic _ _ _ _ _ Hc)].
Qed.

(** A decorator that, after some work on the state, passes the transaction on. *)
Definition passes tx (simulate : bool) (d : Decorator) : Prop :=
  ∃ f : World E → World E, ∀ ctx next w, d ctx tx simulate next w = next ctx tx simulate (f w).

Lemma passes_chain tx simulate l :
  Forall (passes tx simulate) l →
  ∃ f, ∀ ctx w, ChainAnteDecorators l ctx tx simulate w = (f w, Ok ctx).
Proof using CL.
  induction 1 as [|d l [f Hd] _ [g Hl]].
  - exists id. intros ctx w. apply chain_nil.
  - exists (λ w, g (f w)). intros ctx w. by rewrite chain_cons, Hd, Hl.
Qed.

Lemma sig_passes tx simulate sigTx sigs signers :
  asSigTx tx = Some sigTx → GetSignaturesV2 sigTx = Ok sigs → GetSigners sigTx = Ok signers →
  known_signers signers → (List.length sigs ≤ List.length signers)%nat →
  passes tx simulate ZeroGasSigVerification.
Proof.
  intros Ht Hs Ha Hk Hl. exists id. intros ctx next w. unfold ZeroGasSigVerification.
  rewrite Ht, Hs, Ha, !(bind_run (lift _) _ _ _ _ eq_refl).
  pose proof (check_signers_run ctx simulate sigs signers w Hk) as Hc.
  rewrite (proj2 (Nat.leb_le _ _) Hl) in Hc. by rewrite (bind_run _ _ _ _ _ Hc).
Qed.

(** The decorators of other packages. *)
Definition foreign (ds : Decorators) (limit : option Z) : list Decorator := [
  LimitSimulationGas ds limit; CountTX ds; GasRegister ds; TxContracts ds; CircuitBreaker ds;
  ExtensionOptions ds; ValidateBasic ds; TxTimeoutHeight ds; ValidateMemo ds; SetPubKey ds;
  ValidateSigCount ds; IncrementSequence ds; RedundantRelay ds].

(** The handler of the application is always built, and a transaction that
    the decorators of the other packages pass on, with known signers and no more
    signatures than signers, is admitted whatever the signatures are; from then on its
    gas meter is infinite, and so is the block's when there is one. Without a node
    configuration, a store service or a circuit keeper no handler is built. *)
Theorem base_ante_admits ds limit tx simulate sigTx sigs signers :
  Forall (passes tx simulate) (foreign ds limit) →
  asSigTx tx = Some sigTx → GetSignaturesV2 sigTx = Ok sigs → GetSigners sigTx = Ok signers →
  known_signers signers → (List.length sigs ≤ List.length signers)%nat →
  (∃ h f, setAnteHandler ds limit = Ok h ∧
    ∀ ctx w, ∃ ctx', h ctx tx simulate w = (f w, Ok ctx') ∧
      ctx_GasMeter ctx' = InfiniteGasMeter ∧
      (ctx_BlockGasMeter ctx' = None ∨ ctx_BlockGasMeter ctx' = Some InfiniteGasMeter)) ∧
  ∀ o, (∃ h, NewAnteHandler ds o = Ok h) ↔
    NodeConfig o ≠ None ∧ TXCounterStoreService o = true ∧ CircuitKeeper o = true.
Proof using CL.
  intros Hf Ht Hs Ha Hk Hl. split.
  - pose proof (sig_passes tx simulate sigTx sigs signers Ht Hs Ha Hk Hl) as Hsig.
    assert (Hfee : passes tx simulate ZeroGasFee) by (by exists id).
    destruct (passes_chain tx simulate (tail (chained ds limit))) as [f Hc].
    { unfold foreign in Hf. rewrite !Forall_cons in Hf. cbn [chained tail].
      rewrite !Forall_cons, Forall_nil. tauto. }
    exists (ChainAnteDecorators (chained ds limit)), f. split; [done|]. intros ctx w.
    unfold chained. rewrite chain_cons. unfold ZeroGasSetupContext. eexists.
    split; [apply Hc|]. split; [done|]. cbn. destruct (ctx_BlockGasMeter ctx); auto.
  - intros [n b c]. unfold NewAnteHandler. cbn. destruct n as [n|]; [|naive_solver].
    destruct b, c; cbn; naive_solver.
Qed.
End Admission.

(** ** Fees before the chain *)
Section Fees.
Context {E : Env} {OK : OracleKeeper E}.
Implicit Types (ctx : Ctx) (tx : Tx) (w : World E).

(** [h], when it returns, returned what [base] did on a context with the same meters. *)
Definition ends_in (base h : AnteHandler) : Prop := ∀ ctx tx simulate w w' c,
  h ctx tx simulate w = (w', Ok c) →
  ∃ c0 w0, base c0 tx simulate w0 = (w', Ok c) ∧
    ctx_GasMeter c0 = ctx_GasMeter ctx ∧ ctx_BlockGasMeter c0 = ctx_BlockGasMeter ctx.

Lemma ends_in_trans f g h : ends_in f g → ends_in g h → ends_in f h.
Proof.
  intros Hfg Hgh ctx tx sim w w' c H. apply Hgh in H as (c0 & w0 & H & Hm & Hb).
  apply Hfg in H as (c1 & w1 & H & Hm' & Hb'). exists c1, w1. by rewrite Hm', Hb'.
Qed.

Lemma DeductFee_ends_in base : ends_in base (DeductFeeHandle base).
Proof.
  intros ctx tx sim w w' c H. unfold DeductFeeHandle in H.
  destruct (asFeeTx tx) as [feeTx|]; [|done].
  apply bind_ok_inv in H as (x & w1 & _ & H). by exists ctx, w1.
Qed.

Lemma FeeAnte_ends_in next : ends_in next (FeeAnteHandle next).
Proof.
  intros ctx tx sim w w' c H. unfold FeeAnteHandle in H.
  destruct sim; [by exists ctx, w|]. apply bind_ok_inv in H as (r & w1 & _ & H).
  destruct r as [params|e]; [|by exists ctx, w1]. destruct (asFeeTx tx) as [feeTx|]; [|done].
  cbv zeta in H. apply bind_ok_inv in H as (est & w2 & _ & H).
  apply bind_ok_inv in H as (u & w3 & _ & H).
  destruct (decide _); [by exists ctx, w3|]. destruct (_ && _); [done|].
  apply bind_ok_inv in H as (u' & w4 & _ & H). eexists _, w4. split; [exact H|]. done.
Qed.

(** The handler the application installs first checks and takes the fee and
    then runs the chain of decorators, once: whatever it admits, the chain has admitted,
    with the gas meters the transaction came with, and the chain has the last word on the
    state. Only a transaction that carries a fee message is admitted at all. *)
Theorem customAnte_safe base ctx tx simulate w w' c :
  customAnte base ctx tx simulate w = (w', Ok c) →
  asFeeTx tx ≠ None ∧
  ∃ c0 w0, base c0 tx simulate w0 = (w', Ok c) ∧
    ctx_GasMeter c0 = ctx_GasMeter ctx ∧ ctx_BlockGasMeter c0 = ctx_BlockGasMeter ctx.
Proof.
  intros H. split.
  - apply (FeeAnte_ends_in (DeductFeeHandle base)) in H as (c0 & w0 & H & _).
    unfold DeductFeeHandle in H. by destruct (asFeeTx tx).
  - revert H. apply (ends_in_trans _ (DeductFeeHandle base));
      [apply DeductFee_ends_in|apply FeeAnte_ends_in].
Qed.
End Fees.

(** Accounts that have been given a permission keep their entry: no name is listed twice. *)
Lemma account_names_distinct : NoDup (map fst moduleAccPerms).
Proof. apply (bool_decide_eq_true_1 _). vm_compute. reflexivity. Qed.

(** The accounts the modules move coins through exist, with the permissions they use. *)
Lemma module_accounts :
  GetMaccPerms !! "token" = Some [Minter; Burner] ∧ GetMaccPerms !! "fees" = Some [] ∧
  GetMaccPerms !! "treasury" = Some [] ∧ GetMaccPerms !! "infrastructure" = Some [] ∧
  BlockedAddresses !! "fees" = Some true ∧ BlockedAddresses !! "treasury" = None.
Proof. vm_compute. by repeat split. Qed.

(** ** Witnesses *)
#[local] Existing Instance Oracle.oracle_keeper.
#[local] Instance ref_chain : AnteChain (E := ref_env) := {|
  ChainAnteDecorators l :=
    foldr (λ d h ctx tx simulate, d ctx tx simulate h) (λ ctx _ _, mret ctx) l
|}.
Lemma ref_chain_laws : AnteChainLaws (E := ref_env).
Proof. by constructor. Qed.
#[local] Instance ref_signers : SignerAccounts (E := ref_env) :=
  {| GetSignerAcc ctx a := mret (Some ("key of " +:+ a)) |}.
Lemma ref_known : known_signers (E := ref_env) ["alice"].
Proof. apply Forall_singleton. intros ctx w. by eexists. Qed.

(** A transfer by alice with a signature that is no signature. *)
Definition forged_tx : Tx :=
  mkTx [MsgSend] (Some "") None (Some (mkSigTx (Ok ["not a signature"]) (Ok ["alice"]))).
Definition idle : Decorator (E := ref_env) := λ ctx tx simulate next, next ctx tx simulate.
Definition idle_decorators : Decorators :=
  mkDecorators (λ _, idle) idle idle idle idle idle idle idle idle idle idle idle idle.

Theorem ZeroGasSigVerification_spec_witness :
  ZeroGasSigVerification ref_ctx forged_tx false ret_next empty_world = (empty_world, Ok ref_ctx).
Proof.
  exact (@ZeroGasSigVerification_spec ref_env _ ref_ctx forged_tx _ _ _ false ret_next empty_world
    eq_refl eq_refl eq_refl ref_known).
Defined.

Theorem base_ante_admits_witness :
  ∃ h f, setAnteHandler idle_decorators None = Ok h ∧
    ∀ ctx w, ∃ ctx', h ctx forged_tx false w = (f w, Ok ctx') ∧
      ctx_GasMeter ctx' = InfiniteGasMeter.
Proof.
  destruct (@base_ante_admits ref_env _ ref_chain_laws _ idle_decorators None forged_tx false
    (mkSigTx (Ok ["not a signature"]) (Ok ["alice"])) ["not a signature"] ["alice"])
    as [(h & f & Hh & Hr) _].
  - unfold foreign. repeat (apply Forall_cons; split; [by exists id|]). by apply Forall_nil.
  - reflexivity.
  - reflexivity.
  - reflexivity.
  - exact ref_known.
  - cbn. lia.
  - exists h, f. split; [exact Hh|]. intros ctx w. destruct (Hr ctx w) as (ctx' & H1 & H2 & _).
    exists ctx'. split; [exact H1|exact H2].
Defined.

Theorem customAnte_safe_witness :
  ∃ c0 w0, ret_next c0 (transfer_tx "" 0 1000) true w0 = (empty_world, Ok ref_ctx).
Proof.
  destruct (@customAnte_safe ref_env _ ret_next ref_ctx (transfer_tx "" 0 1000) true empty_world
    empty_world ref_ctx eq_refl) as (_ & c0 & w0 & H & _).
  exists c0, w0. exact H.
Defined.
