(* ===== verification/Frames.v ===== *)
(** * What each part of the chain may change

    The messages, the begin blocker, the IBC callbacks and the ante handler change the
    stores of their own modules, the prices and what belongs to the SDK; the parameters
    are none of it.  A property of two states that holds across those changes ([Allows])
    holds across every one of them.  The keepers are put together as the application
    does: x/oracle, x/fees, the client and the consumer of x/icqcontroller. *)

From Stdlib Require Import Strings.Ascii Strings.String.
From stdpp Require Import strings.
From S2P Require Import Prelude GoLib Json Sdk World Interfaces IbcTypes.
From S2P Require FeesTypes TokenTypes OsmoTypes ShellTypes.
From S2P Require Oracle FeesKeeper FeeCalculator FeesAnte TokenKeeper OsmosisIcq.
From S2P Require IcqController IcqPrice Pricefeed App.

Local Open Scope Z_scope.

(** ** Changes *)

(** The parts of the state that are not the repository's: its modules have the same stores
    in both states. *)
Definition sdk_only {E : Env} (w w' : World E) : Prop :=
  ∃ b i c g evs, w' = set_bank b (set_ibc i (set_cap c (set_gas g (set_events evs w)))).
(** Those parts without the ledger. *)
Definition log_only {E : Env} (w w' : World E) : Prop :=
  ∃ i c g evs, w' = set_ibc i (set_cap c (set_gas g (set_events evs w))).

(** What a relation of states has to put up with: new prices, times and queries, and coins
    that move; not parameters, ports or the registry of tokens. *)
Class Allows {E : Env} (R : World E → World E → Prop) : Prop := {
  allow_preorder :: PreOrder R;
  allow_log w w' : log_only w w' → R w w';
  allow_sent w b f t cs : moved (w_bank w) b f t cs → R w (set_bank b w);
  allow_prices ps w : R w (set_oracle (mkOracleStore (o_params (w_oracle w)) ps) w);
  allow_times lu nu lr ids w :
    R w (set_osmo (mkOsmoStore (q_params (w_osmo w)) lu nu lr ids) w);
  allow_queries act pend w :
    R w (set_icq (mkIcqStore (i_params (w_icq w)) (i_port (w_icq w)) act pend) w)
}.

Section Leaves.
Context {E : Env} (R : World E → World E → Prop) {A : Allows R}.
Implicit Types w : World E.

Lemma log_ibc i w : log_only w (set_ibc i w).
Proof. exists i, (w_cap w), (w_gas w), (w_events w). by destruct w. Qed.
Lemma log_gas g w : log_only w (set_gas g w).
Proof. exists (w_ibc w), (w_cap w), g, (w_events w). by destruct w. Qed.
Lemma log_events evs w : log_only w (set_events evs w).
Proof. exists (w_ibc w), (w_cap w), (w_gas w), evs. by destruct w. Qed.

Lemma may_read {T} key (f : World E → option T) : respects R (coll_get key f).
Proof using A. apply respects_pure; [apply _|]. intros. apply coll_get_pure. Qed.
Lemma may_write key f : (∀ w, R w (f w)) → respects R (coll_set key f).
Proof using A. intros H w. unfold coll_set. case_match; [reflexivity|apply H]. Qed.
Lemma may_emit ty attrs : respects R (EmitEvent ty attrs).
Proof using A. intros w. apply allow_log, log_events. Qed.
(** Coins that are sent move. *)
Definition moves (m : stM BankState unit) : Prop :=
  ∀ b b' u, m b = (b', Ok u) → ∃ f t cs, moved b b' f t cs.
Lemma may_move m : moves m → commits R (on_bank m).
Proof using A.
  intros Hm w w' u (b & Hb & ->)%on_bank_inv. apply Hm in Hb as (f & t & cs & Hb).
  by eapply allow_sent.
Qed.
Context {L : EnvLaws E}.
Lemma moves_send f t cs : moves (SendCoins f t cs).
Proof using L. intros b b' u H. exists f, t, cs. by eapply SendCoins_ok. Qed.
Lemma moves_to_module f m cs : moves (SendCoinsFromAccountToModule f m cs).
Proof using L.
  intros b b' u H. exists f, (NewModuleAddress m), cs. by eapply SendCoinsFromAccountToModule_ok.
Qed.
Lemma moves_from_module m t cs : moves (SendCoinsFromModuleToAccount m t cs).
Proof using L.
  intros b b' u H. exists (NewModuleAddress m), t, cs. by eapply SendCoinsFromModuleToAccount_ok.
Qed.
Lemma moves_between m m' cs : moves (SendCoinsFromModuleToModule m m' cs).
Proof using L.
  intros b b' u H. exists (NewModuleAddress m), (NewModuleAddress m'), cs.
  by eapply SendCoinsFromModuleToModule_ok.
Qed.
Lemma may_gas {T} (m : stM GasState T) : respects R (on_gas m).
Proof using A. intros w. unfold on_gas, zoom. destruct (m (w_gas w)). apply allow_log, log_gas. Qed.
Lemma may_ibc {T} (m : stM IbcState T) : respects R (on_ibc m).
Proof using A. intros w. unfold on_ibc, zoom. destruct (m (w_ibc w)). apply allow_log, log_ibc. Qed.
Lemma may_check k e a : respects R (check_authority k e a).
Proof using A. apply respects_pure; [apply _|]. intros. apply check_authority_pure. Qed.
Lemma may_defer {T} (m : stM (World E) T) d :
  respects R m → respects R d → respects R (deferred m d).
Proof using A.
  intros Hm Hd w. pose proof (Hm w) as H. unfold deferred. destruct (m w) as [w1 r]. cbn in *.
  etransitivity; [exact H|apply Hd].
Qed.
Lemma may_kv_get key : respects R (TokenKeeper.kv_get key).
Proof using A.
  apply respects_pure; [apply _|]. intros w. unfold TokenKeeper.kv_get. by case_match.
Qed.
End Leaves.

#[export] Hint Resolve moves_send moves_to_module moves_from_module moves_between : frame.
#[export] Hint Resolve may_read may_emit may_gas may_ibc may_check may_kv_get : frame.
#[export] Hint Extern 1 (commits _ (on_bank _)) => apply may_move; auto with frame : frame.
#[export] Hint Extern 1 (respects _ (ignore_err _)) => apply respects_ignore; [apply _|] : frame.

(** ** The handlers *)
Section Handlers.
Context {E : Env} {L : EnvLaws E} (R : World E → World E → Prop) {A : Allows R}.
#[local] Existing Instance Oracle.oracle_keeper.
#[local] Existing Instance FeesKeeper.fees_keeper.
Implicit Types (ctx : Ctx) (w : World E).

(** *** x/oracle *)
Lemma may_price_set key v : respects R (Oracle.price_set key v).
Proof using A. apply may_write; [done|]. intros w. apply allow_prices. Qed.
#[local] Hint Resolve may_price_set : frame.
Lemma may_GetCSVPerUSD ctx : respects R (Oracle.GetCSVPerUSD ctx).
Proof using A. unfold Oracle.GetCSVPerUSD, Oracle.price_get. respects. Qed.
Lemma may_SetCSVPerUSD ctx d : respects R (Oracle.SetCSVPerUSD ctx d).
Proof using A. unfold Oracle.SetCSVPerUSD. respects. Qed.
#[local] Hint Resolve may_GetCSVPerUSD may_SetCSVPerUSD : frame.
Lemma may_GetExchangeRate ctx s : respects R (Oracle.GetExchangeRate ctx s).
Proof using A. unfold Oracle.GetExchangeRate. respects. Qed.
#[local] Hint Resolve may_GetExchangeRate : frame.
Lemma may_SetPrice ctx msg : respects R (Oracle.SetPrice ctx msg).
Proof using A. unfold Oracle.SetPrice. respects. Qed.

(** *** x/fees *)
Lemma may_fees_params : respects R FeesKeeper.params_get.
Proof using A. apply may_read. done. Qed.
#[local] Hint Resolve may_fees_params : frame.
Lemma may_params_or_default : respects R FeesKeeper.params_or_default.
Proof using A. unfold FeesKeeper.params_or_default. respects. Qed.
#[local] Hint Resolve may_params_or_default : frame.
Lemma may_ConvertUSDToCSV ctx usd : respects R (FeesKeeper.ConvertUSDToCSV ctx usd).
Proof using A.
  unfold FeesKeeper.ConvertUSDToCSV, FeesKeeper.GetCSVUSDPrice, FeesKeeper.usable,
    FeesKeeper.getFallbackPrice, FeesKeeper.emitOracleEvent. cbn. respects.
Qed.
#[local] Hint Resolve may_ConvertUSDToCSV : frame.
Lemma may_send_share (send : Coins → stM BankState unit) d a t :
  (∀ cs, moves (send cs)) → commits R (FeesKeeper.send_share send d a t).
Proof using A.
  intros Hs. unfold FeesKeeper.send_share. commits.
Qed.
Lemma may_send_to (send : string → Coins → stM BankState unit) d a addr t :
  (∀ x cs, moves (send x cs)) → commits R (FeesKeeper.send_to send d a addr t).
Proof using A.
  intros Hs. unfold FeesKeeper.send_to. commits. by apply may_send_share.
Qed.
#[local] Hint Extern 1 (commits _ (FeesKeeper.send_share _ _ _ _)) =>
  apply may_send_share; auto with frame : frame.
#[local] Hint Extern 1 (commits _ (FeesKeeper.send_to _ _ _ _ _)) =>
  apply may_send_to; auto with frame : frame.
Lemma may_DistributeFee ctx s t c md : commits R (FeesKeeper.DistributeFee ctx s t c md).
Proof using A L. unfold FeesKeeper.DistributeFee, FeesKeeper.get_params_wrapped. commits. Qed.
Lemma may_DistributeFeeFromModule ctx s t c md :
  commits R (FeesKeeper.DistributeFeeFromModule ctx s t c md).
Proof using A L.
  unfold FeesKeeper.DistributeFeeFromModule, FeesKeeper.get_params_wrapped. commits.
Qed.
#[local] Hint Resolve may_DistributeFee may_DistributeFeeFromModule : frame.
Lemma may_ChargeFee ctx msg : commits R (FeesKeeper.ChargeFee ctx msg).
Proof using A L. unfold FeesKeeper.ChargeFee. commits. Qed.

(** *** The ante handler *)
Lemma may_isSystemMsg ctx m : respects R (FeeCalculator.isSystemMsg ctx m).
Proof using A. unfold FeeCalculator.isSystemMsg. respects. Qed.
#[local] Hint Resolve may_isSystemMsg : frame.
Lemma may_system_scan ctx msgs a b c : respects R (FeeCalculator.system_scan ctx msgs a b c).
Proof using A. revert a b c. induction msgs; intros a' b c; cbn [FeeCalculator.system_scan]; respects. Qed.
#[local] Hint Resolve may_system_scan : frame.
Lemma may_classify ctx msgs memo : respects R (FeeCalculator.classifyTransaction ctx msgs memo).
Proof using A. unfold FeeCalculator.classifyTransaction. respects. Qed.
#[local] Hint Resolve may_classify : frame.
Lemma may_EstimateFee ctx msgs memo gas : respects R (FeeCalculator.EstimateFee ctx msgs memo gas).
Proof using A. unfold FeeCalculator.EstimateFee. cbn. respects. Qed.
#[local] Hint Resolve may_EstimateFee : frame.

(** The fee decorators, before any handler that stays within the same bounds. *)
Lemma may_customAnte base ctx tx simulate :
  (∀ ctx tx simulate, commits R (base ctx tx simulate)) →
  commits R (App.customAnte base ctx tx simulate).
Proof using A L.
  intros Hb.
  assert (HD : ∀ c t s, commits R (FeesAnte.DeductFeeHandle base c t s)).
  { intros. unfold FeesAnte.DeductFeeHandle, FeesAnte.deductFees, FeesAnte.distributeFees.
    commits; apply Hb. }
  unfold App.customAnte, FeesAnte.FeeAnteHandle, FeesAnte.check_mode,
    FeesAnte.emitFeeChargedEvent.
  commits; try apply HD; destruct decide; commits; apply HD.
Qed.

(** *** x/osmosisicq *)
Lemma may_osmo_params : respects R OsmosisIcq.params_get.
Proof using A. by apply may_read. Qed.
#[local] Hint Resolve may_osmo_params : frame.
Lemma may_osmo_set key f :
  (∀ s, q_params (f s) = q_params s) → respects R (coll_set key (OsmosisIcq.osmo_set f)).
Proof using A.
  intros Hf. apply may_write; [done|]. intros w. unfold OsmosisIcq.osmo_set.
  specialize (Hf (w_osmo w)). destruct (f (w_osmo w)) as [p a b c d]. cbn in Hf. subst p.
  apply allow_times.
Qed.
#[local] Hint Extern 1 (respects _ (OsmosisIcq.LastUpdate_set _)) => by apply may_osmo_set : frame.
#[local] Hint Extern 1 (respects _ (OsmosisIcq.NextUpdate_set _)) => by apply may_osmo_set : frame.
#[local] Hint Extern 1 (respects _ (OsmosisIcq.LastResultTime_set _)) =>
  by apply may_osmo_set : frame.
#[local] Hint Extern 1 (respects _ (OsmosisIcq.QueryIDs_set _ _)) => by apply may_osmo_set : frame.
Lemma may_persist ctx price liq : respects R (OsmosisIcq.ValidateAndPersistPrice ctx price liq).
Proof using A. unfold OsmosisIcq.ValidateAndPersistPrice. cbn. respects. Qed.
#[local] Hint Resolve may_persist : frame.
Lemma may_normalize ctx price : respects R (OsmosisIcq.normalizeToCSVPerUSD ctx price).
Proof using A. unfold OsmosisIcq.normalizeToCSVPerUSD. respects. Qed.
#[local] Hint Resolve may_normalize : frame.
Lemma may_OnKVResult ctx store key value : respects R (OsmosisIcq.OnKVResult ctx store key value).
Proof using A.
  unfold OsmosisIcq.OnKVResult, OsmosisIcq.HandleTwapResult, OsmosisIcq.HandleSpotResult. respects.
Qed.
#[local] Hint Resolve may_OnKVResult : frame.

(** *** x/icqcontroller *)
Context (ibc_fn has_ctrl has_client async has_consumer : bool).
Context {QC : JsonCodec (list IcqController.RequestQuery)}
  {RC : JsonCodec (list string)}.

Lemma may_icq_set key f :
  (∀ s, i_params (f s) = i_params s ∧ i_port (f s) = i_port s) →
  respects R (coll_set key (IcqController.icq_set f)).
Proof using A.
  intros Hf. apply may_write; [done|]. intros w. unfold IcqController.icq_set.
  destruct (Hf (w_icq w)) as [H1 H2]. destruct (f (w_icq w)) as [p a b c]. cbn in H1, H2. subst.
  apply allow_queries.
Qed.
#[local] Hint Extern 1 (respects _ (IcqController.SetPending _ _ _ _ _ _)) =>
  by apply may_icq_set : frame.
#[local] Hint Extern 1 (respects _ (IcqController.RemovePending _ _ _)) =>
  by apply may_icq_set : frame.
#[local] Hint Extern 1 (respects _ (IcqController.SetActiveChannel _ _ _)) =>
  by apply may_icq_set : frame.
#[local] Hint Extern 1 (respects _ (IcqController.RemoveActiveChannel _ _)) =>
  by apply may_icq_set : frame.
Lemma may_SendKVQuery ctx conn store key :
  respects R (IcqController.SendKVQuery ibc_fn ctx conn store key).
Proof using A.
  unfold IcqController.SendKVQuery, IcqController.Port_get,
    IcqController.GetChannelForConnection, IcqController.ibc_keeper. respects.
Qed.
#[local] Hint Resolve may_SendKVQuery : frame.
#[local] Instance client : ICQClient E := IcqController.icqClientAdapter ibc_fn has_ctrl.
Lemma may_register ctx p name q : respects R (OsmosisIcq.register ctx p name q).
Proof using A.
  unfold OsmosisIcq.register. cbn. unfold IcqController.adapter_RegisterKVQuery,
    IcqController.GetChannelForConnection. respects.
Qed.
#[local] Hint Resolve may_register : frame.
Lemma may_osmo_BeginBlock (ctx : option Ctx) : respects R (OsmosisIcq.BeginBlock has_client ctx).
Proof using A.
  unfold OsmosisIcq.BeginBlock, OsmosisIcq.ScheduleQueriesIfDue, OsmosisIcq.is_due,
    OsmosisIcq.LastUpdate_get, OsmosisIcq.NextUpdate_get, OsmosisIcq.register_queries. respects.
Qed.

(** The consumer the application provides. *)
#[local] Instance consumer : KVResultConsumer E := IcqPrice.kvConsumerAdapter.
Lemma may_GetPending ctx ch n : respects R (IcqController.GetPending ctx ch n).
Proof using A. unfold IcqController.GetPending, IcqController.Pending_get. respects. Qed.
#[local] Hint Resolve may_GetPending : frame.
Lemma may_consume ctx store key value :
  respects R (Interfaces.OnKVResult ctx store key value).
Proof using A. apply may_OnKVResult. Qed.
#[local] Hint Resolve may_consume : frame.
Lemma may_process_ack ctx port ch n ack store key conn :
  respects R (IcqController.process_ack async has_consumer ctx port ch n ack store key conn).
Proof using A. unfold IcqController.process_ack. respects. Qed.
Lemma may_icq_ack ctx port ch n ack :
  respects R (IcqController.HandlePacketAcknowledgement async has_consumer ctx port ch n ack).
Proof using A.
  unfold IcqController.HandlePacketAcknowledgement. respects.
  apply may_defer; [done|apply may_process_ack|]. respects.
Qed.
Lemma may_icq_timeout ctx port ch n : respects R (IcqController.HandlePacketTimeout ctx port ch n).
Proof using A. unfold IcqController.HandlePacketTimeout. respects. Qed.

Lemma may_check_version want e got : respects R (check_version want e got).
Proof using A. unfold check_version. respects. Qed.
#[local] Hint Resolve may_check_version : frame.
Lemma may_track ctx hops ch : respects R (IcqController.track_channel ctx hops ch).
Proof using A. unfold IcqController.track_channel. respects. Qed.
#[local] Hint Resolve may_track : frame.
Lemma may_icq_init ctx h p c v : respects R (IcqController.OnChanOpenInit ctx h p c v).
Proof using A. unfold IcqController.OnChanOpenInit. respects. Qed.
Lemma may_icq_try ctx h p c v : respects R (IcqController.OnChanOpenTry ctx h p c v).
Proof using A. unfold IcqController.OnChanOpenTry. respects. Qed.
Lemma may_icq_open ctx p c c' v : respects R (IcqController.OnChanOpenAck ctx p c c' v).
Proof using A. unfold IcqController.OnChanOpenAck. respects. Qed.
Lemma may_icq_close ctx p c : respects R (IcqController.OnChanCloseConfirm ibc_fn ctx p c).
Proof using A. unfold IcqController.OnChanCloseConfirm, IcqController.ibc_keeper. respects. Qed.
Context {IP : ProtoCodec IcqController.PacketData} {AT : AckText}.
Lemma may_icq_recv ctx packet : respects R (IcqController.OnRecvPacket ctx packet).
Proof using A. unfold IcqController.OnRecvPacket. respects. Qed.

(** *** x/pricefeed *)
(** The protobuf JSON of the application's codec. *)
Context {AC : JsonCodec Acknowledgement}.
Context {PC : ProtoCodec Pricefeed.PricefeedPacketData}.
Context {QA : JsonCodec Pricefeed.OracleRequestPacketAck}
  {RA : JsonCodec Pricefeed.OracleResponsePacketAck}.
Lemma may_transmit d port ch t : respects R (Pricefeed.transmit ibc_fn d port ch t).
Proof using A. unfold Pricefeed.transmit. respects. Qed.
#[local] Hint Resolve may_transmit : frame.
Lemma may_check_message c p ch t : respects R (Pricefeed.check_message c p ch t).
Proof using A. unfold Pricefeed.check_message. respects. Qed.
#[local] Hint Resolve may_check_message : frame.
Lemma may_SendOracleRequest ctx msg : respects R (Pricefeed.SendOracleRequest ibc_fn ctx msg).
Proof using A.
  unfold Pricefeed.SendOracleRequest, Pricefeed.TransmitOracleRequestPacket. respects.
Qed.
Lemma may_SendOracleResponse ctx msg : respects R (Pricefeed.SendOracleResponse ibc_fn ctx msg).
Proof using A.
  unfold Pricefeed.SendOracleResponse, Pricefeed.TransmitOracleResponsePacket. respects.
Qed.
Lemma may_positive_price text : respects R (Pricefeed.positive_price (E := E) text).
Proof using A. unfold Pricefeed.positive_price. respects. Qed.
#[local] Hint Resolve may_positive_price : frame.
Lemma may_process_price ctx d : respects R (Pricefeed.ProcessPriceResponse ctx d).
Proof using A. unfold Pricefeed.ProcessPriceResponse, Pricefeed.update_price. cbn. respects. Qed.
#[local] Hint Resolve may_process_price : frame.
Lemma may_feed_recv ctx packet : respects R (Pricefeed.OnRecvPacket ctx packet).
Proof using A.
  unfold Pricefeed.OnRecvPacket, Pricefeed.acknowledge, Pricefeed.OnRecvOracleRequestPacket,
    Pricefeed.OnRecvOracleResponsePacket. respects.
Qed.
Lemma may_feed_ack ctx packet ack : respects R (Pricefeed.OnAcknowledgementPacket ctx packet ack).
Proof using A.
  unfold Pricefeed.OnAcknowledgementPacket, Pricefeed.OnAcknowledgementOracleRequestPacket,
    Pricefeed.OnAcknowledgementOracleResponsePacket, Pricefeed.on_ack. respects.
Qed.
Lemma may_feed_timeout ctx packet : respects R (Pricefeed.OnTimeoutPacket ctx packet).
Proof using A.
  unfold Pricefeed.OnTimeoutPacket, Pricefeed.OnTimeoutOracleRequestPacket,
    Pricefeed.OnTimeoutOracleResponsePacket. respects.
Qed.
Lemma may_feed_init ctx h p c v : respects R (Pricefeed.OnChanOpenInit ctx h p c v).
Proof using A. unfold Pricefeed.OnChanOpenInit. respects. Qed.
Lemma may_feed_try ctx h p c v : respects R (Pricefeed.OnChanOpenTry ctx h p c v).
Proof using A. unfold Pricefeed.OnChanOpenTry. respects. Qed.
Lemma may_feed_open ctx p c c' v : respects R (Pricefeed.OnChanOpenAck ctx p c c' v).
Proof using A. unfold Pricefeed.OnChanOpenAck. respects. Qed.
End Handlers.

(** What the steps of the chain are made of. *)
#[export] Hint Resolve may_icq_init may_icq_try may_icq_open may_icq_close may_icq_recv
  may_icq_ack may_icq_timeout may_feed_init may_feed_try may_feed_open may_feed_recv
  may_feed_ack may_feed_timeout may_SendOracleRequest may_SendOracleResponse may_SetPrice
  may_ChargeFee may_osmo_BeginBlock : frame.
