(* ===== verification/Chain.v ===== *)
(** * The chain as a state machine

    A block begins, ante handlers admit transactions, messages and IBC callbacks are
    executed, the SDK's modules do their work.  baseapp keeps the writes of a step that
    returns without an error and drops those of the others, so the states of the chain
    are those reached by successful steps.  What follows holds for all of them: the
    registry of tokens only grows, parameters are valid and change by governance only,
    and no message of the repository makes native coins. *)

From Stdlib Require Import Strings.Ascii Strings.String.
From stdpp Require Import strings gmap.
From S2P Require Import Prelude GoLib Json Sdk RefEnv World RefWorld Interfaces IbcTypes.
From S2P Require FeesTypes OsmoTypes ShellTypes Oracle FeesKeeper FeesAnte OsmosisIcq.
From S2P Require IcqController IcqPrice Pricefeed App.
From S2P Require Import TokenTypes TokenKeeper TokenSpec Modules Frames.

Local Open Scope Z_scope.

Section Chain.
Context {E : Env} {L : EnvLaws E}.
(** Which optional keepers were supplied, and the build tag icq_async. *)
Context (ibc_fn has_ctrl has_client scoped async has_consumer : bool).
(** The encodings of generated types. *)
Context {JF : JsonCodec FeesTypes.Params} {JT : JsonCodec TokenTypes.Params}
  {JO : JsonCodec OsmoTypes.Params} {JR : JsonCodec ShellTypes.Treasury.Params}
  {JG : JsonCodec ShellTypes.Registry.Params} {JCP : JsonCodec ShellTypes.Conversionpool.Params}
  {JE : JsonCodec ShellTypes.Empty.Params}
  {JP : JsonCodec (PortGenesis ShellTypes.Empty.Params)}.
Context {JC : JsonCodec TokenMetadata} {JL : JsonLaws TokenMetadata metadata_encodable}.
Context {QC : JsonCodec (list IcqController.RequestQuery)} {AC : JsonCodec Acknowledgement}
  {RC : JsonCodec (list string)} {IP : ProtoCodec IcqController.PacketData}.
Context {PC : ProtoCodec Pricefeed.PricefeedPacketData}
  {QA : JsonCodec Pricefeed.OracleRequestPacketAck}
  {RA : JsonCodec Pricefeed.OracleResponsePacketAck} {AT : AckText} {AU : AuthTypes}.
Implicit Types (ctx : Ctx) (w : World E).

(** The keepers as they are put together. *)
#[local] Existing Instance Oracle.oracle_keeper.
#[local] Existing Instance FeesKeeper.fees_keeper.
#[local] Instance client : ICQClient E := IcqController.icqClientAdapter ibc_fn has_ctrl.
#[local] Instance consumer : KVResultConsumer E := IcqPrice.kvConsumerAdapter.
#[local] Abbreviation modules := (init_order has_client scoped).

(** No module's configuration names an authority. *)
Definition gov : Slice := authority_of "".

(** ** What a block is made of *)

(** The messages of the modules of the application. *)
Inductive ChainMsg : Type :=
| MsgCreateToken (m : TokenTypes.MsgCreateToken)
| MsgMint (m : TokenTypes.MsgMint)
| MsgBurn (m : TokenTypes.MsgBurn)
| MsgChargeFee (m : FeesKeeper.MsgChargeFee)
| MsgSetPrice (m : Oracle.MsgSetPrice)
| MsgSendOracleRequest (m : Pricefeed.MsgSendOracleRequest)
| MsgSendOracleResponse (m : Pricefeed.MsgSendOracleResponse)
| MsgUpdateParams (m : AppModule E) (authority : string) (params : am_Params m).

Definition handle ctx (msg : ChainMsg) : stM (World E) unit :=
  match msg with
  | MsgCreateToken m => CreateToken ctx m
  | MsgMint m => Mint ctx m
  | MsgBurn m => Burn ctx m
  | MsgChargeFee m => FeesKeeper.ChargeFee ctx m;; mret tt
  | MsgSetPrice m => Oracle.SetPrice ctx m;; mret tt
  | MsgSendOracleRequest m => Pricefeed.SendOracleRequest ibc_fn ctx m
  | MsgSendOracleResponse m => Pricefeed.SendOracleResponse ibc_fn ctx m
  | MsgUpdateParams m authority params => am_UpdateParams m gov ctx authority params
  end.

(** A message that can arrive: its module is part of the application, and the fields of
    a new token are as the decoder of transactions leaves them. *)
Definition arrives ctx (msg : ChainMsg) : Prop :=
  match msg with
  | MsgCreateToken m => well_formed ctx m
  | MsgUpdateParams m _ _ => m ∈ modules
  | _ => True
  end.

(** The callbacks of an IBC module; what they return besides an error is of no concern. *)
Inductive IbcCall : Type :=
| ChanOpenInit (hops : list string) (port channel version : string)
| ChanOpenTry (hops : list string) (port channel version : string)
| ChanOpenAck (port channel counterparty version : string)
| ChanOpenConfirm (port channel : string)
| ChanCloseInit (port channel : string)
| ChanCloseConfirm (port channel : string)
| RecvPacket (packet : Packet)
| AcknowledgementPacket (packet : Packet) (ack : string)
| TimeoutPacket (packet : Packet).
Inductive IbcModule : Type := PricefeedIBC | IcqcontrollerIBC.

Definition callback ctx (m : IbcModule) (call : IbcCall) : stM (World E) unit :=
  match m, call with
  | PricefeedIBC, ChanOpenInit h p c v => Pricefeed.OnChanOpenInit ctx h p c v;; mret tt
  | PricefeedIBC, ChanOpenTry h p c v => Pricefeed.OnChanOpenTry ctx h p c v;; mret tt
  | PricefeedIBC, ChanOpenAck p c c' v => Pricefeed.OnChanOpenAck ctx p c c' v
  | PricefeedIBC, ChanOpenConfirm p c => Pricefeed.OnChanOpenConfirm ctx p c
  | PricefeedIBC, ChanCloseInit p c => Pricefeed.OnChanCloseInit ctx p c
  | PricefeedIBC, ChanCloseConfirm p c => Pricefeed.OnChanCloseConfirm ctx p c
  | PricefeedIBC, RecvPacket k => Pricefeed.OnRecvPacket ctx k;; mret tt
  | PricefeedIBC, AcknowledgementPacket k a => Pricefeed.OnAcknowledgementPacket ctx k a
  | PricefeedIBC, TimeoutPacket k => Pricefeed.OnTimeoutPacket ctx k
  | IcqcontrollerIBC, ChanOpenInit h p c v => IcqController.OnChanOpenInit ctx h p c v;; mret tt
  | IcqcontrollerIBC, ChanOpenTry h p c v => IcqController.OnChanOpenTry ctx h p c v;; mret tt
  | IcqcontrollerIBC, ChanOpenAck p c c' v => IcqController.OnChanOpenAck ctx p c c' v
  | IcqcontrollerIBC, ChanOpenConfirm p c => IcqController.OnChanOpenConfirm ctx p c
  | IcqcontrollerIBC, ChanCloseInit p c => IcqController.OnChanCloseInit ctx p c
  | IcqcontrollerIBC, ChanCloseConfirm p c => IcqController.OnChanCloseConfirm ibc_fn ctx p c
  | IcqcontrollerIBC, RecvPacket k => IcqController.OnRecvPacket ctx k;; mret tt
  | IcqcontrollerIBC, AcknowledgementPacket k a =>
      IcqController.OnAcknowledgementPacket async has_consumer ctx k a
  | IcqcontrollerIBC, TimeoutPacket k => IcqController.OnTimeoutPacket ctx k
  end.

(** ** Steps

    [base] is the chain of decorators behind the fee decorators, [sdk_step] what the
    modules of the SDK do: they write no store of the repository's modules. *)
Context (base : FeesAnte.AnteHandler (E := E)) (sdk_step : World E → World E → Prop).

Class SdkSteps : Prop := {
  sdk_step_only w w' : sdk_step w w' → sdk_only w w';
  base_step ctx tx simulate w w' c : base ctx tx simulate w = (w', Ok c) → sdk_step w w'
}.

Inductive Action : Type :=
| Begin (ctx : Ctx)
| End (ctx : Ctx)
| Ante (ctx : Ctx) (tx : FeesAnte.Tx)
| Message (ctx : Ctx) (msg : ChainMsg)
| Ibc (ctx : Ctx) (m : IbcModule) (call : IbcCall)
| Sdk.

Inductive step : Action → World E → World E → Prop :=
| step_begin ctx w w' :
    BeginBlocks has_client scoped (Some ctx) w = (w', Ok tt) → step (Begin ctx) w w'
| step_end ctx w w' :
    EndBlocks has_client scoped (Some ctx) w = (w', Ok tt) → step (End ctx) w w'
| step_ante ctx tx w w' c :
    App.customAnte base ctx tx false w = (w', Ok c) → step (Ante ctx tx) w w'
| step_message ctx msg w w' :
    arrives ctx msg → handle ctx msg w = (w', Ok tt) → step (Message ctx msg) w w'
| step_ibc ctx m call w w' :
    callback ctx m call w = (w', Ok tt) → step (Ibc ctx m call) w w'
| step_sdk w w' : sdk_step w w' → step Sdk w w'.

Inductive run : list Action → World E → World E → Prop :=
| run_nil w : run [] w w
| run_cons a tr w w1 w' : step a w w1 → run tr w1 w' → run (a :: tr) w w'.

(** The tokens that were created on the way. *)
Definition creates (a : Action) : bool :=
  match a with Message _ (MsgCreateToken _) => true | _ => false end.
Definition creations (tr : list Action) : Z := Z.of_nat (length (List.filter creates tr)).

(** Nobody acts for governance. *)
Definition ungoverned (tr : list Action) : Prop := ∀ ctx m authority p bz,
  Message ctx (MsgUpdateParams m authority p) ∈ tr →
  StringToBytes authority = (bz, None) → bytes_of bz ≠ bytes_of gov.

(** ** What is looked at *)
Definition registry (l : list TokenMetadata) w : Prop := store_rel l (t_kv (w_token w)).
Definition parameters w :=
  (o_params (w_oracle w), w_fees w, t_params (w_token w), w_treasury w, w_registry w,
   w_convpool w, w_cosvian w, q_params (w_osmo w),
   (i_params (w_icq w), i_port (w_icq w)), (f_params (w_feed w), f_port (w_feed w))).

(** Parameters are set, and they are what was stored of valid ones. *)
Definition params_ok w : Prop :=
  (∃ p, w_fees w = Some (FeesTypes.wire_params p) ∧ FeesTypes.GenesisValidate p = Ok tt) ∧
  (∃ p, t_params (w_token w) = Some (wire_params p) ∧ GenesisValidate p = Ok tt) ∧
  (∃ p, q_params (w_osmo w) = Some p ∧ OsmoTypes.Validate p = Ok tt) ∧
  (∃ p, w_registry w = Some p ∧ ShellTypes.Registry.Validate p = Ok tt) ∧
  is_Some (o_params (w_oracle w)) ∧ is_Some (w_cosvian w) ∧
  is_Some (i_params (w_icq w)) ∧ is_Some (f_params (w_feed w)).

Definition supply w : Z := GetSupply (w_bank w) "ucsv".

(** ** What a step leaves alone *)
Section Frame.
Context (R : World E → World E → Prop) {A : Allows R}.

Lemma may_callback ctx m call : respects R (callback ctx m call).
Proof using A.
  destruct m, call; cbn [callback].
  all: try (apply respects_bind; [apply _| |intros; apply respects_ret; apply _]).
  all: try solve [auto 2 with frame].
  all: try (apply respects_pure; [apply _|done]).
  - by apply may_icq_ack.
  - by apply may_icq_timeout.
Qed.

Lemma may_begin octx : respects R (BeginBlocks has_client scoped octx).
Proof using A.
  unfold BeginBlocks, init_order, BeginBlock. cbn [for_each am_BeginBlock]. unfold no_hook.
  repeat (apply respects_bind; [apply _| |intros]).
  all: try (apply respects_ret; apply _). by apply may_osmo_BeginBlock.
Qed.
Lemma may_end octx : respects R (EndBlocks has_client scoped octx).
Proof using A. apply respects_pure; [apply _|done]. Qed.

(** The messages that concern neither tokens nor parameters. *)
Definition plain (msg : ChainMsg) : bool :=
  match msg with
  | MsgChargeFee _ | MsgSetPrice _ | MsgSendOracleRequest _ | MsgSendOracleResponse _ => true
  | _ => false
  end.
Lemma may_handle ctx msg : plain msg = true → commits R (handle ctx msg).
Proof using A L.
  destruct msg; try done; intros _; cbn [handle].
  all: try (apply commits_bind; [apply _| |intros; apply commits_respects, respects_ret; apply _]).
  - by apply may_ChargeFee.
  - apply commits_respects. by apply may_SetPrice.
  - apply commits_respects. by apply may_SendOracleRequest.
  - apply commits_respects. by apply may_SendOracleResponse.
Qed.

(** Steps that run no message about tokens or parameters. *)
Definition ordinary (a : Action) : bool :=
  match a with Message _ msg => plain msg | _ => true end.
Lemma may_step a w w' :
  SdkSteps → (∀ w w', sdk_step w w' → R w w') → step a w w' → ordinary a = true → R w w'.
Proof using A L.
  intros HS Hsdk Hstep Ho. destruct Hstep as [ctx w w' H|ctx w w' H|ctx tx w w' c H|
    ctx msg w w' Ha H|ctx m call w w' H|w w' H].
  - apply (respects_run R _ _ _ _ (may_begin _) H).
  - apply (respects_run R _ _ _ _ (may_end _) H).
  - eapply (may_customAnte R base ctx tx false); [|exact H].
    intros ctx' tx' sim w1 w2 c' Hb. by apply Hsdk; eapply base_step.
  - by eapply may_handle.
  - apply (respects_run R _ _ _ _ (may_callback _ _ _) H).
  - by apply Hsdk.
Qed.
End Frame.

(** The stores and parameters that only their own messages change. *)
Definition settled w := (parameters w, t_kv (w_token w)).
#[local] Instance allows_settled : Allows (keeps settled).
Proof.
  constructor; [apply _| |done..]. intros w w' (i & c & g & evs & ->). done.
Qed.
Lemma sdk_settled w w' : sdk_only w w' → keeps settled w w'.
Proof. by intros (b & i & c & g & evs & ->). Qed.

(** The supply of native coins. *)
#[local] Instance allows_supply : Allows (keeps supply).
Proof.
  constructor; [apply _| | |done..]; [intros w w' (i & c & g & evs & ->); done|].
  intros w b f t cs [_ Hs]. apply Hs.
Qed.

(** *** Updates of parameters *)
Lemma UpdateParams_ok (m : AppModule E) ctx authority p w w' :
  m ∈ modules → am_UpdateParams m gov ctx authority p w = (w', Ok tt) →
  ∃ bz, StringToBytes authority = (bz, None) ∧ bytes_of bz = bytes_of gov.
Proof using L JR JCP.
  intros Hm H.
  destruct (@update_authority _ _ (all_module_laws has_client scoped m
    ltac:(apply elem_of_app; by left)) gov ctx authority p w) as [Ha|[e He]]; [done|].
  by rewrite He in H.
Qed.

(** What a successful update writes: valid parameters, and an event at most. *)
Lemma UpdateParams_effect (m : AppModule E) ctx authority p w w' :
  m ∈ modules → am_UpdateParams m gov ctx authority p w = (w', Ok tt) →
  (params_ok w → params_ok w') ∧ t_kv (w_token w') = t_kv (w_token w) ∧ supply w' = supply w.
Proof using L.
  unfold init_order. rewrite !elem_of_cons, elem_of_nil.
  intros Hm. repeat destruct Hm as [->|Hm]; [..|done].
  all: cbn [am_UpdateParams cosvian_module token_module oracle_module pricefeed_module
    registry_module fees_module osmosisicq_module icqcontroller_module].
  all: intros H; apply bind_ok_inv in H as ([] & w1 & [-> _]%check_authority_ok & H).
  2: case_bool_decide; [by injection H as <-|].
  all: apply bind_ok_inv in H as ([] & w1 & [-> Hv]%lift_ok_inv & H).
  7: apply bind_ok_inv in H as ([] & w1 & H & Hev); injection Hev as <-.
  all: apply coll_set_ok_inv in H as ->.
  all: split; [|done]; unfold params_ok; cbn; intros HP; destruct_and! HP; split_and!; try done.
  all: exists p; split; [done|]; try exact Hv.
  - unfold GenesisValidate. by case_bool_decide.
  - unfold FeesTypes.GenesisValidate. by case_bool_decide.
Qed.

(** *** Messages about tokens *)
Lemma recorded l w id m :
  registry l w → GetTokenMetadata id w = (w, Ok m) → m ∈ l.
Proof using L JL.
  intros HR H. rewrite (GetTokenMetadata_run l) in H by done.
  destruct (by_id l id) as [m'|] eqn:Hm; [|done]. injection H as ->.
  by apply find_elem in Hm as [Hm _].
Qed.

(** The supply changes for one denomination at most. *)
Definition supply_but (d : string) w w' : Prop :=
  ∀ d', d' ≠ d → GetSupply (w_bank w') d' = GetSupply (w_bank w) d'.
(** The modules of the SDK make no native coins. *)
Definition sdk_keeps : Prop := ∀ w w', sdk_step w w' → supply w' = supply w.

(** One step of the chain, as far as tokens, parameters and native coins go. *)
Inductive effect (a : Action) (l : list TokenMetadata) w w' : Prop :=
| effect_ordinary :
    creates a = false → settled w' = settled w → (sdk_keeps → supply w' = supply w) →
    effect a l w w'
| effect_coins m :
    creates a = false → settled w' = settled w → m ∈ l → supply_but (denom_of m) w w' →
    effect a l w w'
| effect_create p m :
    creates a = true → parameters w' = parameters w → registry (l ++ [m]) w' →
    t_params (w_token w) = Some p → reserved_symbol p (ToLower (Symbol m)) = false →
    count_of l (bytes_of (Creator m)) < MaxTokensPerCreator p →
    supply_but (denom_of m) w w' → effect a l w w'
| effect_update ctx m authority p bz :
    a = Message ctx (MsgUpdateParams m authority p) → StringToBytes authority = (bz, None) →
    bytes_of bz = bytes_of gov → (params_ok w → params_ok w') →
    t_kv (w_token w') = t_kv (w_token w) → supply w' = supply w → effect a l w w'.

Lemma CreateToken_params ctx msg w w' u :
  CreateToken ctx msg w = (w', Ok u) → ∃ p, t_params (w_token w) = Some p.
Proof using L.
  unfold CreateToken. intros H. apply bind_ok_inv in H as ([] & w1 & [-> _]%lift_ok_inv & H).
  destruct (StringToBytes _) as [creator [e|]]; [done|].
  apply bind_ok_inv in H as (p & w1 & H1%wrap_err_ok_inv & _).
  apply coll_get_ok_inv in H1 as [_ H1]. by exists p.
Qed.

Lemma step_effect {HS : SdkSteps} a l w w' :
  step a w w' → registry l w → Z.of_nat (S (length l)) < 2 ^ 64 → effect a l w w'.
Proof using L JL JR JCP.
  intros Hstep HR Hlen. destruct (ordinary a) eqn:Ho.
  - apply effect_ordinary.
    + by destruct a as [| | |ctx []| |].
    + eapply (may_step (keeps settled)); [done| |done..].
      intros. by apply sdk_settled, sdk_step_only.
    + intros Hk. by eapply (may_step (keeps supply)).
  - destruct Hstep as [| | |ctx msg w w' Ha H| |]; try done.
    destruct msg as [m|m|m| | | | |m authority p]; try done; cbn in Ha, H.
    + destruct (CreateToken_params ctx m w w' tt H) as [p Hp].
      apply (CreateToken_effect ctx m p l) in H
        as (t & kv & b & evs & -> & HR' & Hmax & Hres & Hsup); try done.
      by eapply effect_create.
    + apply Mint_effect in H as (t & addr & b & Ht & -> & _ & Hsup).
      apply (effect_coins _ _ _ _ t); [done..|by eapply recorded|].
      intros d Hd. cbn. rewrite Hsup. destruct (String.eqb_spec d (denom_of t)); [done|lia].
    + apply Burn_effect in H as (t & addr & b & Ht & -> & _ & Hsup).
      apply (effect_coins _ _ _ _ t); [done..|by eapply recorded|].
      intros d Hd. cbn. rewrite Hsup. destruct (String.eqb_spec d (denom_of t)); [done|lia].
    + destruct (UpdateParams_ok m ctx authority p w w' Ha H) as (bz & Hb & Hg).
      destruct (UpdateParams_effect m ctx authority p w w' Ha H) as (Hok & Hkv & Hsup).
      by eapply effect_update.
Qed.

(** ** Runs *)
Lemma creations_cons a tr : creations (a :: tr) = (if creates a then 1 else 0) + creations tr.
Proof. unfold creations. cbn. destruct (creates a); cbn [length]; lia. Qed.
Lemma creations_nonneg tr : 0 ≤ creations tr.
Proof. unfold creations. lia. Qed.

Lemma ungoverned_cons a tr : ungoverned (a :: tr) → ungoverned [a] ∧ ungoverned tr.
Proof.
  intros H. split; intros ctx m authority p bz Hin; apply (H ctx m authority p bz); [|by right].
  apply list_elem_of_singleton in Hin. rewrite Hin. by left.
Qed.

Lemma settled_kv w w' : settled w' = settled w → t_kv (w_token w') = t_kv (w_token w).
Proof. apply (f_equal snd). Qed.
Lemma settled_parameters w w' : settled w' = settled w → parameters w' = parameters w.
Proof. apply (f_equal fst). Qed.
Lemma parameters_token w w' :
  parameters w' = parameters w → t_params (w_token w') = t_params (w_token w).
Proof. by intros [=]. Qed.
Lemma params_ok_same w w' : parameters w' = parameters w → params_ok w → params_ok w'.
Proof.
  unfold parameters, params_ok. intros [= -> -> -> _ -> _ -> -> -> _ -> _]. done.
Qed.

(** The registry after a step has what it had, and the token that was created. *)
Lemma effect_registry a l w w' :
  effect a l w w' → registry l w →
  ∃ l', registry (l ++ l') w' ∧ Z.of_nat (length l') = if creates a then 1 else 0.
Proof.
  unfold registry.
  intros [Hc Hs _|m Hc Hs _ _|p m Hc _ HR _ _ _ _|ctx m authority p bz -> _ _ _ Hkv _] Hl.
  - exists []. by rewrite app_nil_r, Hc, (settled_kv _ _ Hs).
  - exists []. by rewrite app_nil_r, Hc, (settled_kv _ _ Hs).
  - exists [m]. by rewrite Hc.
  - exists []. by rewrite app_nil_r, Hkv.
Qed.

Lemma effect_params_ok a l w w' : effect a l w w' → params_ok w → params_ok w'.
Proof.
  intros [_ Hs _|m _ Hs _ _|p m _ Hp _ _ _ _ _|ctx m authority p bz _ _ _ Hok _ _];
    [| | |exact Hok]; apply params_ok_same; [by apply settled_parameters..|done].
Qed.

Lemma run_registry {HS : SdkSteps} tr l w w' :
  run tr w w' → registry l w → Z.of_nat (length l) + creations tr + 1 < 2 ^ 64 →
  (∃ l', registry (l ++ l') w' ∧ Z.of_nat (length l') = creations tr) ∧
  (params_ok w → params_ok w').
Proof using L JL JR JCP.
  intros Hrun. revert l. induction Hrun as [w|a tr w w1 w' Hstep _ IH]; intros l HR Hlen.
  { split; [|done]. exists []. by rewrite app_nil_r. }
  rewrite creations_cons in Hlen |- *. pose proof (creations_nonneg tr).
  pose proof (step_effect a l w w1 Hstep HR ltac:(destruct (creates a); lia)) as He.
  destruct (effect_registry a l w w1 He HR) as (l1 & HR1 & Hl1).
  destruct (IH (l ++ l1) HR1) as [(l2 & HR2 & Hl2) Hok]; [rewrite length_app; lia|].
  split; [|by intros Hp; apply Hok, (effect_params_ok a l w)].
  exists (l1 ++ l2). rewrite app_assoc, length_app. split; [done|lia].
Qed.

(** ** Who changes parameters *)

(** Messages about tokens write the token store and the ledger. *)
Section Parameters.
#[local] Abbreviation R := (keeps parameters).
Lemma parameters_bank {T} (m : stM BankState T) : respects R (on_bank m).
Proof. intros w. unfold on_bank, zoom. by destruct (m (w_bank w)). Qed.
Lemma parameters_kv key v : respects R (kv_set key v).
Proof. intros w. unfold kv_set. by case_match. Qed.
Lemma parameters_read {T} key (f : World E → option T) : respects R (coll_get key f).
Proof. intros w. unfold keeps. by rewrite coll_get_pure. Qed.
Lemma parameters_kv_get key : respects R (kv_get key).
Proof. intros w. unfold kv_get. by case_match. Qed.
Lemma parameters_emit ty attrs : respects R (EmitEvent ty attrs).
Proof. by intros w. Qed.
#[local] Hint Resolve parameters_bank parameters_kv parameters_read parameters_kv_get
  parameters_emit : frame.
Lemma parameters_tokens ctx msg :
  match msg with
  | MsgCreateToken _ | MsgMint _ | MsgBurn _ => respects R (handle ctx msg)
  | _ => True
  end.
Proof.
  destruct msg; try done; cbn [handle].
  - unfold CreateToken, params_get, validateSymbolUniqueness, validateCreatorLimits,
      generateTokenID, getNextTokenSequence, storeTokenMetadata, mintInitialSupply. respects.
  - unfold Mint, GetTokenMetadata. respects.
  - unfold Burn, GetTokenMetadata. respects.
Qed.
End Parameters.

Lemma step_parameters {HS : SdkSteps} a w w' :
  step a w w' → ungoverned [a] → parameters w' = parameters w.
Proof using L JR JCP.
  intros Hstep Hu. destruct (ordinary a) eqn:Ho.
  - apply settled_parameters. eapply (may_step (keeps settled)); [done| |done..].
    intros. by apply sdk_settled, sdk_step_only.
  - destruct Hstep as [| | |ctx msg w w' Ha H| |]; try done.
    pose proof (parameters_tokens ctx msg) as Hr.
    destruct msg as [m|m|m| | | | |m authority p]; try done.
    1-3: exact (respects_run _ _ _ _ _ Hr H).
    destruct (UpdateParams_ok m ctx authority p w w' Ha H) as (bz & Hb & Hg).
    exfalso. by apply (Hu ctx m authority p bz); [left|..].
Qed.

(** While the parameters stay, a registry within their limits stays within them. *)
Lemma effect_limits {HS : SdkSteps} a p l w w' :
  step a w w' → effect a l w w' → ungoverned [a] → registry_ok p l w →
  ∃ l', registry_ok p (l ++ l') w' ∧ Z.of_nat (length l') = if creates a then 1 else 0.
Proof using L JR JCP.
  intros Hstep He Hu (HR & Hp & Hc & Hr).
  assert (Hp' : t_params (w_token w') = Some p)
    by (rewrite <- Hp; by apply parameters_token, (step_parameters a)).
  destruct He as [Ha Hs _|m Ha Hs _ _|p' m Ha _ HR' Hq Hres Hmax _|ctx m authority q bz -> _ _ _ Hkv _].
  1,2: exists []; rewrite app_nil_r, Ha; unfold registry_ok; by rewrite (settled_kv _ _ Hs).
  - rewrite Hp in Hq. injection Hq as <-. exists [m]. rewrite Ha. split; [|done].
    split_and!; [done|done| |apply Forall_app; split; [done|by apply Forall_singleton]].
    intros b. rewrite count_of_app. specialize (Hc b).
    destruct (String.eqb_spec (bytes_of (Creator m)) b) as [<-|]; lia.
  - exists []. rewrite app_nil_r. unfold registry_ok. by rewrite Hkv.
Qed.

Lemma run_limits {HS : SdkSteps} tr p l w w' :
  run tr w w' → ungoverned tr → registry_ok p l w →
  Z.of_nat (length l) + creations tr + 1 < 2 ^ 64 →
  ∃ l', registry_ok p (l ++ l') w' ∧ Z.of_nat (length l') = creations tr.
Proof using L JL JR JCP.
  intros Hrun. revert l. induction Hrun as [w|a tr w w1 w' Hstep _ IH]; intros l Hu HR Hlen.
  { exists []. by rewrite app_nil_r. }
  rewrite creations_cons in Hlen |- *. pose proof (creations_nonneg tr).
  apply ungoverned_cons in Hu as [Ha Htr].
  pose proof (step_effect a l w w1 Hstep (proj1 HR) ltac:(destruct (creates a); lia)) as He.
  destruct (effect_limits a p l w w1 Hstep He Ha HR) as (l1 & HR1 & Hl1).
  destruct (IH (l ++ l1) Htr HR1) as (l2 & HR2 & Hl2); [rewrite length_app; lia|].
  exists (l1 ++ l2). rewrite app_assoc, length_app. split; [done|lia].
Qed.

(** ** From genesis *)

(** The chain starts: each module of the application has a file that its validation
    accepts, and there is no token yet. *)
Definition starts (gs : list (AppModule E * string)) ctx w0 w : Prop :=
  map fst gs = modules ∧ Forall (λ g, ValidateGenesis g.1 g.2 = Ok tt) gs ∧
  t_kv (w_token w0) = ∅ ∧ InitChain gs ctx w0 = (w, Ok tt).

Lemma init_keeps_kv (m : AppModule E) ctx gs :
  m ∈ modules → respects (keeps (λ w, t_kv (w_token w))) (am_InitGenesis m ctx gs).
Proof using L.
  intros Hm w. unfold init_order in Hm. rewrite !elem_of_cons, elem_of_nil in Hm.
  repeat destruct Hm as [->|Hm]; [..|done].
  all: cbn [am_InitGenesis cosvian_module token_module oracle_module pricefeed_module
    registry_module fees_module osmosisicq_module icqcontroller_module].
  4: destruct (feed_init_run scoped ctx gs w) as [c ->]; done.
  7: destruct (icq_init_run scoped ctx gs w) as [c ->]; done.
  all: unfold_genesis; by rewrite coll_set_run.
Qed.

Lemma validated m bz : ValidateGenesis (E := E) m bz = Ok tt →
  ∃ s, Unmarshal m bz = Ok s ∧ am_Validate m s = Ok tt.
Proof. unfold ValidateGenesis. destruct (Unmarshal m bz) as [s| |]; [by exists s|done..]. Qed.

Lemma InitChain_kv gs ctx w w' :
  Forall (λ g, g.1 ∈ modules) gs → InitChain gs ctx w = (w', Ok tt) →
  t_kv (w_token w') = t_kv (w_token w).
Proof using L.
  intros Hm H. refine (respects_run (keeps (λ w, t_kv (w_token w))) _ _ _ _ _ H).
  unfold InitChain. clear H. induction Hm as [|[m bz] gs Hm _ IH]; [by intros ?|]. cbn [for_each].
  apply respects_bind; [apply _| |done]. unfold InitGenesis.
  apply respects_bind; [apply _|..].
  - apply respects_must; [apply _|]. apply respects_lift. apply _.
  - intros s. apply respects_must; [apply _|]. by apply init_keeps_kv.
Qed.

Lemma started gs ctx w0 w : starts gs ctx w0 w → registry [] w ∧ params_ok w.
Proof using L JR JCP.
  intros (Hgs & Hv & Hkv & Hrun).
  assert (Hin : ∀ g, g ∈ gs → g.1 ∈ modules).
  { intros g Hg. rewrite <- Hgs. by apply list_elem_of_fmap_2. }
  assert (Hmem : Forall (λ g, g.1 ∈ modules) gs) by (by apply Forall_forall).
  split. { unfold registry. rewrite (InitChain_kv gs ctx w0 w Hmem Hrun), Hkv. apply empty_rel. }
  assert (Hread : Forall (readable has_client scoped) gs).
  { apply Forall_forall. intros g Hg. split.
    - unfold all_modules. apply elem_of_app. left. by apply Hin.
    - rewrite Forall_forall in Hv. apply Hv in Hg. apply validated in Hg as (s & -> & _). done. }
  assert (Hdup : NoDup (map (λ g, am_Name g.1) gs)).
  { change (NoDup (map (λ g, am_Name (fst g)) gs)). rewrite <- (map_map fst am_Name), Hgs.
    cbn. apply (bool_decide_eq_true_1 _). vm_compute. reflexivity. }
  destruct (InitChain_run has_client scoped gs ctx w0 Hread Hdup) as (w1 & Hw1 & _ & Hx).
  rewrite Hrun in Hw1. injection Hw1 as <-.
  assert (Hall : ∀ m, m ∈ modules → ∃ s, am_Validate m s = Ok tt ∧
    (am_ExportGenesis m ctx w).2 = Ok (am_stored m s)).
  { intros m Hm. rewrite <- Hgs in Hm. apply list_elem_of_fmap in Hm as ([m' bz] & -> & Hm).
    rewrite Forall_forall in Hv. pose proof (Hv _ Hm) as Hvm.
    apply validated in Hvm as (s & Hu & Hs). exists s. split; [done|]. by eapply Hx. }
  assert (Hitem : ∀ {P} key (f : World E → option P) p,
    (coll_get key f w).2 = Ok p → f w = Some p).
  { intros P key f p H. rewrite coll_get_run in H. cbn in H. destruct (f w); [by injection H as ->|done]. }
  unfold init_order in Hall. unfold params_ok, is_Some.
  split_and!.
  - destruct (Hall fees_module ltac:(rewrite !elem_of_cons; auto 12)) as (s & Hs & He).
    exists s. split; [by apply (Hitem _ "p_fees")|done].
  - destruct (Hall token_module ltac:(rewrite !elem_of_cons; auto 12)) as (s & Hs & He).
    exists s. split; [by apply (Hitem _ "p_token" (λ w, t_params (w_token w)))|done].
  - destruct (Hall (osmosisicq_module has_client) ltac:(rewrite !elem_of_cons; auto 12)) as (s & Hs & He).
    exists s. split; [by apply (Hitem _ "p_osmosisicq" (λ w, q_params (w_osmo w)))|done].
  - destruct (Hall registry_module ltac:(rewrite !elem_of_cons; auto 12)) as (s & Hs & He).
    exists s. split; [by apply (Hitem _ "p_registry")|done].
  - destruct (Hall oracle_module ltac:(rewrite !elem_of_cons; auto 12)) as (s & Hs & He).
    exists s. by apply (Hitem _ "p_oracle" (λ w, o_params (w_oracle w))).
  - destruct (Hall cosvian_module ltac:(rewrite !elem_of_cons; auto 12)) as (s & Hs & He).
    exists s. by apply (Hitem _ "p_cosvian").
  - destruct (Hall (icqcontroller_module scoped) ltac:(rewrite !elem_of_cons; auto 12)) as (s & Hs & He).
    cbn in He. rewrite icq_export_run in He. destruct (i_params (w_icq w)) as [p|]; [by exists p|done].
  - destruct (Hall (pricefeed_module scoped) ltac:(rewrite !elem_of_cons; auto 12)) as (s & Hs & He).
    cbn in He. rewrite feed_export_run in He. destruct (f_params (w_feed w)) as [p|]; [by exists p|done].
Qed.

(** ** Properties *)

(** C5 (invariant). In every state a chain reaches from a genesis whose files its modules
    accept, the parameters of all its modules are set and are what was stored of valid
    ones, and the token store holds a registry: as many tokens as were created on the
    way, numbered from one, no two of which share an identifier or a symbol; unless
    governance interfered, no creator has more than the limit and no symbol is reserved. *)
Theorem chain_invariant {HS : SdkSteps} gs ctx w0 w1 tr w :
  starts gs ctx w0 w1 → run tr w1 w → creations tr + 1 < 2 ^ 64 →
  params_ok w ∧
  ∃ l, registry l w ∧ Z.of_nat (length l) = creations tr ∧
    NoDup (map TokenID l) ∧ NoDup (map (λ m, ToLower (Symbol m)) l) ∧
    (∀ i m, l !! i = Some m → TokenID m = token_id (Z.of_nat (S i))) ∧
    (ungoverned tr → ∃ p, t_params (w_token w) = Some p ∧
       (∀ b, count_of l b ≤ Z.max 0 (MaxTokensPerCreator p)) ∧
       Forall (λ m, reserved_symbol p (ToLower (Symbol m)) = false) l).
Proof using L JL JR JCP.
  intros Hs Hrun Hn. apply started in Hs as [HR Hp].
  destruct (run_registry tr [] w1 w Hrun HR Hn) as [(l & Hl & Hlen) Hok].
  split; [by apply Hok|]. exists l. split_and!; [done|done|by eapply rel_ids_nodup| | |].
  - apply (rel_symbols _ _ Hl).
  - apply (rel_ids _ _ Hl).
  - intros Hu. destruct Hp as (_ & (p & Hp & _) & _). exists (wire_params p).
    destruct (run_limits tr (wire_params p) [] w1 w Hrun Hu) as (l' & (HR' & Hp' & Hc & Hr) & Hl'); [|done|].
    { split; [done|]. split; [done|]. split; [|done].
      intros b. change (count_of [] b) with 0. lia. }
    cbn [app] in *.
    assert (l' = l) as -> by (apply (store_rel_fun _ _ _ HR' Hl); lia). eauto.
Qed.

(** C7 (safety). Parameters are changed by governance alone. Whatever the steps of a run are,
    if none of them is an update of parameters in the name of the account of governance,
    then the parameters of every module, and the ports, are the same at its end. *)
Theorem params_need_authority {HS : SdkSteps} tr w w' :
  run tr w w' → ungoverned tr → parameters w' = parameters w.
Proof using L JR JCP.
  induction 1 as [w|a tr w w1 w' Hstep _ IH]; intros Hu; [done|].
  apply ungoverned_cons in Hu as [Ha Htr]. rewrite (IH Htr). by eapply step_parameters.
Qed.

(** C9 (safety). A token that is in the registry stays in it for ever as it is: later steps
    add the tokens they create after it and change nothing of it. In particular the supply
    recorded with a token is the initial one, whatever is minted or burnt. *)
Theorem registry_grows {HS : SdkSteps} tr l w w' :
  run tr w w' → registry l w → Z.of_nat (length l) + creations tr + 1 < 2 ^ 64 →
  ∃ l', registry (l ++ l') w' ∧ Z.of_nat (length l') = creations tr ∧
    ∀ m, m ∈ l → GetTokenMetadata (TokenID m) w' = (w', Ok m).
Proof using L JL JR JCP.
  intros Hrun HR Hn. destruct (run_registry tr l w w' Hrun HR Hn) as [(l' & Hl & Hlen) _].
  exists l'. split_and!; [done|done|]. intros m Hm. apply (recorded_metadata (l ++ l')); [done|].
  apply elem_of_app. by left.
Qed.

(** C6 (safety). Nobody makes or destroys native coins through the modules of the
    repository: if the parameters of x/token reserve the symbol "csv", as they do by
    default, governance changes no parameters and the SDK's own modules keep the supply of
    ucsv, then it is the same at the end of any run, although tokens are created, minted
    and burnt on the way. *)
Theorem native_supply_safe {HS : SdkSteps} tr l p w w' :
  run tr w w' → registry_ok p l w → Z.of_nat (length l) + creations tr + 1 < 2 ^ 64 →
  reserved_symbol p "csv" = true → ungoverned tr → sdk_keeps →
  supply w' = supply w.
Proof using L JL JR JCP.
  intros Hrun. revert l. induction Hrun as [w|a tr w w1 w' Hstep _ IH];
    intros l HR Hn Hcsv Hu Hk; [done|].
  rewrite creations_cons in Hn. pose proof (creations_nonneg tr).
  apply ungoverned_cons in Hu as [Ha Htr].
  assert (Hne : ∀ m, reserved_symbol p (ToLower (Symbol m)) = false → "ucsv" ≠ denom_of m).
  { intros m Hm H0. unfold denom_of in H0.
    change ("ucsv" = String "u" (ToLower (Symbol m))) in H0. injection H0 as H0.
    rewrite <- H0 in Hm. congruence. }
  pose proof (step_effect a l w w1 Hstep (proj1 HR) ltac:(destruct (creates a); lia)) as He.
  destruct (effect_limits a p l w w1 Hstep He Ha HR) as (l1 & HR1 & Hl1).
  rewrite (IH (l ++ l1)); try done; [|rewrite length_app; lia].
  destruct HR as (_ & Hp & _ & Hr).
  destruct He as [Hc Hs Hsup|m Hc Hs Hm Hsup|p' m Hc _ _ Hp' Hres _ Hsup|
    ctx m authority p' bz -> Hb Hg _ _ Hsup]; [by apply Hsup| | |exact Hsup].
  - apply Hsup, Hne. rewrite Forall_forall in Hr. by apply Hr.
  - rewrite Hp in Hp'. injection Hp' as <-. by apply Hsup, Hne.
Qed.
End Chain.

(** ** Witnesses *)
#[local] Existing Instances Oracle.oracle_keeper FeesKeeper.fees_keeper.
#[local] Existing Instances ref_metadata_codec ref_metadata_laws Pricefeed.ref_packet_codec
  Pricefeed.ref_request_ack Pricefeed.ref_response_ack Pricefeed.ref_ack_text ref_auth_types
  ref_empty_json ref_port_json IcqController.ref_request_codec IcqController.ref_values_codec.
(** A file that can be read, whatever it says. *)
Definition any_json {A} (a : A) : JsonCodec A :=
  {| json_Marshal _ := Ok "{}"; json_Unmarshal _ := Ok a |}.
#[local] Instance any_ack_json : JsonCodec Acknowledgement := any_json AckNone.
#[local] Instance any_fees_json : JsonCodec FeesTypes.Params := any_json FeesTypes.default_params.
#[local] Instance any_token_json : JsonCodec Params := any_json DefaultParams.
#[local] Instance any_osmo_json : JsonCodec OsmoTypes.Params := any_json OsmoTypes.DefaultParams.
#[local] Instance any_treasury_json : JsonCodec ShellTypes.Treasury.Params :=
  any_json ShellTypes.Treasury.DefaultParams.
#[local] Instance any_registry_json : JsonCodec ShellTypes.Registry.Params :=
  any_json ShellTypes.Registry.DefaultParams.
#[local] Instance any_pool_json : JsonCodec ShellTypes.Conversionpool.Params :=
  any_json ShellTypes.Conversionpool.DefaultParams.
#[local] Instance no_packets : ProtoCodec IcqController.PacketData :=
  {| pb_Marshal _ := Ok ""; pb_Unmarshal _ := Ok IcqController.NoData |}.
#[local] Abbreviation ref_client := (client (E := ref_env) true true).

(** SDK modules that do nothing. *)
Definition idle_sdk (w w' : World ref_env) : Prop := w' = w.
Lemma ref_sdk : SdkSteps (E := ref_env) FeesAnte.ret_next idle_sdk.
Proof.
  constructor.
  - intros w w' ->. exists (w_bank w), (w_ibc w), (w_cap w), (w_gas w), (w_events w). by destruct w.
  - intros ctx tx sim w w' c [= <- _]. done.
Qed.

Definition genesis_files : list (AppModule ref_env * string) :=
  map (λ m, (m, if String.eqb (am_Name m) "pricefeed" then "pricefeed"
                else if String.eqb (am_Name m) "icqcontroller" then "icqcontroller" else "{}"))
    (init_order (IC := ref_client) true true).
Definition first_world : World ref_env := (InitChain genesis_files ref_ctx empty_world).1.

Lemma first_starts : starts true true true true genesis_files ref_ctx empty_world first_world.
Proof.
  split; [reflexivity|]. split; [|split; [reflexivity|]].
  - unfold genesis_files, init_order. cbn [map].
    repeat (apply Forall_cons; split; [vm_compute; reflexivity|]). by apply Forall_nil.
  - exact (run_pair (InitChain genesis_files ref_ctx) empty_world (Ok tt)
      ltac:(vm_compute; reflexivity)).
Qed.

(** One token is created and some of it minted. *)
Definition gold_mint : TokenTypes.MsgMint := mkMsgMint (acc "eve") (acc "eve") 70 "token_001".
Definition gold_trace : list (Action (E := ref_env)) :=
  [Begin ref_ctx; Message ref_ctx (MsgCreateToken (gold_msg "GLD"));
   Message ref_ctx (MsgMint gold_mint); End ref_ctx].
Definition begun_world : World ref_env := (BeginBlocks (IC := ref_client) true true (Some ref_ctx) first_world).1.
Definition gold_created : World ref_env :=
  (CreateToken ref_ctx (gold_msg "GLD") begun_world).1.
Definition last_world : World ref_env := (Mint ref_ctx gold_mint gold_created).1.

Lemma begun_ok : (BeginBlocks (IC := ref_client) true true (Some ref_ctx) first_world).2 = Ok tt.
Proof. vm_compute. reflexivity. Qed.
Lemma created_ok : (CreateToken ref_ctx (gold_msg "GLD") begun_world).2 = Ok tt.
Proof. vm_compute. reflexivity. Qed.
Lemma minted_ok : (Mint ref_ctx gold_mint gold_created).2 = Ok tt.
Proof. vm_compute. reflexivity. Qed.

Lemma gold_run :
  run true true true true true true FeesAnte.ret_next idle_sdk gold_trace first_world last_world.
Proof.
  unfold gold_trace. apply (run_cons _ _ _ _ _ _ _ _ _ _ _ begun_world);
    [|apply (run_cons _ _ _ _ _ _ _ _ _ _ _ gold_created);
      [|apply (run_cons _ _ _ _ _ _ _ _ _ _ _ last_world);
        [|apply (run_cons _ _ _ _ _ _ _ _ _ _ _ last_world); [|apply run_nil]]]].
  - apply step_begin, (run_pair _ _ _ begun_ok).
  - apply step_message; [exact gold_well_formed|]. exact (run_pair _ _ _ created_ok).
  - apply step_message; [exact I|]. exact (run_pair _ _ _ minted_ok).
  - apply step_end. reflexivity.
Qed.

Lemma gold_ungoverned : ungoverned gold_trace.
Proof.
  intros ctx m authority p bz Hin _. exfalso. unfold gold_trace in Hin.
  rewrite !elem_of_cons, elem_of_nil in Hin. by destruct_or! Hin.
Qed.

Theorem chain_invariant_witness :
  params_ok last_world ∧
  ∃ l, registry (E := ref_env) l last_world ∧ Z.of_nat (length l) = 1 ∧ NoDup (map TokenID l).
Proof.
  destruct (@chain_invariant ref_env ref_env_laws true true true true true true
    _ _ _ _ _ _ _ _ _ ref_metadata_laws _ _ _ _ _ _ _ _ _ FeesAnte.ret_next idle_sdk ref_sdk
    genesis_files ref_ctx empty_world first_world gold_trace last_world first_starts gold_run
    eq_refl) as (Hp & l & Hl & Hn & Hd & _).
  split; [exact Hp|]. exists l. split; [exact Hl|]. split; [exact Hn|exact Hd].
Defined.

Theorem params_need_authority_witness : parameters last_world = parameters first_world.
Proof.
  exact (@params_need_authority ref_env ref_env_laws true true true true true true
    _ _ _ _ _ _ _ _ _ _ _ _ _ _ _ _ _ _ FeesAnte.ret_next idle_sdk ref_sdk
    gold_trace first_world last_world gold_run gold_ungoverned).
Defined.

(** 70 units more, and the recorded supply is still 1000. *)
Lemma gold_minted_ok : (Mint ref_ctx gold_mint gold_world).2 = Ok tt.
Proof. vm_compute. reflexivity. Qed.
Theorem registry_grows_witness :
  ∃ w', Mint ref_ctx gold_mint gold_world = (w', Ok tt) ∧
    GetTokenMetadata "token_001" w' = (w', Ok (gold "GLD")) ∧ CurrentSupply (gold "GLD") = 1000.
Proof.
  pose proof (run_pair _ _ _ gold_minted_ok) as Hm.
  destruct (@registry_grows ref_env ref_env_laws true true true true true true
    _ _ _ _ _ _ _ _ _ ref_metadata_laws _ _ _ _ _ _ _ _ _ FeesAnte.ret_next idle_sdk ref_sdk
    [Message ref_ctx (MsgMint gold_mint)] [gold "GLD"] gold_world
    (Mint ref_ctx gold_mint gold_world).1) as (l' & _ & _ & Hg).
  - eapply run_cons; [apply step_message; [exact I|exact Hm]|apply run_nil].
  - exact gold_rel.
  - reflexivity.
  - eexists. split; [exact Hm|]. split; [|reflexivity]. apply (Hg (gold "GLD")). by left.
Defined.

Theorem native_supply_safe_witness : supply last_world = supply first_world.
Proof.
  refine (@native_supply_safe ref_env ref_env_laws true true true true true true
    _ _ _ _ _ _ _ _ _ ref_metadata_laws _ _ _ _ _ _ _ _ _ FeesAnte.ret_next idle_sdk ref_sdk
    gold_trace [] (mkParams 10 (Some ["csv"]) (Some 0)) first_world last_world gold_run _ _ _
    gold_ungoverned _).
  - assert (H : t_kv (w_token first_world) = ∅) by (vm_compute; reflexivity).
    unfold registry_ok. rewrite H. split; [exact empty_rel|]. split; [vm_compute; reflexivity|].
    split; [|by apply Forall_nil]. intros b. change (count_of [] b) with 0. cbn. lia.
  - reflexivity.
  - vm_compute. reflexivity.
  - by intros w w' ->.
Defined.
