(* ===== verification/AntePay.v ===== *)
(** * What a transaction has paid when it is admitted

    The handler of [src/app/app.go]: the fee decorators of [FeesAnte.v] around the chain
    of [App.v], with the calculator of [FeeCalculator.v] and the distribution of
    [FeesSpec.v], from the transaction to the balances. *)

From Stdlib Require Import Strings.Ascii Strings.String.
From stdpp Require Import strings gmap.
From S2P Require Import Prelude GoLib Sdk RefEnv World RefWorld Interfaces FeesTypes.
From S2P Require Import FeesKeeper FeesSpec FeesCharge FeeCalculator FeesAnte App.
From S2P Require Oracle.

Local Open Scope Z_scope.

Section Pay.
Context {E : Env} {L : EnvLaws E} {OK : OracleKeeper E} {OL : OracleKeeperLaws E}.
Implicit Types (ctx : Ctx) (w : World E).

(** [w'] is [w] with other events. *)
Definition same_but_events w w' : Prop := ∃ evs, w' = set_events evs w.

Lemma same_refl w : same_but_events w w.
Proof. exists (w_events w). by rewrite set_events_id. Qed.
Lemma same_logged ev w w' : same_but_events w w' → same_but_events w (logged ev w').
Proof. intros [evs ->]. by eexists. Qed.

(** An estimate reads the parameters and the oracle; it leaves an event at most. *)
Lemma EstimateFee_same ctx msgs memo gas w w' est :
  EstimateFee ctx msgs memo gas w = (w', Ok est) → same_but_events w w'.
Proof using L OL.
  unfold EstimateFee. rewrite (bind_run _ _ _ _ _ (classify_run _ _ _ _)).
  rewrite (bind_run _ _ _ _ _ (params_or_default_run w)).
  case_decide; [intros [= <- _]; apply same_refl|].
  intros HE. apply bind_ok_inv in HE as ([cfg free] & w1 & H1 & HE). apply lift_ok_inv in H1 as [-> _].
  destruct free; [destruct (_ <? gas) in HE; [done|injection HE as <- _; apply same_refl]|].
  apply bind_ok_inv in HE as ([csv pd] & w1 & H1%wrap_err_ok_inv & HE).
  assert (w1 = with_event (oracle_event (price_data ctx w)) w) as ->.
  { unfold ConvertUSDToCSV in H1. rewrite (bind_run _ _ _ _ _ (GetCSVUSDPrice_run ctx w)) in H1.
    apply bind_ok_inv in H1 as (? & ? & H2 & H3). apply lift_ok_inv in H2 as [-> _].
    by injection H3 as <- _. }
  step_inv. destruct (0 <? gas); step_inv; by eexists.
Qed.

(** What the fee check lets through goes on with the state as it was, under an estimate
    its fee was checked against. *)
Lemma FeeAnte_admits next ctx tx feeTx p w w' c :
  asFeeTx tx = Some feeTx → w_fees w = Some p →
  FeeAnteHandle next ctx tx false w = (w', Ok c) →
  ∃ c0 w0 w1 est, next c0 tx false w0 = (w', Ok c) ∧
    EstimateFee ctx (GetMsgs tx) (default "" (GetMemo tx)) (GetGas feeTx) w = (w1, Ok est) ∧
    (check_mode p est (GetFee feeTx) w1).2 = Ok tt ∧
    same_but_events w w0 ∧
    ctx_GasMeter c0 = ctx_GasMeter ctx ∧ ctx_BlockGasMeter c0 = ctx_BlockGasMeter ctx ∧
    ctx_estimate c0 =
      (if decide (Category est = CategorySystem) then ctx_estimate ctx else Some est).
Proof using L OL.
  intros Ht Hp. rewrite (FeeAnteHandle_run next ctx tx feeTx p w Hp Ht). intros HA.
  destruct (EstimateFee _ _ _ _ w) as [w1 [est|e|x]] eqn:He; [|done|done].
  pose proof (EstimateFee_same _ _ _ _ _ _ _ He) as Hw.
  destruct (check_mode p est (GetFee feeTx) w1).2 as [[]|e|x] eqn:Hc; [|done|done].
  destruct (decide (Category est = CategorySystem)) as [Hs|Hs].
  - exists ctx, w1, w1, est. rewrite decide_True by done. by split_and!.
  - exists (ctx_with ctx tx est), (with_event (charged tx feeTx est) w1), w1, est.
    rewrite decide_False by done. split_and!; [exact HA|done..| |done|done|done].
    destruct Hw as [evs ->]. by eexists.
Qed.

(** The type by which the fee of a transaction with this estimate is distributed. *)
Definition paid_type ctx (est : FeeEstimate) : string :=
  match (if decide (Category est = CategorySystem) then ctx_estimate ctx else Some est) with
  | Some e => category_string (Category e)
  | None => "native_transfer"
  end.

(** C3 (safety). Nobody gets in without paying. When the application's ante handler admits a
    transaction with a fee, after the parameters are set, then the fee passed the check
    against the calculator's estimate, and the base chain, which had the last word, ran on a
    ledger where the granter, or else the payer, has paid exactly the fee, where the
    recipients of the plan for the category have received it but for at most three units
    of each coin, which are with the fees module, and where the supply is the same. The
    shares of that category's entry must add up to one; those of free categories do not
    by default. *)
Theorem admitted_has_paid base ctx tx feeTx p w w' c :
  asFeeTx tx = Some feeTx → w_fees w = Some p →
  (∀ est w1,
     EstimateFee ctx (GetMsgs tx) (default "" (GetMemo tx)) (GetGas feeTx) w = (w1, Ok est) →
     split_ok (Split (config_by_type_module (FeeTableUsd p) (paid_type ctx est)))) →
  Forall coin_ok (GetFee feeTx) → CoinsIsZero (GetFee feeTx) = false →
  customAnte base ctx tx false w = (w', Ok c) →
  let payer := match FeeGranter feeTx with Some g => g | None => FeePayer feeTx end in
  let module := NewModuleAddress FeesTypes.ModuleName in
  ∃ est w1 c0 w0,
    EstimateFee ctx (GetMsgs tx) (default "" (GetMemo tx)) (GetGas feeTx) w = (w1, Ok est) ∧
    (check_mode p est (GetFee feeTx) w1).2 = Ok tt ∧
    base c0 tx false w0 = (w', Ok c) ∧
    ctx_GasMeter c0 = ctx_GasMeter ctx ∧ ctx_BlockGasMeter c0 = ctx_BlockGasMeter ctx ∧
    w_fees w0 = w_fees w ∧ w_token w0 = w_token w ∧ w_oracle w0 = w_oracle w ∧
    (∀ d, GetSupply (w_bank w0) d = GetSupply (w_bank w) d) ∧
    (∀ a d, GetBalance (w_bank w0) a d = GetBalance (w_bank w) a d
       - (if String.eqb a payer then coins_amount (GetFee feeTx) d else 0)
       + (if String.eqb a module then coins_amount (GetFee feeTx) d else 0)
       + flow (coin_plan c0 p) module a d (GetFee feeTx)) ∧
    Forall (λ k, c_amount k - 3 ≤ cost (coin_plan c0 p k) ≤ c_amount k) (GetFee feeTx) ∧
    fee_type c0 = paid_type ctx est.
Proof using L OL.
  intros Ht Hp Hs Hf Hz HA payer module. unfold customAnte in HA.
  apply (FeeAnte_admits _ ctx tx feeTx p) in HA
    as (c0 & w0 & w1 & est & HA & He & Hc & [evs ->] & Hm & Hb & Hest); [|done|done].
  assert (Hty : fee_type c0 = paid_type ctx est) by (unfold fee_type; by rewrite Hest).
  specialize (Hs _ _ He). rewrite <- Hty in Hs.
  destruct (deduct_run c0 p Hs base tx feeTx (set_events evs w)) as (_ & _ & HD); try done.
  destruct (HD Hz _ _ HA) as (b' & Hn & Hbal & Hsup & Hcost).
  exists est, w1, c0, (set_bank b' (set_events evs w)).
  by split_and!.
Qed.
End Pay.

(** ** Witness *)
#[local] Existing Instance Oracle.oracle_keeper.

(** Alice has 10000 ucsv and an account; one dollar is 0.002 CSV. *)
Definition paying_world : World ref_env :=
  let w := with_balance "alice" "ucsv" 10000 priced_world in
  set_bank (E := ref_env)
    (mkLedger (l_bal (w_bank w)) (l_supply (w_bank w)) {[ "alice" := tt ]}) w.

Lemma transfer_estimate est w1 :
  EstimateFee ref_ctx (GetMsgs (transfer_tx "" 2100 1000))
    (default "" (GetMemo (transfer_tx "" 2100 1000))) 1000 paying_world = (w1, Ok est) →
  paid_type ref_ctx est = "native_transfer".
Proof.
  intros He.
  apply (f_equal (λ x, match x.2 with Ok e => Category e | _ => CategorySystem end)) in He.
  vm_compute in He.
  assert (Hc : Category est = CategoryNativeTransfer) by (symmetry; exact He).
  unfold paid_type. rewrite decide_False by (by rewrite Hc). by rewrite Hc.
Qed.

Lemma paying_run :
  ∃ w' c, customAnte ret_next ref_ctx (transfer_tx "" 2100 1000) false paying_world = (w', Ok c).
Proof.
  assert (H : is_ok (customAnte ret_next ref_ctx (transfer_tx "" 2100 1000) false
    paying_world).2 = true) by (vm_compute; reflexivity).
  destruct (customAnte _ _ _ _ _) as [w' [c|e|x]]; [by exists w', c|discriminate H..].
Qed.

(** Alice pays the 2000 ucsv of a transfer with five percent on top. *)
Theorem admitted_has_paid_witness :
  ∃ w' c, customAnte ret_next ref_ctx (transfer_tx "" 2100 1000) false paying_world = (w', Ok c) ∧
    l_get (w_bank w') "alice" "ucsv" = 7900 ∧ l_get (w_bank w') "module/treasury" "ucsv" = 2100.
Proof.
  destruct paying_run as (w' & c & Hr).
  destruct (@admitted_has_paid _ ref_env_laws _ (@Oracle.oracle_keeper_laws _ ref_env_laws)
    ret_next ref_ctx (transfer_tx "" 2100 1000) (mkFeeTx [mkCoin "ucsv" 2100] 1000 "alice" None)
    shop_params paying_world w' c) as (est & w1 & c0 & w0 & He & _ & Hb & _ & _ & _ & _ & _ & _ & Hbal & _ & Ht).
  - reflexivity.
  - reflexivity.
  - intros est w1 He%transfer_estimate. rewrite He.
    do 4 eexists. split; [reflexivity|]. repeat split; discriminate.
  - constructor; [|constructor]. split; [split; [discriminate|reflexivity]|reflexivity].
  - reflexivity.
  - exact Hr.
  - apply (f_equal fst) in Hb. change (w0 = w') in Hb. exists w0, c.
    split; [rewrite Hb; exact Hr|].
    pose proof (Hbal "alice" "ucsv") as H1. pose proof (Hbal "module/treasury" "ucsv") as H2.
    apply transfer_estimate in He. rewrite He in Ht.
    unfold coin_plan in H1, H2. rewrite Ht in H1, H2. clear Hbal Ht He Hr Hb.
    vm_compute in H1, H2. vm_compute. split; assumption.
Defined.
