(* ===== verification/Admit.v ===== *)
(** * A transaction that can pay is admitted

    The other half of [AntePay.v]: when the fee passes the check, the payer has the coins
    and the recipients accept them, the application's handler takes the fee, distributes
    it and goes on to the chain of [ante.go]. *)

From Stdlib Require Import Strings.Ascii Strings.String Sorting.Sorted.
From stdpp Require Import strings gmap.
From S2P Require Import Prelude GoLib Sdk RefEnv World RefWorld Interfaces FeesTypes.
From S2P Require Import FeesKeeper FeesSpec FeesCharge FeeCalculator FeesAnte App AntePay.
From S2P Require Oracle.

Local Open Scope Z_scope.

(** ** When x/bank pays

    Coins are sent when they are there: from an account what it can spend, from a module
    account its balance; the other side is a module account that exists, or an address
    that is not blocked. *)
Class BankServes (E : Env) := {
  module_account : string → Prop;
  accepts : string → Prop
}.
Class BankServesLaws (E : Env) `{!BankServes E} : Prop := {
  pays_module f m cs (b : BankState) :
    module_account m → coins_sorted cs → Forall (λ c, 0 < c_amount c) cs →
    Forall (λ c, c_amount c ≤ coins_amount (SpendableCoins b f) (c_denom c)) cs →
    ∃ b', SendCoinsFromAccountToModule f m cs b = (b', Ok tt);
  module_pays_module m m' c (b : BankState) :
    module_account m → module_account m' → 0 < c_amount c →
    c_amount c ≤ GetBalance b (NewModuleAddress m) (c_denom c) →
    ∃ b', SendCoinsFromModuleToModule m m' [c] b = (b', Ok tt);
  module_pays m t c (b : BankState) :
    module_account m → accepts t → 0 < c_amount c →
    c_amount c ≤ GetBalance b (NewModuleAddress m) (c_denom c) →
    ∃ b', SendCoinsFromModuleToAccount m t [c] b = (b', Ok tt)
}.

Section Admit.
Context {E : Env} {L : EnvLaws E} {OK : OracleKeeper E} {OL : OracleKeeperLaws E}.
Context {BS : BankServes E} {BL : BankServesLaws E}.
Implicit Types (ctx : Ctx) (w : World E).

(** ** The transfers of one coin *)
Definition reachable (t : Transfer) : Prop :=
  match tr_target t with ToModule m => module_account m | ToAddress a => accepts a end.

Lemma exec_module_runs m denom t (b : BankState) :
  module_account m → reachable t → 0 < tr_amount t →
  tr_amount t ≤ GetBalance b (NewModuleAddress m) denom →
  ∃ b', exec_module m denom t b = (b', Ok tt).
Proof using BL.
  intros Hm Hr Hp Hb. unfold reachable in Hr. unfold exec_module, wrap_err.
  destruct (tr_target t) as [m'|a].
  - destruct (module_pays_module m m' (mkCoin denom (tr_amount t)) b) as [b' ->]; eauto.
  - destruct (module_pays m a (mkCoin denom (tr_amount t)) b) as [b' ->]; eauto.
Qed.

Lemma transfers_run m denom ts (b : BankState) :
  module_account m → Forall (λ t, reachable t ∧ 0 < tr_amount t) ts →
  cost ts ≤ GetBalance b (NewModuleAddress m) denom →
  ∃ b', for_each ts (exec_module m denom) b = (b', Ok tt).
Proof using L BL.
  intros Hm Ht. revert b. induction Ht as [|t ts [Hr Hp] Hts IH]; intros b Hb; [by exists b|].
  assert (Hc : 0 ≤ cost ts).
  { clear -Hts. induction Hts as [|? ? [_ ?]]; simpl; lia. }
  simpl in Hb. destruct (exec_module_runs m denom t b Hm Hr Hp ltac:(lia)) as [b1 H1].
  simpl. rewrite (bind_run _ _ _ _ _ H1). apply IH.
  apply exec_module_moved in H1 as [H1 _]. rewrite H1, coins_amount_one. simpl.
  rewrite !String.eqb_refl. destruct (String.eqb _ _); lia.
Qed.

(** ** The fee *)

(** From [b] to [b'] the payer has paid exactly the fee, through the fees module, to the
    recipients of the plan of the context's fee type, and the supply is the same. *)
Definition fee_paid (p : Params) ctx (payer : string) (fee : Coins) (b b' : BankState) : Prop :=
  let module := NewModuleAddress FeesTypes.ModuleName in
  (∀ a d, GetBalance b' a d = GetBalance b a d
     - (if String.eqb a payer then coins_amount fee d else 0)
     + (if String.eqb a module then coins_amount fee d else 0)
     + flow (coin_plan ctx p) module a d fee) ∧
  (∀ d, GetSupply b' d = GetSupply b d).

Lemma fee_paid_nothing p ctx payer (b : BankState) : fee_paid p ctx payer [] b b.
Proof using. split; [|done]. intros a d. simpl. by do 2 case_match; lia. Qed.

Section Fee.
Variables (ctx : Ctx) (p : Params).
#[local] Abbreviation split := (Split (config_by_type_module (FeeTableUsd p) (fee_type ctx))).
#[local] Abbreviation rc := (resolve_recipients p ∅).
#[local] Abbreviation module := (NewModuleAddress FeesTypes.ModuleName).
Hypothesis Hs : split_ok split.
Hypothesis Hmod : module_account FeesTypes.ModuleName.
Hypothesis Htreasury : module_account "treasury".
(** The wallets that are set accept coins. *)
Hypothesis Hwallets : Forall (λ a, slice_empty a = false → accepts (bytes_of a))
  [rc_retail rc; rc_dev rc; rc_creator rc].

Lemma plan_reachable c :
  coin_ok c → Forall (λ t, reachable t ∧ 0 < tr_amount t) (coin_plan ctx p c).
Proof using L Hs Htreasury Hwallets.
  intros [Ha _]. unfold coin_plan, transfers.
  destruct (plan_run split rc (c_amount c) Hs Ha) as (_ & (H1 & H2 & H3 & H4) & _).
  destruct (plan_empty split rc (c_amount c)) as (E1 & E2 & E3).
  rewrite !Forall_cons in Hwallets. destruct Hwallets as (W1 & W2 & W3 & _).
  apply Forall_forall. intros t [Hin Hnz]%list_elem_of_In%filter_In.
  apply negb_true_iff, Z.eqb_neq in Hnz. unfold reachable.
  destruct Hin as [<-|[<-|[<-|[<-|[]]]]]; cbn [tr_target tr_amount] in *; split; try first [exact Htreasury | lia].
  - apply W1. destruct (slice_empty (rc_retail rc)); [by rewrite E1 in Hnz|done].
  - apply W2. destruct (slice_empty (rc_dev rc)); [by rewrite E2 in Hnz|done].
  - apply W3. destruct (slice_empty (rc_creator rc)); [by rewrite E3 in Hnz|done].
Qed.

Lemma distribute_runs fee w :
  w_fees w = Some p → Forall coin_ok fee →
  (∀ d, coins_amount fee d ≤ GetBalance (w_bank w) module d) →
  ∃ b', distributeFees ctx fee w = (set_bank b' w, Ok tt).
Proof using L BL Hs Hmod Htreasury Hwallets.
  intros Hp Hf. unfold distributeFees. fold (fee_type ctx). revert w Hp.
  induction Hf as [|c l [Ha Hd] Hl IH]; intros w Hp Hb; simpl.
  { exists (w_bank w). by rewrite set_bank_id. }
  pose proof (coin_plan_cost ctx p Hs c (conj Ha Hd)) as Hcost.
  assert (Hl0 : ∀ d, 0 ≤ coins_amount l d).
  { intros d. clear -Hl. induction Hl as [|? ? [[? _] _]]; simpl; [lia|].
    destruct (String.eqb _ _); lia. }
  destruct (transfers_run FeesTypes.ModuleName (c_denom c) (coin_plan ctx p c) (w_bank w)) as [b1 H1];
    [done|by apply plan_reachable| |].
  { specialize (Hb (c_denom c)). simpl in Hb. rewrite String.eqb_refl in Hb.
    specialize (Hl0 (c_denom c)). lia. }
  assert (HD : DistributeFeeFromModule ctx FeesTypes.ModuleName (fee_type ctx) c ∅ w =
    (set_bank b1 w, Ok tt)).
  { rewrite (DistributeFeeFromModule_run _ _ _ _ _ p) by (done || by apply split_ok_within).
    unfold on_bank, zoom.
    fold (coin_plan ctx p c). by rewrite H1. }
  rewrite (bind_run _ _ _ _ _ HD).
  destruct (IH (set_bank b1 w)) as [b' Hb']; [done| |by exists b'].
  intros d. simpl. specialize (Hb d). simpl in Hb.
  apply (transfers_effect module (c_denom c)) in H1 as [H1 _];
    [|intros; by eapply exec_module_moved].
  rewrite H1, String.eqb_refl.
  assert (0 ≤ received (coin_plan ctx p c) module).
  { pose proof (plan_reachable c (conj Ha Hd)) as Hr. clear -Hr.
    induction Hr as [|t ts [_ ?] _ IH]; simpl; [lia|]. destruct (String.eqb _ _); lia. }
  destruct (String.eqb (c_denom c) d); lia.
Qed.

(** The second decorator, when the payer can pay. *)
Lemma deduct_runs next tx feeTx w :
  let payer := match FeeGranter feeTx with Some g => g | None => FeePayer feeTx end in
  let fee := GetFee feeTx in
  asFeeTx tx = Some feeTx → w_fees w = Some p → Forall coin_ok fee →
  coins_sorted fee → Forall (λ c, 0 < c_amount c) fee →
  GetAccount (w_bank w) payer = true → payer ≠ module →
  Forall (λ c, c_amount c ≤ coins_amount (SpendableCoins (w_bank w) payer) (c_denom c)) fee →
  (∀ d, 0 ≤ GetBalance (w_bank w) module d) →
  ∃ b', DeductFeeHandle next ctx tx false w = next ctx tx false (set_bank b' w) ∧
    fee_paid p ctx payer fee (w_bank w) b'.
Proof using L BL Hs Hmod Htreasury Hwallets.
  intros payer fee Ht Hp Hok Hsort Hpos Hacc Hne Hspend Hnn.
  unfold DeductFeeHandle. rewrite Ht. fold fee.
  destruct (CoinsIsZero fee) eqn:Hz; cbn [negb andb].
  { exists (w_bank w). rewrite set_bank_id. split; [done|]. apply CoinsIsZero_iff in Hz.
    destruct Hpos as [|? ? Hc]; [apply fee_paid_nothing|].
    inversion Hz as [|? ? Hc0]. rewrite Hc0 in Hc. lia. }
  destruct (pays_module payer FeesTypes.ModuleName fee (w_bank w)) as [b1 H1]; [done..|].
  assert (HD : deductFees feeTx fee w = (set_bank b1 w, Ok tt)).
  { unfold deductFees. fold payer. unfold gets at 1. unfold mbind at 1, stM_bind at 1.
    rewrite Hacc. cbn [negb]. unfold replace_err, attempt, on_bank, zoom, mbind, stM_bind.
    by rewrite H1. }
  apply SendCoinsFromAccountToModule_ok in H1 as [H1 Hsup1].
  destruct (distribute_runs fee (set_bank b1 w)) as [b' H2]; [done..| |].
  { intros d. simpl. rewrite H1, String.eqb_refl.
    replace (String.eqb module payer) with false
      by (symmetry; apply String.eqb_neq; intros He; by apply Hne).
    specialize (Hnn d). lia. }
  exists b'. assert (H : (deductFees feeTx fee;; distributeFees ctx fee) w =
    (set_bank b' w, Ok tt)) by (rewrite (bind_run _ _ _ _ _ HD); exact H2).
  rewrite (bind_run _ _ _ _ _ H). split; [done|].
  apply (distribute_all ctx p Hs) in H2 as (b2 & Hb2 & Hbal & Hsup); [|done..].
  apply (f_equal w_bank) in Hb2. simpl in Hb2, Hbal, Hsup. subst b2.
  split; [|by intros; rewrite Hsup, Hsup1]. intros a d. rewrite Hbal, H1. done.
Qed.
End Fee.

(** C4 (liveness). Who can pay gets in, and pays. Suppose the parameters are set, the estimate
    succeeds and the fee passes the check against it; the granter, or else the payer, is an
    account that is not the fees module's and can spend the fee; the shares of the
    category's entry add up to one; the module accounts exist and the wallets of the
    parameters that are set accept coins. Then the application's ante handler comes to the
    chain of [ante.go], which decides the rest, on a state where that account has paid
    exactly the fee, the recipients of the plan for the category have received it but for
    at most three units of each coin, which are with the fees module, the supply is the
    same, nothing but the ledger and the events has changed, and with the same gas
    meters. *)
Theorem payer_admitted base ctx tx feeTx p w w1 est :
  let payer := match FeeGranter feeTx with Some g => g | None => FeePayer feeTx end in
  let module := NewModuleAddress FeesTypes.ModuleName in
  let fee := GetFee feeTx in
  let rc := resolve_recipients p ∅ in
  asFeeTx tx = Some feeTx → w_fees w = Some p →
  EstimateFee ctx (GetMsgs tx) (default "" (GetMemo tx)) (GetGas feeTx) w = (w1, Ok est) →
  (check_mode p est fee w1).2 = Ok tt →
  split_ok (Split (config_by_type_module (FeeTableUsd p) (paid_type ctx est))) →
  Forall coin_ok fee → coins_sorted fee → Forall (λ c, 0 < c_amount c) fee →
  GetAccount (w_bank w) payer = true → payer ≠ module →
  Forall (λ c, c_amount c ≤ coins_amount (SpendableCoins (w_bank w) payer) (c_denom c)) fee →
  (∀ d, 0 ≤ GetBalance (w_bank w) module d) →
  module_account FeesTypes.ModuleName → module_account "treasury" →
  Forall (λ a, slice_empty a = false → accepts (bytes_of a))
    [rc_retail rc; rc_dev rc; rc_creator rc] →
  ∃ c0 b evs,
    customAnte base ctx tx false w = base c0 tx false (set_bank b (set_events evs w)) ∧
    ctx_GasMeter c0 = ctx_GasMeter ctx ∧ ctx_BlockGasMeter c0 = ctx_BlockGasMeter ctx ∧
    fee_type c0 = paid_type ctx est ∧
    (∀ d, GetSupply b d = GetSupply (w_bank w) d) ∧
    (∀ a d, GetBalance b a d = GetBalance (w_bank w) a d
       - (if String.eqb a payer then coins_amount fee d else 0)
       + (if String.eqb a module then coins_amount fee d else 0)
       + flow (coin_plan c0 p) module a d fee) ∧
    Forall (λ k, c_amount k - 3 ≤ cost (coin_plan c0 p k) ≤ c_amount k) fee.
Proof using L OL BL.
  intros payer module fee rc Ht Hp He Hc Hs Hok Hsort Hpos Hacc Hne Hspend Hnn Hm1 Hm2 Hw.
  unfold customAnte. rewrite (FeeAnteHandle_run _ _ _ _ _ _ Hp Ht), He.
  apply EstimateFee_same in He as [evs ->]. fold fee. rewrite Hc.
  assert (Hgo : ∀ c1 evs1, fee_type c1 = paid_type ctx est →
    ∃ b, DeductFeeHandle base c1 tx false (set_events evs1 w) =
           base c1 tx false (set_bank b (set_events evs1 w)) ∧
      fee_paid p c1 payer fee (w_bank w) b ∧
      Forall (λ k, c_amount k - 3 ≤ cost (coin_plan c1 p k) ≤ c_amount k) fee).
  { intros c1 evs1 Hty. rewrite <-Hty in Hs.
    destruct (deduct_runs c1 p Hs Hm1 Hm2 Hw base tx feeTx (set_events evs1 w))
      as (b & Hb & Hpaid); [done..|]. exists b. split_and!; [done..|].
    eapply Forall_impl; [exact Hok|]. intros k. by apply coin_plan_cost. }
  assert (Hdone : ∃ c1 evs1,
    (if decide (Category est = CategorySystem)
     then DeductFeeHandle base ctx tx false (set_events evs w)
     else proceed (DeductFeeHandle base) ctx tx feeTx est (set_events evs w)) =
    DeductFeeHandle base c1 tx false (set_events evs1 w) ∧
    fee_type c1 = paid_type ctx est ∧
    ctx_GasMeter c1 = ctx_GasMeter ctx ∧ ctx_BlockGasMeter c1 = ctx_BlockGasMeter ctx).
  { unfold paid_type. destruct (decide (Category est = CategorySystem)) as [Hsys|Hsys].
    - by exists ctx, evs.
    - by eexists (ctx_with ctx tx est), _. }
  destruct Hdone as (c1 & evs1 & Hrun & Hty & Hg1 & Hg2).
  destruct (Hgo c1 evs1 Hty) as (b & Hb & [Hbal Hsup] & Hcost).
  exists c1, b, evs1. split; [exact (eq_trans Hrun Hb)|by split_and!].
Qed.
End Admit.

(** ** Witness *)
#[local] Existing Instance Oracle.oracle_keeper.

(** In the reference environment every module has an account and nobody is blocked. *)
#[local] Instance ref_serves : BankServes ref_env :=
  {| module_account := λ _, True; accepts := λ _, True |}.
Lemma ref_send_one f t c b :
  0 < c_amount c → c_amount c ≤ l_get b f (c_denom c) →
  ∃ b', ref_send f t [c] b = (b', Ok tt).
Proof.
  intros Hp Hb. unfold ref_send. simpl. unfold debit, gets, mbind, stM_bind.
  rewrite (proj2 (Z.leb_le 0 _)), (proj2 (Z.leb_le _ _)) by lia. simpl. by eexists.
Qed.
#[local] Instance ref_serves_laws : BankServesLaws ref_env.
Proof.
  constructor.
  - intros f m cs b _ Hsort Hpos Hle.
    assert (Hd : Forall (λ c, c_denom c = "ucsv" ∧ 0 < c_amount c ≤ l_get b f "ucsv") cs).
    { eapply Forall_impl; [apply Forall_and; split; [exact Hpos|exact Hle]|].
      cbv beta. intros c [Hp Hc].
      change (SpendableCoins b f) with [mkCoin "ucsv" (l_get b f "ucsv")] in Hc.
      rewrite coins_amount_one in Hc. cbn [c_denom c_amount] in Hc.
      destruct (String.eqb_spec "ucsv" (c_denom c)) as [He|]; [|lia].
      split; [done|]. lia. }
    destruct Hd as [|c cs [Hc Hcb] Hd]; [by exists b|].
    destruct Hd as [|c' cs [Hc' _] _].
    + apply (ref_send_one f ("module/" +:+ m) c b); [lia|]. rewrite Hc. lia.
    + exfalso. apply StronglySorted_inv in Hsort as [_ Hlt]. inversion_clear Hlt as [|? ? H _].
      by rewrite Hc, Hc' in H.
  - intros m m' c b _ _ Hp Hb. by apply (ref_send_one _ ("module/" +:+ m')).
  - intros m t c b _ _ Hp Hb. by apply (ref_send_one _ t).
Qed.

Lemma no_fees_yet d : 0 ≤ l_get (w_bank paying_world) "module/fees" d.
Proof.
  change (w_bank paying_world) with (mkLedger
    (l_bal (l_put "alice" "ucsv" 10000 (l_put "alice" "ucsv" 1000 (w_bank empty_world))))
    ∅ {[ "alice" := tt ]}).
  change (0 ≤ l_get (l_put "alice" "ucsv" 10000 (l_put "alice" "ucsv" 1000
    (w_bank empty_world))) "module/fees" d).
  by rewrite !l_get_put.
Qed.

(** Alice's transfer of [AntePay.v], with its fee, is let through to the chain; the 2100 ucsv
    are with the treasury. *)
Theorem payer_admitted_witness :
  ∃ w' c, customAnte ret_next ref_ctx (transfer_tx "" 2100 1000) false paying_world = (w', Ok c) ∧
    l_get (w_bank w') "alice" "ucsv" = 7900 ∧ l_get (w_bank w') "module/treasury" "ucsv" = 2100.
Proof.
  set (fee := [mkCoin "ucsv" 2100]).
  assert (H : match EstimateFee ref_ctx (GetMsgs (transfer_tx "" 2100 1000)) "" 1000 paying_world with
    | (w1, Ok est) => is_ok (check_mode shop_params est fee w1).2
    | _ => false end = true) by (vm_compute; reflexivity).
  destruct (EstimateFee _ _ _ _ _) as [w1 [est|e|x]] eqn:He; [|discriminate H..].
  destruct (@payer_admitted _ ref_env_laws _ (@Oracle.oracle_keeper_laws _ ref_env_laws) _ _
    ret_next ref_ctx (transfer_tx "" 2100 1000) (mkFeeTx fee 1000 "alice" None)
    shop_params paying_world w1 est) as (c0 & b & evs & Hr & _ & _ & Hty & _ & Hbal & _).
  - reflexivity.
  - reflexivity.
  - exact He.
  - cbn [GetFee]. by destruct (check_mode shop_params est fee w1) as [? [[]|?|?]].
  - apply transfer_estimate in He. rewrite He.
    do 4 eexists. split; [reflexivity|]. repeat split; discriminate.
  - constructor; [|constructor]. split; [split; [discriminate|reflexivity]|reflexivity].
  - repeat constructor.
  - repeat constructor.
  - reflexivity.
  - discriminate.
  - constructor; [|constructor]. vm_compute. discriminate.
  - exact no_fees_yet.
  - exact I.
  - exact I.
  - repeat constructor.
  - exists (set_bank b (set_events evs paying_world)), c0. split; [exact Hr|].
    apply transfer_estimate in He. rewrite He in Hty.
    pose proof (Hbal "alice" "ucsv") as H1. pose proof (Hbal "module/treasury" "ucsv") as H2.
    unfold coin_plan in H1, H2. rewrite Hty in H1, H2. clear Hbal Hr Hty He H.
    vm_compute in H1, H2. vm_compute. split; assumption.
Defined.
