(* ===== verification/ZeroHeight.v ===== *)
(** * Exporting the state, and the fresh start at height zero

    [src/app/export.go].  Staking, distribution and slashing belong to the SDK: their
    keepers are a class of operations, and a [View] is what their stores hold of the
    records the export rewrites. *)

From Stdlib Require Import Strings.Ascii Strings.String.
From stdpp Require Import strings gmap.
From S2P Require Import Prelude GoLib Sdk.

Local Open Scope Z_scope.

(** ** Records of the SDK

    The fields the export reads or writes; [_rest] stands for all the others. *)
Record UnbondingEntry := mkEntry { CreationHeight : Z; entry_rest : string }.
(** A [Redelegation] or an [UnbondingDelegation], by its delegator and validators. *)
Record Unbonding := mkUnbonding { unbonding_key : string; Entries : list UnbondingEntry }.
Record Validator := mkValidator {
  Operator : string;
  Jailed : bool;
  UnbondingHeight : Z;
  validator_rest : string
}.
Record ValidatorSigningInfo := mkInfo { StartHeight : Z; info_rest : string }.
Record Delegation := mkDelegation { DelegatorAddress : string; ValidatorAddress : string }.

(** The records of the stores: redelegations and unbonding delegations by key,
    validators by address, signing infos by consensus address. *)
Record View := mkView {
  v_reds : gmap string Unbonding;
  v_ubds : gmap string Unbonding;
  v_vals : gmap string Validator;
  v_infos : gmap string ValidatorSigningInfo
}.

(** ** The keepers

    An iterator is given by what it yields when it is opened; a height is that of the
    context the call is made with. *)
Class StakingKeepers := {
  SdkState : Type;
  DecCoins : Type;
  DecCoinsAdd : DecCoins → DecCoins → DecCoins;
  ValidatorAddressBytes : string → string + error;
  ValidatorAddressString : string → string + error;
  AccountAddressBytes : string → string + error;
  IterateValidators : SdkState → list Validator + error;
  GetAllDelegations : SdkState → list Delegation + error;
  WithdrawValidatorCommission : Z → string → stM SdkState unit;
  WithdrawDelegationRewards : Z → string → string → stM SdkState unit;
  DeleteAllValidatorSlashEvents : Z → stM SdkState unit;
  DeleteAllValidatorHistoricalRewards : Z → stM SdkState unit;
  GetValidatorOutstandingRewardsCoins : SdkState → string → DecCoins + error;
  CommunityPool : SdkState → DecCoins + error;
  FeePool_Set : DecCoins → stM SdkState unit;
  AfterValidatorCreated : Z → string → stM SdkState unit;
  BeforeDelegationCreated : Z → string → string → stM SdkState unit;
  AfterDelegationModified : Z → string → string → stM SdkState unit;
  IterateRedelegations : SdkState → list Unbonding + error;
  SetRedelegation : Unbonding → stM SdkState unit;
  IterateUnbondingDelegations : SdkState → list Unbonding + error;
  SetUnbondingDelegation : Unbonding → stM SdkState unit;
  (* the addresses in the keys under [ValidatorsKey], backwards *)
  ValidatorsReverse : SdkState → list string;
  iter_Close : SdkState → option error;
  GetValidator : SdkState → string → Validator + error;
  SetValidator : Validator → stM SdkState unit;
  ApplyAndReturnValidatorSetUpdates : Z → stM SdkState unit;
  IterateValidatorSigningInfos : SdkState → list (string * ValidatorSigningInfo) + error;
  SetValidatorSigningInfo : string → ValidatorSigningInfo → stM SdkState unit
}.

Section Keepers.
Context {K : StakingKeepers}.

(** A pair of a value and an error whose error is a panic. *)
Definition or_panic {A} (r : A + error) : stM SdkState A :=
  match r with inl a => mret a | inr _ => panic "error" end.
Definition must_get {A} (f : SdkState → A + error) : stM SdkState A := gets f ≫= or_panic.

(** ** [prepForZeroHeightGenesis] *)
Definition check_allowed (jailAllowedAddrs : list string) : stM SdkState unit :=
  for_each jailAllowedAddrs (λ addr, or_panic (ValidatorAddressBytes addr);; mret tt).

Definition withdraw_commissions (height : Z) : stM SdkState unit :=
  vals ← must_get IterateValidators;
  for_each vals (λ val,
    valBz ← or_panic (ValidatorAddressBytes (Operator val));
    ignore_err (WithdrawValidatorCommission height valBz)).

Definition withdraw_rewards (height : Z) (dels : list Delegation) : stM SdkState unit :=
  for_each dels (λ delegation,
    valAddr ← or_panic (ValidatorAddressBytes (ValidatorAddress delegation));
    delAddr ← or_panic (AccountAddressBytes (DelegatorAddress delegation));
    ignore_err (WithdrawDelegationRewards height delAddr valAddr)).

(** What is left of a validator's rewards goes to the community pool. *)
Definition reinitialize_validators (height : Z) : stM SdkState unit :=
  vals ← must_get IterateValidators;
  for_each vals (λ val,
    valBz ← or_panic (ValidatorAddressBytes (Operator val));
    rewards ← must_get (λ x, GetValidatorOutstandingRewardsCoins x valBz);
    pool ← must_get CommunityPool;
    must (FeePool_Set (DecCoinsAdd pool rewards)) "fee pool";;
    must (AfterValidatorCreated height valBz) "hook").

Definition reinitialize_delegations (height : Z) (dels : list Delegation) : stM SdkState unit :=
  for_each dels (λ del,
    valAddr ← or_panic (ValidatorAddressBytes (ValidatorAddress del));
    delAddr ← or_panic (AccountAddressBytes (DelegatorAddress del));
    must (BeforeDelegationCreated height delAddr valAddr) "error while incrementing period";;
    must (AfterDelegationModified height delAddr valAddr)
      "error while creating a new delegation period record").

Definition zero_entry (e : UnbondingEntry) : UnbondingEntry := mkEntry 0 (entry_rest e).
Definition zero_unbonding (u : Unbonding) : Unbonding :=
  mkUnbonding (unbonding_key u) (zero_entry <$> Entries u).
Definition reset_redelegations : stM SdkState unit :=
  reds ← must_get IterateRedelegations;
  for_each reds (λ red, must (SetRedelegation (zero_unbonding red)) "redelegation").
Definition reset_unbondings : stM SdkState unit :=
  ubds ← must_get IterateUnbondingDelegations;
  for_each ubds (λ ubd, must (SetUnbondingDelegation (zero_unbonding ubd)) "unbonding").

(** A validator that may stay, and one that may not. *)
Definition fresh_validator (jailAllowedAddrs : list string) (valAddr : string) (v : Validator)
    : Validator :=
  let applyAllowedAddrs := (0 <? List.length jailAllowedAddrs)%nat in
  let jail := applyAllowedAddrs && negb (bool_decide (valAddr ∈ jailAllowedAddrs)) in
  mkValidator (Operator v) (if jail then true else Jailed v) 0 (validator_rest v).
Definition reset_validators (jailAllowedAddrs : list string) : stM SdkState unit :=
  addrs ← gets ValidatorsReverse;
  for_each addrs (λ addr,
    validator ← must_get (λ x, GetValidator x addr);
    valAddr ← or_panic (ValidatorAddressString addr);
    must (SetValidator (fresh_validator jailAllowedAddrs valAddr validator)) "validator").

Definition reset_infos : stM SdkState unit :=
  infos ← must_get IterateValidatorSigningInfos;
  for_each infos (λ '(addr, info),
    ignore_err (SetValidatorSigningInfo addr (mkInfo 0 (info_rest info)))).

Definition prepForZeroHeightGenesis (BlockHeight : Z) (jailAllowedAddrs : list string)
    : stM SdkState unit :=
  check_allowed jailAllowedAddrs;;
  withdraw_commissions BlockHeight;;
  dels ← must_get GetAllDelegations;
  withdraw_rewards BlockHeight dels;;
  DeleteAllValidatorSlashEvents BlockHeight;;
  DeleteAllValidatorHistoricalRewards BlockHeight;;
  reinitialize_validators 0;;
  reinitialize_delegations 0 dels;;
  reset_redelegations;;
  reset_unbondings;;
  reset_validators jailAllowedAddrs;;
  closed ← gets iter_Close;
  match closed with
  | Some _ => mret tt
  | None =>
      must (ApplyAndReturnValidatorSetUpdates BlockHeight) "validator set updates";;
      reset_infos
  end.

(** ** [ExportAppStateAndValidators]

    The module manager, [json.MarshalIndent], the list of validators and the consensus
    parameters are the SDK's.  Values are returned next to the last error. *)
Context {GenState Validators ConsensusParams : Type}.
Context (ExportGenesisForModules : list string → SdkState → GenState + error)
  (MarshalIndent : GenState → string + error)
  (WriteValidators : SdkState → Validators * option error)
  (GetConsensusParams : SdkState → ConsensusParams)
  (LastBlockHeight : SdkState → Z).

Record ExportedApp := mkExportedApp {
  AppState : string;
  ea_Validators : Validators;
  Height : Z;
  ea_ConsensusParams : ConsensusParams
}.
Definition or_throw {A} (r : A + error) : stM SdkState A :=
  match r with inl a => mret a | inr e => throw e end.

Definition ExportAppStateAndValidators (forZeroHeight : bool)
    (jailAllowedAddrs modulesToExport : list string)
    : stM SdkState (ExportedApp * option error) :=
  last ← gets LastBlockHeight;
  height ← (if forZeroHeight then
              prepForZeroHeightGenesis last jailAllowedAddrs;; mret 0
            else mret (i64 (last + 1)));
  genState ← gets (ExportGenesisForModules modulesToExport) ≫= or_throw;
  appState ← or_throw (MarshalIndent genState);
  '(validators, err) ← gets WriteValidators;
  params ← gets GetConsensusParams;
  mret (mkExportedApp appState validators height params, err).
End Keepers.

(** ** What the keepers promise *)
Definition on_reds f (v : View) : View := mkView (f (v_reds v)) (v_ubds v) (v_vals v) (v_infos v).
Definition on_ubds f (v : View) : View := mkView (v_reds v) (f (v_ubds v)) (v_vals v) (v_infos v).
Definition on_vals f (v : View) : View := mkView (v_reds v) (v_ubds v) (f (v_vals v)) (v_infos v).
Definition on_infos f (v : View) : View := mkView (v_reds v) (v_ubds v) (v_vals v) (f (v_infos v)).

Class StakingView `{StakingKeepers} := { view : SdkState → View }.

Class StakingLaws `{StakingView} : Prop := {
  (* x/distribution keeps its own records *)
  withdraw_commission_view h a s : view (WithdrawValidatorCommission h a s).1 = view s;
  withdraw_rewards_view h d a s : view (WithdrawDelegationRewards h d a s).1 = view s;
  slash_events_view h s : view (DeleteAllValidatorSlashEvents h s).1 = view s;
  historical_view h s : view (DeleteAllValidatorHistoricalRewards h s).1 = view s;
  fee_pool_view d s : view (FeePool_Set d s).1 = view s;
  created_view h a s : view (AfterValidatorCreated h a s).1 = view s;
  before_created_view h d a s : view (BeforeDelegationCreated h d a s).1 = view s;
  modified_view h d a s : view (AfterDelegationModified h d a s).1 = view s;
  (* an iterator yields what is stored; a record that is set is stored under its key *)
  reds_iter s l k u : IterateRedelegations s = inl l →
    (v_reds (view s) !! k = Some u ↔ u ∈ l ∧ unbonding_key u = k);
  ubds_iter s l k u : IterateUnbondingDelegations s = inl l →
    (v_ubds (view s) !! k = Some u ↔ u ∈ l ∧ unbonding_key u = k);
  infos_iter s l k i : IterateValidatorSigningInfos s = inl l →
    (v_infos (view s) !! k = Some i ↔ (k, i) ∈ l);
  SetRedelegation_view u s s' r : SetRedelegation u s = (s', Ok r) →
    view s' = on_reds (<[unbonding_key u := u]>) (view s);
  SetUnbonding_view u s s' r : SetUnbondingDelegation u s = (s', Ok r) →
    view s' = on_ubds (<[unbonding_key u := u]>) (view s);
  SetInfo_view a i s : ∃ s', SetValidatorSigningInfo a i s = (s', Ok tt) ∧
    view s' = on_infos (<[a := i]>) (view s);
  (* validators are stored under the address of their operator *)
  validators_reverse s a : a ∈ ValidatorsReverse s ↔ is_Some (v_vals (view s) !! a);
  validators_reverse_nodup s : NoDup (ValidatorsReverse s);
  validators_key s a v : v_vals (view s) !! a = Some v → ValidatorAddressBytes (Operator v) = inl a;
  GetValidator_view s a v : GetValidator s a = inl v → v_vals (view s) !! a = Some v;
  SetValidator_view v a s s' r : SetValidator v s = (s', Ok r) →
    ValidatorAddressBytes (Operator v) = inl a →
    view s' = on_vals (<[a := v]>) (view s);
  close_ok s : iter_Close s = None;
  (* bonding and unbonding validators leaves the unbonding records alone *)
  updates_view h s s' r : ApplyAndReturnValidatorSetUpdates h s = (s', Ok r) →
    v_reds (view s') = v_reds (view s) ∧ v_ubds (view s') = v_ubds (view s)
}.

(** ** A loop that rewrites every record of a map *)
Lemma fold_insert_lookup {T V} (key : T → string) (g : T → V) l (m : gmap string V) k :
  (∃ x, x ∈ l ∧ key x = k ∧ foldl (λ m x, <[key x := g x]> m) m l !! k = Some (g x)) ∨
  (∀ x, x ∈ l → key x ≠ k) ∧ foldl (λ m x, <[key x := g x]> m) m l !! k = m !! k.
Proof.
  revert m. induction l as [|y l IH]; intros m; simpl.
  - right. split; [set_solver|done].
  - destruct (IH (<[key y := g y]> m)) as [(x & Hx & Hk & He)|[Hn He]].
    + left. exists x. split; [set_solver|done].
    + rewrite He. destruct (decide (key y = k)) as [<-|Hne].
      * left. exists y. rewrite lookup_insert_eq. split; [set_solver|done].
      * right. rewrite lookup_insert_ne by done. split; [set_solver|done].
Qed.

Lemma fold_insert_fmap {T V} (key : T → string) (val : T → V) (f : V → V) l (m : gmap string V) :
  (∀ k v, m !! k = Some v ↔ ∃ x, x ∈ l ∧ key x = k ∧ val x = v) →
  foldl (λ m x, <[key x := f (val x)]> m) m l = f <$> m.
Proof.
  intros Hm. apply map_eq. intros k. rewrite lookup_fmap.
  destruct (fold_insert_lookup key (λ x, f (val x)) l m k) as [(x & Hx & Hk & ->)|[Hn ->]].
  - by rewrite (proj2 (Hm k (val x)) ltac:(by exists x)).
  - destruct (m !! k) as [v|] eqn:Hv; [|done]. apply Hm in Hv as (x & Hx & Hk & _).
    by destruct (Hn x).
Qed.

Section Fresh.
Context {K : StakingKeepers} {KV : StakingView} {KL : StakingLaws}.
Implicit Types s : SdkState.

Lemma for_each_cons_inv {T} (x : T) l (body : T → stM SdkState unit) s s' u :
  for_each (x :: l) body s = (s', Ok u) →
  ∃ s1, body x s = (s1, Ok tt) ∧ for_each l body s1 = (s', Ok tt).
Proof. simpl. intros H. apply bind_ok_inv in H as ([] & s1 & H & H'). destruct u. eauto. Qed.

(** A loop whose body writes one record per element. *)
Lemma loop_view {T V} (lens : (gmap string V → gmap string V) → View → View) (key : T → string)
    (g : T → V) body l s s' u :
  (∀ f h v, lens f (lens h v) = lens (f ∘ h) v) → (∀ v, lens id v = v) →
  (∀ x s s' u, body x s = (s', Ok u) → view s' = lens (<[key x := g x]>) (view s)) →
  for_each l body s = (s', Ok u) →
  view s' = lens (λ m, foldl (λ m x, <[key x := g x]> m) m l) (view s).
Proof.
  intros Hc Hi Hb. revert s. induction l as [|x l IH]; intros s H.
  - injection H as -> _. by rewrite <- (Hi (view s')) at 1.
  - apply for_each_cons_inv in H as (s1 & Hx & H). destruct u.
    rewrite (IH s1 H), (Hb _ _ _ _ Hx), Hc. done.
Qed.

Definition keeps_view {A} (m : stM SdkState A) : Prop :=
  ∀ s s' a, m s = (s', Ok a) → view s' = view s.

Lemma keeps_view_bind {A B} (m : stM SdkState A) (k : A → stM SdkState B) :
  keeps_view m → (∀ a, keeps_view (k a)) → keeps_view (m ≫= k).
Proof. intros Hm Hk s s' b H. apply bind_ok_inv in H as (a & s1 & H & H'). 
  rewrite (Hk _ _ _ _ H'). by apply Hm in H. Qed.
Lemma keeps_view_each {T} (l : list T) body :
  (∀ x, keeps_view (body x)) → keeps_view (for_each l body).
Proof.
  intros Hb. induction l as [|x l IH]; [by intros s s' a [= -> _]|].
  simpl. by apply keeps_view_bind.
Qed.
Lemma keeps_view_fst {A} (m : stM SdkState A) :
  (∀ s, view (m s).1 = view s) → keeps_view m.
Proof. intros Hm s s' a H. pose proof (Hm s) as Hv. by rewrite H in Hv. Qed.
Lemma keeps_view_ignore {A} (m : stM SdkState A) :
  (∀ s, view (m s).1 = view s) → keeps_view (ignore_err m).
Proof. intros Hm s s' a H. apply ignore_err_inv in H as <-. apply Hm. Qed.
Lemma keeps_view_must {A} (m : stM SdkState A) t :
  (∀ s, view (m s).1 = view s) → keeps_view (must m t).
Proof. intros Hm s s' a H. apply must_ok_inv in H. pose proof (Hm s) as Hv. by rewrite H in Hv. Qed.
Lemma or_panic_inv {A} (r : A + error) s s' a : or_panic r s = (s', Ok a) → s' = s ∧ r = inl a.
Proof. destruct r; [by intros [= -> ->]|done]. Qed.
Lemma must_get_inv {A} (f : SdkState → A + error) s s' a :
  must_get f s = (s', Ok a) → s' = s ∧ f s = inl a.
Proof. unfold must_get. intros H. apply bind_ok_inv in H as (r & s1 & [= <- <-] & H).
  by apply or_panic_inv in H. Qed.
Lemma keeps_view_or_panic {A} (r : A + error) : keeps_view (or_panic r).
Proof. intros s s' a H. by apply or_panic_inv in H as [-> _]. Qed.
Lemma keeps_view_must_get {A} (f : SdkState → A + error) : keeps_view (must_get f).
Proof. intros s s' a H. by apply must_get_inv in H as [-> _]. Qed.

#[local] Create HintDb view.
#[local] Hint Resolve withdraw_commission_view withdraw_rewards_view slash_events_view
  historical_view fee_pool_view created_view before_created_view modified_view
  keeps_view_fst keeps_view_ignore keeps_view_must keeps_view_or_panic
  keeps_view_must_get : view.
#[local] Ltac keeps_view :=
  repeat first [ solve [eauto 3 with view] | apply keeps_view_each; intros ?
               | apply keeps_view_bind; [|intros ?] ].

Lemma check_allowed_view l : keeps_view (check_allowed l).
Proof. unfold check_allowed. keeps_view. Qed.
Lemma withdraw_commissions_view h : keeps_view (withdraw_commissions h).
Proof. unfold withdraw_commissions. keeps_view. Qed.
Lemma withdraw_all_rewards_view h dels : keeps_view (withdraw_rewards h dels).
Proof. unfold withdraw_rewards. keeps_view. Qed.
Lemma reinitialize_validators_view h : keeps_view (reinitialize_validators h).
Proof. unfold reinitialize_validators. keeps_view. Qed.
Lemma reinitialize_delegations_view h dels : keeps_view (reinitialize_delegations h dels).
Proof. unfold reinitialize_delegations. keeps_view. Qed.

Lemma reset_redelegations_view s s' u :
  reset_redelegations s = (s', Ok u) →
  view s' = on_reds (fmap zero_unbonding) (view s).
Proof.
  intros H. apply bind_ok_inv in H as (l & s1 & Hl & H). apply must_get_inv in Hl as [-> Hl].
  eapply (loop_view on_reds unbonding_key zero_unbonding) in H as ->; [|done|by intros []|].
  - unfold on_reds. f_equal. apply (fold_insert_fmap unbonding_key id). intros k v.
    rewrite (reds_iter s l k v Hl). naive_solver.
  - intros x t t' v Hx. apply must_ok_inv in Hx. by eapply SetRedelegation_view in Hx.
Qed.
Lemma reset_unbondings_view s s' u :
  reset_unbondings s = (s', Ok u) →
  view s' = on_ubds (fmap zero_unbonding) (view s).
Proof.
  intros H. apply bind_ok_inv in H as (l & s1 & Hl & H). apply must_get_inv in Hl as [-> Hl].
  eapply (loop_view on_ubds unbonding_key zero_unbonding) in H as ->; [|done|by intros []|].
  - unfold on_ubds. f_equal. apply (fold_insert_fmap unbonding_key id). intros k v.
    rewrite (ubds_iter s l k v Hl). naive_solver.
  - intros x t t' v Hx. apply must_ok_inv in Hx. by eapply SetUnbonding_view in Hx.
Qed.

Definition zero_info (i : ValidatorSigningInfo) : ValidatorSigningInfo := mkInfo 0 (info_rest i).
Lemma reset_infos_view s s' u :
  reset_infos s = (s', Ok u) → view s' = on_infos (fmap zero_info) (view s).
Proof.
  intros H. apply bind_ok_inv in H as (l & s1 & Hl & H). apply must_get_inv in Hl as [-> Hl].
  eapply (loop_view on_infos fst (λ x, zero_info x.2)) in H as ->; [|done|by intros []|].
  - unfold on_infos. f_equal. apply (fold_insert_fmap fst snd). intros k v.
    rewrite (infos_iter s l k v Hl). split; [intros; by exists (k, v)|by intros ([] & ? & <- & <-)].
  - intros [a i] t t' v Hx. apply ignore_err_inv in Hx as <-.
    destruct (SetInfo_view a (mkInfo 0 (info_rest i)) t) as (t1 & H1 & H2).
    rewrite H1. exact H2.
Qed.

(** The validators of [m] under the addresses of [l] after the loop. *)
Definition freshened (allowed : list string) (l : list string) (m m' : gmap string Validator)
    : Prop :=
  ∀ a, if decide (a ∈ l)
       then ∃ v str, m !! a = Some v ∧ ValidatorAddressString a = inl str ∧
                     m' !! a = Some (fresh_validator allowed str v)
       else m' !! a = m !! a.

Lemma reset_validators_loop allowed l s s' u :
  NoDup l →
  for_each l (λ addr,
    validator ← must_get (λ x, GetValidator x addr);
    valAddr ← or_panic (ValidatorAddressString addr);
    must (SetValidator (fresh_validator allowed valAddr validator)) "validator") s = (s', Ok u) →
  ∃ m', view s' = on_vals (λ _, m') (view s) ∧ freshened allowed l (v_vals (view s)) m'.
Proof.
  intros Hd. revert s. induction Hd as [|a l Ha Hd IH]; intros s H.
  - injection H as -> _. exists (v_vals (view s')). split; [by destruct (view s')|].
    intros b. rewrite decide_False; [done|apply not_elem_of_nil].
  - apply for_each_cons_inv in H as (s1 & Hx & H).
    apply bind_ok_inv in Hx as (v & t1 & Hv & Hx). apply must_get_inv in Hv as [-> Hv].
    apply bind_ok_inv in Hx as (str & t2 & Hstr & Hx). apply or_panic_inv in Hstr as [-> Hstr].
    apply GetValidator_view in Hv. pose proof (validators_key s a v Hv) as Hk.
    apply must_ok_inv in Hx. apply (SetValidator_view _ a) in Hx; [|done].
    destruct u. apply IH in H as (m' & Hview & Hf). exists m'. rewrite Hview, Hx. split; [done|].
    intros b. specialize (Hf b). rewrite Hx in Hf. simpl in Hf.
    destruct (decide (b = a)) as [->|Hne].
    + rewrite decide_False, lookup_insert_eq in Hf by done.
      rewrite decide_True by set_solver. by exists v, str.
    + rewrite lookup_insert_ne in Hf by done.
      destruct (decide (b ∈ l)); [rewrite decide_True by set_solver; exact Hf|].
      by rewrite decide_False by set_solver.
Qed.

Lemma reset_validators_view allowed s s' u :
  reset_validators allowed s = (s', Ok u) →
  ∃ m', view s' = on_vals (λ _, m') (view s) ∧
    ∀ a, match v_vals (view s) !! a with
         | Some v => ∃ str, ValidatorAddressString a = inl str ∧
                            m' !! a = Some (fresh_validator allowed str v)
         | None => m' !! a = None
         end.
Proof.
  intros H. apply bind_ok_inv in H as (l & s1 & [= <- <-] & H).
  apply reset_validators_loop in H as (m' & Hv & Hf); [|apply validators_reverse_nodup].
  exists m'. split; [done|]. intros a. specialize (Hf a).
  destruct (decide (a ∈ ValidatorsReverse s)) as [Hin|Hout].
  - destruct Hf as (v & str & -> & Hs & Hm). by exists str.
  - rewrite validators_reverse, <- eq_None_not_Some in Hout. by rewrite Hf, Hout.
Qed.

(** C17 (functional). When the preparation for height zero returns, then all redelegations and
    unbonding delegations are the ones from before with their creation heights at zero, and
    all signing infos start at zero. The validator set is computed from validators that are
    the ones from before, with their unbonding height at zero and, when a list of allowed
    addresses is given, jailed unless their address is on it; an empty list jails
    nobody. Withdrawing rewards and reinitializing x/distribution loses none of them. *)
Theorem prepForZeroHeightGenesis_spec h allowed s s' :
  prepForZeroHeightGenesis h allowed s = (s', Ok tt) →
  v_reds (view s') = zero_unbonding <$> v_reds (view s) ∧
  v_ubds (view s') = zero_unbonding <$> v_ubds (view s) ∧
  ∃ s1 s2, ApplyAndReturnValidatorSetUpdates h s1 = (s2, Ok tt) ∧
    v_infos (view s1) = v_infos (view s) ∧
    v_infos (view s') = zero_info <$> v_infos (view s2) ∧
    ∀ a, match v_vals (view s) !! a with
         | Some v => ∃ str, ValidatorAddressString a = inl str ∧
             v_vals (view s1) !! a = Some (mkValidator (Operator v)
               (Jailed v || negb (bool_decide (allowed = [])) &&
                negb (bool_decide (str ∈ allowed))) 0 (validator_rest v))
         | None => v_vals (view s1) !! a = None
         end.
Proof.
  unfold prepForZeroHeightGenesis. intros H.
  apply bind_ok_inv in H as (? & a1 & H1%check_allowed_view & H).
  apply bind_ok_inv in H as (? & a2 & H2%withdraw_commissions_view & H).
  apply bind_ok_inv in H as (dels & a3 & [-> _]%must_get_inv & H).
  apply bind_ok_inv in H as (? & a4 & H4%withdraw_all_rewards_view & H).
  apply bind_ok_inv in H as (? & a5 & H5 & H).
  apply (keeps_view_fst _ (slash_events_view h)) in H5.
  apply bind_ok_inv in H as (? & a6 & H6 & H).
  apply (keeps_view_fst _ (historical_view h)) in H6.
  apply bind_ok_inv in H as (? & a7 & H7%reinitialize_validators_view & H).
  apply bind_ok_inv in H as (? & a8 & H8%reinitialize_delegations_view & H).
  assert (Hs : view a8 = view s) by congruence. clear -H Hs KL.
  apply bind_ok_inv in H as (? & b1 & H1%reset_redelegations_view & H).
  apply bind_ok_inv in H as (? & b2 & H2%reset_unbondings_view & H).
  apply bind_ok_inv in H as (? & b3 & (m' & H3 & Hm)%reset_validators_view & H).
  apply bind_ok_inv in H as (? & ? & [= <- <-] & H). rewrite close_ok in H.
  apply bind_ok_inv in H as ([] & b4 & H4%must_ok_inv & H%reset_infos_view).
  rewrite H2, H1, Hs in H3. rewrite H2, H1, Hs in Hm. cbn in Hm.
  pose proof (updates_view _ _ _ _ H4) as [R1 R2].
  rewrite H. cbn. rewrite R1, R2, H3. cbn. split_and!; [done..|].
  exists b3, b4. split_and!; [done|by rewrite H3|done|]. intros a.
  specialize (Hm a). rewrite H3. cbn. destruct (v_vals (view s) !! a) as [v|]; [|done].
  destruct Hm as (str & Hstr & ->). exists str. split; [done|].
  unfold fresh_validator. do 2 f_equal. destruct allowed as [|c l]; cbn.
  - by rewrite orb_false_r.
  - by destruct (Jailed v), (bool_decide (str ∈ c :: l)).
Qed.
End Fresh.

(** ** Witness

    Keepers with no rewards, on the stores alone; an account's text is ["s"] and its bytes. *)
Definition ref_bytes (s : string) : string + error :=
  match s with String "s" b => inl b | _ => inr (ErrExt "address") end.
#[local] Instance sum_error_eq_dec : EqDecision (string + error).
Proof. solve_decision. Defined.
(** The records stored under their own key. *)
Definition norm (v : View) : View :=
  mkView (filter (λ x, unbonding_key x.2 = x.1) (v_reds v))
    (filter (λ x, unbonding_key x.2 = x.1) (v_ubds v))
    (filter (λ x, ref_bytes (Operator x.2) = inl x.1) (v_vals v)) (v_infos v).
Definition ref_keepers : StakingKeepers := {|
  SdkState := View;
  DecCoins := unit;
  DecCoinsAdd _ _ := tt;
  ValidatorAddressBytes := ref_bytes;
  ValidatorAddressString b := inl (String "s" b);
  AccountAddressBytes := ref_bytes;
  IterateValidators v := inl (snd <$> map_to_list (v_vals (norm v)));
  GetAllDelegations _ := inl [];
  WithdrawValidatorCommission _ _ := throw (ErrExt "no commission");
  WithdrawDelegationRewards _ _ _ := mret tt;
  DeleteAllValidatorSlashEvents _ := mret tt;
  DeleteAllValidatorHistoricalRewards _ := mret tt;
  GetValidatorOutstandingRewardsCoins _ _ := inl tt;
  CommunityPool _ := inl tt;
  FeePool_Set _ := mret tt;
  AfterValidatorCreated _ _ := mret tt;
  BeforeDelegationCreated _ _ _ := mret tt;
  AfterDelegationModified _ _ _ := mret tt;
  IterateRedelegations v := inl (snd <$> map_to_list (v_reds (norm v)));
  SetRedelegation u := modify (on_reds <[unbonding_key u := u]>);
  IterateUnbondingDelegations v := inl (snd <$> map_to_list (v_ubds (norm v)));
  SetUnbondingDelegation u := modify (on_ubds <[unbonding_key u := u]>);
  ValidatorsReverse v := reverse (fst <$> map_to_list (v_vals (norm v)));
  iter_Close _ := None;
  GetValidator v a := match v_vals (norm v) !! a with
                      | Some x => inl x | None => inr (ErrExt "not found") end;
  SetValidator x := match ref_bytes (Operator x) with
                    | inl a => modify (on_vals <[a := x]>) | inr e => throw e end;
  ApplyAndReturnValidatorSetUpdates _ := mret tt;
  IterateValidatorSigningInfos v := inl (map_to_list (v_infos v));
  SetValidatorSigningInfo a i := modify (on_infos <[a := i]>)
|}.

Lemma keyed_iter (m : gmap string Unbonding) k u :
  let m' := filter (λ x, unbonding_key x.2 = x.1) m in
  m' !! k = Some u ↔ u ∈ snd <$> map_to_list m' ∧ unbonding_key u = k.
Proof.
  cbn. rewrite list_elem_of_fmap. split.
  - intros H. apply map_lookup_filter_Some in H as H'. split; [|apply H'].
    exists (k, u). by rewrite elem_of_map_to_list.
  - intros [([k' u'] & -> & H) Hk]. apply elem_of_map_to_list in H.
    apply map_lookup_filter_Some in H as H'. cbn in *. destruct H' as [_ <-]. by subst.
Qed.

#[local] Instance ref_view : StakingView (H := ref_keepers) :=
  {| view := norm : @SdkState ref_keepers → View |}.
Lemma ref_staking_laws : StakingLaws (H0 := ref_view).
Proof.
  constructor; cbn [view ref_view]; try done.
  - intros s l k u [= <-]. apply keyed_iter.
  - intros s l k u [= <-]. apply keyed_iter.
  - intros s l k i [= <-]. symmetry. apply elem_of_map_to_list.
  - intros u s s' r [= <- _]. unfold norm, on_reds. cbn. f_equal.
    by rewrite map_filter_insert_True.
  - intros u s s' r [= <- _]. unfold norm, on_ubds. cbn. f_equal.
    by rewrite map_filter_insert_True.
  - intros a i s. by eexists.
  - intros s a. cbn. rewrite elem_of_reverse, list_elem_of_fmap. split.
    + intros ([b v] & -> & H%elem_of_map_to_list). by exists v.
    + intros [v H]. exists (a, v). by rewrite elem_of_map_to_list.
  - intros s. cbn. rewrite reverse_Permutation. apply NoDup_fst_map_to_list.
  - intros s a v H. by apply map_lookup_filter_Some in H as [_ H].
  - intros s a v. cbn. by destruct (filter _ (v_vals s) !! a); intros [= ->].
  - intros v a s s' r Hs Ha. cbn in *. rewrite Ha in Hs. injection Hs as <- _.
    unfold norm, on_vals. cbn. f_equal. by rewrite map_filter_insert_True.
  - by intros h s s' r [= <- _].
Qed.

(** Two validators of which only the first may stay, a redelegation and a signing info. *)
Definition old_view : View :=
  mkView {["r" := mkUnbonding "r" [mkEntry 17 "entry"]]} ∅
    {["alice" := mkValidator "salice" false 9 ""; "bob" := mkValidator "sbob" false 0 ""]}
    {["c" := mkInfo 12 "info"]}.

Theorem prepForZeroHeightGenesis_spec_witness :
  ∃ s', prepForZeroHeightGenesis (K := ref_keepers) 100 ["salice"] old_view = (s', Ok tt) ∧
    v_reds (norm s') = {["r" := mkUnbonding "r" [mkEntry 0 "entry"]]} ∧
    ∃ s1, v_vals (norm s1) !! "alice" = Some (mkValidator "salice" false 0 "") ∧
          v_vals (norm s1) !! "bob" = Some (mkValidator "sbob" true 0 "").
Proof.
  assert (Hr : (prepForZeroHeightGenesis (K := ref_keepers) 100 ["salice"] old_view).2 = Ok tt)
    by (vm_compute; reflexivity).
  apply run_pair in Hr. eexists. split; [exact Hr|].
  destruct (@prepForZeroHeightGenesis_spec ref_keepers ref_view ref_staking_laws 100 ["salice"] old_view _ Hr)
    as (H1 & _ & s1 & s2 & _ & _ & _ & Hv).
  split.
  { transitivity (zero_unbonding <$> v_reds (norm old_view)); [exact H1|].
    vm_compute. reflexivity. }
  exists s1. split.
  - specialize (Hv "alice").
    change (v_vals (@view _ ref_view old_view)) with (v_vals (norm old_view)) in Hv.
    assert (Ha : v_vals (norm old_view) !! "alice" = Some (mkValidator "salice" false 9 ""))
      by (vm_compute; reflexivity).
    rewrite Ha in Hv. destruct Hv as (str & [= <-] & Hv). exact Hv.
  - specialize (Hv "bob").
    change (v_vals (@view _ ref_view old_view)) with (v_vals (norm old_view)) in Hv.
    assert (Ha : v_vals (norm old_view) !! "bob" = Some (mkValidator "sbob" false 0 ""))
      by (vm_compute; reflexivity).
    rewrite Ha in Hv. destruct Hv as (str & [= <-] & Hv). exact Hv.
Defined.
