(* ===== verification/Paths.v ===== *)
(** * File names and files

    What the commands that write test networks use of [path/filepath] and [os], on Unix:
    names are cleaned and compared lexically, and a disk is a set of directories and a
    map of files by the components of their absolute names.  No symbolic links. *)

From Stdlib Require Import Strings.Ascii Strings.String.
From stdpp Require Import strings gmap.
From S2P Require Import Prelude GoLib Json.

Local Open Scope Z_scope.

Definition slash : ascii := "/"%char.

(** ** [path/filepath] *)

(** The elements of a name that count. *)
Definition idle (c : string) : bool := String.eqb c "" || String.eqb c ".".
Definition comps (s : string) : list string :=
  List.filter (λ c, negb (idle c)) (Split s slash).
Definition IsAbs (s : string) : bool := HasPrefix s "/".

(** One more element after those of [st], the last first. *)
Definition push (rooted : bool) (st : list string) (c : string) : list string :=
  if String.eqb c ".." then
    match st with
    | [] => if rooted then [] else [".."]
    | x :: st' => if String.eqb x ".." then ".." :: st else st'
    end
  else c :: st.
Definition reduce (rooted : bool) (cs : list string) : list string :=
  rev (foldl (push rooted) [] cs).

Definition show_path (rooted : bool) (cs : list string) : string :=
  if rooted then "/" +:+ join "/" cs
  else match cs with [] => "." | _ => join "/" cs end.

Definition Clean (s : string) : string :=
  show_path (IsAbs s) (reduce (IsAbs s) (comps s)).

(** Leading empty elements are ignored. *)
Fixpoint JoinPath (elem : list string) : string :=
  match elem with
  | [] => ""
  | e :: elem' => if String.eqb e "" then JoinPath elem' else Clean (join "/" elem)
  end.

Definition Base (s : string) : string :=
  if String.eqb s "" then "."
  else match rev (List.filter (λ c, negb (String.eqb c "")) (Split s slash)) with
       | [] => "/"
       | c :: _ => c
       end.

(** The elements of two cleaned names after those they share. *)
Fixpoint apart (b t : list string) : list string * list string :=
  match b, t with
  | x :: b', y :: t' => if String.eqb x y then apart b' t' else (b, t)
  | _, _ => (b, t)
  end.
Definition Rel (basepath targpath : string) : string + error :=
  let bs := Clean basepath in
  let ts := Clean targpath in
  if String.eqb ts bs then inl "."
  else if negb (Bool.eqb (IsAbs bs) (IsAbs ts)) then inr (ErrText "Rel: can't make relative")
  else
    let t := if String.eqb ts "." then ["."] else comps ts in
    match apart (comps bs) t with
    | (".." :: _, _) => inr (ErrText "Rel: can't make relative")
    | (b', t') => inl (join "/" (map (λ _, "..") b' ++ t'))
    end.

(** ** [os]

    Where the process runs, and the calls the system refuses for reasons of its own
    (permissions, space). *)
Class Os := {
  cwd : list string;
  Getwd_err : option error;
  os_err : string → list string → option error
}.

Definition Path : Type := list string.
Record Disk := mkDisk { d_dirs : gset Path; d_files : gmap Path string }.
Definition set_dirs (d : gset Path) (k : Disk) : Disk := mkDisk d (d_files k).
Definition set_files (f : gmap Path string) (k : Disk) : Disk := mkDisk (d_dirs k) f.

Section Files.
Context {OS : Os}.

Definition Abs (s : string) : string + error :=
  if IsAbs s then inl (Clean s)
  else match Getwd_err with
       | Some e => inr e
       | None => inl (JoinPath ["/" +:+ join "/" cwd; s])
       end.

(** The file or directory a name stands for. *)
Definition resolve (s : string) : Path :=
  reduce true (if IsAbs s then comps s else cwd ++ comps s).

Definition refuse (op : string) (p : Path) : stM Disk unit :=
  match os_err op p with Some e => throw e | None => mret tt end.
Definition parent (p : Path) : Path := removelast p.
Definition is_dir (p : Path) (k : Disk) : bool := bool_decide (p = [] ∨ p ∈ d_dirs k).
Definition enoent : error := ErrSdk "ENOENT".

(** The directories on the way to [p], outermost first. *)
Definition prefixes (p : Path) : list Path := map (λ n, take n p) (seq 1 (length p)).
Definition mkdir (p : Path) : stM Disk unit :=
  k ← gets id;
  if is_dir p k then mret tt
  else match d_files k !! p with
       | Some _ => throw (ErrSdk "ENOTDIR")
       | None => refuse "mkdir" p;; modify (λ k, set_dirs ({[p]} ∪ d_dirs k) k)
       end.
Definition MkdirAll (s : string) : stM Disk unit :=
  if String.eqb s "" then throw enoent
  else for_each (prefixes (resolve s)) mkdir.

(** A file is created or truncated, in a directory that exists. *)
Definition os_Create (s : string) : stM Disk unit :=
  let p := resolve s in
  k ← gets id;
  if String.eqb s "" || negb (is_dir (parent p) k) then throw enoent
  else if is_dir p k then throw (ErrSdk "EISDIR")
  else refuse "create" p;; modify (λ k, set_files (<[p := ""]> (d_files k)) k).
Definition os_WriteFile (s contents : string) : stM Disk unit :=
  os_Create s;;
  refuse "write" (resolve s);;
  modify (λ k, set_files (<[resolve s := contents]> (d_files k)) k).
Definition os_Open (s : string) : stM Disk unit :=
  k ← gets id;
  match d_files k !! resolve s with
  | Some _ => refuse "open" (resolve s)
  | None => throw enoent
  end.
(** What is read from a file that is open. *)
Definition os_Read (s : string) : stM Disk string :=
  refuse "read" (resolve s);;
  k ← gets id;
  mret (default "" (d_files k !! resolve s)).

(** [p] is [d] or below it. *)
Fixpoint below (d p : Path) : bool :=
  match d, p with
  | [], _ => true
  | x :: d', y :: p' => String.eqb x y && below d' p'
  | _ :: _, [] => false
  end.
Definition RemoveAll (s : string) : stM Disk unit :=
  if String.eqb s "" then mret tt
  else if String.eqb s "." || HasSuffix s "/." then throw (ErrSdk "EINVAL")
  else
    let p := resolve s in
    refuse "remove" p;;
    modify (λ k, mkDisk (filter (λ q, below p q = false) (d_dirs k))
                        (filter (λ '(q, _), below p q = false) (d_files k))).
End Files.

(** ** Cleaned names *)

(** An element that counts, and one that is kept as it is. *)
Definition word (c : string) : bool := no_char slash c && negb (idle c).
Definition plain (c : string) : bool := word c && negb (String.eqb c "..").

Lemma plain_word c : plain c = true → word c = true.
Proof. unfold plain. by intros [H _]%andb_true_iff. Qed.
Lemma plain_not_up c : plain c = true → String.eqb c ".." = false.
Proof. unfold plain. by intros [_ H%negb_true_iff]%andb_true_iff. Qed.
Lemma word_char c : word c = true → ∃ a s, c = String a s ∧ Ascii.eqb a slash = false.
Proof.
  unfold word. intros [Hn Hi]%andb_true_iff. destruct c as [|a s]; [done|].
  simpl in Hn. apply andb_true_iff in Hn as [Ha%negb_true_iff _]. by exists a, s.
Qed.
Lemma word_not_idle c : word c = true → idle c = false.
Proof. unfold word. by intros [_ H%negb_true_iff]%andb_true_iff. Qed.
Lemma plains_words cs : Forall (λ c, plain c = true) cs → Forall (λ c, word c = true) cs.
Proof. intros H. eapply Forall_impl; [exact H|apply plain_word]. Qed.
#[local] Hint Resolve plains_words : core.

Lemma Split_cons_app a b c : Split (a +:+ String c b) c = Split a c ++ Split b c.
Proof.
  induction a as [|x a IH].
  - change (EmptyString +:+ String c b) with (String c b). simpl. by rewrite Ascii.eqb_refl.
  - rewrite str_app_cons. simpl. rewrite IH. destruct (Ascii.eqb x c); [done|].
    destruct (Split a c) eqn:Ha; [|done]. destruct a as [|y a]; [done|]. simpl in Ha.
    destruct (Ascii.eqb y c); [done|]. by destruct (Split a c).
Qed.
Lemma Split_parts s c w : w ∈ Split s c → no_char c w = true.
Proof.
  revert w. induction s as [|x s IH]; simpl; intros w Hw.
  - by apply list_elem_of_singleton in Hw as ->.
  - destruct (Ascii.eqb x c) eqn:Hx.
    + apply elem_of_cons in Hw as [->|Hw]; [done|by apply IH].
    + destruct (Split s c) as [|v vs] eqn:Hs.
      * apply list_elem_of_singleton in Hw as ->. simpl. by rewrite Hx.
      * apply elem_of_cons in Hw as [->|Hw]; [|apply IH; by right].
        simpl. rewrite Hx. apply IH. by left.
Qed.

Lemma comps_app a b : comps (a +:+ String slash b) = comps a ++ comps b.
Proof. unfold comps. by rewrite Split_cons_app, List.filter_app. Qed.
Lemma comps_words s : Forall (λ c, word c = true) (comps s).
Proof.
  apply Forall_forall. intros c Hc. unfold comps in Hc.
  apply list_elem_of_In, filter_In in Hc as [Hc Hi]. unfold word.
  by rewrite (Split_parts s slash c) by (by apply list_elem_of_In).
Qed.
Lemma comps_word c : word c = true → comps c = [c].
Proof.
  unfold word, comps. intros [Hn Hi]%andb_true_iff. rewrite Split_no_char by done. simpl.
  by rewrite Hi.
Qed.
Lemma comps_join cs : Forall (λ c, word c = true) cs → comps (join "/" cs) = cs.
Proof.
  induction 1 as [|c cs Hc Hcs IH]; [done|]. destruct cs as [|d cs].
  - by apply comps_word.
  - change (join "/" (c :: d :: cs)) with (c +:+ String slash (join "/" (d :: cs))).
    by rewrite comps_app, IH, comps_word.
Qed.
Lemma IsAbs_cons a s : IsAbs (String a s) = Ascii.eqb slash a.
Proof. unfold IsAbs. cbn -[Ascii.eqb]. destruct s; apply andb_true_r. Qed.
Lemma IsAbs_join c cs : word c = true → IsAbs (join "/" (c :: cs)) = false.
Proof.
  intros (a & s & -> & Ha)%word_char. rewrite Ascii.eqb_sym in Ha.
  assert (∃ t, join "/" (String a s :: cs) = String a t) as [t ->] by (destruct cs; by eexists).
  by rewrite IsAbs_cons.
Qed.

Lemma comps_show r cs : Forall (λ c, word c = true) cs → comps (show_path r cs) = cs.
Proof.
  intros H. destruct r; simpl.
  - change ("/" +:+ join "/" cs) with (EmptyString +:+ String slash (join "/" cs)).
    rewrite comps_app. by rewrite comps_join.
  - destruct cs as [|c cs]; [done|]. by apply comps_join.
Qed.
Lemma IsAbs_show r cs : Forall (λ c, word c = true) cs → IsAbs (show_path r cs) = r.
Proof.
  intros H. destruct r; [apply IsAbs_cons|]. destruct H as [|c cs Hc _]; [done|].
  by apply IsAbs_join.
Qed.

Lemma push_words r st c :
  Forall (λ c, word c = true) st → word c = true → Forall (λ c, word c = true) (push r st c).
Proof.
  intros Hst Hc. unfold push. destruct (String.eqb_spec c ".."); [|by constructor].
  subst c. destruct Hst as [|x st Hx Hst]; [destruct r; by repeat constructor|].
  destruct (String.eqb_spec x ".."); [|done]. by repeat constructor.
Qed.
Lemma reduce_words r cs :
  Forall (λ c, word c = true) cs → Forall (λ c, word c = true) (reduce r cs).
Proof.
  intros H. unfold reduce. apply Forall_rev.
  assert (Hn : Forall (λ c, word c = true) []) by constructor. revert Hn.
  generalize (@nil string). induction H as [|c cs Hc Hcs IH]; intros st Hst; [done|].
  apply IH. by apply push_words.
Qed.
(** Nothing leads out of the root. *)
Lemma reduce_plain cs :
  Forall (λ c, word c = true) cs → Forall (λ c, plain c = true) (reduce true cs).
Proof.
  intros H. unfold reduce. apply Forall_rev.
  assert (Hn : Forall (λ c, plain c = true) []) by constructor. revert Hn.
  generalize (@nil string). induction H as [|c cs Hc Hcs IH]; intros st Hst; [done|].
  apply IH. unfold push. destruct (String.eqb c "..") eqn:He.
  - destruct Hst as [|x st Hx Hst]; [constructor|]. by rewrite (plain_not_up x Hx).
  - constructor; [|done]. unfold plain. by rewrite Hc, He.
Qed.

Lemma push_down r st c : String.eqb c ".." = false → push r st c = c :: st.
Proof. intros H. unfold push. by rewrite H. Qed.
Lemma push_up r st c : String.eqb c ".." = false → push r (c :: st) ".." = st.
Proof. intros H. unfold push. by rewrite String.eqb_refl, H. Qed.
Lemma push_reduce r r' st cs :
  (r' = true → r = true ∧ st = []) →
  foldl (push r) st (reduce r' cs) = foldl (push r) st cs.
Proof.
  intros Hr. unfold reduce. induction cs as [|c cs IH] using rev_ind; [done|].
  rewrite !foldl_app, <- IH. cbn [foldl]. set (X := foldl (push r') [] cs).
  destruct (String.eqb c "..") eqn:Hc.
  - apply String.eqb_eq in Hc as ->. destruct X as [|x X].
    + destruct r'; [|done]. by destruct (Hr eq_refl) as [-> ->].
    + destruct (String.eqb x "..") eqn:Hx.
      * apply String.eqb_eq in Hx as ->. cbn [push rev String.eqb Ascii.eqb Bool.eqb].
        by rewrite !foldl_app.
      * rewrite push_up by done. cbn [rev]. rewrite foldl_app. cbn [foldl].
        by rewrite (push_down r _ x), push_up.
  - rewrite push_down by done. cbn [rev]. by rewrite foldl_app.
Qed.
Lemma reduce_idem cs : reduce true (reduce true cs) = reduce true cs.
Proof. apply (f_equal (@rev string)), push_reduce. done. Qed.
Lemma reduce_rest r xs cs : reduce r (xs ++ reduce false cs) = reduce r (xs ++ cs).
Proof. apply (f_equal (@rev string)). rewrite !foldl_app. by apply push_reduce. Qed.
Lemma reduce_app_plain r xs cs :
  Forall (λ c, plain c = true) cs → reduce r (xs ++ cs) = reduce r xs ++ cs.
Proof.
  intros H. revert xs. induction H as [|c cs Hc Hcs IH]; intros xs; [by rewrite !app_nil_r|].
  rewrite cons_middle, app_assoc, IH. unfold reduce. rewrite foldl_app. simpl. unfold push at 1.
  rewrite (plain_not_up c Hc). simpl. by rewrite <- app_assoc.
Qed.

Section Names.
Context {OS : Os}.

Lemma resolve_words s : Forall (λ c, plain c = true) cwd → Forall (λ c, plain c = true) (resolve s).
Proof.
  intros Hc. apply reduce_plain. destruct (IsAbs s); [apply comps_words|].
  apply Forall_app. split; [by auto|apply comps_words].
Qed.
Lemma resolve_Clean s : resolve (Clean s) = resolve s.
Proof.
  pose proof (reduce_words (IsAbs s) (comps s) (comps_words s)) as Hw.
  unfold resolve, Clean. rewrite IsAbs_show, comps_show by done.
  destruct (IsAbs s); [apply reduce_idem|apply reduce_rest].
Qed.

(** Elements joined to a name lead below it. *)
Lemma resolve_Join out cs :
  cs ≠ [] → Forall (λ c, plain c = true) cs →
  resolve (JoinPath (out :: cs)) = resolve out ++ cs.
Proof.
  intros Hne Hcs. assert (Hw : Forall (λ c, word c = true) cs) by auto.
  destruct cs as [|c cs]; [done|]. cbn [JoinPath]. destruct (String.eqb out "") eqn:Ho.
  - apply String.eqb_eq in Ho as ->. pose proof (Forall_inv Hw) as Hc.
    destruct (word_char c Hc) as (a & s & -> & _). cbn [JoinPath String.eqb].
    rewrite resolve_Clean. unfold resolve.
    rewrite IsAbs_join, comps_join by done. by rewrite <- reduce_app_plain, app_nil_r.
  - rewrite resolve_Clean.
    change (join "/" (out :: c :: cs)) with (out +:+ String slash (join "/" (c :: cs))).
    unfold resolve. rewrite comps_app, comps_join by done.
    assert (IsAbs (out +:+ String slash (join "/" (c :: cs))) = IsAbs out) as ->.
    { destruct out as [|a out]; [done|]. by rewrite str_app_cons, !IsAbs_cons. }
    destruct (IsAbs out); [|rewrite app_assoc]; by apply reduce_app_plain.
Qed.

Lemma Abs_resolve s a :
  Forall (λ c, plain c = true) cwd → Abs s = inl a → a = show_path true (resolve s).
Proof.
  intros Hc. unfold Abs, resolve. destruct (IsAbs s) eqn:Hs.
  - intros [= <-]. unfold Clean. by rewrite Hs.
  - destruct Getwd_err; [done|]. intros H.
    assert (Hw : Forall (λ c, word c = true) cwd) by auto.
    assert (a = Clean (("/" +:+ join "/" cwd) +:+ String slash s)) as -> by (by injection H).
    unfold Clean. rewrite comps_app, (comps_show true cwd Hw : comps ("/" +:+ join "/" cwd) = cwd).
    assert (IsAbs (("/" +:+ join "/" cwd) +:+ String slash s) = true) as -> by apply IsAbs_cons.
    done.
Qed.
End Names.

(** ** Relative names *)
Lemma show_inj b t :
  Forall (λ c, word c = true) b → Forall (λ c, word c = true) t →
  show_path true b = show_path true t → b = t.
Proof. intros Hb Ht H. by rewrite <- (comps_show true b), <- (comps_show true t), H. Qed.
Lemma Clean_shown b : Forall (λ c, plain c = true) b → Clean (show_path true b) = show_path true b.
Proof.
  intros H. unfold Clean. rewrite IsAbs_show, comps_show by auto.
  by rewrite (reduce_app_plain true [] b H : reduce true b = b).
Qed.

Lemma below_app b t : below b t = true ↔ ∃ r, t = b ++ r.
Proof.
  revert t. induction b as [|x b IH]; intros t; cbn [below app]; [by split; [eexists|]|].
  destruct t as [|y t]; [by split; [|intros [? ?]]|]. rewrite andb_true_iff, IH, String.eqb_eq.
  split; [intros [-> [r ->]]; by exists r|]. intros [r [= -> ->]]. eauto.
Qed.
Lemma apart_spec b t :
  ∃ c, b = c ++ (apart b t).1 ∧ t = c ++ (apart b t).2 ∧
       ((apart b t).1 = [] ↔ below b t = true).
Proof.
  revert t. induction b as [|x b IH]; intros t; cbn [apart below]; [by exists []|].
  destruct t as [|y t]; [by exists []|]. destruct (String.eqb_spec x y) as [->|Hn].
  - destruct (IH t) as (c & Hb & Ht & Hc). exists (y :: c). cbn [app]. by rewrite <- Hb, <- Ht.
  - by exists [].
Qed.

Lemma HasPrefix_nil s : HasPrefix s "" = true.
Proof. by destruct s. Qed.
Lemma HasPrefix_up_join x cs :
  word x = true → HasPrefix x ".." = false → HasPrefix (join "/" (x :: cs)) ".." = false.
Proof.
  intros (a & s & -> & _)%word_char Hx. destruct cs as [|c cs]; [done|].
  change (join "/" (String a s :: c :: cs)) with (String a s +:+ String slash (join "/" (c :: cs))).
  rewrite str_app_cons. destruct s as [|d s].
  - cbn -[Ascii.eqb]. by destruct (Ascii.eqb "." a).
  - rewrite str_app_cons. cbn -[Ascii.eqb] in *. by rewrite HasPrefix_nil in Hx |- *.
Qed.

(** A relative name goes up exactly if it does not lead below. *)
Lemma Rel_shown b t :
  Forall (λ c, plain c = true) b → Forall (λ c, plain c = true) t →
  ∃ r, Rel (show_path true b) (show_path true t) = inl r ∧
       (below b t = false → HasPrefix r ".." = true) ∧
       (∀ c cs, t = b ++ c :: cs → HasPrefix c ".." = false →
                HasPrefix r ".." = false ∧ IsAbs r = false).
Proof.
  intros Hb Ht. unfold Rel. rewrite !Clean_shown by done.
  destruct (String.eqb_spec (show_path true t) (show_path true b)) as [He|Hne].
  { apply show_inj in He as ->; [|auto..]. eexists. split; [done|].
    split; [|done]. assert (below b b = true) as -> by (apply below_app; exists []; by rewrite app_nil_r).
    done. }
  rewrite !IsAbs_show by auto. cbn [Bool.eqb negb].
  assert (String.eqb (show_path true t) "." = false) as -> by reflexivity.
  rewrite !comps_show by auto. destruct (apart_spec b t) as (c & Hc & Hd & Hn).
  destruct (apart b t) as [b' t']. cbn [fst snd] in *. destruct b' as [|x b'].
  - eexists. split; [done|]. split; [by rewrite (proj1 Hn)|]. intros d ds He Hd'.
    rewrite app_nil_r in Hc. subst c t. apply app_inv_head in He as ->. cbn [map app].
    apply Forall_app in Ht as [_ Ht]. apply plains_words, Forall_inv in Ht.
    split; [by apply HasPrefix_up_join|by apply IsAbs_join].
  - assert (Hx : plain x = true) by (rewrite Hc in Hb; apply Forall_app in Hb as [_ Hb];
      by inversion Hb).
    assert (∃ r, inl (join "/" (map (λ _, "..") (x :: b') ++ t')) = (inl r : string + error) ∧
                 HasPrefix r ".." = true) as (r & Hr & Hp).
    { eexists. split; [done|]. cbn [map app]. by destruct (map _ b' ++ t'). }
    exists r. split; [|split; [done|]].
    + rewrite <- Hr. apply plain_not_up in Hx. 
      repeat (case_match; try done; subst); by rewrite ?String.eqb_refl in Hx.
    + intros d ds -> _. assert (x :: b' = []) by (apply Hn, below_app; by exists (d :: ds)). done.
Qed.

(** ** What the calls change *)

(** The files outside [P] are as they were. *)
Definition only (P : Path → Prop) (k k' : Disk) : Prop :=
  ∀ p, ¬ P p → d_files k' !! p = d_files k !! p.
#[export] Instance only_preorder P : PreOrder (only P).
Proof.
  split; [by intros k p|]. intros k1 k2 k3 H1 H2 p Hp. by rewrite (H2 p Hp), (H1 p Hp).
Qed.
Lemma only_weaken (P Q : Path → Prop) k k' : (∀ p, P p → Q p) → only P k k' → only Q k k'.
Proof. intros HPQ H p Hp. apply H. by intros ?%HPQ. Qed.

Section Changes.
Context {OS : Os}.

Lemma refuse_only op p P : respects (only P) (refuse op p).
Proof. unfold refuse. respects. Qed.
#[local] Hint Resolve refuse_only : frame.

Lemma MkdirAll_only s P : respects (only P) (MkdirAll s).
Proof.
  assert (H : ∀ d, respects (only P) (modify (λ k, set_dirs ({[d]} ∪ d_dirs k) k))).
  { intros d. by apply respects_modify. }
  unfold MkdirAll, mkdir. respects; apply H.
Qed.
Lemma os_Create_only s (P : Path → Prop) : P (resolve s) → respects (only P) (os_Create s).
Proof.
  intros Hs. unfold os_Create. respects. apply respects_modify. intros k p Hp. simpl.
  apply lookup_insert_ne. by intros <-.
Qed.
Lemma os_WriteFile_only s c (P : Path → Prop) :
  P (resolve s) → respects (only P) (os_WriteFile s c).
Proof.
  intros Hs. unfold os_WriteFile. apply respects_bind; [apply _|by apply os_Create_only|].
  intros _. respects. apply respects_modify. intros k p Hp. simpl.
  apply lookup_insert_ne. by intros <-.
Qed.
Lemma os_WriteFile_ok s c k k' u :
  os_WriteFile s c k = (k', Ok u) → d_files k' !! resolve s = Some c.
Proof. unfold os_WriteFile. intros H. step_inv. apply lookup_insert_eq. Qed.

Lemma os_Open_run s k k' u : os_Open s k = (k', Ok u) → k' = k ∧ is_Some (d_files k !! resolve s).
Proof.
  unfold os_Open, refuse. intros H. step_inv. unfold id in *.
  match goal with H : match ?x with _ => _ end _ = _ |- _ => destruct x; [|done] end.
  case_match; step_inv. eauto.
Qed.
Lemma os_Read_run s k k' c :
  os_Read s k = (k', Ok c) → k' = k ∧ c = default "" (d_files k !! resolve s).
Proof.
  unfold os_Read, refuse. intros H. step_inv. case_match; step_inv. by subst.
Qed.
Lemma RemoveAll_only s (P : Path → Prop) :
  (∀ p, below (resolve s) p = true → P p) → respects (only P) (RemoveAll s).
Proof.
  intros Hs. unfold RemoveAll. respects. apply respects_modify. intros k p Hp. simpl.
  assert (below (resolve s) p = false) as Hb by (apply not_true_iff_false; by intros ?%Hs).
  destruct (d_files k !! p) as [c|] eqn:Hk.
  - by apply map_lookup_filter_Some.
  - apply map_lookup_filter_None. by left.
Qed.
End Changes.

(** ** The last element of a joined name *)
Lemma Split_join ws :
  ws ≠ [] → Forall (λ c, word c = true) ws → Split (join "/" ws) slash = ws.
Proof.
  intros Hn H. induction H as [|c ws Hc Hws IH]; [done|].
  assert (Hs : no_char slash c = true) by (unfold word in Hc; by apply andb_true_iff in Hc as [? _]).
  destruct ws as [|d ws]; [by apply Split_no_char|].
  change (join "/" (c :: d :: ws)) with (c +:+ String slash (join "/" (d :: ws))).
  by rewrite Split_app, IH.
Qed.
Lemma Base_shown r cs c :
  Forall (λ c, word c = true) (cs ++ [c]) → Base (show_path r (cs ++ [c])) = c.
Proof.
  intros H. assert (Hne : cs ++ [c] ≠ []) by (by destruct cs).
  assert (Hf : List.filter (λ c, negb (String.eqb c "")) (cs ++ [c]) = cs ++ [c]).
  { clear Hne. induction H as [|d ds Hd Hds IH]; [done|]. simpl. rewrite IH.
    apply word_char in Hd as (x & s & -> & _). done. }
  assert (Hb : ∀ s, String.eqb s "" = false →
    List.filter (λ c, negb (String.eqb c "")) (Split s slash) = cs ++ [c] → Base s = c).
  { intros s Hs He. unfold Base. by rewrite Hs, He, rev_app_distr. }
  destruct r; cbn [show_path].
  - apply Hb; [done|]. 
    change ("/" +:+ join "/" (cs ++ [c])) with (EmptyString +:+ String slash (join "/" (cs ++ [c]))).
    rewrite Split_app by done. simpl. by rewrite Split_join.
  - assert (He : show_path false (cs ++ [c]) = join "/" (cs ++ [c])) by (by destruct cs).
    cbn [show_path] in He. rewrite He. apply Hb; [|by rewrite Split_join].
    destruct (cs ++ [c]) as [|d ds] eqn:Hd; [done|]. apply Forall_inv, word_char in H as (x & s & -> & _).
    by destruct ds.
Qed.
Lemma JoinPath_shown out cs :
  cs ≠ [] → Forall (λ c, plain c = true) cs →
  ∃ r X, JoinPath (out :: cs) = show_path r (X ++ cs) ∧ Forall (λ c, word c = true) X.
Proof.
  intros Hne H. assert (Hw : Forall (λ c, word c = true) cs) by auto.
  destruct (String.eqb out "") eqn:Ho.
  - apply String.eqb_eq in Ho as ->. exists false, []. split; [|done].
    destruct cs as [|c cs]; [done|]. pose proof (Forall_inv Hw) as Hc.
    destruct (word_char c Hc) as (a & s & -> & _). cbn [JoinPath String.eqb].
    unfold Clean. rewrite IsAbs_join, comps_join by done.
    by rewrite (reduce_app_plain false [] (String a s :: cs) H
                : reduce false (String a s :: cs) = String a s :: cs).
  - destruct cs as [|c cs]; [done|]. cbn [JoinPath]. rewrite Ho.
    change (join "/" (out :: c :: cs)) with (out +:+ String slash (join "/" (c :: cs))).
    unfold Clean. rewrite comps_app, comps_join, reduce_app_plain by done.
    eexists _, _. split; [done|]. apply reduce_words, comps_words.
Qed.
Lemma Base_Join out cs c :
  Forall (λ c, plain c = true) (cs ++ [c]) → Base (JoinPath (out :: cs ++ [c])) = c.
Proof.
  intros H. destruct (JoinPath_shown out (cs ++ [c])) as (r & X & -> & HX); [by destruct cs|done|].
  rewrite app_assoc. apply Base_shown. rewrite <- app_assoc. apply Forall_app. by auto.
Qed.
