(* ===== verification/Testnet.v ===== *)
(** * The files of a test network

    [src/cmd/cosviand/cmd/testnet_multi_node.go]: the command [multi-node] writes the
    keys, configuration and genesis of a number of validators below one directory.  Keys,
    transactions, the configuration of CometBFT and the genesis of the SDK's modules are
    not the repository's: they are the class [TestnetSdk]. *)

From Stdlib Require Import Strings.Ascii Strings.String.
From stdpp Require Import strings gmap.
From S2P Require Import Prelude GoLib Json Paths Sdk RefEnv.

Local Open Scope Z_scope.

#[local] Arguments JoinPath : simpl never.
#[local] Arguments resolve : simpl never.

(** ** Data *)
Record initArgs := mkInitArgs {
  algo : string;
  chainID : string;
  keyringBackend : string;
  minGasPrices : string;
  nodeDirPrefix : string;
  numValidators : Z;
  outputDir : string;
  startingIPAddress : string;
  validatorsStakesAmount : gmap Z Coin;
  ports : gmap Z string
}.
Definition set_chainID (c : string) (a : initArgs) : initArgs :=
  mkInitArgs (algo a) c (keyringBackend a) (minGasPrices a) (nodeDirPrefix a) (numValidators a)
    (outputDir a) (startingIPAddress a) (validatorsStakesAmount a) (ports a).

(** The fields of [cmtconfig.Config] the command sets; [nc_rest] stands for the others. *)
Record NodeConfig := mkNodeConfig {
  RootDir : string;
  Moniker : string;
  ProxyApp : string;
  RPC_ListenAddress : string;
  P2P_ListenAddress : string;
  PersistentPeers : string;
  AllowDuplicateIP : bool;
  PrometheusListenAddr : string;
  Prometheus : bool;
  nc_rest : string
}.
Definition set_RootDir (v : string) (c : NodeConfig) : NodeConfig :=
  mkNodeConfig v (Moniker c) (ProxyApp c) (RPC_ListenAddress c) (P2P_ListenAddress c)
    (PersistentPeers c) (AllowDuplicateIP c) (PrometheusListenAddr c) (Prometheus c) (nc_rest c).
Definition set_Moniker (v : string) (c : NodeConfig) : NodeConfig :=
  mkNodeConfig (RootDir c) v (ProxyApp c) (RPC_ListenAddress c) (P2P_ListenAddress c)
    (PersistentPeers c) (AllowDuplicateIP c) (PrometheusListenAddr c) (Prometheus c) (nc_rest c).
Definition set_RPC (v : string) (c : NodeConfig) : NodeConfig :=
  mkNodeConfig (RootDir c) (Moniker c) (ProxyApp c) v (P2P_ListenAddress c)
    (PersistentPeers c) (AllowDuplicateIP c) (PrometheusListenAddr c) (Prometheus c) (nc_rest c).

(** Of [srvconfig.Config]; [MinGasPrices] is a field of the embedded [BaseConfig]. *)
Record AppCfg := mkAppCfg {
  MinGasPrices : string;
  API_Enable : bool;
  API_Address : string;
  GRPC_Address : string;
  EnableHostnameLabel : bool;
  Telemetry_Enabled : bool;
  PrometheusRetentionTime : Z;
  ac_rest : string
}.
Definition set_addresses (grpc api : string) (c : AppCfg) : AppCfg :=
  mkAppCfg (MinGasPrices c) (API_Enable c) api grpc (EnableHostnameLabel c)
    (Telemetry_Enabled c) (PrometheusRetentionTime c) (ac_rest c).

(** [authtypes.NewBaseAccount(addr, nil, 0, 0)] and [banktypes.Balance]. *)
Record BaseAccount := mkBaseAccount { acc_addr : string; acc_number : Z; acc_sequence : Z }.
Record Balance := mkBalance { bal_Address : string; bal_Coins : Coins }.
Record AuthGenesis := mkAuthGenesis { ag_Accounts : list string; ag_rest : string }.
Record BankGenesis := mkBankGenesis {
  bg_Balances : list Balance; bg_Supply : Coins; bg_rest : string }.
Record GenesisDoc := mkGenesisDoc { gd_ChainID : string; gd_AppState : string }.
Record CommissionRates := mkRates { Rate : Dec; MaxRate : Dec; MaxChangeRate : Dec }.

(** ** What is not the repository's *)
Class TestnetSdk := {
  Sys : Type;          (* clocks, random numbers and keyrings *)
  Rand : Type;         (* [*rand.Rand] *)
  PubKey : Type;
  Keyring : Type;
  SigningAlgo : Type;
  StakingMsg : Type;
  TxBuilder : Type;
  (* names of flags *)
  FlagKeyringBackend : string; FlagChainID : string;
  FlagMinGasPrices : string; FlagKeyType : string;
  (* [cosmossdk.io/math] and the coins *)
  NewIntFromString : string → option Z;
  TokensFromConsensusPower : Z → Z → Z;
  DefaultPowerReduction : Z;
  CoinsSort : Coins → Coins;
  CoinsAdd : Coins → Coins → Coins;
  (* package rand, seeded with the time *)
  rand_New : stM Sys Rand;
  Intn : Z → Rand → Rand * Z;
  (* configuration files *)
  SetRoot : string → NodeConfig → NodeConfig;
  GenesisFile : NodeConfig → string;
  DefaultConfig : AppCfg;
  render_cmt : NodeConfig → string;
  render_app : AppCfg → string;
  cmt_WriteConfigFile : string → NodeConfig → stM Disk unit;
  app_WriteConfigFile : string → AppCfg → stM Disk unit;
  (* keys and transactions *)
  InitializeNodeValidatorFiles : NodeConfig → stM (Disk * Sys) (string * PubKey);
  keyring_New : string → string → stM (Disk * Sys) Keyring;
  NewSigningAlgoFromString : string → Keyring → SigningAlgo + error;
  GenerateSaveCoinKey : Keyring → string → SigningAlgo → stM (Disk * Sys) (string * string);
  ValAddressString : string → string;
  NewMsgCreateValidator :
    string → option PubKey → Coin → string → CommissionRates → Z → StakingMsg + error;
  NewTxBuilder : TxBuilder;
  SetMsgs : StakingMsg → TxBuilder → TxBuilder + error;
  SetMemo : string → TxBuilder → TxBuilder;
  (* chain id, memo and keyring of the factory, the name of the key, the transaction *)
  tx_Sign : string → string → Keyring → string → TxBuilder → stM Sys TxBuilder;
  TxJSONEncoder : TxBuilder → string + error;
  (* genesis *)
  DefaultGenesis : gmap string string;
  PackAccounts : list BaseAccount → list string + error;
  SanitizeGenesisBalances : list Balance → list Balance;
  genesis_MarshalIndent : gmap string string → string + error;
  SaveAs : GenesisDoc → string → stM Disk unit;
  AppGenesis : Type;
  AppGenesisFromFile : string → stM Disk AppGenesis;
  (* chain id, directory of the genesis transactions, node id and key of the [InitConfig] *)
  GenAppStateFromConfig :
    string → string → string → option PubKey → AppGenesis → NodeConfig →
    stM Disk (NodeConfig * Slice);
  render_genesis : string → Slice → Z → string;
  ExportGenesisFileWithTime : string → string → Slice → Z → stM Disk unit;
  tm_Now : stM Sys Z
}.

(** ** The command line *)

(** [sdk.DefaultBondDenom], which the [init] of [app/app.go] sets. *)
Definition DefaultBondDenom : string := "ucsv".

(** The flags of a command, as pflag reads them; errors are ignored. *)
Record Flags := mkFlags {
  GetString : string → string * option error;
  GetInt : string → Z * option error
}.

Section Command.
Context {E : Env} {T : TestnetSdk} {OS : Os}.
Context {JA : JsonCodec AuthGenesis} {JB : JsonCodec BankGenesis}.

(** The names and defaults of the flags. *)
Inductive FlagValue := StringFlag (s : string) | IntFlag (n : Z).
Definition testnet_flags : list (string * FlagValue) := [
  ("v", IntFlag 4);
  ("output-dir", StringFlag "./.testnets");
  (FlagChainID, StringFlag "");
  (FlagMinGasPrices, StringFlag ("0.0001" +:+ DefaultBondDenom));
  (FlagKeyType, StringFlag "secp256k1")].
Definition multi_node_flags : list (string * FlagValue) := testnet_flags ++ [
  ("list-ports", StringFlag "");
  ("node-dir-prefix", StringFlag "validator");
  ("validators-stake-amount", StringFlag "100000000,100000000,100000000,100000000");
  ("starting-ip-address", StringFlag "localhost");
  (FlagKeyringBackend, StringFlag "test")].
(** An old name of a flag. *)
Definition normalize_flag (name : string) : string :=
  if String.eqb name "algo" then FlagKeyType else name.

(** Amounts that are no numbers are left out, and the next one takes their place. *)
Fixpoint stakes_loop (amounts : list string) (top : Z) (m : gmap Z Coin) : res (gmap Z Coin) :=
  match amounts with
  | [] => Ok m
  | amount :: rest =>
      match NewIntFromString amount with
      | None => stakes_loop rest top m
      | Some a =>
          c ← NewCoin DefaultBondDenom a;
          stakes_loop rest (top + 1) (<[top := c]> m)
      end
  end.
Definition read_stakes (s : string) : res (gmap Z Coin) :=
  stakes_loop (Split s ","%char) 0 ∅.

Fixpoint ports_loop (l : list string) (top : Z) (m : gmap Z string) : gmap Z string :=
  match l with
  | [] => m
  | port :: rest => ports_loop rest (top + 1) (<[top := port]> m)
  end.
Definition Itoa (z : Z) : string := fmt_d (i64 z).
Definition read_ports (n : Z) (s : string) : gmap Z string :=
  ports_loop (if String.eqb s "" then map (λ i, Itoa (26657 - 3 * i)) (seqZ 0 n)
              else Split s ","%char) 0 ∅.

Definition read_args (f : Flags) : res initArgs :=
  let str name := (GetString f name).1 in
  let n := (GetInt f "v").1 in
  stakes ← match GetString f "validators-stake-amount" with
           | (s, None) => read_stakes s
           | (_, Some _) => Ok ∅
           end;
  let ps := match GetString f "list-ports" with
            | (s, None) => read_ports n s
            | (_, Some _) => ∅
            end in
  Ok (mkInitArgs (str FlagKeyType) (str FlagChainID) (str FlagKeyringBackend)
        (str FlagMinGasPrices) (str "node-dir-prefix") n (str "output-dir")
        (str "starting-ip-address") stakes ps).

(** ** Where things are, and where nodes listen *)
Definition nodeDirName (a : initArgs) (i : Z) : string := nodeDirPrefix a +:+ fmt_d i.
Definition nodeDir (a : initArgs) (i : Z) : string := JoinPath [outputDir a; nodeDirName a i].
Definition gentxsDir (a : initArgs) (i : Z) : string :=
  JoinPath [outputDir a; nodeDirName a i; "config"; "gentx"].
(** The same directory, as later loops write it. *)
Definition gentxsDir_of (dir : string) : string := JoinPath [dir; "config"; "gentx"].
Definition port_of (a : initArgs) (i : Z) : string := default "" (ports a !! i).

Definition p2p_port (i : Z) : Z := 26656 - 3 * i.
Definition abci_port (i : Z) : Z := 26658 - 3 * i.
Definition prometheus_port (i : Z) : Z := 26660 + i.
Definition grpc_port (i : Z) : Z := 9090 - 2 * i.
Definition api_port (i : Z) : Z := 1317 - i.

Definition memo_of (a : initArgs) (i : Z) (nodeID : string) : string :=
  nodeID +:+ "@" +:+ startingIPAddress a +:+ ":" +:+ Itoa (p2p_port i).

(** [generateRandomString] *)
Definition charset : string := "abcdefghijklmnopqrstuvwxyz0123456789".
Fixpoint random_bytes (length : nat) (r : Rand) : string :=
  match length with
  | O => ""
  | S length' =>
      let '(r', k) := Intn (Z.of_nat (String.length charset)) r in
      String (default "000"%char (String.get (Z.to_nat k) charset)) (random_bytes length' r')
  end.

(** ** The state of a run

    Besides the disk and the system: the two configurations, which all nodes share, and
    what the first loop collects. *)
Record Build := mkBuild {
  nodeIDs : list string;
  valPubKeys : list (option PubKey);
  genAccounts : list BaseAccount;
  genBalances : list Balance;
  genFiles : list string;
  persistentPeers : string;
  gentxsFiles : list string
}.
Record Run := mkRun {
  r_disk : Disk; r_sys : Sys; r_cfg : NodeConfig; r_app : AppCfg; r_build : Build }.
Definition set_disk (d : Disk) (r : Run) : Run :=
  mkRun d (r_sys r) (r_cfg r) (r_app r) (r_build r).
Definition set_sys (x : Sys) (r : Run) : Run :=
  mkRun (r_disk r) x (r_cfg r) (r_app r) (r_build r).
Definition set_both (x : Disk * Sys) (r : Run) : Run :=
  mkRun x.1 x.2 (r_cfg r) (r_app r) (r_build r).
Definition set_cfg (c : NodeConfig) (r : Run) : Run :=
  mkRun (r_disk r) (r_sys r) c (r_app r) (r_build r).
Definition set_app (c : AppCfg) (r : Run) : Run :=
  mkRun (r_disk r) (r_sys r) (r_cfg r) c (r_build r).
Definition set_build (b : Build) (r : Run) : Run :=
  mkRun (r_disk r) (r_sys r) (r_cfg r) (r_app r) b.

Definition on_disk {A} (m : stM Disk A) : stM Run A := zoom r_disk set_disk m.
Definition on_sys {A} (m : stM Sys A) : stM Run A := zoom r_sys set_sys m.
Definition on_both {A} (m : stM (Disk * Sys) A) : stM Run A :=
  zoom (λ r, (r_disk r, r_sys r)) set_both m.
Definition config (f : NodeConfig → NodeConfig) : stM Run unit :=
  modify (λ r, set_cfg (f (r_cfg r)) r).
Definition collect (f : Build → Build) : stM Run unit :=
  modify (λ r, set_build (f (r_build r)) r).
Definition or_throw {A} (r : A + error) : stM Run A :=
  match r with inl a => mret a | inr e => throw e end.

Definition generateRandomString (length : nat) : stM Run string :=
  r ← on_sys rand_New; mret (random_bytes length r).

Definition writeFile (file dir contents : string) : stM Run unit :=
  wrap_err (on_disk (MkdirAll dir)) "could not create directory";;
  on_disk (os_WriteFile file contents).

(** What was written is removed before the error is returned. *)
Definition or_remove {A} (a : initArgs) (m : stM Run A) : stM Run A :=
  r ← attempt m;
  match r with
  | inl x => mret x
  | inr e => ignore_err (on_disk (RemoveAll (outputDir a)));; throw e
  end.

(** ** One node *)
Definition init_node (a : initArgs) (i : Z) : stM Run unit :=
  config (SetRoot (nodeDir a i));;
  config (set_Moniker (nodeDirName a i));;
  config (set_RPC ("tcp://0.0.0.0:" +:+ port_of a i));;
  or_remove a (on_disk (MkdirAll (JoinPath [nodeDir a i; "config"])));;
  cfg ← gets r_cfg;
  '(id, key) ← or_remove a (on_both (InitializeNodeValidatorFiles cfg));
  collect (λ b, mkBuild (<[Z.to_nat i := id]> (nodeIDs b)) (<[Z.to_nat i := Some key]> (valPubKeys b))
    (genAccounts b) (genBalances b) (genFiles b) (persistentPeers b) (gentxsFiles b)).

Definition node_id (i : Z) (r : Run) : string :=
  default "" (nodeIDs (r_build r) !! Z.to_nat i).
Definition node_key (i : Z) (r : Run) : option PubKey :=
  default None (valPubKeys (r_build r) !! Z.to_nat i).

Definition add_peer (peers memo : string) : string :=
  if String.eqb peers "" then memo else peers +:+ "," +:+ memo.
Definition note_peer (a : initArgs) (i : Z) : stM Run unit :=
  id ← gets (node_id i);
  cfg ← gets r_cfg;
  collect (λ b, mkBuild (nodeIDs b) (valPubKeys b) (genAccounts b) (genBalances b)
    (genFiles b ++ [GenesisFile cfg]) (add_peer (persistentPeers b) (memo_of a i id))
    (gentxsFiles b)).

(** The key of the validator's account, and the words it can be restored from. *)
Definition make_key (a : initArgs) (i : Z) : stM Run (Keyring * string) :=
  kb ← on_both (keyring_New (keyringBackend a) (nodeDir a i));
  alg ← or_throw (NewSigningAlgoFromString (algo a) kb);
  '(addr, secret) ← or_remove a (on_both (GenerateSaveCoinKey kb (nodeDirName a i) alg));
  writeFile (JoinPath [nodeDir a i; "key_seed.json"]) (nodeDir a i)
    (enc_object [("secret", secret)]);;
  mret (kb, addr).

Definition add_genesis_account (addr : string) : stM Run unit :=
  c1 ← lift (NewCoin "testtoken" (TokensFromConsensusPower 1000 DefaultPowerReduction));
  c2 ← lift (NewCoin DefaultBondDenom (TokensFromConsensusPower 500 DefaultPowerReduction));
  collect (λ b, mkBuild (nodeIDs b) (valPubKeys b)
    (genAccounts b ++ [mkBaseAccount addr 0 0])
    (genBalances b ++ [mkBalance (AccAddressString (Some addr)) (CoinsSort [c1; c2])])
    (genFiles b) (persistentPeers b) (gentxsFiles b)).

Definition stake_of (a : initArgs) (i : Z) : res Coin :=
  match validatorsStakesAmount a !! i with
  | Some c => Ok c
  | None => NewCoin DefaultBondDenom (TokensFromConsensusPower 100 DefaultPowerReduction)
  end.
Definition gentx_file (a : initArgs) (i : Z) (nodeID : string) : string :=
  JoinPath [gentxsDir a i; "gentx-" +:+ nodeID +:+ ".json"].
Definition make_gentx (a : initArgs) (i : Z) (kb : Keyring) (addr : string) : stM Run unit :=
  valTokens ← lift (stake_of a i);
  id ← gets (node_id i);
  key ← gets (node_key i);
  msg ← or_throw (NewMsgCreateValidator (ValAddressString addr) key valTokens (nodeDirName a i)
                    (mkRates LegacyOneDec LegacyOneDec LegacyOneDec) 1);
  tb ← or_throw (SetMsgs msg NewTxBuilder);
  let memo := memo_of a i id in
  tb ← on_sys (tx_Sign (chainID a) memo kb (nodeDirName a i) (SetMemo memo tb));
  txBz ← or_throw (TxJSONEncoder tb);
  let file := gentx_file a i id in
  collect (λ b, mkBuild (nodeIDs b) (valPubKeys b) (genAccounts b) (genBalances b) (genFiles b)
    (persistentPeers b) (gentxsFiles b ++ [file]));;
  writeFile file (gentxsDir a i) txBz.

Definition write_app_config (a : initArgs) (i : Z) : stM Run unit :=
  modify (λ r, set_app (set_addresses (startingIPAddress a +:+ ":" +:+ Itoa (grpc_port i))
                          ("tcp://localhost:" +:+ Itoa (api_port i)) (r_app r)) r);;
  app ← gets r_app;
  on_disk (app_WriteConfigFile (JoinPath [nodeDir a i; "config"; "app.toml"]) app).

Definition make_node (a : initArgs) (i : Z) : stM Run unit :=
  init_node a i;;
  note_peer a i;;
  '(kb, addr) ← make_key a i;
  add_genesis_account addr;;
  make_gentx a i kb addr;;
  write_app_config a i.

(** ** The first genesis *)
Definition must_json {A} (r : res A) : stM Run A :=
  match r with Ok x => mret x | Err _ => panic "codec" | Panic p => panic p end.

Definition total_supply (supply : Coins) (bs : list Balance) : Coins :=
  foldl (λ s b, CoinsAdd s (bal_Coins b)) supply bs.
Definition genesis_balances (bg : BankGenesis) (bs : list Balance) : BankGenesis :=
  let bs' := SanitizeGenesisBalances bs in
  mkBankGenesis bs' (total_supply (bg_Supply bg) bs') (bg_rest bg).

Definition initGenFiles (chain : string) (accounts : list BaseAccount) (balances : list Balance)
    (files : list string) (n : Z) : stM Run unit :=
  let state := DefaultGenesis in
  auth ← must_json (json_Unmarshal (default "" (state !! "auth")));
  packed ← or_throw (PackAccounts accounts);
  authJSON ← must_json (json_Marshal (mkAuthGenesis packed (ag_rest auth)));
  let state := <["auth" := authJSON]> state in
  bank ← must_json (json_Unmarshal (default "" (state !! "bank")));
  bankJSON ← must_json (json_Marshal (genesis_balances bank balances));
  let state := <["bank" := bankJSON]> state in
  appStateJSON ← or_throw (genesis_MarshalIndent state);
  for_each (seqZ 0 n) (λ i,
    match files !! Z.to_nat i with
    | Some file => on_disk (SaveAs (mkGenesisDoc chain appStateJSON) file)
    | None => panic "index out of range"
    end).

(** ** Every node gets every genesis transaction *)
Definition isSubDir (src dstDir : string) : bool + error :=
  match Abs src with
  | inr e => inr e
  | inl absSrc =>
      match Abs dstDir with
      | inr e => inr e
      | inl absDstDir =>
          match Rel absDstDir absSrc with
          | inr e => inr e
          | inl rel => inl (negb (HasPrefix rel "..") && negb (IsAbs rel))
          end
      end
  end.
Definition copyFile (src dstDir : string) : stM Disk unit :=
  let dst := JoinPath [dstDir; Base src] in
  os_Open src;;
  os_Create dst;;
  bytes ← os_Read src;
  refuse "write" (resolve dst);;
  modify (λ k, set_files (<[resolve dst := bytes]> (d_files k)) k);;
  refuse "sync" (resolve dst).

Definition copy_gentxs (a : initArgs) (files : list string) : stM Disk unit :=
  for_each (seqZ 0 (numValidators a)) (λ i,
    for_each files (λ file,
      let dir := gentxsDir_of (nodeDir a i) in
      match isSubDir file dir with
      | inr _ | inl true => mret tt
      | inl false => copyFile file dir
      end)).

(** ** The configuration and the genesis of every node *)
Definition final_config (a : initArgs) (i : Z) (peers : string) (c : NodeConfig) : NodeConfig :=
  mkNodeConfig (RootDir c) (Moniker c)
    ("tcp://127.0.0.1:" +:+ Itoa (abci_port i))
    ("tcp://127.0.0.1:" +:+ port_of a i)
    ("tcp://0.0.0.0:" +:+ Itoa (p2p_port i))
    peers true
    (":" +:+ Itoa (prometheus_port i)) true
    (nc_rest c).

(** One turn: [appState] is that of the first node, unless there is none. *)
Definition collect_node (a : initArgs) (ids : list string) (keys : list (option PubKey))
    (peers : string) (genTime : Z) (i : Z) (appState : Slice) : stM Run Slice :=
  config (set_Moniker (nodeDirName a i));;
  config (SetRoot (nodeDir a i));;
  '(id, key) ← match ids !! Z.to_nat i, keys !! Z.to_nat i with
               | Some id, Some key => mret (id, key)
               | _, _ => panic "index out of range"
               end;
  cfg ← gets r_cfg;
  appGenesis ← on_disk (AppGenesisFromFile (GenesisFile cfg));
  '(cfg', nodeAppState) ← on_disk (GenAppStateFromConfig (chainID a)
      (gentxsDir_of (nodeDir a i)) id key appGenesis cfg);
  config (λ _, final_config a i peers cfg');;
  cfg ← gets r_cfg;
  on_disk (cmt_WriteConfigFile (JoinPath [RootDir cfg; "config"; "config.toml"]) cfg);;
  let appState := match appState with Some s => Some s | None => nodeAppState end in
  on_disk (ExportGenesisFileWithTime (GenesisFile cfg) (chainID a) appState genTime);;
  mret appState.

Fixpoint collect_loop (turn : Z → Slice → stM Run Slice) (l : list Z) (appState : Slice)
    : stM Run unit :=
  match l with
  | [] => mret tt
  | i :: l' => appState ← turn i appState; collect_loop turn l' appState
  end.
Definition collectGenFiles (a : initArgs) (ids : list string) (keys : list (option PubKey))
    (peers : string) : stM Run unit :=
  genTime ← on_sys tm_Now;
  collect_loop (collect_node a ids keys peers genTime) (seqZ 0 (numValidators a)) None.

(** ** The whole command *)
Definition node_app_config (a : initArgs) (c : AppCfg) : AppCfg :=
  let c := mkAppCfg (minGasPrices a) (API_Enable c) (API_Address c) (GRPC_Address c)
             (EnableHostnameLabel c) (Telemetry_Enabled c) (PrometheusRetentionTime c)
             (ac_rest c) in
  mkAppCfg ("0.0001" +:+ DefaultBondDenom) false (API_Address c) (GRPC_Address c)
    false false 0 (ac_rest c).

Definition named (a : initArgs) : stM Run initArgs :=
  if String.eqb (chainID a) "" then
    s ← generateRandomString 6; mret (set_chainID ("chain-" +:+ s) a)
  else mret a.
(** What the first loop starts from: arrays of the length of the network. *)
Definition first_build (n : Z) : Build :=
  mkBuild (replicate (Z.to_nat n) "") (replicate (Z.to_nat n) None) [] [] [] "" [].
Definition initTestnetFiles (a : initArgs) : stM Run unit :=
  a ← named a;
  let n := numValidators a in
  (if n <? 0 then panic "makeslice: len out of range" else mret tt);;
  collect (λ _, first_build n);;
  modify (set_app (node_app_config a DefaultConfig));;
  for_each (seqZ 0 n) (make_node a);;
  b ← gets r_build;
  initGenFiles (chainID a) (genAccounts b) (genBalances b) (genFiles b) n;;
  on_disk (copy_gentxs a (gentxsFiles b));;
  collectGenFiles a (nodeIDs b) (valPubKeys b) (persistentPeers b).

Definition RunE (clientCtx : option error) (f : Flags) : stM Run unit :=
  match clientCtx with
  | Some e => throw e
  | None => a ← lift (read_args f); initTestnetFiles a
  end.
End Command.

(** ** What the SDK promises of it *)

(** The files of a pair of disk and system outside [P] are as they were. *)
Definition only_both {T : TestnetSdk} (P : Path → Prop) (x x' : Disk * Sys) : Prop :=
  only P x.1 x'.1.
#[export] Instance only_both_preorder {T : TestnetSdk} P : PreOrder (only_both P).
Proof. split; [by intros x|]. intros x y z H1 H2. unfold only_both. by etransitivity. Qed.

(** Backends that keep keys in files below the directory of the keyring. *)
Definition file_backend (b : string) : Prop := b = "test" ∨ b = "file".

Class TestnetLaws {T : TestnetSdk} {OS : Os} := {
  (* where a keyring keeps its files *)
  keyring_dir : Keyring → Path;
  SetRoot_spec r c : SetRoot r c = set_RootDir r c;
  GenesisFile_spec c : GenesisFile c = JoinPath [RootDir c; "config"; "genesis.json"];
  TokensFromConsensusPower_spec p r : TokensFromConsensusPower p r = p * r;
  DefaultPowerReduction_spec : DefaultPowerReduction = 1000000;
  CoinsSort_amount cs d : coins_amount (CoinsSort cs) d = coins_amount cs d;
  CoinsAdd_amount cs cs' d :
    coins_amount (CoinsAdd cs cs') d = coins_amount cs d + coins_amount cs' d;
  Sanitize_perm bs : SanitizeGenesisBalances bs ≡ₚ bs;
  Intn_range n r : 0 < n → 0 ≤ (Intn n r).2 < n;
  (* files that are written whole *)
  cmt_write_ok s c k k' u :
    cmt_WriteConfigFile s c k = (k', Ok u) → d_files k' !! resolve s = Some (render_cmt c);
  cmt_write_only s c : respects (only (.= resolve s)) (cmt_WriteConfigFile s c);
  app_write_ok s c k k' u :
    app_WriteConfigFile s c k = (k', Ok u) → d_files k' !! resolve s = Some (render_app c);
  app_write_only s c : respects (only (.= resolve s)) (app_WriteConfigFile s c);
  SaveAs_only g s : respects (only (.= resolve s)) (SaveAs g s);
  Export_ok s chain st t k k' u :
    ExportGenesisFileWithTime s chain st t k = (k', Ok u) →
    d_files k' !! resolve s = Some (render_genesis chain st t);
  Export_only s chain st t :
    respects (only (.= resolve s)) (ExportGenesisFileWithTime s chain st t);
  (* keys are kept below the directory of their node; a node id is a hexadecimal number *)
  Initialize_only c :
    respects (only_both (λ p, below (resolve (RootDir c)) p = true))
      (InitializeNodeValidatorFiles c);
  Initialize_id c x x' id key :
    InitializeNodeValidatorFiles c x = (x', Ok (id, key)) → no_char slash id = true;
  keyring_New_only b dir :
    file_backend b →
    respects (only_both (λ p, below (resolve dir) p = true)) (keyring_New b dir);
  keyring_New_dir b dir x x' kb :
    file_backend b → keyring_New b dir x = (x', Ok kb) → keyring_dir kb = resolve dir;
  SaveCoinKey_only kb name alg :
    respects (only_both (λ p, below (keyring_dir kb) p = true)) (GenerateSaveCoinKey kb name alg);
  (* collecting the transactions rewrites two files and names the peers *)
  AppGenesis_only s : respects (only (λ _, False)) (AppGenesisFromFile s);
  GenAppState_only chain dir id key g c :
    respects (only (λ p, p = resolve (JoinPath [RootDir c; "config"; "config.toml"]) ∨
                         p = resolve (GenesisFile c)))
      (GenAppStateFromConfig chain dir id key g c);
  GenAppState_config chain dir id key g c k k' c' st :
    GenAppStateFromConfig chain dir id key g c k = (k', Ok (c', st)) →
    is_Some st ∧ RootDir c' = RootDir c ∧ Moniker c' = Moniker c ∧ nc_rest c' = nc_rest c
}.

(** ** The places of a node *)
Section Places.
Context {E : Env} {T : TestnetSdk} {OS : Os}.
Implicit Types (a : initArgs) (i j : Z) (r : Run).

Definition node_path a i (cs : list string) : Path :=
  resolve (outputDir a) ++ nodeDirName a i :: cs.
(** Directories are named by an element. *)
Definition names_ok a : Prop := no_char slash (nodeDirPrefix a) = true.

Lemma fmt_d_nonempty z : fmt_d z ≠ "".
Proof. intros H. apply (f_equal parse_d) in H. by rewrite parse_fmt_d in H. Qed.
Lemma nodeDirName_plain a i : names_ok a → plain (nodeDirName a i) = true.
Proof.
  intros Ha. unfold plain, word, nodeDirName, idle.
  assert (Hd : no_char "."%char (fmt_d i) = true) by (by apply no_char_fmt_d).
  rewrite no_char_app, Ha, no_char_fmt_d by done. pose proof (fmt_d_nonempty i) as Hn.
  destruct (nodeDirPrefix a) as [|x p]; cbn [String.append].
  - change ("" +:+ fmt_d i) with (fmt_d i).
    destruct (String.eqb_spec (fmt_d i) ""); [done|].
    destruct (String.eqb_spec (fmt_d i) ".") as [He|]; [by rewrite He in Hd|].
    by destruct (String.eqb_spec (fmt_d i) "..") as [He|]; [rewrite He in Hd|].
  - rewrite str_app_cons. destruct p as [|y p].
    + change ("" +:+ fmt_d i) with (fmt_d i). 
      destruct (String.eqb_spec (String x (fmt_d i)) "."); [by simplify_eq|].
      by destruct (String.eqb_spec (String x (fmt_d i)) "..") as [[= _ He]|]; [rewrite He in Hd|].
    + rewrite str_app_cons.
      destruct (String.eqb_spec (String x (String y (p +:+ fmt_d i))) "."); [done|].
      destruct (String.eqb_spec (String x (String y (p +:+ fmt_d i))) "..") as [[= _ _ He]|]; [|done].
      apply (f_equal String.length) in He. rewrite str_length_app in He. simpl in He.
      destruct (fmt_d i); [done|]. simpl in He. lia.
Qed.
Lemma nodeDirName_inj a i j : nodeDirName a i = nodeDirName a j → i = j.
Proof. intros H%str_app_inv_head. by apply fmt_d_inj. Qed.

Lemma nodeDir_path a i : names_ok a → resolve (nodeDir a i) = node_path a i [].
Proof.
  intros Ha. unfold nodeDir. rewrite resolve_Join; [done..|]. repeat constructor.
  by apply nodeDirName_plain.
Qed.
Lemma in_node_path a i cs :
  names_ok a → cs ≠ [] → Forall (λ c, plain c = true) cs →
  resolve (JoinPath (nodeDir a i :: cs)) = node_path a i cs.
Proof.
  intros Ha Hn Hc. rewrite resolve_Join, nodeDir_path by done. unfold node_path.
  by rewrite <- app_assoc.
Qed.
Lemma gentxsDir_path a i : names_ok a → resolve (gentxsDir a i) = node_path a i ["config"; "gentx"].
Proof.
  intros Ha. unfold gentxsDir. rewrite resolve_Join; [done..|].
  constructor; [by apply nodeDirName_plain|by repeat constructor].
Qed.
Lemma below_node a i cs : below (node_path a i []) (node_path a i cs) = true.
Proof. apply below_app. exists cs. unfold node_path. by rewrite <- app_assoc. Qed.
Lemma node_path_inj a i j cs ds : node_path a i cs = node_path a j ds → i = j ∧ cs = ds.
Proof. unfold node_path. intros [= H ->]%app_inv_head. split; [by eapply nodeDirName_inj|done]. Qed.
Lemma below_other a i j cs : below (node_path a i []) (node_path a j cs) = true → i = j.
Proof.
  intros [r H]%below_app. unfold node_path in H. rewrite <- app_assoc in H.
  apply app_inv_head in H. injection H as H _. symmetry. by eapply nodeDirName_inj.
Qed.
End Places.

(** ** What the making of a node changes *)
Section Nodes.
Context {E : Env} {T : TestnetSdk} {OS : Os} {TL : TestnetLaws}.
Context {JA : JsonCodec AuthGenesis} {JB : JsonCodec BankGenesis}.
Implicit Types (a : initArgs) (i j : Z) (r : Run).

(** Nothing but files in [P], and the system. *)
Definition disk_step (P : Path → Prop) r r' : Prop :=
  only P (r_disk r) (r_disk r') ∧
  r_cfg r' = r_cfg r ∧ r_app r' = r_app r ∧ r_build r' = r_build r.
#[export] Instance disk_step_preorder P : PreOrder (disk_step P).
Proof.
  split; [by intros r|]. intros r1 r2 r3 (D1&C1&A1&B1) (D2&C2&A2&B2).
  repeat split; [by etransitivity|congruence..].
Qed.

Lemma disk_step_disk {A} (m : stM Disk A) P :
  respects (only P) m → respects (disk_step P) (on_disk m).
Proof. intros Hm. by apply (respects_zoom (only P)); [intros s []|]. Qed.
Lemma disk_step_both {A} (m : stM (Disk * Sys) A) P :
  respects (only_both P) m → respects (disk_step P) (on_both m).
Proof. intros Hm. by apply (respects_zoom (only_both P)); [intros s []|]. Qed.
Lemma disk_step_sys {A} (m : stM Sys A) P : respects (disk_step P) (on_sys m).
Proof. apply (respects_zoom (λ _ _, True)); [|by intros s]. intros s t _. by repeat split. Qed.
Lemma disk_step_or_throw {A} (x : A + error) P : respects (disk_step P) (or_throw x).
Proof. destruct x; [apply respects_ret|apply respects_throw]; apply _. Qed.
Lemma disk_step_must {A} (x : res A) P : respects (disk_step P) (must_json x).
Proof. destruct x; [apply respects_ret|apply respects_panic..]; apply _. Qed.
Lemma writeFile_step file dir c (P : Path → Prop) :
  P (resolve file) → respects (disk_step P) (writeFile file dir c).
Proof.
  intros HP. unfold writeFile. apply respects_bind; [apply _|apply respects_wrap|intros _];
    apply disk_step_disk; [apply MkdirAll_only|by apply os_WriteFile_only].
Qed.
#[local] Hint Resolve disk_step_sys disk_step_or_throw disk_step_must : frame.

Lemma or_remove_ok {A} a (m : stM Run A) r r' x : or_remove a m r = (r', Ok x) → m r = (r', Ok x).
Proof.
  unfold or_remove. intros H. step_inv.
  match goal with H : attempt m r = _ |- _ => apply attempt_inv in H end.
  match goal with H : match ?y with _ => _ end _ = _ |- _ => destruct y end; by step_inv.
Qed.
Lemma on_disk_inv {A} (m : stM Disk A) r r' x :
  on_disk m r = (r', Ok x) → ∃ d, m (r_disk r) = (d, Ok x) ∧ r' = set_disk d r.
Proof. apply zoom_inv. Qed.
Lemma on_both_inv {A} (m : stM (Disk * Sys) A) r r' x :
  on_both m r = (r', Ok x) → ∃ y, m (r_disk r, r_sys r) = (y, Ok x) ∧ r' = set_both y r.
Proof. intros H. by apply zoom_inv in H. Qed.

(** What one node adds to what the first loop collects. *)
Definition app_of a i (c : AppCfg) : AppCfg :=
  set_addresses (startingIPAddress a +:+ ":" +:+ Itoa (grpc_port i))
    ("tcp://localhost:" +:+ Itoa (api_port i)) c.
Definition genesis_file a i : string := JoinPath [nodeDir a i; "config"; "genesis.json"].
Definition build_of a i (id : string) (key : PubKey) (addr : string) (cs : Coins) (b : Build) : Build :=
  mkBuild (<[Z.to_nat i := id]> (nodeIDs b)) (<[Z.to_nat i := Some key]> (valPubKeys b))
    (genAccounts b ++ [mkBaseAccount addr 0 0])
    (genBalances b ++ [mkBalance (AccAddressString (Some addr)) cs])
    (genFiles b ++ [genesis_file a i])
    (add_peer (persistentPeers b) (memo_of a i id))
    (gentxsFiles b ++ [gentx_file a i id]).
Definition genesis_coins (cs : Coins) : Prop :=
  ∃ c1 c2, NewCoin "testtoken" 1000000000 = Ok c1 ∧ NewCoin DefaultBondDenom 500000000 = Ok c2 ∧
           cs = CoinsSort [c1; c2].

Definition own a i (p : Path) : Prop := below (node_path a i []) p = true.

(** *** Who a node is

    In the state [r] in which its turn begins: the identifier and the key that the SDK
    returns for its directory, and the transaction that is signed for them with the key
    of its account. *)
Definition node_identity a i r (id : string) (key : PubKey) : Prop :=
  ∃ d x, MkdirAll (JoinPath [nodeDir a i; "config"]) (r_disk r) = (d, Ok tt) ∧
    InitializeNodeValidatorFiles
      (set_RPC ("tcp://0.0.0.0:" +:+ port_of a i)
        (set_Moniker (nodeDirName a i) (set_RootDir (nodeDir a i) (r_cfg r))))
      (d, r_sys r) = (x, Ok (id, key)).
Definition validator_tx a i (kb : Keyring) (addr id : string) (key : PubKey) (sys : Sys)
    (tx : string) : Prop :=
  ∃ stake msg tb sys' tb',
    stake_of a i = Ok stake ∧
    NewMsgCreateValidator (ValAddressString addr) (Some key) stake (nodeDirName a i)
      (mkRates LegacyOneDec LegacyOneDec LegacyOneDec) 1 = inl msg ∧
    SetMsgs msg NewTxBuilder = inl tb ∧
    tx_Sign (chainID a) (memo_of a i id) kb (nodeDirName a i) (SetMemo (memo_of a i id) tb) sys
      = (sys', Ok tb') ∧
    TxJSONEncoder tb' = inl tx.
Definition node_tx a i r (id : string) (key : PubKey) (tx : string) : Prop :=
  ∃ r2 r3 kb addr,
    (init_node a i;; note_peer a i) r = (r2, Ok tt) ∧
    make_key a i r2 = (r3, Ok (kb, addr)) ∧ validator_tx a i kb addr id key (r_sys r3) tx.

Lemma init_node_ok a i r r' u :
  names_ok a → init_node a i r = (r', Ok u) →
  ∃ id key, no_char slash id = true ∧ node_identity a i r id key ∧
    only (own a i) (r_disk r) (r_disk r') ∧ r_app r' = r_app r ∧
    r_cfg r' = set_RPC ("tcp://0.0.0.0:" +:+ port_of a i)
                 (set_Moniker (nodeDirName a i) (set_RootDir (nodeDir a i) (r_cfg r))) ∧
    r_build r' = mkBuild (<[Z.to_nat i := id]> (nodeIDs (r_build r)))
      (<[Z.to_nat i := Some key]> (valPubKeys (r_build r))) (genAccounts (r_build r))
      (genBalances (r_build r)) (genFiles (r_build r)) (persistentPeers (r_build r))
      (gentxsFiles (r_build r)).
Proof.
  intros Ha H. unfold init_node, config, collect in H.
  apply bind_ok_inv in H as ([] & r1 & ->%modify_inv & H).
  apply bind_ok_inv in H as ([] & r1 & ->%modify_inv & H).
  apply bind_ok_inv in H as ([] & r1 & ->%modify_inv & H).
  apply bind_ok_inv in H as ([] & r1 & H1%or_remove_ok%on_disk_inv & H).
  destruct H1 as (d & Hd & ->).
  apply bind_ok_inv in H as (cfg & r1 & [-> ->]%gets_inv & H).
  apply bind_ok_inv in H as ([id key] & r1 & H1%or_remove_ok%on_both_inv & H).
  destruct H1 as ([d' x] & Hi & ->). apply modify_inv in H as ->.
  exists id, key. simpl in *. rewrite SetRoot_spec in *.
  split; [by eapply Initialize_id|]. split.
  { by exists d, (d', x). }
  split; [|by repeat split]. etransitivity.
  - by apply (respects_run _ _ _ _ _ (MkdirAll_only _ (own a i)) Hd).
  - pose proof (respects_run _ _ _ _ _ (Initialize_only _) Hi) as Ho.
    unfold only_both in Ho. simpl in Ho.
    rewrite nodeDir_path in Ho by done. exact Ho.
Qed.

Lemma make_key_ok a i r r' kb addr :
  names_ok a → file_backend (keyringBackend a) → make_key a i r = (r', Ok (kb, addr)) →
  disk_step (own a i) r r'.
Proof.
  intros Ha Hb H. unfold make_key in H.
  apply bind_ok_inv in H as (kb' & r1 & H1 & H).
  pose proof (nodeDir_path a i Ha) as Hp.
  assert (S1 : disk_step (own a i) r r1).
  { apply (respects_run _ _ _ _ _ (disk_step_both _ _ (keyring_New_only _ _ Hb))) in H1.
    by rewrite Hp in H1. }
  apply on_both_inv in H1 as (y & Hk & ->). apply keyring_New_dir in Hk as Hd; [|done].
  apply bind_ok_inv in H as (alg & r2 & H1 & H).
  assert (S2 : disk_step (own a i) (set_both y r) r2)
    by (eapply respects_run; [|exact H1]; apply disk_step_or_throw).
  apply bind_ok_inv in H as ([ad secret] & r3 & H2%or_remove_ok & H).
  assert (S3 : disk_step (own a i) r2 r3).
  { apply (respects_run _ _ _ _ _ (disk_step_both _ _ (SaveCoinKey_only _ _ _))) in H2.
    by rewrite Hd, Hp in H2. }
  apply bind_ok_inv in H as ([] & r4 & H3 & H). apply ret_inv in H as [-> _].
  etransitivity; [exact S1|]. etransitivity; [exact S2|]. etransitivity; [exact S3|].
  eapply respects_run; [|exact H3]. apply writeFile_step. unfold own.
  rewrite in_node_path by (try done; by repeat constructor). apply below_node.
Qed.

Lemma power_value n : TokensFromConsensusPower n DefaultPowerReduction = n * 1000000.
Proof. by rewrite TokensFromConsensusPower_spec, DefaultPowerReduction_spec. Qed.

Definition gentx_name (id : string) : string := "gentx-" +:+ id +:+ ".json".
Definition gentx_path a i (id : string) : Path :=
  node_path a i ["config"; "gentx"; gentx_name id].
Lemma gentx_name_plain id : no_char slash id = true → plain (gentx_name id) = true.
Proof.
  intros Hid. unfold gentx_name, plain, word. change (("gentx-" +:+ id +:+ ".json")) with
      (String "g" (String "e" (String "n" ("tx-" +:+ id +:+ ".json")))).
    unfold idle. cbn [String.eqb Ascii.eqb Bool.eqb orb negb].
    change (String "g" (String "e" (String "n" ("tx-" +:+ id +:+ ".json")))) with
      ("gentx-" +:+ id +:+ ".json"). by rewrite !no_char_app, Hid.
Qed.
Lemma gentx_file_path a i id :
  names_ok a → no_char slash id = true → resolve (gentx_file a i id) = gentx_path a i id.
Proof.
  intros Ha Hid. unfold gentx_file. rewrite resolve_Join; [|done|].
  - rewrite gentxsDir_path by done. unfold gentx_path, node_path. by rewrite <- app_assoc.
  - repeat constructor. by apply gentx_name_plain.
Qed.

Lemma or_throw_inv {A} (x : A + error) r r' y : or_throw x r = (r', Ok y) → r' = r ∧ x = inl y.
Proof. destruct x; [by intros [= -> ->]|done]. Qed.

Definition add_gentx (file : string) (b : Build) : Build :=
  mkBuild (nodeIDs b) (valPubKeys b) (genAccounts b) (genBalances b) (genFiles b)
    (persistentPeers b) (gentxsFiles b ++ [file]).
Lemma make_gentx_ok a i kb addr r r' u :
  names_ok a → no_char slash (node_id i r) = true → make_gentx a i kb addr r = (r', Ok u) →
  disk_step (own a i) (set_build (add_gentx (gentx_file a i (node_id i r)) (r_build r)) r) r' ∧
  ∀ key, node_key i r = Some key → ∃ tx,
    validator_tx a i kb addr (node_id i r) key (r_sys r) tx ∧
    d_files (r_disk r') !! gentx_path a i (node_id i r) = Some tx.
Proof.
  intros Ha Hid H. unfold make_gentx, collect in H.
  apply bind_ok_inv in H as (vt & ? & [-> Hvt]%lift_ok_inv & H).
  apply bind_ok_inv in H as (? & ? & [-> ->]%gets_inv & H).
  apply bind_ok_inv in H as (? & ? & [-> ->]%gets_inv & H).
  apply bind_ok_inv in H as (msg & ? & [-> Hmsg]%or_throw_inv & H).
  apply bind_ok_inv in H as (tb0 & ? & [-> Htb0]%or_throw_inv & H).
  apply bind_ok_inv in H as (tb & r1 & H1 & H).
  pose proof H1 as (sys' & Hsign & _)%zoom_inv.
  apply (respects_run _ _ _ _ _ (disk_step_sys _ (own a i))) in H1 as (D1 & C1 & A1 & B1).
  apply bind_ok_inv in H as (tx & ? & [-> Htx]%or_throw_inv & H).
  apply bind_ok_inv in H as ([] & r2 & ->%modify_inv & H).
  assert (Hw : disk_step (own a i) (set_build (add_gentx (gentx_file a i (node_id i r)) (r_build r1)) r1) r').
  { eapply respects_run; [|exact H]. apply writeFile_step. unfold own.
    rewrite gentx_file_path by done. apply below_node. }
  assert (Hs : d_files (r_disk r') !! gentx_path a i (node_id i r) = Some tx).
  { apply bind_ok_inv in H as ([] & r3 & _ & H). apply on_disk_inv in H as (d & H & ->).
    apply os_WriteFile_ok in H. by rewrite gentx_file_path in H by done. }
  split; [|intros key Hk; exists tx; split; [|done]; rewrite Hk in Hmsg;
    by exists vt, msg, tb0, sys', tb]. destruct Hw as (D2 & C2 & A2 & B2). simpl in *. rewrite B1 in *.
  repeat split; simpl; [by etransitivity|congruence..].
Qed.
Lemma write_app_config_ok a i r r' u :
  names_ok a → write_app_config a i r = (r', Ok u) →
  only (.= node_path a i ["config"; "app.toml"]) (r_disk r) (r_disk r') ∧
  r_cfg r' = r_cfg r ∧ r_build r' = r_build r ∧ r_app r' = app_of a i (r_app r) ∧
  d_files (r_disk r') !! node_path a i ["config"; "app.toml"] = Some (render_app (r_app r')).
Proof.
  intros Ha H. unfold write_app_config in H.
  apply bind_ok_inv in H as ([] & r1 & ->%modify_inv & H).
  apply bind_ok_inv in H as (? & ? & [-> ->]%gets_inv & H).
  apply on_disk_inv in H as (d & H & ->). simpl in *.
  assert (Hp : resolve (JoinPath [nodeDir a i; "config"; "app.toml"])
               = node_path a i ["config"; "app.toml"])
    by (apply in_node_path; [done..|by repeat constructor]).
  split; [|split; [done|split; [done|split; [done|]]]].
  - pose proof (respects_run _ _ _ _ _ (app_write_only _ _) H) as Ho.
    eapply only_weaken; [|exact Ho]. intros p ->. done.
  - rewrite <- Hp. by eapply app_write_ok.
Qed.

(** The whole of one turn. *)
Lemma make_node_ok a i r r' u :
  names_ok a → file_backend (keyringBackend a) →
  (Z.to_nat i < length (nodeIDs (r_build r)))%nat →
  (Z.to_nat i < length (valPubKeys (r_build r)))%nat →
  make_node a i r = (r', Ok u) →
  ∃ id key addr cs tx, no_char slash id = true ∧ genesis_coins cs ∧
    node_identity a i r id key ∧ node_tx a i r id key tx ∧
    only (own a i) (r_disk r) (r_disk r') ∧
    nc_rest (r_cfg r') = nc_rest (r_cfg r) ∧
    r_app r' = app_of a i (r_app r) ∧
    r_build r' = build_of a i id key addr cs (r_build r) ∧
    d_files (r_disk r') !! node_path a i ["config"; "app.toml"] = Some (render_app (r_app r')) ∧
    d_files (r_disk r') !! gentx_path a i id = Some tx.
Proof.
  intros Ha Hb Hlen Hlen' H. unfold make_node in H.
  apply bind_ok_inv in H as ([] & r1 & H1 & H). pose proof H1 as Hinit.
  apply init_node_ok in H1 as (id & key & Hid & Hident & O1 & A1 & C1 & B1); [|done].
  assert (Hni : node_id i r1 = id).
  { unfold node_id. rewrite B1. simpl. by rewrite list_lookup_insert_eq. }
  apply bind_ok_inv in H as ([] & r2 & H2 & H).
  assert (H12 : (init_node a i;; note_peer a i) r = (r2, Ok tt))
    by by rewrite (bind_run _ _ _ _ _ Hinit).
  unfold note_peer, collect in H2.
  apply bind_ok_inv in H2 as (? & ? & [-> ->]%gets_inv & H2).
  apply bind_ok_inv in H2 as (? & ? & [-> ->]%gets_inv & ->%modify_inv).
  apply bind_ok_inv in H as ([kb addr] & r3 & H3 & H). pose proof H3 as Hkey.
  apply make_key_ok in H3 as (O3 & C3 & A3 & B3); [|done..]. simpl in *.
  apply bind_ok_inv in H as ([] & r4 & H4 & H).
  unfold add_genesis_account, collect in H4. rewrite !power_value in H4.
  apply bind_ok_inv in H4 as (c1 & ? & [-> K1]%lift_ok_inv & H4).
  apply bind_ok_inv in H4 as (c2 & ? & [-> K2]%lift_ok_inv & ->%modify_inv).
  apply bind_ok_inv in H as ([] & r5 & H5 & H).
  match type of H5 with make_gentx _ _ _ _ ?x = _ =>
    assert (Hnx : node_id i x = id)
      by (unfold node_id; simpl; rewrite B3; simpl; by fold (node_id i r1));
    assert (Hkx : node_key i x = Some key)
      by (unfold node_key; simpl; rewrite B3; simpl; rewrite B1; simpl;
          by rewrite list_lookup_insert_eq)
  end.
  apply make_gentx_ok in H5 as [(O5 & C5 & A5 & B5) G5]; [|done|by rewrite Hnx].
  rewrite Hnx in B5, G5. destruct (G5 key Hkx) as (tx & Htx & G6).
  exists id, key, addr, (CoinsSort [c1; c2]), tx. split; [done|]. split; [by exists c1, c2|].
  split; [done|]. split; [by eexists _, r3, kb, addr|].
  apply write_app_config_ok in H as (O6 & C6 & B6 & A6 & F6); [|done].
  simpl in *.
  split.
  { etransitivity; [exact O1|]. etransitivity; [exact O3|]. etransitivity; [exact O5|].
    eapply only_weaken; [|exact O6]. intros p ->. apply below_node. }
  split; [by rewrite C6, C5, C3, C1|]. split; [by rewrite A6, A5, A3, A1|].
  split; [|split; [done|]].
  - rewrite B6, B5. unfold add_gentx, build_of. simpl. rewrite B3. simpl. rewrite Hni, B1, C1.
    simpl. by rewrite GenesisFile_spec.
  - rewrite (O6 (gentx_path a i id)); [done|]. intros He. by apply node_path_inj in He as [_ He].
Qed.
End Nodes.

(** ** The first loop *)

(** A loop over the nodes, with an invariant that counts them. *)
Lemma for_each_seqZ {S} (I : Z → S → Prop) n body (s s' : S) u :
  0 ≤ n → I 0 s →
  (∀ i s s' u, 0 ≤ i < n → I i s → body i s = (s', Ok u) → I (i + 1) s') →
  for_each (seqZ 0 n) body s = (s', Ok u) → I n s'.
Proof.
  intros Hn H0 Hstep. assert (H : ∀ k m s, 0 ≤ k → k + Z.of_nat m = n → I k s →
    for_each (seqZ k (Z.of_nat m)) body s = (s', Ok u) → I n s').
  { intros k m. revert k. induction m as [|m IH]; intros k x Hk Hm Hx H.
    - injection H as <- _. by replace n with k by lia.
    - rewrite seqZ_cons in H by lia. cbn [for_each] in H.
      apply bind_ok_inv in H as (v & x1 & H1 & H). apply Hstep in H1; [|lia|done].
      apply (IH (Z.succ k) x1); [lia..| |].
      + by replace (Z.succ k) with (k + 1) by lia.
      + by replace (Z.pred (Z.of_nat (Datatypes.S m))) with (Z.of_nat m) in H by lia. }
  intros Hl. apply (H 0 (Z.to_nat n) s); [lia..|done|]. by rewrite Z2Nat.id.
Qed.

Section Loop.
Context {E : Env} {T : TestnetSdk} {OS : Os} {TL : TestnetLaws}.
Context {JA : JsonCodec AuthGenesis} {JB : JsonCodec BankGenesis}.
Implicit Types (a : initArgs) (i j k : Z) (r : Run).

(** What there is after [k] turns that began with [r0]. *)
Record made a (r0 : Run) k r : Prop := {
  made_ids : length (nodeIDs (r_build r)) = Z.to_nat (numValidators a);
  made_keys : length (valPubKeys (r_build r)) = Z.to_nat (numValidators a);
  made_hex i : 0 ≤ i < k → no_char slash (node_id i r) = true;
  made_accounts : length (genAccounts (r_build r)) = Z.to_nat k;
  made_balances : length (genBalances (r_build r)) = Z.to_nat k ∧
    Forall (λ b, genesis_coins (bal_Coins b)) (genBalances (r_build r));
  made_genesis : genFiles (r_build r) = map (genesis_file a) (seqZ 0 k);
  made_peers : persistentPeers (r_build r) =
    join "," (map (λ i, memo_of a i (node_id i r)) (seqZ 0 k));
  made_gentxs : gentxsFiles (r_build r) =
    map (λ i, gentx_file a i (node_id i r)) (seqZ 0 k);
  made_rest : nc_rest (r_cfg r) = nc_rest (r_cfg r0);
  made_app : ∃ grpc api, r_app r = set_addresses grpc api (r_app r0);
  made_files i : 0 ≤ i < k →
    d_files (r_disk r) !! node_path a i ["config"; "app.toml"]
    = Some (render_app (app_of a i (r_app r0)));
  made_run : for_each (seqZ 0 k) (make_node a) r0 = (r, Ok tt);
  made_tx i : 0 ≤ i < k → ∃ ri key tx,
    for_each (seqZ 0 i) (make_node a) r0 = (ri, Ok tt) ∧
    node_identity a i ri (node_id i r) key ∧ node_tx a i ri (node_id i r) key tx ∧
    d_files (r_disk r) !! gentx_path a i (node_id i r) = Some tx
}.

Lemma seqZ_snoc k : 0 ≤ k → seqZ 0 (k + 1) = seqZ 0 k ++ [k].
Proof. intros Hk. rewrite seqZ_app by lia. by rewrite (seqZ_cons (0 + k) 1). Qed.
Lemma join_cons y l : l ≠ [] → join "," (y :: l) = y +:+ "," +:+ join "," l.
Proof. by destruct l. Qed.
Lemma join_snoc l x : l ≠ [] → join "," (l ++ [x]) = join "," l +:+ "," +:+ x.
Proof.
  induction l as [|y l IH]; intros Hl; [done|]. cbn [app].
  destruct (decide (l = [])) as [->|Hne]; [done|].
  rewrite !join_cons; [|done|by destruct l]. by rewrite IH, !str_app_assoc.
Qed.
Lemma memo_nonempty a i id : memo_of a i id ≠ "".
Proof. unfold memo_of. intros H. apply (f_equal String.length) in H. rewrite !str_length_app in H.
  simpl in H. lia. Qed.
Lemma add_peer_join (l : list string) x :
  Forall (λ s, s ≠ "") l → add_peer (join "," l) x = join "," (l ++ [x]).
Proof.
  intros Hl. unfold add_peer. destruct l as [|y l]; [done|].
  rewrite join_snoc by done. destruct (String.eqb_spec (join "," (y :: l)) "") as [He|]; [|done].
  apply Forall_inv in Hl. apply (f_equal String.length) in He.
  destruct (decide (l = [])) as [->|Hne]; [by destruct y|]. rewrite join_cons in He by done.
  rewrite !str_length_app in He. simpl in He. lia.
Qed.

Lemma made_step a r0 k r r' u :
  names_ok a → file_backend (keyringBackend a) → 0 ≤ k < numValidators a →
  made a r0 k r → make_node a k r = (r', Ok u) → made a r0 (k + 1) r'.
Proof.
  intros Ha Hb Hk M H. pose proof H as Hmake. apply make_node_ok in H;
    [|done..|by rewrite (made_ids _ _ _ _ M); lia|by rewrite (made_keys _ _ _ _ M); lia].
  destruct H as (id & key & addr & cs & tx & Hid & Hcs & Hident & Htx & O & Hr & Happ & Hbld & Hf & Hg).
  assert (Hold : ∀ i, 0 ≤ i < k → node_id i r' = node_id i r).
  { intros i Hi. unfold node_id. rewrite Hbld. simpl. by rewrite list_lookup_insert_ne by lia. }
  assert (Hnew : node_id k r' = id).
  { unfold node_id. rewrite Hbld. simpl. rewrite list_lookup_insert_eq; [done|].
    rewrite (made_ids _ _ _ _ M). lia. }
  assert (Hmap : ∀ B (f : Z → string → B),
    map (λ i, f i (node_id i r')) (seqZ 0 (k + 1)) =
    map (λ i, f i (node_id i r)) (seqZ 0 k) ++ [f k id]).
  { intros B f. rewrite seqZ_snoc by lia. rewrite map_app. simpl. rewrite Hnew. f_equal.
    apply map_ext_in. intros i Hi%list_elem_of_In%elem_of_seqZ. by rewrite Hold by lia. }
  destruct M. destruct made_app0 as (g & p & Hap).
  split.
  - by rewrite Hbld; simpl; rewrite length_insert.
  - by rewrite Hbld; simpl; rewrite length_insert.
  - intros i Hi. destruct (decide (i = k)) as [->|]; [by rewrite Hnew|].
    rewrite Hold by lia. apply made_hex0. lia.
  - rewrite Hbld. simpl. rewrite length_app, made_accounts0. simpl. lia.
  - rewrite Hbld. simpl. destruct made_balances0 as [Hl Hall]. rewrite length_app, Hl. simpl.
    split; [lia|]. apply Forall_app. split; [done|]. by repeat constructor.
  - rewrite Hbld. simpl. by rewrite made_genesis0, seqZ_snoc, map_app by lia.
  - rewrite (Hmap _ (memo_of a)), Hbld. simpl. rewrite made_peers0. apply add_peer_join.
    apply Forall_map, Forall_forall. intros i _. apply memo_nonempty.
  - rewrite (Hmap _ (gentx_file a)), Hbld. simpl. by rewrite made_gentxs0.
  - by rewrite Hr.
  - rewrite Happ, Hap. by eexists _, _.
  - intros i Hi. destruct (decide (i = k)) as [->|Hne].
    + rewrite Hf, Happ, Hap. done.
    + rewrite (O (node_path a i ["config"; "app.toml"])); [apply made_files0; lia|].
      intros Ho. apply below_other in Ho. lia.
  - rewrite seqZ_snoc, for_each_app, (bind_run _ _ _ _ _ made_run0) by lia. simpl.
    destruct u. by rewrite (bind_run _ _ _ _ _ Hmake).
  - intros i Hi'. destruct (decide (i = k)) as [->|Hne].
    { exists r, key, tx. by rewrite Hnew. }
    destruct (made_tx0 i ltac:(lia)) as (ri & key' & tx' & R1 & R2 & R3 & R4).
    exists ri, key', tx'. rewrite Hold by lia. split_and!; [done..|].
    rewrite (O (gentx_path a i (node_id i r))); [done|].
    intros Ho. apply below_other in Ho. lia.
Qed.
End Loop.

(** ** The last loop *)
Section Collect.
Context {E : Env} {T : TestnetSdk} {OS : Os} {TL : TestnetLaws}.
Context {JA : JsonCodec AuthGenesis} {JB : JsonCodec BankGenesis}.
Implicit Types (a : initArgs) (i j k : Z) (r : Run).

(** The configuration of a node that is done. *)
Definition node_config a i (peers rest : string) : NodeConfig :=
  mkNodeConfig (nodeDir a i) (nodeDirName a i)
    ("tcp://127.0.0.1:" +:+ Itoa (abci_port i)) ("tcp://127.0.0.1:" +:+ port_of a i)
    ("tcp://0.0.0.0:" +:+ Itoa (p2p_port i)) peers true
    (":" +:+ Itoa (prometheus_port i)) true rest.
Definition config_path a i : Path := node_path a i ["config"; "config.toml"].
Definition genesis_path a i : Path := node_path a i ["config"; "genesis.json"].
Definition rewritten a i (p : Path) : Prop := p = config_path a i ∨ p = genesis_path a i.

Lemma config_path_ok a i :
  names_ok a → resolve (JoinPath [nodeDir a i; "config"; "config.toml"]) = config_path a i.
Proof. intros Ha. apply in_node_path; [done..|by repeat constructor]. Qed.
Lemma genesis_path_ok a i : names_ok a → resolve (genesis_file a i) = genesis_path a i.
Proof. intros Ha. apply in_node_path; [done..|by repeat constructor]. Qed.

Lemma collect_node_ok a ids keys peers t i st r r' st' :
  names_ok a → collect_node a ids keys peers t i st r = (r', Ok st') →
  only (rewritten a i) (r_disk r) (r_disk r') ∧
  r_cfg r' = node_config a i peers (nc_rest (r_cfg r)) ∧
  is_Some st' ∧ (is_Some st → st' = st) ∧
  d_files (r_disk r') !! config_path a i = Some (render_cmt (r_cfg r')) ∧
  d_files (r_disk r') !! genesis_path a i = Some (render_genesis (chainID a) st' t).
Proof.
  intros Ha H. unfold collect_node, config in H.
  apply bind_ok_inv in H as ([] & ? & ->%modify_inv & H).
  apply bind_ok_inv in H as ([] & ? & ->%modify_inv & H).
  apply bind_ok_inv in H as ([id key] & r1 & H1 & H).
  assert (r1 = set_cfg (SetRoot (nodeDir a i) (set_Moniker (nodeDirName a i) (r_cfg r))) r) as ->.
  { destruct (ids !! Z.to_nat i), (keys !! Z.to_nat i); try done. by apply ret_inv in H1 as [-> _]. }
  clear H1. rewrite SetRoot_spec in H.
  apply bind_ok_inv in H as (? & ? & [-> ->]%gets_inv & H).
  apply bind_ok_inv in H as (g & ? & H1%on_disk_inv & H). destruct H1 as (d1 & H1 & ->).
  apply (respects_run _ _ _ _ _ (AppGenesis_only _)) in H1.
  apply bind_ok_inv in H as ([c' ns] & ? & H2%on_disk_inv & H). destruct H2 as (d2 & H2 & ->).
  pose proof (respects_run _ _ _ _ _ (GenAppState_only _ _ _ _ _ _) H2) as O2.
  apply GenAppState_config in H2 as (Hns & HR & HM & Hnc).
  apply bind_ok_inv in H as ([] & ? & ->%modify_inv & H).
  apply bind_ok_inv in H as (? & ? & [-> ->]%gets_inv & H).
  apply bind_ok_inv in H as ([] & ? & H3%on_disk_inv & H). destruct H3 as (d3 & H3 & ->).
  apply bind_ok_inv in H as ([] & ? & H4%on_disk_inv & H). destruct H4 as (d4 & H4 & ->).
  apply ret_inv in H as [-> ->].
  assert (Hcfg : final_config a i peers c' = node_config a i peers (nc_rest (r_cfg r))).
  { unfold final_config, node_config. by rewrite HR, HM, Hnc. }
  simpl in *. rewrite !GenesisFile_spec in *. simpl in *. rewrite Hcfg in *. simpl in *. rewrite ?HR in *.
  fold (genesis_file a i) in *.
  pose proof (respects_run _ _ _ _ _ (cmt_write_only _ _) H3) as O3.
  apply cmt_write_ok in H3.
  pose proof (respects_run _ _ _ _ _ (Export_only _ _ _ _) H4) as O4.
  apply Export_ok in H4.
  simpl in *. rewrite ?config_path_ok, ?genesis_path_ok in * by done.
  split; [|split; [done|split; [|split; [|split]]]].
  - etransitivity; [eapply only_weaken; [|exact H1]; done|].
    etransitivity; [exact O2|]. etransitivity.
    + eapply only_weaken; [|exact O3]. intros p ->. by left.
    + eapply only_weaken; [|exact O4]. intros p ->. by right.
  - destruct st; [by eexists|done].
  - by intros [s ->].
  - rewrite (O4 (config_path a i)); [done|]. intros He. by apply node_path_inj in He as [_ He].
  - done.
Qed.

(** What there is after [k] turns, for a state of the application that is carried on. *)
Record canonical a (peers rest : string) (t : Z) (r0 : Run) k (st : Slice) r : Prop := {
  can_state : 0 < k → is_Some st;
  can_rest : nc_rest (r_cfg r) = rest;
  can_only : only (λ p, ∃ i, 0 ≤ i < k ∧ rewritten a i p) (r_disk r0) (r_disk r);
  can_config i : 0 ≤ i < k →
    d_files (r_disk r) !! config_path a i = Some (render_cmt (node_config a i peers rest));
  can_genesis i : 0 ≤ i < k →
    d_files (r_disk r) !! genesis_path a i = Some (render_genesis (chainID a) st t)
}.

Lemma rewritten_other a i j p : rewritten a i p → rewritten a j p → i = j.
Proof. by intros [-> | ->] [H|H]; apply node_path_inj in H as [H _]. Qed.

Lemma canonical_step a ids keys peers rest t r0 k st r st' r' :
  names_ok a → 0 ≤ k → canonical a peers rest t r0 k st r →
  collect_node a ids keys peers t k st r = (r', Ok st') →
  canonical a peers rest t r0 (k + 1) st' r'.
Proof.
  intros Ha Hk [C1 C2 C3 C4 C5] H.
  apply collect_node_ok in H as (O & Hc & Hs & Heq & F1 & F2); [|done].
  assert (Hsame : ∀ i p, 0 ≤ i < k → rewritten a i p →
    d_files (r_disk r') !! p = d_files (r_disk r) !! p).
  { intros i p Hi Hp. apply O. intros Hp'. pose proof (rewritten_other _ _ _ _ Hp Hp'). lia. }
  split; [done|by rewrite Hc| | |].
  - etransitivity; eapply only_weaken; [|exact C3| |exact O]; simpl.
    + intros p (i & Hi & Hp). exists i. split; [lia|done].
    + intros p Hp. exists k. split; [lia|done].
  - intros i Hi. destruct (decide (i = k)) as [->|]; [by rewrite F1, Hc, C2|].
    rewrite (Hsame i); [|lia|by left]. apply C4. lia.
  - intros i Hi. destruct (decide (i = k)) as [->|]; [done|].
    rewrite (Hsame i); [|lia|by right]. rewrite Heq; [|apply C1; lia]. apply C5. lia.
Qed.

Lemma collect_loop_ok a ids keys peers rest t r0 n k m st r r' u :
  names_ok a → 0 ≤ k → k + Z.of_nat m = n → canonical a peers rest t r0 k st r →
  collect_loop (collect_node a ids keys peers t) (seqZ k (Z.of_nat m)) st r = (r', Ok u) →
  ∃ st', canonical a peers rest t r0 n st' r'.
Proof.
  intros Ha. revert k st r. induction m as [|m IH]; intros k st r Hk Hm C H.
  - injection H as <- _. exists st. by replace n with k by lia.
  - rewrite seqZ_cons in H by lia. cbn [collect_loop] in H.
    apply bind_ok_inv in H as (st1 & r1 & H1 & H).
    replace (Z.pred (Z.of_nat (Datatypes.S m))) with (Z.of_nat m) in H by lia.
    replace (Z.succ k) with (k + 1) in H by lia.
    eapply (IH (k + 1) st1 r1); [lia..| |exact H].
    by eapply canonical_step.
Qed.
End Collect.

(** ** The genesis transactions go everywhere *)
Lemma for_each_map {S A B} (f : A → B) (l : list A) (body : B → stM S unit) s :
  for_each (map f l) body s = for_each l (λ x, body (f x)) s.
Proof.
  revert s. induction l as [|x l IH]; intros s; cbn [map for_each]; [done|].
  by apply bind_cong.
Qed.

Section Copies.
Context {E : Env} {T : TestnetSdk} {OS : Os} {TL : TestnetLaws}.
Context {JA : JsonCodec AuthGenesis} {JB : JsonCodec BankGenesis}.
(** The process runs in a directory that can be asked for. *)
Context (Hcwd : Forall (λ c, plain c = true) cwd) (Hwd : Getwd_err = None).
Implicit Types (a : initArgs) (i j k : Z) (d : Disk).

Lemma node_path_plain a i cs :
  names_ok a → Forall (λ c, plain c = true) cs → Forall (λ c, plain c = true) (node_path a i cs).
Proof using Hcwd.
  intros Ha Hc. apply Forall_app. split; [by apply resolve_words|].
  constructor; [by apply nodeDirName_plain|done].
Qed.
Lemma Abs_total s : Abs s = inl (show_path true (resolve s)).
Proof using Hcwd Hwd.
  destruct (Abs s) as [p|e] eqn:H.
  - f_equal. by apply Abs_resolve.
  - unfold Abs in H. rewrite Hwd in H. by destruct (IsAbs s).
Qed.
Lemma gentxsDir_of_path a j :
  names_ok a → resolve (gentxsDir_of (nodeDir a j)) = node_path a j ["config"; "gentx"].
Proof. intros Ha. unfold gentxsDir_of. apply in_node_path; [done..|by repeat constructor]. Qed.

Lemma gentx_name_inj x y : gentx_name x = gentx_name y → x = y.
Proof.
  intros H%str_app_inv_head. apply str_app_inv_length in H as [H _]; [done|].
  apply (f_equal String.length) in H. rewrite !str_length_app in H. lia.
Qed.
Lemma gentx_name_down id : HasPrefix (gentx_name id) ".." = false.
Proof. done. Qed.
(** Only its own transaction is in the directory of a node before the copies. *)
Lemma isSubDir_spec a i j id :
  names_ok a → no_char slash id = true →
  isSubDir (gentx_file a i id) (gentxsDir_of (nodeDir a j)) = inl (bool_decide (i = j)).
Proof using Hcwd Hwd.
  intros Ha Hid. unfold isSubDir. rewrite !Abs_total, gentxsDir_of_path, gentx_file_path by done.
  unfold gentx_path.
  assert (Hp : Forall (λ c, plain c = true) ["config"; "gentx"]) by (by repeat constructor).
  destruct (Rel_shown (node_path a j ["config"; "gentx"])
              (node_path a i ["config"; "gentx"; gentx_name id])) as (rel & -> & Hout & Hin).
  { by apply node_path_plain. }
  { apply node_path_plain; [done|]. repeat constructor. by apply gentx_name_plain. }
  destruct (decide (i = j)) as [->|Hne].
  - destruct (Hin (gentx_name id) []) as [-> ->].
    + unfold node_path. by rewrite <- app_assoc.
    + apply gentx_name_down.
    + by rewrite bool_decide_true.
  - rewrite Hout, bool_decide_false; [done..|].
    apply not_true_iff_false. intros [r Hr]%below_app. unfold node_path in Hr.
    rewrite <- app_assoc in Hr. apply app_inv_head in Hr. injection Hr as Hr _.
    by apply nodeDirName_inj in Hr.
Qed.

Lemma copy_target a i j id :
  names_ok a → no_char slash id = true →
  resolve (JoinPath [gentxsDir_of (nodeDir a j); Base (gentx_file a i id)]) = gentx_path a j id.
Proof.
  intros Ha Hid. pose proof (gentx_name_plain id Hid) as Hp. unfold gentx_file.
  fold (gentx_name id).
  rewrite (Base_Join (gentxsDir a i) [] (gentx_name id)
             ltac:(by repeat constructor) : Base (JoinPath [_; _]) = _).
  rewrite resolve_Join; [|done|by repeat constructor]. rewrite gentxsDir_of_path by done.
  unfold gentx_path, node_path. by rewrite <- app_assoc.
Qed.
Lemma copyFile_ok src dir d d' u :
  resolve (JoinPath [dir; Base src]) ≠ resolve src →
  copyFile src dir d = (d', Ok u) →
  ∃ c, d_files d !! resolve src = Some c ∧
       d_files d' !! resolve (JoinPath [dir; Base src]) = Some c ∧
       only (.= resolve (JoinPath [dir; Base src])) d d'.
Proof.
  intros Hne H. unfold copyFile in H. set (dst := JoinPath [dir; Base src]) in *.
  apply bind_ok_inv in H as ([] & d1 & H1%os_Open_run & H). destruct H1 as [-> [c Hc]].
  apply bind_ok_inv in H as ([] & d1 & H1 & H).
  apply (respects_run _ _ _ _ _ (os_Create_only dst (.= resolve dst) eq_refl)) in H1.
  apply bind_ok_inv in H as (b & d2 & H2%os_Read_run & H). destruct H2 as [-> ->].
  rewrite (H1 (resolve src)), Hc in H by done. simpl in H.
  apply bind_ok_inv in H as ([] & d2 & H2 & H).
  assert (d2 = d1) as -> by (unfold refuse in H2; case_match; by step_inv).
  apply bind_ok_inv in H as ([] & d3 & H3%modify_inv & H).
  assert (d' = d3) as -> by (unfold refuse in H; case_match; by step_inv). subst d3.
  exists c. split; [done|]. simpl. split; [apply lookup_insert_eq|].
  etransitivity; [exact H1|]. intros p Hp. simpl. apply lookup_insert_ne. by intros <-.
Qed.

(** The transactions and where they are: [ids] and [tx] by node. *)
Definition copied a (ids : Z → string) (tx : Z → string) n (D : Z → Z → Prop) d : Prop :=
  ∀ i j, 0 ≤ i < n → i = j ∨ D i j → d_files d !! gentx_path a j (ids i) = Some (tx i).

Lemma copy_one a ids tx n (D : Z → Z → Prop) i j d d' u :
  names_ok a → (∀ k, 0 ≤ k < n → no_char slash (ids k) = true) →
  (∀ k l, 0 ≤ k < n → 0 ≤ l < n → ids k = ids l → k = l) → 0 ≤ i < n →
  copied a ids tx n D d →
  match isSubDir (gentx_file a i (ids i)) (gentxsDir_of (nodeDir a j)) with
  | inr _ | inl true => mret tt
  | inl false => copyFile (gentx_file a i (ids i)) (gentxsDir_of (nodeDir a j))
  end d = (d', Ok u) →
  copied a ids tx n (λ k l, D k l ∨ k = i ∧ l = j) d'.
Proof using Hcwd Hwd.
  intros Ha Hid Hinj Hi C H. rewrite isSubDir_spec in H by auto.
  destruct (decide (i = j)) as [<-|Hne].
  { rewrite bool_decide_true in H by done. apply ret_inv in H as [-> _].
    intros k l Hk [Hl|[Hl|[-> ->]]]; apply C; auto. }
  rewrite bool_decide_false in H by done.
  assert (Hp : gentx_path a j (ids i) ≠ gentx_path a i (ids i)) by (by intros [??]%node_path_inj).
  apply copyFile_ok in H as (c & Hc & Hd & O);
    rewrite ?copy_target, ?gentx_file_path in * by auto; [|done].
  rewrite (C i i Hi) in Hc by (by left). injection Hc as <-.
  intros k l Hk Hkl. destruct (decide (gentx_path a l (ids k) = gentx_path a j (ids i))) as [He|Hx].
  - rewrite He, Hd. f_equal. f_equal. symmetry. apply Hinj; [done..|].
    apply node_path_inj in He as [_ He]. apply gentx_name_inj.
    by apply (f_equal (λ p, nth 2 p "")) in He.
  - rewrite O by done. apply C; [done|].
    destruct Hkl as [Hkl|[Hkl|[-> ->]]]; [by left|by right|by destruct Hx].
Qed.

Lemma copied_weaken a ids tx n (D D' : Z → Z → Prop) d :
  (∀ i j, 0 ≤ i < n → D' i j → i = j ∨ D i j) → copied a ids tx n D d → copied a ids tx n D' d.
Proof. intros HD C i j Hi [->|H]; apply C; auto. Qed.

Lemma copy_gentxs_ok a ids tx d d' u :
  names_ok a → 0 ≤ numValidators a →
  (∀ k, 0 ≤ k < numValidators a → no_char slash (ids k) = true) →
  (∀ k l, 0 ≤ k < numValidators a → 0 ≤ l < numValidators a → ids k = ids l → k = l) →
  copied a ids tx (numValidators a) (λ _ _, False) d →
  copy_gentxs a (map (λ i, gentx_file a i (ids i)) (seqZ 0 (numValidators a))) d = (d', Ok u) →
  copied a ids tx (numValidators a) (λ _ j, 0 ≤ j < numValidators a) d'.
Proof using Hcwd Hwd.
  intros Ha Hn Hid Hinj C H. unfold copy_gentxs in H. set (n := numValidators a) in *.
  apply (for_each_seqZ (λ j, copied a ids tx n (λ _ l, 0 ≤ l < j))) in H; [done..| |].
  { eapply copied_weaken; [|exact C]. intros i j Hi Hj. lia. }
  clear d d' u C H. intros j d d' u Hj C H. rewrite for_each_map in H.
  apply (for_each_seqZ (λ i, copied a ids tx n (λ k l, 0 ≤ l < j ∨ k < i ∧ l = j))) in H; [|done|..].
  - eapply copied_weaken; [|exact H]. intros i l Hi Hl. right. lia.
  - eapply copied_weaken; [|exact C]. intros i l Hi Hl. right. lia.
  - clear d d' u C H. intros i d d' u Hi C H. eapply copy_one in H; [|done..|exact C].
    eapply copied_weaken; [|exact H]. intros k l Hk Hl. simpl. right. lia.
Qed.

Lemma copyFile_only src dir :
  respects (only (.= resolve (JoinPath [dir; Base src]))) (copyFile src dir).
Proof.
  assert (Hr : ∀ op p P, respects (only P) (refuse op p)) by (intros; unfold refuse; respects).
  unfold copyFile. set (dst := JoinPath [dir; Base src]).
  apply respects_bind; [apply _|unfold os_Open; respects; apply Hr|intros _].
  apply respects_bind; [apply _|by apply os_Create_only|intros _].
  apply respects_bind; [apply _|unfold os_Read; respects; apply Hr|intros c].
  apply respects_bind; [apply _|apply Hr|intros _].
  apply respects_bind; [apply _| |intros _; apply Hr].
  apply respects_modify. intros k p Hp. simpl. apply lookup_insert_ne. by intros <-.
Qed.
End Copies.

Section Frame.
Context {E : Env} {T : TestnetSdk} {OS : Os} {TL : TestnetLaws}.
Context {JA : JsonCodec AuthGenesis} {JB : JsonCodec BankGenesis}.
Implicit Types (a : initArgs) (i j k : Z) (r : Run).

Lemma respects_for_each_in {S A} (R : S → S → Prop) `{!PreOrder R} (l : list A) (body : A → stM S unit) :
  (∀ x, x ∈ l → respects R (body x)) → respects R (for_each l body).
Proof.
  induction l as [|x l IH]; intros Hb; simpl; [by apply respects_ret|].
  apply respects_bind; [done|apply Hb; by left|]. intros _. apply IH. intros y Hy. apply Hb. by right.
Qed.

Lemma copy_gentxs_only a (ids : Z → string) n :
  names_ok a → (∀ k, 0 ≤ k < n → no_char slash (ids k) = true) →
  respects (only (λ p, ∃ j id, p = gentx_path a j id))
    (copy_gentxs a (map (λ i, gentx_file a i (ids i)) (seqZ 0 n))).
Proof.
  intros Ha Hid. unfold copy_gentxs. apply respects_for_each; [apply _|]. intros j.
  apply respects_for_each_in; [apply _|]. intros file Hf.
  apply list_elem_of_fmap in Hf as (i & -> & Hi%elem_of_seqZ).
  cbv beta zeta. destruct (isSubDir _ _) as [[]|]; [apply respects_ret; apply _| |apply respects_ret; apply _].
  intros d. eapply only_weaken; [|apply copyFile_only]. simpl. intros p ->.
  rewrite copy_target by (try done; apply Hid; lia). eauto.
Qed.

Lemma initGenFiles_step a chain accs bals n m :
  names_ok a →
  respects (disk_step (λ p, ∃ j, p = genesis_path a j))
    (initGenFiles chain accs bals (map (genesis_file a) (seqZ 0 n)) m).
Proof.
  intros Ha. unfold initGenFiles.
  pose proof (λ A x, @disk_step_must T A x (λ p, ∃ j, p = genesis_path a j)) as Hm.
  pose proof (λ A x, @disk_step_or_throw T A x (λ p, ∃ j, p = genesis_path a j)) as Ht.
  cbv zeta. apply respects_bind; [apply _|apply Hm|intros auth].
  apply respects_bind; [apply _|apply Ht|intros packed].
  apply respects_bind; [apply _|apply Hm|intros aj].
  apply respects_bind; [apply _|apply Hm|intros bank].
  apply respects_bind; [apply _|apply Hm|intros bj].
  apply respects_bind; [apply _|apply Ht|intros app].
  apply respects_for_each; [apply _|]. intros i.
  destruct (map _ _ !! _) as [file|] eqn:Hf; [|by apply respects_panic; apply _].
  apply list_elem_of_lookup_2, list_elem_of_fmap in Hf as (j & -> & _).
  apply disk_step_disk. intros d. eapply only_weaken; [|apply SaveAs_only]. simpl. intros p ->.
  rewrite genesis_path_ok by done. eauto.
Qed.
End Frame.

(** ** The whole run *)
Section Whole.
Context {E : Env} {T : TestnetSdk} {OS : Os} {TL : TestnetLaws}.
Context {JA : JsonCodec AuthGenesis} {JB : JsonCodec BankGenesis}.
Implicit Types (a : initArgs) (i j k : Z) (r : Run).

Lemma named_ok a r r' a' :
  named a r = (r', Ok a') →
  (∃ chain, a' = set_chainID chain a ∧ (chainID a ≠ "" → chain = chainID a)) ∧
  r_cfg r' = r_cfg r.
Proof.
  unfold named, generateRandomString. destruct (String.eqb_spec (chainID a) "") as [He|Hne]; intros H.
  - apply bind_ok_inv in H as (s & r1 & H & [-> ->]%ret_inv).
    apply bind_ok_inv in H as (x & r2 & H & [-> ->]%ret_inv).
    apply (respects_run _ _ _ _ _ (disk_step_sys _ (λ _, False))) in H as (_ & Hc & _).
    split; [|done]. eexists. by split.
  - apply ret_inv in H as [-> ->]. split; [|done]. exists (chainID a). split; [by destruct a|done].
Qed.

(** The state in which the first loop begins, and node [i] of a run: its identifier and
    its transaction, made in the state that the turns before leave. *)
Definition begins a r (b : initArgs) (r0 : Run) : Prop :=
  ∃ rn, named a r = (rn, Ok b) ∧
    r0 = set_app (node_app_config b DefaultConfig)
           (set_build (first_build (numValidators b)) rn).
Definition node_of a r i (id tx : string) : Prop :=
  ∃ b r0 ri key, begins a r b r0 ∧ for_each (seqZ 0 i) (make_node b) r0 = (ri, Ok tt) ∧
    node_identity b i ri id key ∧ node_tx b i ri id key tx.

(** There is one such identifier and one such transaction. *)
Lemma node_of_det a r i id tx id' tx' :
  node_of a r i id tx → node_of a r i id' tx' → id = id' ∧ tx = tx'.
Proof.
  intros (b & r0 & ri & key & (rn & Hn & ->) & Hri & (d & x & Hd & Hx) & r2 & r3 & kb & addr &
            H2 & H3 & st & msg & tb & sy & tb' & T1 & T2 & T3 & T4 & T5)
    (b' & r0' & ri' & key' & (rn' & Hn' & ->) & Hri' & (d' & x' & Hd' & Hx') & r2' & r3' & kb' &
       addr' & H2' & H3' & st' & msg' & tb1 & sy' & tb1' & T1' & T2' & T3' & T4' & T5').
  rewrite Hn in Hn'. injection Hn' as <- <-. rewrite Hri in Hri'. injection Hri' as <-.
  rewrite Hd in Hd'. injection Hd' as <-. rewrite Hx in Hx'. injection Hx' as <- <- <-.
  rewrite H2 in H2'. injection H2' as <-. rewrite H3 in H3'. injection H3' as <- <- <-.
  rewrite T1 in T1'. injection T1' as <-. rewrite T2 in T2'. injection T2' as <-.
  rewrite T3 in T3'. injection T3' as <-. rewrite T4 in T4'. injection T4' as <- <-.
  rewrite T5 in T5'. injection T5' as <-. done.
Qed.

Lemma made_0 a r : r_build r = first_build (numValidators a) → made a r 0 r.
Proof.
  intros Hb. split; rewrite ?Hb; simpl; rewrite ?length_replicate; try done; try lia.
  exists (GRPC_Address (r_app r)), (API_Address (r_app r)). by destruct (r_app r).
Qed.

(** The stages of a run that returns: the nodes are made, then genesis files are written,
    transactions are copied and everything is collected. *)
Lemma initTestnetFiles_ok a r r' u :
  names_ok a → file_backend (keyringBackend a) → initTestnetFiles a r = (r', Ok u) →
  ∃ chain r0 r1 r2 d st t, let b := set_chainID chain a in
    0 ≤ numValidators a ∧ (chainID a ≠ "" → chain = chainID a) ∧ begins a r b r0 ∧
    nc_rest (r_cfg r1) = nc_rest (r_cfg r) ∧ r_app r0 = node_app_config a DefaultConfig ∧
    made b r0 (numValidators a) r1 ∧
    only (λ p, ∃ j, p = genesis_path b j) (r_disk r1) d ∧
    copy_gentxs b (gentxsFiles (r_build r1)) d = (r_disk r2, Ok tt) ∧
    canonical b (persistentPeers (r_build r1)) (nc_rest (r_cfg r)) t r2 (numValidators a) st r'.
Proof.
  intros Ha Hb H. unfold initTestnetFiles in H.
  apply bind_ok_inv in H as (a' & r1 & Hnamed & H).
  pose proof Hnamed as [(chain & -> & Hch) Hc1]%named_ok.
  set (b := set_chainID chain a) in *. cbv zeta in H. change (numValidators b) with (numValidators a) in H.
  destruct (Z.ltb_spec (numValidators a) 0) as [|Hn].
  { apply bind_ok_inv in H as (? & ? & H & _). done. }
  apply bind_ok_inv in H as (? & ? & [-> _]%ret_inv & H).
  apply bind_ok_inv in H as (? & ? & ->%modify_inv & H).
  apply bind_ok_inv in H as (? & ? & ->%modify_inv & H).
  apply bind_ok_inv in H as ([] & r2 & H1 & H).
  match type of H1 with for_each _ _ ?x = _ => set (r0 := x) in * end.
  assert (M : made b r0 (numValidators a) r2).
  { apply (for_each_seqZ (made b r0)) in H1; [done..| |].
    - by apply made_0.
    - intros i s s' v Hi Hs Hstep. by eapply made_step. }
  apply bind_ok_inv in H as (? & ? & [-> ->]%gets_inv & H).
  apply bind_ok_inv in H as ([] & r3 & H3 & H).
  rewrite (made_genesis _ _ _ _ M) in H3.
  apply (respects_run _ _ _ _ _ (initGenFiles_step b _ _ _ _ _ Ha)) in H3 as (O3 & C3 & _).
  apply bind_ok_inv in H as ([] & r4 & H4%on_disk_inv & H). destruct H4 as (d & H4 & ->).
  unfold collectGenFiles in H. apply bind_ok_inv in H as (t & r5 & H5 & H).
  apply (respects_run _ _ _ _ _ (disk_step_sys _ (λ _, False))) in H5 as (O5 & C5 & _ & _).
  change (numValidators b) with (numValidators a) in H.
  rewrite <- (Z2Nat.id (numValidators a)) in H by done.
  assert (Hr2 : nc_rest (r_cfg r2) = nc_rest (r_cfg r)).
  { rewrite (made_rest _ _ _ _ M). simpl. by rewrite Hc1. }
  eapply (collect_loop_ok b _ _ _ (nc_rest (r_cfg r)) t
            (mkRun d (r_sys r5) (r_cfg r5) (r_app r5) (r_build r5)) (numValidators a) 0) in H
    as [st C]; [|done|done|lia|].
  - exists chain, r0, r2, (mkRun d (r_sys r5) (r_cfg r5) (r_app r5) (r_build r5)), (r_disk r3), st, t.
    cbv zeta. assert (begins a r b r0) by by exists r1.
    by repeat match goal with |- _ ∧ _ => split end.
  - split; try (intros; lia).
    + by rewrite C5; simpl; rewrite C3.
    + intros p _. simpl. rewrite O5 by tauto. done.
Qed.

Lemma final_files a r1 r2 r' d st t peers rest n p :
  only (λ p, ∃ j, p = genesis_path a j) (r_disk r1) d →
  canonical a peers rest t r2 n st r' →
  (∀ j, p ≠ genesis_path a j) → (∀ j, p ≠ config_path a j) →
  d_files (r_disk r2) !! p = d_files d !! p → 
  d_files (r_disk r') !! p = d_files (r_disk r1) !! p.
Proof.
  intros O C Hg Hc Hd. rewrite (can_only _ _ _ _ _ _ _ _ C), Hd, O; [done|..].
  - intros [j Hj]. by apply (Hg j).
  - intros (j & _ & [Hj|Hj]); [by apply (Hc j)|by apply (Hg j)].
Qed.

(** The nodes of a run that returns, with their transactions where they are made. *)
Lemma run_nodes a r b r0 r1 :
  begins a r b r0 → numValidators b = numValidators a → made b r0 (numValidators a) r1 →
  ∃ tx : Z → string, ∀ i, 0 ≤ i < numValidators a →
    node_of a r i (node_id i r1) (tx i) ∧
    d_files (r_disk r1) !! gentx_path b i (node_id i r1) = Some (tx i).
Proof.
  intros Hb _ M.
  exists (λ i, default "" (d_files (r_disk r1) !! gentx_path b i (node_id i r1))). intros i Hi.
  destruct (made_tx _ _ _ _ M i Hi) as (ri & key & tx & R1 & R2 & R3 & R4). rewrite R4. simpl.
  split; [|done]. by exists b, r0, ri, key.
Qed.

(** C23 (functional). When [multi-node] returns, every node has what it needs to run: a
    configuration with its own addresses and the peers of all nodes, each under the
    identifier that initializing that node returned, an app.toml whose minimum gas price
    is 0.0001ucsv whatever the flag says, and the same genesis as the other nodes. (The
    prefix of the nodes' directories has no slash, and the keyring is one of those that
    keep their keys in files, "test" or "file"; the flag also allows "os".) *)
Theorem testnet_files a r r' u :
  names_ok a → file_backend (keyringBackend a) → initTestnetFiles a r = (r', Ok u) →
  ∃ chain (ids tx : Z → string) state t, (chainID a ≠ "" → chain = chainID a) ∧
    ∀ i, 0 ≤ i < numValidators a →
      node_of a r i (ids i) (tx i) ∧
      d_files (r_disk r') !! config_path a i =
        Some (render_cmt (node_config a i
          (join "," (map (λ j, memo_of a j (ids j)) (seqZ 0 (numValidators a))))
          (nc_rest (r_cfg r)))) ∧
      (∃ app, d_files (r_disk r') !! node_path a i ["config"; "app.toml"] = Some (render_app app) ∧
        MinGasPrices app = "0.0001ucsv" ∧
        GRPC_Address app = startingIPAddress a +:+ ":" +:+ Itoa (grpc_port i) ∧
        API_Address app = "tcp://localhost:" +:+ Itoa (api_port i)) ∧
      d_files (r_disk r') !! genesis_path a i = Some (render_genesis chain (Some state) t).
Proof.
  intros Ha Hb H. destruct (initTestnetFiles_ok a r r' u Ha Hb H)
    as (chain & r0 & r1 & r2 & d & st & t & Hn & Hch & Hbeg & Hr & Happ & M & O & Hcp & C).
  set (b := set_chainID chain a) in *.
  destruct (run_nodes a r b r0 r1 Hbeg eq_refl M) as (tx & Hnodes).
  exists chain, (λ j, node_id j r1), tx, (default "" st), t.
  split; [done|]. intros i Hi. split; [by apply Hnodes|]. split; [|split].
  - pose proof (can_config _ _ _ _ _ _ _ _ C i Hi) as F.
    rewrite (made_peers _ _ _ _ M) in F. exact F.
  - exists (app_of b i (r_app r0)). split; [|by rewrite Happ].
    change (node_path a i ["config"; "app.toml"]) with (node_path b i ["config"; "app.toml"]).
    etransitivity; [|exact (made_files _ _ _ _ M i Hi)].
    apply (final_files b r1 r2 r' d st t _ _ _ _ O C).
    + by intros j [_ ?]%node_path_inj.
    + by intros j [_ ?]%node_path_inj.
    + rewrite (made_gentxs _ _ _ _ M) in Hcp.
      eapply (respects_run (only _)) in Hcp;
        [|by apply (copy_gentxs_only b (λ i, node_id i r1) (numValidators a) Ha (made_hex _ _ _ _ M))].
      apply Hcp. by intros (j & id & [_ ?]%node_path_inj).
  - pose proof (can_genesis _ _ _ _ _ _ _ _ C i Hi) as F.
    destruct (can_state _ _ _ _ _ _ _ _ C) as [s ->]; [lia|exact F].
Qed.

(** C24 (functional). When [multi-node] returns, each node has one identifier, the one its
    initialization returned, and one transaction, the one that creates its validator,
    signed with the key of its account under the chain's name; and if the identifiers
    differ, the transaction of every node is in the directory of every node, under the
    identifier of the node that made it. (The prefix of the nodes' directories has no
    slash, the keyring keeps its keys in files, and the working directory can be read and
    is an ordinary path.) *)
Theorem testnet_gentxs a r r' u :
  Forall (λ c, plain c = true) cwd → Getwd_err = None →
  names_ok a → file_backend (keyringBackend a) → initTestnetFiles a r = (r', Ok u) →
  (∀ i, 0 ≤ i < numValidators a → ∃ id tx, node_of a r i id tx) ∧
  ∀ ids tx : Z → string,
    (∀ i, 0 ≤ i < numValidators a → node_of a r i (ids i) (tx i)) →
    (∀ i j, 0 ≤ i < numValidators a → 0 ≤ j < numValidators a → ids i = ids j → i = j) →
    ∀ i j, 0 ≤ i < numValidators a → 0 ≤ j < numValidators a →
      d_files (r_disk r') !! gentx_path a j (ids i) = Some (tx i).
Proof.
  intros Hcwd Hwd Ha Hb H. destruct (initTestnetFiles_ok a r r' u Ha Hb H)
    as (chain & r0 & r1 & r2 & d & st & t & Hn & Hch & Hbeg & Hr & Happ & M & O & Hcp & C).
  set (b := set_chainID chain a) in *.
  destruct (run_nodes a r b r0 r1 Hbeg eq_refl M) as (tx1 & Hnodes).
  split. { intros i Hi. eexists _, _. by apply Hnodes. }
  intros ids tx Hids Hinj.
  assert (Heq : ∀ i, 0 ≤ i < numValidators a → ids i = node_id i r1 ∧ tx i = tx1 i).
  { intros i Hi. destruct (Hnodes i Hi) as [Hno _]. by eapply node_of_det; [apply Hids|]. }
  intros i j Hi Hj. destruct (Heq i Hi) as [-> ->].
  change (gentx_path a j (node_id i r1)) with (gentx_path b j (node_id i r1)).
  etransitivity.
  { apply (can_only _ _ _ _ _ _ _ _ C).
    by intros (k & _ & [[_ ?]%node_path_inj|[_ ?]%node_path_inj]). }
  rewrite (made_gentxs _ _ _ _ M) in Hcp.
  eapply (copy_gentxs_ok Hcwd Hwd b (λ j, node_id j r1) tx1) in Hcp;
    [apply (Hcp i j Hi); by right|done..|apply (made_hex _ _ _ _ M)| |].
  - intros k l Hk Hl Hkl. apply Hinj; [done..|].
    by rewrite (proj1 (Heq k Hk)), (proj1 (Heq l Hl)).
  - intros k l Hk [->|[]]. rewrite (O (gentx_path b l (node_id l r1))).
    + by apply Hnodes.
    + by intros [m [_ ?]%node_path_inj].
Qed.

(** ** Ports *)
Definition node_ports a i : list string :=
  [port_of a i; Itoa (p2p_port i); Itoa (abci_port i); Itoa (prometheus_port i);
   Itoa (grpc_port i); Itoa (api_port i)].

Lemma ports_loop_lookup l top m k :
  ports_loop l top m !! k =
  if decide (top ≤ k < top + Z.of_nat (length l)) then l !! Z.to_nat (k - top) else m !! k.
Proof.
  revert top m. induction l as [|p l IH]; intros top m; cbn [ports_loop length].
  - rewrite decide_False by lia. done.
  - rewrite IH. destruct (decide (k = top)) as [->|Hne].
    + rewrite decide_False, decide_True by lia. rewrite lookup_insert_eq. by rewrite Z.sub_diag.
    + rewrite lookup_insert_ne by done. destruct (decide (top + 1 ≤ k < _)).
      * rewrite decide_True by lia. replace (Z.to_nat (k - top)) with (S (Z.to_nat (k - (top + 1)))) by lia.
        done.
      * rewrite decide_False by lia. done.
Qed.
Lemma default_port a i :
  ports a = read_ports (numValidators a) "" → 0 ≤ i < numValidators a →
  port_of a i = Itoa (26657 - 3 * i).
Proof.
  intros Hp Hi. unfold port_of. rewrite Hp. unfold read_ports. cbn [String.eqb].
  rewrite ports_loop_lookup, length_map, length_seqZ, decide_True by lia.
  rewrite list_lookup_fmap, lookup_seqZ_lt by lia. simpl. f_equal. f_equal. lia.
Qed.

(** Without a list of ports, up to 1317 nodes listen on ports that are all
    different and all valid; one more would get the port 0. *)
Theorem ports_distinct a :
  ports a = read_ports (numValidators a) "" → 0 ≤ numValidators a ≤ 1317 →
  NoDup (seqZ 0 (numValidators a) ≫= node_ports a) ∧
  (∀ s, s ∈ seqZ 0 (numValidators a) ≫= node_ports a → ∃ p, s = fmt_d p ∧ 0 < p < 65536) ∧
  Itoa (api_port 1317) = "0".
Proof.
  intros Hp Hn.
  assert (Hi : ∀ i, i ∈ seqZ 0 (numValidators a) → node_ports a i =
    fmt_d <$> [26657 - 3 * i; p2p_port i; abci_port i; prometheus_port i; grpc_port i; api_port i]
    ∧ 0 ≤ i < 1317).
  { intros i Hi%elem_of_seqZ. unfold node_ports. rewrite default_port by (done || lia).
    split; [|lia]. unfold Itoa, p2p_port, abci_port, prometheus_port, grpc_port, api_port.
    by rewrite !i64_id by lia. }
  unfold p2p_port, abci_port, prometheus_port, grpc_port, api_port in *.
  split; [apply NoDup_bind|split; [|done]].
  - intros x y s Hx Hy. destruct (Hi x Hx) as [-> Hx'], (Hi y Hy) as [-> Hy'].
    intros (p & -> & Hp1)%list_elem_of_fmap (q & He & Hq)%list_elem_of_fmap.
    apply fmt_d_inj in He as <-. set_unfold. lia.
  - intros x Hx. destruct (Hi x Hx) as [-> Hx']. apply (NoDup_fmap_2 fmt_d).
    repeat (apply NoDup_cons; split; [set_unfold; lia|]). constructor.
  - apply NoDup_seqZ.
  - intros s (x & Hs & Hx)%list_elem_of_bind. destruct (Hi x Hx) as [He Hx'].
    rewrite He in Hs. apply list_elem_of_fmap in Hs as (p & -> & Hp1). exists p.
    split; [done|]. set_unfold. lia.
Qed.

(** ** The supply of the first genesis *)
Definition sum_balances (bs : list Balance) (d : string) : Z :=
  foldr (λ b s, coins_amount (bal_Coins b) d + s) 0 bs.

Lemma total_supply_amount supply bs d :
  coins_amount (total_supply supply bs) d = coins_amount supply d + sum_balances bs d.
Proof.
  revert supply. induction bs as [|b bs IH]; intros supply; [simpl; lia|].
  change (total_supply supply (b :: bs)) with (total_supply (CoinsAdd supply (bal_Coins b)) bs).
  change (sum_balances (b :: bs) d) with (coins_amount (bal_Coins b) d + sum_balances bs d).
  rewrite IH, CoinsAdd_amount. lia.
Qed.
Lemma sum_balances_perm bs bs' d : bs ≡ₚ bs' → sum_balances bs d = sum_balances bs' d.
Proof. induction 1; simpl; lia. Qed.
Lemma sum_balances_equal bs d z :
  Forall (λ b, coins_amount (bal_Coins b) d = z) bs → sum_balances bs d = z * Z.of_nat (length bs).
Proof. induction 1 as [|b bs Hb _ IH]; cbn [sum_balances foldr length]; [lia|]. fold (sum_balances bs d). lia. Qed.

(** The first genesis is balanced: the supply it declares is what there was
    and the sum of the balances of the nodes, 500 CSV and 1000 test tokens for each. *)
Theorem genesis_supply {L : EnvLaws E} a r r' u bg :
  names_ok a → file_backend (keyringBackend a) → 0 ≤ numValidators a →
  r_build r = first_build (numValidators a) →
  for_each (seqZ 0 (numValidators a)) (make_node a) r = (r', Ok u) →
  let g := genesis_balances bg (genBalances (r_build r')) in
  (∀ d, coins_amount (bg_Supply g) d = coins_amount (bg_Supply bg) d + sum_balances (bg_Balances g) d) ∧
  sum_balances (bg_Balances g) "ucsv" = 500000000 * numValidators a ∧
  sum_balances (bg_Balances g) "testtoken" = 1000000000 * numValidators a.
Proof.
  intros Ha Hb Hn H1 H g.
  apply (for_each_seqZ (made a r)) in H; [|done|by apply made_0|].
  2:{ intros i s s' v Hi Hs Hstep. by eapply made_step. }
  destruct (made_balances _ _ _ _ H) as [Hl Hall].
  assert (Hs : ∀ d z, (∀ cs, genesis_coins cs → coins_amount cs d = z) →
    sum_balances (bg_Balances g) d = z * numValidators a).
  { intros d z Hz. unfold g, genesis_balances. simpl. rewrite (sum_balances_perm _ _ _ (Sanitize_perm _)).
    rewrite (sum_balances_equal _ d z); [by rewrite Hl, Z2Nat.id|].
    eapply Forall_impl; [exact Hall|]. simpl. auto. }
  split; [intros d; apply total_supply_amount|].
  assert (Hc : ∀ cs, genesis_coins cs → ∀ d, coins_amount cs d =
    (if String.eqb "testtoken" d then 1000000000 else 0) + (if String.eqb "ucsv" d then 500000000 else 0)).
  { intros cs (c1 & c2 & K1 & K2 & ->) d. rewrite CoinsSort_amount. rewrite NewCoin_spec in K1, K2.
    rewrite !ValidateDenom_spec in K1, K2. injection K1 as <-. injection K2 as <-. simpl. lia. }
  split; apply Hs; intros cs Hcs; by rewrite (Hc cs Hcs).
Qed.

(** An amount that is no number gives its place to the next one. *)
Lemma bad_stake_shifts {L : EnvLaws E} bad good z :
  no_char ","%char bad = true → no_char ","%char good = true → 0 ≤ z →
  NewIntFromString bad = None → NewIntFromString good = Some z →
  read_stakes (bad +:+ String ","%char good) = Ok (<[0 := mkCoin DefaultBondDenom z]> ∅).
Proof.
  intros Hb Hg Hz Hn Hs. unfold read_stakes. rewrite Split_app, Split_no_char by done.
  cbn [stakes_loop]. rewrite Hn, Hs, NewCoin_spec, ValidateDenom_spec.
  by rewrite (proj2 (Z.leb_le 0 z)).
Qed.
(** A negative amount is no coin. *)
Lemma negative_stake_panics {L : EnvLaws E} s z :
  no_char ","%char s = true → NewIntFromString s = Some z → z < 0 → ∃ p, read_stakes s = Panic p.
Proof.
  intros Hs Hz Hn. unfold read_stakes. rewrite Split_no_char by done. cbn [stakes_loop].
  rewrite Hz, NewCoin_spec, (proj2 (Z.leb_gt 0 z)) by done. rewrite andb_false_r. by eexists.
Qed.
End Whole.

(** ** A run

    A small SDK: keys are numbered, files hold the values they stand for. *)
Definition ref_os : Os := {| cwd := ["home"]; Getwd_err := None; os_err := λ _ _, None |}.
#[local] Existing Instance ref_os.

Definition put_both (s c : string) (x : Disk * Z) : Disk * Z :=
  (set_files (<[resolve s := c]> (d_files x.1)) x.1, x.2 + 1).
Definition ref_testnet : TestnetSdk := {|
  Sys := Z; Rand := Z; PubKey := string; Keyring := Path; SigningAlgo := string;
  StakingMsg := string; TxBuilder := string;
  FlagKeyringBackend := "keyring-backend"; FlagChainID := "chain-id";
  FlagMinGasPrices := "minimum-gas-prices"; FlagKeyType := "key-type";
  NewIntFromString := parse_d;
  TokensFromConsensusPower := Z.mul; DefaultPowerReduction := 1000000;
  CoinsSort := id; CoinsAdd := @app Coin;
  rand_New := gets id; Intn n r := (r + 1, r mod n);
  SetRoot := set_RootDir;
  GenesisFile c := JoinPath [RootDir c; "config"; "genesis.json"];
  DefaultConfig := mkAppCfg "" true "" "" true true 60 "";
  render_cmt := RootDir; render_app := MinGasPrices;
  cmt_WriteConfigFile s c := os_WriteFile s (RootDir c);
  app_WriteConfigFile s c := os_WriteFile s (MinGasPrices c);
  InitializeNodeValidatorFiles c := λ x,
    (put_both (JoinPath [RootDir c; "config"; "node_key.json"]) "key" x,
     Ok (fmt_d x.2, "pub" +:+ fmt_d x.2));
  keyring_New b dir := λ x, (x, Ok (resolve dir));
  NewSigningAlgoFromString s kb := inl s;
  GenerateSaveCoinKey kb name alg := λ x,
    ((set_files (<[kb ++ ["keyring"; name] := alg]> (d_files x.1)) x.1, x.2),
     Ok ("addr-" +:+ name, "secret"));
  ValAddressString s := s;
  NewMsgCreateValidator v key c name rates m := inl (v +:+ fmt_d (c_amount c));
  NewTxBuilder := "";
  SetMsgs m tb := inl m; SetMemo m tb := tb +:+ m;
  tx_Sign chain memo kb name tb := mret (tb +:+ name);
  TxJSONEncoder tb := inl tb;
  DefaultGenesis := ∅;
  PackAccounts l := inl (acc_addr <$> l);
  SanitizeGenesisBalances := id;
  genesis_MarshalIndent m := inl (default "" (m !! "bank"));
  SaveAs g s := os_WriteFile s (gd_AppState g);
  AppGenesis := string;
  AppGenesisFromFile := os_Read;
  GenAppStateFromConfig chain dir id key g c := mret (c, Some g);
  render_genesis chain st t := chain +:+ bytes_of st +:+ fmt_d t;
  ExportGenesisFileWithTime s chain st t := os_WriteFile s (chain +:+ bytes_of st +:+ fmt_d t);
  tm_Now := gets id
|}.
#[local] Existing Instance ref_testnet.

#[local] Instance ref_auth : JsonCodec AuthGenesis :=
  {| json_Marshal g := Ok (join "," (ag_Accounts g)); json_Unmarshal _ := Ok (mkAuthGenesis [] "") |}.
#[local] Instance ref_bank : JsonCodec BankGenesis :=
  {| json_Marshal g := Ok (fmt_d (coins_amount (bg_Supply g) "ucsv"));
     json_Unmarshal _ := Ok (mkBankGenesis [] [] "") |}.

Definition ref_testnet_laws : @TestnetLaws ref_testnet ref_os.
Proof.
  refine {| keyring_dir := (λ kb, kb) : @Keyring ref_testnet → Path |}; simpl; try done.
  - intros cs cs' d. induction cs as [|c cs IH]; [done|]. simpl. lia.
  - intros n r Hn. by apply Z.mod_pos_bound.
  - intros. by eapply os_WriteFile_ok.
  - intros. by apply os_WriteFile_only.
  - intros. by eapply os_WriteFile_ok.
  - intros. by apply os_WriteFile_only.
  - intros. by apply os_WriteFile_only.
  - intros. by eapply os_WriteFile_ok.
  - intros. by apply os_WriteFile_only.
  - intros c [k n] p Hp. simpl. apply lookup_insert_ne. intros <-. apply Hp.
    rewrite resolve_Join; [apply below_app; by eexists|done|by repeat constructor].
  - intros c x x' id key [= _ <- _]. by apply no_char_fmt_d.
  - intros b dir x x' kb _ [= _ <-]. done.
  - intros kb name alg [k n] p Hp. simpl. apply lookup_insert_ne. intros <-. apply Hp.
    apply below_app. exists ["keyring"; name]. reflexivity.
  - intros chain dir id key g c k k' c' st [= _ <- <-]. by repeat split.
Defined.

Definition two_nodes : initArgs :=
  mkInitArgs "secp256k1" "demo-1" "test" "1ucsv" "validator" 2 "./.testnets" "localhost"
    (<[0 := mkCoin "ucsv" 700]> ∅) (read_ports 2 "").
Definition empty_run : Run :=
  mkRun (mkDisk {[["home"]]} ∅) 7 (mkNodeConfig "" "" "" "" "" "" false "" false "rest")
    DefaultConfig (mkBuild [] [] [] [] [] "" []).

#[local] Abbreviation run_two := (@initTestnetFiles ref_env ref_testnet ref_os ref_auth ref_bank two_nodes empty_run).
Lemma two_nodes_ok : run_two.2 = Ok tt.
Proof. vm_compute. reflexivity. Qed.

(** The nodes of this run: their identifiers are the numbers of their keys. *)
Lemma node_of_two i id tx :
  0 ≤ i < 2 → @node_of ref_env ref_testnet ref_os two_nodes empty_run i id tx →
  id = if decide (i = 0) then "7" else "8".
Proof.
  intros Hi (b & r0 & ri & key & (rn & Hn & ->) & Hri & (d & x & Hd & Hx) & _).
  injection Hn as <- <-.
  apply (f_equal (λ y, match y.2 with Ok (n, _) => n | _ => "" end)) in Hx.
  change (fmt_d (r_sys ri) = id) in Hx. apply (f_equal (λ y, r_sys y.1)) in Hri.
  assert (i = 0 ∨ i = 1) as [->| ->] by lia; rewrite <-Hx.
  - change (r_sys ri) with (@r_sys ref_testnet (ri, Ok tt : res unit).1). rewrite <-Hri.
    reflexivity.
  - change (r_sys ri) with (@r_sys ref_testnet (ri, Ok tt : res unit).1). rewrite <-Hri.
    vm_compute. reflexivity.
Qed.

Lemma testnet_files_witness :
  ∃ rest, d_files (r_disk run_two.1) !! config_path two_nodes 1 =
    Some (render_cmt (node_config two_nodes 1 "7@localhost:26656,8@localhost:26653" rest)).
Proof.
  destruct (@testnet_files ref_env ref_testnet ref_os ref_testnet_laws ref_auth ref_bank
    two_nodes empty_run _ _ eq_refl (or_introl eq_refl) (run_pair _ _ _ two_nodes_ok))
    as (chain & ids & tx & st & t & _ & H).
  exists "rest". destruct (H 0) as (H0 & _); [split; [done|reflexivity]|].
  destruct (H 1) as (H1 & Hc & _); [split; [done|reflexivity]|]. etransitivity; [exact Hc|].
  apply node_of_two in H0, H1; [|lia..]. cbn in H0, H1.
  change (seqZ 0 (numValidators two_nodes)) with [0; 1]. cbn [map]. by rewrite H0, H1.
Defined.

(** The transaction of the first node, among those of the second. *)
Lemma testnet_gentxs_witness :
  ∃ tx, @node_of ref_env ref_testnet ref_os two_nodes empty_run 0 "7" tx ∧
    d_files (r_disk run_two.1) !! gentx_path two_nodes 1 "7" = Some tx.
Proof.
  destruct (@testnet_gentxs ref_env ref_testnet ref_os ref_testnet_laws ref_auth ref_bank
    two_nodes empty_run _ _ ltac:(by repeat constructor) eq_refl eq_refl (or_introl eq_refl)
    (run_pair _ _ _ two_nodes_ok)) as (Hex & H).
  destruct (Hex 0) as (id0 & tx0 & H0); [split; [done|reflexivity]|].
  destruct (Hex 1) as (id1 & tx1 & H1); [split; [done|reflexivity]|].
  pose proof (node_of_two 0 id0 tx0 ltac:(lia) H0) as E0.
  pose proof (node_of_two 1 id1 tx1 ltac:(lia) H1) as E1. cbn in E0, E1. subst id0 id1.
  exists tx0. split; [exact H0|].
  pose (ids := λ i : Z, if decide (i = 0) then "7" else "8").
  pose (tx := λ i : Z, if decide (i = 0) then tx0 else tx1).
  assert (Hids : ids 0 = "7" ∧ ids 1 = "8" ∧ tx 0 = tx0 ∧ tx 1 = tx1) by (split_and!; reflexivity).
  clearbody ids tx. destruct Hids as (I0 & I1 & T0 & T1).
  assert (Hc : ∀ i, 0 ≤ i < numValidators two_nodes → i = 0 ∨ i = 1).
  { intros i Hi. change (numValidators two_nodes) with 2 in Hi. lia. }
  rewrite <-I0, <-T0. apply (H ids tx).
  - intros i [-> | ->]%Hc; [rewrite I0, T0; exact H0|rewrite I1, T1; exact H1].
  - intros i j [-> | ->]%Hc [-> | ->]%Hc; rewrite ?I0, ?I1; (reflexivity || discriminate).
  - split; [done|reflexivity].
  - split; [done|reflexivity].
Defined.

Lemma ports_distinct_witness :
  NoDup (seqZ 0 2 ≫= node_ports two_nodes) ∧ seqZ 0 2 ≫= node_ports two_nodes =
  ["26657"; "26656"; "26658"; "26660"; "9090"; "1317";
   "26654"; "26653"; "26655"; "26661"; "9088"; "1316"].
Proof.
  split; [|vm_compute; reflexivity].
  apply (ports_distinct two_nodes eq_refl). split; done.
Defined.

(** The state in which the first loop starts. *)
Definition begun : Run :=
  set_build (first_build 2) empty_run.
#[local] Abbreviation nodes_two :=
  (for_each (seqZ 0 2) (@make_node ref_env ref_testnet ref_os two_nodes) begun).
Lemma nodes_two_ok : nodes_two.2 = Ok tt.
Proof. vm_compute. reflexivity. Qed.
Lemma genesis_supply_witness :
  sum_balances (bg_Balances (genesis_balances (mkBankGenesis [] [] "")
    (genBalances (r_build nodes_two.1)))) "ucsv" = 1000000000.
Proof.
  apply (@genesis_supply ref_env ref_testnet ref_os ref_testnet_laws ref_env_laws
    two_nodes begun _ tt (mkBankGenesis [] [] "") eq_refl (or_introl eq_refl)
    ltac:(done) eq_refl
    (run_pair _ _ _ nodes_two_ok)).
Defined.
