(* ===== verification/InPlace.v ===== *)
(** * A test network in place

    [src/cmd/cosviand/cmd/testnet.go]: the command [in-place-testnet] takes the state of a
    chain, replaces its validators by one and funds accounts.  The staking keeper's own
    store is a map of keys; the keepers that write to it are the class
    [TestnetKeepers]. *)

From Stdlib Require Import Strings.Ascii Strings.String.
From stdpp Require Import strings gmap.
From S2P Require Import Prelude GoLib Sdk RefEnv.
From S2P Require FeesTypes.

Local Open Scope Z_scope.

(** ** Data *)

(** The fields of [stakingtypes.Validator] that are set. *)
Record Validator := mkValidator {
  OperatorAddress : string;
  ConsensusPubkey : string;
  Jailed : bool;
  Bonded : bool;
  Tokens : Z;
  DelegatorShares : Dec;
  val_Moniker : string;
  Rate : Dec;
  MaxRate : Dec;
  MaxChangeRate : Dec;
  MinSelfDelegation : Z
}.
Record ValidatorSigningInfo := mkInfo { Address : string; StartHeight : Z; Tombstoned : bool }.

Abbreviation KV := (gmap string string).

Class TestnetKeepers := {
  PubKey : Type;
  PubKey_Bytes : PubKey → string;
  Other : Type;                          (* the stores of distribution and slashing *)
  NewAnyWithValue : string → string + error;
  ValidatorAddress_StringToBytes : string → string + error;
  ConsAddressString : string → string;
  (* prefixes of keys in the store of x/staking *)
  ValidatorsKey : string;
  ValidatorQueueKey : string;
  ValidatorsByPowerIndexKey : string;
  LastValidatorPowerKey : string;
  PrefixEndBytes : string → Slice;
  (* an iterator is given by the keys it yields when it is opened *)
  ValidatorsPowerStoreIterator : KV → list string + error;
  LastValidatorsIterator : KV → list string + error;
  store_Iterator : string → Slice → KV → list string;
  SetValidator : Validator → stM KV unit;
  SetValidatorByConsAddr : Validator → stM KV unit;
  SetValidatorByPowerIndex : Validator → stM KV unit;
  SetLastValidatorPower : string → Z → stM KV unit;
  BondDenom : KV → string + error;
  AfterValidatorCreated : string → stM Other unit;
  (* the records are empty: reference count or period *)
  SetValidatorHistoricalRewards : string → Z → Z → stM Other unit;
  SetValidatorCurrentRewards : string → Z → stM Other unit;
  SetValidatorAccumulatedCommission : string → stM Other unit;
  SetValidatorOutstandingRewards : string → stM Other unit;
  SetValidatorSigningInfo : string → ValidatorSigningInfo → stM Other unit;
  minttypes_ModuleName : string;
  (* keys of the options of the command *)
  KeyNewValAddr : string; KeyUserPubKey : string; KeyNewOpAddr : string;
  KeyTriggerTestnetUpgrade : string; FlagHome : string
}.

(** ** Options *)

(** A value of the options, by its type. *)
Inductive AppOpt `{TestnetKeepers} : Type :=
| OptNil
| OptHexBytes (s : string)
| OptPubKey (k : PubKey)
| OptString (s : string)
| OptOther (text : string).

Section InPlace.
Context {E : Env} {K : TestnetKeepers}.
(** [cast.ToString] of values that are no strings. *)
Context (ToString_other : AppOpt → string).

Definition ToString (v : AppOpt) : string :=
  match v with OptString s => s | _ => ToString_other v end.

Record valArgs := mkValArgs {
  newValAddr : string;
  newOperatorAddress : string;
  newValPubKey : PubKey;
  accountsToFund : list string;
  upgradeToTrigger : string;
  homeDir : string
}.
Definition flagAccountsToFund : string := "accounts-to-fund".

Definition getCommandArgs (appOpts : string → AppOpt) : res valArgs :=
  match appOpts KeyNewValAddr with
  | OptHexBytes val =>
      match appOpts KeyUserPubKey with
      | OptPubKey key =>
          match appOpts KeyNewOpAddr with
          | OptString op =>
              match appOpts KeyTriggerTestnetUpgrade with
              | OptString upgrade =>
                  let accounts := Split (ToString (appOpts flagAccountsToFund)) ","%char in
                  let home := ToString (appOpts FlagHome) in
                  if String.eqb home "" then Err (ErrText "invalid home dir")
                  else Ok (mkValArgs val op key accounts upgrade home)
              | _ => Err (ErrText "upgradeToTrigger is not of type string")
              end
          | _ => Err (ErrText "newOperatorAddress is not of type string")
          end
      | _ => Err (ErrText "newValPubKey is not of type crypto.PubKey")
      end
  | _ => Err (ErrText "newValAddr is not of type bytes.HexBytes")
  end.

(** ** The state, and errors that end the process *)
Record Node := mkNode { n_staking : KV; n_other : Other; n_bank : BankState }.
Definition set_staking (s : KV) (n : Node) : Node := mkNode s (n_other n) (n_bank n).
Definition set_other (o : Other) (n : Node) : Node := mkNode (n_staking n) o (n_bank n).
Definition set_bank (b : BankState) (n : Node) : Node := mkNode (n_staking n) (n_other n) b.
Definition on_staking {A} (m : stM KV A) : stM Node A := zoom n_staking set_staking m.
Definition on_other {A} (m : stM Other A) : stM Node A := zoom n_other set_other m.
Definition on_bank {A} (m : stM BankState A) : stM Node A := zoom n_bank set_bank m.

(** [os.Exit(1)] *)
Definition exit_status : string := "exit status 1".
Definition handleErr {A} (m : stM Node A) : stM Node A := must m exit_status.
Definition get_or_exit {A} (x : A + error) : stM Node A :=
  match x with inl a => mret a | inr _ => panic exit_status end.

(** ** [initAppForTestnet] *)
Definition valVotingPower : Z := 900000000000000.

Definition new_validator (args : valArgs) (pubkeyAny : string) : res Validator :=
  shares ← FeesTypes.LegacyMustNewDecFromStr "10000000";
  rate ← FeesTypes.LegacyMustNewDecFromStr "0.05";
  maxRate ← FeesTypes.LegacyMustNewDecFromStr "0.1";
  change ← FeesTypes.LegacyMustNewDecFromStr "0.05";
  Ok (mkValidator (newOperatorAddress args) pubkeyAny false true valVotingPower shares
        "Testnet Validator" rate maxRate change 1).

Definition delete_keys (ks : list string) : stM Node unit :=
  for_each ks (λ k, modify (λ n, set_staking (delete k (n_staking n)) n)).
Definition delete_prefix (p : string) : stM Node unit :=
  ks ← gets (λ n, store_Iterator p (PrefixEndBytes p) (n_staking n));
  delete_keys ks.
Definition remove_validators : stM Node unit :=
  powers ← gets (λ n, ValidatorsPowerStoreIterator (n_staking n)) ≫= get_or_exit;
  delete_keys powers;;
  lasts ← gets (λ n, LastValidatorsIterator (n_staking n)) ≫= get_or_exit;
  delete_keys lasts;;
  delete_prefix ValidatorsKey;;
  delete_prefix ValidatorQueueKey.

Definition add_validator (v : Validator) (addr : string) : stM Node unit :=
  handleErr (on_staking (SetValidator v));;
  handleErr (on_staking (SetValidatorByConsAddr v));;
  handleErr (on_staking (SetValidatorByPowerIndex v));;
  handleErr (on_staking (SetLastValidatorPower addr 0));;
  handleErr (on_other (AfterValidatorCreated addr)).
Definition init_distribution (addr : string) : stM Node unit :=
  handleErr (on_other (SetValidatorHistoricalRewards addr 0 1));;
  handleErr (on_other (SetValidatorCurrentRewards addr 1));;
  handleErr (on_other (SetValidatorAccumulatedCommission addr));;
  handleErr (on_other (SetValidatorOutstandingRewards addr)).
Definition init_slashing (args : valArgs) (LastBlockHeight : Z) : stM Node unit :=
  ignore_err (on_other (SetValidatorSigningInfo (newValAddr args)
    (mkInfo (ConsAddressString (newValAddr args)) (i64 (LastBlockHeight - 1)) false))).

Definition fund (defaultCoins : Coins) (accountStr : string) : stM Node unit :=
  handleErr (on_bank (MintCoins minttypes_ModuleName defaultCoins));;
  account ← get_or_exit (match StringToBytes accountStr with
                         | (b, None) => inl b | (_, Some e) => inr e end);
  handleErr (on_bank (SendCoinsFromModuleToAccount minttypes_ModuleName (bytes_of account)
                        defaultCoins)).
Definition fund_accounts (accounts : list string) : stM Node unit :=
  bondDenom ← gets (λ n, BondDenom (n_staking n)) ≫= get_or_exit;
  coin ← lift (NewCoin bondDenom 1000000000);
  defaultCoins ← lift (NewCoins [coin]);
  for_each accounts (fund defaultCoins).

Definition initAppForTestnet (LastBlockHeight : Z) (args : valArgs) : stM Node unit :=
  pubkeyAny ← get_or_exit (NewAnyWithValue (PubKey_Bytes (newValPubKey args)));
  newVal ← lift (new_validator args pubkeyAny);
  validator ← get_or_exit (ValidatorAddress_StringToBytes (OperatorAddress newVal));
  remove_validators;;
  add_validator newVal validator;;
  init_distribution validator;;
  init_slashing args LastBlockHeight;;
  fund_accounts (accountsToFund args).

(** The application is created like any other, and must be of this repository's type. *)
Definition newTestnetApp (newApp : stM Node bool) (LastBlockHeight : Z)
    (appOpts : string → AppOpt) : stM Node unit :=
  ok ← newApp;
  if negb ok then panic "app created from newApp is not of type App"
  else
    args ← must (lift (getCommandArgs appOpts)) "command arguments";
    initAppForTestnet LastBlockHeight args.
End InPlace.

(** ** What the keepers promise *)
Class TestnetKeepersLaws {K : TestnetKeepers} := {
  ValidatorKey : Validator → string;
  ConsAddrKey : Validator → string;
  PowerIndexKey : Validator → string;
  LastPowerKey : string → string;
  (* what the iterators yield *)
  prefix_iter p m k :
    k ∈ store_Iterator p (PrefixEndBytes p) m ↔ is_Some (m !! k) ∧ HasPrefix k p = true;
  power_iter m l k : ValidatorsPowerStoreIterator m = inl l →
    (k ∈ l ↔ is_Some (m !! k) ∧ HasPrefix k ValidatorsByPowerIndexKey = true);
  last_iter m l k : LastValidatorsIterator m = inl l →
    (k ∈ l ↔ is_Some (m !! k) ∧ HasPrefix k LastValidatorPowerKey = true);
  (* each setter writes one record; a jailed validator has no power index *)
  SetValidator_ok v m m' u :
    SetValidator v m = (m', Ok u) → ∃ x, m' = <[ValidatorKey v := x]> m;
  SetByConsAddr_ok v m m' u :
    SetValidatorByConsAddr v m = (m', Ok u) → ∃ x, m' = <[ConsAddrKey v := x]> m;
  SetByPower_ok v m m' u : Jailed v = false →
    SetValidatorByPowerIndex v m = (m', Ok u) → ∃ x, m' = <[PowerIndexKey v := x]> m;
  SetLastPower_ok a z m m' u :
    SetLastValidatorPower a z m = (m', Ok u) → ∃ x, m' = <[LastPowerKey a := x]> m
}.

(** The keys of the old validators. *)
Definition validator_key `{TestnetKeepers} (k : string) : bool :=
  HasPrefix k ValidatorsByPowerIndexKey || HasPrefix k LastValidatorPowerKey ||
  HasPrefix k ValidatorsKey || HasPrefix k ValidatorQueueKey.

Section Facts.
Context {E : Env} {L : EnvLaws E} {K : TestnetKeepers} {KL : TestnetKeepersLaws}.
Implicit Types (n : Node) (k : string).

Lemma get_or_exit_inv {A} (x : A + error) n n' a :
  get_or_exit x n = (n', Ok a) → n' = n ∧ x = inl a.
Proof. destruct x; [by intros [= -> ->]|done]. Qed.
Lemma read_or_exit_inv {A} (f : Node → A + error) n n' a :
  (gets f ≫= get_or_exit) n = (n', Ok a) → n' = n ∧ f n = inl a.
Proof.
  intros H. apply bind_ok_inv in H as (x & n1 & [-> ->]%gets_inv & H).
  by apply get_or_exit_inv in H.
Qed.
Lemma staking_or_exit_inv {A} (m : stM KV A) n n' a :
  handleErr (on_staking m) n = (n', Ok a) →
  ∃ s, m (n_staking n) = (s, Ok a) ∧ n' = set_staking s n.
Proof. intros H%must_ok_inv. by apply zoom_inv in H. Qed.
Lemma bank_or_exit_inv {A} (m : stM BankState A) n n' a :
  handleErr (on_bank m) n = (n', Ok a) →
  ∃ b, m (n_bank n) = (b, Ok a) ∧ n' = set_bank b n.
Proof. intros H%must_ok_inv. by apply zoom_inv in H. Qed.

Lemma delete_keys_run ks n n' u :
  delete_keys ks n = (n', Ok u) →
  n_other n' = n_other n ∧ n_bank n' = n_bank n ∧
  ∀ k, n_staking n' !! k = if bool_decide (k ∈ ks) then None else n_staking n !! k.
Proof.
  unfold delete_keys. revert n. induction ks as [|x ks IH]; intros n H; cbn [for_each] in H.
  - apply ret_inv in H as [-> _]. split; [done|split; [done|]]. intros k.
    by rewrite bool_decide_false by set_solver.
  - apply bind_ok_inv in H as ([] & n1 & ->%modify_inv & H). apply IH in H as (Ho & Hb & Hs).
    split; [done|split; [done|]]. intros k. rewrite Hs. simpl.
    destruct (decide (k ∈ ks)); [by rewrite !bool_decide_true by set_solver|].
    rewrite (bool_decide_false (k ∈ ks)) by done. destruct (decide (k = x)) as [->|Hne].
    + rewrite lookup_delete_eq. by rewrite bool_decide_true by set_solver.
    + rewrite lookup_delete_ne by done. by rewrite bool_decide_false by set_solver.
Qed.
(** Deleting the keys an iterator over a prefix yields leaves none of them. *)
Lemma delete_listed p ks n n' u :
  (∀ k, k ∈ ks ↔ is_Some (n_staking n !! k) ∧ HasPrefix k p = true) →
  delete_keys ks n = (n', Ok u) →
  n_other n' = n_other n ∧ n_bank n' = n_bank n ∧
  ∀ k, n_staking n' !! k = if HasPrefix k p then None else n_staking n !! k.
Proof.
  intros Hk H. apply delete_keys_run in H as (Ho & Hb & Hs). split; [done|split; [done|]].
  intros k. rewrite Hs. specialize (Hk k). destruct (n_staking n !! k) eqn:Hn.
  - destruct (HasPrefix k p).
    + rewrite bool_decide_true; [done|]. by apply Hk.
    + rewrite bool_decide_false; [done|]. by intros [_ ?]%Hk.
  - rewrite bool_decide_false; [by case_match|]. by intros [[? ?] _]%Hk.
Qed.
Lemma delete_prefix_run p n n' u :
  delete_prefix p n = (n', Ok u) →
  n_other n' = n_other n ∧ n_bank n' = n_bank n ∧
  ∀ k, n_staking n' !! k = if HasPrefix k p then None else n_staking n !! k.
Proof.
  unfold delete_prefix. intros H. apply bind_ok_inv in H as (ks & n1 & [-> ->]%gets_inv & H).
  apply (delete_listed p) in H; [done|]. intros k. apply prefix_iter.
Qed.
Lemma remove_validators_run n n' u :
  remove_validators n = (n', Ok u) →
  n_other n' = n_other n ∧ n_bank n' = n_bank n ∧
  ∀ k, n_staking n' !! k = if validator_key k then None else n_staking n !! k.
Proof.
  unfold remove_validators. intros H.
  apply bind_ok_inv in H as (ps & n1 & [-> Hp]%read_or_exit_inv & H).
  apply bind_ok_inv in H as ([] & n1 & H1 & H).
  apply (delete_listed ValidatorsByPowerIndexKey) in H1 as (O1 & B1 & S1);
    [|intros k; by apply power_iter].
  apply bind_ok_inv in H as (ls & n2 & [-> Hl]%read_or_exit_inv & H).
  apply bind_ok_inv in H as ([] & n2 & H2 & H).
  apply (delete_listed LastValidatorPowerKey) in H2 as (O2 & B2 & S2); [|intros k; by apply last_iter].
  apply bind_ok_inv in H as ([] & n3 & H3%delete_prefix_run & H%delete_prefix_run).
  destruct H3 as (O3 & B3 & S3), H as (O4 & B4 & S4).
  split; [congruence|split; [congruence|]]. intros k. rewrite S4, S3, S2, S1. unfold validator_key.
  by destruct (HasPrefix k ValidatorsByPowerIndexKey), (HasPrefix k LastValidatorPowerKey),
    (HasPrefix k ValidatorsKey), (HasPrefix k ValidatorQueueKey).
Qed.

Definition new_keys (v : Validator) (addr : string) : list string :=
  [ValidatorKey v; ConsAddrKey v; PowerIndexKey v; LastPowerKey addr].
Lemma add_validator_run v addr n n' u :
  Jailed v = false → add_validator v addr n = (n', Ok u) →
  n_bank n' = n_bank n ∧
  (∀ k, k ∈ new_keys v addr → is_Some (n_staking n' !! k)) ∧
  (∀ k, k ∉ new_keys v addr → n_staking n' !! k = n_staking n !! k).
Proof.
  intros Hj H. unfold add_validator in H.
  apply bind_ok_inv in H as ([] & ? & (s1 & H1 & ->)%staking_or_exit_inv & H).
  apply bind_ok_inv in H as ([] & ? & (s2 & H2 & ->)%staking_or_exit_inv & H).
  apply bind_ok_inv in H as ([] & ? & (s3 & H3 & ->)%staking_or_exit_inv & H).
  apply bind_ok_inv in H as ([] & ? & (s4 & H4 & ->)%staking_or_exit_inv & H).
  apply must_ok_inv, zoom_inv in H as (o & _ & ->). simpl in *.
  apply SetValidator_ok in H1 as [x1 ->]. apply SetByConsAddr_ok in H2 as [x2 ->].
  apply SetByPower_ok in H3 as [x3 ->]; [|done]. apply SetLastPower_ok in H4 as [x4 ->].
  split; [done|]. unfold new_keys. split; intros k Hk.
  - destruct (decide (k = LastPowerKey addr)) as [->|H4]; [rewrite lookup_insert_eq; by eexists|].
    rewrite lookup_insert_ne by done.
    destruct (decide (k = PowerIndexKey v)) as [->|H3]; [rewrite lookup_insert_eq; by eexists|].
    rewrite lookup_insert_ne by done.
    destruct (decide (k = ConsAddrKey v)) as [->|H2]; [rewrite lookup_insert_eq; by eexists|].
    rewrite lookup_insert_ne by done.
    destruct (decide (k = ValidatorKey v)) as [->|H1]; [rewrite lookup_insert_eq; by eexists|].
    set_solver.
  - rewrite !lookup_insert_ne by set_solver. done.
Qed.

(** The rest changes other stores. *)
Definition same_staking n n' : Prop := n_staking n' = n_staking n.
#[local] Instance same_staking_preorder : PreOrder same_staking.
Proof. split; [by intros n|]. intros x y z H1 H2. unfold same_staking in *. congruence. Qed.
Definition only_other n n' : Prop := n_staking n' = n_staking n ∧ n_bank n' = n_bank n.
#[local] Instance only_other_preorder : PreOrder only_other.
Proof. split; [by intros n|]. intros x y z [H1 H2] [H3 H4]. split; congruence. Qed.
Lemma other_step {A} (m : stM Other A) : respects only_other (on_other m).
Proof. apply (respects_zoom (λ _ _, True)); [done|by intros s]. Qed.
Lemma bank_step {A} (m : stM BankState A) : respects same_staking (on_bank m).
Proof. apply (respects_zoom (λ _ _, True)); [done|by intros s]. Qed.
Lemma exit_step {A} (x : A + error) : respects same_staking (get_or_exit x).
Proof. destruct x; [apply respects_ret|apply respects_panic]; apply _. Qed.
#[local] Hint Resolve other_step bank_step exit_step : frame.

Lemma init_distribution_step addr : respects only_other (init_distribution addr).
Proof. unfold init_distribution, handleErr. respects. Qed.
Lemma init_slashing_step args h : respects only_other (init_slashing args h).
Proof. unfold init_slashing. respects. Qed.
Lemma fund_step cs s : respects same_staking (fund cs s).
Proof. unfold fund, handleErr. respects. Qed.

(** How often an account is named. *)
Definition addr_of (s : string) : string := bytes_of (StringToBytes s).1.
Definition times (accounts : list string) (a : string) : Z :=
  Z.of_nat (length (List.filter (λ s, String.eqb a (addr_of s)) accounts)).

Lemma fund_run cs s n n' u :
  fund cs s n = (n', Ok u) →
  (StringToBytes s).2 = None ∧
  (∀ a d, GetBalance (n_bank n') a d =
     GetBalance (n_bank n) a d + if String.eqb a (addr_of s) then coins_amount cs d else 0) ∧
  (∀ d, GetSupply (n_bank n') d = GetSupply (n_bank n) d + coins_amount cs d).
Proof.
  unfold fund. intros H.
  apply bind_ok_inv in H as ([] & ? & (b1 & H1 & ->)%bank_or_exit_inv & H).
  apply bind_ok_inv in H as (acc & n2 & [-> Ha]%get_or_exit_inv & H).
  apply bank_or_exit_inv in H as (b2 & H2 & ->). simpl in *.
  apply MintCoins_ok in H1 as [Hb Hs].
  apply SendCoinsFromModuleToAccount_ok in H2 as [Hb2 Hs2].
  unfold addr_of. destruct (StringToBytes s) as [b [e|]]; [done|]. injection Ha as ->. simpl.
  split; [done|split].
  - intros a d. rewrite Hb2, Hb. destruct (String.eqb a (NewModuleAddress _)); lia.
  - intros d. by rewrite Hs2, Hs.
Qed.
Lemma fund_each cs l n n' u :
  for_each l (fund cs) n = (n', Ok u) →
  Forall (λ s, (StringToBytes s).2 = None) l ∧
  (∀ a d, GetBalance (n_bank n') a d = GetBalance (n_bank n) a d + coins_amount cs d * times l a) ∧
  (∀ d, GetSupply (n_bank n') d = GetSupply (n_bank n) d + coins_amount cs d * Z.of_nat (length l)).
Proof.
  revert n. induction l as [|s l IH]; intros n H; cbn [for_each] in H.
  - apply ret_inv in H as [-> _]. split; [done|]. unfold times. simpl. split; intros; lia.
  - apply bind_ok_inv in H as ([] & n1 & (Hs & Hb & Hp)%fund_run & (Hs' & Hb' & Hp')%IH).
    split; [by constructor|split].
    + intros a d. rewrite Hb', Hb. unfold times. cbn [List.filter].
      destruct (String.eqb a (addr_of s)); cbn [length]; lia.
    + intros d. rewrite Hp', Hp. cbn [length]. lia.
Qed.

(** The parts of a run that returns. *)
Lemma initApp_parts lbh args n n' u :
  initAppForTestnet lbh args n = (n', Ok u) →
  ∃ any v addr n1 n2 n3,
    new_validator args any = Ok v ∧
    ValidatorAddress_StringToBytes (OperatorAddress v) = inl addr ∧
    remove_validators n = (n1, Ok tt) ∧ add_validator v addr n1 = (n2, Ok tt) ∧
    only_other n2 n3 ∧ fund_accounts (accountsToFund args) n3 = (n', Ok tt).
Proof.
  unfold initAppForTestnet. intros H.
  apply bind_ok_inv in H as (any & ? & [-> _]%get_or_exit_inv & H).
  apply bind_ok_inv in H as (v & ? & [-> Hv]%lift_ok_inv & H).
  apply bind_ok_inv in H as (addr & ? & [-> Ha]%get_or_exit_inv & H).
  apply bind_ok_inv in H as ([] & n1 & H1 & H).
  apply bind_ok_inv in H as ([] & n2 & H2 & H).
  apply bind_ok_inv in H as ([] & n3 & H3 & H).
  apply bind_ok_inv in H as ([] & n4 & H4 & H). destruct u.
  exists any, v, addr, n1, n2, n4. do 4 (split; [done|]). split; [|done].
  etransitivity.
  - eapply respects_run; [|exact H3]. apply init_distribution_step.
  - eapply respects_run; [|exact H4]. apply init_slashing_step.
Qed.
Lemma new_validator_fields args any v :
  new_validator args any = Ok v →
  OperatorAddress v = newOperatorAddress args ∧ Jailed v = false ∧ Bonded v = true ∧
  Tokens v = valVotingPower.
Proof.
  unfold new_validator, mbind, res_bind. intros H.
  repeat (case_match; [|done..]). by injection H as <-.
Qed.

(** C21 (functional). A testnet in place has one validator, the one that was asked for: of
    the records of validators, powers and the unbonding queue only the new validator's are
    left, and nothing else in the store of x/staking changes. *)
Theorem inplace_validators lbh args n n' u :
  initAppForTestnet lbh args n = (n', Ok u) →
  ∃ v addr, OperatorAddress v = newOperatorAddress args ∧ Jailed v = false ∧ Bonded v = true ∧
    ValidatorAddress_StringToBytes (newOperatorAddress args) = inl addr ∧
    (∀ k, k ∈ new_keys v addr → is_Some (n_staking n' !! k)) ∧
    (∀ k, k ∉ new_keys v addr →
       n_staking n' !! k = if validator_key k then None else n_staking n !! k).
Proof.
  intros H. apply initApp_parts in H
    as (any & v & addr & n1 & n2 & n3 & Hv & Ha & H1 & H2 & [H3 _] & H).
  apply new_validator_fields in Hv as (Ho & Hj & Hb & _).
  apply remove_validators_run in H1 as (_ & _ & S1).
  apply add_validator_run in H2 as (_ & S2 & S3); [|done].
  assert (S : n_staking n' = n_staking n2).
  { rewrite <- H3. apply bind_ok_inv in H as (d & n4 & [-> _]%read_or_exit_inv & H).
    apply bind_ok_inv in H as (c & ? & [-> _]%lift_ok_inv & H).
    apply bind_ok_inv in H as (cs & ? & [-> _]%lift_ok_inv & H).
    eapply (respects_run same_staking); [|exact H].
    apply respects_for_each; [apply _|intros s; apply fund_step]. }
  exists v, addr. rewrite Ho in Ha. do 4 (split; [done|]). rewrite S. split; [done|].
  intros k Hk. by rewrite S3, S1.
Qed.

(** A testnet in place funds the accounts it was given, and only those:
    each gets 10^9 of the bond denomination every time it is named, and the supply grows
    by the sum. *)
Theorem inplace_funds lbh args n n' u :
  initAppForTestnet lbh args n = (n', Ok u) →
  ∃ denom, BondDenom (n_staking n') = inl denom ∧
    Forall (λ s, (StringToBytes s).2 = None) (accountsToFund args) ∧
    (∀ a d, GetBalance (n_bank n') a d = GetBalance (n_bank n) a d +
       if String.eqb denom d then 1000000000 * times (accountsToFund args) a else 0) ∧
    (∀ d, GetSupply (n_bank n') d = GetSupply (n_bank n) d +
       if String.eqb denom d then 1000000000 * Z.of_nat (length (accountsToFund args)) else 0).
Proof.
  intros H. apply initApp_parts in H
    as (any & v & addr & n1 & n2 & n3 & Hv & Ha & H1 & H2 & [H3 Hb3] & H).
  apply new_validator_fields in Hv as (_ & Hj & _).
  apply remove_validators_run in H1 as (_ & B1 & _).
  apply add_validator_run in H2 as (B2 & _); [|done].
  assert (B : n_bank n3 = n_bank n) by congruence. clear B1 B2 Hb3.
  unfold fund_accounts in H. apply bind_ok_inv in H as (d & n4 & [-> Hd]%read_or_exit_inv & H).
  apply bind_ok_inv in H as (c & ? & [-> Hc]%lift_ok_inv & H).
  apply bind_ok_inv in H as (cs & ? & [-> Hcs]%lift_ok_inv & H).
  assert (S : n_staking n' = n_staking n3).
  { eapply (respects_run same_staking); [|exact H].
    apply respects_for_each; [apply _|intros s; apply fund_step]. }
  rewrite NewCoin_spec in Hc. destruct (ValidateDenom d) eqn:Hvd; [|done]. injection Hc as <-.
  rewrite NewCoins_one in Hcs by done. injection Hcs as <-.
  apply fund_each in H as (Hs & Hb & Hp). rewrite B in *.
  exists d. rewrite S. split; [done|split; [done|]].
  split; intros; rewrite ?Hb, ?Hp; simpl; destruct (String.eqb d _); lia.
Qed.

(** C22 (error). Without accounts to fund the command does not start a node: the empty list
    is read as one account with an empty address, and the process ends. *)
Theorem no_accounts_exit (other : AppOpt → string) newApp lbh appOpts b e n :
  appOpts flagAccountsToFund = OptString "" → StringToBytes "" = (b, Some e) →
  ∀ n' u, newTestnetApp other newApp lbh appOpts n ≠ (n', Ok u).
Proof.
  intros Hf He n' u H. unfold newTestnetApp in H.
  apply bind_ok_inv in H as (ok & n1 & _ & H). destruct ok; [|done]. cbn [negb] in H.
  apply bind_ok_inv in H as (args & n2 & [-> Ha]%must_ok_inv%lift_ok_inv & H).
  assert (Hl : accountsToFund args = [""]).
  { unfold getCommandArgs in Ha. repeat (case_match; try done).
    injection Ha as <-. simpl. by rewrite Hf. }
  apply initApp_parts in H as (any & v & addr & n3 & n4 & n5 & _ & _ & _ & _ & _ & H).
  unfold fund_accounts in H. apply bind_ok_inv in H as (d & ? & [-> _]%read_or_exit_inv & H).
  apply bind_ok_inv in H as (c & ? & [-> _]%lift_ok_inv & H).
  apply bind_ok_inv in H as (cs & ? & [-> _]%lift_ok_inv & H). rewrite Hl in H.
  apply fund_each in H as [Hs _]. apply Forall_inv in Hs. by rewrite He in Hs.
Qed.
End Facts.

(** ** A run

    Records are kept as texts under one letter and an address. *)
Definition with_prefix (p : string) (m : KV) : list string :=
  List.filter (λ k, HasPrefix k p) (map_to_list m).*1.
Definition put (k x : string) : stM KV unit := modify (<[k := x]>).
Definition ref_keepers : TestnetKeepers := {|
  PubKey := string; PubKey_Bytes := id; Other := unit;
  NewAnyWithValue := inl;
  ValidatorAddress_StringToBytes s := inl s; ConsAddressString := id;
  ValidatorsKey := "V"; ValidatorQueueKey := "Q"; ValidatorsByPowerIndexKey := "P";
  LastValidatorPowerKey := "L"; PrefixEndBytes _ := None;
  ValidatorsPowerStoreIterator m := inl (with_prefix "P" m);
  LastValidatorsIterator m := inl (with_prefix "L" m);
  store_Iterator p _ m := with_prefix p m;
  SetValidator v := put ("V" +:+ OperatorAddress v) (fmt_d (Tokens v));
  SetValidatorByConsAddr v := put ("C" +:+ ConsensusPubkey v) (OperatorAddress v);
  SetValidatorByPowerIndex v := put ("P" +:+ OperatorAddress v) "";
  SetLastValidatorPower a z := put ("L" +:+ a) (fmt_d z);
  BondDenom _ := inl "ucsv";
  AfterValidatorCreated _ := mret tt;
  SetValidatorHistoricalRewards _ _ _ := mret tt; SetValidatorCurrentRewards _ _ := mret tt;
  SetValidatorAccumulatedCommission _ := mret tt; SetValidatorOutstandingRewards _ := mret tt;
  SetValidatorSigningInfo _ _ := mret tt;
  minttypes_ModuleName := "mint";
  KeyNewValAddr := "newValAddr"; KeyUserPubKey := "userPubKey"; KeyNewOpAddr := "newOpAddr";
  KeyTriggerTestnetUpgrade := "upgrade"; FlagHome := "home"
|}.
Lemma with_prefix_spec p (m : KV) k :
  k ∈ with_prefix p m ↔ is_Some (m !! k) ∧ HasPrefix k p = true.
Proof.
  unfold with_prefix. rewrite list_elem_of_In, filter_In, <- list_elem_of_In.
  rewrite list_elem_of_fmap. split.
  - intros [([k' x] & -> & Hx%elem_of_map_to_list) Hp]. split; [by eexists|done].
  - intros [[x Hx] Hp]. split; [|done]. exists (k, x). split; [done|].
    by apply elem_of_map_to_list.
Qed.
Definition ref_keepers_laws : @TestnetKeepersLaws ref_keepers.
Proof.
  refine (@Build_TestnetKeepersLaws ref_keepers
    (λ v, "V" +:+ @OperatorAddress v) (λ v, "C" +:+ ConsensusPubkey v)
    (λ v, "P" +:+ OperatorAddress v) (λ a, "L" +:+ a) _ _ _ _ _ _ _); simpl.
  - intros p m k. apply with_prefix_spec.
  - intros m l k [= <-]. apply with_prefix_spec.
  - intros m l k [= <-]. apply with_prefix_spec.
  - intros v m m' u [= <- _]. by eexists.
  - intros v m m' u [= <- _]. by eexists.
  - intros v m m' u _ [= <- _]. by eexists.
  - intros a z m m' u [= <- _]. by eexists.
Defined.

Definition old_node : @Node ref_env ref_keepers :=
  @mkNode ref_env ref_keepers
    (<["Vold" := "1"]> (<["Pold" := ""]> (<["Lold" := "1"]> (<["Cold" := "old"]> ∅))))
    tt (mkLedger ∅ ∅ ∅).
Definition ref_options (accounts k : string) : @AppOpt ref_keepers :=
  if String.eqb k "newValAddr" then OptHexBytes "hex"
  else if String.eqb k "userPubKey" then @OptPubKey ref_keepers "pub"
  else if String.eqb k "newOpAddr" then OptString "new"
  else if String.eqb k "accounts-to-fund" then OptString accounts
  else OptString "somewhere".
Definition ref_args : @valArgs ref_keepers :=
  @mkValArgs ref_keepers "hex" "new" "pub" ["cosvian1a"; "cosvian1b"; "cosvian1a"] "" "home".
#[local] Abbreviation in_place := (@initAppForTestnet ref_env ref_keepers 10 ref_args old_node).
Lemma in_place_ok : in_place.2 = Ok tt.
Proof. vm_compute. reflexivity. Qed.

Lemma inplace_validators_witness :
  ∃ v addr, @OperatorAddress v = "new" ∧
    (∀ k, k ∉ @new_keys ref_keepers ref_keepers_laws v addr →
       n_staking in_place.1 !! k =
       if @validator_key ref_keepers k then None else n_staking old_node !! k).
Proof.
  destruct (@inplace_validators ref_env ref_env_laws ref_keepers ref_keepers_laws 10 ref_args
    old_node _ _ (run_pair _ _ _ in_place_ok)) as (v & addr & Ho & _ & _ & _ & _ & H).
  exists v, addr. split; [exact Ho|exact H].
Defined.

Lemma inplace_funds_witness :
  @GetBalance (env_bank (Env := ref_env)) (n_bank in_place.1) "a" "ucsv" =
  @GetBalance (env_bank (Env := ref_env)) (n_bank old_node) "a" "ucsv" + 2000000000.
Proof.
  destruct (@inplace_funds ref_env ref_env_laws ref_keepers ref_keepers_laws 10 ref_args
    old_node _ _ (run_pair _ _ _ in_place_ok)) as (d & Hd & _ & Hb & _).
  assert (d = "ucsv") as -> by (by injection Hd). exact (Hb "a" "ucsv").
Defined.

Lemma no_accounts_exit_witness :
  @getCommandArgs ref_keepers (λ _, "") (ref_options "") =
    Ok (@mkValArgs ref_keepers "hex" "new" "pub" [""] "somewhere" "somewhere") ∧
  ∀ n' u, @newTestnetApp ref_env ref_keepers (λ _, "") (mret true) 10 (ref_options "") old_node
    ≠ (n', Ok u).
Proof.
  split; [vm_compute; reflexivity|].
  apply (@no_accounts_exit ref_env ref_env_laws ref_keepers (λ _, "")
    (mret true) 10 (ref_options "") None (ErrExt "decoding bech32 failed")); reflexivity.
Defined.
