(* ===== verification/Depinject.v ===== *)
(** * Dependency injection

    What the provider of every module asks for and what it gives ([module/depinject.go] and
    [icq_async_provider.go]), the interfaces it names ([types/*expected*.go]), the methods
    of the keepers, the registrations the packages make when they are initialized, and what
    [app.New] takes out of the container.  A Go type is its name with its package, a method
    its name and its type. *)

From Stdlib Require Import Strings.Ascii Strings.String.
From stdpp Require Import strings sorting.
From S2P Require Import Prelude GoLib Wiring.

Local Open Scope Z_scope.

Abbreviation GoType := string (only parsing).
Abbreviation Method := (string * string)%type (only parsing).

(** A provider: a function whose inputs are the fields of a struct with [depinject.In],
    some of them optional, and whose outputs are those of one with [depinject.Out]. *)
Record Input := { in_type : GoType; in_optional : bool }.
Record Provider := { inputs : list Input; outputs : list GoType }.

Definition need (t : GoType) : Input := {| in_type := t; in_optional := false |}.
Definition optional (t : GoType) : Input := {| in_type := t; in_optional := true |}.

(** [appconfig.Register]: the providers of a module's configuration type. *)
Class AppConfig := {
  Registry : Type;
  no_registration : Registry;
  Register : Registry → GoType → Provider → Registry;
  registered : Registry → GoType → option Provider
}.
(** A registration takes the place of an earlier one of the same type, as the comment in
    [icq_register_client.go] says. *)
Class AppConfigLaws `{AppConfig} : Prop := {
  registered_none t : registered no_registration t = None;
  registered_Register r t p t' :
    registered (Register r t p) t' = if bool_decide (t = t') then Some p else registered r t'
}.

(** ** [module/depinject.go] *)

(** What every provider asks for. *)
Definition common (config : GoType) : list Input :=
  [need config; need "store.KVStoreService"; need "codec.Codec"; need "address.Codec"].
(** The configuration type of a module, and its [AppModule]. *)
Definition Module_of (name : string) : GoType := ("x/" ++ name ++ "/types.Module")%string.
Definition AppModule_of (name : string) : GoType := ("x/" ++ name ++ "/module.AppModule")%string.

Definition fees_provider : Provider := {|
  inputs := common (Module_of "fees") ++
    [need "x/fees/types.AuthKeeper"; need "x/fees/types.BankKeeper";
     need "x/oracle/keeper.Keeper"];
  outputs := ["x/fees/keeper.Keeper"; AppModule_of "fees"]
|}.
Definition token_provider : Provider := {|
  inputs := common (Module_of "token") ++
    [need "x/token/types.AuthKeeper"; need "bankkeeper.Keeper"; need "x/fees/types.FeesKeeper"];
  outputs := ["x/token/keeper.Keeper"; AppModule_of "token"]
|}.
Definition oracle_provider : Provider := {|
  inputs := common (Module_of "oracle") ++
    [need "x/oracle/types.AuthKeeper"; need "x/oracle/types.BankKeeper"];
  outputs := ["x/oracle/keeper.Keeper"; AppModule_of "oracle"]
|}.
Definition treasury_provider : Provider := {|
  inputs := common (Module_of "treasury") ++
    [need "x/treasury/types.AuthKeeper"; need "x/treasury/types.BankKeeper";
     need "x/treasury/types.StakingKeeper"];
  outputs := ["x/treasury/keeper.Keeper"; AppModule_of "treasury"]
|}.
Definition registry_provider : Provider := {|
  inputs := common (Module_of "registry") ++
    [need "x/registry/types.AuthKeeper"; need "x/registry/types.BankKeeper"];
  outputs := ["x/registry/keeper.Keeper"; AppModule_of "registry"]
|}.
Definition conversionpool_provider : Provider := {|
  inputs := common (Module_of "conversionpool") ++
    [need "x/conversionpool/types.AuthKeeper"; need "x/conversionpool/types.BankKeeper";
     need "x/conversionpool/types.ConversionTokenKeeper"];
  outputs := ["x/conversionpool/keeper.Keeper"; AppModule_of "conversionpool"]
|}.
Definition cosvian_provider : Provider := {|
  inputs := common (Module_of "cosvian") ++
    [need "x/cosvian/types.AuthKeeper"; need "x/cosvian/types.BankKeeper"];
  outputs := ["x/cosvian/keeper.Keeper"; AppModule_of "cosvian"]
|}.
Definition pricefeed_provider : Provider := {|
  inputs := common (Module_of "pricefeed") ++
    [need "x/pricefeed/types.AuthKeeper"; need "x/pricefeed/types.BankKeeper";
     need "x/fees/types.FeesKeeper"; need "x/pricefeed/types.OracleKeeper";
     optional "func() *ibckeeper.Keeper"; optional "*capabilitykeeper.ScopedKeeper"];
  outputs := ["x/pricefeed/keeper.Keeper"; AppModule_of "pricefeed"]
|}.
Definition icqcontroller_provider : Provider := {|
  inputs := common (Module_of "icqcontroller") ++
    [need "x/icqcontroller/types.AuthKeeper"; need "x/icqcontroller/types.BankKeeper";
     optional "func() *ibckeeper.Keeper"; optional "*capabilitykeeper.ScopedKeeper"];
  outputs := ["x/icqcontroller/keeper.Keeper"; "*x/icqcontroller/keeper.Keeper";
              AppModule_of "icqcontroller"]
|}.
Definition osmosisicq_provider : Provider := {|
  inputs := common (Module_of "osmosisicq") ++
    [need "x/osmosisicq/types.AuthKeeper"; need "x/osmosisicq/types.BankKeeper";
     need "x/osmosisicq/types.OracleKeeper"; optional "x/osmosisicq/types.ICQClient"];
  outputs := [AppModule_of "osmosisicq"; "x/osmosisicq/keeper.Keeper";
              "x/icqcontroller/types.KVResultConsumer"]
|}.
(** [ProvideICQAsyncClient] *)
Definition async_provider : Provider := {|
  inputs := [optional "*x/icqcontroller/keeper.Keeper"];
  outputs := ["x/osmosisicq/types.ICQClient"]
|}.

(** The [init] functions of a package run in the order of the names of its files. *)
Definition file_before (a b : string * Provider) : Prop := String.leb a.1 b.1 = true.
#[local] Instance file_before_dec a b : Decision (file_before a b).
Proof. unfold file_before. apply _. Defined.

Definition inits (name : string) : list (string * Provider) :=
  if String.eqb name "fees" then [("depinject.go", fees_provider)] else
  if String.eqb name "token" then [("depinject.go", token_provider)] else
  if String.eqb name "oracle" then [("depinject.go", oracle_provider)] else
  if String.eqb name "treasury" then [("depinject.go", treasury_provider)] else
  if String.eqb name "registry" then [("depinject.go", registry_provider)] else
  if String.eqb name "conversionpool" then [("depinject.go", conversionpool_provider)] else
  if String.eqb name "cosvian" then [("depinject.go", cosvian_provider)] else
  if String.eqb name "pricefeed" then [("depinject.go", pricefeed_provider)] else
  if String.eqb name "icqcontroller" then [("depinject.go", icqcontroller_provider)] else
  if String.eqb name "osmosisicq" then
    [("icq_async_provider.go", async_provider); ("depinject.go", osmosisicq_provider)]
  else [].

(** The packages that [app_config.go] imports, in its order, which is that in which the Go
    tool initializes packages that do not import each other; the order across packages
    does not matter below, since each registers its own type. *)
Definition imported : list string :=
  ["cosvian"; "fees"; "icqcontroller"; "osmosisicq"; "oracle"; "pricefeed"; "registry"; "token"].
Definition registrations : list (GoType * Provider) :=
  imported ≫= λ name, (λ '(_, p), (Module_of name, p)) <$> merge_sort file_before (inits name).

(** ** The interfaces, [types/*expected*.go] and [icq_client.go] *)
Definition auth_methods : list Method :=
  [("AddressCodec", "() address.Codec");
   ("GetAccount", "(context.Context, sdk.AccAddress) sdk.AccountI")].
Definition SpendableCoins : Method := ("SpendableCoins", "(context.Context, sdk.AccAddress) sdk.Coins").

Definition fees_FeesKeeper : list Method :=
  [("ConvertUSDToCSV",
    "(sdk.Context, math.LegacyDec) (math.LegacyDec, *x/fees/types.PriceData, error)");
   ("GetFeeByType", "(sdk.Context, string) math.LegacyDec");
   ("DistributeFee",
    "(sdk.Context, sdk.AccAddress, string, sdk.Coin, map[string]interface{}) error")].
Definition fees_BankKeeper : list Method :=
  [SpendableCoins;
   ("SendCoins", "(context.Context, sdk.AccAddress, sdk.AccAddress, sdk.Coins) error");
   ("GetAllBalances", "(context.Context, sdk.AccAddress) sdk.Coins");
   ("SendCoinsFromAccountToModule",
    "(context.Context, sdk.AccAddress, string, sdk.Coins) error");
   ("SendCoinsFromModuleToModule", "(context.Context, string, string, sdk.Coins) error");
   ("SendCoinsFromModuleToAccount",
    "(context.Context, string, sdk.AccAddress, sdk.Coins) error")].
Definition treasury_BankKeeper : list Method :=
  [SpendableCoins;
   ("SendCoins", "(context.Context, sdk.AccAddress, sdk.AccAddress, sdk.Coins) error");
   ("GetAllBalances", "(context.Context, sdk.AccAddress) sdk.Coins");
   ("GetModuleAddress", "(string) sdk.AccAddress")].
Definition treasury_StakingKeeper : list Method :=
  [("ConsensusAddressCodec", "() address.Codec");
   ("ValidatorByConsAddr", "(context.Context, sdk.ConsAddress) (stakingtypes.ValidatorI, error)")].
Definition pricefeed_OracleKeeper : list Method :=
  [("SetCSVPerUSD", "(sdk.Context, math.LegacyDec) error")].
Definition osmosisicq_OracleKeeper : list Method :=
  [("SetCSVPerUSD", "(sdk.Context, math.LegacyDec) error");
   ("GetCSVPerUSD", "(sdk.Context) math.LegacyDec")].
Definition osmosisicq_ICQClient : list Method :=
  [("RegisterKVQuery", "(sdk.Context, string, string, []byte) (string, error)")].
Definition icqcontroller_KVResultConsumer : list Method :=
  [("OnKVResult", "(sdk.Context, string, []byte, []byte) error")].

(** ** The method sets of the keepers *)

(** [genesis.go] and [GetAuthority] of the module [name]. *)
Definition every_keeper (name : string) : list Method :=
  let gs := ("x/" ++ name ++ "/types.GenesisState")%string in
  [("InitGenesis", "(context.Context, " ++ gs ++ ") error");
   ("ExportGenesis", "(context.Context) (*" ++ gs ++ ", error)");
   ("GetAuthority", "() []byte")]%string.

Definition fees_methods : list Method := every_keeper "fees" ++
  [("ConvertUSDToCSV",
    "(sdk.Context, math.LegacyDec) (math.LegacyDec, *x/fees/types.PriceData, error)");
   ("GetFeeByType", "(sdk.Context, string) math.LegacyDec");
   ("DistributeFee",
    "(sdk.Context, sdk.AccAddress, string, sdk.Coin, map[string]interface{}) error");
   ("DistributeFeeFromModule",
    "(sdk.Context, string, string, sdk.Coin, map[string]interface{}) error")].
Definition token_methods : list Method := every_keeper "token" ++
  [("GetTokenMetadata", "(context.Context, string) (*x/token/types.TokenMetadata, error)");
   ("GetTokenCreator", "(context.Context, string) (sdk.AccAddress, error)");
   ("GetTokenCreatorBySymbol", "(context.Context, string) (sdk.AccAddress, error)");
   ("ChargeAndSplitFee", "(sdk.Context, sdk.AccAddress, math.LegacyDec) error");
   ("GetFeeInucsv", "(sdk.Context, math.LegacyDec) (sdk.Coin, error)");
   ("GetFeeByType", "(sdk.Context, string) math.LegacyDec");
   ("ChargeAndDistributeFeeByType",
    "(sdk.Context, sdk.AccAddress, string, map[string]interface{}) error")].
Definition oracle_methods : list Method := every_keeper "oracle" ++
  [("GetCSVPerUSD", "(sdk.Context) math.LegacyDec");
   ("SetCSVPerUSD", "(sdk.Context, math.LegacyDec) error");
   ("GetExchangeRate", "(sdk.Context, string) (math.LegacyDec, error)")].
Definition treasury_methods : list Method := every_keeper "treasury" ++
  [("LockRetailWalletReward", "(sdk.Context, sdk.AccAddress, sdk.Coin) error");
   ("ProcessUnlockedRewards", "(sdk.Context) error");
   ("DistributePOSPaymentReward", "(sdk.Context, sdk.Coin, sdk.AccAddress) error");
   ("GetModuleAddress", "(string) sdk.AccAddress");
   ("GetLockedRewardsByRecipient",
    "(sdk.Context, sdk.AccAddress) ([]x/treasury/keeper.LockedReward, error)");
   ("GetTotalLockedRewards", "(sdk.Context) (sdk.Coins, error)")].
Definition pricefeed_methods : list Method := every_keeper "pricefeed" ++
  [("RequestPriceData", "(context.Context, []string, string) error");
   ("IntegrateWithOracleModule", "(context.Context, []string) error");
   ("ProcessPriceResponse",
    "(context.Context, x/pricefeed/types.OracleResponsePacketData) error");
   ("TransmitOracleRequestPacket",
    "(context.Context, x/pricefeed/types.OracleRequestPacketData, string, string, clienttypes.Height, uint64) (uint64, error)");
   ("OnRecvOracleRequestPacket",
    "(context.Context, channeltypes.Packet, x/pricefeed/types.OracleRequestPacketData) (x/pricefeed/types.OracleRequestPacketAck, error)");
   ("OnAcknowledgementOracleRequestPacket",
    "(context.Context, channeltypes.Packet, x/pricefeed/types.OracleRequestPacketData, channeltypes.Acknowledgement) error");
   ("OnTimeoutOracleRequestPacket",
    "(context.Context, channeltypes.Packet, x/pricefeed/types.OracleRequestPacketData) error");
   ("TransmitOracleResponsePacket",
    "(context.Context, x/pricefeed/types.OracleResponsePacketData, string, string, clienttypes.Height, uint64) (uint64, error)");
   ("OnRecvOracleResponsePacket",
    "(context.Context, channeltypes.Packet, x/pricefeed/types.OracleResponsePacketData) (x/pricefeed/types.OracleResponsePacketAck, error)");
   ("OnAcknowledgementOracleResponsePacket",
    "(context.Context, channeltypes.Packet, x/pricefeed/types.OracleResponsePacketData, channeltypes.Acknowledgement) error");
   ("OnTimeoutOracleResponsePacket",
    "(context.Context, channeltypes.Packet, x/pricefeed/types.OracleResponsePacketData) error")].
Definition osmosisicq_methods : list Method := every_keeper "osmosisicq" ++
  [("OnKVResult", "(sdk.Context, string, []byte, []byte) error");
   ("ScheduleQueriesIfDue", "(sdk.Context) error");
   ("ValidateAndPersistPrice", "(sdk.Context, math.LegacyDec, math.LegacyDec) error");
   ("HandleTwapResult", "(sdk.Context, math.LegacyDec, math.LegacyDec) error");
   ("HandleSpotResult", "(sdk.Context, math.LegacyDec, math.LegacyDec) error")].
Definition icqcontroller_methods : list Method := every_keeper "icqcontroller" ++
  [("ExtractValueFromAckForTest", "(sdk.Context, []byte) ([]byte, error)");
   ("IBCKeeper", "() *ibckeeper.Keeper");
   ("SetActiveChannel", "(sdk.Context, string, string) error");
   ("RemoveActiveChannel", "(sdk.Context, string) error");
   ("GetChannelForConnection", "(sdk.Context, string) (string, bool)");
   ("SetPending", "(sdk.Context, string, uint64, string, []byte, string) error");
   ("GetPending", "(sdk.Context, string, uint64) (string, []byte, string, bool)");
   ("RemovePending", "(sdk.Context, string, uint64) error");
   ("HandlePacketAcknowledgement", "(sdk.Context, string, string, uint64, []byte) error");
   ("HandlePacketTimeout", "(sdk.Context, string, string, uint64) error");
   ("SendKVQuery", "(sdk.Context, string, string, []byte) (string, error)")].

(** ** Which types supply an input *)

Definition in_table {A} (l : list (string * A)) (t : string) : option A :=
  snd <$> List.find (λ '(u, _), String.eqb u t) l.

Definition interfaces : list (GoType * list Method) :=
  [("x/fees/types.FeesKeeper", fees_FeesKeeper);
   ("x/pricefeed/types.OracleKeeper", pricefeed_OracleKeeper);
   ("x/osmosisicq/types.OracleKeeper", osmosisicq_OracleKeeper);
   ("x/osmosisicq/types.ICQClient", osmosisicq_ICQClient);
   ("x/icqcontroller/types.KVResultConsumer", icqcontroller_KVResultConsumer);
   ("x/conversionpool/types.ConversionTokenKeeper", []);
   ("x/fees/types.BankKeeper", fees_BankKeeper);
   ("x/treasury/types.BankKeeper", treasury_BankKeeper);
   ("x/treasury/types.StakingKeeper", treasury_StakingKeeper)] ++
  ((λ m, ("x/" ++ m ++ "/types.AuthKeeper", auth_methods)%string) <$>
     ["fees"; "token"; "oracle"; "treasury"; "registry"; "conversionpool"; "cosvian";
      "pricefeed"; "osmosisicq"; "icqcontroller"]) ++
  ((λ m, ("x/" ++ m ++ "/types.BankKeeper", [SpendableCoins])%string) <$>
     ["oracle"; "registry"; "conversionpool"; "cosvian"; "pricefeed"; "osmosisicq";
      "icqcontroller"]).

(** The methods of a provided type: a pointer to a keeper has those of the keeper and
    [SetKVConsumer], an interface its own. The modules are collected in a map of one per
    module and supply no input. *)
Definition concrete : list (GoType * list Method) :=
  [("x/fees/keeper.Keeper", fees_methods); ("x/token/keeper.Keeper", token_methods);
   ("x/oracle/keeper.Keeper", oracle_methods);
   ("x/treasury/keeper.Keeper", treasury_methods);
   ("x/registry/keeper.Keeper", every_keeper "registry");
   ("x/conversionpool/keeper.Keeper", every_keeper "conversionpool");
   ("x/cosvian/keeper.Keeper", every_keeper "cosvian");
   ("x/pricefeed/keeper.Keeper", pricefeed_methods);
   ("x/osmosisicq/keeper.Keeper", osmosisicq_methods);
   ("x/icqcontroller/keeper.Keeper", icqcontroller_methods);
   ("*x/icqcontroller/keeper.Keeper", icqcontroller_methods ++
      [("SetKVConsumer", "(x/icqcontroller/types.KVResultConsumer)")])].

Section Suppliers.
(** The types of other packages that are provided and can be assigned to an input, and the
    methods of the interface [bankkeeper.Keeper] that x/token asks for. *)
Context (sdk_provides : GoType → list GoType) (bank_methods : list Method).

Definition interface_of (t : GoType) : option (list Method) :=
  if String.eqb t "bankkeeper.Keeper" then Some bank_methods else in_table interfaces t.
Definition methods_of (t : GoType) : option (list Method) :=
  match in_table concrete t with Some ms => Some ms | None => interface_of t end.

(** Assignability in Go: the same type, or an interface all of whose methods it has. *)
Definition assignable (u t : GoType) : bool :=
  String.eqb u t ||
  match interface_of t, methods_of u with
  | Some ms, Some us => forallb (λ m, bool_decide (m ∈ us)) ms
  | _, _ => false
  end.
Definition own_suppliers (provided : list GoType) (t : GoType) : list GoType :=
  List.filter (λ u, assignable u t) provided.
Definition suppliers (provided : list GoType) (t : GoType) : list GoType :=
  own_suppliers provided t ++ sdk_provides t.

(** An input is met when it has exactly one supplier, and that is at hand. *)
Definition met (provided available : list GoType) (i : Input) : Prop :=
  in_optional i = true ∨
  ∃ u, suppliers provided (in_type i) = [u] ∧ (u ∈ available ∨ sdk_provides (in_type i) = [u]).
(** The providers can be called one after the other. *)
Definition callable (order : list Provider) : Prop :=
  ∀ before p after, order = before ++ p :: after →
    Forall (met (order ≫= outputs) (before ≫= outputs)) (inputs p).
End Suppliers.

(** ** [app.go]: the keepers [New] takes out of the container *)
Definition injected : list GoType :=
  ["x/cosvian/keeper.Keeper"; "x/oracle/keeper.Keeper"; "x/token/keeper.Keeper";
   "x/token/keeper.Keeper"; "x/pricefeed/keeper.Keeper"; "x/registry/keeper.Keeper";
   "x/fees/keeper.Keeper"; "x/icqcontroller/keeper.Keeper"].

(** The registry after all packages are initialized, and the providers of the configured
    modules. *)
Section Configured.
Context {AC : AppConfig}.
Definition initialized : Registry :=
  fold_left (λ r '(t, p), Register r t p) registrations no_registration.
Definition chosen : list Provider :=
  omap (λ name, registered initialized (Module_of name)) configured.
End Configured.

(** What the repository's modules ask of each other, of IBC and of the SDK. *)
Definition own_inputs : list GoType :=
  ["x/oracle/keeper.Keeper"; "x/fees/types.FeesKeeper"; "x/pricefeed/types.OracleKeeper";
   "x/osmosisicq/types.OracleKeeper"; "x/osmosisicq/types.ICQClient";
   "*x/icqcontroller/keeper.Keeper"].
Definition ibc_inputs : list GoType := ["func() *ibckeeper.Keeper"; "*capabilitykeeper.ScopedKeeper"].
Definition sdk_inputs : list GoType :=
  ["store.KVStoreService"; "codec.Codec"; "address.Codec"; "bankkeeper.Keeper"] ++
  (imported ≫= λ m, [Module_of m; "x/" ++ m ++ "/types.AuthKeeper"]%string) ++
  ((λ m, "x/" ++ m ++ "/types.BankKeeper")%string <$> List.filter (λ m, negb (String.eqb m "token")) imported).

(** The SDK's container offers each module its configuration, its store and the codecs;
    x/auth and x/bank provide one keeper each that has the methods asked for. None of its
    types implements an interface of the repository's own modules. x/bank's keeper can
    mint, as x/token uses it. *)
Record SdkWiring (sdk_provides : GoType → list GoType) (bank_methods : list Method) : Prop := {
  sdk_one t : t ∈ sdk_inputs → ∃ u, sdk_provides t = [u];
  sdk_none t : t ∈ own_inputs → sdk_provides t = [];
  bank_mints : ("MintCoins", "(context.Context, string, sdk.Coins) error") ∈ bank_methods
}.

(** ** The registry *)
Section RegistryLaws.
Context {AC : AppConfig} {L : AppConfigLaws}.

(** The last registration of a type counts. *)
Lemma registered_fold l r t :
  registered (fold_left (λ r '(u, p), Register r u p) l r) t =
  match List.find (λ '(u, _), String.eqb u t) (List.rev l) with
  | Some (_, p) => Some p
  | None => registered r t
  end.
Proof using L.
  revert r. induction l as [|[u p] l IH]; intros r; [done|]. cbn [fold_left List.rev].
  rewrite IH. clear IH. induction (List.rev l) as [|[u' p'] l' IH']; cbn.
  - rewrite registered_Register. destruct (String.eqb_spec u t) as [->|Hn].
    + by rewrite bool_decide_true.
    + by rewrite bool_decide_false.
  - destruct (String.eqb u' t); [done|exact IH'].
Qed.
Lemma initialized_lookup t :
  registered initialized t =
  match List.find (λ '(u, _), String.eqb u t) (List.rev registrations) with
  | Some (_, p) => Some p
  | None => None
  end.
Proof using L.
  unfold initialized. rewrite registered_fold. by rewrite registered_none.
Qed.

Definition last_registered (t : GoType) : option Provider :=
  match List.find (λ '(u, _), String.eqb u t) (List.rev registrations) with
  | Some (_, p) => Some p
  | None => None
  end.
Lemma chosen_last : chosen = omap (λ name, last_registered (Module_of name)) configured.
Proof using L.
  unfold chosen. induction configured as [|x l IH]; [done|]. cbn.
  rewrite initialized_lookup. fold (last_registered (Module_of x)).
  destruct (last_registered (Module_of x)); by rewrite <-IH.
Qed.
Lemma chosen_providers :
  chosen = [cosvian_provider; token_provider; oracle_provider; pricefeed_provider;
            registry_provider; fees_provider; async_provider; icqcontroller_provider].
Proof using L. rewrite chosen_last. vm_compute. reflexivity. Qed.
End RegistryLaws.

(** ** Suppliers *)
Section SupplierLaws.
Context (sdk_provides : GoType → list GoType) (bank_methods : list Method).
Context (W : SdkWiring sdk_provides bank_methods).
#[local] Abbreviation own := (own_suppliers bank_methods).
#[local] Abbreviation is_met := (met sdk_provides bank_methods).

Lemma met_sdk provided available t :
  own provided t = [] → t ∈ sdk_inputs → is_met provided available (need t).
Proof using W.
  intros Ho Ht. right. destruct (sdk_one _ _ W t Ht) as [u Hu]. exists u.
  unfold suppliers. cbn [need in_type]. rewrite Ho, Hu. auto.
Qed.
Lemma met_own provided available t u :
  own provided t = [u] → t ∈ own_inputs → u ∈ available → is_met provided available (need t).
Proof using W.
  intros Ho Ht Hu. right. exists u. unfold suppliers. cbn [need in_type].
  rewrite Ho, (sdk_none _ _ W t) by done. auto.
Qed.

(** A type without a method to mint is not x/bank's keeper. *)
Definition minting : Method := ("MintCoins", "(context.Context, string, sdk.Coins) error").
Definition mints (u : GoType) : bool :=
  String.eqb u "bankkeeper.Keeper" ||
  match in_table concrete u with
  | Some us => bool_decide (minting ∈ us)
  | None => match in_table interfaces u with
    | Some us => bool_decide (minting ∈ us)
    | None => false
    end
  end.
Lemma not_all_methods (us : list Method) :
  bool_decide (minting ∈ us) = false → forallb (λ m, bool_decide (m ∈ us)) bank_methods = false.
Proof using W.
  intros Hm%bool_decide_eq_false_1. apply not_true_iff_false. intros Hf.
  rewrite forallb_forall in Hf. apply Hm, (bool_decide_eq_true_1 _), Hf.
  apply list_elem_of_In, (bank_mints _ _ W).
Qed.
Lemma not_bank u : mints u = false → assignable bank_methods u "bankkeeper.Keeper" = false.
Proof using W.
  unfold mints, assignable, methods_of. intros [Hu Hm]%orb_false_iff. rewrite Hu.
  change (interface_of bank_methods "bankkeeper.Keeper") with (Some bank_methods).
  unfold interface_of. rewrite Hu. cbv beta iota.
  destruct (in_table concrete u) as [us|]; [by apply not_all_methods|].
  destruct (in_table interfaces u) as [us|]; [by apply not_all_methods|done].
Qed.
Lemma no_bank provided :
  forallb (λ u, negb (mints u)) provided = true → own provided "bankkeeper.Keeper" = [].
Proof using W.
  unfold own_suppliers. induction provided as [|u l IH]; cbn [forallb List.filter]; [done|].
  intros [Hu%negb_true_iff Hl]%andb_true_iff. by rewrite (not_bank u Hu), IH.
Qed.

(** Checking an order of calls. *)
Fixpoint callable_from (provided : list GoType) (before order : list Provider) : Prop :=
  match order with
  | [] => True
  | p :: rest => Forall (is_met provided (before ≫= outputs)) (inputs p) ∧
      callable_from provided (before ++ [p]) rest
  end.
Lemma callable_from_spec provided before order :
  callable_from provided before order →
  ∀ l p rest, order = l ++ p :: rest →
    Forall (is_met provided ((before ++ l) ≫= outputs)) (inputs p).
Proof.
  revert before. induction order as [|q order IH]; intros before Hc l p rest He; [by destruct l|].
  destruct Hc as [Hq Hc]. destruct l as [|x l]; simplify_eq/=.
  - by rewrite app_nil_r.
  - specialize (IH _ Hc l p rest eq_refl). by rewrite <-app_assoc in IH.
Qed.
Lemma callable_by_check order :
  callable_from (order ≫= outputs) [] order → callable sdk_provides bank_methods order.
Proof. intros H before p after He. by apply (callable_from_spec _ [] order H before p after). Qed.

Ltac check_inputs :=
  lazymatch goal with
  | |- met _ _ _ _ (optional _) => by left
  | |- met _ _ _ _ (need "bankkeeper.Keeper") =>
      apply met_sdk; [apply no_bank; vm_compute; reflexivity
                     |apply (bool_decide_eq_true_1 _); vm_compute; reflexivity]
  | |- _ => first
      [ apply met_sdk; [vm_compute; reflexivity
                       |apply (bool_decide_eq_true_1 _); vm_compute; reflexivity]
      | eapply met_own; [vm_compute; reflexivity
                        |apply (bool_decide_eq_true_1 _); vm_compute; reflexivity
                        |apply (bool_decide_eq_true_1 _); vm_compute; reflexivity] ]
  end.

Definition order_now : list Provider :=
  [oracle_provider; fees_provider; cosvian_provider; token_provider; registry_provider;
   icqcontroller_provider; async_provider; pricefeed_provider].
Lemma now_callable : callable sdk_provides bank_methods order_now.
Proof using W.
  apply callable_by_check. cbn [order_now callable_from app]. split_and!; [..|done].
  all: repeat (apply Forall_cons; split; [check_inputs|]). all: apply Forall_nil_2.
Qed.

(** The same with the provider that the later registration displaces. *)
Definition order_both : list Provider :=
  [oracle_provider; fees_provider; cosvian_provider; token_provider; registry_provider;
   icqcontroller_provider; async_provider; osmosisicq_provider; pricefeed_provider].
Lemma both_callable : callable sdk_provides bank_methods order_both.
Proof using W.
  apply callable_by_check. cbn [order_both callable_from app]. split_and!; [..|done].
  all: repeat (apply Forall_cons; split; [check_inputs|]). all: apply Forall_nil_2.
Qed.

(** Every keeper is a conversion pool's token keeper, whose interface is empty. *)
Lemma conversionpool_ambiguous provided t u :
  t ∈ provided → u ∈ provided → t ≠ u → is_Some (in_table concrete t) →
  is_Some (in_table concrete u) →
  ¬ met sdk_provides bank_methods provided provided
      (need "x/conversionpool/types.ConversionTokenKeeper").
Proof.
  intros Ht Hu Hn [ts Hts] [us Hus] [Ho|(v & Hv & _)]; [done|].
  assert (Hin : ∀ x xs, x ∈ provided → in_table concrete x = Some xs → x = v).
  { intros x xs Hx Hxs. cut (x ∈ [v]); [intros [->|Hf]%elem_of_cons; [done|by apply elem_of_nil in Hf]|].
    rewrite <-Hv. unfold suppliers. apply elem_of_app. left.
    apply list_elem_of_In, filter_In. split; [by apply list_elem_of_In|].
    unfold assignable, methods_of. rewrite Hxs.
    apply orb_true_iff. right. reflexivity. }
  apply Hn. rewrite (Hin t ts), (Hin u us); done.
Qed.
End SupplierLaws.

(** C19 (functional). Wiring. Suppose the SDK gives each module its configuration, its store,
    the codecs and one keeper each of x/auth and x/bank, and that a later registration of a
    configuration type replaces an earlier one. Then each configured module of the
    repository is built by its own provider, except x/osmosisicq: the file
    [icq_async_provider.go] registers a second provider for it after [depinject.go], so
    the application has neither its [AppModule] nor its keeper, and no provider asks for
    the client that is provided instead. The other providers can be called one after the
    other, every required input having exactly one supplier; this would hold just as well
    with x/osmosisicq's own provider. No module of the repository
    supplies IBC's keeper or a scoped keeper, and all keepers that [app.New] takes out of the
    container are there. *)
Theorem wiring `{AppConfigLaws} sdk_provides bank_methods :
  SdkWiring sdk_provides bank_methods →
  let provided := (chosen ≫= outputs) in
  (∀ name f p, inits name = [(f, p)] → name ∈ configured →
     registered initialized (Module_of name) = Some p) ∧
  registered initialized (Module_of "osmosisicq") = Some async_provider ∧
  ((AppModule_of "osmosisicq" ∉ provided) ∧ ("x/osmosisicq/keeper.Keeper" ∉ provided) ∧
   Forall (λ p, ¬ "x/osmosisicq/types.ICQClient" ∈ map in_type (inputs p)) chosen) ∧
  (∃ order, order ≡ₚ chosen ∧ callable sdk_provides bank_methods order) ∧
  (∃ order, order ≡ₚ osmosisicq_provider :: chosen ∧
     callable sdk_provides bank_methods order) ∧
  (∀ t, t ∈ ibc_inputs → own_suppliers bank_methods provided t = []) ∧
  injected ⊆ provided.
Proof.
  intros W. cbv zeta. rewrite chosen_providers. split_and!.
  - intros name f p Hi Hc. rewrite initialized_lookup. unfold configured in Hc.
    repeat (apply elem_of_cons in Hc as [->|Hc]); [..|by apply elem_of_nil in Hc].
    all: try discriminate Hi. all: cbv in Hi; simplify_eq; vm_compute; reflexivity.
  - rewrite initialized_lookup. vm_compute. reflexivity.
  - apply (bool_decide_eq_true_1 _). vm_compute. reflexivity.
  - apply (bool_decide_eq_true_1 _). vm_compute. reflexivity.
  - apply (bool_decide_eq_true_1 _). vm_compute. reflexivity.
  - exists order_now. split; [|by apply now_callable]. unfold order_now. solve_Permutation.
  - exists order_both. split; [|by apply both_callable]. unfold order_both. solve_Permutation.
  - intros t Ht. unfold ibc_inputs in Ht. rewrite !elem_of_cons, elem_of_nil in Ht.
    destruct Ht as [->|[->|Ht]]; [vm_compute; reflexivity..|done].
  - apply (bool_decide_eq_true_1 _). vm_compute. reflexivity.
Qed.

(** ** A registry and an SDK for which this holds *)
#[local] Instance list_registry : AppConfig := {|
  Registry := list (GoType * Provider);
  no_registration := [];
  Register r t p := (t, p) :: r;
  registered r t := in_table r t
|}.
#[local] Instance list_registry_laws : AppConfigLaws.
Proof.
  constructor; [done|]. intros r t p t'. cbn. unfold in_table. cbn.
  destruct (String.eqb_spec t t') as [->|Hn]; [by rewrite bool_decide_true|].
  by rewrite bool_decide_false.
Qed.
Definition small_sdk (t : GoType) : list GoType :=
  if bool_decide (t ∈ sdk_inputs) then ["sdk." ++ t]%string else [].
Lemma small_sdk_ok : SdkWiring small_sdk [minting].
Proof.
  constructor.
  - intros t Ht. exists ("sdk." ++ t)%string. unfold small_sdk. by rewrite bool_decide_true.
  - intros t Ht. unfold small_sdk. rewrite bool_decide_false; [done|].
    assert (Hd : Forall (λ t, t ∉ sdk_inputs) own_inputs)
      by (apply (bool_decide_eq_true_1 _); vm_compute; reflexivity).
    rewrite Forall_forall in Hd. by apply Hd.
  - by left.
Qed.
Theorem wiring_witness :
  (AppModule_of "osmosisicq" ∉ (chosen ≫= outputs)) ∧ injected ⊆ (chosen ≫= outputs).
Proof.
  destruct (wiring small_sdk [minting] small_sdk_ok) as (_ & _ & (H & _) & _ & _ & _ & Hi).
  split; [exact H|exact Hi].
Defined.
