(* ===== verification/Startup.v ===== *)
(** * The start of the application

    [New] of [src/app/app.go] with [registerIBCModules] ([ibc.go]) and
    [registerWasmModules] ([wasm.go]): which fields of [App] are set and read, which
    stores, subspaces, modules and routes are registered, which handlers are installed,
    and what a failing call of a library leads to.  What the keepers are made of is not
    looked at; the constructors, the router, baseapp and the database are a class. *)

From Stdlib Require Import Strings.Ascii Strings.String.
From stdpp Require Import strings.
From S2P Require Import Prelude GoLib Sdk RefEnv World RefWorld Interfaces.
From S2P Require Import FeesAnte App Wiring.
From S2P Require Oracle.

Local Open Scope Z_scope.

(** ** What is not part of the repository *)

(** The calls that may fail, by what decides it: dependency injection, with the legacy
    subspaces it leaves behind; the registration of stores and modules; reading x/wasm's
    configuration (its simulation gas limit); the snapshot manager, if there is one; the
    checks of the proto files; loading the last version and pinning contracts; and each
    constructor of a keeper, module, subspace or stack, which may panic, by its name. *)
Class Library := {
  Inject : option error;
  injected_subspace : string → bool;
  RegisterStores_error : list string → option error;
  RegisterModules_error : list string → option error;
  ReadNodeConfig : option Z + error;
  SnapshotManager : bool;
  RegisterExtensions : option error;
  NewPostHandler : option error;
  MergedRegistry : option error;
  ValidateProtoAnnotations : option error;
  LoadVersion : option error;
  InitializePinnedCodes : option error;
  construct_panic : string → option string;
  (* panics: of a route, given the routes there are; of a second router; of a change of
     baseapp, given whether it is sealed *)
  AddRoute_panic : list string → string → option string;
  AddClientRoute_panic : list string → string → option string;
  SetRouter_panic : bool → option string;
  sealed_panic : bool → option string
}.
(** The names of routes consist of letters and digits. *)
Definition IsAlphaNumeric (s : string) : bool :=
  forallb (λ c, let n := nat_of_ascii c in
    ((48 <=? n)%nat && (n <=? 57)%nat) || ((65 <=? n)%nat && (n <=? 90)%nat) ||
    ((97 <=? n)%nat && (n <=? 122)%nat)) (list_ascii_of_string s).
Class LibraryLaws `{Library} : Prop := {
  AddRoute_new l name : name ∉ l → IsAlphaNumeric name = true → AddRoute_panic l name = None;
  AddClientRoute_new l name : name ∉ l → AddClientRoute_panic l name = None;
  SetRouter_first : SetRouter_panic false = None;
  not_sealed : sealed_panic false = None
}.

(** ** The application while it is built *)
Section Startup.
Context {E : Env} {OK : OracleKeeper E} {CH : AnteChain} {SA : SignerAccounts} {LB : Library}.
Context (ds : Decorators).

(** Fields of [App] that are set, store keys and subspaces registered by hand, the modules
    registered by hand, the routers, the handlers, whether the store is loaded, and what
    was read before it was there. *)
Record Boot := mkBoot {
  b_fields : list string;
  b_stores : list string;
  b_subspaces : list string;
  b_modules : list string;
  b_router : option (list string);
  b_router_v2 : option (list string);
  b_client_routes : list string;
  b_ante : option (AnteHandler (E := E));
  b_post : bool;
  b_init_chainer : bool;
  b_loaded : bool;
  b_missing : list string
}.
Definition over_fields (f : list string → list string) (b : Boot) : Boot :=
  mkBoot (f (b_fields b)) (b_stores b) (b_subspaces b) (b_modules b) (b_router b)
    (b_router_v2 b) (b_client_routes b) (b_ante b) (b_post b) (b_init_chainer b) (b_loaded b) (b_missing b).
Definition over_stores (f : list string → list string) (b : Boot) : Boot :=
  mkBoot (b_fields b) (f (b_stores b)) (b_subspaces b) (b_modules b) (b_router b)
    (b_router_v2 b) (b_client_routes b) (b_ante b) (b_post b) (b_init_chainer b) (b_loaded b) (b_missing b).
Definition over_subspaces (f : list string → list string) (b : Boot) : Boot :=
  mkBoot (b_fields b) (b_stores b) (f (b_subspaces b)) (b_modules b) (b_router b)
    (b_router_v2 b) (b_client_routes b) (b_ante b) (b_post b) (b_init_chainer b) (b_loaded b) (b_missing b).
Definition over_modules (f : list string → list string) (b : Boot) : Boot :=
  mkBoot (b_fields b) (b_stores b) (b_subspaces b) (f (b_modules b)) (b_router b)
    (b_router_v2 b) (b_client_routes b) (b_ante b) (b_post b) (b_init_chainer b) (b_loaded b) (b_missing b).
Definition over_router (f : option (list string) → option (list string)) (b : Boot) : Boot :=
  mkBoot (b_fields b) (b_stores b) (b_subspaces b) (b_modules b) (f (b_router b))
    (b_router_v2 b) (b_client_routes b) (b_ante b) (b_post b) (b_init_chainer b) (b_loaded b) (b_missing b).
Definition over_router_v2 (f : option (list string) → option (list string)) (b : Boot) : Boot :=
  mkBoot (b_fields b) (b_stores b) (b_subspaces b) (b_modules b) (b_router b) (f
    (b_router_v2 b)) (b_client_routes b) (b_ante b) (b_post b) (b_init_chainer b) (b_loaded b) (b_missing b).
Definition over_client_routes (f : list string → list string) (b : Boot) : Boot :=
  mkBoot (b_fields b) (b_stores b) (b_subspaces b) (b_modules b) (b_router b)
    (b_router_v2 b) (f (b_client_routes b)) (b_ante b) (b_post b) (b_init_chainer b) (b_loaded b) (b_missing b).
Definition over_ante (f : option (AnteHandler (E := E)) → option (AnteHandler (E := E))) (b : Boot) : Boot :=
  mkBoot (b_fields b) (b_stores b) (b_subspaces b) (b_modules b) (b_router b)
    (b_router_v2 b) (b_client_routes b) (f (b_ante b)) (b_post b) (b_init_chainer b) (b_loaded b) (b_missing b).
Definition over_post (f : bool → bool) (b : Boot) : Boot :=
  mkBoot (b_fields b) (b_stores b) (b_subspaces b) (b_modules b) (b_router b)
    (b_router_v2 b) (b_client_routes b) (b_ante b) (f (b_post b)) (b_init_chainer b) (b_loaded b) (b_missing b).
Definition over_init_chainer (f : bool → bool) (b : Boot) : Boot :=
  mkBoot (b_fields b) (b_stores b) (b_subspaces b) (b_modules b) (b_router b)
    (b_router_v2 b) (b_client_routes b) (b_ante b) (b_post b) (f (b_init_chainer b)) (b_loaded b) (b_missing b).
Definition over_loaded (f : bool → bool) (b : Boot) : Boot :=
  mkBoot (b_fields b) (b_stores b) (b_subspaces b) (b_modules b) (b_router b)
    (b_router_v2 b) (b_client_routes b) (b_ante b) (b_post b) (b_init_chainer b) (f (b_loaded b)) (b_missing b).
Definition over_missing (f : list string → list string) (b : Boot) : Boot :=
  mkBoot (b_fields b) (b_stores b) (b_subspaces b) (b_modules b) (b_router b)
    (b_router_v2 b) (b_client_routes b) (b_ante b) (b_post b) (b_init_chainer b) (b_loaded b) (f (b_missing b)).
Definition new_boot : Boot := mkBoot [] [] [] [] None None [] None false false false [].

Definition has (x : string) (l : list string) : bool := existsb (String.eqb x) l.
Definition missing (x : string) : stM Boot unit := modify (over_missing (λ l, l ++ [x])).
(** A field that is copied or passed on: unset, its zero value is. *)
Definition use (field : string) : stM Boot unit :=
  fs ← gets b_fields; if has field fs then mret tt else missing field.
(** A field that is a pointer or an interface and is followed. *)
Definition deref (field : string) : stM Boot unit :=
  fs ← gets b_fields;
  if has field fs then mret tt else panic "invalid memory address or nil pointer dereference".
Definition set (field : string) : stM Boot unit := modify (over_fields (λ l, l ++ [field])).
Definition uses (l : list string) : stM Boot unit := for_each l use.

Definition fallible (o : option error) : stM Boot unit :=
  match o with None => mret tt | Some e => throw e end.
Definition may_panic (o : option string) : stM Boot unit :=
  match o with None => mret tt | Some why => panic why end.

(** A constructor of another package, by its name. *)
Definition construct (name : string) : stM Boot unit := may_panic (construct_panic name).

(** *** Methods of [App]; those of [runtime.App] go through a pointer *)
Definition RegisterStores (keys : list string) : stM Boot unit :=
  deref "App";; fallible (RegisterStores_error keys);; modify (over_stores (λ l, l ++ keys)).
Definition RegisterModules (names : list string) : stM Boot unit :=
  deref "App";; fallible (RegisterModules_error names);;
  modify (over_modules (λ l, l ++ names)).
Definition SetAnteHandler (h : AnteHandler) : stM Boot unit :=
  deref "App";; loaded ← gets b_loaded; may_panic (sealed_panic loaded);;
  modify (over_ante (λ _, Some h)).
Definition SetPostHandler : stM Boot unit :=
  deref "App";; loaded ← gets b_loaded; may_panic (sealed_panic loaded);;
  modify (over_post (λ _, true)).
Definition GetKey (storeKey : string) : stM Boot unit :=
  deref "App";; ks ← gets b_stores;
  if has storeKey ks then mret tt else missing ("key " ++ storeKey)%string.
Definition GetSubspace (moduleName : string) : stM Boot unit :=
  use "ParamsKeeper";; ss ← gets b_subspaces;
  if has moduleName ss || injected_subspace moduleName
  then mret tt else missing ("subspace " ++ moduleName)%string.
(** A subspace with its key table. *)
Definition Subspace (name : string) : stM Boot unit :=
  use "ParamsKeeper";; construct ("subspace " ++ name)%string;;
  modify (over_subspaces (λ l, l ++ [name]));;
  construct ("key table " ++ name)%string.
(** The channel keeper of IBC's keeper, the routers of baseapp. *)
Definition ChannelKeeper : stM Boot unit := deref "IBCKeeper".
Definition MsgServiceRouter : stM Boot unit := deref "App".
Definition GRPCQueryRouter : stM Boot unit := deref "App".
(** [maybeRegisterICQStores], [registerICQAsync]: nothing, with the build tag and without. *)
Definition maybeRegisterICQStores : stM Boot unit := mret tt.
Definition registerICQAsync : stM Boot unit := mret tt.

Definition AddRoute (router : list string) (name : string) : stM Boot (list string) :=
  may_panic (AddRoute_panic router name);; mret (router ++ [name]).
Definition SetRouter (router : list string) : stM Boot unit :=
  deref "IBCKeeper";; old ← gets b_router;
  may_panic (SetRouter_panic (bool_decide (is_Some old)));;
  modify (over_router (λ _, Some router)).
Definition SetRouterV2 (router : list string) : stM Boot unit :=
  deref "IBCKeeper";; old ← gets b_router_v2;
  may_panic (SetRouter_panic (bool_decide (is_Some old)));;
  modify (over_router_v2 (λ _, Some router)).
Definition AddClientRoute (name : string) : stM Boot unit :=
  l ← gets b_client_routes;
  may_panic (AddClientRoute_panic l name);;
  modify (over_client_routes (λ l, l ++ [name])).

(** ** [wasm.go] *)
Definition setPostHandler : stM Boot unit := fallible NewPostHandler;; SetPostHandler.

Definition set_ante_handler (limit : option Z) : stM Boot unit :=
  deref "txConfig";;
  uses ["AuthKeeper"; "BankKeeper"; "FeeGrantKeeper"; "AuthKeeper"; "BankKeeper";
        "TokenKeeper"; "FeesKeeper"; "IBCKeeper"];;
  h ← lift (setAnteHandler ds limit);
  SetAnteHandler h.

Definition registerWasmModules : stM Boot unit :=
  construct "storetypes.NewKVStoreKey";;
  must (RegisterStores ["wasm"]) "RegisterStores";;
  wasmConfig ← (match ReadNodeConfig with
                | inl limit => mret limit
                | inr _ => throw (ErrText "error while reading wasm config")
                end);
  use "appCodec";; GetKey "wasm";;
  uses ["AuthKeeper"; "BankKeeper"; "StakingKeeper"; "DistrKeeper"];;
  ChannelKeeper;; ChannelKeeper;; use "TransferKeeper";;
  MsgServiceRouter;; GRPCQueryRouter;;
  construct "wasmkeeper.NewKeeper";; set "WasmKeeper";;
  uses ["appCodec"; "StakingKeeper"; "AuthKeeper"; "BankKeeper"];;
  MsgServiceRouter;; GetSubspace "wasm";;
  construct "wasm.NewAppModule";; RegisterModules ["wasm"];;
  use "txConfig";; GetKey "wasm";; set_ante_handler wasmConfig;;
  deref "App";;
  (if SnapshotManager
   then construct "wasmkeeper.NewWasmSnapshotter";;
        wrap_err (fallible RegisterExtensions) "failed to register snapshot extension"
   else mret tt);;
  setPostHandler;;
  fallible MergedRegistry;;
  fallible ValidateProtoAnnotations;;
  use "WasmKeeper";; ChannelKeeper;; ChannelKeeper;; construct "wasm.NewIBCHandler".

(** ** [ibc.go] *)
Definition registerIBCModules : stM Boot unit :=
  construct "storetypes.NewKVStoreKey";;
  RegisterStores ["ibc"; "transfer"; "icahost"; "icacontroller"];;
  maybeRegisterICQStores;;
  Subspace "ibc";; Subspace "transfer";; Subspace "icacontroller";; Subspace "icahost";;
  deref "AuthKeeper";;
  (* the IBC keeper *)
  use "appCodec";; GetKey "ibc";; GetSubspace "ibc";; use "UpgradeKeeper";;
  construct "ibckeeper.NewKeeper";; set "IBCKeeper";;
  (* the transfer keeper *)
  use "appCodec";; GetKey "transfer";; GetSubspace "transfer";;
  ChannelKeeper;; ChannelKeeper;; MsgServiceRouter;; uses ["AuthKeeper"; "BankKeeper"];;
  construct "ibctransferkeeper.NewKeeper";; set "TransferKeeper";;
  (* the keepers of interchain accounts *)
  use "appCodec";; GetKey "icahost";; GetSubspace "icahost";;
  ChannelKeeper;; ChannelKeeper;; use "AuthKeeper";; MsgServiceRouter;; GRPCQueryRouter;;
  construct "icahostkeeper.NewKeeper";; set "ICAHostKeeper";;
  use "appCodec";; GetKey "icacontroller";; GetSubspace "icacontroller";;
  ChannelKeeper;; ChannelKeeper;; MsgServiceRouter;;
  construct "icacontrollerkeeper.NewKeeper";; set "ICAControllerKeeper";;
  (* the stacks *)
  use "TransferKeeper";; construct "ibctransfer.NewIBCModule";;
  use "TransferKeeper";; construct "ibctransferv2.NewIBCModule";;
  use "ICAControllerKeeper";; construct "icacontroller.NewIBCMiddleware";;
  use "ICAHostKeeper";; construct "icahost.NewIBCModule";;
  (* the routers *)
  r ← AddRoute [] "transfer";
  r ← AddRoute r "icacontroller";
  r ← AddRoute r "icahost";
  r2 ← AddRoute [] "transfer";
  registerWasmModules;;
  r ← AddRoute r "wasm";
  uses ["appCodec"; "PricefeedKeeper"];;
  r ← AddRoute r "pricefeed";
  uses ["appCodec"; "IcqcontrollerKeeper"];;
  r ← AddRoute r "icqcontroller";
  registerICQAsync;;
  SetRouter r;; SetRouterV2 r2;;
  (* light clients *)
  deref "IBCKeeper";;
  use "appCodec";; construct "ibctm.NewLightClientModule";; AddClientRoute "07-tendermint";;
  use "appCodec";; construct "solomachine.NewLightClientModule";;
  AddClientRoute "06-solomachine";;
  use "IBCKeeper";; construct "ibc.NewAppModule";;
  use "TransferKeeper";; construct "ibctransfer.NewAppModule";;
  construct "icamodule.NewAppModule";; construct "ibctm.NewAppModule";;
  construct "solomachine.NewAppModule";;
  RegisterModules registered_ibc.

(** The map of [RegisterIBC]: the modules that the client side adds by hand. *)
Definition RegisterIBC_modules : list string :=
  ["ibc"; "transfer"; "interchainaccounts"; "07-tendermint"; "06-solomachine"; "wasm"].

(** ** [app.go] *)

(** The fields that [depinject.Inject] fills. *)
Definition injected_fields : list string :=
  ["appCodec"; "legacyAmino"; "txConfig"; "interfaceRegistry"; "AuthKeeper"; "BankKeeper";
   "StakingKeeper"; "SlashingKeeper"; "MintKeeper"; "DistrKeeper"; "GovKeeper";
   "UpgradeKeeper"; "AuthzKeeper"; "ConsensusParamsKeeper"; "CircuitBreakerKeeper";
   "ParamsKeeper"; "CosvianKeeper"; "OracleKeeper"; "TokenKeeper"; "FeeGrantKeeper";
   "TokenKeeper"; "PricefeedKeeper"; "RegistryKeeper"; "FeesKeeper"; "IcqcontrollerKeeper"].
Definition inject : stM Boot unit :=
  fallible Inject;;
  modify (over_fields (λ l, l ++ injected_fields)).

(** A nil handler, called. *)
Definition nil_handler : AnteHandler := λ _ _ _,
  panic "invalid memory address or nil pointer dereference".
(** The decorators for fees in front of the handler that is installed. *)
Definition install_fees : stM Boot unit :=
  uses ["FeesKeeper"; "OracleKeeper"];;
  use "FeesKeeper";;
  uses ["FeesKeeper"; "BankKeeper"];;
  uses ["AuthKeeper"; "BankKeeper"; "FeesKeeper"];;
  deref "App";; baseAnte ← gets b_ante;
  SetAnteHandler (customAnte (default nil_handler baseAnte)).

Definition New : stM Boot unit :=
  must inject "depinject.Inject";;
  construct "appBuilder.Build";; set "App";;
  deref "interfaceRegistry";; construct "osmosisicqtypes.RegisterInterfaces";;
  must registerIBCModules "registerIBCModules";;
  install_fees;;
  uses ["appCodec"; "AuthKeeper"];; construct "auth.NewAppModule";;
  deref "App";; construct "module.NewSimulationManagerFromAppModules";; set "sm";;
  deref "sm";; construct "RegisterStoreDecoders";;
  deref "App";; loaded ← gets b_loaded; may_panic (sealed_panic loaded);;
  modify (over_init_chainer (λ _, true));;
  must (fallible LoadVersion;; modify (over_loaded (λ _, true))) "Load";;
  use "WasmKeeper";;
  must (fallible InitializePinnedCodes) "InitializePinnedCodes".

(** ** What [New] comes to *)

(** The constructors that the three functions call. *)
Definition wasm_constructors : list string :=
  ["storetypes.NewKVStoreKey"; "wasmkeeper.NewKeeper"; "wasm.NewAppModule"; "wasm.NewIBCHandler"].
Definition ibc_constructors : list string :=
  ["storetypes.NewKVStoreKey";
   "subspace ibc"; "key table ibc"; "subspace transfer"; "key table transfer";
   "subspace icacontroller"; "key table icacontroller"; "subspace icahost"; "key table icahost";
   "ibckeeper.NewKeeper"; "ibctransferkeeper.NewKeeper"; "icahostkeeper.NewKeeper";
   "icacontrollerkeeper.NewKeeper"; "ibctransfer.NewIBCModule"; "ibctransferv2.NewIBCModule";
   "icacontroller.NewIBCMiddleware"; "icahost.NewIBCModule";
   "ibctm.NewLightClientModule"; "solomachine.NewLightClientModule";
   "ibc.NewAppModule"; "ibctransfer.NewAppModule"; "icamodule.NewAppModule";
   "ibctm.NewAppModule"; "solomachine.NewAppModule"].
Definition app_constructors : list string :=
  ["appBuilder.Build"; "osmosisicqtypes.RegisterInterfaces"; "auth.NewAppModule";
   "module.NewSimulationManagerFromAppModules"; "RegisterStoreDecoders"].
Definition constructed (names : list string) : Prop :=
  Forall (λ name, construct_panic name = None) names.

(** No call of a library fails. *)
Record library_ok (limit : option Z) : Prop := {
  lib_inject : Inject = None;
  lib_stores_ibc : RegisterStores_error ["ibc"; "transfer"; "icahost"; "icacontroller"] = None;
  lib_stores_wasm : RegisterStores_error ["wasm"] = None;
  lib_config : ReadNodeConfig = inl limit;
  lib_modules_wasm : RegisterModules_error ["wasm"] = None;
  lib_snapshots : SnapshotManager = true →
    construct_panic "wasmkeeper.NewWasmSnapshotter" = None ∧ RegisterExtensions = None;
  lib_post : NewPostHandler = None;
  lib_registry : MergedRegistry = None;
  lib_annotations : ValidateProtoAnnotations = None;
  lib_modules_ibc : RegisterModules_error
    ["ibc"; "transfer"; "interchainaccounts"; "07-tendermint"; "06-solomachine"] = None;
  lib_load : LoadVersion = None;
  lib_pinned : InitializePinnedCodes = None;
  lib_app : constructed app_constructors;
  lib_ibc : constructed ibc_constructors;
  lib_wasm : constructed wasm_constructors
}.

(** The application that [New] returns. *)
Definition started (limit : option Z) : Boot := {|
  b_fields := injected_fields ++
    ["App"; "IBCKeeper"; "TransferKeeper"; "ICAHostKeeper"; "ICAControllerKeeper";
     "WasmKeeper"; "sm"];
  b_stores := ["ibc"; "transfer"; "icahost"; "icacontroller"; "wasm"];
  b_subspaces := ["ibc"; "transfer"; "icacontroller"; "icahost"];
  b_modules := registered_wasm ++ registered_ibc;
  b_router := Some ibc_routes;
  b_router_v2 := Some ["transfer"];
  b_client_routes := ["07-tendermint"; "06-solomachine"];
  b_ante := Some (customAnte (ChainAnteDecorators (chained ds limit)));
  b_post := true;
  b_init_chainer := true;
  b_loaded := true;
  b_missing := if injected_subspace "wasm" then [] else ["subspace wasm"]
|}.

Lemma must_run {A} (m : stM Boot A) why s s' a :
  m s = (s', Ok a) → must m why s = (s', Ok a).
Proof. intros H. unfold must, attempt, mbind, stM_bind. by rewrite H. Qed.

Section Run.
Context {LL : LibraryLaws}.

Lemma setAnteHandler_eq limit :
  setAnteHandler ds limit = Ok (ChainAnteDecorators (chained ds limit)).
Proof. reflexivity. Qed.

Ltac fresh_route :=
  match goal with
  | |- context [AddRoute_panic ?l ?n] =>
      rewrite (AddRoute_new l n) by
        (first [reflexivity | apply (bool_decide_eq_true_1 _); vm_compute; reflexivity])
  | |- context [AddClientRoute_panic ?l ?n] =>
      rewrite (AddClientRoute_new l n) by
        (apply (bool_decide_eq_true_1 _); vm_compute; reflexivity)
  | |- context [SetRouter_panic false] => rewrite SetRouter_first
  | |- context [sealed_panic false] => rewrite not_sealed
  end.
Ltac reduce :=
  lazy -[customAnte setAnteHandler ChainAnteDecorators chained nil_handler Inject
    injected_subspace RegisterStores_error RegisterModules_error ReadNodeConfig
    SnapshotManager RegisterExtensions NewPostHandler MergedRegistry
    ValidateProtoAnnotations LoadVersion InitializePinnedCodes AddRoute_panic
    AddClientRoute_panic SetRouter_panic sealed_panic construct_panic].
(** Constructors that are known to succeed, as equations. *)
Ltac built :=
  unfold constructed, app_constructors, ibc_constructors, wasm_constructors in *;
  repeat match goal with
  | H : Forall _ (_ :: _) |- _ => apply Forall_cons in H as [? H]; cbv beta in *
  | H : Forall _ [] |- _ => clear H
  end.
(** What the library answers is known: rewrite, and go on. *)
Ltac answer :=
  match goal with
  | |- _ => fresh_route
  | |- context [setAnteHandler] => rewrite setAnteHandler_eq
  | H : ?x = _ |- context [?x] => rewrite H
  end.
(** One call on a known state. *)
Ltac call := reduce; first [reflexivity | answer; call].
Ltac calls := repeat (eapply eq_trans; [eapply bind_run; call|]); call.

Definition before_wasm : Boot := {|
  b_fields := injected_fields ++
    ["App"; "IBCKeeper"; "TransferKeeper"; "ICAHostKeeper"; "ICAControllerKeeper"];
  b_stores := ["ibc"; "transfer"; "icahost"; "icacontroller"];
  b_subspaces := ["ibc"; "transfer"; "icacontroller"; "icahost"];
  b_modules := []; b_router := None; b_router_v2 := None; b_client_routes := [];
  b_ante := None; b_post := false; b_init_chainer := false; b_loaded := false;
  b_missing := []
|}.
Definition after_wasm (limit : option Z) : Boot := {|
  b_fields := b_fields before_wasm ++ ["WasmKeeper"];
  b_stores := b_stores before_wasm ++ ["wasm"];
  b_subspaces := b_subspaces before_wasm;
  b_modules := ["wasm"]; b_router := None; b_router_v2 := None; b_client_routes := [];
  b_ante := Some (ChainAnteDecorators (chained ds limit));
  b_post := true; b_init_chainer := false; b_loaded := false;
  b_missing := if injected_subspace "wasm" then [] else ["subspace wasm"]
|}.
Lemma registerWasmModules_runs limit :
  library_ok limit → registerWasmModules before_wasm = (after_wasm limit, Ok tt).
Proof using LL.
  intros [? ? ? ? ? ? ? ? ? ? ? ? ? ? ?]. built. unfold registerWasmModules, after_wasm.
  destruct SnapshotManager eqn:Hs; [destruct (lib_snapshots0 eq_refl)|clear lib_snapshots0];
    destruct (injected_subspace "wasm") eqn:Hw.
  all: calls.
Qed.

Definition before_ibc : Boot := {|
  b_fields := injected_fields ++ ["App"]; b_stores := []; b_subspaces := [];
  b_modules := []; b_router := None; b_router_v2 := None; b_client_routes := [];
  b_ante := None; b_post := false; b_init_chainer := false; b_loaded := false;
  b_missing := []
|}.
Definition after_ibc (limit : option Z) : Boot := {|
  b_fields := b_fields (after_wasm limit);
  b_stores := b_stores (after_wasm limit);
  b_subspaces := b_subspaces before_wasm;
  b_modules := registered_wasm ++ registered_ibc;
  b_router := Some ibc_routes; b_router_v2 := Some ["transfer"];
  b_client_routes := ["07-tendermint"; "06-solomachine"];
  b_ante := Some (ChainAnteDecorators (chained ds limit));
  b_post := true; b_init_chainer := false; b_loaded := false;
  b_missing := if injected_subspace "wasm" then [] else ["subspace wasm"]
|}.
Lemma registerIBCModules_runs limit :
  library_ok limit → registerIBCModules before_ibc = (after_ibc limit, Ok tt).
Proof using LL.
  intros Hok. pose proof (registerWasmModules_runs limit Hok) as Hwasm. destruct Hok. built.
  unfold registerIBCModules.
  repeat (eapply eq_trans; [eapply bind_run; lazymatch goal with |- registerWasmModules _ = _ => exact Hwasm | _ => call end|]). call.
Qed.

Lemma New_runs limit : library_ok limit → New new_boot = (started limit, Ok tt).
Proof using LL.
  intros Hok. pose proof (registerIBCModules_runs limit Hok) as Hibc.
  apply (must_run _ "registerIBCModules") in Hibc. destruct Hok. built. unfold New.
  repeat (eapply eq_trans; [eapply bind_run; lazymatch goal with |- must registerIBCModules _ _ = _ => exact Hibc | _ => call end|]). call.
Qed.
End Run.

(** [New] returns only when every call succeeded. *)
Lemma fallible_ok o (s s' : Boot) u : fallible o s = (s', Ok u) → o = None.
Proof. by destruct o. Qed.
Lemma construct_ok name (s s' : Boot) u :
  construct name s = (s', Ok u) → construct_panic name = None.
Proof. unfold construct. by destruct (construct_panic name). Qed.
Ltac split_run := repeat
  match goal with
  | H : (_ ≫= _) _ = (_, Ok _) |- _ =>
      apply bind_ok_inv in H as (? & ? & ? & ?)
  | H : must _ _ _ = (_, Ok _) |- _ => apply must_ok_inv in H
  | H : wrap_err _ _ _ = (_, Ok _) |- _ => apply wrap_err_ok_inv in H
  | H : fallible _ _ = (_, Ok _) |- _ => apply fallible_ok in H
  | H : construct _ _ = (_, Ok _) |- _ => apply construct_ok in H
  | H : Subspace _ _ = (_, Ok _) |- _ => unfold Subspace in H
  | H : RegisterStores _ _ = (_, Ok _) |- _ => unfold RegisterStores in H
  | H : RegisterModules _ _ = (_, Ok _) |- _ => unfold RegisterModules in H
  | H : setPostHandler _ = (_, Ok _) |- _ => unfold setPostHandler in H
  end.
Lemma registerWasmModules_ok w w' u : registerWasmModules w = (w', Ok u) →
  RegisterStores_error ["wasm"] = None ∧ (∃ limit, ReadNodeConfig = inl limit) ∧
  RegisterModules_error ["wasm"] = None ∧
  (SnapshotManager = true → construct_panic "wasmkeeper.NewWasmSnapshotter" = None ∧
     RegisterExtensions = None) ∧
  NewPostHandler = None ∧ MergedRegistry = None ∧ ValidateProtoAnnotations = None ∧
  constructed wasm_constructors.
Proof.
  unfold registerWasmModules. intros H. split_run.
  split_and!; [assumption| |assumption| |assumption| assumption|assumption|].
  - destruct ReadNodeConfig as [limit|e]; [by exists limit|done].
  - destruct SnapshotManager; [|done]. intros _. split_run. by split.
  - by repeat constructor.
Qed.
Lemma registerIBCModules_ok w w' u : registerIBCModules w = (w', Ok u) →
  RegisterStores_error ["ibc"; "transfer"; "icahost"; "icacontroller"] = None ∧
  RegisterModules_error registered_ibc = None ∧ constructed ibc_constructors ∧
  ∃ v v', registerWasmModules v = (v', Ok tt).
Proof.
  unfold registerIBCModules. intros H. split_run. split_and!; [assumption|assumption|by repeat constructor|].
  match goal with H : registerWasmModules ?v = (?v', Ok ?a) |- _ => destruct a; by exists v, v' end.
Qed.
Lemma New_ok w w' u : New w = (w', Ok u) → ∃ limit, library_ok limit.
Proof.
  unfold New, inject. intros H. split_run.
  match goal with H : registerIBCModules _ = _ |- _ =>
    apply registerIBCModules_ok in H as (? & ? & ? & v & v' & Hw) end.
  apply registerWasmModules_ok in Hw as (? & [limit ?] & ? & ? & ? & ? & ? & ?).
  exists limit. constructor; try assumption. by repeat constructor.
Qed.

(** [New] has no error of its own: what fails, panics. *)
Definition no_error {A} (m : stM Boot A) : Prop := ∀ s s' e, m s ≠ (s', Err e).
Lemma no_error_bind {A B} (m : stM Boot A) (k : A → stM Boot B) :
  no_error m → (∀ a, no_error (k a)) → no_error (m ≫= k).
Proof.
  intros Hm Hk s s' e H. apply bind_err_inv in H as [H|(a & s1 & _ & H)];
    [by apply Hm in H|by apply Hk in H].
Qed.
Lemma no_error_must {A} (m : stM Boot A) why : no_error (must m why).
Proof. intros s s' e. unfold must, attempt, mbind, stM_bind. by destruct (m s) as [? [?|?|?]]. Qed.
Lemma no_error_for_each {A} (l : list A) (body : A → stM Boot unit) :
  (∀ x, no_error (body x)) → no_error (for_each l body).
Proof. intros Hb. induction l; simpl; [by intros ???|]. by apply no_error_bind. Qed.
Lemma no_error_if {A} (b : bool) (m m' : stM Boot A) :
  no_error m → no_error m' → no_error (if b then m else m').
Proof. by destruct b. Qed.
Lemma no_error_may_panic o : no_error (may_panic o).
Proof. by destruct o. Qed.
Ltac errorless := repeat first
  [ apply no_error_must | apply no_error_bind; [|intros ?] | apply no_error_for_each; intros ? | apply no_error_if
  | apply no_error_may_panic | by intros ??? ].
Lemma no_error_New : no_error New.
Proof.
  unfold New, install_fees, SetAnteHandler, uses, use, deref, set, missing, construct. errorless.
Qed.

(** C20 (functional). The start of the application. When every call of a library succeeds,
    [New] returns: IBC's router has the routes of the four protocols and of the
    repository's two modules, x/wasm's and IBC's modules are registered, as many as the
    client side adds by hand, and the ante handler is the one that charges fees in front
    of the chain that [wasm.go] installed, all of it before the store is loaded. Nothing
    that is used is unset, but for the legacy subspace of x/wasm, which nobody creates
    unless dependency injection does. When a call fails, or a constructor panics, [New]
    panics, and so it does in no other case. *)
Theorem New_spec {LL : LibraryLaws} :
  (∀ limit, library_ok limit → New new_boot = (started limit, Ok tt) ∧
     b_router (started limit) = Some ibc_routes ∧
     b_modules (started limit) ≡ₚ RegisterIBC_modules ∧
     b_ante (started limit) = Some (customAnte (ChainAnteDecorators (chained ds limit))) ∧
     (∀ x, x ∈ b_missing (started limit) → x = "subspace wasm")) ∧
  ((¬ ∃ limit, library_ok limit) ↔ ∃ w why, New new_boot = (w, Panic why)).
Proof.
  split.
  - intros limit H. split; [by apply New_runs|]. split_and!; [done| |done|].
    + apply (bool_decide_eq_true_1 _). vm_compute. reflexivity.
    + intros x. unfold started. cbn [b_missing]. destruct (injected_subspace "wasm").
      * by intros ?%elem_of_nil.
      * by intros [->|?%elem_of_nil]%elem_of_cons.
  - split.
    + intros Hn. destruct (New new_boot) as [w [u|e|why]] eqn:He.
      * destruct Hn. by apply New_ok in He.
      * by apply no_error_New in He.
      * by exists w, why.
    + intros (w & why & He) [limit H]. by rewrite (New_runs limit H) in He.
Qed.
End Startup.

(** ** A library in which everything succeeds *)
#[local] Existing Instance Oracle.oracle_keeper.
#[local] Existing Instance ref_chain.
#[local] Existing Instance ref_signers.
#[local] Instance easy_library : Library := {|
  Inject := None;
  injected_subspace := λ _, false;
  RegisterStores_error := λ _, None;
  RegisterModules_error := λ _, None;
  ReadNodeConfig := inl None;
  SnapshotManager := true;
  RegisterExtensions := None;
  NewPostHandler := None;
  MergedRegistry := None;
  ValidateProtoAnnotations := None;
  LoadVersion := None;
  InitializePinnedCodes := None;
  construct_panic := λ _, None;
  AddRoute_panic := λ l name,
    if negb (IsAlphaNumeric name) then Some "route expressions can only contain alphanumeric characters"
    else if bool_decide (name ∈ l) then Some "route has already been initialized" else None;
  AddClientRoute_panic := λ l name,
    if bool_decide (name ∈ l) then Some "route has already been registered" else None;
  SetRouter_panic := λ set, if set : bool then Some "cannot reset a sealed router" else None;
  sealed_panic := λ sealed, if sealed : bool then Some "baseapp is sealed" else None
|}.
#[local] Instance easy_library_laws : LibraryLaws.
Proof.
  constructor; cbn; [|by intros; rewrite bool_decide_false|done..].
  intros l name Hn ->. cbn. by rewrite bool_decide_false.
Qed.
Theorem New_spec_witness :
  ∃ w, New (E := ref_env) idle_decorators new_boot = (w, Ok tt) ∧ b_missing w = ["subspace wasm"].
Proof.
  destruct (New_spec (E := ref_env) idle_decorators) as [H _].
  destruct (H None) as [Hr _]; [by repeat constructor|].
  eexists. split; [exact Hr|reflexivity].
Defined.
