(* ===== verification/Services.v ===== *)
(** * Services, commands and simulation

    What the wrappers of the modules register beside their state: the methods of the Msg
    and Query services ([types/tx.pb.go], [types/query.pb.go]), the messages of
    [types/codec.go], the commands of [module/autocli.go], and the operations and genesis
    of a simulation ([module/simulation.go], [simulation/*.go]). *)

From Stdlib Require Import Strings.Ascii Strings.String.
From stdpp Require Import strings.
From S2P Require Import Prelude GoLib Sdk RefEnv World RefWorld Interfaces IbcTypes Modules.

Local Open Scope Z_scope.

(** ** Services *)

(** A method of a service: its request, with the names of the request's fields. *)
Record Rpc := { MethodName : string; Request : string; Fields : list string }.
Definition rpc (name request : string) (fields : list string) : Rpc :=
  {| MethodName := name; Request := request; Fields := fields |}.

Definition fees_Msg : list Rpc :=
  [rpc "UpdateParams" "MsgUpdateParams" ["authority"; "params"];
   rpc "ChargeFee" "MsgChargeFee" ["creator"; "category"; "amount"; "metadata"]].
Definition fees_Query : list Rpc :=
  [rpc "Params" "QueryParamsRequest" [];
   rpc "OraclePrice" "QueryOraclePriceRequest" []].
Definition token_Msg : list Rpc :=
  [rpc "UpdateParams" "MsgUpdateParams" ["authority"; "params"];
   rpc "Mint" "MsgMint" ["creator"; "to"; "amount"; "token_id"];
   rpc "Burn" "MsgBurn" ["creator"; "to"; "amount"; "token_id"];
   rpc "CreateToken" "MsgCreateToken" ["creator"; "name"; "symbol"; "decimals"; "initial_supply";
        "max_supply"; "mintable"; "pos_compatible"; "icon_uri"; "description"]].
Definition token_Query : list Rpc :=
  [rpc "Params" "QueryParamsRequest" [];
   rpc "TokenById" "QueryTokenByIdRequest" ["token_id"];
   rpc "TokenBySymbol" "QueryTokenBySymbolRequest" ["symbol"];
   rpc "TokensByCreator" "QueryTokensByCreatorRequest" ["creator"; "pagination"];
   rpc "AllTokens" "QueryAllTokensRequest" ["pagination"];
   rpc "TokenSupply" "QueryTokenSupplyRequest" ["denom"];
   rpc "TokenBalance" "QueryTokenBalanceRequest" ["address"; "denom"]].
Definition oracle_Msg : list Rpc :=
  [rpc "UpdateParams" "MsgUpdateParams" ["authority"; "params"];
   rpc "SetPrice" "MsgSetPrice" ["creator"; "denom"; "price"]].
Definition oracle_Query : list Rpc :=
  [rpc "Params" "QueryParamsRequest" []].
Definition treasury_Msg : list Rpc :=
  [rpc "UpdateParams" "MsgUpdateParams" ["authority"; "params"]].
Definition treasury_Query : list Rpc :=
  [rpc "Params" "QueryParamsRequest" []].
Definition registry_Msg : list Rpc :=
  [rpc "UpdateParams" "MsgUpdateParams" ["authority"; "params"]].
Definition registry_Query : list Rpc :=
  [rpc "Params" "QueryParamsRequest" []].
Definition conversionpool_Msg : list Rpc :=
  [rpc "UpdateParams" "MsgUpdateParams" ["authority"; "params"]].
Definition conversionpool_Query : list Rpc :=
  [rpc "Params" "QueryParamsRequest" []].
Definition cosvian_Msg : list Rpc :=
  [rpc "UpdateParams" "MsgUpdateParams" ["authority"; "params"]].
Definition cosvian_Query : list Rpc :=
  [rpc "Params" "QueryParamsRequest" []].
Definition pricefeed_Msg : list Rpc :=
  [rpc "UpdateParams" "MsgUpdateParams" ["authority"; "params"];
   rpc "SendOracleRequest" "MsgSendOracleRequest" ["oracle_script_id"; "calldata"; "symbols";
        "ask_count"; "min_count"; "fee_limit"; "prepare_gas"; "execute_gas"; "client_id";
             "creator"; "port"; "channelID"; "timeoutTimestamp"];
   rpc "SendOracleResponse" "MsgSendOracleResponse" ["request_id"; "prices"; "rates"; "error";
        "creator"; "port"; "channelID"; "timeoutTimestamp"]].
Definition pricefeed_Query : list Rpc :=
  [rpc "Params" "QueryParamsRequest" []].
Definition osmosisicq_Msg : list Rpc :=
  [rpc "UpdateParams" "MsgUpdateParams" ["authority"; "params"]].
Definition osmosisicq_Query : list Rpc :=
  [rpc "Params" "QueryParamsRequest" [];
   rpc "Status" "QueryStatusRequest" []].
Definition icqcontroller_Msg : list Rpc :=
  [rpc "UpdateParams" "MsgUpdateParams" ["authority"; "params"]].
Definition icqcontroller_Query : list Rpc :=
  [rpc "Params" "QueryParamsRequest" []].

(** ** [codec.go]: the messages registered as implementations of [sdk.Msg] *)
Definition fees_registered : list string :=
  ["MsgChargeFee"; "MsgUpdateParams"].
Definition token_registered : list string :=
  ["MsgCreateToken"; "MsgBurn"; "MsgMint"; "MsgUpdateParams"].
Definition oracle_registered : list string :=
  ["MsgSetPrice"; "MsgUpdateParams"].
Definition treasury_registered : list string :=
  ["MsgUpdateParams"].
Definition registry_registered : list string :=
  ["MsgUpdateParams"].
Definition conversionpool_registered : list string :=
  ["MsgUpdateParams"].
Definition cosvian_registered : list string :=
  ["MsgUpdateParams"].
Definition pricefeed_registered : list string :=
  ["MsgSendOracleResponse"; "MsgSendOracleRequest"; "MsgUpdateParams"].
Definition osmosisicq_registered : list string :=
  ["MsgUpdateParams"].
Definition icqcontroller_registered : list string :=
  ["MsgUpdateParams"].

(** ** [autocli.go] *)

(** The description of a command: the method it calls, how it is used, and the fields of
    the request that are given by position; or that there shall be no command. *)
Record RpcCommandOptions := {
  RpcMethod : string; Use : string; Skip : bool; PositionalArgs : list string
}.
Definition command (method use : string) (args : list string) : RpcCommandOptions :=
  {| RpcMethod := method; Use := use; Skip := false; PositionalArgs := args |}.
Definition skipped (method : string) : RpcCommandOptions :=
  {| RpcMethod := method; Use := ""; Skip := true; PositionalArgs := [] |}.
Record ModuleOptions := { Query : list RpcCommandOptions; Tx : list RpcCommandOptions }.

Definition fees_AutoCLIOptions : ModuleOptions := {|
  Query :=
    [command "Params" "params" [];
     command "OraclePrice" "oracle-price " []];
  Tx :=
    [skipped "UpdateParams";
     command "ChargeFee" "charge-fee [category] [amount] [metadata]"
     ["category"; "amount"; "metadata"]]
|}.
Definition token_AutoCLIOptions : ModuleOptions := {|
  Query :=
    [command "Params" "params" []];
  Tx :=
    [skipped "UpdateParams";
     command "Mint" "mint [to] [amount]"
     ["to"; "amount"];
     command "Burn" "burn [to] [amount]"
     ["to"; "amount"];
     command "CreateToken"
       ("create-token [name] [symbol] [decimals] [initial-supply] [max-supply]" ++
       " [mintable] [pos-compatible] [icon-uri] [description]")%string
     ["name"; "symbol"; "decimals"; "initial_supply"; "max_supply"; "mintable"; "pos_compatible";
          "icon_uri"; "description"]]
|}.
Definition oracle_AutoCLIOptions : ModuleOptions := {|
  Query :=
    [command "Params" "params" []];
  Tx :=
    [skipped "UpdateParams";
     command "SetPrice" "set-price [denom] [price]"
     ["denom"; "price"]]
|}.
Definition treasury_AutoCLIOptions : ModuleOptions := {|
  Query :=
    [command "Params" "params" []];
  Tx :=
    [skipped "UpdateParams"]
|}.
Definition registry_AutoCLIOptions : ModuleOptions := {|
  Query :=
    [command "Params" "params" []];
  Tx :=
    [skipped "UpdateParams"]
|}.
Definition conversionpool_AutoCLIOptions : ModuleOptions := {|
  Query :=
    [command "Params" "params" []];
  Tx :=
    [skipped "UpdateParams"]
|}.
Definition cosvian_AutoCLIOptions : ModuleOptions := {|
  Query :=
    [command "Params" "params" []];
  Tx :=
    [skipped "UpdateParams"]
|}.
Definition pricefeed_AutoCLIOptions : ModuleOptions := {|
  Query :=
    [command "Params" "params" []];
  Tx :=
    [skipped "UpdateParams"]
|}.
Definition osmosisicq_AutoCLIOptions : ModuleOptions := {|
  Query :=
    [command "Params" "params" [];
     command "Status" "status" []];
  Tx :=
    [skipped "UpdateParams"]
|}.
Definition icqcontroller_AutoCLIOptions : ModuleOptions := {|
  Query :=
    [command "Params" "params" []];
  Tx :=
    [skipped "UpdateParams"]
|}.

(** The modules: services, registered messages, commands. *)
Definition services : list (list Rpc * list Rpc * list string * ModuleOptions) :=
  [(fees_Msg, fees_Query, fees_registered, fees_AutoCLIOptions);
   (token_Msg, token_Query, token_registered, token_AutoCLIOptions);
   (oracle_Msg, oracle_Query, oracle_registered, oracle_AutoCLIOptions);
   (treasury_Msg, treasury_Query, treasury_registered, treasury_AutoCLIOptions);
   (registry_Msg, registry_Query, registry_registered, registry_AutoCLIOptions);
   (conversionpool_Msg, conversionpool_Query, conversionpool_registered,
    conversionpool_AutoCLIOptions);
   (cosvian_Msg, cosvian_Query, cosvian_registered, cosvian_AutoCLIOptions);
   (pricefeed_Msg, pricefeed_Query, pricefeed_registered, pricefeed_AutoCLIOptions);
   (osmosisicq_Msg, osmosisicq_Query, osmosisicq_registered, osmosisicq_AutoCLIOptions);
   (icqcontroller_Msg, icqcontroller_Query, icqcontroller_registered,
    icqcontroller_AutoCLIOptions)].

(** *** What a description must satisfy *)

(** The words in brackets of a usage line. *)
Fixpoint brackets (open : option string) (s : string) : list string :=
  match s with
  | EmptyString => []
  | String c s' =>
      match open with
      | None => if Ascii.eqb c "[" then brackets (Some "") s' else brackets None s'
      | Some w => if Ascii.eqb c "]" then w :: brackets None s'
                  else brackets (Some (w ++ String c "")%string) s'
      end
  end.
(** The name of a field as usage lines write it. *)
Fixpoint dashed (s : string) : string :=
  match s with
  | EmptyString => EmptyString
  | String c s' => String (if Ascii.eqb c "_" then "-"%char else c) (dashed s')
  end.

(** The command calls a method of the service, its arguments are distinct fields of the
    request, and its usage line names them in their order. *)
Definition describes (service : list Rpc) (o : RpcCommandOptions) : Prop :=
  Exists (λ m, RpcMethod o = MethodName m ∧
    Forall (λ a, a ∈ Fields m) (PositionalArgs o) ∧ NoDup (PositionalArgs o) ∧
    brackets None (Use o) = map dashed (PositionalArgs o)) service.

#[local] Instance describes_dec service o : Decision (describes service o).
Proof. unfold describes. apply _. Defined.

(** ** Simulation *)

(** [AppParams.GetOrGenerate]: the weight that the parameters give under a key, or the
    one that is generated. *)
Class SimParams := { AppParams : Type; GetOrGenerate : AppParams → string → Z → Z }.
(** [simtypes.NoOpMsg]: an operation that sends nothing, with the reason. *)
Record OperationMsg := { op_route : string; op_name : string; op_comment : string }.

(** [SimulateMsgX]: an account is drawn, a message with it as creator is built and not
    sent. *)
Definition Simulate (moduleName msg comment : string) : OperationMsg :=
  {| op_route := moduleName; op_name := msg; op_comment := comment |}.
Definition SimulateMsgMint := Simulate "token" "MsgMint" "Mint simulation not implemented".
Definition SimulateMsgBurn := Simulate "token" "MsgBurn" "Burn simulation not implemented".
Definition SimulateMsgCreateToken :=
  Simulate "token" "MsgCreateToken" "CreateToken simulation not implemented".
Definition SimulateMsgChargeFee :=
  Simulate "fees" "MsgChargeFee" "ChargeFee simulation not implemented".
Definition SimulateMsgSetPrice :=
  Simulate "oracle" "MsgSetPrice" "SetPrice simulation not implemented".

Section Simulation.
Context {SP : SimParams}.
Implicit Types p : AppParams.

Definition token_WeightedOperations p : list (Z * OperationMsg) :=
  [(GetOrGenerate p "op_weight_msg_token" 100, SimulateMsgMint);
   (GetOrGenerate p "op_weight_msg_token" 100, SimulateMsgBurn);
   (GetOrGenerate p "op_weight_msg_token" 100, SimulateMsgCreateToken)].
Definition fees_WeightedOperations p : list (Z * OperationMsg) :=
  [(GetOrGenerate p "op_weight_msg_fees" 100, SimulateMsgChargeFee)].
Definition oracle_WeightedOperations p : list (Z * OperationMsg) :=
  [(GetOrGenerate p "op_weight_msg_oracle" 100, SimulateMsgSetPrice)].
(** The other modules have no operation. *)
Definition no_WeightedOperations p : list (Z * OperationMsg) := [].

(** The key of the weight is the module's, so that the operations of x/token always have
    the same weight. *)
Lemma token_one_weight p : ∃ w, map fst (token_WeightedOperations p) = [w; w; w].
Proof. by eexists. Qed.
End Simulation.

(** [GenerateGenesisState]: default parameters, and the port of a module that has one. *)
Section Genesis.
Context {E : Env}.
Definition GenerateGenesisState (m : AppModule E) : res string :=
  gs ← am_DefaultGenesis m;
  match Marshal m gs with
  | Err _ => Panic "MustMarshalJSON"
  | r => r
  end.
Lemma simulated_genesis m : GenerateGenesisState m = DefaultGenesis m.
Proof. reflexivity. Qed.
End Genesis.

(** ** Services and commands fit *)

(** Every module registers exactly the requests of its Msg service, once each. Every
    command calls a method of the service it belongs to, one command for a method at
    most; its positional arguments are distinct fields of the request, in the order in
    which the usage line names them. The only method that is denied
    a command is [UpdateParams], whose request names the authority. *)
Theorem commands_fit : Forall (λ '(msgs, queries, registered, o),
  registered ≡ₚ map Request msgs ∧ NoDup registered ∧
  Forall (λ c, (Skip c = true ∧ RpcMethod c = "UpdateParams") ∨
    (Skip c = false ∧ describes msgs c)) (Tx o) ∧
  Forall (λ c, Skip c = false ∧ describes queries c) (Query o) ∧
  NoDup (map RpcMethod (Tx o)) ∧ NoDup (map RpcMethod (Query o)) ∧
  Exists (λ m, MethodName m = "UpdateParams" ∧ "authority" ∈ Fields m) msgs ∧
  Exists (λ c, RpcMethod c = "UpdateParams" ∧ Skip c = true) (Tx o)) services.
Proof.
  unfold services. repeat (apply Forall_cons; split); [..|by apply Forall_nil].
  all: split_and!; apply (bool_decide_eq_true_1 _); vm_compute; reflexivity.
Qed.
