(* ===== verification/Commands.v ===== *)
(** * Commands

    [src/x/pricefeed/client/cli]: the commands that send packets, from their arguments to
    the message.  [src/cmd/cosviand/cmd/commands.go] and [root.go]: exporting the state, and
    the group of queries that is added by hand.  cobra, viper and the client of the SDK are
    parameters. *)

From Stdlib Require Import Strings.Ascii Strings.String.
From stdpp Require Import strings gmap.
From S2P Require Import Prelude GoLib Sdk World.
From S2P Require Pricefeed ZeroHeight.

Local Open Scope Z_scope.

(** ** The commands of x/pricefeed *)

(** What a command asks the client for: the signer, numbers in arguments, its flag, and
    the state of the light client behind a channel. *)
Record TxClient := mkTxClient {
  GetFromAddress : Slice + error;
  ToUint64E : string → Z + error;
  timeout_flag : Z + error;
  ClientState : string → string → unit + error;
  ConsensusTimestamp : string → string → Z + error
}.

Definition obind {A B} (x : A + error) (k : A → B + error) : B + error :=
  match x with inl a => k a | inr e => inr e end.

(** Ten minutes in nanoseconds. *)
Definition DefaultRelativePacketTimeoutTimestamp : Z := u64 (10 * minute).

Section PacketCommands.
Context {E : Env}.
Implicit Type c : TxClient.

(** Zero stands for no timeout; anything else is added to the time of the other chain. *)
Definition absolute_timeout c (port channel : string) : Z + error :=
  obind (timeout_flag c) (λ t,
  obind (ClientState c port channel) (λ _,
  obind (ConsensusTimestamp c port channel) (λ now,
  inl (if t =? 0 then 0 else u64 (now + t))))).

Definition CmdSendOracleRequest c (args : list string)
    : Pricefeed.MsgSendOracleRequest + error :=
  match args with
  | [srcPort; srcChannel; script; calldata; symbols; ask; min; feeLimit; prepare; execute;
     clientId] =>
      obind (GetFromAddress c) (λ from,
      obind (ToUint64E c script) (λ argOracleScriptId,
      obind (ToUint64E c ask) (λ argAskCount,
      obind (ToUint64E c min) (λ argMinCount,
      obind (ToUint64E c prepare) (λ argPrepareGas,
      obind (ToUint64E c execute) (λ argExecuteGas,
      obind (absolute_timeout c srcPort srcChannel) (λ timeoutTimestamp,
      inl (Pricefeed.mkMsgSendOracleRequest (AccAddressString from) srcPort srcChannel
        timeoutTimestamp
        (Pricefeed.mkOracleRequestPacketData argOracleScriptId calldata symbols argAskCount
           argMinCount feeLimit argPrepareGas argExecuteGas clientId)))))))))
  | _ => inr (ErrExt "accepts 11 arg(s)")
  end.

Definition CmdSendOracleResponse c (args : list string)
    : Pricefeed.MsgSendOracleResponse + error :=
  match args with
  | [srcPort; srcChannel; requestId; prices; rates; error] =>
      obind (GetFromAddress c) (λ from,
      obind (ToUint64E c requestId) (λ argRequestId,
      obind (absolute_timeout c srcPort srcChannel) (λ timeoutTimestamp,
      inl (Pricefeed.mkMsgSendOracleResponse (AccAddressString from) srcPort srcChannel
        timeoutTimestamp
        (Pricefeed.mkOracleResponsePacketData argRequestId prices rates error)))))
  | _ => inr (ErrExt "accepts 6 arg(s)")
  end.
End PacketCommands.

(** ** The query commands of x/osmosisicq

    The commands of the query group by name, if the root command has such a group. *)
Definition addOsmosisICQManualQueries (query : option (list string)) : option (list string) :=
  match query with
  | Some cmds => Some (cmds ++ ["osmosisicq"])
  | None => None
  end.
Definition ensureOsmosisICQQueryFallback (query : option (list string))
    : bool * option (list string) :=
  match query with
  | None => (false, None)
  | Some cmds =>
      if existsb (String.eqb "osmosisicq") cmds then (false, Some cmds)
      else (true, addOsmosisICQManualQueries query)
  end.

(** ** [appExport] *)
Section ExportCommand.
Context {K : ZeroHeight.StakingKeepers} {GenState Validators ConsensusParams : Type}.
Context (ExportGenesisForModules : list string → ZeroHeight.SdkState → GenState + error)
  (MarshalIndent : GenState → string + error)
  (WriteValidators : ZeroHeight.SdkState → Validators * option error)
  (GetConsensusParams : ZeroHeight.SdkState → ConsensusParams)
  (LastBlockHeight : ZeroHeight.SdkState → Z).
(** [app.New], with the latest state or without one, and the loading of a height. *)
Context (New : bool → stM ZeroHeight.SdkState unit)
  (LoadHeight : Z → stM ZeroHeight.SdkState unit).

(** [home] is the value of the option when it is a string. *)
Definition appExport (home : option string) (is_viper : bool) (height : Z)
    (forZeroHeight : bool) (jailAllowedAddrs modulesToExport : list string)
    : stM ZeroHeight.SdkState (ZeroHeight.ExportedApp * option error) :=
  if match home with Some h => String.eqb h "" | None => true end
  then throw (ErrText "application home not set")
  else if negb is_viper then throw (ErrText "appOpts is not viper.Viper")
  else
    (if height =? -1 then New true else (New false;; LoadHeight height));;
    ZeroHeight.ExportAppStateAndValidators ExportGenesisForModules MarshalIndent WriteValidators
      GetConsensusParams LastBlockHeight forZeroHeight jailAllowedAddrs modulesToExport.
End ExportCommand.

(** ** What they do *)

(** The group is there exactly once after the fallback, when there was at most one. *)
Lemma osmosisicq_queries cmds :
  NoDup cmds →
  ∃ cmds', (ensureOsmosisICQQueryFallback (Some cmds)).2 = Some cmds' ∧
           "osmosisicq" ∈ cmds' ∧ NoDup cmds' ∧ cmds `prefix_of` cmds'.
Proof.
  intros Hn. unfold ensureOsmosisICQQueryFallback.
  destruct (existsb (String.eqb "osmosisicq") cmds) eqn:He.
  - exists cmds. split; [done|]. apply existsb_exists in He as (x & Hx & ->%String.eqb_eq).
    split; [by apply list_elem_of_In|done].
  - exists (cmds ++ ["osmosisicq"]). split; [done|]. split; [set_solver|].
    split; [|by eexists]. apply NoDup_app. split; [done|]. split; [|apply NoDup_singleton].
    intros x Hx ->%list_elem_of_singleton. apply not_true_iff_false in He. apply He.
    apply existsb_exists. exists "osmosisicq". split; [by apply list_elem_of_In|done].
Qed.

Section Timeouts.
Context {E : Env} {L : EnvLaws E}.
Context {PC : IbcTypes.ProtoCodec Pricefeed.PricefeedPacketData}.

Lemma obind_inv {A B} (x : A + error) (k : A → B + error) b :
  obind x k = inl b → ∃ a, x = inl a ∧ k a = inl b.
Proof. destruct x; [by eexists|done]. Qed.
Lemma absolute_timeout_inv c port channel t :
  absolute_timeout c port channel = inl t →
  ∃ f now, timeout_flag c = inl f ∧ ConsensusTimestamp c port channel = inl now ∧
           t = if f =? 0 then 0 else u64 (now + f).
Proof.
  intros (f & Hf & H)%obind_inv. apply obind_inv in H as ([] & _ & H).
  apply obind_inv in H as (now & Hn & [= <-]). by exists f, now.
Qed.

(** A request sent with the flag zero is refused by the handler, whatever else it says. *)
Lemma no_timeout_refused ibc_fn c args msg ctx w :
  CmdSendOracleRequest c args = inl msg → timeout_flag c = inl 0 →
  ∃ e, Pricefeed.SendOracleRequest ibc_fn ctx msg w = (w, Err e).
Proof.
  intros H Hf. unfold CmdSendOracleRequest in H.
  repeat (destruct args as [|? args]; [done|]). destruct args; [|done].
  repeat match goal with H : obind _ _ = inl _ |- _ =>
    apply obind_inv in H as (? & ? & H) end. injection H as <-.
  match goal with H : absolute_timeout _ _ _ = inl _ |- _ =>
    apply absolute_timeout_inv in H as (f & now & Hf' & _ & ->) end.
  rewrite Hf in Hf'. injection Hf' as <-.
  unfold Pricefeed.SendOracleRequest, Pricefeed.check_message. simpl.
  destruct (StringToBytes _) as [b [e|]]; [by eexists|].
  destruct (String.eqb _ ""); [by eexists|]. destruct (String.eqb _ ""); by eexists.
Qed.
End Timeouts.
